(* ===== verification/_CoqProject ===== *)
-Q . S2P
Prelude.v
GoStd.v
External.v
Api.v
ApiV1beta1.v
Effects.v
Util.v
Naming.v
Auth.v
Scope.v
Example.v
Telemetry.v
Interfaces.v
Services.v
NetServices.v
VMService.v
VirtualMachine.v
VMOutcome.v
Machine.v
LoadBalancer.v
LBScaling.v
LBOutcome.v
Cluster.v
ClusterOutcome.v
Termination.v
ClusterDelete.v
ConversionParts.v
Conversion.v
ConversionRoundTrip.v
Registration.v
Protocol.v
VMProtocol.v
MachineProtocol.v
LBProtocol.v
Client.v
MachineClient.v
LBClient.v
ClusterClient.v
VMClient.v
System.v
Execution.v
WellFormed.v
Manager.v
Memory.v
CopyRules.v
DeepCopy.v
DeepCopyV1beta1.v
Sharing.v
