(* ===== verification/Prelude.v ===== *)
(** * Cluster API provider for Azure Stack HCI: root of the development

    The repository is a Kubernetes operator. Four controllers watch custom resources, call the
    MOC agent of an Azure Stack HCI (over gRPC, through moc-sdk-for-go) and the API server, and
    report in the status of the resources. The cluster controller makes the services of a
    cluster (network, group, key vault) and the load balancer resource; the load balancer
    controller makes the agent's load balancer and the virtual machine resources that run it;
    the machine controller makes the virtual machine resource of each machine; the virtual
    machine controller makes the network interface, the machine and the disk in the agent. The
    resources have two versions, which a webhook converts into each other. This library models
    the controllers with everything they call inside the repository, the conversions, and the
    process that starts them.

    ** How a program is modelled

    [prog S A] (below) is a Go function over the objects its scope points to: given an
    environment, the state and the trace of the calls made so far, it gives an outcome (a
    value, a panic or no fuel), the new state and the longer trace. [Effects.Call] has one
    constructor for each call that leaves the repository: API server, agent, event recorder,
    telemetry, environment variables, clock. The environment answers a call from all that
    happened before, and the theorems quantify over every environment, so that nothing is
    assumed of the API server and the agent, of failures, or of what others change between two
    calls. An error is a value ([Errors.error]), a nil pointer an [option], a nil dereference
    a panic. [deferred] is Go's defer with a named result, and also runs after a panic.
    [wp env m Q s t] says that the run of [m] ends in [Q]; [wp_step] and [wp_run] execute a
    program in a proof, [frame_step] bounds the calls it may make, [precedes P Q t] says that
    an event [Q] of a trace comes only after an event [P].

    The libraries the code calls (Cluster API conditions, controllerutil, apimachinery errors,
    moc errors, semver, fmt) are the class [External.Libs], with the documented behaviour that
    the theorems use in [External.LibLaws]; [External.Ref] is an instance with these laws, in
    which the witnesses run. Integers of type int32 are [Z] with the wrap-around of [GoInt].

    ** The files and what they model

    - [Prelude]: outcomes, programs, [wp], frames, traces, tactics, lemmas on lists.
    - [GoStd]: int32, errors, strings, base64 with its round trip, fmt verbs, sort.Sort.
    - [External], [Effects]: data, functions and calls of the libraries; CreateOrUpdate.
    - [Api], [ApiV1beta1]: the structs of api/v1beta2 and api/v1beta1, phases, constants.
    - [Util], [Naming], [Auth], [Scope]: pkg/util/util.go; cloud/defaults.go, cloud/errors.go
      and cloud/converters/vm.go; pkg/auth/auth.go; cloud/scope (a scope is a record of the
      objects it points to).
    - [Telemetry], [Interfaces]: cloud/telemetry/logutils.go with cloud/services/versions;
      cloud/interfaces.go, the interfaces as records of operations, with the Spec structs.
    - [Services], [NetServices], [VMService]: cloud/services/*, a Module per service.
    - [VirtualMachine] with [VMOutcome], [Machine], [LoadBalancer] with [LBScaling] and
      [LBOutcome], [Cluster] with [ClusterOutcome] and [ClusterDelete]: the controllers,
      controllers/azurestackhci*_{controller,reconciler,virtualmachine,annotations}.go. The
      first file of each has the handlers, the others its theorems.
    - [Termination]: the fuel of the one loop that has it is enough for whole handlers.
    - [Protocol], [VMProtocol], [MachineProtocol], [LBProtocol]: the protocol of the
      finalizers, an abstract specification of what a worker may do to a world it shares, with
      the rules to show that a trace follows it; the virtual machine, the machine and the load
      balancer controller do.
    - [Client] with [MachineClient], [VMClient], [LBClient], [ClusterClient]: what a controller
      writes of the objects of the others; [System], [Execution]: the state they share, and
      the executions of any number of workers of all four.
    - [WellFormed]: what the types and conventions ask of an object, kept by the controllers.
    - [ConversionParts], [Conversion], [ConversionRoundTrip]: api/v1beta1/conversion.go,
      zz_generated.conversion.go and *_conversion.go, and what survives a conversion.
    - [Registration]: the types and the conversions both versions register in the scheme,
      groupversion_info.go and RegisterConversions, up to the init function of the manager.
    - [Memory], [CopyRules]: a memory of variables with pointers and slices into them, and the
      rules for the blocks of a generated deep copy; [DeepCopy], [DeepCopyV1beta1]: the files
      zz_generated.deepcopy.go of both versions, with how each struct lies in memory;
      [Sharing]: what shares memory with what, in the copies and in the handler of the machine
      controller that relies on them.
    - [Manager]: cmd/manager/main.go with what the controllers and the webhooks register, the
      loggers, pkg/network and pkg/record; a program over calls of its own, [StartCall].
    - [Example]: an environment and objects for the witnesses.

    A definition has the name of the function, method or type it models, in a Module named
    after the package or the receiver; a part of a long function that is a definition of its
    own says so. What a handler changes is the state of its scope; the objects the code
    shares by pointer between a scope and its handler are one field.

    ** What the theorems show

    - Outcomes: when a resource is ready, with which conditions, result and error, on every
      branch ([VMOutcome.reconcileNormal_outcome], [Machine.machine_reconcileNormal_outcome],
      [LBOutcome.lb_reconcileNormal_outcome], [ClusterOutcome.cluster_reconcileNormal_outcome],
      [LBOutcome.reconcileStatus_phase], [ClusterDelete.cluster_Reconcile_closes]).
    - Order: what is deleted and in which order, and that a finalizer is given up only when
      nothing is left ([VirtualMachine.reconcileDelete_order], [LBOutcome.lb_reconcileDelete_spec],
      [ClusterDelete.cluster_reconcileDelete_spec], [Machine.machine_reconcileDelete_spec]);
      nothing is made before the finalizer is stored (the [Reconcile_finalizer_first] of every
      controller).
    - No leaks: [Protocol.step] says what users, other controllers and the worker for a key
      may do to the stored objects and to what they guard, and [Protocol.no_leak_step] that
      nothing is ever left without an object that holds the finalizer. Every call that a run
      of the virtual machine, the machine or the load balancer controller makes, interleaved
      with such steps of the others, is a step its worker may take
      ([VMProtocol.vm_controller_protocol], [MachineProtocol.machine_controller_protocol],
      [LBProtocol.lb_controller_protocol]). These rely on three things. The answers are within
      a contract, [Protocol.Answers], which the tables [vm_effect_of], [machine_effect_of] and
      [lb_effect_of] spell out per call; simulated worlds meet it. The others do not strip the
      finalizer from an object in use and do not move an object to another resource group.
      And the cluster of a load balancer keeps its group ([LBProtocol.steady_group]); when
      somebody edits it, the load balancer is lost ([LBProtocol.moved_group_leaks]).
    - The cached client: it may answer that an object is not found although it is stored, as
      the code knows. This is not assumed away: an object that is denied is out of sight of
      the protocol until CreateOrUpdate has been about it, and nothing is claimed of it
      meanwhile. A machine that is deleted then does leave its virtual machine object behind
      ([MachineProtocol.stale_not_found_orphans]).
    - Composition: a machine guards the virtual machine object of its name, that object guards
      what the agent has of it, and a load balancer object guards the agent's load balancer.
      [Execution.exec] lets any number of workers of all four controllers, at most one per
      controller and key, make their calls in any order, start and disappear at any point, and
      users and others act in between. Each worker is one of the others in the protocols that
      are not its own: it makes virtual machine and load balancer objects of its own cluster
      and place, changes them with the finalizers of the version it has read, and touches
      nothing in the agent that is not its own ([MachineClient.machine_Reconcile_client] and
      its three companions), while the API server refuses an update of an old version. So
      nothing of a load balancer that is gone is left, and of a machine that is gone neither
      its virtual machine object nor anything in the agent, unless the client had denied that
      object to the worker ([Execution.controllers_leave_nothing]). The contract is
      [Execution.system_allows]: clusters are where the keys say, and [System.changes] allows
      old reads, objects that are denied, failed writes that were applied, confirmed and
      unconfirmed deletes. Different keys have different places in the agent, and no machine
      has the name of a load balancer's replica ([System.NamingLaws]); a replica whose load
      balancer is gone still guards what the agent has of it. A simulated execution meets the
      contract and goes through the life of a load balancer with a replica and of a machine,
      whose worker is misled once, from their objects to their end.
    - Progress: a deletion whose requests are granted goes through in one run, whatever the
      others do within the protocol ([VMProtocol.vm_deletion_completes]).
    - Types: the objects the controllers patch stay well-formed: finalizers and condition
      types without duplicates, int32 counters and ports, phases that read back
      ([WellFormed.controllers_keep_well_formed]).
    - What is written: the specification of every virtual machine
      ([Machine.machine_vm_written]); resources are created only when they are missing and
      deleted only when owned ([NetServices.services_create_only_missing],
      [Services.groups_delete_owned_only]); the gates before a write.
    - Scaling: a run of the load balancer's replicas refines the relation
      [LBScaling.scaling_writes], one machine at a time, and the machine deleted is the one
      meant, whatever the order of the list; int32 bounds of the counts.
    - Termination: the loop that makes machines up to a maximum ends, with the replicas it is
      meant to make ([LBScaling.scale_up_to_max_spec]); the other loops run over lists.
    - Conversions: they never fail; what comes back from a trip through the other version is
      stated exactly ([ConversionRoundTrip]), with what it means for provisioned clusters;
      phases and the order by age read the same ([ConversionRoundTrip.versions_read_alike]).
      All 78 of them are registered, both ways, with the types
      ([Registration.init_complete]).
    - The process: the manager starts last, with every controller, webhook and check, or the
      process exits ([Manager.main_starts_complete]).
    - Memory: [DeepCopy] of every struct gives a value of its own, whatever is stored
      elsewhere later ([Sharing.deep_copies_independent], [Sharing.deep_copies_of_objects]).
      The rest of the library computes on values; where the machine controller fills in a
      virtual machine from pointers of the machine, its statements are followed in memory,
      with the result that is computed on values, and the objects share the array of the
      additional SSH keys only ([Sharing.machine_shares_keys_only]). The deep copies of
      apimachinery are parameters, assumed to copy.
    - Data: computer names, image references, network interfaces, annotations.

    Some theorems state behaviour that the code does not seem to intend: a new load balancer
    does not hold a cluster back ([ClusterOutcome.cluster_ready_without_endpoint]), its own
    virtual networks are not deleted ([Services.virtualnetworks_delete_foreign_only]), a
    machine of a load balancer panics where there are availability zones
    ([LBOutcome.load_balancer_machine_panics]), an upgrade at the largest replica count makes
    nothing ([LBScaling.GetMaxReplicas_overflow]), a change of a cluster's resource group
    loses its load balancer ([LBProtocol.moved_group_leaks]), an image by id needs a name and
    one by publisher no publisher ([VMService.generateImageReference_spec]).

    ** Bounds and fuel

    Every loop is a recursion over a list, except two. The loop of an upgrade
    ([LBController.scale_up_to_max]) runs with the number of missing replicas as fuel: each
    round adds one, so the loop ends before ([LBScaling.scale_up_to_max_spec]). The poll for
    detached volumes ([Effects.PollImmediate]) runs as often as the environment lets its
    interval elapse before its timeout: any number of rounds, always finite; running out of
    rounds is its timeout, not a lack of fuel.

    ** Not modelled

    The inside of the scheme, whose operations are parameters; pointers and aliasing outside of
    [Memory] to [Sharing], where objects are values; the lines a logger writes; the unused getters of cloud/scope;
    mocks. The patch helper of Cluster API is a call whose answer the environment chooses: a
    theorem speaks of the object that is sent, except in [Protocol], where [patch_effect] says
    what the code relies on. The cluster controller is a worker of [Execution] as a client
    of the others; its own finalizer has an order of deletion ([ClusterDelete]) but no
    protocol. The goroutine of Auth.UpdateLoginConfig is started as a call; its body is a definition. The empty list
    stands for the nil slice. *)
From stdpp Require Import prelude strings list.

(** ** Outcomes of a Go call

    A call returns a value, panics (a nil dereference, an index out of range), or, for the
    loops that are written with fuel, runs out of fuel; theorems show the fuel is enough. *)
Inductive outcome (A : Type) : Type :=
  | Ok (a : A)
  | Panic (why : string)
  | NoFuel.
Arguments Ok {A} a.
Arguments Panic {A} why.
Arguments NoFuel {A}.

Section Programs.
(** [E R] is the type of the calls that leave the repository (the Kubernetes API, the MOC
    agent, the event recorder, the environment variables) and answer with an [R]. *)
Context {E : Type → Type}.

Inductive event : Type :=
  | Ev {R : Type} (c : E R) (r : R).

(** The calls made so far, latest first. *)
Definition trace : Type := list event.

(** The world answers a call from everything that happened before. A theorem that
    quantifies over every [Env] holds for every API server, agent and interleaving of
    other actors between two calls. *)
Definition Env : Type := trace → ∀ R : Type, E R → R.

(** A computation over a local state [S] (the objects a scope points to). *)
Definition prog (S A : Type) : Type := Env → S → trace → outcome A * S * trace.

Definition ret {S A} (a : A) : prog S A := λ _ s t, (Ok a, s, t).
Definition panic {S A} (why : string) : prog S A := λ _ s t, (Panic why, s, t).
Definition nofuel {S A} : prog S A := λ _ s t, (NoFuel, s, t).

Definition bind {S A B} (m : prog S A) (k : A → prog S B) : prog S B :=
  λ env s t,
    match m env s t with
    | (Ok a, s', t') => k a env s' t'
    | (Panic why, s', t') => (Panic why, s', t')
    | (NoFuel, s', t') => (NoFuel, s', t')
    end.

Definition call {S R} (c : E R) : prog S R :=
  λ env s t, let r := env t R c in (Ok r, s, Ev c r :: t).

Definition gets {S A} (f : S → A) : prog S A := λ _ s t, (Ok (f s), s, t).
Definition modify {S} (f : S → S) : prog S unit := λ _ s t, (Ok tt, f s, t).

(** [x.y] where [x] may be a nil pointer. *)
Definition deref {S A} (p : option A) (what : string) : prog S A :=
  match p with Some a => ret a | None => panic what end.

(** [defer f()] around a body with a named result: [f] reads and may replace the result,
    and runs as well when the body panics (the zero result is then in place). *)
Definition deferred {S A} (zero : A) (f : A → prog S A) (m : prog S A) : prog S A :=
  λ env s t,
    match m env s t with
    | (Ok a, s', t') => f a env s' t'
    | (Panic why, s', t') =>
        match f zero env s' t' with
        | (Panic why', s2, t2) => (Panic why', s2, t2)
        | (_, s2, t2) => (Panic why, s2, t2)
        end
    | (NoFuel, s', t') => (NoFuel, s', t')
    end.

(** [for _, x := range l { body }], where [body] may return early with [Some r]. *)
Fixpoint for_each {S A R} (l : list A) (body : A → prog S (option R))
    : prog S (option R) :=
  match l with
  | [] => ret None
  | x :: l' =>
      bind (body x) (λ r,
        match r with Some v => ret (Some v) | None => for_each l' body end)
  end.

(** [for cond { body }] with a bound on the number of rounds. *)
Fixpoint while_loop {S R} (fuel : nat) (cond : prog S bool)
    (body : prog S (option R)) : prog S (option R) :=
  bind cond (λ b,
    if b then
      match fuel with
      | O => nofuel
      | S n => bind body (λ r,
          match r with Some v => ret (Some v) | None => while_loop n cond body end)
      end
    else ret None).

(** A run of [m] over a state of its own, which the caller does not see afterwards: the
    scope a handler builds, uses and closes. *)
Definition run_in {S S' A} (s0 : S') (m : prog S' A) : prog S A :=
  λ env s t, let '(o, _, t') := m env s0 t in (o, s, t').

(** A run of [m] on a part of the state: a pointer inside a larger structure. *)
Definition zoom {S S' A} (view : S → S') (upd : S' → S → S) (m : prog S' A)
    : prog S A :=
  λ env s t, let '(o, s', t') := m env (view s) t in (o, upd s' s, t').

(** ** Weakest preconditions *)
Definition wp {S A} (env : Env) (m : prog S A)
    (Q : outcome A → S → trace → Prop) (s : S) (t : trace) : Prop :=
  Q (m env s t).1.1 (m env s t).1.2 (m env s t).2.

(** ** Frames: what any run relates before and after *)
Definition frame {S A} (R : relation (S * trace)) (m : prog S A) : Prop :=
  ∀ env s t, R (s, t) ((m env s t).1.2, (m env s t).2).

(** A run only adds events that satisfy [P]. *)
Definition extends (P : event → Prop) {S} : relation (S * trace) :=
  λ x y, ∃ new, y.2 = new ++ x.2 ∧ Forall P new.

(** A run changes the state only as [R] allows. *)
Definition on_state {S} (R : relation S) : relation (S * trace) := λ x y, R x.1 y.1.

(** Every event that satisfies [Q] comes after one that satisfies [P]. *)
Definition precedes (P Q : event → Prop) (t : trace) : Prop :=
  ∀ later e earlier, t = later ++ e :: earlier → Q e → Exists P earlier.

(** *** The rules of the weakest preconditions *)
Section Wp.
Context {S : Type} (env : Env).

Lemma wp_elim {A} (m : prog S A) (Q : outcome A → S → trace → Prop) s t o s' t' :
  m env s t = (o, s', t') → wp env m Q s t → Q o s' t'.
Proof. unfold wp. by intros ->. Qed.
Lemma wp_ret {A} (a : A) Q (s : S) t : Q (Ok a) s t → wp env (ret a) Q s t.
Proof. done. Qed.
Lemma wp_panic {A} why (Q : outcome A → S → trace → Prop) (s : S) t :
  Q (Panic why) s t → wp env (panic why) Q s t.
Proof. done. Qed.
Lemma wp_bind {A B} (m : prog S A) (k : A → prog S B) Q (s : S) t :
  wp env m (λ o s' t',
    match o with
    | Ok a => wp env (k a) Q s' t'
    | Panic w => Q (Panic w) s' t'
    | NoFuel => Q NoFuel s' t'
    end) s t →
  wp env (bind m k) Q s t.
Proof.
  unfold wp, bind. destruct (m env s t) as [[[a|w|] s'] t']; simpl; auto.
Qed.
Lemma wp_call {R} (c : E R) Q (s : S) t :
  (∀ r, env t R c = r → Q (Ok r) s (Ev c r :: t)) → wp env (call c) Q s t.
Proof. unfold wp, call. simpl. auto. Qed.
Lemma wp_gets {A} (f : S → A) Q (s : S) t : Q (Ok (f s)) s t → wp env (gets f) Q s t.
Proof. done. Qed.
Lemma wp_modify f Q (s : S) t : Q (Ok tt) (f s) t → wp env (modify f) Q s t.
Proof. done. Qed.
Lemma wp_mono {A} (m : prog S A) (Q Q' : outcome A → S → trace → Prop) (s : S) t :
  wp env m Q s t → (∀ o s' t', Q o s' t' → Q' o s' t') → wp env m Q' s t.
Proof. unfold wp. auto. Qed.
Lemma wp_and {A} (m : prog S A) (Q Q' : outcome A → S → trace → Prop) (s : S) t :
  wp env m Q s t → wp env m Q' s t → wp env m (λ o s' t', Q o s' t' ∧ Q' o s' t') s t.
Proof. unfold wp. auto. Qed.
Lemma wp_deferred {A} (zero : A) f m Q (s : S) t :
  wp env m (λ o s' t',
    match o with
    | Ok a => wp env (f a) Q s' t'
    | Panic w => wp env (f zero) (λ o2 s2 t2,
        match o2 with Panic w' => Q (Panic w') s2 t2 | _ => Q (Panic w) s2 t2 end) s' t'
    | NoFuel => Q NoFuel s' t'
    end) s t →
  wp env (deferred zero f m) Q s t.
Proof.
  unfold wp, deferred. destruct (m env s t) as [[[a|w|] s'] t']; simpl; auto.
  by destruct (f zero env s' t') as [[[?|?|] ?] ?].
Qed.
Lemma wp_run_in {S' A} (s0 : S') (m : prog S' A) Q (s : S) t :
  wp env m (λ o _ t', Q o s t') s0 t → wp env (run_in s0 m) Q s t.
Proof. unfold wp, run_in. by destruct (m env s0 t) as [[? ?] ?]. Qed.
Lemma wp_zoom {S' A} view upd (m : prog S' A) Q (s : S) t :
  wp env m (λ o s' t', Q o (upd s' s) t') (view s) t → wp env (zoom view upd m) Q s t.
Proof. unfold wp, zoom. by destruct (m env (view s) t) as [[? ?] ?]. Qed.
(** What a run may change, brought into its postcondition. *)
Lemma wp_frame {A} R (m : prog S A) Q (s : S) t :
  frame R m →
  wp env m (λ o s' t', R (s, t) (s', t') → Q o s' t') s t → wp env m Q s t.
Proof. unfold wp, frame. auto. Qed.
Lemma wp_by_frame {A} R (m : prog S A) Q (s : S) t :
  frame R m → (∀ o s' t', R (s, t) (s', t') → Q o s' t') → wp env m Q s t.
Proof. unfold wp, frame. auto. Qed.
Lemma wp_of_frame {A} R (m : prog S A) (s : S) t :
  frame R m → wp env m (λ _ s' t', R (s, t) (s', t')) s t.
Proof. unfold wp, frame. auto. Qed.
(** A program whose frame is known, and which returns *)
Lemma wp_returns {A} R (m : prog S A) Q (s : S) t :
  frame R m → wp env m (λ o _ _, ∃ a, o = Ok a) s t →
  (∀ a s' t', R (s, t) (s', t') → Q (Ok a) s' t') → wp env m Q s t.
Proof.
  unfold wp, frame. intros HR [a Ha] HQ. rewrite Ha. apply HQ, HR.
Qed.
(** An invariant of the body is an invariant of the loop. *)
Lemma wp_for_each {A R} (I : S → trace → Prop) (l : list A)
    (body : A → prog S (option R)) (Q : outcome (option R) → S → trace → Prop) (s : S) t :
  I s t →
  (∀ x s t, x ∈ l → I s t →
     wp env (body x) (λ o s' t',
       match o with
       | Ok None => I s' t'
       | Ok (Some v) => Q (Ok (Some v)) s' t'
       | Panic w => Q (Panic w) s' t'
       | NoFuel => Q NoFuel s' t'
       end) s t) →
  (∀ s t, I s t → Q (Ok None) s t) →
  wp env (for_each l body) Q s t.
Proof.
  intros HI Hbody Hend. revert s t HI.
  induction l as [|x l IH]; intros s t HI; simpl.
  - apply wp_ret, Hend, HI.
  - apply wp_bind. eapply wp_mono; [apply Hbody; [left|exact HI]|].
    intros [[v|]|w|] s' t'; simpl; auto using wp_ret.
    intros HI'. apply IH; auto. intros; apply Hbody; auto. by right.
Qed.

(** *** Invariants: what every part of a program preserves *)
Definition preserves {A} (I : S → trace → Prop) (m : prog S A) : Prop :=
  ∀ s t, I s t → wp env m (λ _ s' t', I s' t') s t.
Section Preserves.
Context (I : S → trace → Prop).
Lemma preserves_ret {A} (a : A) : preserves I (ret a).
Proof. by intros s t HI. Qed.
Lemma preserves_gets {A} (f : S → A) : preserves I (gets f).
Proof. by intros s t HI. Qed.
Lemma preserves_bind {A B} (m : prog S A) (k : A → prog S B) :
  preserves I m → (∀ a, preserves I (k a)) → preserves I (bind m k).
Proof.
  intros Hm Hk s t HI. apply wp_bind. eapply wp_mono; [by apply Hm|].
  intros [a|w|] s' t' HI'; [by apply Hk|done..].
Qed.
Lemma preserves_for_each {A R} (l : list A) (body : A → prog S (option R)) :
  (∀ x, x ∈ l → preserves I (body x)) → preserves I (for_each l body).
Proof.
  intros Hb s t HI. eapply (wp_for_each I); [done| |done]. intros x s' t' Hx HI'.
  eapply wp_mono; [by apply Hb|]. by intros [[v|]|w|].
Qed.
Lemma preserves_while {R} n (c : prog S bool) (body : prog S (option R)) :
  preserves I c → preserves I body → preserves I (while_loop n c body).
Proof.
  intros Hc Hb. induction n as [|n IH]; simpl; (apply preserves_bind; [done|]);
    intros []; try (by intros s t HI).
  apply preserves_bind; [done|]. intros [v|]; [apply preserves_ret|done].
Qed.
Lemma preserves_frame {A} R (m : prog S A) :
  frame R m → (∀ s t s' t', R (s, t) (s', t') → I s t → I s' t') → preserves I m.
Proof. intros Hm HR s t HI. eapply wp_by_frame; [exact Hm|]. eauto. Qed.
End Preserves.
End Wp.
(** *** Frames compose *)
Section Frame.
Context {S : Type} (R : relation (S * trace)).

Lemma frame_ret `{!Reflexive R} {A} (a : A) : frame R (ret a).
Proof. intros ???. simpl. reflexivity. Qed.
Lemma frame_panic `{!Reflexive R} {A} why : frame R (panic (A:=A) why).
Proof. intros ???. simpl. reflexivity. Qed.
Lemma frame_nofuel `{!Reflexive R} {A} : frame R (nofuel (A:=A)).
Proof. intros ???. simpl. reflexivity. Qed.
Lemma frame_gets `{!Reflexive R} {A} (f : S → A) : frame R (gets f).
Proof. intros ???. simpl. reflexivity. Qed.
Lemma frame_deref `{!Reflexive R} {A} (p : option A) what : frame R (deref p what).
Proof. destruct p; [apply frame_ret|apply frame_panic]. Qed.
Lemma frame_bind `{!Transitive R} {A B} (m : prog S A) (k : A → prog S B) :
  frame R m → (∀ a, frame R (k a)) → frame R (bind m k).
Proof.
  intros Hm Hk env s t. specialize (Hm env s t). unfold bind.
  destruct (m env s t) as [[[a|w|] s'] t']; simpl in *; auto.
  etrans; [exact Hm|]. apply Hk.
Qed.
Lemma frame_deferred `{!Transitive R} {A} (zero : A) f m :
  frame R m → (∀ a, frame R (f a)) → frame R (deferred zero f m).
Proof.
  intros Hm Hf env s t. specialize (Hm env s t). unfold deferred.
  destruct (m env s t) as [[[a|w|] s'] t']; simpl in *; auto.
  - etrans; [exact Hm|]. apply Hf.
  - specialize (Hf zero env s' t').
    destruct (f zero env s' t') as [[[?|?|] ?] ?]; simpl in *; by etrans.
Qed.
Lemma frame_for_each `{!PreOrder R} {A Q} (l : list A) (body : A → prog S (option Q)) :
  (∀ x, x ∈ l → frame R (body x)) → frame R (for_each l body).
Proof.
  induction l as [|x l IH]; intros Hb; simpl; [apply frame_ret|].
  apply frame_bind; [apply Hb; left|].
  intros [v|]; [apply frame_ret|apply IH]. intros; apply Hb; by right.
Qed.
Lemma frame_while `{!PreOrder R} {Q} n (c : prog S bool) (body : prog S (option Q)) :
  frame R c → frame R body → frame R (while_loop n c body).
Proof.
  intros Hc Hb. induction n as [|n IH]; simpl; (apply frame_bind; [exact Hc|]);
    intros []; try apply frame_ret; [apply frame_nofuel|].
  apply frame_bind; [exact Hb|]. intros [v|]; [apply frame_ret|exact IH].
Qed.
End Frame.

Lemma frame_and {S A} (R R' : relation (S * trace)) (m : prog S A) :
  frame R m → frame R' m → frame (λ x y, R x y ∧ R' x y) m.
Proof. intros H H' env s t. split; auto. Qed.

#[export] Instance extends_preorder P S : PreOrder (extends P (S:=S)).
Proof.
  split.
  - intros [s t]. by exists [].
  - intros [s1 t1] [s2 t2] [s3 t3] (n1&H1&F1) (n2&H2&F2). simpl in *. subst.
    exists (n2 ++ n1). rewrite <-app_assoc. split; [done|]. by apply Forall_app.
Qed.
#[export] Instance on_state_preorder {S} (R : relation S) `{!PreOrder R} :
  PreOrder (on_state R).
Proof.
  unfold on_state. split; [intros x; reflexivity|].
  intros x y z Hxy Hyz. by etrans.
Qed.

Lemma extends_mono (P P' : event → Prop) {S} (x y : S * trace) :
  (∀ e, P e → P' e) → extends P x y → extends P' x y.
Proof. intros HP (n&?&?). exists n. split; [done|]. by eapply Forall_impl. Qed.
Lemma extends_and (P P' : event → Prop) {S} (x y : S * trace) :
  extends P x y → extends P' x y → extends (λ e, P e ∧ P' e) x y.
Proof.
  destruct x as [s t], y as [s' t']. intros (n&H1&F1) (n'&H2&F2). simpl in *. subst.
  apply app_inv_tail in H2 as ->. exists n'. split; [done|]. by apply Forall_and.
Qed.
Lemma extends_Exists {S} P' P (s s' : S) t t' :
  extends P' (s, t) (s', t') → Exists P t → Exists P t'.
Proof. intros (n&H&_) Hx. simpl in H. subst. apply Exists_app. by right. Qed.
Lemma extends_Forall {S} P (s s' : S) t t' :
  extends P (s, t) (s', t') → Forall P t → Forall P t'.
Proof. intros (n&H&?) Hx. simpl in H. subst. by apply Forall_app. Qed.
Lemma extends_trace {S S'} P (s s' : S) (s2 s2' : S') t t' :
  extends P (s, t) (s', t') → extends P (s2, t) (s2', t').
Proof. done. Qed.

Lemma frame_extends_mono (P P' : event → Prop) {S A} (m : prog S A) :
  (∀ e, P e → P' e) → frame (extends P) m → frame (extends P') m.
Proof. intros HP Hm env s t. eapply extends_mono; [exact HP|apply Hm]. Qed.
Lemma frame_extends_call (P : event → Prop) {S R} (c : E R) :
  (∀ r, P (Ev c r)) → frame (extends P (S:=S)) (call c).
Proof. intros Hc env s t. eexists [_]. split; [done|]. repeat constructor. apply Hc. Qed.
Lemma frame_extends_modify P {S} (f : S → S) : frame (extends P) (modify f).
Proof. intros env s t. by exists []. Qed.
Lemma frame_extends_run_in P {S S' A} (s0 : S') (m : prog S' A) :
  frame (extends P) m → frame (extends P (S:=S)) (run_in s0 m).
Proof.
  intros Hm env s t. specialize (Hm env s0 t). unfold run_in.
  by destruct (m env s0 t) as [[??]?].
Qed.
Lemma frame_extends_zoom P {S S' A} view upd (m : prog S' A) :
  frame (extends P) m → frame (extends P (S:=S)) (zoom view upd m).
Proof.
  intros Hm env s t. specialize (Hm env (view s) t). unfold zoom.
  by destruct (m env (view s) t) as [[??]?].
Qed.
Lemma frame_state_call {S} (R : relation S) `{!Reflexive R} {X} (c : E X) :
  frame (on_state R) (call c).
Proof. intros env s t. unfold on_state. simpl. reflexivity. Qed.
Lemma frame_state_modify {S} (R : relation S) f :
  (∀ s, R s (f s)) → frame (on_state R) (modify f).
Proof. intros Hf env s t. apply Hf. Qed.
Lemma frame_state_run_in {S S' A} (R : relation S) `{!Reflexive R} (s0 : S')
    (m : prog S' A) : frame (on_state R) (run_in s0 m).
Proof.
  intros env s t. unfold run_in, on_state.
  destruct (m env s0 t) as [[??]?]. simpl. reflexivity.
Qed.

(** *** Order of the events *)
(** Every event is right after what came before it. *)
Definition each (P : event → trace → Prop) (t : trace) : Prop :=
  ∀ later e earlier, t = later ++ e :: earlier → P e earlier.
Lemma each_nil P : each P [].
Proof. intros [|??] ? ? ?; by simplify_list_eq. Qed.
Lemma each_cons P e t : each P t → P e t → each P (e :: t).
Proof. intros Ht He [|x later] e' earlier Heq; simplify_list_eq; [done|]. by eapply Ht. Qed.
Lemma each_earlier P later t : each P (later ++ t) → each P t.
Proof. intros Ht l e earlier ->. apply (Ht (later ++ l)). by rewrite <-app_assoc. Qed.
(** The events of a run come after those before it. *)
Lemma each_above P new t :
  each P t → (∀ later e earlier, new = later ++ e :: earlier → P e (earlier ++ t)) →
  each P (new ++ t).
Proof.
  intros Ht. induction new as [|e new IH]; intros Hn; simpl; [done|]. apply each_cons.
  - apply IH. intros later e' earlier ->. by apply (Hn (e :: later)).
  - by apply (Hn []).
Qed.
Lemma each_app P new t : each P t → Forall (λ e, ∀ t, P e t) new → each P (new ++ t).
Proof.
  intros Ht Hn. apply each_above; [done|]. intros later e earlier ->.
  by apply Forall_app in Hn as [_ [He _]%Forall_cons].
Qed.
Lemma precedes_nil P Q : precedes P Q [].
Proof. intros [|??] ? ? ?; by simplify_list_eq. Qed.
Lemma precedes_cons P Q e t :
  precedes P Q t → (Q e → Exists P t) → precedes P Q (e :: t).
Proof.
  intros Ht He [|x later] e' earlier Heq HQ; simplify_list_eq; [auto|].
  by eapply Ht.
Qed.
Lemma precedes_app_not P Q new t :
  Forall (λ e, ¬ Q e) new → precedes P Q t → precedes P Q (new ++ t).
Proof. intros F Ht. induction F; simpl; [done|]. apply precedes_cons; [done|]. by intros. Qed.
Lemma precedes_not {S} P Q (s s' : S) t t' :
  extends (λ e, ¬ Q e) (s, t) (s', t') → precedes P Q t → precedes P Q t'.
Proof.
  intros (n&H&F) Ht. simpl in H. subst. by apply precedes_app_not.
Qed.
Lemma precedes_after {S} P Q P' (s s' : S) t t' :
  extends P' (s, t) (s', t') → Exists P t → precedes P Q t → precedes P Q t'.
Proof.
  intros (n&H&_) Hx Ht. simpl in H. subst. induction n; simpl; [done|].
  apply precedes_cons; [done|]. intros _. apply Exists_app. by right.
Qed.
Lemma precedes_above P Q new t :
  Exists P t → precedes P Q t → precedes P Q (new ++ t).
Proof.
  intros Hx Ht. eapply (precedes_after (S:=unit) P Q (λ _, True) () ()); [|done..].
  exists new. split; [done|]. by apply Forall_true.
Qed.
Lemma precedes_under P Q new t :
  precedes P Q new → Forall (λ e, ¬ Q e) t → precedes P Q (new ++ t).
Proof.
  intros Hn Ht later e earlier Heq HQ.
  apply app_eq_inv in Heq as [(k&->&Heq)|(k&->&Heq)].
  - destruct k as [|e' k]; simplify_list_eq.
    + subst. by apply Forall_cons in Ht as [? _].
    + apply Exists_app. left. by eapply Hn.
  - rewrite Forall_forall in Ht. exfalso. eapply Ht; [|exact HQ]. subst.
    apply elem_of_app. right. left.
Qed.
End Programs.

Arguments event : clear implicits.
Arguments trace : clear implicits.
Arguments Env : clear implicits.
Arguments prog : clear implicits.

(** ** Notations *)
Declare Scope prog_scope.
Delimit Scope prog_scope with prog.

Notation "x <- m ;; k" := (bind m (λ x, k))
  (at level 100, m at next level, right associativity) : prog_scope.
Notation "' p <- m ;; k" := (bind m (λ x, match x with p => k end))
  (at level 100, p pattern, m at next level, right associativity) : prog_scope.
Notation "m ;; k" := (bind m (λ _, k))
  (at level 100, right associativity) : prog_scope.
(** [if err := m; err != nil { early }; k] *)
Notation "'iferr' e '<-' m 'then' early ';;' k" :=
  (bind m (λ o, match o with Some e => early | None => k end))
  (at level 100, e name, m at next level, early at level 99, right associativity)
  : prog_scope.
(** [x, err := m; if err != nil { early }; k] for a callee that returns one or the other *)
Notation "'try' x '<-' m 'iferr' e 'then' early ';;' k" :=
  (bind m (λ r, match r with inl e => early | inr x => k end))
  (at level 100, x pattern, e name, m at next level, early at level 99,
   right associativity) : prog_scope.

(** ** Automation

    [wp_step] executes one instruction of a program under [wp] and splits on the branch the
    code takes; [frame_step] goes through the syntax of a program and leaves the calls whose
    event the frame does not obviously allow. The database [frames] holds what each
    component's operations may emit. *)
Create HintDb frames.

Ltac wp_step :=
  lazymatch goal with
  | |- wp _ (ret _) _ _ _ => apply wp_ret; cbv beta iota
  | |- wp _ (panic _) _ _ _ => apply wp_panic; cbv beta iota
  | |- wp _ (bind _ _) _ _ _ => apply wp_bind; cbv beta iota
  | |- wp _ (call _) _ _ _ =>
      apply wp_call; let r := fresh "r" in intros r ?;
      try (lazymatch type of r with unit => destruct r end); cbv beta iota
  | |- wp _ (gets _) _ _ _ => apply wp_gets; cbv beta iota
  | |- wp _ (modify _) _ _ _ => apply wp_modify; cbv beta iota
  | |- wp _ (deferred _ _ _) _ _ _ => apply wp_deferred; cbv beta iota
  | |- wp _ (run_in _ _) _ _ _ => apply wp_run_in; cbv beta iota
  | |- wp _ (zoom _ _ _) _ _ _ => apply wp_zoom; cbv beta iota
  | |- wp _ (deref ?p _) _ _ _ => unfold deref; destruct p eqn:?
  | |- wp _ (match ?x with _ => _ end) _ _ _ => destruct x eqn:?
  | |- wp _ ((match ?x with _ => _ end) _) _ _ _ => destruct x eqn:?
  | |- wp _ (let _ := _ in _) _ _ _ => cbv zeta
  end.
(** What a later file adds to the symbolic execution: the rules of its operations *)
Ltac wp_hook := fail.
Ltac wp_run := repeat first [wp_step | wp_hook].
(** As far as the program [f], which is left in place with what follows it *)
Ltac wp_run_to f :=
  repeat lazymatch goal with
    | |- wp _ f _ _ _ => fail
    | |- wp _ (bind f _) _ _ _ => fail
    | _ => first [wp_step | wp_hook]
    end.

Tactic Notation "frame_apply" uconstr(lem) :=
  apply lem; try (lazymatch goal with |- frame _ _ => fail | |- ∀ _, _ => fail | _ => apply _ end).
Ltac frame_step :=
  lazymatch goal with
  | |- frame _ (ret _) => frame_apply frame_ret
  | |- frame _ (panic _) => frame_apply frame_panic
  | |- frame _ nofuel => frame_apply frame_nofuel
  | |- frame _ (gets _) => frame_apply frame_gets
  | |- frame _ (deref _ _) => frame_apply frame_deref
  | |- frame _ (bind _ _) => frame_apply frame_bind; [|intros ?]
  | |- frame _ (deferred _ _ _) => frame_apply frame_deferred; [|intros ?]
  | |- frame _ (for_each _ _) => frame_apply frame_for_each; intros ? _
  | |- frame _ (while_loop _ _ _) => frame_apply frame_while
  | |- frame (extends _) (modify _) => frame_apply frame_extends_modify
  | |- frame (extends _) (run_in _ _) => frame_apply frame_extends_run_in
  | |- frame (extends _) (zoom _ _ _) => frame_apply frame_extends_zoom
  | |- frame (extends _) (call _) => frame_apply frame_extends_call; intros ?; cbn; try done
  | |- frame (on_state _) (modify _) => frame_apply frame_state_modify; intros ?; cbn; try done
  | |- frame (on_state _) (call _) => frame_apply frame_state_call
  | |- frame (on_state _) (run_in _ _) => frame_apply frame_state_run_in
  | |- frame _ (match ?x with _ => _ end) => destruct x
  | |- frame _ ((match ?x with _ => _ end) _) => destruct x
  | |- frame _ (let _ := _ in _) => cbv zeta
  end.

(** A call of a component's operation whose frame is in the database: the events it may emit
    are events this frame allows. *)
Ltac frame_known :=
  eapply frame_extends_mono; [|solve [eauto 2 with frames nocore]];
  let R := fresh in let c := fresh in let r := fresh in
  intros [R c r]; destruct c; cbn; try done.
Ltac frame_auto := repeat first [frame_step | solve [eauto 2 with frames nocore] | frame_known].

(** An invariant goes through the syntax of a program, too. *)
Ltac preserve_step :=
  lazymatch goal with
  | |- preserves _ _ (ret _) => apply preserves_ret
  | |- preserves _ _ (gets _) => apply preserves_gets
  | |- preserves _ _ (bind _ _) => apply preserves_bind; [|intros ?]
  | |- preserves _ _ (for_each _ _) => apply preserves_for_each; intros ? ?
  | |- preserves _ _ (while_loop _ _ _) => apply preserves_while
  | |- preserves _ _ (match ?x with _ => _ end) => destruct x eqn:?
  | |- preserves _ _ (let _ := _ in _) => cbv zeta
  end.

(** The events a computed trace has on top of [t], for a rule that asks for them. *)
Ltac events_above tr t :=
  lazymatch tr with
  | t => let T := type of t in constr:(nil : T)
  | ?e :: ?tr' => let p := events_above tr' t in constr:(e :: p)
  | ?l ++ t => l
  | ?l ++ ?tr' => let p := events_above tr' t in constr:(l ++ p)
  end.
Ltac apply_above H t :=
  lazymatch goal with
  | |- ?Q _ _ ?tr =>
      let p := events_above tr t in
      replace tr with (p ++ t) by (by simpl; rewrite <-?app_assoc; simpl; rewrite <-?app_assoc); apply H
  end.

(** The function at the head of an application *)
Ltac head_of m := lazymatch m with ?f _ => head_of f | _ => constr:(m) end.
