(* ===== verification/GoStd.v ===== *)
(** * What the code uses of Go and its standard library

    Integers at their width, [fmt] verbs, [strings], [encoding/base64] and [sort.Sort], and the
    errors of [github.com/pkg/errors] as values. Strings are byte strings. *)
From stdpp Require Import prelude strings list pretty sorting.
From Stdlib Require Import Ascii.
From S2P Require Import Prelude.

Module GoInt.
(** ** int32 *)
Definition int32_min : Z := (-2147483648)%Z.
Definition int32_max : Z := 2147483647%Z.
Definition is_int32 (z : Z) : Prop := (int32_min ≤ z ≤ int32_max)%Z.
(** The value of an int32 conversion, and of an int32 operation whose exact result is [z]:
    two's complement wrap-around. *)
Definition int32 (z : Z) : Z := ((z + 2147483648) `mod` 4294967296 - 2147483648)%Z.

Lemma int32_id z : is_int32 z → int32 z = z.
Proof.
  unfold is_int32, int32, int32_min, int32_max. intros.
  rewrite Z.mod_small; lia.
Qed.
Lemma int32_range z : is_int32 (int32 z).
Proof.
  unfold is_int32, int32, int32_min, int32_max.
  pose proof (Z.mod_pos_bound (z + 2147483648) 4294967296 ltac:(lia)). lia.
Qed.
Lemma int32_overflow : int32 (int32_max + 1) = int32_min.
Proof. reflexivity. Qed.
End GoInt.
Export GoInt.

(** ** time.Duration, in nanoseconds *)
Definition Second : Z := 1000000000%Z.
Definition Minute : Z := (60 * Second)%Z.

Module Errors.
(** ** Errors

    [ErrExt id msg] is an error that came from outside the repository; what the libraries
    read off it (a gRPC status, a MOC code, an API reason) is a function of this value.
    [ErrNew] is [errors.New], [errors.Errorf] or [fmt.Errorf]; [ErrWrap] is [errors.Wrap] of
    an error that is not nil. *)
Inductive error :=
  | ErrExt (id : N) (msg : string)
  | ErrNew (msg : string)
  | ErrWrap (cause : error) (msg : string).

#[export] Instance error_eq_dec : EqDecision error.
Proof. solve_decision. Defined.

(** [err.Error()]: a wrapper prints its message, a colon and its cause. *)
Fixpoint Error (e : error) : string :=
  match e with
  | ErrExt _ m | ErrNew m => m
  | ErrWrap c m => m +:+ ": " +:+ Error c
  end.

(** [errors.Wrap(err, msg)] and [errors.Wrapf(err, msg)]: nil for a nil error. *)
Definition Wrap (err : option error) (msg : string) : option error :=
  match err with Some e => Some (ErrWrap e msg) | None => None end.

(** [errors.Cause] *)
Fixpoint Cause (e : error) : error :=
  match e with ErrWrap c _ => Cause c | _ => e end.
End Errors.
Export Errors.

Module GoStrings.
Definition ascii_lower (c : ascii) : ascii :=
  let n := nat_of_ascii c in
  if (65 <=? n) && (n <=? 90) then ascii_of_nat (n + 32) else c.

(** [strings.ToLower], on ASCII *)
Fixpoint ToLower (s : string) : string :=
  match s with
  | EmptyString => EmptyString
  | String c s' => String (ascii_lower c) (ToLower s')
  end.
(** [strings.EqualFold], on ASCII *)
Definition EqualFold (a b : string) : bool := bool_decide (ToLower a = ToLower b).

(** [strings.Join] *)
Fixpoint Join (l : list string) (sep : string) : string :=
  match l with
  | [] => ""
  | [x] => x
  | x :: l' => x +:+ sep +:+ Join l' sep
  end.

(** Go compares strings byte by byte. *)
Definition string_lt (a b : string) : bool :=
  match String.compare a b with Lt => true | _ => false end.

(** [%q] of [fmt]: a Go string literal ([strconv.Quote]), on ASCII *)
Definition hex_digit (n : nat) : ascii :=
  if n <? 10 then ascii_of_nat (48 + n) else ascii_of_nat (87 + n).
Definition dquote : ascii := ascii_of_nat 34.
Definition backslash : ascii := ascii_of_nat 92.
Definition quote_ascii (c : ascii) : string :=
  let n := nat_of_ascii c in
  let esc x := String backslash (String x EmptyString) in
  if n =? 34 then esc dquote
  else if n =? 92 then esc backslash
  else if n =? 7 then esc "a"%char
  else if n =? 8 then esc "b"%char
  else if n =? 12 then esc "f"%char
  else if n =? 10 then esc "n"%char
  else if n =? 13 then esc "r"%char
  else if n =? 9 then esc "t"%char
  else if n =? 11 then esc "v"%char
  else if (32 <=? n) && (n <? 127) then String c EmptyString
  else String backslash (String "x" (String (hex_digit (n / 16))
         (String (hex_digit (n mod 16)) EmptyString))).
Fixpoint quote_body (s : string) : string :=
  match s with
  | EmptyString => EmptyString
  | String c s' => quote_ascii c +:+ quote_body s'
  end.
Definition Quote (s : string) : string :=
  String dquote (quote_body s +:+ String dquote EmptyString).

(** [%d] of an integer *)
Definition fmt_d (z : Z) : string := pretty z.

Lemma append_cons c (a b : string) : String c a +:+ b = String c (a +:+ b).
Proof. done. Qed.
Lemma append_nil_l (a : string) : "" +:+ a = a.
Proof. done. Qed.
Lemma append_assoc (a b c : string) : (a +:+ b) +:+ c = a +:+ b +:+ c.
Proof. induction a; [done|]. rewrite !append_cons. congruence. Qed.
Lemma append_nil_r (a : string) : a +:+ "" = a.
Proof. induction a; [done|]. rewrite append_cons. congruence. Qed.
Lemma length_append (a b : string) :
  String.length (a +:+ b) = String.length a + String.length b.
Proof. induction a; [done|]. rewrite append_cons. simpl. congruence. Qed.
Lemma append_inj_r (a b c : string) : a +:+ c = b +:+ c → a = b.
Proof.
  intros H. assert (Hl : String.length a = String.length b).
  { apply (f_equal String.length) in H. rewrite !length_append in H. lia. }
  revert b H Hl. induction a as [|x a IH]; intros [|y b] H Hl; simpl in *; try done.
  rewrite !append_cons in H. simplify_eq. f_equal. by apply IH.
Qed.
Lemma append_inj_l (a b c : string) : a +:+ b = a +:+ c → b = c.
Proof. apply (inj _). Qed.
End GoStrings.
Export GoStrings.

Module Base64.
(** ** encoding/base64, StdEncoding *)
Local Open Scope N_scope.
Definition alphabet (n : N) : ascii :=
  if n <? 26 then ascii_of_N (65 + n)
  else if n <? 52 then ascii_of_N (71 + n)
  else if n <? 62 then ascii_of_N (n - 4)
  else if n =? 62 then "+"%char else "/"%char.
Definition decodeMap (c : ascii) : option N :=
  let n := N_of_ascii c in
  if (65 <=? n) && (n <=? 90) then Some (n - 65)
  else if (97 <=? n) && (n <=? 122) then Some (n - 71)
  else if (48 <=? n) && (n <=? 57) then Some (n + 4)
  else if n =? 43 then Some 62
  else if n =? 47 then Some 63
  else None.
Definition padChar : ascii := "="%char.
Definition is_newline (c : ascii) : bool :=
  (N_of_ascii c =? 10) || (N_of_ascii c =? 13).

(** [enc.EncodeToString] *)
Fixpoint EncodeToString (s : string) : string :=
  match s with
  | EmptyString => EmptyString
  | String a EmptyString =>
      let v := N_of_ascii a * 65536 in
      String (alphabet (v / 262144)) (String (alphabet (v / 4096 mod 64))
        (String padChar (String padChar EmptyString)))
  | String a (String b EmptyString) =>
      let v := N_of_ascii a * 65536 + N_of_ascii b * 256 in
      String (alphabet (v / 262144)) (String (alphabet (v / 4096 mod 64))
        (String (alphabet (v / 64 mod 64)) (String padChar EmptyString)))
  | String a (String b (String c s')) =>
      let v := N_of_ascii a * 65536 + N_of_ascii b * 256 + N_of_ascii c in
      String (alphabet (v / 262144)) (String (alphabet (v / 4096 mod 64))
        (String (alphabet (v / 64 mod 64)) (String (alphabet (v mod 64))
          (EncodeToString s'))))
  end.

Fixpoint skip_newlines (s : string) : nat * string :=
  match s with
  | String c s' =>
      if is_newline c then let '(k, r) := skip_newlines s' in (Datatypes.S k, r)
      else (O, s)
  | EmptyString => (O, s)
  end.

(** The bytes of a quantum of [length buf] digits. *)
Definition quantum (buf : list N) : string :=
  let d i := default 0 (buf !! i) in
  let v := d 0%nat * 262144 + d 1%nat * 4096 + d 2%nat * 64 + d 3%nat in
  let b0 := ascii_of_N (v / 65536) in
  let b1 := ascii_of_N (v / 256 mod 256) in
  let b2 := ascii_of_N (v mod 256) in
  match length buf with
  | 4%nat => String b0 (String b1 (String b2 EmptyString))
  | 3%nat => String b0 (String b1 EmptyString)
  | 2%nat => String b0 EmptyString
  | _ => EmptyString
  end.

(** [decodeQuantum] until the input ends; an error is the offset of the corrupt byte. *)
Fixpoint decode (s : string) (si : nat) (buf : list N) : nat + string :=
  let finish r pos :=
    let '(k, rest) := skip_newlines r in
    match rest with
    | EmptyString => inr (quantum buf)
    | _ => inl (pos + k)%nat
    end in
  match s with
  | EmptyString =>
      match buf with [] => inr EmptyString | _ => inl (si - length buf)%nat end
  | String c s' =>
      match decodeMap c with
      | Some v =>
          let buf' := buf ++ [v] in
          match length buf' with
          | 4%nat => match decode s' (Datatypes.S si) [] with
                     | inr r => inr (quantum buf' +:+ r)
                     | inl e => inl e
                     end
          | _ => decode s' (Datatypes.S si) buf'
          end
      | None =>
          if is_newline c then decode s' (Datatypes.S si) buf
          else if negb (N_of_ascii c =? N_of_ascii padChar) then inl si
          else match length buf with
               | 2%nat =>
                   let '(k, rest) := skip_newlines s' in
                   match rest with
                   | EmptyString => inl (si + 1 + k)%nat
                   | String c2 rest' =>
                       if N_of_ascii c2 =? N_of_ascii padChar
                       then finish rest' (si + 2 + k)%nat
                       else inl (si + k)%nat
                   end
               | 3%nat => finish s' (si + 1)%nat
               | _ => inl si
               end
      end
  end.

(** [enc.DecodeString]: the decoded bytes or a [base64.CorruptInputError] *)
Definition DecodeString (s : string) : error + string :=
  match decode s 0 [] with
  | inr r => inr r
  | inl off => inl (ErrNew ("illegal base64 data at input byte " +:+ pretty off))
  end.

Lemma decodeMap_alphabet n : n < 64 → decodeMap (alphabet n) = Some n.
Proof.
  intros Hn. rewrite <-(N2Nat.id n).
  assert (Hb : (N.to_nat n < 64)%nat) by lia. revert Hb. clear Hn.
  generalize (N.to_nat n) as k. intros k Hk.
  do 64 (destruct k as [|k]; [reflexivity|]). lia.
Qed.
Lemma byte_bound (c : ascii) : N_of_ascii c < 256.
Proof. destruct c as [[][][][][][][][]]; vm_compute; reflexivity. Qed.
Lemma decode_digit n s si buf :
  n < 64 →
  decode (String (alphabet n) s) si buf =
    match length (buf ++ [n]) with
    | 4%nat => match decode s (Datatypes.S si) [] with
               | inr r => inr (quantum (buf ++ [n]) +:+ r)
               | inl e => inl e
               end
    | _ => decode s (Datatypes.S si) (buf ++ [n])
    end.
Proof. intros Hn. simpl. by rewrite (decodeMap_alphabet n Hn). Qed.

Ltac digits_lt :=
  match goal with
  | |- (_ mod _ < _) => apply N.mod_lt; lia
  | |- (_ / _ < _) => apply N.Div0.div_lt_upper_bound; lia
  end.

(** The digits of a 24-bit value give the value back. *)
Lemma digits_value v :
  v / 262144 * 262144 + v / 4096 mod 64 * 4096 + v / 64 mod 64 * 64 + v mod 64 = v.
Proof.
  replace (v / 262144) with (v / 64 / 64 / 64) by (rewrite !N.Div0.div_div; done).
  replace (v / 4096) with (v / 64 / 64) by (rewrite !N.Div0.div_div; done).
  pose proof (N.div_mod v 64 ltac:(lia)).
  pose proof (N.div_mod (v / 64) 64 ltac:(lia)).
  pose proof (N.div_mod (v / 64 / 64) 64 ltac:(lia)). lia.
Qed.
Lemma bytes_of_value a b c :
  a < 256 → b < 256 → c < 256 →
  let v := a * 65536 + b * 256 + c in
  v / 65536 = a ∧ v / 256 mod 256 = b ∧ v mod 256 = c.
Proof.
  intros Ha Hb Hc v. subst v.
  assert (H1 : (a * 65536 + b * 256 + c) / 65536 = a)
    by (symmetry; apply (N.div_unique _ _ _ (b * 256 + c)); lia).
  assert (H2 : (a * 65536 + b * 256 + c) / 256 = a * 256 + b)
    by (symmetry; apply (N.div_unique _ _ _ c); lia).
  rewrite H1, H2. split_and!; [done| |].
  - symmetry. apply (N.mod_unique _ _ a); lia.
  - symmetry. apply (N.mod_unique _ _ (a * 256 + b)); lia.
Qed.

Lemma decode_quantum4 v s si :
  v < 16777216 →
  decode (String (alphabet (v / 262144)) (String (alphabet (v / 4096 mod 64))
    (String (alphabet (v / 64 mod 64)) (String (alphabet (v mod 64)) s)))) si [] =
  match decode s (4 + si)%nat [] with
  | inr r => inr (quantum [v / 262144; v / 4096 mod 64; v / 64 mod 64; v mod 64] +:+ r)
  | inl e => inl e
  end.
Proof. intros Hv. rewrite !decode_digit by digits_lt. done. Qed.
Lemma quantum4 a b c :
  let v := N_of_ascii a * 65536 + N_of_ascii b * 256 + N_of_ascii c in
  quantum [v / 262144; v / 4096 mod 64; v / 64 mod 64; v mod 64]
    = String a (String b (String c EmptyString)).
Proof.
  intros v. unfold quantum. cbn -[N.div N.modulo N.mul N.add]. rewrite digits_value.
  destruct (bytes_of_value (N_of_ascii a) (N_of_ascii b) (N_of_ascii c)
              (byte_bound a) (byte_bound b) (byte_bound c)) as (E1&E2&E3).
  fold v in E1, E2, E3. by rewrite E1, E2, E3, !ascii_N_embedding.
Qed.

Lemma decode_encode s : ∀ si, decode (EncodeToString s) si [] = inr s.
Proof.
  induction s as [s IH] using (induction_ltof1 _ String.length). unfold ltof in IH.
  intros si.
  destruct s as [|a [|b [|c s]]]; [done|..]; cbn -[alphabet N.div N.modulo N.mul N.add decode].
  - set (v := N_of_ascii a * 65536). pose proof (byte_bound a).
    rewrite !decode_digit by digits_lt.
    cbn -[N.div N.modulo N.mul N.add]. unfold quantum. simpl.
    replace (v / 262144 * 262144 + v / 4096 mod 64 * 4096 + 0 * 64 + 0) with v.
    2: { pose proof (digits_value v).
         assert (v / 64 mod 64 = 0 ∧ v mod 64 = 0) as [??]; [|lia].
         split; [|symmetry; apply (N.mod_unique _ _ (N_of_ascii a * 1024)); lia].
         replace (v / 64) with (N_of_ascii a * 1024)
           by (apply (N.div_unique _ _ _ 0); lia).
         symmetry; apply (N.mod_unique _ _ (N_of_ascii a * 16)); lia. }
    replace (v / 65536) with (N_of_ascii a) by (apply (N.div_unique _ _ _ 0); lia).
    by rewrite ascii_N_embedding.
  - set (v := N_of_ascii a * 65536 + N_of_ascii b * 256).
    pose proof (byte_bound a). pose proof (byte_bound b).
    rewrite !decode_digit by digits_lt.
    cbn -[N.div N.modulo N.mul N.add]. unfold quantum. simpl.
    replace (v / 262144 * 262144 + v / 4096 mod 64 * 4096 + v / 64 mod 64 * 64 + 0) with v.
    2: { pose proof (digits_value v).
         assert (v mod 64 = 0); [|lia].
         symmetry; apply (N.mod_unique _ _ (N_of_ascii a * 1024 + N_of_ascii b * 4)); lia. }
    destruct (bytes_of_value (N_of_ascii a) (N_of_ascii b) 0) as (E1&E2&_); try done.
    rewrite N.add_0_r in E1, E2. fold v in E1, E2. by rewrite E1, E2, !ascii_N_embedding.
  - pose proof (byte_bound a). pose proof (byte_bound b). pose proof (byte_bound c).
    rewrite decode_quantum4 by lia. rewrite IH by (simpl; lia). by rewrite quantum4.
Qed.
Lemma DecodeString_EncodeToString s : DecodeString (EncodeToString s) = inr s.
Proof. unfold DecodeString. by rewrite decode_encode. Qed.
End Base64.

Module GoSort.
(** ** sort.Sort

    The order [sort.Sort] leaves is fixed by [Less] up to elements neither of which is less
    than the other; the callers' orders leave no such pair apart from equal keys. *)
Section Sort.
Context {A : Type} (Less : A → A → bool).
Definition not_after (x y : A) : Prop := Less y x = false.
#[export] Instance not_after_dec x y : Decision (not_after x y).
Proof. unfold not_after. apply _. Defined.
Definition Sort (l : list A) : list A := merge_sort not_after l.

Lemma Sort_perm l : Sort l ≡ₚ l.
Proof. apply merge_sort_Permutation. Qed.
Context `{!Total not_after, !Transitive not_after}.
Lemma Sort_sorted l : StronglySorted not_after (Sort l).
Proof. apply StronglySorted_merge_sort; apply _. Qed.
Lemma Sort_unique l l' :
  (∀ x y, x ∈ l → y ∈ l → not_after x y → not_after y x → x = y) →
  l ≡ₚ l' → Sort l = Sort l'.
Proof.
  intros Ha Hp.
  apply StronglySorted_unique_strong with not_after; try apply Sort_sorted.
  - intros x y. rewrite !Sort_perm. rewrite <-Hp. apply Ha.
  - by rewrite !Sort_perm.
Qed.
End Sort.
End GoSort.
Export GoSort.
