(* ===== verification/External.v ===== *)
(** * Data and functions of the libraries the provider calls

    The records hold the fields of the Kubernetes, Cluster API and MOC SDK types that the code
    reads or writes; a pointer is an [option]. The functions of those libraries are the fields
    of the class [Libs], a parameter of everything that uses them; [LibLaws] states the
    documented behaviour the theorems rely on, and [ref_libs] is one implementation that has
    it. *)
From stdpp Require Import prelude strings list gmap.
From coqutil Require Export Datatypes.RecordSettersUsingExistingGetters.
From S2P Require Import Prelude GoStd.

(** A Go map; [None] is the nil map. *)
Definition gomap := option (gmap string string).
(** [m[k]], the zero value when the key is missing *)
Definition map_get (m : gomap) (k : string) : string :=
  match m with Some g => default "" (g !! k) | None => "" end.

(** ** k8s.io/apimachinery *)
Module metav1.
Record OwnerReference := mkOwnerReference {
  or_APIVersion : string; or_Kind : string; or_Name : string; or_UID : string }.
(** Times are nanoseconds; the zero [Time] is 0. *)
Record ObjectMeta := mkObjectMeta {
  Name : string; Namespace : string; UID : string; ObjectResourceVersion : string;
  Labels : gomap; Annotations : gomap;
  OwnerReferences : list OwnerReference;
  Finalizers : list string;
  DeletionTimestamp : option Z;
  CreationTimestamp : Z }.
Record TypeMeta := mkTypeMeta { Kind : string; APIVersion : string }.
Record ListMeta := mkListMeta {
  SelfLink : string; ResourceVersion : string; Continue : string;
  RemainingItemCount : option Z }.
Record Condition := mkCondition {
  c_Type : string; c_Status : string; c_ObservedGeneration : Z;
  c_LastTransitionTime : Z; c_Reason : string; c_Message : string }.

Definition ConditionTrue := "True".
Definition ConditionFalse := "False".
Definition ConditionUnknown := "Unknown".

(** [(t *Time).IsZero()] *)
Definition IsZero (t : option Z) : bool :=
  match t with None => true | Some z => Z.eqb z 0 end.

(** A condition literal as the code writes it: no transition time, no generation. *)
Definition cond (ty st reason msg : string) : Condition := mkCondition ty st 0 0 reason msg.
(** [&T{ObjectMeta: metav1.ObjectMeta{Namespace: ns, Name: name}}] *)
Definition named_meta (ns name : string) : ObjectMeta :=
  mkObjectMeta name ns "" "" None None [] [] None 0.
Definition empty_type : TypeMeta := mkTypeMeta "" "".
(** The zero values of the structs, which [new] and [make] give *)
Definition zero_Condition : Condition := mkCondition "" "" 0 0 "" "".
Definition zero_ObjectMeta : ObjectMeta := named_meta "" "".
Definition zero_ListMeta : ListMeta := mkListMeta "" "" "" None.

#[export] Instance OwnerReference_eq_dec : EqDecision OwnerReference.
Proof. solve_decision. Defined.
#[export] Instance Condition_eq_dec : EqDecision Condition.
Proof. solve_decision. Defined.
#[export] Instance ObjectMeta_eq_dec : EqDecision ObjectMeta.
Proof. solve_decision. Defined.
#[export] Instance TypeMeta_eq_dec : EqDecision TypeMeta.
Proof. solve_decision. Defined.
End metav1.
Export (hints) metav1.

Record NamespacedName := mkNN { nn_Namespace : string; nn_Name : string }.
#[export] Instance NamespacedName_eq_dec : EqDecision NamespacedName.
Proof. solve_decision. Defined.

Record NodeAddress := mkNodeAddress { na_Type : string; na_Address : string }.
#[export] Instance NodeAddress_eq_dec : EqDecision NodeAddress.
Proof. solve_decision. Defined.

(** corev1.Secret *)
Record Secret := mkSecret {
  sec_meta : metav1.ObjectMeta; sec_Data : gmap string string }.

(** storagev1.VolumeAttachment *)
Record VolumeAttachment := mkVolumeAttachment {
  va_Attacher : string; va_NodeName : string; va_PersistentVolumeName : option string }.

(** ** sigs.k8s.io/cluster-api *)
Module clusterv1.
Record Machine := mkMachine {
  m_type : metav1.TypeMeta; m_meta : metav1.ObjectMeta;
  m_DataSecretName : option string; (* Spec.Bootstrap.DataSecretName *)
  m_Version : string; (* Spec.Version *)
  m_InfrastructureRefName : string; (* Spec.InfrastructureRef.Name *)
  m_NodeRefName : string (* Status.NodeRef.Name *) }.
Record Cluster := mkCluster {
  cl_type : metav1.TypeMeta; cl_meta : metav1.ObjectMeta;
  cl_InfrastructureRefName : string; (* Spec.InfrastructureRef.Name *)
  cl_APIServerPort : Z (* Spec.ClusterNetwork.APIServerPort *) }.
Record APIEndpoint := mkAPIEndpoint { Host : string; Port : Z }.
Definition ReadyCondition := "Ready".
Definition ClusterNameLabel := "cluster.x-k8s.io/cluster-name".
#[export] Instance APIEndpoint_eq_dec : EqDecision APIEndpoint.
Proof. solve_decision. Defined.
End clusterv1.
Export (hints) clusterv1.

(** sigs.k8s.io/cluster-api/api/core/v1beta1, used by the v1beta1 types; the core types of
    v1beta2 are those of [clusterv1]. *)
Module corev1beta1.
Record Condition := mkCondition {
  c_Type : string; c_Status : string; c_Severity : string;
  c_LastTransitionTime : Z; c_Reason : string; c_Message : string }.
Record APIEndpoint := mkAPIEndpoint { Host : string; Port : Z }.
Definition zero_Condition : Condition := mkCondition "" "" "" 0 "" "".
Definition zero_APIEndpoint : APIEndpoint := mkAPIEndpoint "" 0.
End corev1beta1.

(** ** moc-sdk-for-go *)
Definition tags := gmap string (option string).

Module network.
Record BackendAddressPool := mkBackendAddressPool { bap_Name : option string }.
Record InterfaceIPConfigurationPropertiesFormat := mkIPConfigProps {
  ipp_Primary : option bool; ipp_SubnetID : option string; (* Subnet.ID *)
  ipp_PrivateIPAddress : option string;
  ipp_LoadBalancerBackendAddressPools : option (list BackendAddressPool) }.
Record InterfaceIPConfiguration := mkIPConfig {
  ipc_Name : option string; ipc_props : InterfaceIPConfigurationPropertiesFormat }.
Record InterfacePropertiesFormat := mkIfProps {
  ifp_EnableIPForwarding : option bool; ifp_EnableMACSpoofing : option bool;
  ifp_MacAddress : option string; ifp_IPConfigurations : list InterfaceIPConfiguration }.
Record Interface := mkInterface {
  if_Name : option string; if_props : option InterfacePropertiesFormat }.

Record FrontendIPConfigurationPropertiesFormat := mkFrontendProps {
  fp_SubnetID : option string; fp_IPAddress : option string }.
Record FrontendIPConfiguration := mkFrontend {
  fe_props : option FrontendIPConfigurationPropertiesFormat }.
Record LoadBalancingRule := mkRule {
  lr_Protocol : string; lr_FrontendPort : option Z; lr_BackendPort : option Z }.
Record LoadBalancerPropertiesFormat := mkLBProps {
  lbp_BackendAddressPools : option (list BackendAddressPool);
  lbp_FrontendIPConfigurations : option (list FrontendIPConfiguration);
  lbp_LoadBalancingRules : option (list LoadBalancingRule);
  lbp_ReplicationCount : Z (* uint32 *) }.
Record LoadBalancer := mkLoadBalancer {
  lb_Name : option string; lb_props : option LoadBalancerPropertiesFormat;
  lb_Tags : tags }.
Definition TransportProtocolTCP := "Tcp".

Record VirtualNetwork := mkVirtualNetwork {
  vn_Name : option string; vn_Type : option string;
  vn_AddressPrefixes : list string; vn_Tags : tags }.
Record VipPool := mkVipPool { vp_Name : option string }.
End network.

Module compute.
Record ImageReference := mkImageReference {
  ir_Name : option string; ir_ID : option string; ir_Publisher : option string;
  ir_Offer : option string; ir_Sku : option string; ir_Version : option string }.
Record StorageProfile := mkStorageProfile {
  sp_OsDiskVhdURI : option string; (* OsDisk.Vhd.URI *)
  sp_DataDisks : list string;
  sp_ImageReference : ImageReference;
  sp_VmConfigContainerName : option string }.
Record SSHPublicKey := mkSSHPublicKey { k_Path : option string; k_KeyData : option string }.
Record LinuxConfiguration := mkLinux {
  lin_PublicKeys : list SSHPublicKey; lin_DisablePasswordAuthentication : option bool }.
Record WindowsConfiguration := mkWindows { win_PublicKeys : list SSHPublicKey }.
Record OSProfile := mkOSProfile {
  os_ComputerName : option string; os_AdminUsername : option string;
  os_AdminPassword : option string; os_CustomData : option string; os_OsType : string;
  os_Linux : option LinuxConfiguration; os_Windows : option WindowsConfiguration }.
Inductive VMType := Tenant | LoadBalancer | StackedControlPlane.
Inductive Assignment := GpuDefault.
Record VirtualMachineGPU := mkGPU { gpu_Assignment : option Assignment }.
Record GroupRef := mkGroupRef { gr_Name : option string; gr_GroupName : option string }.
Record VirtualMachineProperties := mkVMProps {
  vmp_StorageProfile : StorageProfile;
  vmp_OsProfile : OSProfile;
  vmp_NetworkInterfaceIDs : list (option string); (* NetworkProfile.NetworkInterfaces[i].ID *)
  vmp_VmType : VMType;
  vmp_VMSize : string; (* HardwareProfile.VMSize *)
  vmp_GPUs : list VirtualMachineGPU; (* HardwareProfile.VirtualMachineGPUs *)
  vmp_AvailabilitySetProfile : option GroupRef;
  vmp_PlacementGroupProfile : option GroupRef }.
Record VirtualMachine := mkVirtualMachine {
  vm_ID : option string; vm_Name : option string;
  vm_props : option VirtualMachineProperties }.
End compute.

Module storage.
Record VirtualHardDisk := mkVHD { vhd_Name : option string }.
End storage.
Module cloud.
Record Group := mkGroup {
  g_Name : option string; g_Location : option string; g_Tags : tags }.
End cloud.
Module security.
Record KeyVault := mkKeyVault { kv_Name : option string }.
End security.

(** [to.String] of go-autorest *)
Definition to_String (p : option string) : string := default "" p.

(** ** The functions of the libraries *)
Class Libs := {
  (* sigs.k8s.io/cluster-api/util/conditions, on the list a Getter returns; Set is given the
     time it reads *)
  conditions_Set : Z → list metav1.Condition → metav1.Condition → list metav1.Condition;
  conditions_Get : list metav1.Condition → string → option metav1.Condition;
  conditions_IsFalse : list metav1.Condition → string → bool;
  conditions_GetReason : list metav1.Condition → string → string;
  (* sigs.k8s.io/controller-runtime/pkg/controller/controllerutil *)
  AddFinalizer : list string → string → list string;
  RemoveFinalizer : list string → string → list string;
  (* sigs.k8s.io/cluster-api/util *)
  EnsureOwnerRef :
    list metav1.OwnerReference → metav1.OwnerReference → list metav1.OwnerReference;
  IsControlPlaneMachine : clusterv1.Machine → bool;
  (* k8s.io/apimachinery/pkg/api/errors *)
  IsNotFound : error → bool;
  IsAlreadyExists : error → bool;
  (* google.golang.org/grpc/status: the code of a status error, None for any other error *)
  status_Code : error → option N;
  (* moc/pkg/errors *)
  GetErrorCode : error → string;
  OutOfMemory_Error : string;
  OutOfCapacity_Error : string;
  OutOfNodeCapacity_Error : string;
  NotFound_Error : string;
  moccodes_NotFound_String : string;
  IsPathNotFound : error → bool;
  IsGRPCUnavailable : error → bool;
  IsExpired : error → bool;
  (* fmt's %+v of an error and of an image reference *)
  plus_v_error : error → string;
  plus_v_ImageReference : compute.ImageReference → string;
  (* k8s.io/apimachinery/pkg/util/errors: the message of [NewAggregate(errs)] *)
  NewAggregate_Error : list error → string;
  (* github.com/blang/semver *)
  ParseTolerant : string → error + (N * N * N);
}.

(** google.golang.org/grpc/codes *)
Definition codes_NotFound : N := 5.
Definition codes_AlreadyExists : N := 6.

(** What the libraries document. A condition is identified by its type; [Set] inserts it or
    replaces the one of the same type, and keeps the types distinct. *)
Class LibLaws (L : Libs) := {
  conditions_Get_Type cs ty c : conditions_Get cs ty = Some c → metav1.c_Type c = ty;
  conditions_Get_In cs ty c : conditions_Get cs ty = Some c → c ∈ cs;
  conditions_Get_Set_eq now cs c : ∃ c',
    conditions_Get (conditions_Set now cs c) (metav1.c_Type c) = Some c' ∧
    metav1.c_Status c' = metav1.c_Status c ∧ metav1.c_Reason c' = metav1.c_Reason c ∧
    metav1.c_Message c' = metav1.c_Message c;
  conditions_Get_Set_ne now cs c ty :
    ty ≠ metav1.c_Type c →
    conditions_Get (conditions_Set now cs c) ty = conditions_Get cs ty;
  conditions_Set_NoDup now cs c :
    NoDup (metav1.c_Type <$> cs) → NoDup (metav1.c_Type <$> conditions_Set now cs c);
  conditions_Set_types now cs c ty :
    ty ∈ metav1.c_Type <$> conditions_Set now cs c ↔
    ty = metav1.c_Type c ∨ ty ∈ metav1.c_Type <$> cs;
  conditions_IsFalse_Get cs ty :
    conditions_IsFalse cs ty =
      match conditions_Get cs ty with
      | Some c => bool_decide (metav1.c_Status c = metav1.ConditionFalse)
      | None => false
      end;
  conditions_GetReason_Get cs ty :
    conditions_GetReason cs ty =
      match conditions_Get cs ty with Some c => metav1.c_Reason c | None => "" end;
  AddFinalizer_elem fs f g : g ∈ AddFinalizer fs f ↔ g = f ∨ g ∈ fs;
  RemoveFinalizer_elem fs f g : g ∈ RemoveFinalizer fs f ↔ g ≠ f ∧ g ∈ fs;
  AddFinalizer_NoDup fs f : NoDup fs → NoDup (AddFinalizer fs f);
  RemoveFinalizer_NoDup fs f : NoDup fs → NoDup (RemoveFinalizer fs f);
  EnsureOwnerRef_elem rs r : r ∈ EnsureOwnerRef rs r;
  (* A wrapped error has the status of its cause, or none (in older releases). *)
  status_Code_Wrap e msg c : status_Code (ErrWrap e msg) = Some c → status_Code e = Some c;
  (* The MOC error codes are different strings. *)
  moc_codes_NoDup :
    NoDup [OutOfMemory_Error; OutOfCapacity_Error; OutOfNodeCapacity_Error; NotFound_Error;
           moccodes_NotFound_String];
}.

(** *** What an object reports *)
Definition has_condition {L : Libs} (cs : list metav1.Condition) (ty st reason msg : string)
    : Prop :=
  ∃ c, conditions_Get cs ty = Some c ∧ metav1.c_Status c = st ∧
       metav1.c_Reason c = reason ∧ metav1.c_Message c = msg.
Section Conditions.
Context {L : Libs} {LL : LibLaws L}.
Lemma has_condition_set now cs ty st reason msg :
  has_condition (conditions_Set now cs (metav1.cond ty st reason msg)) ty st reason msg.
Proof. apply (conditions_Get_Set_eq now cs (metav1.cond ty st reason msg)). Qed.
Lemma has_condition_set_ne now cs c ty st reason msg :
  ty ≠ metav1.c_Type c → has_condition cs ty st reason msg →
  has_condition (conditions_Set now cs c) ty st reason msg.
Proof. intros Hne. unfold has_condition. by rewrite conditions_Get_Set_ne. Qed.
Lemma IsFalse_set_True now cs ty reason msg :
  conditions_IsFalse
    (conditions_Set now cs (metav1.cond ty metav1.ConditionTrue reason msg)) ty = false.
Proof.
  rewrite conditions_IsFalse_Get.
  destruct (conditions_Get_Set_eq now cs (metav1.cond ty metav1.ConditionTrue reason msg))
    as (c&Hc&Hst&_).
  cbn in Hc. by rewrite Hc, Hst.
Qed.
Lemma RemoveFinalizer_not_in fs f : f ∉ RemoveFinalizer fs f.
Proof. rewrite RemoveFinalizer_elem. naive_solver. Qed.
Lemma AddFinalizer_in fs f : f ∈ AddFinalizer fs f.
Proof. rewrite AddFinalizer_elem. by left. Qed.
End Conditions.
#[export] Hint Resolve has_condition_set RemoveFinalizer_not_in AddFinalizer_in : core.

(** ** An implementation that keeps the laws *)
Module Ref.
Import metav1.
Fixpoint set_cond (now : Z) (cs : list Condition) (c : Condition) : list Condition :=
  match cs with
  | [] => [c <| c_LastTransitionTime := now |>]
  | c0 :: cs' =>
      if decide (c_Type c0 = c_Type c) then
        c <| c_LastTransitionTime :=
               if decide (c_Status c0 = c_Status c)
               then c_LastTransitionTime c0 else now |> :: cs'
      else c0 :: set_cond now cs' c
  end.
Definition get_cond (cs : list Condition) (ty : string) : option Condition :=
  List.find (λ c, bool_decide (c_Type c = ty)) cs.
Definition is_false cs ty :=
  match get_cond cs ty with
  | Some c => bool_decide (c_Status c = ConditionFalse) | None => false end.
Definition get_reason cs ty :=
  match get_cond cs ty with Some c => c_Reason c | None => "" end.

(** Errors from outside carry a number; the classification is by range of it. *)
Definition ext_id (e : error) : N := match Cause e with ErrExt n _ => n | _ => 0 end.
Definition moc_code (e : error) : string :=
  match ext_id e with
  | 10%N => "OutOfMemory" | 11%N => "OutOfCapacity" | 12%N => "OutOfNodeCapacity"
  | 13%N | 14%N => "NotFound" | 15%N => "Not Found" | _ => "Unknown"
  end.

#[export] Instance ref_libs : Libs := {
  conditions_Set := set_cond;
  conditions_Get := get_cond;
  conditions_IsFalse := is_false;
  conditions_GetReason := get_reason;
  AddFinalizer fs f := if decide (f ∈ fs) then fs else fs ++ [f];
  RemoveFinalizer fs f := filter (λ g, g ≠ f) fs;
  EnsureOwnerRef rs r := if decide (r ∈ rs) then rs else rs ++ [r];
  IsControlPlaneMachine m :=
    match Labels (clusterv1.m_meta m) with
    | Some l => bool_decide (is_Some (l !! "cluster.x-k8s.io/control-plane"))
    | None => false end;
  IsNotFound e := bool_decide (ext_id e = 1%N);
  IsAlreadyExists e := bool_decide (ext_id e = 2%N);
  status_Code e := match e with
    | ErrExt 3 _ => Some codes_NotFound
    | ErrExt 4 _ => Some codes_AlreadyExists
    | _ => None end;
  GetErrorCode := moc_code;
  OutOfMemory_Error := "OutOfMemory";
  OutOfCapacity_Error := "OutOfCapacity";
  OutOfNodeCapacity_Error := "OutOfNodeCapacity";
  NotFound_Error := "NotFound";
  moccodes_NotFound_String := "Not Found";
  IsPathNotFound e := bool_decide (ext_id e = 14%N);
  IsGRPCUnavailable e := bool_decide (ext_id e = 16%N);
  IsExpired e := bool_decide (ext_id e = 17%N);
  plus_v_error := Error;
  plus_v_ImageReference _ := "{}";
  NewAggregate_Error errs := Join (Error <$> errs) ", ";
  ParseTolerant s := if decide (s = "") then inl (ErrNew "Version string empty")
                     else inr (1, 2, 3)%N;
}.

Lemma get_cond_set_eq now cs c : ∃ c',
  get_cond (set_cond now cs c) (c_Type c) = Some c' ∧
  c_Status c' = c_Status c ∧ c_Reason c' = c_Reason c ∧ c_Message c' = c_Message c.
Proof.
  unfold get_cond. induction cs as [|c0 cs IH]; simpl.
  - rewrite bool_decide_true by done. eauto.
  - case_decide; simpl; [rewrite bool_decide_true by done; eauto|].
    by rewrite bool_decide_false.
Qed.
Lemma get_cond_set_ne now cs c ty :
  ty ≠ c_Type c → get_cond (set_cond now cs c) ty = get_cond cs ty.
Proof.
  unfold get_cond. intros Hne. induction cs as [|c0 cs IH]; simpl.
  - by rewrite bool_decide_false.
  - case_decide; simpl; [by rewrite !bool_decide_false by congruence|].
    by case_bool_decide.
Qed.
Lemma set_cond_types now cs c ty :
  ty ∈ c_Type <$> set_cond now cs c ↔ ty = c_Type c ∨ ty ∈ c_Type <$> cs.
Proof.
  induction cs as [|c0 cs IH]; simpl.
  - rewrite list_elem_of_singleton. set_solver.
  - case_decide as Heq; csimpl; rewrite !elem_of_cons; [rewrite Heq|rewrite IH]; tauto.
Qed.
Lemma set_cond_NoDup now cs c :
  NoDup (c_Type <$> cs) → NoDup (c_Type <$> set_cond now cs c).
Proof.
  induction cs as [|c0 cs IH]; simpl; [intros; apply NoDup_singleton|].
  rewrite NoDup_cons. intros [Hni Hnd]. case_decide as Heq; csimpl; apply NoDup_cons.
  - by rewrite <-Heq.
  - split; [|by apply IH]. rewrite set_cond_types. tauto.
Qed.
Lemma get_cond_spec cs ty c : get_cond cs ty = Some c → c ∈ cs ∧ c_Type c = ty.
Proof.
  intros H%find_some. destruct H as [H1 H2%bool_decide_eq_true].
  split; [by apply list_elem_of_In|done].
Qed.

#[export] Instance ref_laws : LibLaws ref_libs.
Proof.
  split; simpl.
  - intros. by eapply get_cond_spec.
  - intros. by eapply get_cond_spec.
  - apply get_cond_set_eq.
  - apply get_cond_set_ne.
  - apply set_cond_NoDup.
  - apply set_cond_types.
  - done.
  - done.
  - intros. case_decide; set_solver.
  - intros. by rewrite list_elem_of_filter.
  - intros fs f Hn. case_decide as Hd; [done|]. apply NoDup_app. split_and!; [done| |].
    + set_solver.
    + apply NoDup_singleton.
  - intros fs f Hn. by apply NoDup_filter.
  - intros. case_decide; set_solver.
  - done.
  - by vm_compute; repeat (apply NoDup_cons; split; [set_solver|]); apply NoDup_nil.
Qed.
End Ref.
