(* ===== verification/Api.v ===== *)
(** * The API types, api/v1beta2

    The custom resources with their spec and status, the condition and phase constants, and
    the methods of the types. A pointer field is an [option]. *)
From stdpp Require Import prelude strings list gmap.
From S2P Require Import Prelude GoStd External.

(** ** types.go *)
Definition VMState := string.
Definition VMStateCreating : VMState := "Creating".
Definition VMStateDeleting : VMState := "Deleting".
Definition VMStateFailed : VMState := "Failed".
Definition VMStateMigrating : VMState := "Migrating".
Definition VMStateSucceeded : VMState := "Succeeded".
Definition VMStateUpdating : VMState := "Updating".

Definition OSType := string.
Definition OSTypeLinux : OSType := "Linux".
Definition OSTypeWindows : OSType := "Windows".
Definition OSTypeWindows2022 : OSType := "Windows2022".

Definition ControlPlane := "control-plane".
Definition Node := "node".
Definition OSVersionLabelName := "msft.microsoft/os-version".
Definition LoadBalancerLabel := "msft.microsoft/load-balancer".
Definition AnnotationClusterInfrastructureReady :=
  "azurestackhci.cluster.sigs.k8s.io/infrastructure-ready".
Definition ValueReady := "true".
Definition AnnotationControlPlaneReady :=
  "azurestackhci.cluster.sigs.k8s.io/control-plane-ready".
Definition AzureOperationIDAnnotationKey := "management.azure.com/operationId".
Definition AzureCorrelationIDAnnotationKey := "management.azure.com/correlationId".

Record Image := mkImage {
  img_Publisher : option string; img_Offer : option string; img_SKU : option string;
  img_ID : option string;
  img_SubscriptionID : option string; img_ResourceGroup : option string;
  img_Gallery : option string; img_Name : option string;
  img_Version : option string; img_OSType : OSType }.

Record AvailabilityZone := mkAvailabilityZone {
  az_ID : option string; az_Enabled : option bool }.

Record ManagedDisk := mkManagedDisk { md_StorageAccountType : string }.
Record OSDisk := mkOSDisk {
  osd_Name : string; osd_Source : string; osd_OSType : OSType; osd_DiskSizeGB : Z;
  osd_ManagedDisk : option ManagedDisk }.

Record VM := mkVM {
  vm_ID : string; vm_Name : string; vm_AvailabilityZone : string; vm_VMSize : string;
  vm_Image : Image; vm_OSDisk : OSDisk; vm_BootstrapData : string; vm_State : VMState;
  vm_Identity : string }.
(** The zero values of [Image{}], [OSDisk{}] and [VM{}] *)
Definition zero_Image : Image :=
  mkImage None None None None None None None None None "".
Definition zero_OSDisk : OSDisk := mkOSDisk "" "" "" 0 None.
Definition zero_VM : VM := mkVM "" "" "" "" zero_Image zero_OSDisk "" "" "".

(** [AzureStackHCIResourceReference] *)
Record AzureStackHCIResourceReference := mkResourceReference { rr_ID : option string }.
Definition MachineCreated := "MachineCreated".
Record AzureStackHCIMachineProviderCondition := mkProviderCondition {
  mpc_Type : string; mpc_Status : string; mpc_LastProbeTime : Z;
  mpc_LastTransitionTime : Z; mpc_Reason : string; mpc_Message : string }.

Record VnetSpec := mkVnetSpec {
  vnet_ID : string; vnet_Name : string; vnet_CidrBlock : string; vnet_Group : string }.
Record SubnetSpec := mkSubnetSpec {
  sn_ID : string; sn_Name : string; sn_VnetID : string; sn_CidrBlock : string }.
(** The elements of [Subnets] are pointers. *)
Record NetworkSpec := mkNetworkSpec {
  ns_Vnet : VnetSpec; ns_Subnets : list (option SubnetSpec) }.

(** [(s Subnets) ToMap()]; a nil element makes it panic ([None]). *)
Definition ToMap (s : list (option SubnetSpec)) : option (gmap string SubnetSpec) :=
  foldl (λ res x, m ← res; p ← x; Some (<[sn_ID p := p]> m)) (Some ∅) s.

Definition IPAllocationMethod_Invalid : Z := 0.
Definition IPAllocationMethod_Dynamic : Z := 1.
Definition IPAllocationMethod_Static : Z := 2.
Record IpConfigurationSpec := mkIpConfigurationSpec {
  ic_Name : string; ic_Primary : bool; ic_Allocation : Z; ic_IpAddress : string;
  ic_PrefixLength : string; ic_SubnetId : string; ic_Gateway : string }.
(** Elements of the slices are pointers; a nil element makes the readers panic. *)
Record NetworkInterfaceSpec := mkNetworkInterfaceSpec {
  nis_Name : string; nis_IPConfigurations : list (option IpConfigurationSpec) }.

(** ** azurestackhcimachine_types.go *)
Definition MachineFinalizer := "azurestackhcimachine.infrastructure.cluster.x-k8s.io".

Record AzureStackHCIMachineSpec := mkMachineSpec {
  ms_ProviderID : option string; ms_VMSize : string;
  ms_AvailabilityZone : option AvailabilityZone; ms_Image : option Image;
  ms_OSDisk : option OSDisk; ms_Location : string; ms_SSHPublicKey : string;
  ms_StorageContainer : string; ms_GpuCount : Z; ms_AllocatePublicIP : bool;
  ms_AdditionalSSHKeys : list string;
  ms_NetworkInterfaces : list (option NetworkInterfaceSpec);
  ms_AvailabilitySetName : string; ms_PlacementGroupName : string }.
Record InitializationStatus := mkInitializationStatus { init_Provisioned : option bool }.
Record AzureStackHCIMachineStatus := mkMachineStatus {
  mst_Ready : bool; mst_Addresses : list NodeAddress; mst_VMState : option VMState;
  mst_Conditions : list metav1.Condition;
  mst_Initialization : option InitializationStatus }.
Record AzureStackHCIMachine := mkMachine {
  hm_type : metav1.TypeMeta; hm_meta : metav1.ObjectMeta;
  hm_Spec : AzureStackHCIMachineSpec; hm_Status : AzureStackHCIMachineStatus }.

(** ** azurestackhcivirtualmachine_types.go *)
Definition VirtualMachineFinalizer :=
  "azurestackhcivirtualmachine.infrastructure.cluster.x-k8s.io".

Record AzureStackHCIVirtualMachineSpec := mkVirtualMachineSpec {
  vs_VMSize : string; vs_AvailabilityZone : option AvailabilityZone;
  vs_Image : option Image; vs_OSDisk : option OSDisk; vs_BootstrapData : option string;
  vs_Identity : string; vs_Location : string; vs_SSHPublicKey : string;
  vs_StorageContainer : string; vs_GpuCount : Z;
  vs_ResourceGroup : string; vs_VnetName : string; vs_ClusterName : string;
  vs_SubnetName : string; vs_BackendPoolNames : list string;
  vs_AdditionalSSHKeys : list string;
  vs_NetworkInterfaces : list (option NetworkInterfaceSpec);
  vs_AvailabilitySetName : string; vs_PlacementGroupName : string }.
Record AzureStackHCIVirtualMachineStatus := mkVirtualMachineStatus {
  vst_Ready : bool; vst_Addresses : list NodeAddress; vst_VMState : option VMState;
  vst_FailureReason : option string; vst_FailureMessage : option string;
  vst_Conditions : list metav1.Condition }.
Record AzureStackHCIVirtualMachine := mkVirtualMachine {
  hv_type : metav1.TypeMeta; hv_meta : metav1.ObjectMeta;
  hv_Spec : AzureStackHCIVirtualMachineSpec;
  hv_Status : AzureStackHCIVirtualMachineStatus }.
Definition zero_VirtualMachineSpec : AzureStackHCIVirtualMachineSpec :=
  mkVirtualMachineSpec "" None None None None "" "" "" "" 0 "" "" "" "" [] [] [] "" "".
Definition zero_VirtualMachineStatus : AzureStackHCIVirtualMachineStatus :=
  mkVirtualMachineStatus false [] None None None [].

(** [VirtualMachinesByCreationTimestamp.Less] *)
Definition ByCreationTimestamp_Less (a b : AzureStackHCIVirtualMachine) : bool :=
  if Z.eqb (metav1.CreationTimestamp (hv_meta a)) (metav1.CreationTimestamp (hv_meta b))
  then string_lt (metav1.Name (hv_meta a)) (metav1.Name (hv_meta b))
  else Z.ltb (metav1.CreationTimestamp (hv_meta a)) (metav1.CreationTimestamp (hv_meta b)).

(** ** azurestackhciloadbalancer_types.go *)
Definition AzureStackHCILoadBalancerFinalizer :=
  "azurestackhciloadbalancer.infrastructure.cluster.x-k8s.io".

Record AzureStackHCILoadBalancerSpec := mkLoadBalancerSpec {
  lbs_SSHPublicKey : string; lbs_Image : option Image; lbs_VMSize : string;
  lbs_StorageContainer : string; lbs_Replicas : option Z }.
Record AzureStackHCILoadBalancerStatus := mkLoadBalancerStatus {
  lst_Ready : bool; lst_Replicas : Z; lst_ReadyReplicas : Z; lst_FailedReplicas : Z;
  lst_Address : string; lst_Port : Z; lst_Phase : string;
  lst_Conditions : list metav1.Condition;
  lst_ErrorReason : option string; lst_ErrorMessage : option string;
  lst_Selector : string }.
Record AzureStackHCILoadBalancer := mkLoadBalancer {
  lb_type : metav1.TypeMeta; lb_meta : metav1.ObjectMeta;
  lb_Spec : AzureStackHCILoadBalancerSpec; lb_Status : AzureStackHCILoadBalancerStatus }.
Definition zero_LoadBalancerSpec : AzureStackHCILoadBalancerSpec :=
  mkLoadBalancerSpec "" None "" "" None.
Definition zero_LoadBalancerStatus : AzureStackHCILoadBalancerStatus :=
  mkLoadBalancerStatus false 0 0 0 "" 0 "" [] None None "".

(** ** azurestackhcicluster_types.go *)
Definition ClusterFinalizer := "azurestackhcicluster.infrastructure.cluster.x-k8s.io".

Record AzureStackHCIClusterSpec := mkClusterSpec {
  cs_NetworkSpec : NetworkSpec; cs_ResourceGroup : string; cs_Location : string;
  cs_AzureStackHCILoadBalancer : option AzureStackHCILoadBalancerSpec;
  cs_ControlPlaneEndpoint : clusterv1.APIEndpoint;
  cs_Version : option string; cs_Management : bool }.
Record AzureStackHCIClusterStatus := mkClusterStatus {
  cst_Bastion : VM; cst_Phase : string; cst_Conditions : list metav1.Condition;
  cst_Initialization : option InitializationStatus }.
Record AzureStackHCICluster := mkCluster {
  hc_type : metav1.TypeMeta; hc_meta : metav1.ObjectMeta;
  hc_Spec : AzureStackHCIClusterSpec; hc_Status : AzureStackHCIClusterStatus }.

(** ** The lists of each kind, and the templates of machines and clusters *)
Record AzureStackHCIMachineList := mkMachineList {
  hml_type : metav1.TypeMeta; hml_meta : metav1.ListMeta; hml_Items : list AzureStackHCIMachine }.
Record AzureStackHCIVirtualMachineList := mkVirtualMachineList {
  hvl_type : metav1.TypeMeta; hvl_meta : metav1.ListMeta;
  hvl_Items : list AzureStackHCIVirtualMachine }.
Record AzureStackHCILoadBalancerList := mkLoadBalancerList {
  lbl_type : metav1.TypeMeta; lbl_meta : metav1.ListMeta;
  lbl_Items : list AzureStackHCILoadBalancer }.
Record AzureStackHCIClusterList := mkClusterList {
  hcl_type : metav1.TypeMeta; hcl_meta : metav1.ListMeta; hcl_Items : list AzureStackHCICluster }.

Record AzureStackHCIMachineTemplateResource := mkMachineTemplateResource {
  mtr_Spec : AzureStackHCIMachineSpec }.
Record AzureStackHCIMachineTemplateSpec := mkMachineTemplateSpec {
  mts_Template : AzureStackHCIMachineTemplateResource }.
Record AzureStackHCIMachineTemplate := mkMachineTemplate {
  mt_type : metav1.TypeMeta; mt_meta : metav1.ObjectMeta;
  mt_Spec : AzureStackHCIMachineTemplateSpec }.
Record AzureStackHCIMachineTemplateList := mkMachineTemplateList {
  mtl_type : metav1.TypeMeta; mtl_meta : metav1.ListMeta;
  mtl_Items : list AzureStackHCIMachineTemplate }.

Record AzureStackHCIClusterTemplateResource := mkClusterTemplateResource {
  ctr_Spec : AzureStackHCIClusterSpec }.
Record AzureStackHCIClusterTemplateSpec := mkClusterTemplateSpec {
  cts_Template : AzureStackHCIClusterTemplateResource }.
Record AzureStackHCIClusterTemplate := mkClusterTemplate {
  ct_type : metav1.TypeMeta; ct_meta : metav1.ObjectMeta;
  ct_Spec : AzureStackHCIClusterTemplateSpec }.
Record AzureStackHCIClusterTemplateList := mkClusterTemplateList {
  ctl_type : metav1.TypeMeta; ctl_meta : metav1.ListMeta;
  ctl_Items : list AzureStackHCIClusterTemplate }.

(** The zero values [new] and [make] give, where they are not above *)
Definition zero_AvailabilityZone : AvailabilityZone := mkAvailabilityZone None None.
Definition zero_MachineSpec : AzureStackHCIMachineSpec :=
  mkMachineSpec None "" None None None "" "" "" 0 false [] [] "" "".
Definition zero_Machine : AzureStackHCIMachine :=
  mkMachine metav1.empty_type metav1.zero_ObjectMeta zero_MachineSpec
    (mkMachineStatus false [] None [] None).
Definition zero_VirtualMachine : AzureStackHCIVirtualMachine :=
  mkVirtualMachine metav1.empty_type metav1.zero_ObjectMeta zero_VirtualMachineSpec
    zero_VirtualMachineStatus.
Definition zero_LoadBalancer : AzureStackHCILoadBalancer :=
  mkLoadBalancer metav1.empty_type metav1.zero_ObjectMeta zero_LoadBalancerSpec
    zero_LoadBalancerStatus.
Definition zero_ClusterSpec : AzureStackHCIClusterSpec :=
  mkClusterSpec (mkNetworkSpec (mkVnetSpec "" "" "" "") []) "" "" None
    (clusterv1.mkAPIEndpoint "" 0) None false.
Definition zero_Cluster : AzureStackHCICluster :=
  mkCluster metav1.empty_type metav1.zero_ObjectMeta zero_ClusterSpec
    (mkClusterStatus zero_VM "" [] None).
Definition zero_MachineTemplate : AzureStackHCIMachineTemplate :=
  mkMachineTemplate metav1.empty_type metav1.zero_ObjectMeta
    (mkMachineTemplateSpec (mkMachineTemplateResource zero_MachineSpec)).
Definition zero_ClusterTemplate : AzureStackHCIClusterTemplate :=
  mkClusterTemplate metav1.empty_type metav1.zero_ObjectMeta
    (mkClusterTemplateSpec (mkClusterTemplateResource zero_ClusterSpec)).

(** ** phase_types.go *)
Inductive AzureStackHCIClusterPhase :=
  | ClusterPhasePending | ClusterPhaseProvisioning | ClusterPhaseProvisioned
  | ClusterPhaseDeleting | ClusterPhaseFailed | ClusterPhaseUpgrading | ClusterPhaseUnknown.
(** The string a phase converts to *)
Definition cluster_phase_string (p : AzureStackHCIClusterPhase) : string :=
  match p with
  | ClusterPhasePending => "pending" | ClusterPhaseProvisioning => "provisioning"
  | ClusterPhaseProvisioned => "provisioned" | ClusterPhaseDeleting => "deleting"
  | ClusterPhaseFailed => "failed" | ClusterPhaseUpgrading => "upgrading"
  | ClusterPhaseUnknown => ""
  end.
Inductive AzureStackHCILoadBalancerPhase :=
  | LBPhasePending | LBPhaseProvisioning | LBPhaseProvisioned | LBPhaseScaling
  | LBPhaseUpgrading | LBPhaseDeleting | LBPhaseFailed | LBPhaseUnknown.
Definition lb_phase_string (p : AzureStackHCILoadBalancerPhase) : string :=
  match p with
  | LBPhasePending => "pending" | LBPhaseProvisioning => "provisioning"
  | LBPhaseProvisioned => "provisioned" | LBPhaseScaling => "scaling"
  | LBPhaseUpgrading => "upgrading" | LBPhaseDeleting => "deleting"
  | LBPhaseFailed => "failed" | LBPhaseUnknown => ""
  end.

Module ClusterStatus.
(** [SetTypedPhase] and [GetTypedPhase] of [AzureStackHCIClusterStatus] *)
Definition SetTypedPhase (p : AzureStackHCIClusterPhase) (c : AzureStackHCIClusterStatus) :=
  c <| cst_Phase := cluster_phase_string p |>.
Definition GetTypedPhase (c : AzureStackHCIClusterStatus) : AzureStackHCIClusterPhase :=
  let phase := cst_Phase c in
  if decide (phase = cluster_phase_string ClusterPhasePending) then ClusterPhasePending
  else if decide (phase = cluster_phase_string ClusterPhaseProvisioning)
  then ClusterPhaseProvisioning
  else if decide (phase = cluster_phase_string ClusterPhaseProvisioned)
  then ClusterPhaseProvisioned
  else if decide (phase = cluster_phase_string ClusterPhaseDeleting)
  then ClusterPhaseDeleting
  else if decide (phase = cluster_phase_string ClusterPhaseFailed) then ClusterPhaseFailed
  else ClusterPhaseUnknown.
End ClusterStatus.

Module LoadBalancerStatus.
(** [SetTypedPhase] and [GetTypedPhase] of [AzureStackHCILoadBalancerStatus] *)
Definition SetTypedPhase (p : AzureStackHCILoadBalancerPhase)
    (c : AzureStackHCILoadBalancerStatus) :=
  c <| lst_Phase := lb_phase_string p |>.
Definition GetTypedPhase (c : AzureStackHCILoadBalancerStatus)
    : AzureStackHCILoadBalancerPhase :=
  let phase := lst_Phase c in
  if decide (phase = lb_phase_string LBPhasePending) then LBPhasePending
  else if decide (phase = lb_phase_string LBPhaseProvisioning) then LBPhaseProvisioning
  else if decide (phase = lb_phase_string LBPhaseProvisioned) then LBPhaseProvisioned
  else if decide (phase = lb_phase_string LBPhaseScaling) then LBPhaseScaling
  else if decide (phase = lb_phase_string LBPhaseUpgrading) then LBPhaseUpgrading
  else if decide (phase = lb_phase_string LBPhaseDeleting) then LBPhaseDeleting
  else if decide (phase = lb_phase_string LBPhaseFailed) then LBPhaseFailed
  else LBPhaseUnknown.
End LoadBalancerStatus.

(** ** conditions_consts.go *)
Definition VMRunningCondition := "VMRunning".
Definition VMUpdatingReason := "VMUpdating".
Definition VMProvisionFailedReason := "VMProvisionFailed".
Definition VMNotFoundReason := "VMNotFound".
Definition OutOfMemoryReason := "OutOfMemory".
Definition OutOfCapacityReason := "OutOfCapacity".
Definition OutOfNodeCapacityReason := "OutOfNodeCapacity".
Definition PathNotFoundReason := "PathNotFound".
Definition NotFoundReason := "NotFound".
Definition MOCUnreachableReason := "MOCUnreachable".
Definition NetworkInfrastructureReadyCondition := "NetworkInfrastructureReady".
Definition ClusterReconciliationFailedReason := "ClusterReconciliationFailed".
Definition LoadBalancerProvisioningReason := "LoadBalancerProvisioning".
Definition LoadBalancerDeletingReason := "LoadBalancerDeleting".
Definition AzureStackHCIMachinesDeletingReason := "AzureStackHCIMachineDeleting".
Definition LoadBalancerInfrastructureReadyCondition := "LoadBalancerInfrastructureReady".
Definition LoadBalancerServiceReconciliationFailedReason := "ServiceReconciliationFailed".
Definition LoadBalancerServiceStatusFailedReason := "ServiceStatusFailed".
Definition LoadBalancerMachineReconciliationFailedReason := "MachineReconciliationFailed".
Definition LoadBalancerAddressUnavailableReason := "AddressUnavailable".
Definition LoadBalancerNoReplicasReadyReason := "NoReplicasReady".
Definition LoadBalancerReplicasReadyCondition := "LoadBalancerReplicasReady".
Definition LoadBalancerWaitingForReplicasReadyReason := "WaitingForReplicasToBeReady".
Definition LoadBalancerReplicasScalingUpReason := "ScalingUp".
Definition LoadBalancerReplicasScalingDownReason := "ScalingDown".
Definition LoadBalancerReplicasUpgradingReason := "Upgrading".
Definition LoadBalancerReplicasFailedReason := "FailedReplicas".
Definition InfrastructureReadyReason := "InfrastructureReady".
Definition DeletionFailedReason := "DeletionFailed".

(** ** The methods every resource has *)
Class Object (T : Type) := {
  TypeMetaOf : T → metav1.TypeMeta;
  MetaOf : T → metav1.ObjectMeta;
  SetMeta : metav1.ObjectMeta → T → T }.
(** [GetConditions] and [SetConditions] *)
Class Conditioned (T : Type) := {
  GetConditions : T → list metav1.Condition;
  SetConditions : list metav1.Condition → T → T }.

#[export] Instance Machine_Object : Object AzureStackHCIMachine :=
  {| TypeMetaOf := hm_type; MetaOf := hm_meta; SetMeta m o := o <| hm_meta := m |> |}.
#[export] Instance VirtualMachine_Object : Object AzureStackHCIVirtualMachine :=
  {| TypeMetaOf := hv_type; MetaOf := hv_meta; SetMeta m o := o <| hv_meta := m |> |}.
#[export] Instance LoadBalancer_Object : Object AzureStackHCILoadBalancer :=
  {| TypeMetaOf := lb_type; MetaOf := lb_meta; SetMeta m o := o <| lb_meta := m |> |}.
#[export] Instance Cluster_Object : Object AzureStackHCICluster :=
  {| TypeMetaOf := hc_type; MetaOf := hc_meta; SetMeta m o := o <| hc_meta := m |> |}.

#[export] Instance Machine_Conditioned : Conditioned AzureStackHCIMachine :=
  {| GetConditions c := mst_Conditions (hm_Status c);
     SetConditions l c := c <| hm_Status ::= (λ s, s <| mst_Conditions := l |>) |> |}.
#[export] Instance VirtualMachine_Conditioned : Conditioned AzureStackHCIVirtualMachine :=
  {| GetConditions c := vst_Conditions (hv_Status c);
     SetConditions l c := c <| hv_Status ::= (λ s, s <| vst_Conditions := l |>) |> |}.
#[export] Instance LoadBalancer_Conditioned : Conditioned AzureStackHCILoadBalancer :=
  {| GetConditions c := lst_Conditions (lb_Status c);
     SetConditions l c := c <| lb_Status ::= (λ s, s <| lst_Conditions := l |>) |> |}.
#[export] Instance Cluster_Conditioned : Conditioned AzureStackHCICluster :=
  {| GetConditions c := cst_Conditions (hc_Status c);
     SetConditions l c := c <| hc_Status ::= (λ s, s <| cst_Conditions := l |>) |> |}.

Section Methods.
Context {T : Type} `{Object T}.
Definition GetName (o : T) : string := metav1.Name (MetaOf o).
Definition GetNamespace (o : T) : string := metav1.Namespace (MetaOf o).
Definition GetAnnotations (o : T) : gomap := metav1.Annotations (MetaOf o).
Definition SetAnnotations (a : gomap) (o : T) : T :=
  SetMeta ((MetaOf o) <| metav1.Annotations := a |>) o.
Definition GetLabels (o : T) : gomap := metav1.Labels (MetaOf o).
Definition SetLabels (l : gomap) (o : T) : T :=
  SetMeta ((MetaOf o) <| metav1.Labels := l |>) o.
Definition SetOwnerReferences (l : list metav1.OwnerReference) (o : T) : T :=
  SetMeta ((MetaOf o) <| metav1.OwnerReferences := l |>) o.
Definition SetFinalizers (l : list string) (o : T) : T :=
  SetMeta ((MetaOf o) <| metav1.Finalizers := l |>) o.
Definition GetFinalizers (o : T) : list string := metav1.Finalizers (MetaOf o).
(** [o.DeletionTimestamp.IsZero()] *)
Definition NotDeleted (o : T) : bool := metav1.IsZero (metav1.DeletionTimestamp (MetaOf o)).
End Methods.
