(* ===== verification/Effects.v ===== *)
(** * The calls that leave the provider

    One constructor per operation of the Kubernetes client, the Cluster API helpers that read
    the cluster, the patch helper, the event recorder, the telemetry log, the MOC clients and
    the process environment. The type of a call is the type of its answer; what the answer is
    belongs to the environment. *)
From stdpp Require Import prelude strings list gmap.
From S2P Require Import Prelude GoStd External Api.

(** ** Objects of the Kubernetes API *)
Inductive kind :=
  | KMachine | KVirtualMachine | KLoadBalancer | KCluster | KSecret
  | KCapiMachine | KCapiCluster.
#[export] Instance kind_eq_dec : EqDecision kind.
Proof. solve_decision. Defined.
Definition kobj (k : kind) : Type :=
  match k with
  | KMachine => AzureStackHCIMachine
  | KVirtualMachine => AzureStackHCIVirtualMachine
  | KLoadBalancer => AzureStackHCILoadBalancer
  | KCluster => AzureStackHCICluster
  | KSecret => Secret
  | KCapiMachine => clusterv1.Machine
  | KCapiCluster => clusterv1.Cluster
  end.

(** controllerutil.OperationResult *)
Inductive OperationResult :=
  | OperationResultNone | OperationResultCreated | OperationResultUpdated
  | OperationResultUpdatedStatus | OperationResultUpdatedStatusOnly.

(** [controllerutil.CreateOrUpdate(ctx, c, obj, f)] gets the object, runs the mutate function
    on what it got or, when it is not found, on the object it was given, and writes it back.
    The first call is the get, the second the write. *)
Inductive cou_get (k : kind) :=
  | CouFailed (e : error)
  | CouNew
  | CouFound (obj : kobj k).
Arguments CouFailed {k} e.
Arguments CouNew {k}.
Arguments CouFound {k} obj.

(** What an event is recorded on *)
Record ObjectRef := mkObjectRef { ref_kind : kind; ref_key : NamespacedName }.

(** ** Objects of the MOC agent *)
Inductive moc_kind :=
  | MVirtualMachine | MNetworkInterface | MLoadBalancer | MDisk | MGroup | MKeyVault
  | MVipPool | MVirtualNetwork.
#[export] Instance moc_kind_eq_dec : EqDecision moc_kind.
Proof. solve_decision. Defined.
Definition mocobj (k : moc_kind) : Type :=
  match k with
  | MVirtualMachine => compute.VirtualMachine
  | MNetworkInterface => network.Interface
  | MLoadBalancer => network.LoadBalancer
  | MDisk => storage.VirtualHardDisk
  | MGroup => cloud.Group
  | MKeyVault => security.KeyVault
  | MVipPool => network.VipPool
  | MVirtualNetwork => network.VirtualNetwork
  end.
(** The dynamic value the virtual network client returns: the code asserts that it is a
    [network.VirtualNetwork]. *)
Inductive vnet_value :=
  | VNetValue (v : network.VirtualNetwork)
  | VNetSlice (p : option (list network.VirtualNetwork)).

(** auth.Authorizer, auth.LoginConfig, the clients: handles *)
Record Authorizer := mkAuthorizer { authorizer_id : N }.
Record LoginConfig := mkLoginConfig { loginconfig_id : N }.
Record AuthenticationClient := mkAuthenticationClient { authclient_id : N }.
Record Clientset := mkClientset { clientset_id : N }.
Record RestConfig := mkRestConfig { restconfig_id : N; rest_Timeout : Z }.
(** A MOC client is made from the agent's name and an authorizer. *)
Record MocClient := mkMocClient { mc_CloudAgentFqdn : string; mc_Authorizer : Authorizer }.

(** ** Telemetry, cloud/telemetry/logutils.go *)
Inductive log_params :=
  | NoParams
  | ParamsInterface (o : network.Interface)
  | ParamsLoadBalancer (o : network.LoadBalancer)
  | ParamsVirtualNetwork (o : network.VirtualNetwork).
(** The time is kept as a number, before its RFC 3339 formatting. *)
Record OperationLog := mkOperationLog {
  ol_Timestamp : Z; ol_ParentResource : string; ol_Resource : string;
  ol_FilterKeyword : string; ol_Action : string; ol_Params : log_params;
  ol_ErrorCode : string; ol_Message : string }.
Record MocInfoLog := mkMocInfoLog {
  mi_MocDeploymentID : string; mi_WssdCloudAgentVersion : string; mi_MocVersion : string }.

Inductive Call : Type → Type :=
  (* sigs.k8s.io/controller-runtime/pkg/client *)
  | KGet (k : kind) (key : NamespacedName) : Call (error + kobj k)
  | KList (k : kind) (ns : string) (labels : list (string * string)) :
      Call (error + list (kobj k))
  | KCreate (k : kind) (obj : kobj k) : Call (option error)
  | KUpdate (k : kind) (obj : kobj k) : Call (option error)
  | KDelete (k : kind) (obj : kobj k) : Call (option error)
  | KCouBegin (k : kind) (obj : kobj k) : Call (cou_get k)
  | KCouEnd (k : kind) (obj : kobj k) : Call (OperationResult * option error * kobj k)
  (* sigs.k8s.io/cluster-api/util and util/patch *)
  | PatchNewHelper (k : kind) (obj : kobj k) : Call (option error)
  | KPatch (k : kind) (before obj : kobj k) (owned : list string) : Call (option error)
  | GetOwnerMachine (m : metav1.ObjectMeta) : Call (error + option clusterv1.Machine)
  | GetOwnerCluster (m : metav1.ObjectMeta) : Call (error + option clusterv1.Cluster)
  | GetClusterFromMetadata (m : metav1.ObjectMeta) : Call (error + clusterv1.Cluster)
  (* the event recorder and the telemetry records *)
  | Eventf (o : ObjectRef) (eventtype reason format : string) (args : list string) : Call unit
  | LogOperation (l : OperationLog) : Call unit
  | LogMocInfo (l : MocInfoLog) : Call unit
  (* the MOC agent *)
  | MocGet (c : MocClient) (k : moc_kind) (path : list string) :
      Call (error + option (list (mocobj k)))
  | MocGetVirtualNetwork (c : MocClient) (path : list string) :
      Call (vnet_value * option error)
  | MocCreateOrUpdate (c : MocClient) (k : moc_kind) (path : list string) (o : mocobj k) :
      Call (option error)
  | MocDelete (c : MocClient) (k : moc_kind) (path : list string) : Call (option error)
  | MocGetVersion (c : MocClient) : Call (error + string * string)
  | MocGetDeploymentId (c : MocClient) : Call (error + string)
  (* package variables other goroutines share *)
  | ReadVersionsService : Call (option MocClient)
  | WriteVersionsService (c : MocClient) : Call unit
  | MutexLock : Call unit
  | MutexUnlock : Call unit
  | GoUpdateLoginConfig : Call unit
  (* the process *)
  | TimeNow : Call Z
  | Getenv (name : string) : Call string
  | Stat (path : string) : Call (option error)
  | RandInt (max : Z) : Call (error + Z)
  | GenerateRSAKey : Call (error + N)
  | NewPublicKey (key : N) : Call (error + string)
  (* moc authentication *)
  | NewAuthorizerFromEnvironment (fqdn : string) : Call (error + Authorizer)
  | LoadYAMLConfig (data : string) : Call (error + LoginConfig)
  | NewAuthenticationClientAuthMode (fqdn : string) (cfg : LoginConfig) :
      Call (error + AuthenticationClient)
  | LoginWithConfig (c : AuthenticationClient) (cfg : LoginConfig) : Call (option error)
  | UpdateLoginConfigSdk (cfg : LoginConfig) : Call unit
  (* the workload cluster *)
  | KubeconfigFromSecret (key : NamespacedName) : Call (error + string)
  | RESTConfigFromKubeConfig (kubeconfig : string) : Call (error + RestConfig)
  | NewForConfig (cfg : RestConfig) : Call (error + Clientset)
  | ListVolumeAttachments (c : Clientset) : Call (error + option (list VolumeAttachment))
  (* the cluster the process runs in: k8s.io/client-go/rest, controller-runtime's client.New *)
  | InClusterConfig : Call (error + RestConfig)
  | NewClient (cfg : RestConfig) : Call (option error)
  (* the identifier of a reconciliation, from the context or new *)
  | ReconcileIDFromContext : Call string
  | NewUUID : Call string
  (* wait.PollImmediate: how many times the interval elapses before the timeout *)
  | PollTicks (interval timeout : Z) : Call nat.

(** reconcile.Result *)
Record Result := mkResult { Requeue : bool; RequeueAfter : Z }.
Definition no_result : Result := mkResult false 0.

Notation prog := (Prelude.prog Call).
Notation trace := (Prelude.trace Call).
Notation event := (Prelude.event Call).
Notation Env := (Prelude.Env Call).

(** ** Kinds of events *)
Definition on_call (P : ∀ R, Call R → Prop) (e : event) : Prop :=
  match e with Ev c _ => P _ c end.

(** A change to an object of the Kubernetes API *)
Definition is_write {R} (c : Call R) : bool :=
  match c with
  | KCreate _ _ | KUpdate _ _ | KDelete _ _ | KCouEnd _ _ | KPatch _ _ _ _ => true
  | _ => false
  end.
(** A change in the MOC agent *)
Definition is_moc_create {R} (c : Call R) : bool :=
  match c with MocCreateOrUpdate _ _ _ _ => true | _ => false end.
Definition is_moc_delete {R} (c : Call R) : bool :=
  match c with MocDelete _ _ _ => true | _ => false end.
Definition is_moc_delete_of (k : moc_kind) {R} (c : Call R) : bool :=
  match c with MocDelete _ k' _ => bool_decide (k = k') | _ => false end.
Definition is_moc_create_of (k : moc_kind) {R} (c : Call R) : bool :=
  match c with MocCreateOrUpdate _ k' _ _ => bool_decide (k = k') | _ => false end.
Definition is_moc_write {R} (c : Call R) : bool := is_moc_create c || is_moc_delete c.
(** Nothing but reads, records and the process *)
Definition is_silent {R} (c : Call R) : bool := negb (is_write c) && negb (is_moc_write c).

(** A predicate on calls as one on events *)
Definition ev_is (f : ∀ R, Call R → bool) (e : event) : Prop :=
  match e with Ev c _ => f _ c = true end.
Definition ev_not (f : ∀ R, Call R → bool) (e : event) : Prop :=
  match e with Ev c _ => f _ c = false end.
#[export] Instance ev_is_dec f e : Decision (ev_is f e).
Proof. destruct e. simpl. apply _. Defined.

#[export] Instance ev_not_dec f e : Decision (ev_not f e).
Proof. destruct e. simpl. apply _. Defined.

Lemma ev_not_is f g new :
  (∀ R (c : Call R), f R c = true → g R c = false) →
  Forall (ev_is f) new → Forall (λ e, ¬ ev_is g e) new.
Proof.
  intros Hfg HF. eapply Forall_impl; [exact HF|]. intros [R c r]; simpl. intros Hf Hg.
  specialize (Hfg R c Hf). congruence.
Qed.

(** The changes to the Kubernetes API, latest first *)
Definition writes (t : list event) : list event := filter (ev_is (@is_write)) t.
Lemma writes_app (new t : list event) :
  Forall (ev_is (@is_silent)) new → writes (new ++ t) = writes t.
Proof.
  unfold writes. induction 1 as [|[R c r] new Hc _ IH]; [done|].
  simpl. rewrite filter_cons_False; [done|]. by destruct c.
Qed.
Lemma writes_cons {R} (c : Call R) r (t : list event) :
  writes (Ev c r :: t) = if is_write c then Ev c r :: writes t else writes t.
Proof. unfold writes. rewrite filter_cons. simpl. by destruct (is_write c). Qed.
Lemma writes_concat (l1 l2 : list event) : writes (l1 ++ l2) = writes l1 ++ writes l2.
Proof. apply filter_app. Qed.
Lemma writes_silent (l : list event) : Forall (ev_is (@is_silent)) l → writes l = [].
Proof. intros H. by rewrite <-(app_nil_r l), writes_app. Qed.
Lemma writes_before (new l : list event) :
  Forall (ev_is (@is_silent)) l → writes (new ++ l) = writes new.
Proof. intros H. by rewrite writes_concat, (writes_silent l), app_nil_r. Qed.
Ltac writes_simpl :=
  repeat first [ rewrite writes_app by eauto | rewrite writes_cons; cbn [is_write] ].

(** The API server has accepted a patch of an object with [P]. *)
Definition patched (k : kind) (P : kobj k → Prop) (e : event) : Prop :=
  ∃ before obj owned, e = Ev (KPatch k before obj owned) None ∧ P obj.

(** *** What a trace did to the MOC agent, oldest first *)
Definition moc_delete_of (e : event) : option (moc_kind * list string * option error) :=
  match e with
  | Ev c r =>
      match c in Call R return R → _ with
      | MocDelete _ k path => λ r, Some (k, path, r)
      | _ => λ _, None
      end r
  end.
Definition moc_deletes (t : trace) := reverse (omap moc_delete_of t).
Definition moc_create_of (e : event) : option (moc_kind * list string * option error) :=
  match e with
  | Ev c r =>
      match c in Call R return R → _ with
      | MocCreateOrUpdate _ k path _ => λ r, Some (k, path, r)
      | _ => λ _, None
      end r
  end.
Definition moc_creates (t : trace) := reverse (omap moc_create_of t).

Lemma omap_none {A B} (f : A → option B) l : Forall (λ x, f x = None) l → omap f l = [].
Proof. induction 1 as [|x l Hx Hl IH]; [done|]. simpl. by rewrite Hx. Qed.
Lemma moc_deletes_app new t :
  Forall (λ e, ¬ ev_is (@is_moc_delete) e) new → moc_deletes (new ++ t) = moc_deletes t.
Proof.
  intros Hn. unfold moc_deletes. rewrite omap_app, reverse_app, (omap_none _ new).
  - by rewrite reverse_nil, app_nil_r.
  - eapply Forall_impl; [exact Hn|]. intros [R c r]; destruct c; simpl; naive_solver.
Qed.
Lemma moc_creates_app new t :
  Forall (λ e, ¬ ev_is (@is_moc_create) e) new → moc_creates (new ++ t) = moc_creates t.
Proof.
  intros Hn. unfold moc_creates. rewrite omap_app, reverse_app, (omap_none _ new).
  - by rewrite reverse_nil, app_nil_r.
  - eapply Forall_impl; [exact Hn|]. intros [R c r]; destruct c; simpl; naive_solver.
Qed.
Lemma moc_deletes_cons {R} (c : Call R) r t :
  moc_deletes (Ev c r :: t) =
    moc_deletes t ++ (match moc_delete_of (Ev c r) with Some x => [x] | None => [] end).
Proof.
  unfold moc_deletes. simpl. destruct (moc_delete_of (Ev c r)) eqn:E.
  - simpl in E. rewrite E. by rewrite reverse_cons.
  - simpl in E. rewrite E. by rewrite app_nil_r.
Qed.

Lemma silent_no_delete new :
  Forall (ev_is (@is_silent)) new → Forall (λ e, ¬ ev_is (@is_moc_delete) e) new.
Proof. apply ev_not_is. by intros R []. Qed.
Lemma silent_no_create new :
  Forall (ev_is (@is_silent)) new → Forall (λ e, ¬ ev_is (@is_moc_create) e) new.
Proof. apply ev_not_is. by intros R []. Qed.
#[export] Hint Resolve silent_no_delete silent_no_create : core.
Ltac deletes_simpl :=
  repeat first [ rewrite moc_deletes_app by eauto
               | rewrite moc_deletes_cons; cbn [moc_delete_of]; rewrite ?app_nil_r ].

(** ** Helpers every controller uses *)
Section Helpers.
Context {L : Libs} {S : Type}.
Local Open Scope prog_scope.

(** [controllerutil.CreateOrUpdate(ctx, c, obj, mutate)]. The mutate function works on the
    caller's object, which is returned as it is at the end. *)
Definition CreateOrUpdate (k : kind) (obj : kobj k)
    (mutate : kobj k → prog S (option error * kobj k))
    : prog S (OperationResult * option error * kobj k) :=
  found <- call (KCouBegin k obj) ;;
  match found with
  | CouFailed e => ret (OperationResultNone, Some e, obj)
  | CouNew | CouFound _ =>
      ' (err, obj) <- mutate (match found with CouFound o => o | _ => obj end) ;;
      match err with
      | Some e => ret (OperationResultNone, Some e, obj)
      | None => call (KCouEnd k obj)
      end
  end.

Lemma wp_CreateOrUpdate env k obj mutate
    (Q : outcome (OperationResult * option error * kobj k) → S → trace → Prop) s t :
  (∀ e, Q (Ok (OperationResultNone, Some e, obj)) s
          (Ev (KCouBegin k obj) (CouFailed e) :: t)) →
  (∀ found cur, found = CouNew ∧ cur = obj ∨ found = CouFound cur →
     wp env (mutate cur) (λ o s' t',
       match o with
       | Ok (Some e, obj') => Q (Ok (OperationResultNone, Some e, obj')) s' t'
       | Ok (None, obj') => ∀ r, Q (Ok r) s' (Ev (KCouEnd k obj') r :: t')
       | Panic w => Q (Panic w) s' t'
       | NoFuel => Q NoFuel s' t'
       end) s (Ev (KCouBegin k obj) found :: t)) →
  wp env (CreateOrUpdate k obj mutate) Q s t.
Proof.
  intros Hfail Hm. unfold CreateOrUpdate. do 2 wp_step. destruct r as [e| |cur].
  - by wp_step.
  - wp_step. eapply wp_mono; [apply Hm; by left|].
    intros [[[e|] obj']|w|] s' t'; simpl; auto using wp_ret.
    intros HQ. by wp_step.
  - wp_step. eapply wp_mono; [apply Hm; by right|].
    intros [[[e|] obj']|w|] s' t'; simpl; auto using wp_ret.
    intros HQ. by wp_step.
Qed.
Lemma frame_CreateOrUpdate (R : relation (S * trace)) `{!PreOrder R} k obj mutate :
  (∀ o, frame R (call (KCouBegin k o))) → (∀ o, frame R (call (KCouEnd k o))) →
  (∀ o, frame R (mutate o)) → frame R (CreateOrUpdate k obj mutate).
Proof. intros H1 H2 H3. unfold CreateOrUpdate. frame_auto; auto. Qed.

(** [conditions.Set(obj, c)] on an object inside the state *)
Definition SetCondition {T} `{Conditioned T} (get : S → T) (put : T → S → S)
    (c : metav1.Condition) : prog S unit :=
  now <- call TimeNow ;;
  modify (λ s, put (SetConditions (conditions_Set now (GetConditions (get s)) c) (get s)) s).

(** [wait.PollImmediate(interval, timeout, condition)] *)
Fixpoint poll (ticks : nat) (condition : prog S (error + bool)) : prog S (option error) :=
  try done <- condition iferr e then ret (Some e) ;;
  if done then ret None
  else match ticks with
       | O => ret (Some (ErrNew "timed out waiting for the condition"))
       | Datatypes.S n => poll n condition
       end.
Definition PollImmediate (interval timeout : Z) (condition : prog S (error + bool))
    : prog S (option error) :=
  n <- call (PollTicks interval timeout) ;;
  poll n condition.

Lemma frame_poll (R : relation (S * trace)) `{!PreOrder R} n condition :
  frame R condition → frame R (poll n condition).
Proof. intros Hc. induction n; simpl; frame_auto. Qed.
End Helpers.

(** [defer func() { ...; if err := close(); err != nil && reterr == nil { reterr = err } }()]
    around the body of a handler *)
Definition with_close {S} (close : prog S (option error))
    (body : prog S (Result * option error)) : prog S (Result * option error) :=
  deferred (no_result, None) (λ '(result, reterr),
    bind close (λ err,
      ret (result, match reterr with None => err | Some _ => reterr end))) body.

(** The close runs whether the body returned or panicked. *)
Lemma wp_with_close {S} env (close : prog S (option error)) body Q (s : S) t :
  wp env body (λ o s' t',
    match o with
    | Ok (result, reterr) =>
        wp env close (λ o2 s2 t2,
          match o2 with
          | Ok err => Q (Ok (result, match reterr with None => err | Some _ => reterr end)) s2 t2
          | Panic w => Q (Panic w) s2 t2
          | NoFuel => Q NoFuel s2 t2
          end) s' t'
    | Panic w =>
        wp env close (λ o2 s2 t2,
          match o2 with Panic w' => Q (Panic w') s2 t2 | _ => Q (Panic w) s2 t2 end) s' t'
    | NoFuel => Q NoFuel s' t'
    end) s t →
  wp env (with_close close body) Q s t.
Proof.
  intros Hb. apply wp_deferred. eapply wp_mono; [exact Hb|].
  intros [[result reterr]|w|] s' t' H; [| |done]; apply wp_bind;
    (eapply wp_mono; [exact H|]); intros [] s2 t2 H2; simpl; try done.
Qed.

Ltac wp_set_condition :=
  lazymatch goal with
  | |- wp _ (SetCondition _ _ _) _ _ _ => unfold SetCondition
  end.
