(* ===== verification/Util.v ===== *)
(** * pkg/util/util.go

    Random names, correlation ids, the machines of a cluster, and what the VM controller asks
    the workload cluster: the node of a machine and the volumes attached to it. *)
From stdpp Require Import prelude strings list gmap.
From Stdlib Require Import Ascii.
From S2P Require Import Prelude GoStd External Api Effects.
Local Open Scope prog_scope.

Definition charSet := "abcdefghijklmnopqrstuvwxyz0123456789".
Definition diskCsiDriver := "disk.csi.akshci.com".

(** [s[i]] of a Go string; an index outside it panics. *)
Definition string_index {S} (s : string) (i : Z) : prog S ascii :=
  match (if Z.ltb i 0 then None else String.get (Z.to_nat i) s) with
  | Some c => ret c
  | None => panic "index out of range"
  end.

Section Util.
Context {L : Libs} {S : Type}.

(** [RandomAlphaNumericString(n)] *)
Fixpoint RandomAlphaNumericString (n : nat) : prog S (error + string) :=
  match n with
  | O => ret (inr "")
  | Datatypes.S n' =>
      try val <- call (RandInt (Z.of_nat (String.length charSet))) iferr err
        then ret (inl err) ;;
      c <- string_index charSet val ;;
      try rest <- RandomAlphaNumericString n' iferr err then ret (inl err) ;;
      ret (inr (String c rest))
  end.

(** [GetAzureStackHCIMachinesInCluster(ctx, c, namespace, clusterName)] *)
Definition GetAzureStackHCIMachinesInCluster (namespace clusterName : string)
    : prog S (error + list AzureStackHCIMachine) :=
  call (KList KMachine namespace [(clusterv1.ClusterNameLabel, clusterName)]).

Definition NewTargetClusterConfig (clusterKey : NamespacedName)
    : prog S (error + RestConfig) :=
  let ns := nn_Namespace clusterKey in
  let name := nn_Name clusterKey in
  try kubeconfig <- call (KubeconfigFromSecret clusterKey) iferr err then
    ret (inl (ErrWrap err ("failed to retrieve kubeconfig secret for cluster "
                           +:+ ns +:+ ":" +:+ name))) ;;
  try restConfig <- call (RESTConfigFromKubeConfig kubeconfig) iferr err then
    ret (inl (ErrWrap err ("failed to create client configuration for cluster "
                           +:+ ns +:+ ":" +:+ name))) ;;
  ret (inr restConfig).

Definition NewTargetClusterClient (clusterKey : NamespacedName)
    : prog S (error + Clientset) :=
  let ns := nn_Namespace clusterKey in
  let name := nn_Name clusterKey in
  try restConfig <- NewTargetClusterConfig clusterKey iferr err then
    ret (inl (ErrWrap err ("failed to create client configuration for cluster "
                           +:+ ns +:+ ":" +:+ name))) ;;
  let restConfig := restConfig <| rest_Timeout := (10 * Second)%Z |> in
  try targetClusterClient <- call (NewForConfig restConfig) iferr err then
    ret (inl (ErrWrap err ("failed to connect to the cluster " +:+ ns +:+ ":" +:+ name))) ;;
  ret (inr targetClusterClient).

(** [GetReconcileID(ctx)], which labels the lines of a log *)
Definition GetReconcileID : prog S string :=
  reconcileID <- call ReconcileIDFromContext ;;
  if decide (reconcileID = "") then call NewUUID else ret reconcileID.

(** [GetNodeName(ctx, client, obj)] *)
Definition GetNodeName (obj : metav1.ObjectMeta) : prog S (error + string) :=
  try machine <- call (GetOwnerMachine obj) iferr err then
    ret (inl (ErrWrap err ("failed to get owner machine for "
                +:+ metav1.Namespace obj +:+ "." +:+ metav1.Name obj))) ;;
  match machine with
  | None => ret (inl (ErrNew ("resource " +:+ metav1.Namespace obj +:+ "."
                        +:+ metav1.Name obj +:+ " has no owning machine")))
  | Some machine =>
      if decide (clusterv1.m_NodeRefName machine = "") then
        ret (inl (ErrNew ("machine " +:+ metav1.Namespace (clusterv1.m_meta machine)
               +:+ "." +:+ metav1.Name (clusterv1.m_meta machine) +:+ " has no node ref")))
      else ret (inr (clusterv1.m_NodeRefName machine))
  end.

(** The volumes of a list that the CSI disk driver attached to the node *)
Definition attached_to (nodeName : string) (va : VolumeAttachment) : bool :=
  bool_decide (va_Attacher va = diskCsiDriver) && EqualFold (va_NodeName va) nodeName.
Fixpoint volumes_on_node (nodeName : string) (items : list VolumeAttachment)
    : list string :=
  match items with
  | [] => []
  | va :: items' =>
      if attached_to nodeName va
      then default "" (va_PersistentVolumeName va) :: volumes_on_node nodeName items'
      else volumes_on_node nodeName items'
  end.

(** [ListVolumeAttachmentOnNode(ctx, client, clusterKey, nodeName)] *)
Definition ListVolumeAttachmentOnNode (client : Clientset) (clusterKey : NamespacedName)
    (nodeName : string) : prog S (error + list string) :=
  try volumeAttachmentList <- call (ListVolumeAttachments client) iferr err then
    ret (inl (ErrWrap err ("failed to list VolumeAttachments for Cluster "
          +:+ nn_Namespace clusterKey +:+ ":" +:+ nn_Name clusterKey))) ;;
  match volumeAttachmentList with
  | Some items => ret (inr (volumes_on_node nodeName items))
  | None => ret (inr [])
  end.
End Util.

(** [CopyCorrelationID(source, target)] *)
Definition CopyCorrelationID {T T'} `{Object T, Object T'} (source : T) (target : T') : T' :=
  let sourceAnnotations := GetAnnotations source in
  if decide (default ∅ sourceAnnotations = ∅) then target
  else
    let annotations := default ∅ (GetAnnotations target) in
    let annotations := <[AzureCorrelationIDAnnotationKey :=
        map_get sourceAnnotations AzureCorrelationIDAnnotationKey]> annotations in
    let annotations := <[AzureOperationIDAnnotationKey :=
        map_get sourceAnnotations AzureOperationIDAnnotationKey]> annotations in
    SetAnnotations (Some annotations) target.

(** ** Properties *)
Lemma volumes_on_node_filter nodeName items :
  volumes_on_node nodeName items =
    (λ va, default "" (va_PersistentVolumeName va)) <$>
      filter (λ va, attached_to nodeName va = true) items.
Proof.
  induction items as [|va items IH]; [done|]. simpl. rewrite filter_cons.
  destruct (attached_to nodeName va) eqn:Ha.
  - rewrite decide_True by done. csimpl. by rewrite IH.
  - by rewrite decide_False by congruence.
Qed.

Lemma CopyCorrelationID_meta {T T'} `{Object T, Object T'} (source : T) (target : T') :
  (∀ m (o : T'), MetaOf (SetMeta m o) = m) →
  let m := MetaOf (CopyCorrelationID source target) in
  metav1.Name m = metav1.Name (MetaOf target) ∧
  metav1.Namespace m = metav1.Namespace (MetaOf target) ∧
  metav1.OwnerReferences m = metav1.OwnerReferences (MetaOf target) ∧
  metav1.Labels m = metav1.Labels (MetaOf target) ∧
  metav1.Finalizers m = metav1.Finalizers (MetaOf target).
Proof.
  intros HM. unfold CopyCorrelationID. case_decide; [done|].
  unfold SetAnnotations. cbv zeta. rewrite HM. by destruct (MetaOf target).
Qed.
