(* ===== verification/Naming.v ===== *)
(** * cloud/defaults.go, cloud/errors.go and cloud/converters/vm.go

    The names of the resources of a cluster, the default image, the classification of MOC
    errors and the conversion of an SDK virtual machine. *)
From stdpp Require Import prelude strings list gmap pretty.
From S2P Require Import Prelude GoStd External Api Effects Util.
Local Open Scope prog_scope.

Definition DefaultUserName := "clouduser".
Definition DefaultVnetCIDR := "10.0.0.0/8".
Definition DefaultAzureStackHCIDNSZone := "cloudapp.azurestackhci.com".
Definition DefaultImageOfferID := "linux".
Definition DefaultImageSKU := "linux".
Definition DefaultImagePublisherID := "na".
Definition LatestVersion := "latest".
Definition LBRoleTagName := "Role".
Definition LBRoleAksHciApiServer := "AKSHCI_APISERVER".

Definition SupportedAvailabilityZoneLocations : list string :=
  ["centralus"; "eastus"; "eastus2"; "westus2";
   "francecentral"; "northeurope"; "uksouth"; "westeurope";
   "japaneast"; "southeastasia"].

Definition GenerateVnetName (clusterName : string) := clusterName +:+ "-" +:+ "vnet".
Definition GenerateControlPlaneSecurityGroupName (clusterName : string) :=
  clusterName +:+ "-" +:+ "controlplane-nsg".
Definition GenerateNodeSecurityGroupName (clusterName : string) :=
  clusterName +:+ "-" +:+ "node-nsg".
Definition GenerateNodeRouteTableName (clusterName : string) :=
  clusterName +:+ "-" +:+ "node-routetable".
Definition GenerateControlPlaneSubnetName (clusterName : string) :=
  clusterName +:+ "-" +:+ "controlplane-subnet".
Definition GenerateNodeSubnetName (clusterName : string) :=
  clusterName +:+ "-" +:+ "node-subnet".
Definition GenerateFQDN (publicIPName location : string) :=
  publicIPName +:+ "." +:+ location +:+ "." +:+ DefaultAzureStackHCIDNSZone.
Definition GenerateNICName (machineName : string) := machineName +:+ "-nic".
Definition GenerateIPConfigName (nicName : string) (index : nat) :=
  nicName +:+ "-ipconfig-" +:+ fmt_d (Z.of_nat index).
Definition GenerateOSDiskName (machineName : string) := machineName +:+ "_OSDisk".
Definition GenerateAzureStackHCILoadBalancerName (clusterName : string) :=
  clusterName +:+ "-load-balancer".
Definition GenerateControlPlaneBackendPoolName (clusterName : string) :=
  clusterName +:+ "-controlplane-backend-pool".
Definition GenerateBackendPoolName (clusterName : string) := clusterName +:+ "-backend-pool".

(** [GenerateAzureStackHCILoadBalancerMachineName]: the name and an error *)
Definition GenerateAzureStackHCILoadBalancerMachineName {S} (loadBalancerName : string)
    : prog S (string * option error) :=
  try randomString <- RandomAlphaNumericString 5 iferr err
    then ret (loadBalancerName, Some err) ;;
  ret (loadBalancerName +:+ "-" +:+ randomString, None).

Section Images.
Context {L : Libs}.
(** [getDefaultImageName] and [GetDefaultImage] *)
Definition getDefaultImageName (osType : OSType) (k8sVersion : string) : error + string :=
  match ParseTolerant k8sVersion with
  | inl err => inl (ErrWrap err ("unable to parse Kubernetes version "
        +:+ String dquote (k8sVersion +:+ String dquote
            " in spec, expected valid SemVer string")))
  | inr (major, minor, patch) =>
      inr (osType +:+ "_k8s_" +:+ fmt_d (Z.of_N major) +:+ "-" +:+ fmt_d (Z.of_N minor)
             +:+ "-" +:+ fmt_d (Z.of_N patch))
  end.
Definition GetDefaultImage (osType : OSType) (k8sVersion : string) : error + Image :=
  match getDefaultImageName osType k8sVersion with
  | inl err => inl (ErrWrap err "failed to get default image name")
  | inr imageName =>
      inr (zero_Image <| img_Name := Some imageName |> <| img_OSType := osType |>
             <| img_Publisher := Some DefaultImagePublisherID |>
             <| img_Offer := Some DefaultImageOfferID |>
             <| img_SKU := Some DefaultImageSKU |>
             <| img_Version := Some LatestVersion |>)
  end.

(** cloud/errors.go *)
Definition ResourceNotFound (err : error) : bool :=
  bool_decide (status_Code err = Some codes_NotFound).
Definition ResourceAlreadyExists (err : error) : bool :=
  bool_decide (status_Code err = Some codes_AlreadyExists).
End Images.

(** [converters.SDKToVM]; its error is always nil *)
Definition SDKToVM (v : compute.VirtualMachine) : VM :=
  zero_VM <| vm_ID := to_String (compute.vm_ID v) |>
          <| vm_Name := to_String (compute.vm_Name v) |>
          <| vm_State := VMStateSucceeded |>.

(** ** Properties *)
#[export] Instance GenerateNICName_inj : Inj (=) (=) GenerateNICName.
Proof. intros a b. apply append_inj_r. Qed.
#[export] Instance GenerateOSDiskName_inj : Inj (=) (=) GenerateOSDiskName.
Proof. intros a b. apply append_inj_r. Qed.
#[export] Instance GenerateAzureStackHCILoadBalancerName_inj :
  Inj (=) (=) GenerateAzureStackHCILoadBalancerName.
Proof. intros a b. apply append_inj_r. Qed.
#[export] Instance GenerateIPConfigName_inj nic :
  Inj (=) (=) (GenerateIPConfigName nic).
Proof. intros i j H%append_inj_l%append_inj_l%(inj pretty). lia. Qed.
Lemma ResourceNotFound_Wrap {L : Libs} {LL : LibLaws L} err msg :
  ResourceNotFound (ErrWrap err msg) = true → ResourceNotFound err = true.
Proof. unfold ResourceNotFound. rewrite !bool_decide_eq_true. apply status_Code_Wrap. Qed.
