(* ===== verification/Auth.v ===== *)
(** * pkg/auth/auth.go

    How a scope gets its authorizer: from the environment when the login file is there, and
    otherwise through a login under the package's mutex. *)
From stdpp Require Import prelude strings list gmap.
From S2P Require Import Prelude GoStd External Api Effects Naming.
Local Open Scope prog_scope.

Definition AzHCIAccessCreds := "caphlogintoken".
Definition AzHCICreds := "cloudconfig".
Definition AzHCIAccessTokenFieldName := "value".

Section Auth.
Context {L : Libs} {S : Type}.

(** [GetSecret(ctx, cli, name)] *)
Definition GetSecret (name : string) : prog S (error + Secret) :=
  try secret <- call (KGet KSecret (mkNN "default" name)) iferr err then
    ret (inl (ErrWrap err "kubernetes secret query failed")) ;;
  ret (inr secret).

(** [CreateSecret(ctx, cli, name, data)] *)
Definition CreateSecret (name data : string) : prog S (error + Secret) :=
  let secret := mkSecret (metav1.named_meta "default" name)
                         {[ AzHCIAccessTokenFieldName := data ]} in
  iferr err <- call (KCreate KSecret secret) then
    ret (inl (ErrWrap err "kubernetes secret create failed")) ;;
  ret (inr secret).

(** What [login] does between [mut.Lock()] and [mut.Unlock()] *)
Definition login_locked (wssdconfigpath cloudFqdn : string) : prog S (error + Authorizer) :=
  staterr <- call (Stat wssdconfigpath) ;;
  early <- match staterr with
           | None =>
               a <- call (NewAuthorizerFromEnvironment cloudFqdn) ;;
               match a with inr authorizer => ret (Some authorizer) | inl _ => ret None end
           | Some _ => ret None
           end ;;
  match early with
  | Some authorizer => ret (inr authorizer)
  | None =>
      try secret <- GetSecret AzHCIAccessCreds iferr err then
        ret (inl (ErrWrap err
          "failed to create wssd session, missing login credentials secret")) ;;
      match sec_Data secret !! AzHCIAccessTokenFieldName with
      | None => ret (inl (ErrNew "error: could not parse kubernetes secret"))
      | Some data =>
          try loginconfig <- call (LoadYAMLConfig data) iferr err then
            ret (inl (ErrWrap err
              "failed to create wssd session: parse yaml login config failed")) ;;
          try client <- call (NewAuthenticationClientAuthMode cloudFqdn loginconfig)
            iferr err then ret (inl err) ;;
          loginerr <- call (LoginWithConfig client loginconfig) ;;
          let failed :=
            match loginerr with
            | Some err => negb (ResourceAlreadyExists err)
            | None => false
            end in
          if failed then
            ret (inl (ErrWrap (default (ErrNew "") loginerr)
                        "failed to create wssd session: login failed"))
          else
            iferr err <- call (Stat wssdconfigpath) then
              ret (inl (ErrWrap err
                ("Missing wssdconfig " +:+ wssdconfigpath +:+ " after login"))) ;;
            call (NewAuthorizerFromEnvironment cloudFqdn)
      end
  end.

Definition login (cloudFqdn : string) : prog S (error + Authorizer) :=
  wssdconfigpath <- call (Getenv "WSSD_CONFIG_PATH") ;;
  if decide (wssdconfigpath = "") then
    ret (inl (ErrNew
      "ReconcileAzureStackHCIAccess: Environment variable WSSD_CONFIG_PATH is not set"))
  else
    call MutexLock ;;
    deferred (inl (ErrNew "")) (λ r, call MutexUnlock ;; ret r)
      (login_locked wssdconfigpath cloudFqdn).

(** [UpdateLoginConfig], which runs in a goroutine of its own *)
Definition UpdateLoginConfig : prog S unit :=
  secret <- GetSecret AzHCIAccessCreds ;;
  match secret with
  | inl _ => ret tt
  | inr secret =>
      match sec_Data secret !! AzHCIAccessTokenFieldName with
      | None => ret tt
      | Some data =>
          loginconfig <- call (LoadYAMLConfig data) ;;
          match loginconfig with
          | inl _ => ret tt
          | inr loginconfig => call (UpdateLoginConfigSdk loginconfig)
          end
      end
  end.

Definition ReconcileAzureStackHCIAccess (cloudFqdn : string)
    : prog S (error + Authorizer) :=
  let from_environment :=
    a <- call (NewAuthorizerFromEnvironment cloudFqdn) ;;
    match a with
    | inl err =>
        if negb (IsExpired err) then
          ret (inl (ErrWrap err "error: new authorizer failed"))
        else login cloudFqdn
    | inr authorizer => ret (inr authorizer)
    end in
  wssdconfigpath <- call (Getenv "WSSD_CONFIG_PATH") ;;
  if decide (wssdconfigpath = "") then
    ret (inl (ErrNew
      "ReconcileAzureStackHCIAccess: Environment variable WSSD_CONFIG_PATH is not set"))
  else
    debug <- call (Getenv "WSSD_DEBUG_MODE") ;;
    if decide (ToLower debug ≠ "on") then
      staterr <- call (Stat wssdconfigpath) ;;
      match staterr with
      | Some _ => login cloudFqdn
      | None => call GoUpdateLoginConfig ;; from_environment
      end
    else from_environment.

(** [GetAuthorizerFromKubernetesCluster(ctx, cloudFqdn)]: the client is one for the cluster
    the process runs in. *)
Definition GetAuthorizerFromKubernetesCluster (cloudFqdn : string)
    : prog S (error + Authorizer) :=
  try config <- call InClusterConfig iferr err then ret (inl err) ;;
  let config := config <| rest_Timeout := (10 * Second)%Z |> in
  iferr err <- call (NewClient config) then
    ret (inl (ErrWrap err "failed to create a client")) ;;
  ReconcileAzureStackHCIAccess cloudFqdn.
End Auth.

(** ** Properties *)
(** What the package does besides reading: the login and its mutex, no write to the
    Kubernetes API and no change in the MOC agent. *)
Definition is_auth {R} (c : Call R) : bool :=
  match c with
  | Getenv _ | Stat _ | NewAuthorizerFromEnvironment _ | LoadYAMLConfig _
  | NewAuthenticationClientAuthMode _ _ | LoginWithConfig _ _ | MutexLock | MutexUnlock
  | GoUpdateLoginConfig | InClusterConfig | NewClient _ => true
  | KGet k _ => bool_decide (k = KSecret)
  | _ => false
  end.

Lemma login_frame {L : Libs} {S} fqdn :
  frame (extends (ev_is (@is_auth))) (login (S:=S) fqdn).
Proof. unfold login, login_locked, GetSecret. frame_auto. Qed.
#[export] Hint Resolve login_frame : frames.
Lemma ReconcileAzureStackHCIAccess_frame {L : Libs} {S} fqdn :
  frame (extends (ev_is (@is_auth))) (ReconcileAzureStackHCIAccess (S:=S) fqdn).
Proof. unfold ReconcileAzureStackHCIAccess. frame_auto. Qed.
#[export] Hint Resolve ReconcileAzureStackHCIAccess_frame : frames.

(** The state of the mutex after a trace: [None] when it was locked while held, which blocks
    for ever, or unlocked while free, which panics. *)
Fixpoint lock_state (t : trace) : option bool :=
  match t with
  | [] => Some false
  | Ev c _ :: t' =>
      match c, lock_state t' with
      | MutexLock, Some false => Some true
      | MutexLock, _ => None
      | MutexUnlock, Some true => Some false
      | MutexUnlock, _ => None
      | _, st => st
      end
  end.
Lemma login_lock_state {L : Libs} {S} fqdn env (s : S) t :
  lock_state t = Some false → lock_state (login fqdn env s t).2 = Some false.
Proof.
  intros Ht. change (wp env (login fqdn) (λ _ _ t', lock_state t' = Some false) s t).
  unfold login, login_locked, GetSecret. wp_run; simpl; by rewrite ?Ht.
Qed.
Lemma ReconcileAzureStackHCIAccess_lock_state {L : Libs} {S} fqdn env (s : S) t :
  lock_state t = Some false →
  lock_state (ReconcileAzureStackHCIAccess fqdn env s t).2 = Some false.
Proof.
  intros Ht.
  change (wp env (ReconcileAzureStackHCIAccess fqdn) (λ _ _ t', lock_state t' = Some false) s t).
  unfold ReconcileAzureStackHCIAccess. wp_run; simpl; rewrite ?Ht; try done;
    apply login_lock_state; by simpl; rewrite ?Ht.
Qed.
Lemma GetAuthorizerFromKubernetesCluster_frame {L : Libs} {S} fqdn :
  frame (extends (ev_is (@is_auth))) (GetAuthorizerFromKubernetesCluster (S:=S) fqdn).
Proof. unfold GetAuthorizerFromKubernetesCluster. frame_auto. Qed.
(** Without a configuration of the pod, or without a client, it fails before any login; with
    both it is the access of [ReconcileAzureStackHCIAccess], and it never leaves the mutex
    locked. *)
Lemma GetAuthorizerFromKubernetesCluster_lock_state {L : Libs} {S} fqdn env (s : S) t :
  lock_state t = Some false →
  lock_state (GetAuthorizerFromKubernetesCluster fqdn env s t).2 = Some false.
Proof.
  intros Ht. change (wp env (GetAuthorizerFromKubernetesCluster fqdn)
                       (λ _ _ t', lock_state t' = Some false) s t).
  unfold GetAuthorizerFromKubernetesCluster. wp_run; simpl; rewrite ?Ht; try done;
    apply ReconcileAzureStackHCIAccess_lock_state; by simpl; rewrite ?Ht.
Qed.
