(* ===== verification/Scope.v ===== *)
(** * cloud/scope

    The scopes a reconciliation works in: the objects it may change, the patch helper's copy
    of the object as it was when the scope was made, and the access to the MOC agent. The
    client and the logger of a scope are the environment. *)
From stdpp Require Import prelude strings list gmap.
From S2P Require Import Prelude GoStd External Api Effects Naming Auth.
Local Open Scope prog_scope.

(** ** scopeinterface.go: what the cloud services need of a scope *)
Class ScopeInterface (S : Type) := {
  GetResourceGroup : S → string;
  GetCloudAgentFqdn : S → string;
  GetAuthorizer : S → Authorizer;
  GetCustomResourceTypeWithName : S → string }.

(** The MOC client a service makes from its scope *)
Definition moc_client {S} `{ScopeInterface S} (s : S) : MocClient :=
  mkMocClient (GetCloudAgentFqdn s) (GetAuthorizer s).

Definition fqdn_missing : error :=
  ErrNew ("error creating azurestackhci services. Environment variable "
          +:+ "AZURESTACKHCI_CLOUDAGENT_FQDN is not set").

(** ** cluster.go *)
Module ClusterScope.
Record ClusterScope := mkScope {
  CloudAgentFqdn : string;
  Authorizer : Effects.Authorizer;
  patchBefore : AzureStackHCICluster;
  Cluster : clusterv1.Cluster;
  HCICluster : AzureStackHCICluster (* AzureStackHCICluster *) }.

Section New.
Context {L : Libs} {S : Type}.
Definition NewClusterScope (cluster : option clusterv1.Cluster)
    (hciCluster : option AzureStackHCICluster) : prog S (error + ClusterScope) :=
  match cluster, hciCluster with
  | None, _ => ret (inl (ErrNew "failed to generate new scope from nil Cluster"))
  | _, None =>
      ret (inl (ErrNew "failed to generate new scope from nil AzureStackHCICluster"))
  | Some cluster, Some hciCluster =>
      agentFqdn <- call (Getenv "AZURESTACKHCI_CLOUDAGENT_FQDN") ;;
      if decide (agentFqdn = "") then ret (inl fqdn_missing)
      else
        iferr err <- call (PatchNewHelper KCluster hciCluster) then
          ret (inl (ErrWrap err "failed to init patch helper")) ;;
        try authorizer <- ReconcileAzureStackHCIAccess agentFqdn iferr err then
          ret (inl (ErrWrap err ("error creating azurestackhci services. "
                      +:+ "can not authenticate to azurestackhci"))) ;;
        ret (inr (mkScope agentFqdn authorizer hciCluster cluster hciCluster))
  end.
End New.

Definition Vnet (s : ClusterScope) : VnetSpec :=
  ns_Vnet (cs_NetworkSpec (hc_Spec (HCICluster s))).
Definition Subnets (s : ClusterScope) : list (option SubnetSpec) :=
  ns_Subnets (cs_NetworkSpec (hc_Spec (HCICluster s))).
Definition Name (s : ClusterScope) : string := metav1.Name (clusterv1.cl_meta (Cluster s)).
Definition Namespace (s : ClusterScope) : string :=
  metav1.Namespace (clusterv1.cl_meta (Cluster s)).
Definition APIVersion (s : ClusterScope) : string :=
  metav1.APIVersion (clusterv1.cl_type (Cluster s)).
Definition Kind (s : ClusterScope) : string := metav1.Kind (clusterv1.cl_type (Cluster s)).
Definition UID (s : ClusterScope) : string := metav1.UID (clusterv1.cl_meta (Cluster s)).
Definition Location (s : ClusterScope) : string := cs_Location (hc_Spec (HCICluster s)).
Definition ListOptionsLabelSelector (s : ClusterScope) : list (string * string) :=
  [(clusterv1.ClusterNameLabel, Name s)].
(** The nil check on the cluster is the type of the scope. *)
Definition APIServerPort (s : ClusterScope) : Z :=
  if decide (clusterv1.cl_APIServerPort (Cluster s) = 0%Z) then 6443
  else clusterv1.cl_APIServerPort (Cluster s).
Definition LoadBalancerSpec (s : ClusterScope) : option AzureStackHCILoadBalancerSpec :=
  cs_AzureStackHCILoadBalancer (hc_Spec (HCICluster s)).

#[export] Instance ClusterScope_ScopeInterface : ScopeInterface ClusterScope := {
  GetResourceGroup s := cs_ResourceGroup (hc_Spec (HCICluster s));
  GetCloudAgentFqdn := CloudAgentFqdn;
  GetAuthorizer := Authorizer;
  GetCustomResourceTypeWithName s := "Cluster/" +:+ Namespace s +:+ "/" +:+ Name s }.

Definition PatchObject : prog ClusterScope (option error) :=
  before <- gets patchBefore ;;
  obj <- gets HCICluster ;;
  call (KPatch KCluster before obj
          [clusterv1.ReadyCondition; NetworkInfrastructureReadyCondition]).
Definition Close : prog ClusterScope (option error) := PatchObject.

Definition GetNamespaceOrDefault (namespace : string) : string :=
  if decide (namespace = "") then "default" else namespace.
Definition GetSecret (name : string) : prog ClusterScope (error + Secret) :=
  ns <- gets Namespace ;;
  try secret <- call (KGet KSecret (mkNN (GetNamespaceOrDefault ns) name)) iferr err then
    ret (inl (ErrWrap err "kubernetes secret query for azurestackhci access token failed")) ;;
  ret (inr secret).
End ClusterScope.
Export (hints) ClusterScope.
Notation ClusterScope := ClusterScope.ClusterScope.

(** ** machine.go *)
Module MachineScope.
Record MachineScope := mkScope {
  patchBefore : AzureStackHCIMachine;
  Cluster : clusterv1.Cluster;
  Machine : clusterv1.Machine;
  HCICluster : AzureStackHCICluster;
  HCIMachine : AzureStackHCIMachine }.

Section New.
Context {L : Libs} {S : Type}.
Definition NewMachineScope (machine : option clusterv1.Machine)
    (cluster : option clusterv1.Cluster) (hciCluster : option AzureStackHCICluster)
    (hciMachine : option AzureStackHCIMachine) : prog S (error + MachineScope) :=
  match machine, cluster, hciCluster, hciMachine with
  | None, _, _, _ =>
      ret (inl (ErrNew "machine is required when creating a MachineScope"))
  | _, None, _, _ =>
      ret (inl (ErrNew "cluster is required when creating a MachineScope"))
  | _, _, None, _ =>
      ret (inl (ErrNew "azurestackhci cluster is required when creating a MachineScope"))
  | _, _, _, None =>
      ret (inl (ErrNew "azurestackhci machine is required when creating a MachineScope"))
  | Some machine, Some cluster, Some hciCluster, Some hciMachine =>
      iferr err <- call (PatchNewHelper KMachine hciMachine) then
        ret (inl (ErrWrap err "failed to init patch helper")) ;;
      ret (inr (mkScope hciMachine cluster machine hciCluster hciMachine))
  end.
End New.

Definition Location (m : MachineScope) : string := cs_Location (hc_Spec (HCICluster m)).
Definition AvailabilityZone (m : MachineScope) : string :=
  match ms_AvailabilityZone (hm_Spec (HCIMachine m)) with
  | Some az => default "" (az_ID az)
  | None => ""
  end.
Definition Name (m : MachineScope) : string := GetName (HCIMachine m).
Definition Namespace (m : MachineScope) : string := GetNamespace (HCIMachine m).

Section Role.
Context {L : Libs}.
Definition IsControlPlane (m : MachineScope) : bool := IsControlPlaneMachine (Machine m).
Definition Role (m : MachineScope) : string :=
  if IsControlPlaneMachine (Machine m) then ControlPlane else Node.
End Role.

Definition GetProviderID (m : MachineScope) : string :=
  default "" (ms_ProviderID (hm_Spec (HCIMachine m))).
Definition GetVMID (m : MachineScope) : option string := Some (GetProviderID m).
Definition SetProviderID (v : string) (m : MachineScope) : MachineScope :=
  m <| HCIMachine ::= (λ o, o <| hm_Spec ::= (λ s, s <| ms_ProviderID := Some v |>) |>) |>.
Definition GetVMState (m : MachineScope) : option VMState :=
  mst_VMState (hm_Status (HCIMachine m)).
Definition SetVMState (v : VMState) (m : MachineScope) : MachineScope :=
  m <| HCIMachine ::= (λ o, o <| hm_Status ::= (λ s, s <| mst_VMState := Some v |>) |>) |>.
Definition SetReady (m : MachineScope) : MachineScope :=
  m <| HCIMachine ::= (λ o, o <| hm_Status ::= (λ s,
         s <| mst_Ready := true |>
           <| mst_Initialization := Some (mkInitializationStatus (Some true)) |>) |>) |>.
Definition SetAnnotation (key value : string) (m : MachineScope) : MachineScope :=
  m <| HCIMachine ::= (λ o,
         SetAnnotations (Some (<[key := value]> (default ∅ (GetAnnotations o)))) o) |>.

Definition PatchObject : prog MachineScope (option error) :=
  before <- gets patchBefore ;;
  obj <- gets HCIMachine ;;
  call (KPatch KMachine before obj [clusterv1.ReadyCondition; VMRunningCondition]).
Definition Close : prog MachineScope (option error) := PatchObject.

Definition GetBootstrapData : prog MachineScope (error + string) :=
  m <- gets Machine ;;
  match clusterv1.m_DataSecretName m with
  | None => ret (inl (ErrNew ("error retrieving bootstrap data: linked Machine's "
                +:+ "bootstrap.dataSecretName is nil")))
  | Some secretName =>
      ns <- gets Namespace ;;
      name <- gets Name ;;
      try secret <- call (KGet KSecret (mkNN ns secretName)) iferr err then
        ret (inl (ErrWrap err ("failed to retrieve bootstrap data secret for "
                    +:+ "AzureStackHCIMachine " +:+ ns +:+ "/" +:+ name))) ;;
      match sec_Data secret !! "value" with
      | None =>
          ret (inl (ErrNew "error retrieving bootstrap data: secret value key is missing"))
      | Some value => ret (inr (Base64.EncodeToString value))
      end
  end.
End MachineScope.
Notation MachineScope := MachineScope.MachineScope.

(** ** virtualmachine.go *)
Module VirtualMachineScope.
Record VirtualMachineScope := mkScope {
  CloudAgentFqdn : string;
  Authorizer : Effects.Authorizer;
  patchBefore : AzureStackHCIVirtualMachine;
  HCIVM : AzureStackHCIVirtualMachine (* AzureStackHCIVirtualMachine *) }.

Section New.
Context {L : Libs} {S : Type}.
Definition NewVirtualMachineScope (vm : option AzureStackHCIVirtualMachine)
    : prog S (error + VirtualMachineScope) :=
  match vm with
  | None => ret (inl (ErrNew
      "azurestackhci virtual machine is required when creating a VirtualMachineScope"))
  | Some vm =>
      agentFqdn <- call (Getenv "AZURESTACKHCI_CLOUDAGENT_FQDN") ;;
      if decide (agentFqdn = "") then ret (inl fqdn_missing)
      else
        try authorizer <- ReconcileAzureStackHCIAccess agentFqdn iferr err then
          ret (inl (ErrWrap err "failed to create azurestackhci session")) ;;
        iferr err <- call (PatchNewHelper KVirtualMachine vm) then
          ret (inl (ErrWrap err "failed to init patch helper")) ;;
        ret (inr (mkScope agentFqdn authorizer vm vm))
  end.
End New.

Definition Spec (m : VirtualMachineScope) := hv_Spec (HCIVM m).
Definition VnetName m := vs_VnetName (Spec m).
Definition SubnetName m := vs_SubnetName (Spec m).
Definition ClusterName m := vs_ClusterName (Spec m).
Definition Location m := vs_Location (Spec m).
Definition AvailabilityZone (m : VirtualMachineScope) : string :=
  match vs_AvailabilityZone (Spec m) with Some az => default "" (az_ID az) | None => "" end.
Definition Name (m : VirtualMachineScope) := GetName (HCIVM m).
Definition Namespace (m : VirtualMachineScope) := GetNamespace (HCIVM m).
Definition StorageContainer m := vs_StorageContainer (Spec m).
Definition BackendPoolNames m := vs_BackendPoolNames (Spec m).

#[export] Instance VirtualMachineScope_ScopeInterface :
  ScopeInterface VirtualMachineScope := {
  GetResourceGroup m := vs_ResourceGroup (Spec m);
  GetCloudAgentFqdn := CloudAgentFqdn;
  GetAuthorizer := Authorizer;
  GetCustomResourceTypeWithName m :=
    "Cluster/" +:+ Namespace m +:+ "/" +:+ ClusterName m }.

Definition GetVMState (m : VirtualMachineScope) : option VMState :=
  vst_VMState (hv_Status (HCIVM m)).
Definition SetVMState (v : VMState) (m : VirtualMachineScope) : VirtualMachineScope :=
  m <| HCIVM ::= (λ o, o <| hv_Status ::= (λ s, s <| vst_VMState := Some v |>) |>) |>.
Definition SetReady (m : VirtualMachineScope) : VirtualMachineScope :=
  m <| HCIVM ::= (λ o, o <| hv_Status ::= (λ s, s <| vst_Ready := true |>) |>) |>.
Definition SetAnnotation (key value : string) (m : VirtualMachineScope) :=
  m <| HCIVM ::= (λ o,
         SetAnnotations (Some (<[key := value]> (default ∅ (GetAnnotations o)))) o) |>.

Definition PatchObject : prog VirtualMachineScope (option error) :=
  before <- gets patchBefore ;;
  obj <- gets HCIVM ;;
  call (KPatch KVirtualMachine before obj [clusterv1.ReadyCondition; VMRunningCondition]).
Definition Close : prog VirtualMachineScope (option error) := PatchObject.

(** [AzureStackHCILoadBalancerVM]: owned by a load balancer of the same API version *)
Definition AzureStackHCILoadBalancerVM (m : VirtualMachineScope) : bool :=
  existsb (λ ref,
      bool_decide (metav1.or_Kind ref = "AzureStackHCILoadBalancer") &&
      bool_decide (metav1.or_APIVersion ref = metav1.APIVersion (hv_type (HCIVM m))))
    (metav1.OwnerReferences (hv_meta (HCIVM m))).
End VirtualMachineScope.
Export (hints) VirtualMachineScope.
Notation VirtualMachineScope := VirtualMachineScope.VirtualMachineScope.

(** ** loadbalancer.go *)
Module LoadBalancerScope.
Record LoadBalancerScope := mkScope {
  patchBefore : AzureStackHCILoadBalancer;
  LB : AzureStackHCILoadBalancer; (* AzureStackHCILoadBalancer *)
  Cluster : clusterv1.Cluster;
  HCICluster : AzureStackHCICluster }.

Section New.
Context {S : Type}.
Definition NewLoadBalancerScope (lb : option AzureStackHCILoadBalancer)
    (hciCluster : AzureStackHCICluster) (cluster : clusterv1.Cluster)
    : prog S (error + LoadBalancerScope) :=
  match lb with
  | None => ret (inl (ErrNew
      "azurestackhci loadbalancer is required when creating a LoadBalancerScope"))
  | Some lb =>
      iferr err <- call (PatchNewHelper KLoadBalancer lb) then
        ret (inl (ErrWrap err "failed to init patch helper")) ;;
      ret (inr (mkScope lb lb cluster hciCluster))
  end.
End New.

(** The maximum number of replicas above the desired amount *)
Definition MaxSurge : Z := 1.

Definition Status (l : LoadBalancerScope) := lb_Status (LB l).
Definition on_status (f : AzureStackHCILoadBalancerStatus → AzureStackHCILoadBalancerStatus)
    (l : LoadBalancerScope) : LoadBalancerScope :=
  l <| LB ::= (λ o, o <| lb_Status ::= f |>) |>.

Definition Name (l : LoadBalancerScope) : string := GetName (LB l).
Definition Address l : string := lst_Address (Status l).
Definition OSVersion (l : LoadBalancerScope) : string :=
  match lbs_Image (lb_Spec (LB l)) with
  | Some image => default "" (img_Version image)
  | None => ""
  end.
Definition SetAnnotation (key value : string) (l : LoadBalancerScope) :=
  l <| LB ::= (λ o,
         SetAnnotations (Some (<[key := value]> (default ∅ (GetAnnotations o)))) o) |>.
Definition PatchObject : prog LoadBalancerScope (option error) :=
  before <- gets patchBefore ;;
  obj <- gets LB ;;
  call (KPatch KLoadBalancer before obj []).
Definition Close : prog LoadBalancerScope (option error) :=
  before <- gets patchBefore ;;
  obj <- gets LB ;;
  call (KPatch KLoadBalancer before obj []).
Definition SetReady := on_status (λ s, s <| lst_Ready := true |>).
Definition GetReady l : bool := lst_Ready (Status l).
(** [Status.Replicas++] and [--] on an int32 *)
Definition AddReplica := on_status (λ s, s <| lst_Replicas ::= (λ r, int32 (r + 1)) |>).
Definition RemoveReplica :=
  on_status (λ s, if Z.ltb 0 (lst_Replicas s)
                  then s <| lst_Replicas ::= (λ r, int32 (r - 1)) |> else s).
Definition SetReplicas (replicas : Z) := on_status (λ s, s <| lst_Replicas := replicas |>).
Definition GetReplicas l : Z := lst_Replicas (Status l).
Definition SetReadyReplicas (replicas : Z) :=
  on_status (λ s, s <| lst_ReadyReplicas := replicas |>).
Definition GetReadyReplicas l : Z := lst_ReadyReplicas (Status l).
Definition SetFailedReplicas (replicas : Z) :=
  on_status (λ s, s <| lst_FailedReplicas := replicas |>).
Definition GetFailedReplicas l : Z := lst_FailedReplicas (Status l).
Definition GetDesiredReplicas (l : LoadBalancerScope) : Z :=
  default 0%Z (lbs_Replicas (lb_Spec (LB l))).
Definition GetMaxReplicas (l : LoadBalancerScope) : Z :=
  int32 (GetDesiredReplicas l + MaxSurge).
Definition SetErrorMessage (v : error) :=
  on_status (λ s, s <| lst_ErrorMessage := Some (Error v) |>).
Definition SetErrorReason (v : string) :=
  on_status (λ s, s <| lst_ErrorReason := Some v |>).
Definition SetAddress (address : string) := on_status (λ s, s <| lst_Address := address |>).
Definition SetPort (port : Z) := on_status (λ s, s <| lst_Port := port |>).
Definition GetPort (l : LoadBalancerScope) : Z :=
  if decide (lst_Port (Status l) = 0%Z) then 6443 else lst_Port (Status l).
Definition SetPhase (p : AzureStackHCILoadBalancerPhase) :=
  on_status (LoadBalancerStatus.SetTypedPhase p).
Definition SetSelector (selector : string) :=
  on_status (λ s, s <| lst_Selector := selector |>).
End LoadBalancerScope.
Notation LoadBalancerScope := LoadBalancerScope.LoadBalancerScope.

(** ** Frames of the constructors: a scope is made without a write *)
Lemma NewClusterScope_frame {L : Libs} {S} c hc :
  frame (extends (ev_is (@is_silent))) (ClusterScope.NewClusterScope (S:=S) c hc).
Proof. unfold ClusterScope.NewClusterScope. frame_auto. Qed.
Lemma NewVirtualMachineScope_frame {L : Libs} {S} vm :
  frame (extends (ev_is (@is_silent)))
    (VirtualMachineScope.NewVirtualMachineScope (S:=S) vm).
Proof. unfold VirtualMachineScope.NewVirtualMachineScope. frame_auto. Qed.
Lemma NewMachineScope_frame {S} m c hc hm :
  frame (extends (ev_is (@is_silent))) (MachineScope.NewMachineScope (S:=S) m c hc hm).
Proof. unfold MachineScope.NewMachineScope. frame_auto. Qed.
Lemma NewLoadBalancerScope_frame {S} lb hc c :
  frame (extends (ev_is (@is_silent))) (LoadBalancerScope.NewLoadBalancerScope (S:=S) lb hc c).
Proof. unfold LoadBalancerScope.NewLoadBalancerScope. frame_auto. Qed.
#[export] Hint Resolve NewClusterScope_frame NewVirtualMachineScope_frame
  NewMachineScope_frame NewLoadBalancerScope_frame : frames.

(** ** The scopes are of the objects that are given *)
Section Objects.
Context {L : Libs}.
Lemma wp_scope_made {A} env (m : prog unit A) (φ : A → Prop) Q t :
  frame (extends (ev_is (@is_silent))) m →
  wp env m (λ r _ _, match r with Ok a => φ a | _ => True end) tt t →
  (∀ r new, Forall (ev_is (@is_silent)) new → (∀ a, r = Ok a → φ a) → Q r tt (new ++ t)) →
  wp env m Q tt t.
Proof.
  intros Hm Hp HQ. eapply wp_frame; [exact Hm|]. eapply wp_mono; [exact Hp|].
  intros r [] t' Hr (new&Heq&Hn). simpl in Heq. subst t'. apply HQ; [done|]. by intros a ->.
Qed.
(** The objects of the scope, if one was made *)
Definition cluster_scope_of c hc (r : error + ClusterScope) : Prop :=
  match r with
  | inr s => ClusterScope.Cluster s = c ∧ ClusterScope.HCICluster s = hc
  | inl _ => True
  end.
Lemma wp_NewClusterScope env c hc Q t :
  (∀ r new, Forall (ev_is (@is_silent)) new →
     (∀ a, r = Ok a → cluster_scope_of c hc a) → Q r tt (new ++ t)) →
  wp env (ClusterScope.NewClusterScope (Some c) (Some hc)) Q tt t.
Proof.
  apply wp_scope_made; [apply NewClusterScope_frame|]. unfold ClusterScope.NewClusterScope.
  wp_step. wp_step. wp_step; [by wp_step|]. do 3 wp_step; [by wp_step|]. wp_step.
  eapply (wp_by_frame _ (λ _ _, True)); [by intros ???|].
  intros [[e|a]|w|] s' t' _; [by wp_step| |done..]. by wp_step.
Qed.
Definition machine_scope_of o (r : error + MachineScope) : Prop :=
  match r with
  | inr s => MachineScope.patchBefore s = o ∧ MachineScope.HCIMachine s = o
  | inl _ => True
  end.
Lemma wp_NewMachineScope env m c hc o Q t :
  (∀ r new, Forall (ev_is (@is_silent)) new →
     (∀ a, r = Ok a → machine_scope_of o a) → Q r tt (new ++ t)) →
  wp env (MachineScope.NewMachineScope (Some m) (Some c) (Some hc) (Some o)) Q tt t.
Proof.
  apply wp_scope_made; [apply NewMachineScope_frame|].
  unfold MachineScope.NewMachineScope. by wp_run.
Qed.
Definition vm_scope_of o (r : error + VirtualMachineScope) : Prop :=
  match r with
  | inr s => VirtualMachineScope.patchBefore s = o ∧ VirtualMachineScope.HCIVM s = o
  | inl _ => True
  end.
Lemma wp_NewVirtualMachineScope env o Q t :
  (∀ r new, Forall (ev_is (@is_silent)) new →
     (∀ a, r = Ok a → vm_scope_of o a) → Q r tt (new ++ t)) →
  wp env (VirtualMachineScope.NewVirtualMachineScope (Some o)) Q tt t.
Proof.
  apply wp_scope_made; [apply NewVirtualMachineScope_frame|].
  unfold VirtualMachineScope.NewVirtualMachineScope. wp_step. wp_step. wp_step; [by wp_step|].
  wp_step. eapply (wp_by_frame _ (λ _ _, True)); [by intros ???|].
  intros [[e|a]|w|] s' t' _; [by wp_step| |done..]. wp_run; done.
Qed.
Definition lb_scope_of o (r : error + LoadBalancerScope) : Prop :=
  match r with
  | inr s => LoadBalancerScope.patchBefore s = o ∧ LoadBalancerScope.LB s = o
  | inl _ => True
  end.
Lemma wp_NewLoadBalancerScope env o hc c Q t :
  (∀ r new, Forall (ev_is (@is_silent)) new →
     (∀ a, r = Ok a → lb_scope_of o a) → Q r tt (new ++ t)) →
  wp env (LoadBalancerScope.NewLoadBalancerScope (Some o) hc c) Q tt t.
Proof.
  apply wp_scope_made; [apply NewLoadBalancerScope_frame|].
  unfold LoadBalancerScope.NewLoadBalancerScope. by wp_run.
Qed.
End Objects.
