(* ===== verification/Example.v ===== *)
(** * A concrete world for the examples

    An environment in which every request is answered with a plain success, objects with
    simple values, and ways to change single answers. The theorems hold for every
    environment; this one shows that their hypotheses can hold. *)
From stdpp Require Import prelude strings list gmap.
From S2P Require Import Prelude GoStd External Api Effects Naming Scope.

Definition ex_meta (name : string) : metav1.ObjectMeta :=
  metav1.mkObjectMeta name "default" "uid" "1" None None [] [] None 1.
Definition ex_machine : AzureStackHCIMachine :=
  mkMachine metav1.empty_type (ex_meta "machine")
    (mkMachineSpec None "Standard" None None None "westus" "" "" 0 false [] [] "" "")
    (mkMachineStatus false [] None [] None).
Definition ex_vm : AzureStackHCIVirtualMachine :=
  mkVirtualMachine metav1.empty_type (ex_meta "vm")
    (zero_VirtualMachineSpec <| vs_ResourceGroup := "rg" |> <| vs_ClusterName := "cluster" |>
       <| vs_BootstrapData := Some "" |>
       <| vs_Image := Some (zero_Image <| img_Name := Some "linux" |>
                                       <| img_ID := Some "1" |>) |>)
    zero_VirtualMachineStatus.
Definition ex_lb : AzureStackHCILoadBalancer :=
  mkLoadBalancer metav1.empty_type (ex_meta "cluster-load-balancer")
    (zero_LoadBalancerSpec <| lbs_Replicas := Some 1%Z |>)
    zero_LoadBalancerStatus.
Definition ex_hcicluster : AzureStackHCICluster :=
  mkCluster metav1.empty_type (ex_meta "cluster")
    (mkClusterSpec (mkNetworkSpec (mkVnetSpec "" "vnet" "" "") []) "rg" "westus"
       (Some (zero_LoadBalancerSpec <| lbs_Replicas := Some 1%Z |>))
       (clusterv1.mkAPIEndpoint "" 0) (Some "v1.2.3") false)
    (mkClusterStatus zero_VM "" [] None).
Definition ex_capi_machine : clusterv1.Machine :=
  clusterv1.mkMachine metav1.empty_type (ex_meta "machine") (Some "bootstrap") "v1.2.3"
    "machine" "node".
Definition ex_cluster : clusterv1.Cluster :=
  clusterv1.mkCluster metav1.empty_type (ex_meta "cluster") "cluster" 0.
Definition ex_kobj (k : kind) : kobj k :=
  match k with
  | KMachine => ex_machine
  | KVirtualMachine => ex_vm
  | KLoadBalancer => ex_lb
  | KCluster => ex_hcicluster
  | KSecret => mkSecret (ex_meta "secret") {[ "value" := "data" ]}
  | KCapiMachine => ex_capi_machine
  | KCapiCluster => ex_cluster
  end.
Definition ex_mocobj (k : moc_kind) : mocobj k :=
  match k with
  | MVirtualMachine => compute.mkVirtualMachine (Some "id") (Some "vm") None
  | MNetworkInterface => network.mkInterface (Some "vm-nic") None
  | MLoadBalancer => network.mkLoadBalancer (Some "lb")
      (Some (network.mkLBProps None
         (Some [network.mkFrontend (Some (network.mkFrontendProps None (Some "10.0.0.4")))])
         None 1)) ∅
  | MDisk => storage.mkVHD (Some "disk")
  | MGroup => cloud.mkGroup (Some "rg") (Some "westus") ∅
  | MKeyVault => security.mkKeyVault (Some "vault")
  | MVipPool => network.mkVipPool (Some "pool")
  | MVirtualNetwork => network.mkVirtualNetwork (Some "vnet") None [] ∅
  end.

Definition ex_answer (R : Type) (c : Call R) : R :=
  match c in Call R return R with
  | KGet k _ => inr (ex_kobj k)
  | KList _ _ _ => inr []
  | KCreate _ _ => None
  | KUpdate _ _ => None
  | KDelete _ _ => None
  | KCouBegin _ _ => CouNew
  | KCouEnd _ obj => (OperationResultCreated, None, obj)
  | PatchNewHelper _ _ => None
  | KPatch _ _ _ _ => None
  | GetOwnerMachine _ => inr (Some ex_capi_machine)
  | GetOwnerCluster _ => inr (Some ex_cluster)
  | GetClusterFromMetadata _ => inr ex_cluster
  | Eventf _ _ _ _ _ => tt
  | LogOperation _ => tt
  | LogMocInfo _ => tt
  | MocGet _ k _ => inr (Some [ex_mocobj k])
  | MocGetVirtualNetwork _ _ => (VNetSlice (Some [ex_mocobj MVirtualNetwork]), None)
  | MocCreateOrUpdate _ _ _ _ => None
  | MocDelete _ _ _ => None
  | MocGetVersion _ => inr ("1.0", "1.0")
  | MocGetDeploymentId _ => inr "deployment"
  | ReadVersionsService => None
  | WriteVersionsService _ => tt
  | MutexLock => tt
  | MutexUnlock => tt
  | GoUpdateLoginConfig => tt
  | TimeNow => 1%Z
  | Getenv _ => "set"
  | Stat _ => None
  | RandInt max => if Z.ltb 0 max then inr 0%Z else inl (ErrNew "argument to Int is <= 0")
  | GenerateRSAKey => inr 1%N
  | NewPublicKey _ => inr "ssh-rsa"
  | NewAuthorizerFromEnvironment _ => inr (mkAuthorizer 1)
  | LoadYAMLConfig _ => inr (mkLoginConfig 1)
  | NewAuthenticationClientAuthMode _ _ => inr (mkAuthenticationClient 1)
  | LoginWithConfig _ _ => None
  | UpdateLoginConfigSdk _ => tt
  | KubeconfigFromSecret _ => inr "kubeconfig"
  | RESTConfigFromKubeConfig _ => inr (mkRestConfig 1 0)
  | NewForConfig _ => inr (mkClientset 1)
  | ListVolumeAttachments _ => inr (Some [])
  | InClusterConfig => inr (mkRestConfig 2 0)
  | NewClient _ => None
  | ReconcileIDFromContext => ""
  | NewUUID => "uuid"
  | PollTicks _ _ => 3
  end.
Definition ex_env : Env := λ _, ex_answer.
(** The agent does not know the virtual machine. *)
Definition ex_env_no_vm : Env := λ _ R c,
  match c in Call R return R → R with
  | MocGet _ MVirtualMachine _ => λ _, inl (ErrExt 3 "not found")
  | _ => λ r, r
  end (ex_answer R c).

Definition ex_vm_scope : VirtualMachineScope :=
  VirtualMachineScope.mkScope "agent" (mkAuthorizer 1) ex_vm ex_vm.
Definition ex_cluster_scope : ClusterScope :=
  ClusterScope.mkScope "agent" (mkAuthorizer 1) ex_hcicluster ex_cluster ex_hcicluster.
Definition ex_machine_scope : MachineScope :=
  MachineScope.mkScope ex_machine ex_cluster ex_capi_machine ex_hcicluster ex_machine.
Definition ex_lb_scope : LoadBalancerScope :=
  LoadBalancerScope.mkScope ex_lb ex_lb ex_cluster ex_hcicluster.
