(* ===== verification/Telemetry.v ===== *)
(** * cloud/telemetry/logutils.go and cloud/services/versions

    The operation records and the version of the agent that goes with them. *)
From stdpp Require Import prelude strings list gmap.
From S2P Require Import Prelude GoStd External Api Effects Naming Scope.
Local Open Scope prog_scope.

Inductive MocResourceType :=
  | TLoadBalancer | TVipPool | TVirtualNetwork | TNetworkInterface | TDisk | TVirtualMachine
  | TKeyVault | TSecret | TGroup.
Definition moc_resource_string (t : MocResourceType) : string :=
  match t with
  | TLoadBalancer => "LoadBalancer" | TVipPool => "VipPool"
  | TVirtualNetwork => "VirtualNetwork" | TNetworkInterface => "NetworkInterface"
  | TDisk => "Disk" | TVirtualMachine => "VirtualMachine" | TKeyVault => "KeyVault"
  | TSecret => "Secret" | TGroup => "Group"
  end.
(** [ResourceType] and [Operation], with the empty string of an unknown result *)
Inductive ResourceType := CRD | Status | NoResourceType.
Definition resource_type_string (t : ResourceType) : string :=
  match t with CRD => "CRD" | Status => "Status" | NoResourceType => "" end.
Inductive Operation := OpCreate | OpCreateOrUpdate | OpUpdate | OpDelete | OpGet | NoOperation.
Definition operation_string (o : Operation) : string :=
  match o with
  | OpCreate => "Create" | OpCreateOrUpdate => "CreateOrUpdate" | OpUpdate => "Update"
  | OpDelete => "Delete" | OpGet => "Get" | NoOperation => ""
  end.

Module versions.
(** cloud/services/versions: the pair of versions the agent reports *)
Record VersionPair := mkVersionPair { WssdCloudAgentVersion : string; MocVersion : string }.
Section Service.
Context {S : Type}.
Definition Get (client : MocClient) : prog S (error + VersionPair) :=
  r <- call (MocGetVersion client) ;;
  match r with
  | inl err => ret (inl err)
  | inr (version, mocversion) => ret (inr (mkVersionPair version mocversion))
  end.
Definition Reconcile : prog S (option error) :=
  ret (Some (ErrNew "Reconciling version is not supported")).
Definition Delete : prog S (option error) :=
  ret (Some (ErrNew "Deleting version is not supported")).
End Service.
End versions.

Section Telemetry.
Context {L : Libs} {S : Type}.

Definition WriteMocOperationLog (operation : Operation) (crResourceName : string)
    (mocResourceType : MocResourceType) (mocResourceName : string) (params : log_params)
    (err : option error) : prog S unit :=
  let '(errcode, message) :=
    match err with Some e => (GetErrorCode e, Error e) | None => ("0", "") end in
  now <- call TimeNow ;;
  call (LogOperation (mkOperationLog now crResourceName
          (moc_resource_string mocResourceType +:+ "/" +:+ mocResourceName)
          "RESOURCE_ACTION" (operation_string operation) params errcode message)).

Definition RecordHybridAKSCRDChange (parentResource resource : string)
    (action : Operation) (resourceType : ResourceType) (params : log_params)
    (err : option error) : prog S unit :=
  let '(errCode, errMessage) :=
    match err with Some e => ("-1", Error e) | None => ("0", "") end in
  now <- call TimeNow ;;
  call (LogOperation (mkOperationLog now parentResource resource "RESOURCE_ACTION"
          (operation_string action +:+ " " +:+ resource_type_string resourceType)
          params errCode errMessage)).

Definition GenerateMocResourceName (nameSegments : list string) : string :=
  Join nameSegments "/".

(** [getVersionsService]: made once, from the first scope that asks *)
Definition getVersionsService `{ScopeInterface S} : prog S MocClient :=
  svc <- call ReadVersionsService ;;
  match svc with
  | Some client => ret client
  | None =>
      client <- gets moc_client ;;
      call (WriteVersionsService client) ;;
      ret client
  end.

Definition WriteMocInfoLog `{ScopeInterface S} : prog S unit :=
  client <- getVersionsService ;;
  versionPair <- versions.Get client ;;
  let '(wssdCloudAgentVersion, mocVersion) :=
    match versionPair with
    | inl _ => ("", "")
    | inr p => (versions.WssdCloudAgentVersion p, versions.MocVersion p)
    end in
  call (LogMocInfo (mkMocInfoLog "" wssdCloudAgentVersion mocVersion)).
End Telemetry.

Definition IsCRDUpdate (operationResult : OperationResult) : bool :=
  match operationResult with
  | OperationResultCreated | OperationResultUpdatedStatus
  | OperationResultUpdatedStatusOnly => true
  | _ => false
  end.
Definition ConvertOperationResult (operationResult : OperationResult)
    : Operation * ResourceType :=
  match operationResult with
  | OperationResultCreated => (OpCreate, CRD)
  | OperationResultUpdated => (OpUpdate, CRD)
  | OperationResultUpdatedStatus | OperationResultUpdatedStatusOnly => (OpUpdate, Status)
  | OperationResultNone => (NoOperation, NoResourceType)
  end.

(** ** Frames: telemetry only reads the versions and writes records *)
Definition is_telemetry {R} (c : Call R) : bool :=
  match c with
  | TimeNow | LogOperation _ | LogMocInfo _ | MocGetVersion _ | ReadVersionsService
  | WriteVersionsService _ => true
  | _ => false
  end.
Section Frames.
Context {L : Libs} {S : Type}.
Lemma WriteMocOperationLog_frame op cr ty name params err :
  frame (extends (ev_is (@is_telemetry)))
    (WriteMocOperationLog (S:=S) op cr ty name params err).
Proof. unfold WriteMocOperationLog. frame_auto. Qed.
Lemma RecordHybridAKSCRDChange_frame p r a ty params err :
  frame (extends (ev_is (@is_telemetry)))
    (RecordHybridAKSCRDChange (S:=S) p r a ty params err).
Proof. unfold RecordHybridAKSCRDChange. frame_auto. Qed.
Lemma WriteMocInfoLog_frame `{ScopeInterface S} :
  frame (extends (ev_is (@is_telemetry))) (WriteMocInfoLog (S:=S)).
Proof. unfold WriteMocInfoLog, getVersionsService, versions.Get. frame_auto. Qed.

(** They leave the scope as it is and always answer. *)
Lemma wp_WriteMocOperationLog env op cr ty name params err Q (s : S) t :
  (∀ new, Forall (ev_is (@is_telemetry)) new → Q (Ok tt) s (new ++ t)) →
  wp env (WriteMocOperationLog op cr ty name params err) Q s t.
Proof.
  intros HQ. unfold WriteMocOperationLog. wp_run;
    match goal with |- Q _ _ (?a :: ?b :: t) => apply (HQ [a; b]) end; repeat constructor.
Qed.
Lemma wp_RecordHybridAKSCRDChange env p r a ty params err Q (s : S) t :
  (∀ new, Forall (ev_is (@is_telemetry)) new → Q (Ok tt) s (new ++ t)) →
  wp env (RecordHybridAKSCRDChange p r a ty params err) Q s t.
Proof.
  intros HQ. unfold RecordHybridAKSCRDChange. wp_run;
    match goal with |- Q _ _ (?a :: ?b :: t) => apply (HQ [a; b]) end; repeat constructor.
Qed.
Lemma wp_WriteMocInfoLog `{ScopeInterface S} env Q (s : S) t :
  (∀ new, Forall (ev_is (@is_telemetry)) new → Q (Ok tt) s (new ++ t)) →
  wp env WriteMocInfoLog Q s t.
Proof.
  intros HQ. unfold WriteMocInfoLog, getVersionsService, versions.Get. wp_run;
    match goal with
    | |- Q _ _ (?a :: ?b :: ?c :: ?d :: t) => apply (HQ [a; b; c; d])
    | |- Q _ _ (?a :: ?b :: ?c :: t) => apply (HQ [a; b; c])
    | |- Q _ _ (?a :: ?b :: t) => apply (HQ [a; b])
    end; repeat constructor.
Qed.
End Frames.
#[export] Hint Resolve WriteMocOperationLog_frame RecordHybridAKSCRDChange_frame
  WriteMocInfoLog_frame : frames.

Ltac wp_telemetry :=
  lazymatch goal with
  | |- wp _ (WriteMocOperationLog _ _ _ _ _ _) _ _ _ =>
      apply wp_WriteMocOperationLog; intros ? ?; cbv beta iota
  | |- wp _ (RecordHybridAKSCRDChange _ _ _ _ _ _) _ _ _ =>
      apply wp_RecordHybridAKSCRDChange; intros ? ?; cbv beta iota
  | |- wp _ WriteMocInfoLog _ _ _ => apply wp_WriteMocInfoLog; intros ? ?; cbv beta iota
  end.
Ltac wp_hook ::= wp_telemetry.

(** Telemetry is no event of the other classes. *)
Lemma telemetry_not (f : ∀ R, Call R → bool) new :
  (∀ R (c : Call R), is_telemetry c = true → f R c = false) →
  Forall (ev_is (@is_telemetry)) new → Forall (λ e, ¬ ev_is f e) new.
Proof. intros. by eapply ev_not_is. Qed.
Lemma telemetry_no_delete new :
  Forall (ev_is (@is_telemetry)) new → Forall (λ e, ¬ ev_is (@is_moc_delete) e) new.
Proof. apply telemetry_not. by intros R []. Qed.
Lemma telemetry_no_create new :
  Forall (ev_is (@is_telemetry)) new → Forall (λ e, ¬ ev_is (@is_moc_create) e) new.
Proof. apply telemetry_not. by intros R []. Qed.
Lemma telemetry_silent new :
  Forall (ev_is (@is_telemetry)) new → Forall (ev_is (@is_silent)) new.
Proof.
  intros H. eapply Forall_impl; [exact H|]. intros [R c r]. simpl. by destruct c.
Qed.
#[export] Hint Resolve telemetry_no_delete telemetry_no_create telemetry_silent : core.
