(* ===== verification/Interfaces.v ===== *)
(** * cloud/interfaces.go and the specifications the services take

    A service takes an [interface{}] and asserts its type. [iface] has one constructor per
    dynamic type the code passes or returns. *)
From stdpp Require Import prelude strings list gmap.
From S2P Require Import Prelude GoStd External Api Effects Util Scope Telemetry.

Record virtualmachines_Spec := mkVirtualMachinesSpec {
  vmsp_Name : string; vmsp_NICName : string; vmsp_SSHKeyData : list string;
  vmsp_Size : string; vmsp_GpuCount : Z; vmsp_Zone : string; vmsp_Image : Image;
  vmsp_OSDisk : OSDisk; vmsp_CustomData : string; vmsp_VMType : compute.VMType;
  vmsp_StorageContainer : string; vmsp_AvailabilitySetName : string;
  vmsp_PlacementGroupName : string }.
(** [&virtualmachines.Spec{Name: name}]; the zero [VMType] is the first of its constants. *)
Definition virtualmachines_named (name : string) : virtualmachines_Spec :=
  mkVirtualMachinesSpec name "" [] "" 0 "" zero_Image zero_OSDisk "" compute.Tenant "" "" "".

Record IPConfiguration := mkIPConfiguration { ipc_Name : string; ipc_Primary : bool }.
Record networkinterfaces_Spec := mkNetworkInterfacesSpec {
  nic_Name : string; nic_SubnetName : string; nic_VnetName : string;
  nic_StaticIPAddress : string; nic_MacAddress : string;
  nic_BackendPoolNames : list string; nic_IPConfigurations : list IPConfiguration }.
Record disks_Spec := mkDisksSpec { disk_Name : string; disk_Source : string }.
Record groups_Spec := mkGroupsSpec { group_Name : string; group_Location : string }.
Record keyvaults_Spec := mkKeyVaultsSpec { vault_Name : string }.
Record virtualnetworks_Spec := mkVirtualNetworksSpec {
  vnetsp_Name : string; vnetsp_Group : string; vnetsp_CIDR : string }.
Record vippools_Spec := mkVipPoolsSpec { vip_Name : string; vip_Location : string }.
Record loadbalancers_Spec := mkLoadBalancersSpec {
  lbsp_Name : string; lbsp_BackendPoolName : string; lbsp_VnetName : string;
  lbsp_FrontendPort : Z; lbsp_BackendPort : Z; lbsp_Tags : tags }.

Inductive iface :=
  | INil
  (* pointers to specifications *)
  | IVirtualMachinesSpec (s : virtualmachines_Spec)
  | INetworkInterfacesSpec (s : networkinterfaces_Spec)
  | IDisksSpec (s : disks_Spec)
  | IGroupsSpec (s : groups_Spec)
  | IKeyVaultsSpec (s : keyvaults_Spec)
  | IVirtualNetworksSpec (s : virtualnetworks_Spec)
  | IVipPoolsSpec (s : vippools_Spec)
  | ILoadBalancersSpec (s : loadbalancers_Spec)
  (* results: a pointer to an infrav1.VM, a value of an SDK type, and what the virtual
     network client returned *)
  | IVM (vm : VM)
  | ISdk (k : moc_kind) (o : mocobj k)
  | IVnet (v : vnet_value).

(** The zero value of an SDK type *)
Definition zero_mocobj (k : moc_kind) : mocobj k :=
  match k with
  | MVirtualMachine => compute.mkVirtualMachine None None None
  | MNetworkInterface => network.mkInterface None None
  | MLoadBalancer => network.mkLoadBalancer None None ∅
  | MDisk => storage.mkVHD None
  | MGroup => cloud.mkGroup None None ∅
  | MKeyVault => security.mkKeyVault None
  | MVipPool => network.mkVipPool None
  | MVirtualNetwork => network.mkVirtualNetwork None None [] ∅
  end.

(** [Service] and [GetterService] *)
Record Service (S : Type) := mkService {
  svc_Reconcile : iface → prog S (option error);
  svc_Delete : iface → prog S (option error) }.
Record GetterService (S : Type) := mkGetterService {
  gsvc_Get : iface → prog S (iface * option error);
  gsvc_Reconcile : iface → prog S (option error);
  gsvc_Delete : iface → prog S (option error) }.
Arguments mkService {S}.
Arguments svc_Reconcile {S}.
Arguments svc_Delete {S}.
Arguments mkGetterService {S}.
Arguments gsvc_Get {S}.
Arguments gsvc_Reconcile {S}.
Arguments gsvc_Delete {S}.

(** The element [( *p)[0]] of a pointer to a slice: a nil pointer and an empty slice panic. *)
Definition deref_first {S A} (p : option (list A)) : prog S A :=
  match p with
  | None => panic "invalid memory address or nil pointer dereference"
  | Some [] => panic "index out of range [0] with length 0"
  | Some (x :: _) => ret x
  end.
Lemma frame_deref_first {S A} (R : relation (S * trace)) `{!Reflexive R}
    (p : option (list A)) : frame R (deref_first p).
Proof. destruct p as [[]|]; simpl; frame_auto. Qed.
#[export] Hint Resolve frame_deref_first : frames.

Lemma extends_refl P S : Reflexive (extends (E:=Call) P (S:=S)).
Proof. apply _. Qed.
#[export] Hint Resolve extends_refl : frames.

Ltac wp_deref_first :=
  lazymatch goal with
  | |- wp _ (deref_first ?p) _ _ _ => unfold deref_first; destruct p as [[|? ?]|] eqn:?
  end.
Ltac wp_hook ::= first [wp_telemetry | wp_deref_first].

(** ** What a service may do

    Telemetry, requests to the MOC agent, and random numbers: nothing in the Kubernetes API. *)
Definition is_agent {R} (c : Call R) : bool :=
  match c with
  | MocGet _ _ _ | MocGetVirtualNetwork _ _ | MocCreateOrUpdate _ _ _ _ | MocDelete _ _ _
  | MocGetDeploymentId _ | RandInt _ | GenerateRSAKey | NewPublicKey _ => true
  | _ => is_telemetry c
  end.
(** The same without a create *)
Definition is_agent_delete {R} (c : Call R) : bool := is_agent c && negb (is_moc_create c).
(** And only reading *)
Definition is_agent_read {R} (c : Call R) : bool := is_agent c && negb (is_moc_write c).

(** A program that leaves the scope alone *)
Definition keeps {S} : relation (S * trace) := on_state eq.
#[export] Instance keeps_preorder {S} : PreOrder (keeps (S:=S)).
Proof. apply on_state_preorder. apply _. Qed.
Lemma keeps_refl {S} : Reflexive (keeps (S:=S)).
Proof. apply _. Qed.
#[export] Hint Resolve keeps_refl : frames.
Lemma keeps_call {S R} (c : Call R) : frame keeps (call (S:=S) c).
Proof. apply frame_state_call. apply _. Qed.
#[export] Hint Resolve keeps_call : frames.
Lemma keeps_telemetry {L : Libs} {S} op cr ty name params err :
  frame keeps (WriteMocOperationLog (S:=S) op cr ty name params err).
Proof. unfold WriteMocOperationLog. frame_auto. Qed.
Lemma keeps_crd {L : Libs} {S} p r a ty params err :
  frame keeps (RecordHybridAKSCRDChange (S:=S) p r a ty params err).
Proof. unfold RecordHybridAKSCRDChange. frame_auto. Qed.
Lemma keeps_info {S} `{ScopeInterface S} : frame keeps (WriteMocInfoLog (S:=S)).
Proof. unfold WriteMocInfoLog, getVersionsService, versions.Get. frame_auto. Qed.
#[export] Hint Resolve keeps_telemetry keeps_crd keeps_info : frames.
Lemma keeps_random {S} n : frame keeps (RandomAlphaNumericString (S:=S) n).
Proof.
  induction n; simpl; frame_auto. unfold string_index. frame_auto.
Qed.
Lemma RandomAlphaNumericString_frame {S} n :
  frame (extends (ev_is (@is_agent_read))) (RandomAlphaNumericString (S:=S) n).
Proof.
  induction n; simpl; frame_auto. unfold string_index. frame_auto.
Qed.
#[export] Hint Resolve keeps_random RandomAlphaNumericString_frame : frames.
