(* ===== verification/Services.v ===== *)
(** * cloud/services: groups, keyvaults, disks, virtualnetworks, vippools, health

    One Module per service. A service is generic in the scope it was made from; it asks the
    MOC agent through the scope's client. *)
From stdpp Require Import prelude strings list gmap.
From S2P Require Import Prelude GoStd External Api Effects Naming Scope Telemetry.
From S2P Require Import Interfaces.
Local Open Scope prog_scope.

(** What a [Delete] makes of the agent's answer: a resource that is not there is deleted. *)
Definition delete_result {L : Libs} (err : option error) (msg : string) : option error :=
  match err with
  | Some e => if ResourceNotFound e then None else Some (ErrWrap e msg)
  | None => None
  end.

Module groups.
Definition TagKeyClusterGroup := "ownedBy".
Definition TagValClusterGroup := "caph".

Section Groups.
Context {L : Libs} {S : Type} `{ScopeInterface S}.

Definition Get (spec : iface) : prog S (iface * option error) :=
  match spec with
  | IGroupsSpec groupSpec =>
      client <- gets moc_client ;;
      try group <- call (MocGet client MGroup
                           [group_Location groupSpec; group_Name groupSpec])
        iferr err then ret (INil, Some err) ;;
      g <- deref_first group ;;
      ret (ISdk MGroup g, None)
  | _ => ret (ISdk MGroup (zero_mocobj MGroup),
              Some (ErrNew "Invalid group specification"))
  end.

Definition Reconcile (spec : iface) : prog S (option error) :=
  WriteMocInfoLog ;;
  match spec with
  | IGroupsSpec groupSpec =>
      ' (_, err) <- Get spec ;;
      match err with
      | None => ret None
      | Some _ =>
          let tag := {[ TagKeyClusterGroup := Some TagValClusterGroup ]} in
          client <- gets moc_client ;;
          err <- call (MocCreateOrUpdate client MGroup
                   [group_Location groupSpec; group_Name groupSpec]
                   (cloud.mkGroup (Some (group_Name groupSpec))
                                  (Some (group_Location groupSpec)) tag)) ;;
          cr <- gets GetCustomResourceTypeWithName ;;
          WriteMocOperationLog OpCreateOrUpdate cr TGroup
            (GenerateMocResourceName [group_Location groupSpec; group_Name groupSpec])
            NoParams err ;;
          ret err
      end
  | _ => ret (Some (ErrNew "Invalid group specification"))
  end.

(** Deletes a group only if it was created by the provider *)
Definition Delete (spec : iface) : prog S (option error) :=
  WriteMocInfoLog ;;
  match spec with
  | IGroupsSpec groupSpec =>
      let path := [group_Location groupSpec; group_Name groupSpec] in
      client <- gets moc_client ;;
      r <- call (MocGet client MGroup path) ;;
      cr <- gets GetCustomResourceTypeWithName ;;
      WriteMocOperationLog OpDelete cr TGroup (GenerateMocResourceName path) NoParams
        (match r with inl err => Some err | inr _ => None end) ;;
      match r with
      | inl err => if ResourceNotFound err then ret None else ret (Some err)
      | inr group =>
          groupObj <- deref_first group ;;
          if bool_decide (cloud.g_Tags groupObj !! TagKeyClusterGroup
                          = Some (Some TagValClusterGroup))
          then
            iferr err <- call (MocDelete client MGroup path) then
              (if ResourceNotFound err then ret None
               else ret (Some (ErrWrap err
                           ("failed to delete group " +:+ group_Name groupSpec)))) ;;
            ret None
          else ret None
      end
  | _ => ret (Some (ErrNew "Invalid group specification"))
  end.

Definition NewService : Service S := mkService Reconcile Delete.
End Groups.
End groups.

Module keyvaults.
Section KeyVaults.
Context {L : Libs} {S : Type} `{ScopeInterface S}.

Definition Get (spec : iface) : prog S (iface * option error) :=
  match spec with
  | IKeyVaultsSpec vaultSpec =>
      client <- gets moc_client ;;
      rg <- gets GetResourceGroup ;;
      try vault <- call (MocGet client MKeyVault [rg; vault_Name vaultSpec])
        iferr err then ret (INil, Some err) ;;
      v <- deref_first vault ;;
      ret (ISdk MKeyVault v, None)
  | _ => ret (ISdk MKeyVault (zero_mocobj MKeyVault),
              Some (ErrNew "Invalid keyvault specification"))
  end.

Definition Reconcile (spec : iface) : prog S (option error) :=
  WriteMocInfoLog ;;
  match spec with
  | IKeyVaultsSpec vaultSpec =>
      ' (_, err) <- Get spec ;;
      match err with
      | None => ret None
      | Some _ =>
          client <- gets moc_client ;;
          rg <- gets GetResourceGroup ;;
          err <- call (MocCreateOrUpdate client MKeyVault [rg; vault_Name vaultSpec]
                         (security.mkKeyVault (Some (vault_Name vaultSpec)))) ;;
          cr <- gets GetCustomResourceTypeWithName ;;
          WriteMocOperationLog OpCreateOrUpdate cr TKeyVault
            (GenerateMocResourceName [rg; vault_Name vaultSpec]) NoParams err ;;
          ret err
      end
  | _ => ret (Some (ErrNew "Invalid keyvault specification"))
  end.

Definition Delete (spec : iface) : prog S (option error) :=
  WriteMocInfoLog ;;
  match spec with
  | IKeyVaultsSpec vaultSpec =>
      client <- gets moc_client ;;
      rg <- gets GetResourceGroup ;;
      err <- call (MocDelete client MKeyVault [rg; vault_Name vaultSpec]) ;;
      cr <- gets GetCustomResourceTypeWithName ;;
      WriteMocOperationLog OpDelete cr TKeyVault
        (GenerateMocResourceName [rg; vault_Name vaultSpec]) NoParams err ;;
      match err with
      | Some err =>
          if ResourceNotFound err then ret None
          else ret (Some (ErrWrap err ("failed to delete keyvault "
                 +:+ vault_Name vaultSpec +:+ " in resource group " +:+ rg)))
      | None => ret None
      end
  | _ => ret (Some (ErrNew "Invalid keyvault specification"))
  end.

Definition NewService : Service S := mkService Reconcile Delete.
End KeyVaults.
End keyvaults.

Module disks.
Section Disks.
Context {L : Libs} {S : Type} `{ScopeInterface S}.

Definition Get (spec : iface) : prog S (iface * option error) :=
  match spec with
  | IDisksSpec diskSpec =>
      client <- gets moc_client ;;
      rg <- gets GetResourceGroup ;;
      try disk <- call (MocGet client MDisk [rg; ""; disk_Name diskSpec])
        iferr err then ret (INil, Some err) ;;
      d <- deref_first disk ;;
      ret (ISdk MDisk d, None)
  | _ => ret (ISdk MDisk (zero_mocobj MDisk),
              Some (ErrNew "Invalid Disk Specification"))
  end.

Definition Reconcile (spec : iface) : prog S (option error) :=
  WriteMocInfoLog ;;
  match spec with
  | IDisksSpec diskSpec =>
      ' (_, err) <- Get spec ;;
      match err with
      | None => ret None
      | Some _ =>
          client <- gets moc_client ;;
          rg <- gets GetResourceGroup ;;
          err <- call (MocCreateOrUpdate client MDisk [rg; ""; disk_Name diskSpec]
                         (storage.mkVHD (Some (disk_Name diskSpec)))) ;;
          cr <- gets GetCustomResourceTypeWithName ;;
          WriteMocOperationLog OpCreateOrUpdate cr TDisk
            (GenerateMocResourceName [rg; disk_Name diskSpec]) NoParams err ;;
          ret err
      end
  | _ => ret (Some (ErrNew "Invalid Disk Specification"))
  end.

Definition Delete (spec : iface) : prog S (option error) :=
  WriteMocInfoLog ;;
  match spec with
  | IDisksSpec diskSpec =>
      client <- gets moc_client ;;
      rg <- gets GetResourceGroup ;;
      err <- call (MocDelete client MDisk [rg; ""; disk_Name diskSpec]) ;;
      cr <- gets GetCustomResourceTypeWithName ;;
      WriteMocOperationLog OpDelete cr TDisk
        (GenerateMocResourceName [rg; disk_Name diskSpec]) NoParams err ;;
      match err with
      | Some err =>
          if ResourceNotFound err then ret None
          else ret (Some (ErrWrap err ("failed to delete disk "
                 +:+ disk_Name diskSpec +:+ " in resource group " +:+ rg)))
      | None => ret None
      end
  | _ => ret (Some (ErrNew "Invalid disk specification"))
  end.

Definition NewService : GetterService S := mkGetterService Get Reconcile Delete.
End Disks.
End disks.

Module virtualnetworks.
Definition OWNER := "owner".
Definition CAPH := "CAPH".

Section VirtualNetworks.
Context {L : Libs} {S : Type} `{ScopeInterface S}.

(** The value is what the client returned, with or without an error. *)
Definition Get (spec : iface) : prog S (iface * option error) :=
  match spec with
  | IVirtualNetworksSpec vnetSpec =>
      client <- gets moc_client ;;
      ' (vnet, err) <- call (MocGetVirtualNetwork client
                               [vnetsp_Group vnetSpec; vnetsp_Name vnetSpec]) ;;
      ret (IVnet vnet, err)
  | _ => ret (ISdk MVirtualNetwork (zero_mocobj MVirtualNetwork),
              Some (ErrNew "Invalid VNET Specification"))
  end.

Definition Reconcile (spec : iface) : prog S (option error) :=
  WriteMocInfoLog ;;
  match spec with
  | IVirtualNetworksSpec vnetSpec =>
      ' (_, err) <- Get spec ;;
      match err with
      | None => ret None
      | Some _ =>
          let virtualNetwork := network.mkVirtualNetwork (Some (vnetsp_Name vnetSpec))
                (Some "Transparent") [vnetsp_CIDR vnetSpec] {[ OWNER := Some CAPH ]} in
          client <- gets moc_client ;;
          err <- call (MocCreateOrUpdate client MVirtualNetwork
                   [vnetsp_Group vnetSpec; vnetsp_Name vnetSpec] virtualNetwork) ;;
          cr <- gets GetCustomResourceTypeWithName ;;
          rg <- gets GetResourceGroup ;;
          WriteMocOperationLog OpCreateOrUpdate cr TVirtualNetwork
            (GenerateMocResourceName [rg; vnetsp_Name vnetSpec])
            (ParamsVirtualNetwork virtualNetwork) err ;;
          ret err
      end
  | _ => ret (Some (ErrNew "Invalid VNET Specification"))
  end.

(** [vnet, _ := vnetInterface.(network.VirtualNetwork)]: the zero value when the dynamic
    type is another one *)
Definition assert_VirtualNetwork (i : iface) : network.VirtualNetwork :=
  match i with
  | IVnet (VNetValue v) => v
  | ISdk MVirtualNetwork v => v
  | _ => zero_mocobj MVirtualNetwork
  end.

Definition Delete (spec : iface) : prog S (option error) :=
  WriteMocInfoLog ;;
  match spec with
  | IVirtualNetworksSpec vnetSpec =>
      ' (vnetInterface, err) <- Get spec ;;
      match err with
      | Some err => ret (Some err)
      | None =>
          let vnet := assert_VirtualNetwork vnetInterface in
          let skip := match network.vn_Tags vnet !! OWNER with
                      | None => true
                      | Some None => true
                      | Some (Some owner) => bool_decide (owner = CAPH)
                      end in
          if skip then ret None
          else
            client <- gets moc_client ;;
            err <- call (MocDelete client MVirtualNetwork
                           [vnetsp_Group vnetSpec; vnetsp_Name vnetSpec]) ;;
            cr <- gets GetCustomResourceTypeWithName ;;
            rg <- gets GetResourceGroup ;;
            WriteMocOperationLog OpDelete cr TVirtualNetwork
              (GenerateMocResourceName [rg; vnetsp_Name vnetSpec]) NoParams err ;;
            match err with
            | Some err =>
                if ResourceNotFound err then ret None
                else ret (Some (ErrWrap err ("failed to delete vnet "
                       +:+ vnetsp_Name vnetSpec +:+ " in resource group "
                       +:+ vnetsp_Group vnetSpec)))
            | None => ret None
            end
      end
  | _ => ret (Some (ErrNew "Invalid VNET Specification"))
  end.

Definition NewService : Service S := mkService Reconcile Delete.
End VirtualNetworks.
End virtualnetworks.

Module vippools.
Section VipPools.
Context {L : Libs} {S : Type} `{ScopeInterface S}.

Definition Get (spec : iface) : prog S (iface * option error) :=
  match spec with
  | IVipPoolsSpec vpSpec =>
      client <- gets moc_client ;;
      try vp <- call (MocGet client MVipPool [vip_Location vpSpec; vip_Name vpSpec])
        iferr err then ret (INil, Some err) ;;
      match vp with
      | None | Some [] => ret (INil, None)
      | Some (v :: _) => ret (ISdk MVipPool v, None)
      end
  | _ => ret (ISdk MVipPool (zero_mocobj MVipPool),
              Some (ErrNew "invalid vippool specification"))
  end.
Definition Reconcile (spec : iface) : prog S (option error) :=
  match spec with
  | IVipPoolsSpec _ =>
      ' (_, err) <- Get spec ;;
      match err with
      | None => ret None
      | Some _ => ret (Some (ErrNew "creating a vippool is not supported"))
      end
  | _ => ret (Some (ErrNew "invalid vippool specification"))
  end.
Definition Delete (_ : iface) : prog S (option error) :=
  ret (Some (ErrNew "deleting a vippool is not supported")).
End VipPools.
End vippools.

Module health.
Section Health.
Context {S : Type} `{ScopeInterface S}.
Definition GetMocDeploymentID : prog S string :=
  client <- gets moc_client ;;
  r <- call (MocGetDeploymentId client) ;;
  match r with inl _ => ret "" | inr deploymentID => ret deploymentID end.
Definition Reconcile (_ : iface) : prog S (option error) :=
  ret (Some (ErrNew "Reconciling health is not supported")).
Definition Delete (_ : iface) : prog S (option error) :=
  ret (Some (ErrNew "Deleting health is not supported")).
End Health.
End health.

(** ** Properties *)
Section Properties.
Context {L : Libs} {S : Type} `{ScopeInterface S}.

(** A delete asks the agent once, between telemetry records, and leaves the scope. *)
Lemma wp_keyvaults_Delete env v Q (s : S) t :
  (∀ r new1 new2,
     Forall (ev_is (@is_telemetry)) new1 → Forall (ev_is (@is_telemetry)) new2 →
     Q (Ok (delete_result r ("failed to delete keyvault " +:+ vault_Name v
              +:+ " in resource group " +:+ GetResourceGroup s))) s
       (new2 ++ Ev (MocDelete (moc_client s) MKeyVault [GetResourceGroup s; vault_Name v]) r
          :: new1 ++ t)) →
  wp env (keyvaults.Delete (IKeyVaultsSpec v)) Q s t.
Proof.
  intros HQ. unfold keyvaults.Delete. wp_run;
    match goal with |- context [Ev (MocDelete _ _ _) ?r] => specialize (HQ r) end;
    simpl in HQ; repeat case_match; try done; by apply HQ.
Qed.
Lemma wp_disks_Delete env d Q (s : S) t :
  (∀ r new1 new2,
     Forall (ev_is (@is_telemetry)) new1 → Forall (ev_is (@is_telemetry)) new2 →
     Q (Ok (delete_result r ("failed to delete disk " +:+ disk_Name d
              +:+ " in resource group " +:+ GetResourceGroup s))) s
       (new2 ++ Ev (MocDelete (moc_client s) MDisk [GetResourceGroup s; ""; disk_Name d]) r
          :: new1 ++ t)) →
  wp env (disks.Delete (IDisksSpec d)) Q s t.
Proof.
  intros HQ. unfold disks.Delete. wp_run;
    match goal with |- context [Ev (MocDelete _ _ _) ?r] => specialize (HQ r) end;
    simpl in HQ; repeat case_match; try done; by apply HQ.
Qed.

(** *** When a service writes to the agent *)
(** A get of the path that failed *)
Definition get_failed (k : moc_kind) (path : list string) (e : event) : Prop :=
  match e with
  | Ev c r =>
      match c in Call R return R → Prop with
      | MocGet _ k' path' => λ r, k' = k ∧ path' = path ∧ ∃ err, r = inl err
      | MocGetVirtualNetwork _ path' =>
          λ r, k = MVirtualNetwork ∧ path' = path ∧ r.2 ≠ None
      | _ => λ _, False
      end r
  end.
(** A get that found the group with the provider's tag *)
Definition owned_group_seen (path : list string) (e : event) : Prop :=
  match e with
  | Ev c r =>
      match c in Call R return R → Prop with
      | MocGet _ k path' =>
          match k return (error + option (list (mocobj k))) → Prop with
          | MGroup => λ r, path' = path ∧ ∃ g gs, r = inr (Some (g :: gs)) ∧
              cloud.g_Tags g !! groups.TagKeyClusterGroup
                = Some (Some groups.TagValClusterGroup)
          | _ => λ _, False
          end
      | _ => λ _, False
      end r
  end.
(** A get that found a virtual network of another owner *)
Definition foreign_vnet_seen (path : list string) (e : event) : Prop :=
  match e with
  | Ev c r =>
      match c in Call R return R → Prop with
      | MocGetVirtualNetwork _ path' => λ r, path' = path ∧ ∃ v owner,
          r = (VNetValue v, None) ∧
          network.vn_Tags v !! virtualnetworks.OWNER = Some (Some owner) ∧
          owner ≠ virtualnetworks.CAPH
      | _ => λ _, False
      end r
  end.
End Properties.

(** The order of the events of a computed trace: the events that are not of the second class
    are dropped, and for one that is the tactic looks for the event it needs before it. *)
Ltac seek :=
  repeat first
    [ apply Exists_cons_hd; cbn; solve [eauto 12]
    | apply Exists_cons_tl
    | apply Exists_app; right ].
Ltac precedes_auto :=
  repeat first
    [ apply precedes_nil
    | apply precedes_app_not; [solve [eauto]|]
    | apply precedes_cons; [|solve [by intros|intros _; seek]] ].

(** A resource group is deleted from the agent only after the agent has answered, for the
    same location and name, with a group that carries the provider's tag [ownedBy: caph]; a
    group somebody else made is never deleted, whatever the agent answers. *)
Lemma groups_delete_owned_only {L : Libs} {S} `{ScopeInterface S} env g (s : S) :
  wp env (groups.Delete (IGroupsSpec g))
    (λ _ _ t', precedes (owned_group_seen [group_Location g; group_Name g])
                 (ev_is (@is_moc_delete)) t') s [].
Proof.
  unfold groups.Delete. wp_run; repeat case_bool_decide; simplify_eq; precedes_auto.
Qed.

(** A virtual network is deleted only when the agent has answered that its owner tag is set
    and is not [CAPH]: the networks the provider creates, which [Reconcile] tags with the owner
    [CAPH], are never deleted, and neither is one without the tag. *)
Theorem virtualnetworks_delete_foreign_only {L : Libs} {S} `{ScopeInterface S} env v (s : S) :
  wp env (virtualnetworks.Delete (IVirtualNetworksSpec v))
    (λ _ _ t', precedes (foreign_vnet_seen [vnetsp_Group v; vnetsp_Name v])
                 (ev_is (@is_moc_delete)) t') s [].
Proof.
  unfold virtualnetworks.Delete, virtualnetworks.Get.
  wp_run; try match goal with x : vnet_value |- _ => destruct x end; simpl in *;
    repeat case_match; simplify_eq; try case_bool_decide; simplify_eq; precedes_auto.
Qed.

(** The services that keep what they find: [Reconcile] creates a resource only when a get of
    the same path has failed. *)
Definition creates_when_missing {S} (k : moc_kind) (path : S → list string)
    (reconcile : prog S (option error)) : Prop :=
  ∀ env s,
    wp env reconcile
      (λ _ _ t', precedes (get_failed k (path s)) (ev_is (@is_moc_create)) t' ∧
                 Forall (λ e, ¬ ev_is (@is_moc_delete) e) t') s [].
Ltac forall_auto :=
  repeat first [apply Forall_nil; done | apply Forall_app; split; [solve [eauto]|]
               | apply Forall_cons; split; [by cbn|]
               | solve [eauto 3] ].

Section Creates.
Context {L : Libs} {S : Type} `{ScopeInterface S}.
Lemma groups_creates g :
  creates_when_missing (S:=S) MGroup (λ _, [group_Location g; group_Name g])
    (groups.Reconcile (IGroupsSpec g)).
Proof.
  intros env s. unfold groups.Reconcile, groups.Get.
  wp_run; (split; [precedes_auto|forall_auto]).
Qed.
Lemma keyvaults_creates v :
  creates_when_missing (S:=S) MKeyVault (λ s, [GetResourceGroup s; vault_Name v])
    (keyvaults.Reconcile (IKeyVaultsSpec v)).
Proof.
  intros env s. unfold keyvaults.Reconcile, keyvaults.Get.
  wp_run; (split; [precedes_auto|forall_auto]).
Qed.
Lemma disks_creates d :
  creates_when_missing (S:=S) MDisk (λ s, [GetResourceGroup s; ""; disk_Name d])
    (disks.Reconcile (IDisksSpec d)).
Proof.
  intros env s. unfold disks.Reconcile, disks.Get.
  wp_run; (split; [precedes_auto|forall_auto]).
Qed.
Lemma virtualnetworks_creates v :
  creates_when_missing (S:=S) MVirtualNetwork (λ _, [vnetsp_Group v; vnetsp_Name v])
    (virtualnetworks.Reconcile (IVirtualNetworksSpec v)).
Proof.
  intros env s. unfold virtualnetworks.Reconcile, virtualnetworks.Get.
  wp_run; (split; [precedes_auto|forall_auto]).
Qed.
End Creates.

(** ** Frames *)
Section Frames.
Context {L : Libs} {S : Type} `{ScopeInterface S}.
Lemma groups_frame i :
  frame (extends (ev_is (@is_agent))) (groups.Reconcile (S:=S) i) ∧
  frame (extends (ev_is (@is_agent_delete))) (groups.Delete (S:=S) i).
Proof.
  unfold groups.Reconcile, groups.Delete, groups.Get. split; destruct i; frame_auto.
Qed.
Lemma keyvaults_frame i :
  frame (extends (ev_is (@is_agent))) (keyvaults.Reconcile (S:=S) i) ∧
  frame (extends (ev_is (@is_agent_delete))) (keyvaults.Delete (S:=S) i).
Proof.
  unfold keyvaults.Reconcile, keyvaults.Delete, keyvaults.Get. split; destruct i; frame_auto.
Qed.
Lemma disks_frame i :
  frame (extends (ev_is (@is_agent))) (disks.Reconcile (S:=S) i) ∧
  frame (extends (ev_is (@is_agent_delete))) (disks.Delete (S:=S) i).
Proof.
  unfold disks.Reconcile, disks.Delete, disks.Get. split; destruct i; frame_auto.
Qed.
Lemma virtualnetworks_frame i :
  frame (extends (ev_is (@is_agent))) (virtualnetworks.Reconcile (S:=S) i) ∧
  frame (extends (ev_is (@is_agent_delete))) (virtualnetworks.Delete (S:=S) i).
Proof.
  unfold virtualnetworks.Reconcile, virtualnetworks.Delete, virtualnetworks.Get.
  split; destruct i; frame_auto.
Qed.

Lemma services_keep i :
  (frame keeps (groups.Reconcile (S:=S) i) ∧ frame keeps (groups.Delete (S:=S) i)) ∧
  (frame keeps (keyvaults.Reconcile (S:=S) i) ∧ frame keeps (keyvaults.Delete (S:=S) i)) ∧
  (frame keeps (disks.Reconcile (S:=S) i) ∧ frame keeps (disks.Delete (S:=S) i)) ∧
  (frame keeps (virtualnetworks.Reconcile (S:=S) i) ∧
   frame keeps (virtualnetworks.Delete (S:=S) i)).
Proof.
  unfold groups.Reconcile, groups.Delete, groups.Get, keyvaults.Reconcile,
    keyvaults.Delete, keyvaults.Get, disks.Reconcile, disks.Delete, disks.Get,
    virtualnetworks.Reconcile, virtualnetworks.Delete, virtualnetworks.Get.
  split_and!; destruct i; frame_auto.
Qed.
End Frames.
#[export] Hint Extern 1 (frame _ (groups.Reconcile _)) => apply groups_frame : frames.
#[export] Hint Extern 1 (frame _ (groups.Reconcile _)) => apply services_keep : frames.
#[export] Hint Extern 1 (frame _ (groups.Delete _)) => apply groups_frame : frames.
#[export] Hint Extern 1 (frame _ (groups.Delete _)) => apply services_keep : frames.
#[export] Hint Extern 1 (frame _ (keyvaults.Reconcile _)) => apply keyvaults_frame : frames.
#[export] Hint Extern 1 (frame _ (keyvaults.Reconcile _)) => apply services_keep : frames.
#[export] Hint Extern 1 (frame _ (keyvaults.Delete _)) => apply keyvaults_frame : frames.
#[export] Hint Extern 1 (frame _ (keyvaults.Delete _)) => apply services_keep : frames.
#[export] Hint Extern 1 (frame _ (disks.Reconcile _)) => apply disks_frame : frames.
#[export] Hint Extern 1 (frame _ (disks.Reconcile _)) => apply services_keep : frames.
#[export] Hint Extern 1 (frame _ (disks.Delete _)) => apply disks_frame : frames.
#[export] Hint Extern 1 (frame _ (disks.Delete _)) => apply services_keep : frames.
#[export] Hint Extern 1 (frame _ (virtualnetworks.Reconcile _)) => apply virtualnetworks_frame : frames.
#[export] Hint Extern 1 (frame _ (virtualnetworks.Reconcile _)) => apply services_keep : frames.
#[export] Hint Extern 1 (frame _ (virtualnetworks.Delete _)) => apply virtualnetworks_frame : frames.
#[export] Hint Extern 1 (frame _ (virtualnetworks.Delete _)) => apply services_keep : frames.
