(* ===== verification/NetServices.v ===== *)
(** * cloud/services: networkinterfaces and loadbalancers *)
From stdpp Require Import prelude strings list gmap.
From S2P Require Import Prelude GoStd External Api Effects Naming Scope Telemetry.
From S2P Require Import Interfaces Services.
Local Open Scope prog_scope.

Module networkinterfaces.
Import network.

(** The backend pools of a nic, by name *)
Definition backend_pools (names : list string) : list BackendAddressPool :=
  (λ name, mkBackendAddressPool (Some name)) <$> names.

(** One configuration of the specification: only the primary one joins the pools. *)
Definition ip_configuration (nicSpec : networkinterfaces_Spec) (ipconfig : IPConfiguration)
    : InterfaceIPConfiguration :=
  mkIPConfig (Some (Interfaces.ipc_Name ipconfig))
    (mkIPConfigProps (Some (ipc_Primary ipconfig)) (Some (nic_VnetName nicSpec)) None
       (if ipc_Primary ipconfig
        then Some (backend_pools (nic_BackendPoolNames nicSpec)) else None)).
(** The configuration of a nic without any in the specification *)
Definition default_ip_configuration (nicSpec : networkinterfaces_Spec)
    : InterfaceIPConfiguration :=
  mkIPConfig (Some "pipConfig")
    (mkIPConfigProps None (Some (nic_VnetName nicSpec))
       (if decide (nic_StaticIPAddress nicSpec ≠ "")
        then Some (nic_StaticIPAddress nicSpec) else None)
       (Some (backend_pools (nic_BackendPoolNames nicSpec)))).
(** The interface [Reconcile] asks for *)
Definition network_interface (nicSpec : networkinterfaces_Spec) : Interface :=
  mkInterface (Some (nic_Name nicSpec))
    (Some (mkIfProps (Some true) (Some true) (Some (nic_MacAddress nicSpec))
       (match nic_IPConfigurations nicSpec with
        | [] => [default_ip_configuration nicSpec]
        | l => ip_configuration nicSpec <$> l
        end))).

Section NetworkInterfaces.
Context {L : Libs} {S : Type} `{ScopeInterface S}.

Definition Get (spec : iface) : prog S (iface * option error) :=
  match spec with
  | INetworkInterfacesSpec nicSpec =>
      client <- gets moc_client ;;
      rg <- gets GetResourceGroup ;;
      try nic <- call (MocGet client MNetworkInterface [rg; nic_Name nicSpec])
        iferr err then ret (INil, Some err) ;;
      n <- deref_first nic ;;
      ret (ISdk MNetworkInterface n, None)
  | _ => ret (ISdk MNetworkInterface (zero_mocobj MNetworkInterface),
              Some (ErrNew "invalid network interface specification"))
  end.

Definition Reconcile (spec : iface) : prog S (option error) :=
  WriteMocInfoLog ;;
  match spec with
  | INetworkInterfacesSpec nicSpec =>
      ' (_, err) <- Get spec ;;
      match err with
      | None => ret None
      | Some _ =>
          let networkInterface := network_interface nicSpec in
          client <- gets moc_client ;;
          rg <- gets GetResourceGroup ;;
          err <- call (MocCreateOrUpdate client MNetworkInterface
                         [rg; nic_Name nicSpec] networkInterface) ;;
          cr <- gets GetCustomResourceTypeWithName ;;
          WriteMocOperationLog OpCreateOrUpdate cr TNetworkInterface
            (GenerateMocResourceName [rg; nic_Name nicSpec])
            (ParamsInterface networkInterface) err ;;
          ret (Wrap err ("failed to create network interface " +:+ nic_Name nicSpec
                           +:+ " in resource group " +:+ rg))
      end
  | _ => ret (Some (ErrNew "invalid network interface specification"))
  end.

Definition Delete (spec : iface) : prog S (option error) :=
  WriteMocInfoLog ;;
  match spec with
  | INetworkInterfacesSpec nicSpec =>
      client <- gets moc_client ;;
      rg <- gets GetResourceGroup ;;
      err <- call (MocDelete client MNetworkInterface [rg; nic_Name nicSpec]) ;;
      cr <- gets GetCustomResourceTypeWithName ;;
      WriteMocOperationLog OpDelete cr TNetworkInterface
        (GenerateMocResourceName [rg; nic_Name nicSpec]) NoParams err ;;
      match err with
      | Some err =>
          if ResourceNotFound err then ret None
          else ret (Some (ErrWrap err ("failed to delete network interface "
                 +:+ nic_Name nicSpec +:+ " in resource group " +:+ rg)))
      | None => ret None
      end
  | _ => ret (Some (ErrNew "invalid network interface Specification"))
  end.

Definition NewService : Service S := mkService Reconcile Delete.
End NetworkInterfaces.
End networkinterfaces.

Module loadbalancers.
Import network.

(** The load balancer [Reconcile] asks for *)
Definition network_lb (lbSpec : loadbalancers_Spec) : LoadBalancer :=
  mkLoadBalancer (Some (lbsp_Name lbSpec))
    (Some (mkLBProps
       (Some [mkBackendAddressPool (Some (lbsp_BackendPoolName lbSpec))])
       (Some [mkFrontend (Some (mkFrontendProps (Some (lbsp_VnetName lbSpec)) None))])
       (Some [mkRule TransportProtocolTCP (Some (lbsp_FrontendPort lbSpec))
                (Some (lbsp_BackendPort lbSpec))])
       0))
    (lbsp_Tags lbSpec).

Section LoadBalancers.
Context {L : Libs} {S : Type} `{ScopeInterface S}.

Definition Get (spec : iface) : prog S (iface * option error) :=
  match spec with
  | ILoadBalancersSpec lbSpec =>
      client <- gets moc_client ;;
      rg <- gets GetResourceGroup ;;
      try lb <- call (MocGet client MLoadBalancer [rg; lbsp_Name lbSpec])
        iferr err then ret (INil, Some err) ;;
      l <- deref_first lb ;;
      ret (ISdk MLoadBalancer l, None)
  | _ => ret (ISdk MLoadBalancer (zero_mocobj MLoadBalancer),
              Some (ErrNew "invalid loadbalancer specification"))
  end.

Definition Reconcile (spec : iface) : prog S (option error) :=
  WriteMocInfoLog ;;
  match spec with
  | ILoadBalancersSpec lbSpec =>
      ' (_, err) <- Get spec ;;
      match err with
      | None => ret None
      | Some _ =>
          let networkLB := network_lb lbSpec in
          client <- gets moc_client ;;
          rg <- gets GetResourceGroup ;;
          err <- call (MocCreateOrUpdate client MLoadBalancer [rg; lbsp_Name lbSpec]
                         networkLB) ;;
          cr <- gets GetCustomResourceTypeWithName ;;
          WriteMocOperationLog OpCreateOrUpdate cr TLoadBalancer
            (GenerateMocResourceName [rg; lbsp_Name lbSpec])
            (ParamsLoadBalancer networkLB) err ;;
          ret err
      end
  | _ => ret (Some (ErrNew "invalid loadbalancer specification"))
  end.

Definition Delete (spec : iface) : prog S (option error) :=
  WriteMocInfoLog ;;
  match spec with
  | ILoadBalancersSpec lbSpec =>
      client <- gets moc_client ;;
      rg <- gets GetResourceGroup ;;
      err <- call (MocDelete client MLoadBalancer [rg; lbsp_Name lbSpec]) ;;
      cr <- gets GetCustomResourceTypeWithName ;;
      WriteMocOperationLog OpDelete cr TLoadBalancer
        (GenerateMocResourceName [rg; lbsp_Name lbSpec]) NoParams err ;;
      match err with
      | Some err =>
          if ResourceNotFound err then ret None
          else ret (Some (ErrWrap err ("failed to delete loadbalancer "
                 +:+ lbsp_Name lbSpec +:+ " in resource group " +:+ rg)))
      | None => ret None
      end
  | _ => ret (Some (ErrNew "invalid loadbalancer specification"))
  end.

Definition NewService : GetterService S := mkGetterService Get Reconcile Delete.
End LoadBalancers.
End loadbalancers.

(** ** Properties *)
Section Properties.
Context {L : Libs} {S : Type} `{ScopeInterface S}.

Lemma wp_networkinterfaces_Delete env n Q (s : S) t :
  (∀ r new1 new2,
     Forall (ev_is (@is_telemetry)) new1 → Forall (ev_is (@is_telemetry)) new2 →
     Q (Ok (delete_result r ("failed to delete network interface " +:+ nic_Name n
              +:+ " in resource group " +:+ GetResourceGroup s))) s
       (new2 ++ Ev (MocDelete (moc_client s) MNetworkInterface
                      [GetResourceGroup s; nic_Name n]) r :: new1 ++ t)) →
  wp env (networkinterfaces.Delete (INetworkInterfacesSpec n)) Q s t.
Proof.
  intros HQ. unfold networkinterfaces.Delete. wp_run;
    match goal with |- context [Ev (MocDelete _ _ _) ?r] => specialize (HQ r) end;
    simpl in HQ; repeat case_match; try done; by apply HQ.
Qed.
Lemma wp_loadbalancers_Delete env l Q (s : S) t :
  (∀ r new1 new2,
     Forall (ev_is (@is_telemetry)) new1 → Forall (ev_is (@is_telemetry)) new2 →
     Q (Ok (delete_result r ("failed to delete loadbalancer " +:+ lbsp_Name l
              +:+ " in resource group " +:+ GetResourceGroup s))) s
       (new2 ++ Ev (MocDelete (moc_client s) MLoadBalancer
                      [GetResourceGroup s; lbsp_Name l]) r :: new1 ++ t)) →
  wp env (loadbalancers.Delete (ILoadBalancersSpec l)) Q s t.
Proof.
  intros HQ. unfold loadbalancers.Delete. wp_run;
    match goal with |- context [Ev (MocDelete _ _ _) ?r] => specialize (HQ r) end;
    simpl in HQ; repeat case_match; try done; by apply HQ.
Qed.

Lemma networkinterfaces_creates n :
  creates_when_missing (S:=S) MNetworkInterface (λ s, [GetResourceGroup s; nic_Name n])
    (networkinterfaces.Reconcile (INetworkInterfacesSpec n)).
Proof.
  intros env s. unfold networkinterfaces.Reconcile, networkinterfaces.Get.
  wp_run; (split; [precedes_auto|forall_auto]).
Qed.
Lemma loadbalancers_creates l :
  creates_when_missing (S:=S) MLoadBalancer (λ s, [GetResourceGroup s; lbsp_Name l])
    (loadbalancers.Reconcile (ILoadBalancersSpec l)).
Proof.
  intros env s. unfold loadbalancers.Reconcile, loadbalancers.Get.
  wp_run; (split; [precedes_auto|forall_auto]).
Qed.

(** C36: The services whose resources are never updated (groups, key vaults, disks, virtual
    networks, network interfaces, load balancers) create a resource in the agent only after
    a get of the same path has failed, and [Reconcile] deletes nothing. *)
Theorem services_create_only_missing g v d vn n l :
  creates_when_missing (S:=S) MGroup (λ _, [group_Location g; group_Name g])
    (groups.Reconcile (IGroupsSpec g)) ∧
  creates_when_missing (S:=S) MKeyVault (λ s, [GetResourceGroup s; vault_Name v])
    (keyvaults.Reconcile (IKeyVaultsSpec v)) ∧
  creates_when_missing (S:=S) MDisk (λ s, [GetResourceGroup s; ""; disk_Name d])
    (disks.Reconcile (IDisksSpec d)) ∧
  creates_when_missing (S:=S) MVirtualNetwork (λ _, [vnetsp_Group vn; vnetsp_Name vn])
    (virtualnetworks.Reconcile (IVirtualNetworksSpec vn)) ∧
  creates_when_missing (S:=S) MNetworkInterface (λ s, [GetResourceGroup s; nic_Name n])
    (networkinterfaces.Reconcile (INetworkInterfacesSpec n)) ∧
  creates_when_missing (S:=S) MLoadBalancer (λ s, [GetResourceGroup s; lbsp_Name l])
    (loadbalancers.Reconcile (ILoadBalancersSpec l)).
Proof.
  eauto 10 using groups_creates, keyvaults_creates, disks_creates,
    virtualnetworks_creates, networkinterfaces_creates, loadbalancers_creates.
Qed.
End Properties.

(** The pools an IP configuration joins *)
Definition pools_of (c : network.InterfaceIPConfiguration) : list (option string) :=
  match network.ipp_LoadBalancerBackendAddressPools (network.ipc_props c) with
  | Some pools => network.bap_Name <$> pools
  | None => []
  end.
Definition is_primary (c : network.InterfaceIPConfiguration) : bool :=
  bool_decide (network.ipp_Primary (network.ipc_props c) = Some true).

(** The network interface of a virtual machine has the IP configurations of the
    specification in their order, each in the cluster's network; exactly the primary ones join
    the load balancer's backend pools. Without any configuration it has the single
    configuration [pipConfig], which joins them. *)
Theorem network_interface_spec n :
  ∃ props, network.if_props (networkinterfaces.network_interface n) = Some props ∧
  let configs := network.ifp_IPConfigurations props in
  Forall (λ c, network.ipp_SubnetID (network.ipc_props c) = Some (nic_VnetName n)) configs ∧
  if decide (nic_IPConfigurations n = []) then
    network.ipc_Name <$> configs = [Some "pipConfig"] ∧
    pools_of <$> configs = [Some <$> nic_BackendPoolNames n]
  else
    network.ipc_Name <$> configs = (Some ∘ ipc_Name) <$> nic_IPConfigurations n ∧
    is_primary <$> configs = ipc_Primary <$> nic_IPConfigurations n ∧
    pools_of <$> configs =
      (λ c, if ipc_Primary c then Some <$> nic_BackendPoolNames n else [])
        <$> nic_IPConfigurations n.
Proof.
  eexists. split; [done|]. cbn.
  assert (Hpool : network.bap_Name <$>
            networkinterfaces.backend_pools (nic_BackendPoolNames n)
            = Some <$> nic_BackendPoolNames n).
  { unfold networkinterfaces.backend_pools. by rewrite <-list_fmap_compose. }
  destruct (nic_IPConfigurations n) as [|c cs] eqn:Hl.
  - rewrite decide_True by done. split_and!; [by repeat constructor|done|].
    cbn. unfold pools_of. cbn. by rewrite Hpool.
  - rewrite decide_False by done.
    change (networkinterfaces.ip_configuration n c
              :: (networkinterfaces.ip_configuration n <$> cs))
      with (networkinterfaces.ip_configuration n <$> (c :: cs)).
    generalize (c :: cs) as l. intros l.
    rewrite Forall_fmap, <-!list_fmap_compose. split_and!; [by apply Forall_true|done| |].
    + apply list_fmap_ext. intros _ x _. unfold is_primary. cbn. by destruct (ipc_Primary x).
    + apply list_fmap_ext. intros _ x _. unfold pools_of. cbn.
      by destruct (ipc_Primary x); cbn.
Qed.

(** ** Frames *)
Section Frames.
Context {L : Libs} {S : Type} `{ScopeInterface S}.
Lemma networkinterfaces_frame i :
  frame (extends (ev_is (@is_agent_read))) (networkinterfaces.Get (S:=S) i) ∧
  frame (extends (ev_is (@is_agent))) (networkinterfaces.Reconcile (S:=S) i) ∧
  frame (extends (ev_is (@is_agent_delete))) (networkinterfaces.Delete (S:=S) i).
Proof.
  unfold networkinterfaces.Reconcile, networkinterfaces.Delete, networkinterfaces.Get.
  split_and!; destruct i; frame_auto.
Qed.
Lemma networkinterfaces_keep i :
  frame keeps (networkinterfaces.Get (S:=S) i) ∧
  frame keeps (networkinterfaces.Reconcile (S:=S) i) ∧
  frame keeps (networkinterfaces.Delete (S:=S) i).
Proof.
  unfold networkinterfaces.Reconcile, networkinterfaces.Delete, networkinterfaces.Get.
  split_and!; destruct i; frame_auto.
Qed.
Lemma loadbalancers_frame i :
  frame (extends (ev_is (@is_agent_read))) (loadbalancers.Get (S:=S) i) ∧
  frame (extends (ev_is (@is_agent))) (loadbalancers.Reconcile (S:=S) i) ∧
  frame (extends (ev_is (@is_agent_delete))) (loadbalancers.Delete (S:=S) i).
Proof.
  unfold loadbalancers.Reconcile, loadbalancers.Delete, loadbalancers.Get.
  split_and!; destruct i; frame_auto.
Qed.
Lemma loadbalancers_keep i :
  frame keeps (loadbalancers.Get (S:=S) i) ∧
  frame keeps (loadbalancers.Reconcile (S:=S) i) ∧
  frame keeps (loadbalancers.Delete (S:=S) i).
Proof.
  unfold loadbalancers.Reconcile, loadbalancers.Delete, loadbalancers.Get.
  split_and!; destruct i; frame_auto.
Qed.
End Frames.
#[export] Hint Extern 1 (frame _ (networkinterfaces.Reconcile _)) => apply networkinterfaces_frame : frames.
#[export] Hint Extern 1 (frame _ (networkinterfaces.Reconcile _)) => apply networkinterfaces_keep : frames.
#[export] Hint Extern 1 (frame _ (networkinterfaces.Delete _)) => apply networkinterfaces_frame : frames.
#[export] Hint Extern 1 (frame _ (networkinterfaces.Delete _)) => apply networkinterfaces_keep : frames.
#[export] Hint Extern 1 (frame _ (networkinterfaces.Get _)) => apply networkinterfaces_frame : frames.
#[export] Hint Extern 1 (frame _ (networkinterfaces.Get _)) => apply networkinterfaces_keep : frames.
#[export] Hint Extern 1 (frame _ (loadbalancers.Reconcile _)) => apply loadbalancers_frame : frames.
#[export] Hint Extern 1 (frame _ (loadbalancers.Reconcile _)) => apply loadbalancers_keep : frames.
#[export] Hint Extern 1 (frame _ (loadbalancers.Delete _)) => apply loadbalancers_frame : frames.
#[export] Hint Extern 1 (frame _ (loadbalancers.Delete _)) => apply loadbalancers_keep : frames.
#[export] Hint Extern 1 (frame _ (loadbalancers.Get _)) => apply loadbalancers_frame : frames.
#[export] Hint Extern 1 (frame _ (loadbalancers.Get _)) => apply loadbalancers_keep : frames.
