(* ===== verification/VMService.v ===== *)
(** * cloud/services/virtualmachines

    The service that gets, creates and deletes a virtual machine in the MOC agent, with the
    image reference, the computer name and the GPU list it builds. *)
From stdpp Require Import prelude strings list gmap.
From S2P Require Import Prelude GoStd External Api Effects Util Naming Scope Example.
From S2P Require Import Telemetry Interfaces Services NetServices.
Local Open Scope prog_scope.

Module virtualmachines.
Definition computerNamePrefix := "moc-".
Definition computerNameLength : nat := 15.

Section Images.
Context {L : Libs}.
Definition generateImageID (image : Image) : error + string :=
  match img_SubscriptionID image, img_ResourceGroup image, img_Gallery image,
        img_Name image, img_Version image with
  | None, _, _, _, _ => inl (ErrNew ("Image subscription ID cannot be nil when "
      +:+ "specifying an image from an AzureStackHCI Shared Image Gallery"))
  | _, None, _, _, _ => inl (ErrNew ("Image resource group cannot be nil when "
      +:+ "specifying an image from an AzureStackHCI Shared Image Gallery"))
  | _, _, None, _, _ => inl (ErrNew ("Image gallery cannot be nil when specifying "
      +:+ "an image from an AzureStackHCI Shared Image Gallery"))
  | _, _, _, None, _ => inl (ErrNew ("Image name cannot be nil when specifying an "
      +:+ "image from an AzureStackHCI Shared Image Gallery"))
  | _, _, _, _, None => inl (ErrNew ("Image version cannot be nil when specifying "
      +:+ "an image from an AzureStackHCI Shared Image Gallery"))
  | Some sub, Some rg, Some gallery, Some name, Some version =>
      inr ("/subscriptions/" +:+ sub +:+ "/resourceGroups/" +:+ rg
           +:+ "/providers/Microsoft.Compute/galleries/" +:+ gallery
           +:+ "/images/" +:+ name +:+ "/versions/" +:+ version)
  end.

Definition generateImageReference (image : Image) : error + compute.ImageReference :=
  match img_Name image with
  | None => inl (ErrNew "Missing ImageReference")
  | Some name =>
      let imageRef := compute.mkImageReference (Some name) None None None None None in
      match img_ID image with
      | Some id => inr (imageRef <| compute.ir_ID := Some id |>)
      | None =>
          match img_SubscriptionID image, img_ResourceGroup image, img_Gallery image,
                img_Version image with
          | Some _, Some _, Some _, Some _ =>
              match generateImageID image with
              | inl err => inl err
              | inr imageID => inr (imageRef <| compute.ir_ID := Some imageID |>)
              end
          | _, _, _, _ =>
              let imageRef := imageRef <| compute.ir_Publisher := img_Publisher image |>
                                       <| compute.ir_Offer := img_Offer image |>
                                       <| compute.ir_Sku := img_SKU image |> in
              match img_Version image with
              | Some v => inr (imageRef <| compute.ir_Version := Some v |>)
              | None => inl (ErrNew
                  ("Image reference cannot be generated, as fields are missing: "
                   +:+ plus_v_ImageReference imageRef))
              end
          end
      end
  end.

Definition generateStorageProfile (vmSpec : virtualmachines_Spec)
    : error + compute.StorageProfile :=
  match generateImageReference (vmsp_Image vmSpec) with
  | inl err => inl (ErrWrap err "error getting image reference")
  | inr imageRef =>
      inr (compute.mkStorageProfile (Some (GenerateOSDiskName (vmsp_Name vmSpec))) []
             imageRef (Some (vmsp_StorageContainer vmSpec)))
  end.
End Images.

(** [generateComputerName(os)] *)
Definition computer_name_head (os : OSType) : string :=
  computerNamePrefix +:+
  (if decide (os = OSTypeWindows) then "w"
   else if decide (os = OSTypeWindows2022) then "w"
   else if decide (os = OSTypeLinux) then "l"
   else "u").
Definition generateComputerName {S} (os : OSType) : prog S (error + string) :=
  let computerName := computer_name_head os in
  if String.length computerName <? computerNameLength then
    try randomString <-
      RandomAlphaNumericString (computerNameLength - String.length computerName)
      iferr err then ret (inl err) ;;
    ret (inr (computerName +:+ randomString))
  else ret (inr computerName).

(** [generateGpuList(gpuCount)]; a nil slice is the empty list. *)
Definition generateGpuList (gpuCount : Z) : list compute.VirtualMachineGPU :=
  if Z.leb gpuCount 0 then []
  else replicate (Z.to_nat gpuCount) (compute.mkGPU (Some compute.GpuDefault)).

(** The virtual machine [Reconcile] asks for *)
Definition virtual_machine (rg : string) (vmSpec : virtualmachines_Spec)
    (storageProfile : compute.StorageProfile) (computerName : string)
    (sshKeyData : list string) (nicName : option string) : compute.VirtualMachine :=
  let sshKeyPath := "/home/" +:+ DefaultUserName +:+ "/.ssh/authorized_keys" in
  let sshPublicKeys := (λ k, compute.mkSSHPublicKey (Some sshKeyPath) (Some k))
                         <$> sshKeyData in
  let osType := img_OSType (vmsp_Image vmSpec) in
  let windows := bool_decide (osType = OSTypeWindows)
                 || bool_decide (osType = OSTypeWindows2022) in
  let osProfile :=
    if windows then
      compute.mkOSProfile (Some computerName) (Some "Administrator") (Some "")
        (Some (vmsp_CustomData vmSpec)) (osd_OSType (vmsp_OSDisk vmSpec))
        None (Some (compute.mkWindows sshPublicKeys))
    else
      compute.mkOSProfile (Some computerName) (Some DefaultUserName) None
        (Some (vmsp_CustomData vmSpec)) (osd_OSType (vmsp_OSDisk vmSpec))
        (Some (compute.mkLinux sshPublicKeys (Some true))) None in
  let group_ref name :=
    if decide (name = "") then None
    else Some (compute.mkGroupRef (Some name) (Some rg)) in
  compute.mkVirtualMachine None (Some (vmsp_Name vmSpec))
    (Some (compute.mkVMProps storageProfile osProfile [nicName] (vmsp_VMType vmSpec)
       (vmsp_Size vmSpec) (generateGpuList (vmsp_GpuCount vmSpec))
       (group_ref (vmsp_AvailabilitySetName vmSpec))
       (group_ref (vmsp_PlacementGroupName vmSpec)))).

Section VirtualMachines.
Context {L : Libs} {S : Type} `{ScopeInterface S}.

(** An empty list wraps a nil error, which is a nil error: the result is nil, nil. *)
Definition Get (spec : iface) : prog S (iface * option error) :=
  match spec with
  | IVirtualMachinesSpec vmSpec =>
      client <- gets moc_client ;;
      rg <- gets GetResourceGroup ;;
      try vm <- call (MocGet client MVirtualMachine [rg; vmsp_Name vmSpec])
        iferr err then ret (INil, Some err) ;;
      match vm with
      | None | Some [] =>
          ret (INil, Wrap None ("vm " +:+ vmsp_Name vmSpec +:+ " not found"))
      | Some (v :: _) => ret (IVM (SDKToVM v), None)
      end
  | _ => ret (ISdk MVirtualMachine (zero_mocobj MVirtualMachine),
              Some (ErrNew "invalid vm specification"))
  end.

(** A key pair of its own when the specification has no key *)
Definition ssh_keys (keys : list string) : prog S (error + list string) :=
  match keys with
  | [] => try privateKey <- call GenerateRSAKey iferr perr then
            ret (inl (ErrWrap perr "Failed to generate private key")) ;;
          try publicKey <- call (NewPublicKey privateKey) iferr perr then
            ret (inl (ErrWrap perr "Failed to generate public key")) ;;
          ret (inr [publicKey])
  | _ => ret (inr keys)
  end.

Definition Reconcile (spec : iface) : prog S (option error) :=
  WriteMocInfoLog ;;
  match spec with
  | IVirtualMachinesSpec vmSpec =>
      match generateStorageProfile vmSpec with
      | inl err => ret (Some err)
      | inr storageProfile =>
          ' (nicInterface, err) <- networkinterfaces.Get (INetworkInterfacesSpec
              (mkNetworkInterfacesSpec (vmsp_NICName vmSpec) "" "" "" "" [] [])) ;;
          match err with
          | Some err => ret (Some err)
          | None =>
              match nicInterface with
              | ISdk MNetworkInterface nic =>
                  try sshKeyData <- ssh_keys (vmsp_SSHKeyData vmSpec)
                    iferr err then ret (Some err) ;;
                  try computerName <-
                    generateComputerName (img_OSType (vmsp_Image vmSpec))
                    iferr err then
                    ret (Some (ErrWrap err "Failed to generate computer name")) ;;
                  client <- gets moc_client ;;
                  rg <- gets GetResourceGroup ;;
                  err <- call (MocCreateOrUpdate client MVirtualMachine
                      [rg; vmsp_Name vmSpec]
                      (virtual_machine rg vmSpec storageProfile computerName sshKeyData
                         (network.if_Name nic))) ;;
                  cr <- gets GetCustomResourceTypeWithName ;;
                  WriteMocOperationLog OpCreateOrUpdate cr TVirtualMachine
                    (GenerateMocResourceName [rg; vmsp_Name vmSpec]) NoParams err ;;
                  ret (Wrap err "cannot create vm")
              | _ => ret (Some (ErrNew "error getting network interface"))
              end
          end
      end
  | _ => ret (Some (ErrNew "invalid vm specification"))
  end.

Definition Delete (spec : iface) : prog S (option error) :=
  WriteMocInfoLog ;;
  match spec with
  | IVirtualMachinesSpec vmSpec =>
      client <- gets moc_client ;;
      rg <- gets GetResourceGroup ;;
      err <- call (MocDelete client MVirtualMachine [rg; vmsp_Name vmSpec]) ;;
      cr <- gets GetCustomResourceTypeWithName ;;
      WriteMocOperationLog OpDelete cr TVirtualMachine
        (GenerateMocResourceName [rg; vmsp_Name vmSpec]) NoParams err ;;
      match err with
      | Some err =>
          if ResourceNotFound err then ret None
          else ret (Some (ErrWrap err ("failed to delete vm " +:+ vmsp_Name vmSpec
                 +:+ " in resource group " +:+ rg)))
      | None => ret None
      end
  | _ => ret (Some (ErrNew "invalid vm Specification"))
  end.

Definition NewService : GetterService S := mkGetterService Get Reconcile Delete.
End VirtualMachines.
End virtualmachines.

(** ** Properties *)
Section Properties.
Context {L : Libs} {S : Type} `{ScopeInterface S}.

Lemma wp_virtualmachines_Delete env v Q (s : S) t :
  (∀ r new1 new2,
     Forall (ev_is (@is_telemetry)) new1 → Forall (ev_is (@is_telemetry)) new2 →
     Q (Ok (delete_result r ("failed to delete vm " +:+ vmsp_Name v
              +:+ " in resource group " +:+ GetResourceGroup s))) s
       (new2 ++ Ev (MocDelete (moc_client s) MVirtualMachine
                      [GetResourceGroup s; vmsp_Name v]) r :: new1 ++ t)) →
  wp env (virtualmachines.Delete (IVirtualMachinesSpec v)) Q s t.
Proof.
  intros HQ. unfold virtualmachines.Delete. wp_run;
    match goal with |- context [Ev (MocDelete _ _ _) ?r] => specialize (HQ r) end;
    simpl in HQ; repeat case_match; try done; by apply HQ.
Qed.
End Properties.

(** *** Random names *)
Definition alphanumeric (c : Ascii.ascii) : Prop :=
  c ∈ String.list_ascii_of_string charSet.
(** The random source answers below the bound it is given ([crypto/rand.Int]). *)
Definition rand_in_range (env : Env) : Prop :=
  ∀ t max v, env t _ (RandInt max) = inr v → (0 ≤ v < max)%Z.

Lemma string_get_elem (str : string) n c :
  String.get n str = Some c → c ∈ String.list_ascii_of_string str.
Proof.
  revert n. induction str as [|c' str IH]; intros n; [done|].
  destruct n as [|n]; simpl; [intros; simplify_eq; left|intros Hc; right; eauto].
Qed.
Lemma string_get_lt (str : string) n :
  n < String.length str → ∃ c, String.get n str = Some c.
Proof.
  revert n. induction str as [|c str IH]; simpl; [lia|].
  intros [|n] Hn; [by eexists|]. apply IH. lia.
Qed.
Lemma charSet_elem (v : Z) c : String.get (Z.to_nat v) charSet = Some c → alphanumeric c.
Proof. apply string_get_elem. Qed.
Lemma charSet_get (v : Z) :
  (0 ≤ v < Z.of_nat (String.length charSet))%Z → ∃ c, String.get (Z.to_nat v) charSet = Some c.
Proof. intros Hv. apply string_get_lt. lia. Qed.

(** The draws from the random source, one per character, and what they give: the characters at
    the numbers drawn, or the error of the draw that failed, after which nothing is drawn *)
Definition char_count : Z := Z.of_nat (String.length charSet).
Definition drawn (v : Z) : event := Ev (RandInt char_count) (inr v).
Inductive random_string : nat → trace → error + string → Prop :=
  | random_done : random_string 0 [] (inr "")
  | random_failed n e :
      random_string (S n) [Ev (RandInt char_count) (inl e)] (inl e)
  | random_more n v c t r :
      String.get (Z.to_nat v) charSet = Some c → random_string n t r →
      random_string (S n) (t ++ [drawn v])
        (match r with inl err => inl err | inr rest => inr (String c rest) end).
Lemma random_string_silent n t r : random_string n t r → Forall (ev_is (@is_silent)) t.
Proof.
  induction 1; [constructor|by repeat constructor|]. apply Forall_app. by repeat constructor.
Qed.
Lemma random_string_name n t str :
  random_string n t (inr str) →
  String.length str = n ∧ Forall alphanumeric (String.list_ascii_of_string str).
Proof.
  remember (inr str) as r eqn:Hr. intros H. revert str Hr.
  induction H as [|n e|n v c t [e|rest] Hc _ IH]; intros str Hr; simplify_eq/=;
    [by split; [|constructor]|].
  destruct (IH rest eq_refl) as [-> Hf]. split; [done|]. constructor; [|done].
  exact (charSet_elem _ _ Hc).
Qed.
Lemma wp_RandomAlphaNumericString {A} env n (Q : outcome (error + string) → A → trace → Prop) s t :
  rand_in_range env →
  (∀ new r, random_string n new r → Q (Ok r) s (new ++ t)) →
  wp env (RandomAlphaNumericString n) Q s t.
Proof.
  intros Hrand. revert Q t. induction n as [|n IH]; intros Q t HQ; simpl.
  - apply wp_ret, (HQ []). constructor.
  - wp_step. wp_step. destruct r as [e|v].
    { wp_step. apply (HQ [_]). constructor. }
    apply Hrand in H. wp_step. unfold string_index.
    destruct (charSet_get v H) as (c&Hget).
    replace (Z.ltb v 0) with false by (symmetry; apply Z.ltb_ge; lia).
    rewrite Hget. wp_step. wp_step. apply IH. intros new r Hr.
    pose proof (random_more _ _ _ _ _ Hget Hr) as Hm.
    destruct r as [e|str]; wp_step; apply HQ in Hm; by rewrite <-app_assoc in Hm.
Qed.

Lemma computer_name_head_length os : String.length (virtualmachines.computer_name_head os) = 5.
Proof.
  unfold virtualmachines.computer_name_head. rewrite length_append.
  by repeat case_decide.
Qed.

(** C34: With a random source that answers in range, [generateComputerName] asks it for ten
    characters and for nothing else, one after the other. If a draw fails, that is the last
    and its error is the result; else the result is a name of exactly 15 bytes (the length
    Windows allows): the prefix [moc-], a letter for the operating system, then the characters
    of [a-z0-9] at the ten numbers drawn. *)
Theorem generateComputerName_spec {A} env os (s : A) t :
  rand_in_range env →
  wp env (virtualmachines.generateComputerName os)
    (λ o s' t', s' = s ∧ ∃ new r, t' = new ++ t ∧ random_string 10 new r ∧
       match r with
       | inl err => o = Ok (inl err)
       | inr suffix =>
           o = Ok (inr (virtualmachines.computer_name_head os +:+ suffix)) ∧
           String.length (virtualmachines.computer_name_head os +:+ suffix) = 15 ∧
           Forall alphanumeric (String.list_ascii_of_string suffix)
       end) s t.
Proof.
  intros Hrand. unfold virtualmachines.generateComputerName.
  cbv zeta. rewrite computer_name_head_length.
  change (5 <? virtualmachines.computerNameLength) with true.
  change (virtualmachines.computerNameLength - 5) with 10.
  cbv iota. wp_step. apply wp_RandomAlphaNumericString; [done|].
  intros new [e|str] Hr; wp_step; (split; [done|]); eexists new, _; (split; [done|]);
    (split; [exact Hr|]); [done|].
  apply random_string_name in Hr as [Hl Hf].
  by rewrite length_append, computer_name_head_length, Hl.
Qed.
Lemma generateComputerName_spec_witness :
  rand_in_range ex_env ∧
  ∃ name, (virtualmachines.generateComputerName OSTypeLinux ex_env tt []).1.1 = Ok (inr name) ∧
          String.length name = 15.
Proof.
  assert (Hr : rand_in_range ex_env).
  { intros t max v. cbn. destruct (Z.ltb_spec 0 max); intros; simplify_eq; lia. }
  split; [exact Hr|].
  destruct (generateComputerName_spec ex_env OSTypeLinux tt [] Hr)
    as (_&new&[err|suffix]&_&_&Ho).
  - exfalso. revert Ho. vm_compute. discriminate.
  - destruct Ho as (Ho&Hl&_). by eexists.
Defined.

(** The image references an image can have, in the order the code prefers them *)
Inductive image_reference (image : Image) : compute.ImageReference → Prop :=
  | image_by_id name id :
      img_Name image = Some name → img_ID image = Some id →
      image_reference image
        (compute.mkImageReference (Some name) (Some id) None None None None)
  | image_by_gallery name sub rg gallery version :
      img_Name image = Some name → img_ID image = None →
      img_SubscriptionID image = Some sub → img_ResourceGroup image = Some rg →
      img_Gallery image = Some gallery → img_Version image = Some version →
      image_reference image
        (compute.mkImageReference (Some name)
           (Some ("/subscriptions/" +:+ sub +:+ "/resourceGroups/" +:+ rg
               +:+ "/providers/Microsoft.Compute/galleries/" +:+ gallery
               +:+ "/images/" +:+ name +:+ "/versions/" +:+ version)) None None None None)
  | image_by_publisher name version :
      img_Name image = Some name → img_ID image = None →
      (img_SubscriptionID image = None ∨ img_ResourceGroup image = None ∨
       img_Gallery image = None) →
      img_Version image = Some version →
      image_reference image
        (compute.mkImageReference (Some name) None (img_Publisher image) (img_Offer image)
           (img_SKU image) (Some version)).

(** C35: [generateImageReference] needs a name in every case. It then gives the reference by id
    when the image has one, else the shared-gallery path when the subscription, resource
    group, gallery and version are all given, else the publisher fields as they are, with the
    version, the only one of them it needs. It fails exactly when the image has no name, or
    neither an id nor a version. The comment of the type asks for something else: nothing but
    the id for an image by id, and all of publisher, offer, SKU and version for one by
    publisher; the code rejects the former without a name and accepts the latter with the
    version alone, so that the reference may be half specified. *)
Theorem generateImageReference_spec {L : Libs} image :
  (∀ ref, virtualmachines.generateImageReference image = inr ref ↔
          image_reference image ref) ∧
  ((∃ err, virtualmachines.generateImageReference image = inl err) ↔
    img_Name image = None ∨ (img_ID image = None ∧ img_Version image = None)).
Proof.
  unfold virtualmachines.generateImageReference, virtualmachines.generateImageID.
  destruct image as [pub off sku id sub rg gal name ver os]; cbn. split.
  - intros ref. split.
    + intros Heq. repeat case_match; simplify_eq; cbn;
        solve [econstructor; cbn; eauto].
    + intros []; simpl in *; simplify_eq; cbn; repeat case_match; naive_solver.
  - repeat case_match; simplify_eq; naive_solver.
Qed.

(** ** Frames *)
Section Frames.
Context {L : Libs} {S : Type} `{ScopeInterface S}.
Lemma generateComputerName_frame os :
  frame (extends (ev_is (@is_agent_read)))
    (virtualmachines.generateComputerName (S:=S) os) ∧
  frame keeps (virtualmachines.generateComputerName (S:=S) os).
Proof. unfold virtualmachines.generateComputerName. split; frame_auto. Qed.
Lemma virtualmachines_frame i :
  frame (extends (ev_is (@is_agent_read))) (virtualmachines.Get (S:=S) i) ∧
  frame (extends (ev_is (@is_agent))) (virtualmachines.Reconcile (S:=S) i) ∧
  frame (extends (ev_is (@is_agent_delete))) (virtualmachines.Delete (S:=S) i).
Proof.
  pose proof (λ os, proj1 (generateComputerName_frame os)).
  pose proof (λ i, proj1 (networkinterfaces_frame (S:=S) i)).
  unfold virtualmachines.Reconcile, virtualmachines.ssh_keys, virtualmachines.Delete,
    virtualmachines.Get.
  split_and!; destruct i; frame_auto.
Qed.
Lemma virtualmachines_keep i :
  frame keeps (virtualmachines.Get (S:=S) i) ∧
  frame keeps (virtualmachines.Reconcile (S:=S) i) ∧
  frame keeps (virtualmachines.Delete (S:=S) i).
Proof.
  pose proof (λ os, proj2 (generateComputerName_frame os)).
  pose proof (λ i, proj1 (networkinterfaces_keep (S:=S) i)).
  unfold virtualmachines.Reconcile, virtualmachines.ssh_keys, virtualmachines.Delete,
    virtualmachines.Get.
  split_and!; destruct i; frame_auto.
Qed.
End Frames.
#[export] Hint Extern 1 (frame _ (virtualmachines.Reconcile _)) => apply virtualmachines_frame : frames.
#[export] Hint Extern 1 (frame _ (virtualmachines.Reconcile _)) => apply virtualmachines_keep : frames.
#[export] Hint Extern 1 (frame _ (virtualmachines.Delete _)) => apply virtualmachines_frame : frames.
#[export] Hint Extern 1 (frame _ (virtualmachines.Delete _)) => apply virtualmachines_keep : frames.
#[export] Hint Extern 1 (frame _ (virtualmachines.Get _)) => apply virtualmachines_frame : frames.
#[export] Hint Extern 1 (frame _ (virtualmachines.Get _)) => apply virtualmachines_keep : frames.
