(* ===== verification/VirtualMachine.v ===== *)
(** * controllers: azurestackhcivirtualmachine_controller.go and _reconciler.go

    The controller of the virtual machine resources: it registers its finalizer, finds or
    creates the machine in the MOC agent and reports what happened in the conditions; on
    deletion it waits for the volumes, deletes machine, network interface and disk in this
    order and gives up the finalizer. *)
From stdpp Require Import prelude strings list gmap.
From S2P Require Import Prelude GoStd External Api Effects Util Naming Scope Example.
From S2P Require Import Telemetry Interfaces Services NetServices VMService.
Local Open Scope prog_scope.

(** ** azurestackhcivirtualmachine_reconciler.go *)
Module VMReconciler.
Import VirtualMachineScope.
Definition waitVolumeAttachmentsInterval : Z := (2 * Second)%Z.
Definition waitVolumeAttachmentsTimeout : Z := (5 * Minute)%Z.

(** [azureStackHCIVirtualMachineService]; the scope is the state. *)
Record azureStackHCIVirtualMachineService := mkVMService {
  networkInterfacesSvc : Service VirtualMachineScope;
  virtualMachinesSvc : GetterService VirtualMachineScope;
  disksSvc : GetterService VirtualMachineScope }.

Section Service.
Context {L : Libs}.
Definition newAzureStackHCIVirtualMachineService : azureStackHCIVirtualMachineService :=
  mkVMService networkinterfaces.NewService virtualmachines.NewService disks.NewService.

(** The loop over the configurations of the first network interface *)
Fixpoint ip_configs (nicName : string) (i : nat) (l : list (option IpConfigurationSpec))
    : prog VirtualMachineScope (list IPConfiguration) :=
  match l with
  | [] => ret []
  | p :: l' =>
      ipconfigSpec <- deref p "ipconfigSpec" ;;
      let ipconfigName :=
        if decide (ic_Name ipconfigSpec = "") then GenerateIPConfigName nicName i
        else ic_Name ipconfigSpec in
      rest <- ip_configs nicName (S i) l' ;;
      ret (mkIPConfiguration ipconfigName (ic_Primary ipconfigSpec) :: rest)
  end.

Definition getVirtualMachineZone : error + string := inr "".
Definition isAvailabilityZoneSupported (s : VirtualMachineScope) : bool :=
  bool_decide (Location s ∈ SupportedAvailabilityZoneLocations).

Definition reconcileDisk (s : azureStackHCIVirtualMachineService) (disk : OSDisk)
    : prog VirtualMachineScope (option error) :=
  name <- gets Name ;;
  err <- gsvc_Reconcile (disksSvc s)
           (IDisksSpec (mkDisksSpec (GenerateOSDiskName name) (osd_Source disk))) ;;
  ret (Wrap err "unable to create VM OS disk").

Definition reconcileNetworkInterface (s : azureStackHCIVirtualMachineService)
    (nicName : string) (ipconfigs : list IPConfiguration)
    : prog VirtualMachineScope (option error) :=
  scope <- gets id ;;
  err <- svc_Reconcile (networkInterfacesSvc s)
           (INetworkInterfacesSpec (mkNetworkInterfacesSpec nicName (SubnetName scope)
              (VnetName scope) "" "" (BackendPoolNames scope) ipconfigs)) ;;
  ret (Wrap err "unable to create VM network interface").

(** Decodes the additional keys, in order. *)
Fixpoint decode_keys (keys : list string) : error + list string :=
  match keys with
  | [] => inr []
  | key :: keys' =>
      match Base64.DecodeString key with
      | inl err => inl (ErrWrap err "failed to decode an additional ssh public key")
      | inr decoded =>
          match decode_keys keys' with
          | inl err => inl err
          | inr rest => inr (decoded :: rest)
          end
      end
  end.

(** The zone, when the location has zones: the field is dereferenced then. *)
Definition vm_zone : prog VirtualMachineScope (error + string) :=
  azSupported <- gets isAvailabilityZoneSupported ;;
  if azSupported then
    spec <- gets Spec ;;
    az <- deref (vs_AvailabilityZone spec) "Spec.AvailabilityZone" ;;
    if default true (az_Enabled az) then
      match getVirtualMachineZone with
      | inl zoneErr => ret (inl (ErrWrap zoneErr "failed to get availability zone"))
      | inr vmZone => ret (inr vmZone)
      end
    else ret (inr "")
  else ret (inr "").

(** The specification of the machine to create *)
Definition vm_create_spec (scope : VirtualMachineScope) (nicName : string)
    (decodedKeys : list string) (customData vmZone : string) : virtualmachines_Spec :=
  let spec := Spec scope in
  mkVirtualMachinesSpec (Name scope) nicName decodedKeys (vs_VMSize spec)
    (vs_GpuCount spec) vmZone (default zero_Image (vs_Image spec))
    (default zero_OSDisk (vs_OSDisk spec)) customData
    (if AzureStackHCILoadBalancerVM scope then compute.LoadBalancer else compute.Tenant)
    (StorageContainer scope) (vs_AvailabilitySetName spec) (vs_PlacementGroupName spec).

Definition createVirtualMachine (s : azureStackHCIVirtualMachineService)
    (nicName : string) : prog VirtualMachineScope (error + VM) :=
  scope <- gets id ;;
  match Base64.DecodeString (vs_SSHPublicKey (Spec scope)) with
  | inl err => ret (inl (ErrWrap err "failed to decode ssh public key"))
  | inr decoded =>
      match decode_keys (vs_AdditionalSSHKeys (Spec scope)) with
      | inl err => ret (inl err)
      | inr decodedKeys =>
          let vmSpec := virtualmachines_named (Name scope) in
          ' (vmInterface, err) <- gsvc_Get (virtualMachinesSvc s)
                                    (IVirtualMachinesSpec vmSpec) ;;
          try vmSpec <-
            match err, vmInterface with
            | Some _, INil =>
                try vmZone <- vm_zone iferr err then ret (inl err) ;;
                customData <- deref (vs_BootstrapData (Spec scope)) "BootstrapData" ;;
                let vmSpec :=
                  vm_create_spec scope nicName (decoded :: decodedKeys) customData vmZone in
                iferr err <- gsvc_Reconcile (virtualMachinesSvc s)
                               (IVirtualMachinesSpec vmSpec) then
                  ret (inl (ErrWrap err "failed to create or get machine")) ;;
                ret (inr vmSpec)
            | Some err, _ => ret (inl (ErrWrap err "failed to get vm"))
            | None, _ => ret (inr vmSpec)
            end iferr err then ret (inl err) ;;
          ' (newVM, err) <- gsvc_Get (virtualMachinesSvc s)
                              (IVirtualMachinesSpec vmSpec) ;;
          match err, newVM with
          | Some err, _ => ret (inl (ErrWrap err "failed to get vm"))
          | None, IVM vm =>
              if decide (vm_State vm = "") then
                ret (inl (ErrNew ("vm " +:+ Name scope
                            +:+ " is nil provisioning state, reconcile")))
              else if decide (vm_State vm = VMStateFailed) then
                iferr err <- gsvc_Delete (virtualMachinesSvc s)
                               (IVirtualMachinesSpec vmSpec) then
                  ret (inl (ErrWrap err "failed to delete machine")) ;;
                ret (inl (ErrNew ("vm " +:+ Name scope
                            +:+ " is deleted, retry creating in next reconcile")))
              else if decide (vm_State vm ≠ VMStateSucceeded) then
                ret (inl (ErrNew ("vm " +:+ Name scope
                            +:+ " is still in provisioning state "
                            +:+ vm_State vm +:+ ", reconcile")))
              else ret (inr vm)
          | None, _ => ret (inl (ErrNew "returned incorrect vm interface"))
          end
      end
  end.

Definition Create (s : azureStackHCIVirtualMachineService)
    : prog VirtualMachineScope (error + VM) :=
  scope <- gets id ;;
  let nicName := GenerateNICName (Name scope) in
  ipconfigs <-
    match vs_NetworkInterfaces (Spec scope) with
    | [] => ret []
    | p :: _ =>
        nic <- deref p "NetworkInterfaces[0]" ;;
        ip_configs nicName 0 (nis_IPConfigurations nic)
    end ;;
  iferr nicErr <- reconcileNetworkInterface s nicName ipconfigs then
    ret (inl (ErrWrap nicErr ("failed to create nic " +:+ nicName
                               +:+ " for machine " +:+ Name scope))) ;;
  try vm <- createVirtualMachine s nicName iferr vmErr then
    ret (inl (ErrWrap vmErr ("failed to create vm " +:+ Name scope +:+ " "))) ;;
  ret (inr vm).

Definition ListVolumeAttachments : prog VirtualMachineScope (error + list string) :=
  scope <- gets id ;;
  let clusterKey := mkNN (GetNamespace (HCIVM scope)) (ClusterName scope) in
  try targetClusterClient <- NewTargetClusterClient clusterKey iferr err then
    ret (inl (ErrWrap err ("failed to create target cluster client for cluster "
                +:+ nn_Namespace clusterKey +:+ ":" +:+ nn_Name clusterKey))) ;;
  try nodeName <- GetNodeName (hv_meta (HCIVM scope)) iferr err then
    ret (inl (ErrWrap err ("failed to get node name for vm " +:+ Name scope))) ;;
  if decide (nodeName = "") then ret (inr [])
  else
    try volumes <- ListVolumeAttachmentOnNode targetClusterClient clusterKey nodeName
      iferr err then
      ret (inl (ErrWrap err ("failed to check volume attachment on vm "
                              +:+ Name scope))) ;;
    ret (inr volumes).

(** The condition the poll checks: an error counts as no volume left. *)
Definition volumes_detached : prog VirtualMachineScope (error + bool) :=
  volumes <- ListVolumeAttachments ;;
  match volumes with
  | inl _ => ret (inr true)
  | inr [] => ret (inr true)
  | inr (_ :: _) => ret (inr false)
  end.

Definition Delete (s : azureStackHCIVirtualMachineService)
    : prog VirtualMachineScope (option error) :=
  scope <- gets id ;;
  let vmSpec := virtualmachines_named (Name scope) in
  PollImmediate waitVolumeAttachmentsInterval waitVolumeAttachmentsTimeout
    volumes_detached ;;
  iferr err <- gsvc_Delete (virtualMachinesSvc s) (IVirtualMachinesSpec vmSpec) then
    ret (Some (ErrWrap err "failed to delete machine")) ;;
  iferr err <- svc_Delete (networkInterfacesSvc s)
      (INetworkInterfacesSpec (mkNetworkInterfacesSpec (GenerateNICName (Name scope)) ""
         (VnetName scope) "" "" [] [])) then
    ret (Some (ErrWrap err "Unable to delete network interface")) ;;
  iferr err <- gsvc_Delete (disksSvc s)
      (IDisksSpec (mkDisksSpec (GenerateOSDiskName (Name scope)) "")) then
    ret (Some (ErrWrap err ("Unable to delete os disk of machine " +:+ Name scope))) ;;
  ret None.

(** Every error of [Get] without a value counts as not found. *)
Definition VMIfExists (s : azureStackHCIVirtualMachineService)
    : prog VirtualMachineScope (error + option VM) :=
  name <- gets Name ;;
  ' (vmInterface, err) <- gsvc_Get (virtualMachinesSvc s)
                            (IVirtualMachinesSpec (virtualmachines_named name)) ;;
  match err, vmInterface with
  | Some _, INil => ret (inr None)
  | Some err, _ => ret (inl (ErrWrap err "Failed to get vm"))
  | None, IVM vm => ret (inr (Some vm))
  | None, _ => ret (inl (ErrNew "returned incorrect vm interface"))
  end.
End Service.
End VMReconciler.

(** ** azurestackhcivirtualmachine_controller.go *)
Module VMController.
Import VirtualMachineScope VMReconciler.
Section Controller.
Context {L : Libs}.

Definition vm_ref (s : VirtualMachineScope) : ObjectRef :=
  mkObjectRef KVirtualMachine (mkNN (Namespace s) (Name s)).
(** [r.Recorder.Eventf(scope.AzureStackHCIVirtualMachine, ...)] *)
Definition record (eventtype reason format : string) (args : list string)
    : prog VirtualMachineScope unit :=
  ref <- gets vm_ref ;;
  call (Eventf ref eventtype reason format args).
(** [conditions.Set(scope.AzureStackHCIVirtualMachine, c)] *)
Definition set_condition (c : metav1.Condition) : prog VirtualMachineScope unit :=
  SetCondition HCIVM (λ o s, s <| HCIVM := o |>) c.

Definition setVMProvisionFailure (reason message : string)
    : prog VirtualMachineScope unit :=
  set_condition (metav1.cond VMRunningCondition metav1.ConditionFalse reason message) ;;
  set_condition (metav1.cond clusterv1.ReadyCondition metav1.ConditionFalse
                   reason message).

(** The switch on [mocerrors.GetErrorCode(err)] *)
Definition provision_failure_reason (err : error) : string :=
  let code := GetErrorCode err in
  if decide (code = OutOfMemory_Error) then OutOfMemoryReason
  else if decide (code = OutOfCapacity_Error) then OutOfCapacityReason
  else if decide (code = OutOfNodeCapacity_Error) then OutOfNodeCapacityReason
  else if decide (code = NotFound_Error ∨ code = moccodes_NotFound_String) then
    (if IsPathNotFound err then PathNotFoundReason else NotFoundReason)
  else if IsGRPCUnavailable err then MOCUnreachableReason
  else VMProvisionFailedReason.

Definition findVM (ams : azureStackHCIVirtualMachineService)
    : prog VirtualMachineScope (error + option VM) :=
  try vm <- VMIfExists ams iferr err then
    ret (inl (ErrWrap err "failed to query AzureStackHCIVirtualMachine")) ;;
  ret (inr vm).

Definition getOrCreate (ams : azureStackHCIVirtualMachineService)
    : prog VirtualMachineScope (error + VM) :=
  scope <- gets id ;;
  try vm <- findVM ams iferr err then
    (let wrappedErr := ErrWrap err ("Failed to query for AzureStackHCIVirtualMachine "
                         +:+ Namespace scope +:+ "/" +:+ Name scope) in
     record "Warning" "FailureQueryForVM" (Error wrappedErr) [] ;;
     set_condition (metav1.cond VMRunningCondition metav1.ConditionFalse
                      VMNotFoundReason (Error err)) ;;
     ret (inl err)) ;;
  match vm with
  | Some vm => ret (inr vm)
  | None =>
      try vm <- Create ams iferr err then
        (setVMProvisionFailure (provision_failure_reason err) (Error err) ;;
         let wrappedErr := ErrWrap err "failed to create AzureStackHCIVirtualMachine" in
         record "Warning" "FailureCreateVM" (Error wrappedErr) [] ;;
         ret (inl wrappedErr)) ;;
      record "Normal" "SuccessfulCreateVM"
        "Success creating AzureStackHCIVirtualMachine %s/%s"
        [Namespace scope; Name scope] ;;
      ret (inr vm)
  end.

(** The switch on the state of the machine *)
Definition report_state (state : VMState) : prog VirtualMachineScope unit :=
  if decide (state = VMStateSucceeded) then
    modify SetReady ;;
    set_condition (metav1.cond VMRunningCondition metav1.ConditionTrue
                     VMStateSucceeded "") ;;
    set_condition (metav1.cond clusterv1.ReadyCondition metav1.ConditionTrue
                     VMStateSucceeded "")
  else if decide (state = VMStateUpdating) then
    set_condition (metav1.cond VMRunningCondition metav1.ConditionFalse
                     VMUpdatingReason "")
  else
    record "Warning" "UnexpectedVMState"
      "AzureStackHCIVirtualMachine is in an unexpected state %q" [state] ;;
    set_condition (metav1.cond VMRunningCondition metav1.ConditionFalse
      VMProvisionFailedReason
      ("AzureStackHCI VM state " +:+ Quote state +:+ " is unexpected")).

Definition add_finalizer (f : string) (s : VirtualMachineScope) : VirtualMachineScope :=
  s <| HCIVM ::= (λ o, SetFinalizers (AddFinalizer (GetFinalizers o) f) o) |>.
Definition remove_finalizer (f : string) (s : VirtualMachineScope) : VirtualMachineScope :=
  s <| HCIVM ::= (λ o, SetFinalizers (RemoveFinalizer (GetFinalizers o) f) o) |>.

Definition reconcileNormal : prog VirtualMachineScope (Result * option error) :=
  scope <- gets id ;;
  if decide (is_Some (vst_FailureReason (hv_Status (HCIVM scope))) ∨
             is_Some (vst_FailureMessage (hv_Status (HCIVM scope))))
  then ret (no_result, None)
  else
    modify (add_finalizer VirtualMachineFinalizer) ;;
    iferr err <- PatchObject then ret (no_result, Some err) ;;
    let ams := newAzureStackHCIVirtualMachineService in
    try vm <- getOrCreate ams iferr err then ret (no_result, Some err) ;;
    modify (SetVMState (vm_State vm)) ;;
    report_state (vm_State vm) ;;
    ret (no_result, None).

Definition reconcileDelete : prog VirtualMachineScope (Result * option error) :=
  set_condition (metav1.cond VMRunningCondition metav1.ConditionFalse "Deleting" "") ;;
  scope <- gets id ;;
  iferr err <- VMReconciler.Delete newAzureStackHCIVirtualMachineService then
    (let wrappedErr := ErrWrap err ("error deleting AzureStackHCIVirtualMachine "
                         +:+ Namespace scope +:+ "/" +:+ Name scope) in
     record "Warning" "FailureDeleteVM" (Error wrappedErr) [] ;;
     set_condition (metav1.cond VMRunningCondition metav1.ConditionFalse
                      DeletionFailedReason (Error err)) ;;
     ret (no_result, Some wrappedErr)) ;;
  record "Normal" "SuccessfulDeleteVM"
    "Success deleting AzureStackHCIVirtualMachine %s/%s" [Namespace scope; Name scope] ;;
  modify (remove_finalizer VirtualMachineFinalizer) ;;
  ret (no_result, None).

Definition Reconcile (req : NamespacedName) : prog unit (Result * option error) :=
  try vm <- call (KGet KVirtualMachine req) iferr err then
    (if IsNotFound err then ret (no_result, None) else ret (no_result, Some err)) ;;
  try scope <- NewVirtualMachineScope (Some vm) iferr err then
    (call (Eventf (mkObjectRef KVirtualMachine (mkNN (GetNamespace vm) (GetName vm)))
             "Warning" "FailureCreateVMScope"
             (Error (ErrWrap err "failed to create VM scope")) []) ;;
     ret (no_result, Some (ErrNew ("failed to create scope: " +:+ plus_v_error err)))) ;;
  run_in scope (with_close Close
    (if NotDeleted vm then reconcileNormal else reconcileDelete)).
End Controller.
End VMController.

(** The symbolic execution goes through the controller's small programs. *)
Ltac wp_vm :=
  lazymatch goal with
  | |- wp _ (VMController.record _ _ _ _) _ _ _ => unfold VMController.record
  | |- wp _ (VMController.set_condition _) _ _ _ => unfold VMController.set_condition
  | |- wp _ (VMController.setVMProvisionFailure _ _) _ _ _ =>
      unfold VMController.setVMProvisionFailure
  | |- wp _ (VMController.report_state _) _ _ _ => unfold VMController.report_state
  | |- wp _ VirtualMachineScope.Close _ _ _ => unfold VirtualMachineScope.Close
  | |- wp _ VirtualMachineScope.PatchObject _ _ _ => unfold VirtualMachineScope.PatchObject
  end.
Ltac wp_hook ::= first [wp_telemetry | wp_deref_first | wp_set_condition | wp_vm].

(** ** Waiting for the volumes *)
Section Volumes.
Context {L : Libs}.
Import VirtualMachineScope VMReconciler.

(** A check answers, reads only and leaves the scope. *)
Lemma wp_volumes_detached env Q (s : VirtualMachineScope) t :
  (∀ new r, Forall (ev_is (@is_silent)) new → Q (Ok (inr r)) s (new ++ t)) →
  wp env volumes_detached Q s t.
Proof.
  intros HQ. unfold volumes_detached, ListVolumeAttachments, NewTargetClusterClient,
    NewTargetClusterConfig, GetNodeName, ListVolumeAttachmentOnNode.
  wp_run; apply_above HQ t; repeat constructor.
Qed.
Lemma wp_poll_volumes env n Q (s : VirtualMachineScope) t :
  (∀ new r, Forall (ev_is (@is_silent)) new → Q (Ok r) s (new ++ t)) →
  wp env (poll n volumes_detached) Q s t.
Proof.
  revert Q t. induction n as [|n IH]; intros Q t HQ; simpl; wp_step;
    apply wp_volumes_detached; intros new [] Hnew; wp_run; try by apply HQ.
  apply IH. intros new' r Hnew'. rewrite app_assoc. apply HQ. by apply Forall_app.
Qed.
Lemma wp_wait_volumes env i d Q (s : VirtualMachineScope) t :
  (∀ new r, Forall (ev_is (@is_silent)) new → Q (Ok r) s (new ++ t)) →
  wp env (PollImmediate i d volumes_detached) Q s t.
Proof.
  intros HQ. unfold PollImmediate. do 2 wp_step. apply wp_poll_volumes.
  intros new x Hnew. apply_above HQ t. apply Forall_app. split; [done|repeat constructor].
Qed.
Lemma volumes_detached_frame :
  frame (extends (ev_is (@is_silent))) volumes_detached.
Proof.
  unfold volumes_detached, ListVolumeAttachments, NewTargetClusterClient,
    NewTargetClusterConfig, GetNodeName, ListVolumeAttachmentOnNode. frame_auto.
Qed.
Lemma wait_volumes_frame i d :
  frame (extends (ev_is (@is_silent))) (PollImmediate i d volumes_detached).
Proof.
  unfold PollImmediate. frame_auto. apply frame_poll; [apply _|].
  apply volumes_detached_frame.
Qed.
End Volumes.
#[export] Hint Resolve wait_volumes_frame : frames.

(** ** Deletion *)
(** What the agent answered means that the resource is gone. *)
Definition gone {L : Libs} (d : moc_kind * list string * option error) : Prop :=
  match d.2 with None => True | Some e => ResourceNotFound e = true end.
Lemma delete_result_gone {L : Libs} d msg : delete_result d.2 msg = None ↔ gone d.
Proof. unfold delete_result, gone. repeat case_match; naive_solver. Qed.

(** The machine, its network interface, its disk *)
Definition vm_delete_order (s : VirtualMachineScope) : list (moc_kind * list string) :=
  let rg := GetResourceGroup s in
  let name := VirtualMachineScope.Name s in
  [(MVirtualMachine, [rg; name]); (MNetworkInterface, [rg; GenerateNICName name]);
   (MDisk, [rg; ""; GenerateOSDiskName name])].

(** The deletes [ds] follow the order and stop at the first resource that is not gone. *)
Definition deletes_in_order {L : Libs} (order : list (moc_kind * list string))
    (ds : list (moc_kind * list string * option error)) (complete : bool) : Prop :=
  ds.*1 = take (length ds) order ∧
  if complete then length ds = length order ∧ Forall gone ds
  else ∃ ds' d, ds = ds' ++ [d] ∧ Forall gone ds' ∧ ¬ gone d.

Ltac vm_services :=
  cbn [VMReconciler.networkInterfacesSvc VMReconciler.virtualMachinesSvc VMReconciler.disksSvc
       svc_Reconcile svc_Delete gsvc_Get gsvc_Reconcile gsvc_Delete
       VMReconciler.newAzureStackHCIVirtualMachineService
       networkinterfaces.NewService virtualmachines.NewService disks.NewService].

Section Delete.
Context {L : Libs}.
Import VirtualMachineScope VMReconciler VMController.

Ltac apply_gone d H :=
  first [ apply (delete_result_gone d) in H
        | assert (¬ gone d) by (rewrite <-delete_result_gone; simpl; rewrite H; done) ].

Lemma wp_Delete env Q (s : VirtualMachineScope) t :
  (∀ t' ds err, moc_deletes t' = moc_deletes t ++ ds →
     deletes_in_order (vm_delete_order s) ds (bool_decide (err = None)) →
     Q (Ok err) s t') →
  wp env (VMReconciler.Delete newAzureStackHCIVirtualMachineService) Q s t.
Proof.
  intros HQ. unfold VMReconciler.Delete. vm_services.
  wp_run. apply wp_wait_volumes. intros wait _ Hwait.
  wp_run. apply wp_virtualmachines_Delete. intros r1 n1 n2 Hn1 Hn2.
  destruct (delete_result r1 _) eqn:Hr1;
    apply_gone (MVirtualMachine, [GetResourceGroup s; Name s], r1) Hr1.
  { wp_run. eapply (HQ _ [_]); [by deletes_simpl|].
    split; [done|]. by exists []; eexists. }
  wp_run. apply wp_networkinterfaces_Delete. intros r2 n3 n4 Hn3 Hn4.
  destruct (delete_result r2 _) eqn:Hr2;
    apply_gone (MNetworkInterface, [GetResourceGroup s; GenerateNICName (Name s)], r2) Hr2.
  { wp_run. eapply (HQ _ [_; _]); [deletes_simpl; by rewrite <-app_assoc|].
    split; [done|]. eexists [_], _. split_and!; [done|by constructor|done]. }
  wp_run. apply wp_disks_Delete. intros r3 n5 n6 Hn5 Hn6.
  destruct (delete_result r3 _) eqn:Hr3;
    apply_gone (MDisk, [GetResourceGroup s; ""; GenerateOSDiskName (Name s)], r3) Hr3;
    wp_run; (eapply (HQ _ [_; _; _]); [deletes_simpl; by rewrite <-!app_assoc|]);
    (split; [done|]).
  - eexists [_; _], _. split_and!; [done|by repeat constructor|done].
  - split; [done|by repeat constructor].
Qed.
End Delete.

Section DeleteTheorem.
Context {L : Libs} {LL : LibLaws L}.
Import VirtualMachineScope VMReconciler VMController.

(** C7: Deleting a virtual machine resource deletes, in the agent, the machine, then its
    network interface, then its disk, stopping at the first that the agent does not confirm
    gone (a NotFound answer confirms). The finalizer goes exactly when all three are gone;
    otherwise the handler fails, the finalizers stay, and VMRunning reports
    DeletionFailed. Waiting for the volumes never prevents the deletion. *)
Theorem reconcileDelete_order env (s : VirtualMachineScope) :
  wp env reconcileDelete (λ o s' t', ∃ err,
    o = Ok (no_result, err) ∧
    deletes_in_order (vm_delete_order s) (moc_deletes t') (bool_decide (err = None)) ∧
    if decide (err = None) then VirtualMachineFinalizer ∉ GetFinalizers (HCIVM s')
    else GetFinalizers (HCIVM s') = GetFinalizers (HCIVM s) ∧
      ∃ msg, has_condition (GetConditions (HCIVM s')) VMRunningCondition
               metav1.ConditionFalse DeletionFailedReason msg) s [].
Proof.
  unfold reconcileDelete, set_condition, SetCondition, record. wp_run.
  apply wp_Delete. intros t' ds [err|] Hds Hord;
    rewrite ?bool_decide_true, ?bool_decide_false in Hord by done; wp_run.
  - eexists. split; [done|].
    rewrite bool_decide_false, decide_False by done. deletes_simpl. rewrite Hds. deletes_simpl.
    split; [exact Hord|]. split; [done|]. eexists. simpl. apply has_condition_set.
  - eexists. split; [done|].
    rewrite bool_decide_true, decide_True by done. deletes_simpl. rewrite Hds. deletes_simpl.
    split; [exact Hord|]. simpl. apply RemoveFinalizer_not_in.
Qed.
End DeleteTheorem.

Lemma reconcileDelete_order_witness :
  let r := VMController.reconcileDelete (L:=Ref.ref_libs) ex_env ex_vm_scope [] in
  VirtualMachineFinalizer ∉ GetFinalizers (VirtualMachineScope.HCIVM r.1.2) ∧
  (moc_deletes r.2).*1 = vm_delete_order ex_vm_scope.
Proof.
  destruct (reconcileDelete_order (LL:=Ref.ref_laws) ex_env ex_vm_scope)
    as (err&Ho&(_&Hds)&Hf).
  assert (err = None) as -> by (vm_compute in Ho; congruence).
  split; [exact Hf|]. vm_compute. reflexivity.
Defined.

(** ** Creation *)
Section Frames.
Context {L : Libs}.
Import VirtualMachineScope VMReconciler.
Local Notation ams := newAzureStackHCIVirtualMachineService.

Lemma ip_configs_frame nic i l :
  frame (extends (ev_is (@is_agent))) (ip_configs nic i l) ∧ frame keeps (ip_configs nic i l).
Proof. split; revert i; induction l; intros i; simpl; frame_auto. Qed.
Hint Extern 1 (frame _ (ip_configs _ _ _)) => apply ip_configs_frame : frames.
Lemma VMIfExists_frame :
  frame (extends (ev_is (@is_agent_read))) (VMIfExists ams) ∧ frame keeps (VMIfExists ams).
Proof. unfold VMIfExists. vm_services. split; frame_auto. Qed.
Lemma Create_frame :
  frame (extends (ev_is (@is_agent))) (Create ams) ∧ frame keeps (Create ams).
Proof.
  unfold Create, reconcileNetworkInterface, createVirtualMachine, vm_zone. vm_services.
  split; frame_auto.
Qed.
End Frames.
#[export] Hint Extern 1 (frame _ (VMReconciler.VMIfExists _)) => apply VMIfExists_frame : frames.
#[export] Hint Extern 1 (frame _ (VMReconciler.Create _)) => apply Create_frame : frames.

Section Creation.
Context {L : Libs} {LL : LibLaws L}.
Import VirtualMachineScope VMReconciler VMController.
Local Notation ams := newAzureStackHCIVirtualMachineService.

(** The API server has accepted the finalizer. *)
Definition finalizer_patched (e : event) : Prop :=
  match e with
  | Ev c r =>
      match c in Call R return R → Prop with
      | KPatch k _ obj _ =>
          match k return kobj k → option error → Prop with
          | KVirtualMachine =>
              λ obj r, r = None ∧ VirtualMachineFinalizer ∈ GetFinalizers obj
          | _ => λ _ _, False
          end obj
      | _ => λ _, False
      end r
  end.

Lemma getOrCreate_frame :
  frame (extends (ev_is (λ R c, is_silent c || is_agent c))) (getOrCreate ams).
Proof.
  unfold getOrCreate, findVM, setVMProvisionFailure, set_condition, record, SetCondition.
  frame_auto.
Qed.
Lemma report_state_frame st : frame (extends (ev_is (@is_silent))) (report_state st).
Proof. unfold report_state, set_condition, record, SetCondition. frame_auto. Qed.
Lemma reconcileDelete_no_create :
  frame (extends (ev_not (@is_moc_create))) reconcileDelete.
Proof.
  unfold reconcileDelete, VMReconciler.Delete, set_condition, record, SetCondition.
  vm_services. frame_auto.
Qed.

Lemma reconcileNormal_finalizer_first env (s : VirtualMachineScope) t :
  precedes finalizer_patched (ev_is (@is_moc_create)) t →
  wp env reconcileNormal
    (λ _ _ t', precedes finalizer_patched (ev_is (@is_moc_create)) t') s t.
Proof.
  intros Ht. unfold reconcileNormal, PatchObject. wp_run_to (getOrCreate ams);
    [done|precedes_auto; done|].
  eapply wp_by_frame.
  { pose proof getOrCreate_frame. pose proof report_state_frame.
    instantiate (1 := extends (λ _, True)). frame_auto. }
  intros o s' t' Hext. eapply precedes_after; [exact Hext| |].
  - apply Exists_cons_hd. cbn. split; [done|]. apply AddFinalizer_in.
  - by apply precedes_cons.
Qed.
End Creation.

Section Contract.
Context {L : Libs} {LL : LibLaws L}.
Import VirtualMachineScope VMReconciler VMController.
Local Notation ams := newAzureStackHCIVirtualMachineService.

(** C21: In every run of the virtual machine controller, whatever the API server and the agent
    answer, a resource is created in the agent only after the API server has accepted the
    object with the finalizer: no machine, network interface or disk can be orphaned by a
    deletion of the resource. *)
Theorem Reconcile_finalizer_first env req :
  wp env (Reconcile req)
    (λ _ _ t', precedes finalizer_patched (ev_is (@is_moc_create)) t') tt [].
Proof.
  unfold Reconcile. wp_step. wp_step. destruct r as [err|vm].
  { wp_run; precedes_auto. }
  wp_step. eapply wp_by_frame; [apply NewVirtualMachineScope_frame|].
  intros o s' t' (new&Ht&Hnew). simpl in Ht. subst t'.
  assert (Hp : ∀ new', Forall (λ e, ¬ ev_is (@is_moc_create) e) new' →
             precedes finalizer_patched (ev_is (@is_moc_create))
               (new' ++ new ++ [Ev (KGet KVirtualMachine req) (inr vm)])).
  { intros new' Hn'. apply precedes_app_not; [done|]. precedes_auto. }
  destruct o as [[err|scope]|w|]; [wp_run; by apply (Hp [_]), Forall_singleton| |
                                   by apply (Hp [])..].
  wp_step. apply wp_with_close.
  eapply (wp_mono _ _ (λ _ _ t', precedes finalizer_patched (ev_is (@is_moc_create)) t')).
  - destruct (NotDeleted vm).
    + apply reconcileNormal_finalizer_first, (Hp []), Forall_nil_2.
    + eapply wp_by_frame; [apply reconcileDelete_no_create|]. intros o s'' t'' Hext.
      eapply precedes_not; [|by apply (Hp [])].
      eapply extends_mono; [|exact Hext]. intros [R c r]; simpl. by intros ->.
  - intros o s'' t'' Ht. unfold Close, PatchObject.
    destruct o as [[]|w|]; wp_run; try apply precedes_cons; try done.
Qed.

(** A run of [reconcileNormal] changes something in the agent only after the agent has
    failed to return the machine under its resource group and name: a machine the agent
    knows is never created again, and nothing of it is deleted. *)
Theorem reconcileNormal_writes_only_missing env (s : VirtualMachineScope) :
  wp env reconcileNormal
    (λ _ _ t', precedes (get_failed MVirtualMachine [GetResourceGroup s; Name s])
                 (ev_is (@is_moc_write)) t') s [].
Proof.
  unfold reconcileNormal, PatchObject. wp_run_to (getOrCreate ams);
    [precedes_auto..|].
  unfold getOrCreate, findVM, VMIfExists. vm_services. unfold virtualmachines.Get.
  cbn [Wrap]. wp_run_to (Create ams); [|precedes_auto..].
  wp_step. eapply wp_by_frame; [exact (proj1 Create_frame)|]. intros o s' t' Hext.
  assert (Ht' : precedes (get_failed MVirtualMachine [GetResourceGroup s; Name s])
                  (ev_is (@is_moc_write)) t').
  { eapply precedes_after; [exact Hext|seek|precedes_auto]. }
  destruct o as [[]|w|]; wp_run; precedes_auto; exact Ht'.
Qed.
End Contract.

Lemma Reconcile_finalizer_first_witness :
  let t := (VMController.Reconcile (L:=Ref.ref_libs) (mkNN "default" "vm")
              ex_env_no_vm tt []).2 in
  Exists (ev_is (@is_moc_create)) t ∧
  precedes finalizer_patched (ev_is (@is_moc_create)) t.
Proof.
  split; [|exact (Reconcile_finalizer_first (LL:=Ref.ref_laws) ex_env_no_vm
                    (mkNN "default" "vm"))].
  refine (bool_decide_unpack _ _). vm_compute. exact I.
Defined.
