(* ===== verification/VMOutcome.v ===== *)
(** * What the virtual machine controller reports

    The outcome of a reconciliation in the status of the object, the classification of the
    agent's errors, and the branches of the creation that fail. *)
From stdpp Require Import prelude strings list gmap.
From S2P Require Import Prelude GoStd External Api Effects Util Naming Scope Example.
From S2P Require Import Telemetry Interfaces Services NetServices VMService.
From S2P Require Import VirtualMachine.
Local Open Scope prog_scope.

(** ** What the controller reports *)
Ltac wp_keeps :=
  eapply wp_by_frame; [solve [eauto 2 with frames nocore]|];
  let H := fresh in intros [?|?|] ? ? H; unfold keeps, on_state in H; simpl in H; subst;
  cbv beta iota.
#[export] Hint Extern 1 (frame _ (VMReconciler.ip_configs _ _ _)) =>
  apply ip_configs_frame : frames.
(** The services are opaque here, up to the scope they leave alone. *)
Ltac wp_services :=
  lazymatch goal with
  | |- wp _ (virtualmachines.Get _) _ _ _ => wp_keeps
  | |- wp _ (virtualmachines.Reconcile _) _ _ _ => wp_keeps
  | |- wp _ (virtualmachines.Delete _) _ _ _ => wp_keeps
  | |- wp _ (networkinterfaces.Reconcile _) _ _ _ => wp_keeps
  | |- wp _ (VMReconciler.ip_configs _ _ _) _ _ _ => wp_keeps
  end.
Ltac wp_hook ::=
  first [wp_telemetry | wp_deref_first | wp_set_condition | wp_vm | wp_services].

(** The condition a sequence of [Set]s leaves *)
Ltac conds :=
  cbn; first [ apply has_condition_set
             | apply has_condition_set_ne; [discriminate|conds] ].

Section Outcome.
Context {L : Libs}.
Import VirtualMachineScope VMReconciler VMController.
Local Notation ams := newAzureStackHCIVirtualMachineService.

(** A machine that [Create] returns is in the state Succeeded. *)
Lemma wp_Create_outcome env (s : VirtualMachineScope) t :
  wp env (Create ams) (λ o s' _, s' = s ∧
    match o with Ok (inr vm) => vm_State vm = VMStateSucceeded | _ => True end) s t.
Proof.
  unfold Create, reconcileNetworkInterface, createVirtualMachine, vm_zone. vm_services.
  wp_run; try done; (split; [done|by apply dec_stable]).
Qed.

(** What the handler leaves when it gives up with error [e]: the patch of the finalizer was the
    only call and failed with it, the agent could not be asked, or did not make the machine. *)
Definition vm_patch_failed (e : error) (s s' : VirtualMachineScope) (t' : trace) : Prop :=
  t' = [Ev (KPatch KVirtualMachine (patchBefore s)
              (HCIVM (add_finalizer VirtualMachineFinalizer s))
              [clusterv1.ReadyCondition; VMRunningCondition]) (Some e)] ∧
  GetConditions (HCIVM s') = GetConditions (HCIVM s).
Definition creation_failed (e : error) (s' : VirtualMachineScope) : Prop :=
  ∃ err, e = ErrWrap err "failed to create AzureStackHCIVirtualMachine" ∧
    let reason := provision_failure_reason err in
    has_condition (GetConditions (HCIVM s')) VMRunningCondition metav1.ConditionFalse
      reason (Error err) ∧
    has_condition (GetConditions (HCIVM s')) clusterv1.ReadyCondition metav1.ConditionFalse
      reason (Error err).
Definition query_failed (e : error) (s' : VirtualMachineScope) : Prop :=
  ∃ err, e = ErrWrap err "failed to query AzureStackHCIVirtualMachine" ∧
    has_condition (GetConditions (HCIVM s')) VMRunningCondition metav1.ConditionFalse
      VMNotFoundReason (Error e).
Definition running (s' : VirtualMachineScope) : Prop :=
  vst_Ready (hv_Status (HCIVM s')) = true ∧
  vst_VMState (hv_Status (HCIVM s')) = Some VMStateSucceeded ∧
  has_condition (GetConditions (HCIVM s')) VMRunningCondition metav1.ConditionTrue
    VMStateSucceeded "" ∧
  has_condition (GetConditions (HCIVM s')) clusterv1.ReadyCondition metav1.ConditionTrue
    VMStateSucceeded "".
Definition failed_state (s : VirtualMachineScope) : Prop :=
  is_Some (vst_FailureReason (hv_Status (HCIVM s))) ∨
  is_Some (vst_FailureMessage (hv_Status (HCIVM s))).
#[export] Instance failed_state_dec s : Decision (failed_state s).
Proof. unfold failed_state. apply _. Defined.

Context {LL : LibLaws L}.
Lemma ready_ne_running : clusterv1.ReadyCondition ≠ VMRunningCondition.
Proof. done. Qed.

(** C1: [reconcileNormal] does nothing on an object in a failed state. Otherwise, when it
    returns without an error, the object is ready, its VM state is Succeeded and both
    VMRunning and Ready are True. When it fails, Ready and the VM state are as before, and
    there are three cases: the patch of the finalizer failed, with its error, nothing else was
    called and the conditions are untouched; or the query failed, with VMRunning False for
    VMNotFound and the message of the error that is returned; or the creation failed, with
    VMRunning and Ready both False for the reason of the agent's error and with its message.
    A panic leaves Ready and the VM state as before. *)
Theorem reconcileNormal_outcome env (s : VirtualMachineScope) :
  wp env reconcileNormal (λ o s' t',
    if decide (failed_state s) then o = Ok (no_result, None) ∧ s' = s ∧ t' = []
    else match o with
         | Ok (res, None) => res = no_result ∧ running s'
         | Ok (res, Some e) =>
             res = no_result ∧
             vst_Ready (hv_Status (HCIVM s')) = vst_Ready (hv_Status (HCIVM s)) ∧
             vst_VMState (hv_Status (HCIVM s')) = vst_VMState (hv_Status (HCIVM s)) ∧
             (vm_patch_failed e s s' t' ∨ query_failed e s' ∨ creation_failed e s')
         | _ =>
             vst_Ready (hv_Status (HCIVM s')) = vst_Ready (hv_Status (HCIVM s)) ∧
             vst_VMState (hv_Status (HCIVM s')) = vst_VMState (hv_Status (HCIVM s))
         end) s [].
Proof.
  unfold reconcileNormal, getOrCreate, findVM, VMIfExists. vm_services.
  unfold virtualmachines.Get. cbn [Wrap].
  destruct (decide (failed_state s)) as [Hf|Hf].
  { wp_step; wp_step; wp_step; [by wp_step|done]. }
  wp_run_to (Create ams); try done;
    try (simpl; split_and!; [done..|by left]);
    try (simpl; split_and!; [done..|right; left; eexists; split; [done|conds]]);
    try (split; [done|]; split_and!; solve [done|conds]).
  wp_step. eapply wp_mono; [apply wp_Create_outcome|].
  intros [[err|vm]|w|] s' t' [-> Ho]; wp_run; try done.
  - split_and!; [reflexivity..|right; right].
    eexists. split; [done|]. split; conds.
  - split; [done|]. split_and!; solve [reflexivity|cbn; by rewrite Ho|conds].
Qed.
End Outcome.

Lemma reconcileNormal_outcome_witness :
  running (L:=Ref.ref_libs)
    (VMController.reconcileNormal (L:=Ref.ref_libs) ex_env ex_vm_scope []).1.2.
Proof.
  pose proof (reconcileNormal_outcome (LL:=Ref.ref_laws) ex_env ex_vm_scope) as H.
  unfold wp in H. rewrite decide_False in H
    by (intros [H'|H']; vm_compute in H'; by apply is_Some_None in H').
  assert (Ho : (VMController.reconcileNormal (L:=Ref.ref_libs) ex_env ex_vm_scope []).1.1
               = Ok (no_result, None)) by (vm_compute; reflexivity).
  rewrite Ho in H. exact (proj2 H).
Defined.

(** The reason of each class of errors the agent gives *)
Section Reasons.
Context {L : Libs} {LL : LibLaws L}.
Import VMController.

(** The reason a failed creation is reported with is determined by the agent's error
    code: out of memory, capacity and node capacity each have their own; both spellings of
    not found give PathNotFound for a missing gallery image path and NotFound otherwise;
    every other code is MOCUnreachable when the gRPC call found no agent and
    VMProvisionFailed if not. *)
Theorem provision_failure_reason_spec err :
  (GetErrorCode err = OutOfMemory_Error →
     provision_failure_reason err = OutOfMemoryReason) ∧
  (GetErrorCode err = OutOfCapacity_Error →
     provision_failure_reason err = OutOfCapacityReason) ∧
  (GetErrorCode err = OutOfNodeCapacity_Error →
     provision_failure_reason err = OutOfNodeCapacityReason) ∧
  (GetErrorCode err = NotFound_Error ∨ GetErrorCode err = moccodes_NotFound_String →
     provision_failure_reason err =
       if IsPathNotFound err then PathNotFoundReason else NotFoundReason) ∧
  (GetErrorCode err ∉ [OutOfMemory_Error; OutOfCapacity_Error; OutOfNodeCapacity_Error;
                       NotFound_Error; moccodes_NotFound_String] →
     provision_failure_reason err =
       if IsGRPCUnavailable err then MOCUnreachableReason else VMProvisionFailedReason).
Proof.
  pose proof moc_codes_NoDup as Hnd.
  repeat rewrite NoDup_cons, ?not_elem_of_cons in Hnd.
  unfold provision_failure_reason. rewrite !not_elem_of_cons.
  split_and!; intros; repeat case_decide; try done; destruct_and?; naive_solver congruence.
Qed.
End Reasons.

Section Panics.
Context {L : Libs}.
Import VirtualMachineScope VMReconciler.
Local Notation ams := newAzureStackHCIVirtualMachineService.

(** In a location with availability zones, creating a machine whose specification has no
    availability zone panics on a nil pointer once the agent does not know the machine. *)
Lemma createVirtualMachine_nil_zone (env : Env) (s : VirtualMachineScope) (t : trace) nic
    keys decoded (err : error) :
  Location s ∈ SupportedAvailabilityZoneLocations →
  vs_AvailabilityZone (Spec s) = None →
  Base64.DecodeString (vs_SSHPublicKey (Spec s)) = inr decoded →
  decode_keys (vs_AdditionalSSHKeys (Spec s)) = inr keys →
  env t _ (MocGet (moc_client s) MVirtualMachine [GetResourceGroup s; Name s]) = inl err →
  wp env (createVirtualMachine ams nic) (λ o s' t',
    (∃ why, o = Panic why) ∧ s' = s ∧
    t' = Ev (MocGet (moc_client s) MVirtualMachine [GetResourceGroup s; Name s]) (inl err)
           :: t) s t.
Proof.
  intros Hloc Haz Hkey Hkeys Hget. unfold createVirtualMachine. vm_services.
  unfold virtualmachines.Get. wp_step. wp_step. change (id s) with s.
  rewrite Hkey, Hkeys. wp_run_to vm_zone; simpl in *; simplify_eq; try congruence.
  wp_step. unfold vm_zone, isAvailabilityZoneSupported.
  do 2 wp_step. rewrite bool_decide_true by done. do 3 wp_step. rewrite Haz.
  wp_step; [congruence|]. wp_step. split; [by eexists|]. split; [done|]. congruence.
Qed.
End Panics.
