(* ===== verification/Machine.v ===== *)
(** * controllers: azurestackhcimachine_controller.go and azurestackhcimachine_annotations.go

    The controller of the machines of a cluster. It registers its finalizer, waits for the
    infrastructure of the cluster and for the bootstrap data, creates or updates the virtual
    machine resource, and copies to the machine what the virtual machine controller reports.
    The state of a reconciliation is the machine scope; the cluster scope is only read. *)
From stdpp Require Import prelude strings list gmap.
From S2P Require Import Prelude GoStd External Api Effects Util Naming Scope Example.
From S2P Require Import Telemetry Interfaces Services.
Local Open Scope prog_scope.

(** What a [client.Object] may be when a watch delivers it *)
Inductive client_Object :=
  | AnObject (k : kind) (o : kobj k).

(** ** azurestackhcimachine_controller.go *)
Module MachineController.
Import MachineScope.
Section Controller.
Context {L : Libs}.

(** [conditions.Set(machineScope.AzureStackHCIMachine, c)] *)
Definition set_condition (c : metav1.Condition) : prog MachineScope unit :=
  SetCondition HCIMachine (λ o s, s <| HCIMachine := o |>) c.

(** The object the scope of the cluster and of the machine name *)
Definition vm_key (clusterScope : ClusterScope) (m : MachineScope) : NamespacedName :=
  mkNN (ClusterScope.Namespace clusterScope) (Name m).

(** [getVMImage] *)
Definition getVMImage : prog MachineScope (error + Image) :=
  scope <- gets id ;;
  match ms_Image (hm_Spec (HCIMachine scope)) with
  | Some image =>
      if decide (is_Some (img_Name image) ∧ img_Name image ≠ Some "")
      then ret (inr image)
      else ret (GetDefaultImage (img_OSType image) (clusterv1.m_Version (Machine scope)))
  | None => ret (GetDefaultImage OSTypeLinux (clusterv1.m_Version (Machine scope)))
  end.

(** The owner the virtual machine gets *)
Definition vm_owner (m : clusterv1.Machine) : metav1.OwnerReference :=
  metav1.mkOwnerReference (metav1.APIVersion (clusterv1.m_type m))
    (metav1.Kind (clusterv1.m_type m)) (metav1.Name (clusterv1.m_meta m))
    (metav1.UID (clusterv1.m_meta m)).

(** The subnet and the pools of a role; [None] for a role that is neither *)
Definition role_network (clusterScope : ClusterScope) (role : string)
    : option (string * list string) :=
  let name := ClusterScope.Name clusterScope in
  let hasLB := bool_decide (is_Some (ClusterScope.LoadBalancerSpec clusterScope)) in
  let all := if hasLB then [GenerateBackendPoolName name] else [] in
  if decide (role = Node) then Some (GenerateNodeSubnetName name, all)
  else if decide (role = ControlPlane) then
    Some (GenerateControlPlaneSubnetName name,
          (if hasLB then [GenerateControlPlaneBackendPoolName name] else []) ++ all)
  else None.

(** What [mutateFn] takes over from the specification of the machine, with the image and the
    bootstrap data *)
Definition fill_vm_spec (image : Image) (bootstrapData : string) (spec : AzureStackHCIMachineSpec)
    (sp : AzureStackHCIVirtualMachineSpec) : AzureStackHCIVirtualMachineSpec :=
  sp <| vs_Image := Some image |>
     <| vs_VMSize := ms_VMSize spec |>
     <| vs_GpuCount := ms_GpuCount spec |>
     <| vs_AvailabilityZone ::= (λ old,
          match ms_AvailabilityZone spec with Some az => Some az | None => old end) |>
     <| vs_OSDisk ::= (λ old,
          match ms_OSDisk spec with Some d => Some d | None => old end) |>
     <| vs_Location := ms_Location spec |>
     <| vs_SSHPublicKey := ms_SSHPublicKey spec |>
     <| vs_BootstrapData := Some bootstrapData |>
     <| vs_AdditionalSSHKeys := ms_AdditionalSSHKeys spec |>
     <| vs_StorageContainer := ms_StorageContainer spec |>
     <| vs_AvailabilitySetName := ms_AvailabilitySetName spec |>
     <| vs_PlacementGroupName := ms_PlacementGroupName spec |>
     <| vs_NetworkInterfaces := ms_NetworkInterfaces spec |>.
(** [mutateFn] of [reconcileVirtualMachineNormal], on the object it closes over *)
Definition mutateFn (clusterScope : ClusterScope) (vm : AzureStackHCIVirtualMachine)
    : prog MachineScope (option error * AzureStackHCIVirtualMachine) :=
  scope <- gets id ;;
  let machine := HCIMachine scope in
  let hci := ClusterScope.HCICluster clusterScope in
  let vm := SetOwnerReferences (EnsureOwnerRef (metav1.OwnerReferences (hv_meta vm))
                                  (vm_owner (Machine scope))) vm in
  let vm := vm <| hv_Spec ::= (λ sp,
    sp <| vs_ResourceGroup := cs_ResourceGroup (hc_Spec hci) |>
       <| vs_VnetName := vnet_Name (ns_Vnet (cs_NetworkSpec (hc_Spec hci))) |>
       <| vs_ClusterName := GetName hci |>) |> in
  match role_network clusterScope (Role scope) with
  | None =>
      ret (Some (ErrNew ("unknown value " +:+ Role scope +:+ " for label `set` on machine "
                   +:+ Name scope +:+ ", unable to create virtual machine resource")), vm)
  | Some (subnet, backendPoolNames) =>
      let vm := vm <| hv_Spec ::= (λ sp,
        sp <| vs_SubnetName := subnet |>
           <| vs_BackendPoolNames := backendPoolNames |>) |> in
      try bootstrapData <- GetBootstrapData iferr err then
        ret (Some (ErrWrap err "failed to retrieve bootstrap data"), vm) ;;
      try image <- getVMImage iferr err then
        ret (Some (ErrWrap err "failed to get VM image"), vm) ;;
      let vm := vm <| hv_Spec ::= fill_vm_spec image bootstrapData (hm_Spec machine) |> in
      ret (None, CopyCorrelationID machine vm)
  end.

(** [vm.TypeMeta.Kind/vm.Namespace/vm.Name] *)
Definition vm_resource (vm : AzureStackHCIVirtualMachine) : string :=
  metav1.Kind (hv_type vm) +:+ "/" +:+ GetNamespace vm +:+ "/" +:+ GetName vm.

(** What follows the call of CreateOrUpdate: the record, and the virtual machine as it is
    now. That it exists already is no failure. *)
Definition after_CreateOrUpdate (clusterScope : ClusterScope)
    (operationResult : OperationResult) (err : option error)
    (vm : AzureStackHCIVirtualMachine)
    : prog MachineScope (error + AzureStackHCIVirtualMachine) :=
  (if IsCRDUpdate operationResult then
     (let '(operation, resourceType) := ConvertOperationResult operationResult in
      RecordHybridAKSCRDChange (GetCustomResourceTypeWithName clusterScope)
        (vm_resource vm) operation resourceType NoParams err)
   else ret tt) ;;
  scope <- gets id ;;
  match
    match err with
    | None => None
    | Some e =>
        if IsAlreadyExists e then None
        else Some (ErrWrap e ("failed to CreateOrUpdate AzureStackHCIVirtualMachine "
                               +:+ GetName vm))
    end
  with
  | Some e => ret (inl e)
  | None =>
      try vm <- call (KGet KVirtualMachine (vm_key clusterScope scope)) iferr err then
        ret (inl err) ;;
      ret (inr vm)
  end.

Definition reconcileVirtualMachineNormal (clusterScope : ClusterScope)
    : prog MachineScope (error + AzureStackHCIVirtualMachine) :=
  scope <- gets id ;;
  let vm := mkVirtualMachine metav1.empty_type
    (metav1.named_meta (ClusterScope.Namespace clusterScope) (Name scope))
    zero_VirtualMachineSpec zero_VirtualMachineStatus in
  ' (operationResult, err, vm) <- CreateOrUpdate KVirtualMachine vm
                                    (mutateFn clusterScope) ;;
  after_CreateOrUpdate clusterScope operationResult err vm.

(** The checks on immutable fields are still to be written in the code. *)
Definition validateUpdate (_ : AzureStackHCIMachineSpec) (_ : AzureStackHCIVirtualMachine)
    : list error := [].

(** The infrastructure of the cluster is provisioned. *)
Definition cluster_provisioned (c : AzureStackHCICluster) : bool :=
  match cst_Initialization (hc_Status c) with
  | Some i => match init_Provisioned i with Some b => b | None => false end
  | None => false
  end.

(** The switch on the state of the machine *)
Definition report_state (state : VMState) : prog MachineScope unit :=
  if decide (state = VMStateSucceeded) then
    modify SetReady ;;
    set_condition (metav1.cond VMRunningCondition metav1.ConditionTrue "VMRunning" "")
  else if decide (state = VMStateUpdating) then
    set_condition (metav1.cond VMRunningCondition metav1.ConditionFalse "VMUpdating" "")
  else
    set_condition (metav1.cond VMRunningCondition metav1.ConditionFalse
      VMProvisionFailedReason
      ("AzureStackHCI VM state " +:+ Quote state +:+ " is unexpected")).

Definition record (eventtype reason format : string) (args : list string)
    : prog MachineScope unit :=
  scope <- gets id ;;
  call (Eventf (mkObjectRef KMachine (mkNN (Namespace scope) (Name scope)))
          eventtype reason format args).

(** The loop that merges the conditions of the virtual machine *)
Definition merge_conditions (cs : list metav1.Condition)
    : prog MachineScope (option unit) :=
  for_each cs (λ c, set_condition c ;; ret None).

Definition add_finalizer (f : string) (s : MachineScope) : MachineScope :=
  s <| HCIMachine ::= (λ o, SetFinalizers (AddFinalizer (GetFinalizers o) f) o) |>.
Definition remove_finalizer (f : string) (s : MachineScope) : MachineScope :=
  s <| HCIMachine ::= (λ o, SetFinalizers (RemoveFinalizer (GetFinalizers o) f) o) |>.

(** The second half of [reconcileNormal]: what the virtual machine, as it was read, says
    goes to the machine. *)
Definition report_vm (vm : AzureStackHCIVirtualMachine)
    : prog MachineScope (Result * option error) :=
  spec <- gets (λ s, hm_Spec (HCIMachine s)) ;;
  match validateUpdate spec vm with
  | (e :: _) as errs =>
      record "Warning" "InvalidUpdate" "Invalid update: %s" [NewAggregate_Error errs] ;;
      ret (no_result, None)
  | [] =>
      modify (SetProviderID ("moc://" +:+ GetName vm)) ;;
      modify (SetAnnotation "cluster-api-provider-azurestackhci" "true") ;;
      merge_conditions (vst_Conditions (hv_Status vm)) ;;
      match vst_VMState (hv_Status vm) with
      | None => ret (mkResult true Minute, None)
      | Some state =>
          modify (SetVMState state) ;;
          report_state state ;;
          ret (no_result, None)
      end
  end.

Definition reconcileNormal (clusterScope : ClusterScope)
    : prog MachineScope (Result * option error) :=
  modify (add_finalizer MachineFinalizer) ;;
  iferr err <- PatchObject then ret (no_result, Some err) ;;
  if negb (cluster_provisioned (ClusterScope.HCICluster clusterScope))
  then ret (no_result, None)
  else
    machine <- gets Machine ;;
    match clusterv1.m_DataSecretName machine with
    | None => ret (no_result, None)
    | Some _ =>
        try vm <- reconcileVirtualMachineNormal clusterScope iferr err then
          ret (no_result, Some err) ;;
        report_vm vm
    end.

Definition reconcileVirtualMachineDelete (clusterScope : ClusterScope)
    : prog MachineScope (Result * option error) :=
  scope <- gets id ;;
  let vmName := vm_key clusterScope scope in
  let shown := nn_Namespace vmName +:+ "/" +:+ nn_Name vmName in
  try vm <- call (KGet KVirtualMachine vmName) iferr err then
    (if negb (IsNotFound err) then
       ret (no_result,
            Some (ErrWrap err ("failed to get AzureStackHCIVirtualMachine " +:+ shown)))
     else ret (no_result, None)) ;;
  if negb (NotDeleted vm) then ret (mkResult false (15 * Second), None)
  else
    let vm := CopyCorrelationID (HCIMachine scope) vm in
    iferr err <- call (KUpdate KVirtualMachine vm) then
      ret (no_result,
           Some (ErrWrap err ("failed to update AzureStackHCIVirtualMachine " +:+ shown))) ;;
    err <- call (KDelete KVirtualMachine vm) ;;
    RecordHybridAKSCRDChange (GetCustomResourceTypeWithName clusterScope)
      (vm_resource vm) OpDelete CRD NoParams err ;;
    match err with
    | Some e =>
        if IsNotFound e then ret (mkResult false (15 * Second), None)
        else ret (no_result, Some (ErrWrap e
                    ("failed to delete AzureStackHCIVirtualMachine " +:+ shown)))
    | None => ret (mkResult false (15 * Second), None)
    end.

Definition reconcileDelete (clusterScope : ClusterScope)
    : prog MachineScope (Result * option error) :=
  ' (result, err) <- reconcileVirtualMachineDelete clusterScope ;;
  if decide (is_Some err ∨ (0 < RequeueAfter result)%Z) then ret (result, err)
  else
    modify (remove_finalizer MachineFinalizer) ;;
    ret (no_result, None).

(** [r.Recorder.Eventf] before there is a scope *)
Definition record_on (o : AzureStackHCIMachine) (reason : string) (err : error)
    : prog unit unit :=
  call (Eventf (mkObjectRef KMachine (mkNN (GetNamespace o) (GetName o)))
          "Warning" reason (Error err) []).

Definition Reconcile (req : NamespacedName) : prog unit (Result * option error) :=
  try hciMachine <- call (KGet KMachine req) iferr err then
    (if IsNotFound err then ret (no_result, None) else ret (no_result, Some err)) ;;
  try owner <- call (GetOwnerMachine (hm_meta hciMachine)) iferr err then
    ret (no_result, Some err) ;;
  match owner with
  | None => ret (no_result, None)
  | Some machine =>
      try cluster <- call (GetClusterFromMetadata (clusterv1.m_meta machine)) iferr _err
        then ret (no_result, None) ;;
      let key := mkNN (GetNamespace hciMachine)
                      (clusterv1.cl_InfrastructureRefName cluster) in
      try hciCluster <- call (KGet KCluster key) iferr _err then ret (no_result, None) ;;
      try clusterScope <- ClusterScope.NewClusterScope (Some cluster) (Some hciCluster)
        iferr err then
          (record_on hciMachine "CreateClusterScopeFailed"
             (ErrWrap err "failed to create cluster scope") ;;
           ret (no_result, Some err)) ;;
      try scope <- NewMachineScope (Some machine) (Some cluster) (Some hciCluster)
                     (Some hciMachine) iferr err then
        (record_on hciMachine "FailureCreateMachineScope"
           (ErrWrap err "failed to create machine scope") ;;
         ret (no_result, Some (ErrNew ("failed to create scope: " +:+ plus_v_error err)))) ;;
      run_in scope (with_close Close
        (if NotDeleted hciMachine then reconcileNormal clusterScope
         else reconcileDelete clusterScope))
  end.

(** [AzureStackHCIClusterToAzureStackHCIMachines]: the requests of the machines *)
Definition machine_requests (items : list clusterv1.Machine) : list NamespacedName :=
  omap (λ m,
    if decide (clusterv1.m_InfrastructureRefName m = "") then None
    else Some (mkNN (metav1.Namespace (clusterv1.m_meta m))
                    (clusterv1.m_InfrastructureRefName m))) items.
Definition AzureStackHCIClusterToAzureStackHCIMachines (o : client_Object)
    : prog unit (list NamespacedName) :=
  match o with
  | AnObject KCluster c =>
      owner <- call (GetOwnerCluster (hc_meta c)) ;;
      let '(cluster, err) :=
        match owner with inl e => (None, Some e) | inr c => (c, None) end in
      match cluster with
      | None => ret []
      | Some cluster =>
          match err with
          | Some _ => ret []
          | None =>
              try items <- call (KList KCapiMachine (GetNamespace c)
                    [(clusterv1.ClusterNameLabel, metav1.Name (clusterv1.cl_meta cluster))])
                iferr _err then ret [] ;;
              ret (machine_requests items)
          end
      end
  | _ => ret []
  end.
End Controller.
End MachineController.

(** The symbolic execution goes through the controller's small programs. *)
Ltac wp_machine :=
  lazymatch goal with
  | |- wp _ (MachineController.record _ _ _ _) _ _ _ => unfold MachineController.record
  | |- wp _ (MachineController.set_condition _) _ _ _ =>
      unfold MachineController.set_condition
  | |- wp _ (MachineController.report_state _) _ _ _ =>
      unfold MachineController.report_state
  | |- wp _ (MachineController.record_on _ _ _) _ _ _ => unfold MachineController.record_on
  | |- wp _ MachineScope.Close _ _ _ => unfold MachineScope.Close
  | |- wp _ MachineScope.PatchObject _ _ _ => unfold MachineScope.PatchObject
  end.
Ltac wp_hook ::= first [wp_telemetry | wp_set_condition | wp_machine].

(** ** What happens before there is a virtual machine to write *)
Section Gate.
Context {L : Libs}.
Import MachineScope MachineController.

(** The infrastructure is provisioned and the bootstrap data has a name. *)
Definition may_write_vm (clusterScope : ClusterScope) (s : MachineScope) : bool :=
  cluster_provisioned (ClusterScope.HCICluster clusterScope) &&
  bool_decide (is_Some (clusterv1.m_DataSecretName (Machine s))).

(** Until the infrastructure of the cluster is provisioned and the machine has bootstrap
    data, the only thing a reconciliation does is to register the finalizer: one patch, whose
    answer is the result, and no other change to the machine. *)
Lemma machine_reconcileNormal_gated env (cs : ClusterScope) (s : MachineScope) :
  may_write_vm cs s = false →
  wp env (reconcileNormal cs) (λ o s' t', ∃ r,
    s' = add_finalizer MachineFinalizer s ∧
    t' = [Ev (KPatch KMachine (patchBefore s) (HCIMachine s')
                [clusterv1.ReadyCondition; VMRunningCondition]) r] ∧
    o = Ok (no_result, r)) s [].
Proof.
  unfold may_write_vm. intros Hg. unfold reconcileNormal, PatchObject.
  wp_run_to (reconcileVirtualMachineNormal cs); try by eexists.
  apply andb_false_iff in Hg as [Hg|Hg%bool_decide_eq_false].
  - by rewrite Hg in *.
  - simpl in *. destruct Hg. by eexists.
Qed.
End Gate.

(** ** The choice of the image, as both controllers write it *)
Section ImageChoice.
Context {L : Libs}.
(** The own image when it has a name, else the default one of its system (Linux without an
    image) and of the Kubernetes version *)
Definition chosen_image (own : option Image) (version : string) (image : Image) : Prop :=
  match own with
  | Some own =>
      if decide (default "" (img_Name own) = "")
      then GetDefaultImage (img_OSType own) version = inr image
      else image = own
  | None => GetDefaultImage OSTypeLinux version = inr image
  end.
Lemma wp_choose_image {S} env own version (Q : outcome (error + Image) → S → trace → Prop)
    s t :
  (∀ r, match r with inr i => chosen_image own version i | inl _ => True end →
     Q (Ok r) s t) →
  wp env (match own with
          | Some image =>
              if decide (is_Some (img_Name image) ∧ img_Name image ≠ Some "")
              then ret (inr image)
              else ret (GetDefaultImage (img_OSType image) version)
          | None => ret (GetDefaultImage OSTypeLinux version)
          end) Q s t.
Proof.
  unfold chosen_image. intros HQ. destruct own as [own|].
  - destruct (img_Name own) as [nm|]; cbn [default from_option] in *.
    + destruct (decide (nm = "")) as [->|Hn].
      * rewrite decide_False by (by intros [_ []]). wp_step. apply HQ.
        destruct (GetDefaultImage _ _); [done|]. by rewrite decide_True.
      * rewrite decide_True by (split; [by eexists|congruence]). wp_step. apply HQ.
        by rewrite decide_False.
    + rewrite decide_False by (by intros [[] _]). wp_step. apply HQ.
      destruct (GetDefaultImage _ _); [done|]. by rewrite decide_True.
  - wp_step. apply HQ. by destruct (GetDefaultImage _ _).
Qed.
End ImageChoice.

(** ** What the virtual machine resource is made of *)
Section Written.
Context {L : Libs}.
Import MachineScope MachineController.

(** A virtual machine handed to the API server by CreateOrUpdate satisfies [P]. *)
Definition vm_written_is (P : AzureStackHCIVirtualMachine → Prop) (e : event) : Prop :=
  match e with
  | Ev c _ =>
      match c with
      | KCouEnd k obj =>
          match k return kobj k → Prop with KVirtualMachine => P | _ => λ _, True end obj
      | _ => True
      end
  end.
Lemma vm_written_is_mono (P Q : AzureStackHCIVirtualMachine → Prop) t :
  (∀ o, P o → Q o) → Forall (vm_written_is P) t → Forall (vm_written_is Q) t.
Proof.
  intros HPQ H. eapply Forall_impl; [exact H|]. intros [R [] r]; simpl; try done.
  by destruct k; simpl; auto.
Qed.

Lemma silent_not_written P new :
  Forall (ev_is (@is_silent)) new → Forall (vm_written_is P) new.
Proof. intros H. eapply Forall_impl; [exact H|]. by intros [R [] r]. Qed.

(** The secret with the bootstrap data, as the API server returned it *)
Definition secret_read (s : MachineScope) (name value : string) (e : event) : Prop :=
  ∃ sec, e = Ev (KGet KSecret (mkNN (Namespace s) name)) (inr sec) ∧
         sec_Data sec !! "value" = Some value.

(** The network of a role *)
Definition network_of_role (cs : ClusterScope) (s : MachineScope)
    (sp : AzureStackHCIVirtualMachineSpec) : Prop :=
  let name := ClusterScope.Name cs in
  vs_VnetName sp = vnet_Name (ClusterScope.Vnet cs) ∧
  vs_SubnetName sp = (if IsControlPlane s then GenerateControlPlaneSubnetName name
                      else GenerateNodeSubnetName name) ∧
  ∀ pool, pool ∈ vs_BackendPoolNames sp ↔
    is_Some (ClusterScope.LoadBalancerSpec cs) ∧
    (pool = GenerateBackendPoolName name ∨
     IsControlPlane s = true ∧ pool = GenerateControlPlaneBackendPoolName name).

Definition image_of_machine (s : MachineScope) (image : Image) : Prop :=
  chosen_image (ms_Image (hm_Spec (HCIMachine s))) (clusterv1.m_Version (Machine s)) image.

Definition vm_of_machine (cs : ClusterScope) (s : MachineScope) (t : trace)
    (vm : AzureStackHCIVirtualMachine) : Prop :=
  let sp := hv_Spec vm in
  let spec := hm_Spec (HCIMachine s) in
  vm_owner (Machine s) ∈ metav1.OwnerReferences (hv_meta vm) ∧
  vs_ResourceGroup sp = GetResourceGroup cs ∧
  network_of_role cs s sp ∧
  (∃ name value data, clusterv1.m_DataSecretName (Machine s) = Some name ∧
     Exists (secret_read s name value) t ∧
     vs_BootstrapData sp = Some data ∧ Base64.DecodeString data = inr value) ∧
  (∃ image, vs_Image sp = Some image ∧ image_of_machine s image) ∧
  vs_VMSize sp = ms_VMSize spec ∧ vs_Location sp = ms_Location spec ∧
  vs_NetworkInterfaces sp = ms_NetworkInterfaces spec ∧
  (ms_AvailabilityZone spec ≠ None → vs_AvailabilityZone sp = ms_AvailabilityZone spec) ∧
  (ms_OSDisk spec ≠ None → vs_OSDisk sp = ms_OSDisk spec).

Lemma vm_of_machine_trace cs s t t' vm :
  (∀ P, Exists P t → Exists P t') → vm_of_machine cs s t vm → vm_of_machine cs s t' vm.
Proof.
  intros Ht (H1&H2&H3&(n&v&d&H4&H5&H6)&H7). do 3 (split; [done|]). split; [|done].
  exists n, v, d. auto.
Qed.

Lemma role_network_spec cs s subnet pools :
  role_network cs (Role s) = Some (subnet, pools) →
  subnet = (if IsControlPlane s then GenerateControlPlaneSubnetName (ClusterScope.Name cs)
            else GenerateNodeSubnetName (ClusterScope.Name cs)) ∧
  ∀ pool, pool ∈ pools ↔
    is_Some (ClusterScope.LoadBalancerSpec cs) ∧
    (pool = GenerateBackendPoolName (ClusterScope.Name cs) ∨
     IsControlPlane s = true ∧
     pool = GenerateControlPlaneBackendPoolName (ClusterScope.Name cs)).
Proof.
  unfold role_network, Role, IsControlPlane. destruct (IsControlPlaneMachine _); simpl;
    intros; simplify_eq; (split; [done|]); intros pool; case_bool_decide as Hlb; simpl;
    rewrite ?elem_of_cons, ?elem_of_app, ?list_elem_of_singleton, ?elem_of_nil;
    naive_solver.
Qed.
Lemma role_network_some cs s : is_Some (role_network cs (Role s)).
Proof. unfold role_network, Role. destruct (IsControlPlaneMachine _); by eexists. Qed.

Lemma wp_getVMImage env Q (s : MachineScope) t :
  (∀ r, match r with inr i => image_of_machine s i | inl _ => True end → Q (Ok r) s t) →
  wp env getVMImage Q s t.
Proof. intros HQ. unfold getVMImage. do 2 wp_step. by apply wp_choose_image. Qed.
End Written.

Section WrittenProof.
Context {L : Libs} {LL : LibLaws L}.
Import MachineScope MachineController.

Lemma CopyCorrelationID_VM (m : AzureStackHCIMachine) (vm : AzureStackHCIVirtualMachine) :
  hv_Spec (CopyCorrelationID m vm) = hv_Spec vm ∧
  metav1.OwnerReferences (hv_meta (CopyCorrelationID m vm)) =
    metav1.OwnerReferences (hv_meta vm).
Proof.
  unfold CopyCorrelationID. case_decide; [done|]. by destruct vm as [? [] ? ?].
Qed.

Lemma wp_mutateFn env (cs : ClusterScope) vm Q (s : MachineScope) t :
  (∀ o t', extends (ev_is (@is_silent)) (s, t) (s, t') →
     match o with
     | (None, vm') => vm_of_machine cs s t' vm' ∧ hv_Status vm' = hv_Status vm
     | (Some _, _) => True
     end → Q (Ok o) s t') →
  wp env (mutateFn cs vm) Q s t.
Proof.
  intros HQ. unfold mutateFn. do 2 wp_step. change (id s) with s.
  destruct (role_network_some cs s) as [[subnet pools] Hrole]. rewrite Hrole.
  apply role_network_spec in Hrole as [Hsubnet Hpools].
  assert (Hq : ∀ e vm' t', extends (ev_is (@is_silent)) (s, t) (s, t') →
            Q (Ok (Some e, vm')) s t') by (intros; by apply HQ).
  wp_step. unfold GetBootstrapData.
  wp_run_to getVMImage; try (apply Hq; (by exists []) || (by eexists [_]; split;
    [reflexivity|repeat constructor])).
  wp_step. apply wp_getVMImage. intros [err|image] Himage; simpl; wp_step.
  { apply Hq. eexists [_]. split; [reflexivity|repeat constructor]. }
  apply HQ; [eexists [_]; split; [reflexivity|repeat constructor]|].
  match goal with |- context [CopyCorrelationID ?m ?v] =>
    destruct (CopyCorrelationID_VM m v) as [Hsp Hor]; set (vm' := CopyCorrelationID m v) in * end.
  split; [|unfold vm', CopyCorrelationID; by case_decide].
  unfold vm_of_machine. rewrite Hsp, Hor. cbn.
  split; [apply EnsureOwnerRef_elem|]. split; [done|].
  split; [by split_and!|]. split.
  - eexists _, _, _. split; [done|]. split; [apply Exists_cons_hd; by eexists|].
    split; [done|]. apply Base64.DecodeString_EncodeToString.
  - split; [by eexists|]. split_and!; [done..| |]; intros ?.
    + by destruct (ms_AvailabilityZone (hm_Spec (HCIMachine s))).
    + by destruct (ms_OSDisk (hm_Spec (HCIMachine s))).
Qed.
End WrittenProof.

(** ** One reconciliation of the virtual machine resource *)
Section Reconciliation.
Context {L : Libs} {LL : LibLaws L}.
Import MachineScope MachineController.

(** The last read of the virtual machine, which decides what is reported *)
Definition vm_read (cs : ClusterScope) (s : MachineScope)
    (vm : AzureStackHCIVirtualMachine) (e : event) : Prop :=
  e = Ev (KGet KVirtualMachine (vm_key cs s)) (inr vm).

Lemma wp_after_CreateOrUpdate env (cs : ClusterScope) op err vm Q (s : MachineScope) t :
  (∀ r new, Forall (ev_is (@is_silent)) new →
     match r with inr vm => Exists (vm_read cs s vm) new | inl _ => True end →
     Q (Ok r) s (new ++ t)) →
  wp env (after_CreateOrUpdate cs op err vm) Q s t.
Proof.
  intros HQ. unfold after_CreateOrUpdate. wp_run; apply_above HQ t;
    first [done | by apply Exists_cons_hd | by forall_auto].
Qed.

Lemma wp_reconcileVirtualMachineNormal env (cs : ClusterScope) Q (s : MachineScope) t :
  (∀ r new, Forall (vm_written_is (vm_of_machine cs s (new ++ t))) new →
     match r with inr vm => Exists (vm_read cs s vm) new | inl _ => True end →
     Q (Ok r) s (new ++ t)) →
  wp env (reconcileVirtualMachineNormal cs) Q s t.
Proof.
  intros HQ. unfold reconcileVirtualMachineNormal. do 3 wp_step.
  apply wp_CreateOrUpdate.
  { intros e. apply wp_after_CreateOrUpdate. intros r new Hnew Hr.
    apply_above HQ t; [|by destruct r; [|apply Exists_app; left]].
    apply Forall_app. split; [by apply silent_not_written|by repeat constructor]. }
  intros found cur Hcur. apply wp_mutateFn. intros [[e|] vm'] t' (n1&Ht'&Hn1); simpl in Ht'.
  - subst t'. intros _. apply wp_after_CreateOrUpdate. intros r new Hnew Hr.
    apply_above HQ t; [|by destruct r; [|apply Exists_app; left]].
    rewrite !Forall_app. split_and!; [by apply silent_not_written..|by repeat constructor].
  - intros [Hvm _] [[op err] vm2]. subst t'. apply wp_after_CreateOrUpdate.
    intros r new Hnew Hr. apply_above HQ t; [|by destruct r; [|apply Exists_app; left]].
    rewrite Forall_app. split; [by apply silent_not_written|]. apply Forall_cons. split.
    + simpl. eapply vm_of_machine_trace; [|exact Hvm]. intros P HP.
      rewrite <-!app_assoc, <-app_comm_cons, <-app_assoc. apply Exists_app. right.
      by apply Exists_cons_tl.
    + rewrite Forall_app. split; [by apply silent_not_written|by repeat constructor].
Qed.
End Reconciliation.

(** ** The conditions the machine takes over *)
Section Merge.
Context {L : Libs} {LL : LibLaws L}.
Import MachineScope MachineController.
Local Notation types l := (metav1.c_Type <$> l).

(** [res] is [old] with the conditions [new] set, in order. *)
Record merged (old new res : list metav1.Condition) : Prop := mkMerged {
  merged_NoDup : NoDup (types old) → NoDup (types res);
  merged_types : ∀ ty, ty ∈ types res ↔ ty ∈ types old ∨ ty ∈ types new;
  merged_new : NoDup (types new) → ∀ c, c ∈ new →
    has_condition res (metav1.c_Type c) (metav1.c_Status c) (metav1.c_Reason c)
      (metav1.c_Message c);
  merged_old : ∀ ty, ty ∉ types new → conditions_Get res ty = conditions_Get old ty }.

Lemma merged_nil old : merged old [] old.
Proof. split; [done|set_solver|set_solver|done]. Qed.
Lemma merged_cons now old c new res :
  merged (conditions_Set now old c) new res → merged old (c :: new) res.
Proof.
  intros [H1 H2 H3 H4]. split.
  - intros. by apply H1, conditions_Set_NoDup.
  - intros ty. rewrite H2, conditions_Set_types. set_solver.
  - intros [Hni Hnd]%NoDup_cons c' [->|Hc']%elem_of_cons; [|auto].
    unfold has_condition. rewrite H4 by done.
    apply conditions_Get_Set_eq.
  - intros ty Hty. apply not_elem_of_cons in Hty as [Hne Hni].
    by rewrite H4, conditions_Get_Set_ne.
Qed.
Definition set_conditions (l : list metav1.Condition) (s : MachineScope) : MachineScope :=
  s <| HCIMachine ::= SetConditions l |>.
Lemma wp_merge_conditions env new Q (s : MachineScope) t :
  (∀ l events, merged (GetConditions (HCIMachine s)) new l →
     Forall (ev_is (@is_silent)) events →
     Q (Ok None) (set_conditions l s) (events ++ t)) →
  wp env (merge_conditions new) Q s t.
Proof.
  revert s t. induction new as [|c new IH]; intros s t HQ;
    unfold merge_conditions; cbn [for_each].
  - apply wp_ret. specialize (HQ _ [] (merged_nil _)).
    assert (Hs : set_conditions (GetConditions (HCIMachine s)) s = s)
      by (by destruct s as [? ? ? ? [? ? ? []]]).
    rewrite Hs in HQ. apply HQ. constructor.
  - do 2 wp_step. unfold set_condition, SetCondition. do 2 wp_step. wp_step. wp_step.
    apply IH. intros l events Hl Hev.
    match goal with H : env _ _ TimeNow = ?r |- _ =>
      specialize (HQ l (events ++ [Ev TimeNow r]) (merged_cons _ _ _ _ _ Hl)) end.
    rewrite <-app_assoc in HQ. apply HQ. apply Forall_app. by repeat constructor.
Qed.
End Merge.

(** ** What a reconciliation leaves in the machine *)
Section MachineOutcome.
Context {L : Libs} {LL : LibLaws L}.
Import MachineScope MachineController.
Local Notation types l := (metav1.c_Type <$> l).
Local Notation ready s := (mst_Ready (hm_Status (HCIMachine s))).
Local Notation initialization s := (mst_Initialization (hm_Status (HCIMachine s))).

(** The machine shows the state of the virtual machine [vm]. *)
Definition shows_vm (vm : AzureStackHCIVirtualMachine) (s s' : MachineScope) (res : Result)
    : Prop :=
  GetProviderID s' = "moc://" +:+ GetName vm ∧
  match vst_VMState (hv_Status vm) with
  | None =>
      res = mkResult true Minute ∧ GetVMState s' = GetVMState s ∧
      ready s' = ready s ∧ initialization s' = initialization s
  | Some st =>
      res = no_result ∧ GetVMState s' = Some st ∧
      if decide (st = VMStateSucceeded) then
        ready s' = true ∧ initialization s' = Some (mkInitializationStatus (Some true)) ∧
        has_condition (GetConditions (HCIMachine s')) VMRunningCondition
          metav1.ConditionTrue "VMRunning" ""
      else
        ready s' = ready s ∧ initialization s' = initialization s ∧
        ∃ reason msg, has_condition (GetConditions (HCIMachine s')) VMRunningCondition
                        metav1.ConditionFalse reason msg
  end.

(** Its conditions are the old ones and those of the virtual machine, but for VMRunning. *)
Definition takes_conditions (vm : AzureStackHCIVirtualMachine)
    (old res : list metav1.Condition) : Prop :=
  (NoDup (types old) → NoDup (types res)) ∧
  (∀ ty, ty ∈ types res →
     ty = VMRunningCondition ∨ ty ∈ types old ∨ ty ∈ types (vst_Conditions (hv_Status vm))) ∧
  (NoDup (types (vst_Conditions (hv_Status vm))) →
   ∀ c, c ∈ vst_Conditions (hv_Status vm) → metav1.c_Type c ≠ VMRunningCondition →
     has_condition res (metav1.c_Type c) (metav1.c_Status c) (metav1.c_Reason c)
       (metav1.c_Message c)) ∧
  (∀ ty, ty ∉ types (vst_Conditions (hv_Status vm)) → ty ≠ VMRunningCondition →
     conditions_Get res ty = conditions_Get old ty).

Lemma takes_merged vm old res :
  merged old (vst_Conditions (hv_Status vm)) res → takes_conditions vm old res.
Proof.
  intros [H1 H2 H3 H4]. split_and!; auto. intros ty. rewrite H2. tauto.
Qed.
Lemma takes_merged_set vm old res now c :
  merged old (vst_Conditions (hv_Status vm)) res → metav1.c_Type c = VMRunningCondition →
  takes_conditions vm old (conditions_Set now res c).
Proof.
  intros [H1 H2 H3 H4] Hc. split_and!.
  - intros. by apply conditions_Set_NoDup, H1.
  - intros ty. rewrite conditions_Set_types, H2, Hc. tauto.
  - intros Hnd c' Hc' Hne. apply has_condition_set_ne; [by rewrite Hc|auto].
  - intros ty Hty Hne. rewrite conditions_Get_Set_ne by (by rewrite Hc). auto.
Qed.

Lemma wp_report_vm env vm Q (s : MachineScope) t :
  (∀ s' res events, Forall (ev_is (@is_silent)) events →
     shows_vm vm s s' res →
     takes_conditions vm (GetConditions (HCIMachine s)) (GetConditions (HCIMachine s')) →
     Q (Ok (res, None)) s' (events ++ t)) →
  wp env (report_vm vm) Q s t.
Proof.
  intros HQ. unfold report_vm, validateUpdate. do 6 wp_step. wp_step.
  apply wp_merge_conditions. intros l events Hl Hev.
  wp_run; apply_above HQ t; try (by forall_auto); unfold shows_vm;
    repeat match goal with H : vst_VMState _ = _ |- _ => rewrite H; clear H end.
  all: try (by apply takes_merged); try (by apply takes_merged_set).
  all: split_and!; try done.
  all: try (rewrite decide_True by done; split_and!; [done..|apply has_condition_set]).
  all: rewrite decide_False by done; split_and!; [done..|].
  all: eexists _, _; apply has_condition_set.
Qed.

(** What [reconcileNormal] reads, writes and leaves, on every branch *)
Lemma wp_reconcileNormal env (cs : ClusterScope) Q (s : MachineScope) :
  (∀ o s' t', Forall (vm_written_is (vm_of_machine cs s t')) t' →
     (hm_Status (HCIMachine s') = hm_Status (HCIMachine s) ∧
      ((∃ e, o = (no_result, Some e)) ∨ may_write_vm cs s = false ∧ o = (no_result, None)) ∨
      may_write_vm cs s = true ∧ ∃ vm res,
        o = (res, None) ∧ Exists (vm_read cs s vm) t' ∧ shows_vm vm s s' res ∧
        takes_conditions vm (GetConditions (HCIMachine s))
          (GetConditions (HCIMachine s'))) →
     Q (Ok o) s' t') →
  wp env (reconcileNormal cs) Q s [].
Proof.
  intros HQ. unfold reconcileNormal, may_write_vm in *.
  wp_run_to (reconcileVirtualMachineNormal cs).
  - apply HQ; [by repeat constructor|]. left. split; [done|]. left. by eexists.
  - apply HQ; [by repeat constructor|]. left. split; [done|]. right. split; [|done].
    by destruct (cluster_provisioned _).
  - wp_step. apply wp_reconcileVirtualMachineNormal. intros [err|vm] new Hw Hr; wp_run.
    + apply HQ; [apply Forall_app; split; [exact Hw|by repeat constructor]|].
      left. split; [done|]. left. by eexists.
    + apply wp_report_vm. intros s' res events Hev Hshow Htake. apply HQ.
      * rewrite Forall_app. split; [by apply silent_not_written|].
        rewrite Forall_app. split; [|by repeat constructor].
        eapply vm_written_is_mono; [|exact Hw]. intros vm' Hvm'.
        eapply vm_of_machine_trace; [|exact Hvm']. intros P HP. apply Exists_app. by right.
      * right. split.
        { simpl in *. rewrite bool_decide_true by by eexists.
          by destruct (cluster_provisioned _). }
        exists vm, res. split_and!; try done. rewrite !Exists_app. by right; left.
  - apply HQ; [by repeat constructor|]. left. split; [done|]. right.
    simpl in *. split; [|done]. rewrite bool_decide_false by (by intros [? ?]; congruence).
    by rewrite andb_false_r.
Qed.

(** C8: Every virtual machine resource a reconciliation creates or updates is the one the
    machine asks for: owned by the Cluster API machine; in the resource group and network of
    the cluster, the subnet of its role, and exactly the back-end pools of its role when the
    cluster has a load balancer; its bootstrap data decodes to the value in the secret the
    API server returned; its image is the machine's own or the default one for its system
    and Kubernetes version; size, location, interfaces, and zone and disk when given, are
    those of the machine. *)
Theorem machine_vm_written env (cs : ClusterScope) (s : MachineScope) :
  wp env (reconcileNormal cs)
    (λ _ _ t', Forall (vm_written_is (vm_of_machine cs s t')) t') s [].
Proof. by apply wp_reconcileNormal. Qed.

(** C9: A reconciliation never panics. If it fails, or the cluster or the bootstrap data is
    not there yet, the machine's status is as before. Otherwise it shows the virtual machine
    as the API server returned it: its provider id; no state yet means a retry after a
    minute; a state is copied, and the machine becomes ready and provisioned with VMRunning
    True exactly for the state Succeeded, with VMRunning False for any other. *)
Theorem machine_reconcileNormal_outcome env (cs : ClusterScope) (s : MachineScope) :
  wp env (reconcileNormal cs) (λ o s' t',
    match o with
    | Ok (res, err) =>
        if decide (err = None ∧ may_write_vm cs s = true) then
          ∃ vm, Exists (vm_read cs s vm) t' ∧ shows_vm vm s s' res
        else hm_Status (HCIMachine s') = hm_Status (HCIMachine s) ∧ res = no_result
    | _ => False
    end) s [].
Proof.
  apply wp_reconcileNormal. intros [res err] s' t' _ [[Hs Ho]|[Hm (vm&res'&Ho&Hr&Hshow&_)]].
  - rewrite decide_False; [|naive_solver congruence]. split; [done|]. naive_solver.
  - simplify_eq. rewrite decide_True by done. by exists vm.
Qed.

(** Merging the virtual machine's conditions never makes the list grow without bound: a
    reconciliation keeps the types of the machine's conditions distinct, adds no type but
    VMRunning and those of the virtual machine it read, copies each condition of the virtual
    machine except VMRunning and touches no other condition. *)
Lemma machine_conditions_merged env (cs : ClusterScope) (s : MachineScope) :
  NoDup (types (GetConditions (HCIMachine s))) →
  wp env (reconcileNormal cs) (λ _ s' t',
    NoDup (types (GetConditions (HCIMachine s'))) ∧
    (GetConditions (HCIMachine s') = GetConditions (HCIMachine s) ∨
     ∃ vm, Exists (vm_read cs s vm) t' ∧
       takes_conditions vm (GetConditions (HCIMachine s)) (GetConditions (HCIMachine s')))) s [].
Proof.
  intros Hnd. apply wp_reconcileNormal.
  intros o s' t' _ [[Hs _]|[Hm (vm&res'&_&Hr&_&Htake)]].
  - simpl. rewrite Hs. by split; [|left].
  - split; [by apply Htake|]. right. by exists vm.
Qed.
End MachineOutcome.

(** ** Deletion *)
Section Deletion.
Context {L : Libs}.
Import MachineScope MachineController.

(** Whether a known result ends the handler *)
Ltac requeue_decided :=
  lazymatch goal with
  | |- wp _ (if decide (is_Some (Some _) ∨ _) then _ else _) _ _ _ =>
      rewrite decide_True by (left; by eexists)
  | |- wp _ (if decide (_ ∨ (0 < RequeueAfter no_result)%Z) then _ else _) _ _ _ =>
      rewrite decide_False by (by intros [[]|])
  | |- wp _ (if decide (_ ∨ (0 < RequeueAfter _)%Z) then _ else _) _ _ _ =>
      rewrite decide_True by (by right)
  end.

(** C31: The finalizer of a deleted machine goes exactly when the API server answers that its
    virtual machine is not found. While the virtual machine exists the handler comes back
    after 15 seconds or fails, and the machine is unchanged; one that is already being
    deleted is left alone, another one is deleted, but only after the update that carries
    the machine's correlation ids to it has been accepted. *)
Theorem machine_reconcileDelete_spec env (cs : ClusterScope) (s : MachineScope) :
  wp env (reconcileDelete cs) (λ o s' t',
    match env [] _ (KGet KVirtualMachine (vm_key cs s)) with
    | inl e =>
        writes t' = [] ∧
        if IsNotFound e
        then o = Ok (no_result, None) ∧ s' = remove_finalizer MachineFinalizer s
        else (∃ err, o = Ok (no_result, Some err)) ∧ s' = s
    | inr vm =>
        s' = s ∧
        if NotDeleted vm then
          let vm' := CopyCorrelationID (HCIMachine s) vm in
          ((∃ err, o = Ok (no_result, Some err)) ∨
           o = Ok (mkResult false (15 * Second), None)) ∧
          ((∃ e, writes t' = [Ev (KUpdate KVirtualMachine vm') (Some e)]) ∨
           (∃ r, writes t' = [Ev (KDelete KVirtualMachine vm') r;
                              Ev (KUpdate KVirtualMachine vm') None]))
        else o = Ok (mkResult false (15 * Second), None) ∧ writes t' = []
    end) s [].
Proof.
  unfold reconcileDelete, reconcileVirtualMachineDelete. do 5 wp_step.
  match goal with H : _ = r |- _ => change (id s) with s in *; rewrite H; clear H end.
  repeat first [requeue_decided | wp_step | wp_hook]; writes_simpl;
    repeat match goal with
      | H : negb ?b = _ |- _ => destruct b; simpl in H; simplify_eq
      | |- context [writes (@nil event)] => change (writes []) with (@nil event)
      end; split_and!; eauto.
Qed.
End Deletion.

(** ** The controller as a whole *)
Section Controller.
Context {L : Libs} {LL : LibLaws L}.
Import MachineScope MachineController.

(** CreateOrUpdate writes a virtual machine. *)
Definition writes_vm {R} (c : Call R) : bool :=
  match c with KCouEnd KVirtualMachine _ => true | _ => false end.
Definition machine_finalized (o : AzureStackHCIMachine) : Prop :=
  MachineFinalizer ∈ GetFinalizers o.
Local Notation finalizer_first :=
  (precedes (patched KMachine machine_finalized) (ev_is (@writes_vm))).

Lemma silent_writes_no_vm new :
  Forall (ev_is (@is_silent)) new → Forall (λ e, ¬ ev_is (@writes_vm) e) new.
Proof. apply ev_not_is. by intros R []. Qed.
Hint Resolve silent_writes_no_vm : core.

Lemma machine_reconcileNormal_finalizer_first env (cs : ClusterScope) (s : MachineScope) t :
  finalizer_first t → wp env (reconcileNormal cs) (λ _ _ t', finalizer_first t') s t.
Proof.
  intros Ht. unfold reconcileNormal. wp_run_to (reconcileVirtualMachineNormal cs);
    try (by apply precedes_cons).
  wp_step. apply wp_reconcileVirtualMachineNormal.
  match goal with |- context [Ev (KPatch ?k ?b ?o ?ow) None :: t] =>
    assert (Hx : Exists (patched KMachine machine_finalized) (Ev (KPatch k b o ow) None :: t))
      by (apply Exists_cons_hd; eexists _, _, _; split; [done|apply AddFinalizer_in]);
    assert (Hp : finalizer_first (Ev (KPatch k b o ow) None :: t)) by (by apply precedes_cons)
  end.
  intros [err|vm] new _ _; [wp_run; by apply precedes_above|].
  apply wp_report_vm. intros s' res events _ _ _.
  apply precedes_above; [apply Exists_app; by right|by apply precedes_above].
Qed.
Lemma machine_reconcileDelete_no_write (cs : ClusterScope) :
  frame (extends (ev_not (@writes_vm))) (reconcileDelete cs).
Proof. unfold reconcileDelete, reconcileVirtualMachineDelete. frame_auto. Qed.

(** In every run of the machine controller, whatever the API server answers, a virtual
    machine resource is created or updated only after the API server has accepted the machine
    with its finalizer. *)
Theorem machine_Reconcile_finalizer_first env req :
  wp env (Reconcile req) (λ _ _ t', finalizer_first t') tt [].
Proof.
  unfold Reconcile. wp_run; try (by precedes_auto).
  eapply wp_by_frame; [apply NewClusterScope_frame|]. intros oo s' t' (n1&Ht'&Hn1).
  simpl in Ht'. subst t'.
  destruct oo as [[err|cs]|w|]; wp_run; try (by precedes_auto).
  eapply wp_by_frame; [apply NewMachineScope_frame|]. intros om s'' t' (n2&Ht'&Hn2).
  simpl in Ht'. subst t'.
  destruct om as [[err|scope]|w|]; wp_run; try (by precedes_auto).
  apply wp_with_close.
  match goal with |- wp _ _ _ _ ?tr => assert (Hp : finalizer_first tr) by precedes_auto end.
  eapply (wp_mono _ _ (λ _ _ t', finalizer_first t')).
  - case_match; [by apply machine_reconcileNormal_finalizer_first|].
    eapply wp_by_frame; [apply machine_reconcileDelete_no_write|]. intros o3 s3 t3 Hext.
    eapply precedes_not; [|exact Hp]. eapply extends_mono; [|exact Hext].
    intros [] ; simpl. by intros ->.
  - intros oe s3 t3 Ht. destruct oe as [[]|w|]; wp_run; try apply precedes_cons; done.
Qed.
End Controller.

(** ** The machines of a cluster *)
Section Requests.
Context {L : Libs}.
Import MachineController.

Lemma machine_requests_elem items q :
  q ∈ machine_requests items ↔
  ∃ m, m ∈ items ∧ clusterv1.m_InfrastructureRefName m ≠ "" ∧
    q = mkNN (metav1.Namespace (clusterv1.m_meta m)) (clusterv1.m_InfrastructureRefName m).
Proof.
  unfold machine_requests. rewrite list_elem_of_omap.
  split; intros (m&Hm&H); exists m; case_decide; naive_solver.
Qed.

(** A change of a cluster enqueues exactly the machines that the API server lists, in the
    namespace of the cluster, under the name of the owning Cluster API cluster, and that
    refer to an infrastructure object; nothing is enqueued for any other object, for a
    cluster without an owner, or when a read fails. *)
Theorem cluster_machine_requests env o :
  wp env (AzureStackHCIClusterToAzureStackHCIMachines o) (λ out _ t',
    ∃ reqs, out = Ok reqs ∧
    match t' with
    | [Ev (KList KCapiMachine ns labels) (inr items); Ev (GetOwnerCluster m) (inr (Some c))] =>
        (∃ hc, o = AnObject KCluster hc ∧ m = hc_meta hc ∧ ns = GetNamespace hc) ∧
        labels = [(clusterv1.ClusterNameLabel, metav1.Name (clusterv1.cl_meta c))] ∧
        ∀ q, q ∈ reqs ↔ ∃ x, x ∈ items ∧ clusterv1.m_InfrastructureRefName x ≠ "" ∧
          q = mkNN (metav1.Namespace (clusterv1.m_meta x))
                (clusterv1.m_InfrastructureRefName x)
    | _ => reqs = []
    end) tt [].
Proof.
  unfold AzureStackHCIClusterToAzureStackHCIMachines.
  destruct o as [[] o]; wp_run; eexists; (split; [reflexivity|]); try done.
  destruct r as [|[]]; simplify_eq. split_and!; [by exists o|done|].
  apply machine_requests_elem.
Qed.
End Requests.

(** ** azurestackhcimachine_annotations.go *)
Module MachineAnnotations.
Section JSON.
(** A [map[string]interface{}], the empty one, and encoding/json *)
Context {content : Type} (empty : content).
Context (Marshal : content → error + string).
Context (Unmarshal : string → content → content * option error).
(** The machine is the state. *)

(** A write into the nil map panics. *)
Definition updateMachineAnnotation (annotation content : string)
    : prog AzureStackHCIMachine unit :=
  annotations <- gets GetAnnotations ;;
  annotations <- deref annotations "assignment to entry in nil map" ;;
  modify (SetAnnotations (Some (<[annotation := content]> annotations))).
Definition updateMachineAnnotationJSON (annotation : string) (c : content)
    : prog AzureStackHCIMachine (option error) :=
  match Marshal c with
  | inl err => ret (Some err)
  | inr b => updateMachineAnnotation annotation b ;; ret None
  end.
Definition machineAnnotation (annotation : string) (m : AzureStackHCIMachine) : string :=
  map_get (GetAnnotations m) annotation.
Definition machineAnnotationJSON (annotation : string)
    : prog AzureStackHCIMachine (content * option error) :=
  jsonAnnotation <- gets (machineAnnotation annotation) ;;
  if decide (jsonAnnotation = "") then ret (empty, None)
  else ret (Unmarshal jsonAnnotation empty).

(** C32: An annotation written as JSON is read back as what decodes from the text that was
    written, other annotations staying as they are; on a machine without an annotation map
    the write panics. *)
Theorem annotation_JSON_roundtrip env a c b (m : AzureStackHCIMachine) t :
  Marshal c = inr b → b ≠ "" →
  wp env (updateMachineAnnotationJSON a c ;; machineAnnotationJSON a) (λ o m' _,
    match GetAnnotations m with
    | None => (∃ w, o = Panic w) ∧ m' = m
    | Some old =>
        o = Ok (Unmarshal b empty) ∧
        ∀ a', a' ≠ a → machineAnnotation a' m' = machineAnnotation a' m
    end) m t.
Proof.
  intros Hb Hne. unfold updateMachineAnnotationJSON, updateMachineAnnotation,
    machineAnnotationJSON, machineAnnotation. rewrite Hb.
  wp_run; simpl in *.
  - match goal with e : default "" _ = "" |- _ =>
      clear -e Hne; rewrite lookup_insert_eq in e; done end.
  - rewrite lookup_insert_eq. split; [done|]. intros a' Ha'. by rewrite lookup_insert_ne.
  - split; [by eexists|done].
Qed.
End JSON.
End MachineAnnotations.

(** ** Concrete runs *)
Definition ex_provisioned : ClusterScope :=
  ex_cluster_scope <| ClusterScope.HCICluster ::=
    (λ c, c <| hc_Status ::= (λ st, st <| cst_Initialization :=
       Some (mkInitializationStatus (Some true)) |>) |>) |>.
(** The API server shows the virtual machine in the state Succeeded. *)
Definition ex_env_vm_succeeded : Env := λ _ R c,
  match c in Call R return R → R with
  | KGet KVirtualMachine _ => λ _, inr (ex_vm <| hv_Status ::=
      (λ st, st <| vst_VMState := Some VMStateSucceeded |>
                <| vst_Conditions := [metav1.cond "Other" "True" "r" "m"] |>) |>)
  | _ => λ r, r
  end (ex_answer R c).

Lemma machine_reconcileNormal_gated_witness :
  may_write_vm ex_cluster_scope ex_machine_scope = false ∧
  length (MachineController.reconcileNormal (L:=Ref.ref_libs) ex_cluster_scope ex_env
            ex_machine_scope []).2 = 1.
Proof.
  split; [reflexivity|].
  destruct (machine_reconcileNormal_gated (L:=Ref.ref_libs) ex_env ex_cluster_scope
              ex_machine_scope eq_refl) as (r&_&Ht&_).
  rewrite Ht. reflexivity.
Defined.

Lemma machine_vm_written_witness :
  let t := (MachineController.reconcileNormal (L:=Ref.ref_libs) ex_provisioned
              ex_env_vm_succeeded ex_machine_scope []).2 in
  Exists (ev_is (@writes_vm)) t ∧
  Forall (vm_written_is (vm_of_machine (L:=Ref.ref_libs) ex_provisioned ex_machine_scope t)) t.
Proof.
  split; [|exact (machine_vm_written (LL:=Ref.ref_laws) ex_env_vm_succeeded
                    ex_provisioned ex_machine_scope)].
  refine (bool_decide_unpack _ _). vm_compute. exact I.
Defined.

Lemma machine_reconcileNormal_outcome_witness :
  let r := MachineController.reconcileNormal (L:=Ref.ref_libs) ex_provisioned
             ex_env_vm_succeeded ex_machine_scope [] in
  mst_Ready (hm_Status (MachineScope.HCIMachine r.1.2)) = true ∧
  ∃ vm, shows_vm (L:=Ref.ref_libs) vm ex_machine_scope r.1.2 no_result.
Proof.
  split; [vm_compute; reflexivity|].
  pose proof (machine_reconcileNormal_outcome (LL:=Ref.ref_laws) ex_env_vm_succeeded
                ex_provisioned ex_machine_scope) as H.
  unfold wp in H.
  replace ((MachineController.reconcileNormal (L:=Ref.ref_libs) ex_provisioned
              ex_env_vm_succeeded ex_machine_scope []).1.1)
    with (Ok (A:=Result * option error) (no_result, None)) in H by (vm_compute; reflexivity).
  rewrite decide_True in H by (split; reflexivity).
  destruct H as (vm&_&H). exists vm. exact H.
Defined.

Lemma machine_conditions_merged_witness :
  let s' := (MachineController.reconcileNormal (L:=Ref.ref_libs) ex_provisioned
               ex_env_vm_succeeded ex_machine_scope []).1.2 in
  NoDup (metav1.c_Type <$> GetConditions (MachineScope.HCIMachine s')) ∧
  length (GetConditions (MachineScope.HCIMachine s')) = 2.
Proof.
  split; [|vm_compute; reflexivity].
  apply (machine_conditions_merged (LL:=Ref.ref_laws) ex_env_vm_succeeded ex_provisioned
           ex_machine_scope).
  apply NoDup_nil_2.
Defined.

Lemma machine_Reconcile_finalizer_first_witness :
  precedes (patched KMachine machine_finalized) (ev_is (@writes_vm))
    (MachineController.Reconcile (L:=Ref.ref_libs) (mkNN "default" "machine") ex_env tt []).2.
Proof.
  exact (machine_Reconcile_finalizer_first (LL:=Ref.ref_laws) ex_env
           (mkNN "default" "machine")).
Defined.

Lemma annotation_JSON_roundtrip_witness :
  let m := ex_machine <| hm_meta ::= (λ m, m <| metav1.Annotations := Some ∅ |>) |> in
  (bind (MachineAnnotations.updateMachineAnnotationJSON (λ n : nat, inr "7") "a" 7)
        (λ _, MachineAnnotations.machineAnnotationJSON 0 (λ _ _, (7, None)) "a")
     ex_env m []).1.1 = Ok (7, None).
Proof.
  intros m. pose proof (MachineAnnotations.annotation_JSON_roundtrip 0 (λ n : nat, inr "7")
    (λ _ _, (7, None)) ex_env "a" 7 "7" m [] eq_refl) as H.
  apply H. discriminate.
Defined.
