(* ===== verification/LoadBalancer.v ===== *)
(** * controllers: azurestackhciloadbalancer_controller.go and _virtualmachine.go

    The controller of the load balancer resource of a cluster. It keeps a number of virtual
    machines that run the load balancer, creating or deleting one of them at a time and
    replacing those with an old system, and the load balancer of the MOC agent. The state of a
    reconciliation is the load balancer scope; the cluster scope is only read, and the services
    run in it. *)
From stdpp Require Import prelude strings list gmap.
From S2P Require Import Prelude GoStd External Api Effects Util Naming Scope Example.
From S2P Require Import Telemetry Interfaces Services NetServices Machine.
Local Open Scope prog_scope.

Module LBController.
Import LoadBalancerScope.
Local Notation HCIVM := AzureStackHCIVirtualMachine.
Section Controller.
Context {L : Libs}.

(** [conditions.Set(lbs.AzureStackHCILoadBalancer, c)] *)
Definition set_condition (c : metav1.Condition) : prog LoadBalancerScope unit :=
  SetCondition LB (λ o s, s <| LB := o |>) c.
(** [r.Recorder.Eventf(lbs.AzureStackHCILoadBalancer, ...)] *)
Definition record (eventtype reason format : string) (args : list string)
    : prog LoadBalancerScope unit :=
  lbs <- gets id ;;
  call (Eventf (mkObjectRef KLoadBalancer (mkNN (GetNamespace (LB lbs)) (Name lbs)))
          eventtype reason format args).

(** ** azurestackhciloadbalancer_virtualmachine.go *)

(** The reason of the replicas condition *)
Definition replicas_reason (lbs : LoadBalancerScope) : string :=
  conditions_GetReason (GetConditions (LB lbs)) LoadBalancerReplicasReadyCondition.
Definition replicasAreUpgrading (lbs : LoadBalancerScope) : bool :=
  bool_decide (replicas_reason lbs = LoadBalancerReplicasUpgradingReason).
Definition replicasAreScalingUp (lbs : LoadBalancerScope) : bool :=
  bool_decide (replicas_reason lbs = LoadBalancerReplicasScalingUpReason).
Definition replicasAreScalingDown (lbs : LoadBalancerScope) : bool :=
  bool_decide (replicas_reason lbs = LoadBalancerReplicasScalingDownReason).
Definition replicasAreScaling (lbs : LoadBalancerScope) : bool :=
  replicasAreScalingUp lbs || replicasAreScalingDown lbs.
Definition isScaleUpRequired (lbs : LoadBalancerScope) : bool :=
  Z.ltb (GetReplicas lbs) (GetDesiredReplicas lbs).
Definition isScaleDownRequired (lbs : LoadBalancerScope) : bool :=
  Z.gtb (GetReplicas lbs) (GetDesiredReplicas lbs).

(** The machine does not run the system of the load balancer. *)
Definition outdated (lbs : LoadBalancerScope) (vm : HCIVM) : bool :=
  negb (bool_decide (map_get (GetLabels vm) OSVersionLabelName = OSVersion lbs)).
Definition isUpgradeRequired (lbs : LoadBalancerScope) (vmList : list HCIVM) : bool :=
  existsb (outdated lbs) vmList.

(** [getMachineReplicaCounts]: the counters are an int32 each. *)
Definition getMachineReplicaCounts (vmList : list HCIVM) : Z * Z :=
  (int32 (Z.of_nat (length vmList)),
   foldl (λ failedReplicas vm,
     match vst_VMState (hv_Status vm) with
     | None => failedReplicas
     | Some st => if decide (st = VMStateFailed) then int32 (failedReplicas + 1)
                  else failedReplicas
     end) 0%Z vmList).

(** [getVirtualMachinesForLoadBalancer] *)
Definition getVirtualMachinesForLoadBalancer (clusterScope : ClusterScope)
    : prog LoadBalancerScope (error + list HCIVM) :=
  name <- gets Name ;;
  try items <- call (KList KVirtualMachine (ClusterScope.Namespace clusterScope)
                       [(LoadBalancerLabel, name)]) iferr err then ret (inl err) ;;
  ret (inr (filter (λ vm, NotDeleted vm = true) items)).

Definition getVMImage : prog LoadBalancerScope (error + Image) :=
  lbs <- gets id ;;
  let version := to_String (cs_Version (hc_Spec (HCICluster lbs))) in
  match lbs_Image (lb_Spec (LB lbs)) with
  | Some image =>
      if decide (is_Some (img_Name image) ∧ img_Name image ≠ Some "")
      then ret (inr image)
      else ret (GetDefaultImage (img_OSType image) version)
  | None => ret (GetDefaultImage OSTypeLinux version)
  end.

(** [mutateFn] of [createOrUpdateVirtualMachine], on the object it closes over *)
Definition vm_owner (lb : AzureStackHCILoadBalancer) : metav1.OwnerReference :=
  metav1.mkOwnerReference (metav1.APIVersion (lb_type lb)) (metav1.Kind (lb_type lb))
    (GetName lb) (metav1.UID (lb_meta lb)).
Definition mutateFn (clusterScope : ClusterScope) (vm : HCIVM)
    : prog LoadBalancerScope (option error * HCIVM) :=
  lbs <- gets id ;;
  let hci := ClusterScope.HCICluster clusterScope in
  let vm := SetOwnerReferences (EnsureOwnerRef (metav1.OwnerReferences (hv_meta vm))
                                  (vm_owner (LB lbs))) vm in
  let labels := default ∅ (GetLabels vm) in
  let labels := <[OSVersionLabelName := OSVersion lbs]> labels in
  let labels := <[LoadBalancerLabel := Name lbs]> labels in
  let vm := SetLabels (Some labels) vm in
  let vm := vm <| hv_Spec ::= (λ sp,
    sp <| vs_ResourceGroup := cs_ResourceGroup (hc_Spec hci) |>
       <| vs_VnetName := vnet_Name (ns_Vnet (cs_NetworkSpec (hc_Spec hci))) |>
       <| vs_ClusterName := GetName hci |>
       <| vs_SubnetName := GenerateNodeSubnetName (ClusterScope.Name clusterScope) |>
       <| vs_BootstrapData := Some "" |>
       <| vs_VMSize := lbs_VMSize (lb_Spec (LB lbs)) |>
       <| vs_Location := ClusterScope.Location clusterScope |>
       <| vs_SSHPublicKey := lbs_SSHPublicKey (lb_Spec (LB lbs)) |>
       <| vs_StorageContainer := lbs_StorageContainer (lb_Spec (LB lbs)) |>) |> in
  try image <- getVMImage iferr err then
    ret (Some (ErrWrap err "failed to get AzureStackHCILoadBalancer image"), vm) ;;
  let vm := vm <| hv_Spec ::= (λ sp, sp <| vs_Image := Some image |>) |> in
  ret (None, CopyCorrelationID (LB lbs) vm).

Definition createOrUpdateVirtualMachine (clusterScope : ClusterScope)
    : prog LoadBalancerScope (error + HCIVM) :=
  name <- gets Name ;;
  ' (loadBalancerName, err) <- GenerateAzureStackHCILoadBalancerMachineName name ;;
  match err with
  | Some err => ret (inl err)
  | None =>
      let vm := mkVirtualMachine metav1.empty_type
        (metav1.named_meta (ClusterScope.Namespace clusterScope) loadBalancerName)
        zero_VirtualMachineSpec zero_VirtualMachineStatus in
      ' (operationResult, err, vm) <- CreateOrUpdate KVirtualMachine vm
                                        (mutateFn clusterScope) ;;
      (if IsCRDUpdate operationResult then
         (let '(operation, resourceType) := ConvertOperationResult operationResult in
          RecordHybridAKSCRDChange (GetCustomResourceTypeWithName clusterScope)
            (MachineController.vm_resource vm) operation resourceType NoParams err)
       else ret tt) ;;
      match err with
      | Some err => ret (inl err)
      | None => ret (inr vm)
      end
  end.

Definition deleteVirtualMachine (clusterScope : ClusterScope) (vm : HCIVM)
    : prog LoadBalancerScope (option error) :=
  if negb (NotDeleted vm) then ret None
  else
    lb <- gets LB ;;
    let vm := CopyCorrelationID lb vm in
    err <- call (KUpdate KVirtualMachine vm) ;;
    match (match err with
           | Some e => if IsNotFound e then None
                       else Some (ErrWrap e ("failed to update AzureStackHCIVirtualMachine "
                                              +:+ GetName vm))
           | None => None
           end) with
    | Some e => ret (Some e)
    | None =>
        err <- call (KDelete KVirtualMachine vm) ;;
        RecordHybridAKSCRDChange (GetCustomResourceTypeWithName clusterScope)
          (MachineController.vm_resource vm) OpDelete CRD NoParams err ;;
        match err with
        | Some e =>
            if IsNotFound e then ret None
            else ret (Some (ErrWrap e ("failed to delete AzureStackHCIVirtualMachine "
                                        +:+ GetName vm)))
        | None => ret None
        end
    end.

(** The loop writes the body of [deleteVirtualMachine] out once more. *)
Definition reconcileDeleteVirtualMachines (clusterScope : ClusterScope)
    : prog LoadBalancerScope (option error) :=
  try vmList <- getVirtualMachinesForLoadBalancer clusterScope iferr err then
    ret (Some (ErrWrap err "failed to get loadbalancer virtual machine list")) ;;
  for_each vmList (λ vm, deleteVirtualMachine clusterScope vm).

Definition scaleUpVirtualMachines (clusterScope : ClusterScope)
    : prog LoadBalancerScope (option error) :=
  name <- gets Name ;;
  record "Normal" "ScalingUpLoadBalancer" "Scaling up AzureStackHCILoadBalancer %s" [name] ;;
  try _vm <- createOrUpdateVirtualMachine clusterScope iferr err then
    ret (Some (ErrWrap err "failed to create or update loadbalancer VM")) ;;
  modify AddReplica ;;
  ret None.

(** [selectVirtualMachineForScaleDown]: the list is sorted in place; nobody reads it
    afterwards. *)
Definition selectVirtualMachineForScaleDown (lbs : LoadBalancerScope)
    (vmList : list HCIVM) : error + HCIVM :=
  match Sort ByCreationTimestamp_Less vmList with
  | [] => inl (ErrNew "no machines were provided for scale down selection")
  | (first :: _) as sorted =>
      match List.find (outdated lbs) sorted with
      | Some vm => inr vm
      | None => inr first
      end
  end.

Definition scaleDownVirtualMachines (clusterScope : ClusterScope) (vmList : list HCIVM)
    : prog LoadBalancerScope (option error) :=
  lbs <- gets id ;;
  record "Normal" "ScalingDownLoadBalancer" "Scaling down AzureStackHCILoadBalancer %s"
    [Name lbs] ;;
  match selectVirtualMachineForScaleDown lbs vmList with
  | inl err => ret (Some err)
  | inr vm =>
      iferr err <- deleteVirtualMachine clusterScope vm then
        ret (Some (ErrWrap err ("failed to scale down loadbalancer VM " +:+ GetName vm))) ;;
      modify RemoveReplica ;;
      ret None
  end.

(** ** azurestackhciloadbalancer_controller.go: the service *)

(** The IP address of the first element of [lb.FrontendIPConfigurations]: the properties of the SDK types are
    embedded pointers. *)
Definition frontend_address (props : network.LoadBalancerPropertiesFormat)
    : prog LoadBalancerScope string :=
  frontend <- deref_first (network.lbp_FrontendIPConfigurations props) ;;
  frontend <- deref (network.fe_props frontend) "FrontendIPConfigurationPropertiesFormat" ;;
  deref (network.fp_IPAddress frontend) "IPAddress".

Definition reconcileLoadBalancerServiceStatus (clusterScope : ClusterScope)
    : prog LoadBalancerScope (option error) :=
  name <- gets Name ;;
  ' (lbInterface, err) <- run_in clusterScope
      (gsvc_Get loadbalancers.NewService
         (ILoadBalancersSpec (mkLoadBalancersSpec name "" "" 0 0 ∅))) ;;
  match err, lbInterface with
  | Some err, _ => ret (Some err)
  | None, ISdk MLoadBalancer lb =>
      address <- gets Address ;;
      (if decide (address = "") then
         (props <- deref (network.lb_props lb) "LoadBalancerPropertiesFormat" ;;
          address <- frontend_address props ;;
          modify (SetAddress address))
       else ret tt) ;;
      props <- deref (network.lb_props lb) "LoadBalancerPropertiesFormat" ;;
      modify (SetReadyReplicas (int32 (network.lbp_ReplicationCount props))) ;;
      ret None
  | None, _ => ret (Some (ErrNew "error getting status for loadbalancer service"))
  end.

Definition reconcileLoadBalancerService (clusterScope : ClusterScope)
    : prog LoadBalancerScope (option error) :=
  modify (SetPort (ClusterScope.APIServerPort clusterScope)) ;;
  lbs <- gets id ;;
  let lbSpec := mkLoadBalancersSpec (Name lbs)
    (GenerateControlPlaneBackendPoolName (ClusterScope.Name clusterScope))
    (vnet_Name (ns_Vnet (cs_NetworkSpec (hc_Spec (ClusterScope.HCICluster clusterScope)))))
    (GetPort lbs) (ClusterScope.APIServerPort clusterScope)
    {[ LBRoleTagName := Some LBRoleAksHciApiServer ]} in
  iferr err <- run_in clusterScope
      (gsvc_Reconcile loadbalancers.NewService (ILoadBalancersSpec lbSpec)) then
    ret (Some (ErrWrap err ("failed to reconcile loadbalancer " +:+ Name lbs))) ;;
  ret None.

Definition reconcileDeleteLoadBalancerService (clusterScope : ClusterScope)
    : prog LoadBalancerScope (option error) :=
  name <- gets Name ;;
  iferr err <- run_in clusterScope
      (gsvc_Delete loadbalancers.NewService
         (ILoadBalancersSpec (mkLoadBalancersSpec name "" "" 0 0 ∅))) then
    (if negb (ResourceNotFound err) then
       ret (Some (ErrWrap err ("failed to delete loadbalancer " +:+ name)))
     else ret None) ;;
  ret None.

(** [updateReplicaStatus]: the error of the service is dropped. *)
Definition updateReplicaStatus (clusterScope : ClusterScope) (vmList : list HCIVM)
    : prog LoadBalancerScope unit :=
  let '(replicas, failedReplicas) := getMachineReplicaCounts vmList in
  reconcileLoadBalancerServiceStatus clusterScope ;;
  modify (SetReplicas replicas) ;;
  modify (SetFailedReplicas failedReplicas).

(** The first machine that reports why it does not run, and what it reports *)
Fixpoint failing_machine (vms : list HCIVM) : option metav1.Condition :=
  match vms with
  | [] => None
  | vm :: vms' =>
      match (if conditions_IsFalse (GetConditions vm) VMRunningCondition
             then conditions_Get (GetConditions vm) VMRunningCondition else None) with
      | Some c => if decide (metav1.c_Reason c ≠ "") then Some c else failing_machine vms'
      | None => failing_machine vms'
      end
  end.

Definition replicas_condition (status reason message : string)
    : prog LoadBalancerScope unit :=
  set_condition (metav1.cond LoadBalancerReplicasReadyCondition status reason message).

(** [for lbs.GetReplicas() < lbs.GetMaxReplicas() { ... }] *)
Definition scale_up_to_max (fuel : nat) (clusterScope : ClusterScope)
    : prog LoadBalancerScope (option error) :=
  while_loop fuel (gets (λ l, Z.ltb (GetReplicas l) (GetMaxReplicas l)))
    (err <- scaleUpVirtualMachines clusterScope ;;
     ret (Wrap err "failed to scale up loadbalancer VM for upgrade")).

(** The part of [reconcileVirtualMachines] that changes the number of machines, once the
    replicas are counted *)
Definition scale_replicas (clusterScope : ClusterScope) (vms : list HCIVM)
    : prog LoadBalancerScope (Result * option error) :=
  lbs <- gets id ;;
  if isScaleUpRequired lbs then
    (if negb (replicasAreUpgrading lbs)
     then replicas_condition metav1.ConditionFalse LoadBalancerReplicasScalingUpReason ""
     else ret tt) ;;
    iferr err <- scaleUpVirtualMachines clusterScope then
      ret (no_result, Some (ErrWrap err "failed to scale up loadbalancer")) ;;
    ret (mkResult true Minute, None)
  else if isScaleDownRequired lbs then
    (if negb (replicasAreUpgrading lbs)
     then replicas_condition metav1.ConditionFalse LoadBalancerReplicasScalingDownReason ""
     else ret tt) ;;
    iferr err <- scaleDownVirtualMachines clusterScope vms then
      ret (no_result, Some (ErrWrap err "failed to scale down loadbalancer")) ;;
    ret (mkResult true (20 * Second), None)
  else if isUpgradeRequired lbs vms then
    replicas_condition metav1.ConditionFalse LoadBalancerReplicasUpgradingReason "" ;;
    record "Normal" "UpgradingLoadBalancer" "Upgrading AzureStackHCILoadBalancer %s"
      [Name lbs] ;;
    iferr err <- scale_up_to_max
                   (Z.to_nat (GetMaxReplicas lbs - GetReplicas lbs)) clusterScope then
      ret (no_result, Some err) ;;
    ret (mkResult true Minute, None)
  else
    (if conditions_IsFalse (GetConditions (LB lbs)) LoadBalancerReplicasReadyCondition then
       (replicas_condition metav1.ConditionTrue "AllReplicasReady" "" ;;
        record "Normal" "LoadBalancerReplicasReady"
          "All replicas for AzureStackHCILoadBalancer %s are ready" [Name lbs])
     else ret tt) ;;
    ret (no_result, None).

Definition reconcileVirtualMachines (clusterScope : ClusterScope)
    : prog LoadBalancerScope (Result * option error) :=
  try loadBalancerVMs <- getVirtualMachinesForLoadBalancer clusterScope iferr err then
    ret (no_result,
         Some (ErrWrap err "failed to get loadbalancer virtual machine list")) ;;
  match failing_machine loadBalancerVMs with
  | Some c =>
      replicas_condition metav1.ConditionFalse (metav1.c_Reason c) (metav1.c_Message c) ;;
      ret (no_result, None)
  | None =>
      updateReplicaStatus clusterScope loadBalancerVMs ;;
      lbs <- gets id ;;
      if decide (GetReadyReplicas lbs < GetReplicas lbs)%Z then
        if replicasAreUpgrading lbs || replicasAreScalingUp lbs
        then ret (mkResult true Minute, None)
        else if negb (isScaleDownRequired lbs) then
          replicas_condition metav1.ConditionFalse
            LoadBalancerWaitingForReplicasReadyReason "" ;;
          ret (mkResult true Minute, None)
        else scale_replicas clusterScope loadBalancerVMs
      else scale_replicas clusterScope loadBalancerVMs
  end.

(** ** azurestackhciloadbalancer_controller.go: the handlers *)

Definition infrastructure_condition (status reason message : string)
    : prog LoadBalancerScope unit :=
  set_condition
    (metav1.cond LoadBalancerInfrastructureReadyCondition status reason message).
(** The switch on [mocerrors.GetErrorCode(err)] *)
Definition service_failure_reason (err : error) : string :=
  let code := GetErrorCode err in
  if decide (code = OutOfMemory_Error) then OutOfMemoryReason
  else if decide (code = OutOfCapacity_Error) then OutOfCapacityReason
  else LoadBalancerServiceReconciliationFailedReason.
Definition no_address_result : Result := mkResult true (20 * Second).

Definition add_finalizer (f : string) (s : LoadBalancerScope) : LoadBalancerScope :=
  s <| LB ::= (λ o, SetFinalizers (AddFinalizer (GetFinalizers o) f) o) |>.
Definition remove_finalizer (f : string) (s : LoadBalancerScope) : LoadBalancerScope :=
  s <| LB ::= (λ o, SetFinalizers (RemoveFinalizer (GetFinalizers o) f) o) |>.

(** The end of [reconcileNormal], once there is an address *)
Definition report_ready (result : Result)
    : prog LoadBalancerScope (Result * option error) :=
  lbs <- gets id ;;
  if decide (GetReplicas lbs ≠ 0 ∧ GetReadyReplicas lbs < 1)%Z then
    (if GetReady lbs then
       record "Warning" "FailureLBNoReadyReplicas"
         "No replicas are ready for LoadBalancer %s" [Name lbs]
     else ret tt) ;;
    infrastructure_condition metav1.ConditionFalse LoadBalancerNoReplicasReadyReason "" ;;
    ret (no_address_result, None)
  else
    (if conditions_IsFalse (GetConditions (LB lbs)) LoadBalancerInfrastructureReadyCondition
     then
       (infrastructure_condition metav1.ConditionTrue InfrastructureReadyReason "" ;;
        record "Normal" "LoadBalancerReady"
          "AzureStackHCILoadBalancer %s infrastructure is ready" [Name lbs])
     else ret tt) ;;
    modify SetReady ;;
    ret (result, None).

(** The end of [reconcileNormal], once the service is reconciled *)
Definition report_address (clusterScope : ClusterScope) (result : Result)
    : prog LoadBalancerScope (Result * option error) :=
  address <- gets Address ;;
  if decide (address = "") then
    iferr err <- reconcileLoadBalancerServiceStatus clusterScope then
      (record "Warning" "FailureReconcileLBStatus"
         (Error (ErrWrap err "Failed to reconcile LoadBalancer service status")) [] ;;
       infrastructure_condition metav1.ConditionFalse
         LoadBalancerServiceStatusFailedReason (Error err) ;;
       ret (no_result, Some err)) ;;
    address <- gets Address ;;
    if decide (address = "") then
      infrastructure_condition metav1.ConditionFalse
        LoadBalancerAddressUnavailableReason "" ;;
      ret (no_address_result, None)
    else report_ready result
  else report_ready result.

Definition reconcileNormal (clusterScope : ClusterScope)
    : prog LoadBalancerScope (Result * option error) :=
  modify (add_finalizer AzureStackHCILoadBalancerFinalizer) ;;
  iferr err <- PatchObject then ret (no_result, Some err) ;;
  lbs <- gets id ;;
  match lbs_Replicas (lb_Spec (LB lbs)) with
  | None =>
      let err := ErrNew ("No replica count was specified for loadbalancer " +:+ Name lbs) in
      record "Warning" "InvalidConfig" (Error err) [] ;;
      ret (no_result, Some err)
  | Some _ =>
      ' (result, err) <- reconcileVirtualMachines clusterScope ;;
      match err with
      | Some err =>
          record "Warning" "FailureReconcileLBMachines"
            (Error (ErrWrap err "Failed to reconcile LoadBalancer machines")) [] ;;
          infrastructure_condition metav1.ConditionFalse
            LoadBalancerMachineReconciliationFailedReason (Error err) ;;
          ret (no_result, Some err)
      | None =>
          iferr err <- reconcileLoadBalancerService clusterScope then
            (infrastructure_condition metav1.ConditionFalse
               (service_failure_reason err) (Error err) ;;
             record "Warning" "FailureReconcileLB"
               (Error (ErrWrap err "Failed to reconcile LoadBalancer service")) [] ;;
             ret (no_result, Some err)) ;;
          report_address clusterScope result
      end
  end.

Definition reconcileDelete (clusterScope : ClusterScope)
    : prog LoadBalancerScope (Result * option error) :=
  name <- gets Name ;;
  iferr err <- reconcileDeleteLoadBalancerService clusterScope then
    (record "Warning" "FailureDeleteLoadBalancer"
       (Error (ErrWrap err ("Error deleting AzureStackHCILoadBalancer " +:+ name))) [] ;;
     infrastructure_condition metav1.ConditionFalse DeletionFailedReason (Error err) ;;
     ret (no_result, Some err)) ;;
  iferr err <- reconcileDeleteVirtualMachines clusterScope then
    (record "Warning" "FailureDeleteLoadBalancerMachines"
       (Error (ErrWrap err ("Error deleting machines for AzureStackHCILoadBalancer "
                             +:+ name))) [] ;;
     infrastructure_condition metav1.ConditionFalse DeletionFailedReason (Error err) ;;
     ret (no_result, Some err)) ;;
  modify (remove_finalizer AzureStackHCILoadBalancerFinalizer) ;;
  infrastructure_condition metav1.ConditionFalse LoadBalancerDeletingReason "" ;;
  record "Normal" "SuccessfulDeleteLoadBalancer"
    "Successfully deleted AzureStackHCILoadBalancer %s" [name] ;;
  ret (no_result, None).

(** [reconcileStatus], which the deferred function runs *)
Definition reconcileStatus : prog LoadBalancerScope unit :=
  lbs <- gets id ;;
  (if decide (lst_Selector (Status lbs) = "")
   then modify (SetSelector (LoadBalancerLabel +:+ "=" +:+ Name lbs)) else ret tt) ;;
  let lb := LB lbs in
  if negb (NotDeleted lb) then modify (SetPhase LBPhaseDeleting)
  else if decide (is_Some (lst_ErrorReason (Status lbs)))
  then modify (SetPhase LBPhaseFailed)
  else if decide (lst_Phase (Status lbs) = "") then modify (SetPhase LBPhasePending)
  else if conditions_IsFalse (GetConditions lb) LoadBalancerReplicasReadyCondition then
    match conditions_Get (GetConditions lb) LoadBalancerReplicasReadyCondition with
    | Some c =>
        if decide (metav1.c_Reason c = LoadBalancerReplicasFailedReason)
        then infrastructure_condition metav1.ConditionFalse (metav1.c_Reason c)
               (metav1.c_Message c)
        else ret tt
    | None => ret tt
    end ;;
    upgrading <- gets replicasAreUpgrading ;;
    modify (SetPhase (if upgrading then LBPhaseUpgrading else LBPhaseProvisioning))
  else if conditions_IsFalse (GetConditions lb) LoadBalancerInfrastructureReadyCondition
  then modify (SetPhase LBPhaseProvisioning)
  else modify (SetPhase LBPhaseProvisioned).

Definition record_on {k : kind} (key : NamespacedName) (reason : string) (err : error)
    : prog unit unit :=
  call (Eventf (mkObjectRef k key) "Warning" reason (Error err) []).

Definition Reconcile (req : NamespacedName) : prog unit (Result * option error) :=
  try lb <- call (KGet KLoadBalancer req) iferr err then
    (if IsNotFound err then ret (no_result, None) else ret (no_result, Some err)) ;;
  try owner <- call (GetOwnerCluster (lb_meta lb)) iferr err then
    ret (no_result, Some err) ;;
  match owner with
  | None =>
      ret (no_result,
           Some (ErrNew ("expected Cluster OwnerRef is missing from "
                   +:+ "AzureStackHCILoadBalancer " +:+ nn_Name req)))
  | Some cluster =>
      let key := mkNN (GetNamespace lb) (clusterv1.cl_InfrastructureRefName cluster) in
      try hciCluster <- call (KGet KCluster key) iferr _err then ret (no_result, None) ;;
      try clusterScope <- ClusterScope.NewClusterScope (Some cluster) (Some hciCluster)
        iferr err then
          (record_on (k:=KCluster) (mkNN (GetNamespace hciCluster) (GetName hciCluster))
             "CreateClusterScopeFailed" (ErrWrap err "failed to create cluster scope") ;;
           ret (no_result, Some err)) ;;
      try scope <- NewLoadBalancerScope (Some lb) hciCluster cluster iferr err then
        (record_on (k:=KLoadBalancer) (mkNN (GetNamespace lb) (GetName lb))
           "CreateLoadBalancerScopeFailed"
           (ErrWrap err "failed to create loadbalancer scope") ;;
         ret (no_result, Some (ErrNew ("failed to create scope: " +:+ plus_v_error err)))) ;;
      run_in scope (with_close (reconcileStatus ;; Close)
        (if NotDeleted lb then reconcileNormal clusterScope
         else reconcileDelete clusterScope))
  end.
End Controller.
End LBController.

(** The symbolic execution goes through the controller's small programs. *)
Ltac wp_lb :=
  lazymatch goal with
  | |- wp _ (LBController.record _ _ _ _) _ _ _ => unfold LBController.record
  | |- wp _ (LBController.record_on _ _ _) _ _ _ => unfold LBController.record_on
  | |- wp _ (LBController.set_condition _) _ _ _ => unfold LBController.set_condition
  | |- wp _ (LBController.replicas_condition _ _ _) _ _ _ =>
      unfold LBController.replicas_condition
  | |- wp _ (LBController.infrastructure_condition _ _ _) _ _ _ =>
      unfold LBController.infrastructure_condition
  | |- wp _ LoadBalancerScope.Close _ _ _ => unfold LoadBalancerScope.Close
  | |- wp _ LoadBalancerScope.PatchObject _ _ _ => unfold LoadBalancerScope.PatchObject
  end.
Ltac wp_hook ::= first [wp_telemetry | wp_deref_first | wp_set_condition | wp_lb].
