(* ===== verification/LBScaling.v ===== *)
(** * How the load balancer scales

    The choice of the machine to delete, the loop that upgrades, and what one reconciliation
    of the replicas changes in the API server. *)
From stdpp Require Import prelude strings list gmap.
From Stdlib Require Import Ascii Sorting.Sorted.
From S2P Require Import Prelude GoStd External Api Effects Util Naming Scope Example.
From S2P Require Import Telemetry Interfaces Services NetServices Machine LoadBalancer.
Local Open Scope prog_scope.

(** ** The order of the machines by age *)
Lemma ascii_compare_trans a b c o :
  Ascii.compare a b = o → Ascii.compare b c = o → Ascii.compare a c = o.
Proof.
  unfold Ascii.compare. intros <-. generalize (N_of_ascii a), (N_of_ascii b), (N_of_ascii c).
  intros x y z H. destruct (N.compare_spec x y), (N.compare_spec y z); try discriminate;
    destruct (N.compare_spec x z); try done; lia.
Qed.
Lemma ascii_compare_refl a : Ascii.compare a a = Eq.
Proof. apply N.compare_refl. Qed.
Lemma ascii_compare_eq a b : Ascii.compare a b = Eq → a = b.
Proof.
  intros H%N.compare_eq. by rewrite <-(ascii_N_embedding a), <-(ascii_N_embedding b), H.
Qed.
Lemma string_compare_lt_trans a b c :
  String.compare a b = Lt → String.compare b c = Lt → String.compare a c = Lt.
Proof.
  revert b c. induction a as [|x a IH]; intros [|y b] [|z c]; simpl; try done.
  destruct (Ascii.compare x y) eqn:Exy, (Ascii.compare y z) eqn:Eyz; try done; intros H1 H2.
  - rewrite (ascii_compare_trans _ _ _ _ Exy Eyz). eauto.
  - apply ascii_compare_eq in Exy as ->. by rewrite Eyz.
  - apply ascii_compare_eq in Eyz as ->. by rewrite Exy.
  - by rewrite (ascii_compare_trans _ _ _ _ Exy Eyz).
Qed.
Lemma string_lt_trichotomy a b : string_lt a b = false → string_lt b a = false → a = b.
Proof.
  unfold string_lt. rewrite (String.compare_antisym b a).
  destruct (String.compare a b) eqn:E; simpl; try done.
  intros _ _. by apply String.compare_eq_iff.
Qed.
Lemma string_lt_trans a b c : string_lt a b = true → string_lt b c = true → string_lt a c = true.
Proof.
  unfold string_lt. destruct (String.compare a b) eqn:E1; try done.
  destruct (String.compare b c) eqn:E2; try done. by rewrite (string_compare_lt_trans _ _ _ E1 E2).
Qed.
Lemma string_lt_irrefl a : string_lt a a = false.
Proof.
  unfold string_lt. assert (String.compare a a = Eq) as ->; [|done].
  induction a as [|x a IH]; simpl; [done|]. by rewrite ascii_compare_refl.
Qed.

Local Notation not_newer := (not_after ByCreationTimestamp_Less).
Section Age.
Implicit Types a b c : AzureStackHCIVirtualMachine.
Local Notation stamp a := (metav1.CreationTimestamp (hv_meta a)).
Local Notation name a := (metav1.Name (hv_meta a)).

(** [a] is at least as old as [b]: created before it, or at the same time with a name that
    does not come after. *)
Lemma not_newer_iff a b :
  not_newer a b ↔
    (stamp a < stamp b)%Z ∨ stamp a = stamp b ∧ string_lt (name b) (name a) = false.
Proof.
  unfold not_after, ByCreationTimestamp_Less.
  destruct (Z.eqb_spec (stamp b) (stamp a)) as [He|Hne].
  - rewrite He. split; [by right|]. intros [?|[_ ?]]; [lia|done].
  - rewrite Z.ltb_ge. split; [left; lia|]. intros [?|[? _]]; [lia|congruence].
Qed.
#[export] Instance not_newer_total : Total not_newer.
Proof.
  intros a b. rewrite !not_newer_iff.
  destruct (Z.lt_trichotomy (stamp a) (stamp b)) as [?|[?|?]]; [by do 2 left| |by right; left].
  destruct (string_lt (name b) (name a)) eqn:E; [|left; by right].
  right; right. split; [done|]. destruct (string_lt (name a) (name b)) eqn:E'; [|done].
  pose proof (string_lt_trans _ _ _ E E') as Hlt. by rewrite string_lt_irrefl in Hlt.
Qed.
#[export] Instance not_newer_trans : Transitive not_newer.
Proof.
  intros a b c. rewrite !not_newer_iff. intros [H1|[H1 S1]] [H2|[H2 S2]]; try (left; lia).
  right. split; [congruence|]. destruct (string_lt (name c) (name a)) eqn:E; [|done].
  destruct (string_lt (name a) (name b)) eqn:E'.
  - by rewrite (string_lt_trans _ _ _ E E') in S2.
  - assert (name a = name b) as Heq by (by apply string_lt_trichotomy). congruence.
Qed.
Lemma not_newer_antisym a b : not_newer a b → not_newer b a → name a = name b.
Proof.
  rewrite !not_newer_iff. intros [?|[? S1]] [?|[? S2]]; try lia.
  by apply string_lt_trichotomy.
Qed.
End Age.

(** ** The machine that is deleted *)
Section Selection.
Context {L : Libs}.
Import LoadBalancerScope LBController.

Lemma find_sorted {A} (R : relation A) (f : A → bool) l x :
  StronglySorted R l → Reflexive R → List.find f l = Some x →
  x ∈ l ∧ f x = true ∧ ∀ y, y ∈ l → f y = true → R x y.
Proof.
  intros Hs Hr. induction Hs as [|z l Hl IH Hz]; simpl; [done|].
  destruct (f z) eqn:Ez.
  - intros [= ->]. split_and!; [by left|done|]. intros y [->|Hy]%elem_of_cons _; [done|].
    rewrite Forall_forall in Hz. auto.
  - intros Hf. destruct (IH Hf) as (H1&H2&H3). split_and!; [by right|done|].
    intros y [->|Hy]%elem_of_cons; [congruence|auto].
Qed.

(** C26: The machine deleted when scaling down is one of the load balancer's; it is outdated
    if any of them is; and it is the oldest of its class, by creation time and then by name.
    There is none exactly when the list is empty. *)
Theorem selectVirtualMachineForScaleDown_spec (lbs : LoadBalancerScope) vms :
  match selectVirtualMachineForScaleDown lbs vms with
  | inl _ => vms = []
  | inr vm =>
      vm ∈ vms ∧
      (∀ x, x ∈ vms → outdated lbs x = true → outdated lbs vm = true) ∧
      (∀ x, x ∈ vms → outdated lbs x = outdated lbs vm →
         (metav1.CreationTimestamp (hv_meta vm) < metav1.CreationTimestamp (hv_meta x))%Z ∨
         metav1.CreationTimestamp (hv_meta vm) = metav1.CreationTimestamp (hv_meta x) ∧
         string_lt (GetName x) (GetName vm) = false)
  end.
Proof.
  unfold selectVirtualMachineForScaleDown.
  pose proof (Sort_perm ByCreationTimestamp_Less vms) as Hp.
  pose proof (Sort_sorted ByCreationTimestamp_Less vms) as Hs.
  assert (Hr : Reflexive not_newer) by (intros a; by destruct (total not_newer a a)).
  destruct (Sort _ vms) as [|first rest] eqn:Hsort; [by apply Permutation_nil|].
  remember (first :: rest) as l eqn:Hl.
  destruct (List.find (outdated lbs) l) as [vm|] eqn:Hf.
  - destruct (find_sorted _ _ _ _ Hs Hr Hf) as (H1&H2&H3).
    split_and!; [by rewrite <-Hp|done|]. intros x Hx Ho. apply not_newer_iff, H3; [|congruence].
    by rewrite Hp.
  - pose proof (List.find_none _ _ Hf) as Hn.
    assert (Hno : ∀ x, x ∈ vms → outdated lbs x = false).
    { intros x Hx. apply Hn. rewrite <-Hp in Hx. by apply list_elem_of_In. }
    split_and!; [rewrite <-Hp, Hl; by left| |].
    + intros x Hx. by rewrite Hno.
    + intros x Hx _. apply not_newer_iff. rewrite <-Hp in Hx. subst l.
      apply elem_of_cons in Hx as [->|Hx]; [done|]. apply StronglySorted_inv in Hs as [_ Hs].
      rewrite Forall_forall in Hs. auto.
Qed.

(** C27: The choice does not depend on the order in which the API server lists the machines,
    as long as their names differ. *)
Theorem selectVirtualMachineForScaleDown_permutation (lbs : LoadBalancerScope) vms vms' :
  NoDup (GetName <$> vms) → vms ≡ₚ vms' →
  selectVirtualMachineForScaleDown lbs vms = selectVirtualMachineForScaleDown lbs vms'.
Proof.
  intros Hnd Hp. unfold selectVirtualMachineForScaleDown.
  erewrite (Sort_unique _ vms vms'); [done| |done].
  intros x y Hx Hy H1 H2. pose proof (not_newer_antisym x y H1 H2) as Hn.
  apply list_elem_of_lookup in Hx as [i Hi], Hy as [j Hj].
  assert (i = j) as ->; [|congruence].
  eapply NoDup_lookup; [exact Hnd| |]; rewrite list_lookup_fmap.
  - by rewrite Hi.
  - rewrite Hj. simpl. f_equal. symmetry. exact Hn.
Qed.
End Selection.

Lemma selectVirtualMachineForScaleDown_permutation_witness :
  let named n ts := ex_vm <| hv_meta ::= (λ m, m <| metav1.Name := n |>
                                               <| metav1.CreationTimestamp := ts |>) |> in
  let l := [named "a" 2%Z; named "b" 1%Z] in
  LBController.selectVirtualMachineForScaleDown ex_lb_scope l
    = LBController.selectVirtualMachineForScaleDown ex_lb_scope (reverse l) ∧
  LBController.selectVirtualMachineForScaleDown ex_lb_scope l = inr (named "b" 1%Z).
Proof.
  intros named l. split; [|vm_compute; reflexivity].
  apply selectVirtualMachineForScaleDown_permutation.
  - refine (bool_decide_unpack _ _). vm_compute. exact I.
  - symmetry. apply reverse_Permutation.
Defined.

(** ** Scaling by one machine *)
Section Steps.
Context {L : Libs} {LL : LibLaws L}.
Import LoadBalancerScope LBController.

(** What a machine made for the load balancer is *)
Definition vm_of_lb (cs : ClusterScope) (s : LoadBalancerScope)
    (vm : AzureStackHCIVirtualMachine) : Prop :=
  let sp := hv_Spec vm in
  vm_owner (LB s) ∈ metav1.OwnerReferences (hv_meta vm) ∧
  map_get (GetLabels vm) LoadBalancerLabel = Name s ∧ outdated s vm = false ∧
  vs_ResourceGroup sp = GetResourceGroup cs ∧
  vs_VnetName sp = vnet_Name (ClusterScope.Vnet cs) ∧
  vs_SubnetName sp = GenerateNodeSubnetName (ClusterScope.Name cs) ∧
  vs_BootstrapData sp = Some "" ∧ vs_Location sp = ClusterScope.Location cs ∧
  vs_SSHPublicKey sp = lbs_SSHPublicKey (lb_Spec (LB s)) ∧
  ∃ image, vs_Image sp = Some image ∧
    chosen_image (lbs_Image (lb_Spec (LB s)))
      (to_String (cs_Version (hc_Spec (HCICluster s)))) image.

Lemma CopyCorrelationID_LB (lb : AzureStackHCILoadBalancer)
    (vm : AzureStackHCIVirtualMachine) :
  hv_Spec (CopyCorrelationID lb vm) = hv_Spec vm ∧
  metav1.OwnerReferences (hv_meta (CopyCorrelationID lb vm)) =
    metav1.OwnerReferences (hv_meta vm) ∧
  GetLabels (CopyCorrelationID lb vm) = GetLabels vm.
Proof.
  unfold CopyCorrelationID. case_decide; [done|]. by destruct vm as [? [] ? ?].
Qed.

Lemma wp_lb_mutateFn env (cs : ClusterScope) vm Q (s : LoadBalancerScope) t :
  (∀ e vm', Q (Ok (Some e, vm')) s t) →
  (∀ vm', vm_of_lb cs s vm' →
     vs_AvailabilityZone (hv_Spec vm') = vs_AvailabilityZone (hv_Spec vm) →
     vs_AdditionalSSHKeys (hv_Spec vm') = vs_AdditionalSSHKeys (hv_Spec vm) →
     Q (Ok (None, vm')) s t) →
  wp env (mutateFn cs vm) Q s t.
Proof.
  intros HE HQ. unfold mutateFn, getVMImage. do 2 wp_step. change (id s) with s.
  do 3 wp_step. apply wp_choose_image. intros [e|image] Himage; wp_step; [apply HE|].
  change (id s) with s in *.
  match goal with |- context [CopyCorrelationID ?m ?v] =>
    destruct (CopyCorrelationID_LB m v) as (Hsp&Hor&Hl);
    set (vm' := CopyCorrelationID m v) in * end.
  apply HQ; [|by rewrite Hsp..].
  unfold vm_of_lb, outdated. rewrite Hsp, Hor, Hl. cbn.
  split; [apply EnsureOwnerRef_elem|]. split; [by rewrite lookup_insert_eq|].
  split; [|split_and!; [done..|by eexists]].
  rewrite lookup_insert_ne by done. rewrite lookup_insert_eq. simpl.
  by rewrite bool_decide_true.
Qed.

Lemma wp_machine_name env name Q (s : LoadBalancerScope) t :
  (∀ o new, Forall (ev_is (@is_silent)) new → o ≠ NoFuel → Q o s (new ++ t)) →
  wp env (GenerateAzureStackHCILoadBalancerMachineName name) Q s t.
Proof.
  intros HQ. unfold GenerateAzureStackHCILoadBalancerMachineName.
  assert (Hr : ∀ n (Q : outcome (error + string) → LoadBalancerScope → trace → Prop) t,
    (∀ o new, Forall (ev_is (@is_silent)) new → o ≠ NoFuel → Q o s (new ++ t)) →
    wp env (RandomAlphaNumericString n) Q s t).
  { intros n. induction n as [|n IH]; intros Q' t' HQ'; cbn [RandomAlphaNumericString].
    - wp_step. by apply (HQ' _ []).
    - wp_run; try (apply_above HQ' t'; [by repeat constructor|done]).
      unfold string_index. wp_run; [|apply_above HQ' t'; [by repeat constructor|done]].
      apply IH. intros o new Hnew Ho. destruct o as [[]|w|]; wp_run; [..|done];
        apply_above HQ' t'; try done; apply Forall_app; by repeat constructor. }
  wp_step. apply Hr. intros o new Hnew Ho. destruct o as [[]|w|]; wp_run; by apply HQ.
Qed.

(** The changes of a step of the scaling to the API server *)
Definition step_writes (P : event → Prop) (new : list event) : Prop :=
  writes new = [] ∨ ∃ e, writes new = [e] ∧ P e.
Definition creates_vm (P : AzureStackHCIVirtualMachine → Prop) (e : event) : Prop :=
  ∃ vm r, e = Ev (KCouEnd KVirtualMachine vm) r ∧ P vm.

Lemma wp_scaleUpVirtualMachines env (cs : ClusterScope) Q (s : LoadBalancerScope) t :
  (∀ o s' new,
     step_writes (creates_vm (vm_of_lb cs s)) new →
     s' = match o with Ok None => AddReplica s | _ => s end → o ≠ NoFuel →
     Q o s' (new ++ t)) →
  wp env (scaleUpVirtualMachines cs) Q s t.
Proof.
  intros HQ. unfold scaleUpVirtualMachines, createOrUpdateVirtualMachine. wp_run.
  apply wp_machine_name. intros o new Hnew Ho.
  destruct o as [[name [err|]]|w|]; cbv beta iota zeta; [| | |done].
  - wp_run; apply_above HQ t; [|done..]. left. by writes_simpl.
  - wp_step. apply wp_CreateOrUpdate.
    + intros e. wp_run; (apply_above HQ t; [|done..]); left; by writes_simpl.
    + intros found cur _. apply wp_lb_mutateFn.
      * intros e vm'. wp_run; (apply_above HQ t; [|done..]); left; by writes_simpl.
      * intros vm' Hvm' _ _ [[op err] vm2].
        wp_run; (apply_above HQ t; [|done..]); right; eexists; writes_simpl;
          (split; [reflexivity|by eexists _, _]).
  - wp_run; apply_above HQ t; [|done..]. left. by writes_simpl.
Qed.

(** The update that carries the correlation ids, and the delete *)
Definition deletes_vm (s : LoadBalancerScope) (vm : AzureStackHCIVirtualMachine)
    (w : list event) : Prop :=
  let vm' := CopyCorrelationID (LB s) vm in
  ∃ r1, w = [Ev (KUpdate KVirtualMachine vm') r1] ∨
  ∃ r2, w = [Ev (KDelete KVirtualMachine vm') r2; Ev (KUpdate KVirtualMachine vm') r1].
Lemma wp_deleteVirtualMachine env (cs : ClusterScope) vm Q (s : LoadBalancerScope) t :
  (∀ err new, (if NotDeleted vm then deletes_vm s vm (writes new)
               else err = None ∧ writes new = []) →
     Q (Ok err) s (new ++ t)) →
  wp env (deleteVirtualMachine cs vm) Q s t.
Proof.
  intros HQ. unfold deleteVirtualMachine.
  destruct (NotDeleted vm); simpl; [|by wp_run; apply (HQ _ [])].
  wp_run; apply_above HQ t; writes_simpl; eexists; eauto.
Qed.

(** What the agent's load balancer changes in the scope *)
Definition status_read (address : string) (ready : Z) : LoadBalancerScope → LoadBalancerScope :=
  on_status (λ st, st <| lst_Address := address |> <| lst_ReadyReplicas := ready |>).
Lemma status_read_same (s : LoadBalancerScope) :
  status_read (Address s) (GetReadyReplicas s) s = s.
Proof. by destruct s as [? [? ? ? []] ? ?]. Qed.
Lemma wp_service_status env (cs : ClusterScope) Q (s : LoadBalancerScope) t :
  (∀ o a r new, Forall (ev_is (@is_silent)) new → o ≠ NoFuel →
     (Address s ≠ "" → a = Address s) →
     (∀ e, o = Ok (Some e) → a = Address s ∧ r = GetReadyReplicas s) →
     Q o (status_read a r s) (new ++ t)) →
  wp env (reconcileLoadBalancerServiceStatus cs) Q s t.
Proof.
  intros HQ.
  assert (HQs : ∀ o new, Forall (ev_is (@is_silent)) new → o ≠ NoFuel → Q o s (new ++ t)).
  { intros o new H1 H2. rewrite <-(status_read_same s). by apply HQ. }
  unfold reconcileLoadBalancerServiceStatus, frontend_address. cbn [gsvc_Get loadbalancers.NewService].
  unfold loadbalancers.Get. wp_run.
  all: try (apply_above HQs t; [by repeat constructor|done]).
  - match goal with |- Q _ _ (?e :: t) =>
      apply (HQ (Ok None) s0 (int32 (network.lbp_ReplicationCount l0)) [e]) end;
      [by repeat constructor|done|done|done].
  - match goal with |- Q _ (SetReadyReplicas ?r s) (?e :: t) =>
      replace (SetReadyReplicas r s) with (status_read (Address s) r s)
        by (by destruct s as [? [? ? ? []] ? ?]);
      apply (HQ (Ok None) (Address s) r [e]) end; [by repeat constructor|done|done|done].
Qed.

(** [updateReplicaStatus]: the counts are those of the list, whatever the service says. *)
Definition counted (vms : list AzureStackHCIVirtualMachine) (s s' : LoadBalancerScope)
    : Prop :=
  ∃ a r, (Address s ≠ "" → a = Address s) ∧
    s' = SetFailedReplicas (getMachineReplicaCounts vms).2
           (SetReplicas (getMachineReplicaCounts vms).1 (status_read a r s)).
Lemma wp_updateReplicaStatus env (cs : ClusterScope) vms Q (s : LoadBalancerScope) t :
  (∀ o s' new, Forall (ev_is (@is_silent)) new →
     match o with Ok _ => counted vms s s' | Panic _ => True | NoFuel => False end →
     Q o s' (new ++ t)) →
  wp env (updateReplicaStatus cs vms) Q s t.
Proof.
  intros HQ. unfold updateReplicaStatus. destruct (getMachineReplicaCounts vms) eqn:Hc.
  wp_step. apply wp_service_status. intros o a r new Hnew Ho Ha _.
  destruct o as [err|w|]; [|by apply HQ|done].
  wp_run. apply HQ; [done|]. exists a, r. by rewrite Hc.
Qed.
End Steps.

(** ** The loop of the upgrade *)
Section Loop.
Context {L : Libs} {LL : LibLaws L}.
Import LoadBalancerScope LBController.

Lemma wp_scale_up_to_max env (cs : ClusterScope) n :
  ∀ Q (s : LoadBalancerScope) t,
  n = Z.to_nat (GetMaxReplicas s - GetReplicas s) → is_int32 (GetReplicas s) →
  (∀ o s' new, o ≠ NoFuel → Forall (creates_vm (vm_of_lb cs s)) (writes new) →
     (length (writes new) ≤ n)%nat →
     (o = Ok None → GetReplicas s' = Z.max (GetReplicas s) (GetMaxReplicas s)) →
     Q o s' (new ++ t)) →
  wp env (scale_up_to_max n cs) Q s t.
Proof.
  unfold scale_up_to_max. induction n as [|n IH]; intros Q s t Hn Hi HQ; cbn [while_loop];
    wp_step; wp_step; destruct (Z.ltb_spec (GetReplicas s) (GetMaxReplicas s)) as [Hlt|Hge].
  - lia.
  - wp_step. apply (HQ _ _ []); [done|constructor|simpl; lia|intros _; lia].
  - do 2 wp_step. apply wp_scaleUpVirtualMachines. intros o s' new Hw -> Ho.
    assert (Hc : Forall (creates_vm (vm_of_lb cs s)) (writes new) ∧
                 (length (writes new) ≤ 1)%nat).
    { destruct Hw as [->|(e&->&He)]; [split; [constructor|simpl; lia]|]. split; [by repeat constructor|simpl; lia]. }
    destruct o as [[err|]|w|]; [|  | |done].
    + cbn [Wrap]. wp_run. apply HQ; [done|apply Hc|destruct Hc; lia|done].
    + wp_step. cbn [Wrap].
      assert (Hr : GetReplicas (AddReplica s) = (GetReplicas s + 1)%Z).
      { cbn. assert (is_int32 (GetMaxReplicas s)) by apply int32_range.
        apply int32_id. unfold is_int32 in *. lia. }
      apply IH.
      * change (GetMaxReplicas (AddReplica s)) with (GetMaxReplicas s). lia.
      * rewrite Hr. assert (is_int32 (GetMaxReplicas s)) by apply int32_range.
        unfold is_int32 in *. lia.
      * intros o s' new' Ho' Hf Hl Hok. rewrite app_assoc.
        change (GetMaxReplicas (AddReplica s)) with (GetMaxReplicas s) in Hok.
        change (Forall (creates_vm (vm_of_lb cs s)) (writes new')) in Hf.
        destruct Hc. apply HQ; unfold writes in *; rewrite ?filter_app, ?length_app;
          [done|by apply Forall_app|lia|]. intros Hok'. rewrite Hok, Hr by done. lia.
    + wp_run. apply HQ; [done|apply Hc|destruct Hc; lia|done].
  - wp_step. apply (HQ _ _ []); [done|constructor|simpl; lia|intros _; lia].
Qed.

(** C28: The loop of an upgrade, which adds machines as long as the replicas are below the
    maximum, ends: with as many rounds as replicas are missing it never runs out of fuel. It
    makes at most that many machines, all of them the load balancer's, and if no step fails
    the replicas are the maximum afterwards, or as before where that was more. *)
Theorem scale_up_to_max_spec env (cs : ClusterScope) (s : LoadBalancerScope) :
  is_int32 (GetReplicas s) →
  wp env (scale_up_to_max (Z.to_nat (GetMaxReplicas s - GetReplicas s)) cs)
    (λ o s' t', o ≠ NoFuel ∧
       (o = Ok None → GetReplicas s' = Z.max (GetReplicas s) (GetMaxReplicas s)) ∧
       Forall (creates_vm (vm_of_lb cs s)) (writes t') ∧
       (length (writes t') ≤ Z.to_nat (GetMaxReplicas s - GetReplicas s))%nat) s [].
Proof.
  intros Hi. eapply wp_scale_up_to_max; [done..|]. intros o s' new Ho Hf Hl Hok.
  rewrite app_nil_r. by split_and!.
Qed.

(** C29: The maximum number of replicas is one more than the desired number, unless that is the
    largest int32: then the sum wraps around, the maximum is the least int32, and an upgrade
    makes no machine at all. *)
Theorem GetMaxReplicas_overflow env (cs : ClusterScope) (s : LoadBalancerScope) :
  is_int32 (GetDesiredReplicas s) →
  if decide (GetDesiredReplicas s = int32_max) then
    GetMaxReplicas s = int32_min ∧
    (is_int32 (GetReplicas s) → scale_up_to_max 0 cs env s [] = (Ok None, s, []))
  else GetMaxReplicas s = (GetDesiredReplicas s + 1)%Z.
Proof.
  intros Hi. unfold GetMaxReplicas, MaxSurge. case_decide as Hd.
  - rewrite Hd. split; [apply int32_overflow|]. intros Hr.
    unfold scale_up_to_max. cbn [while_loop]. unfold bind at 1, gets at 1.
    unfold GetMaxReplicas, MaxSurge. rewrite Hd, int32_overflow.
    destruct (Z.ltb_spec (GetReplicas s) int32_min); [|done].
    unfold is_int32 in *. lia.
  - apply int32_id. unfold is_int32 in *. lia.
Qed.
End Loop.

(** ** One reconciliation of the replicas *)
Section Replicas.
Context {L : Libs} {LL : LibLaws L}.
Import LoadBalancerScope LBController.

Lemma int32_succ_le z : is_int32 z → (int32 (z + 1) ≤ z + 1)%Z.
Proof.
  intros Hz. destruct (decide (z = int32_max)) as [->|]; [by vm_compute|].
  rewrite int32_id; [lia|]. unfold is_int32 in *. lia.
Qed.

(** The changes a reconciliation may make, given the machines that are not being deleted and
    the number [n] of replicas *)
Definition scaling_writes (cs : ClusterScope) (s : LoadBalancerScope) (n : Z)
    (vms : list AzureStackHCIVirtualMachine) (w : list event) : Prop :=
  w = [] ∨
  (n < GetDesiredReplicas s ∨ n = GetDesiredReplicas s ∧ isUpgradeRequired s vms = true)%Z ∧
  (∃ e, w = [e] ∧ creates_vm (vm_of_lb cs s) e) ∨
  (GetDesiredReplicas s < n)%Z ∧
  ∃ vm, selectVirtualMachineForScaleDown s vms = inr vm ∧ NotDeleted vm = true ∧
    deletes_vm s vm w.

(** The same for the part that scales down *)
Definition down_writes (s : LoadBalancerScope) (vms : list AzureStackHCIVirtualMachine)
    (new : list event) : Prop :=
  writes new = [] ∨
  ∃ vm, selectVirtualMachineForScaleDown s vms = inr vm ∧ NotDeleted vm = true ∧
    deletes_vm s vm (writes new).
Lemma wp_scaleDownVirtualMachines env (cs : ClusterScope) vms Q (s : LoadBalancerScope) t :
  (∀ err s' new, down_writes s vms new → Q (Ok err) s' (new ++ t)) →
  wp env (scaleDownVirtualMachines cs vms) Q s t.
Proof.
  intros HQ. unfold scaleDownVirtualMachines. do 2 wp_step. change (id s) with s.
  wp_run; [apply_above HQ t; by left|].
  apply wp_deleteVirtualMachine. intros err new Hdel.
  assert (Hd : ∀ l, Forall (ev_is (@is_silent)) l → down_writes s vms (new ++ l)).
  { intros l Hl. unfold down_writes. rewrite writes_before by done.
    destruct (NotDeleted a) eqn:Hnd; [right; by exists a|left; by destruct Hdel]. }
  destruct err; wp_run; apply_above HQ t; apply Hd; by repeat constructor.
Qed.

Lemma wp_scale_replicas env (cs : ClusterScope) vms Q (s : LoadBalancerScope) t :
  is_int32 (GetReplicas s) →
  (∀ o s' new, o ≠ NoFuel → scaling_writes cs s (GetReplicas s) vms (writes new) →
     Q o s' (new ++ t)) →
  wp env (scale_replicas cs vms) Q s t.
Proof.
  intros Hi HQ. unfold scale_replicas. do 2 wp_step. change (id s) with s.
  unfold isScaleUpRequired, isScaleDownRequired. rewrite Z.gtb_ltb.
  destruct (Z.ltb_spec (GetReplicas s) (GetDesiredReplicas s)) as [Hup|Hup].
  - assert (Hw : ∀ new, step_writes (creates_vm (vm_of_lb cs s)) new →
              scaling_writes cs s (GetReplicas s) vms (writes new)).
    { intros new [H|(e&H&He)]; [by left|]. right; left. split; [by left|by exists e]. }
    destruct (replicasAreUpgrading s); simpl; wp_run;
      apply wp_scaleUpVirtualMachines; intros o s' new Hstep Hs' Ho;
      (destruct o as [[err|]|w|]; [| | |done]); wp_run;
      (apply_above HQ t; [done|]); apply Hw; unfold step_writes;
      rewrite ?writes_before by (by repeat constructor); done.
  - destruct (Z.ltb_spec (GetDesiredReplicas s) (GetReplicas s)) as [Hdown|Hdown].
    + assert (Hw : ∀ new, down_writes s vms new →
                scaling_writes cs s (GetReplicas s) vms (writes new)).
      { intros new [H|(vm&H)]; [by left|]. right; right. split; [done|]. by exists vm. }
      destruct (replicasAreUpgrading s); simpl; wp_run;
        apply wp_scaleDownVirtualMachines; intros err s' new Hstep; wp_run;
        (apply_above HQ t; [done|]); apply Hw; unfold down_writes;
        rewrite ?writes_before by (by repeat constructor); done.
    + assert (GetReplicas s = GetDesiredReplicas s) as Heq by lia.
      destruct (isUpgradeRequired s vms) eqn:Hup'; [|destruct (conditions_IsFalse _ _)].
      * wp_run. eapply wp_scale_up_to_max; [done..|]. intros o s' new Ho Hf Hl _.
        assert (Hn : (length (writes new) ≤ 1)%nat).
        { etrans; [exact Hl|]. rewrite Heq in Hi |- *. pose proof (int32_succ_le _ Hi) as Hs.
          change (Z.to_nat (int32 (GetDesiredReplicas s + 1) - GetDesiredReplicas s) ≤ 1)%nat.
          lia. }
        assert (Hw : scaling_writes cs s (GetReplicas s) vms (writes new)).
        { destruct (writes new) as [|e [|]]; [by left| |simpl in Hn; lia].
          right; left. split; [by right|]. exists e. split; [done|].
          inversion Hf as [|? ? He ?]. exact He. }
        destruct o as [[err|]|w|]; [| | |done]; wp_run;
          (apply_above HQ t; [done|]); rewrite ?writes_before by (by repeat constructor); done.
      * wp_run. apply_above HQ t; [done|]. by left.
      * wp_run. apply (HQ _ _ []); [done|]. by left.
Qed.

(** The machines of the load balancer that are not being deleted *)
Definition live (items : list AzureStackHCIVirtualMachine) : list AzureStackHCIVirtualMachine :=
  filter (λ vm, NotDeleted vm = true) items.
Definition replica_count (vms : list AzureStackHCIVirtualMachine) : Z :=
  (getMachineReplicaCounts vms).1.

Lemma wp_reconcileVirtualMachines (env : Env) (cs : ClusterScope) Q (s : LoadBalancerScope)
    (t : trace) :
  (∀ o s' new, o ≠ NoFuel →
     (writes new = [] ∨ ∃ items,
        env t _ (KList KVirtualMachine (ClusterScope.Namespace cs)
                   [(LoadBalancerLabel, Name s)]) = inr items ∧
        failing_machine (live items) = None ∧
        scaling_writes cs s (replica_count (live items)) (live items) (writes new)) →
     Q o s' (new ++ t)) →
  wp env (reconcileVirtualMachines cs) Q s t.
Proof.
  intros HQ. unfold reconcileVirtualMachines, getVirtualMachinesForLoadBalancer.
  do 5 wp_step. destruct r as [err|items].
  { wp_run. apply_above HQ t; [done|]. left. by writes_simpl. }
  wp_step.
  change (filter (λ vm : kobj KVirtualMachine, NotDeleted vm = true) items) with (live items).
  destruct (failing_machine (live items)) eqn:Hfail.
  { wp_run. apply_above HQ t; [done|]. left. by writes_simpl. }
  wp_step. apply wp_updateReplicaStatus. intros o s' new Hnew Hc.
  destruct o as [[]|w|]; [|by apply_above HQ t; [|left; writes_simpl]|done].
  destruct Hc as (a&ready&_&->). set (n := (getMachineReplicaCounts (live items)).1).
  set (s2 := SetFailedReplicas _ _).
  assert (Hscale : ∀ o s' new', o ≠ NoFuel →
    scaling_writes cs s2 (GetReplicas s2) (live items) (writes new') →
    Q o s' (new' ++ new ++ Ev (KList KVirtualMachine (ClusterScope.Namespace cs)
                                 [(LoadBalancerLabel, Name s)]) (inr items) :: t)).
  { intros o s' new' Ho Hw. apply_above HQ t; [done|]. right. exists items.
    split_and!; [done..|]. rewrite writes_before; [exact Hw|].
    apply Forall_app. split; [done|by repeat constructor]. }
  assert (Hi : is_int32 (GetReplicas s2)) by apply int32_range.
  wp_run_to (scale_replicas cs (live items)); try (by apply wp_scale_replicas);
    (apply_above HQ t; [done|]); left; by writes_simpl.
Qed.

(** C12: One reconciliation of the replicas changes the number of machines by at most one. It
    makes one, with the load balancer's labels, owner and image, only if the machines the API
    server lists, without those being deleted, are fewer than desired, or as many and one of
    them is outdated; it deletes one (after the update that carries the correlation ids) only
    if they are more, and then the one [selectVirtualMachineForScaleDown] chooses. It changes
    nothing while a machine reports why it does not run, or when the list cannot be read, and
    its loop always ends. *)
Theorem reconcileVirtualMachines_one_at_a_time (env : Env) (cs : ClusterScope)
    (s : LoadBalancerScope) :
  wp env (reconcileVirtualMachines cs) (λ o s' t', o ≠ NoFuel ∧
    match env [] _ (KList KVirtualMachine (ClusterScope.Namespace cs)
                      [(LoadBalancerLabel, Name s)]) with
    | inl _ => writes t' = []
    | inr items =>
        writes t' = [] ∨
        failing_machine (live items) = None ∧
        scaling_writes cs s (replica_count (live items)) (live items) (writes t')
    end) s [].
Proof.
  apply wp_reconcileVirtualMachines. intros o s' new Ho Hw. rewrite app_nil_r.
  split; [done|]. destruct Hw as [Hw|(items&->&Hw)]; [case_match; auto|by right].
Qed.

(** The count of replicas is the number of listed machines that are not being deleted, and
    the count of failed ones the number among them in the state Failed, as long as there are
    fewer than 2^31. *)
Lemma getMachineReplicaCounts_spec vms :
  is_int32 (Z.of_nat (length vms)) →
  getMachineReplicaCounts vms =
    (Z.of_nat (length vms),
     Z.of_nat (length (filter (λ vm, vst_VMState (hv_Status vm) = Some VMStateFailed) vms))).
Proof.
  intros Hi. unfold getMachineReplicaCounts. rewrite int32_id by done. f_equal.
  assert (Hg : ∀ l z, (0 ≤ z)%Z → (z + Z.of_nat (length l) ≤ int32_max)%Z →
    foldl (λ failedReplicas vm,
       match vst_VMState (hv_Status vm) with
       | None => failedReplicas
       | Some st => if decide (st = VMStateFailed) then int32 (failedReplicas + 1)
                    else failedReplicas
       end) z l =
    (z + Z.of_nat (length (filter
           (λ vm, vst_VMState (hv_Status vm) = Some VMStateFailed) l)))%Z).
  { induction l as [|vm l IH]; intros z Hz Hl; cbn [foldl length] in *; [simpl; lia|].
    rewrite filter_cons. destruct (vst_VMState (hv_Status vm)) as [st|]; [case_decide as Hst|].
    - rewrite int32_id by (unfold is_int32, int32_min in *; lia).
      rewrite IH by lia. rewrite decide_True by congruence. cbn [length]. lia.
    - rewrite decide_False by congruence. apply IH; lia.
    - rewrite decide_False by done. apply IH; lia. }
  rewrite Hg; [lia|lia|]. unfold is_int32 in Hi. lia.
Qed.
End Replicas.

(** ** Concrete runs *)
(** The API server lists two machines of the load balancer, one desired. *)
Definition ex_old_vm : AzureStackHCIVirtualMachine := ex_vm <| hv_meta ::= (λ m,
  m <| metav1.Name := "old" |> <| metav1.CreationTimestamp := 0%Z |>) |>.
Definition ex_env_two_vms : Env := λ _ R c,
  match c in Call R return R → R with
  | KList KVirtualMachine _ _ => λ _, inr [ex_vm; ex_old_vm]
  | _ => λ r, r
  end (ex_answer R c).

Lemma scale_up_to_max_spec_witness :
  let r := LBController.scale_up_to_max (L:=Ref.ref_libs) 2 ex_cluster_scope ex_env
             (ex_lb_scope <| LoadBalancerScope.HCICluster := ex_hcicluster |>) [] in
  LoadBalancerScope.GetReplicas r.1.2 = 2%Z ∧ (length (writes r.2) ≤ 2)%nat.
Proof.
  destruct (scale_up_to_max_spec (LL:=Ref.ref_laws) ex_env ex_cluster_scope ex_lb_scope)
    as (_&H&_&Hl).
  - split; vm_compute; discriminate.
  - split; [apply H; vm_compute; reflexivity|exact Hl].
Defined.

Lemma GetMaxReplicas_overflow_witness :
  let s := ex_lb_scope <| LoadBalancerScope.LB := ex_lb <| lb_Spec ::=
             (λ sp, sp <| lbs_Replicas := Some int32_max |>) |> |> in
  LoadBalancerScope.GetMaxReplicas s = int32_min.
Proof.
  intros s. pose proof (GetMaxReplicas_overflow (L:=Ref.ref_libs) ex_env ex_cluster_scope s) as H.
  rewrite decide_True in H by reflexivity.
  apply H. split; vm_compute; discriminate.
Defined.

Lemma reconcileVirtualMachines_one_at_a_time_witness :
  let t' := (LBController.reconcileVirtualMachines (L:=Ref.ref_libs) ex_cluster_scope
               ex_env_two_vms ex_lb_scope []).2 in
  length (writes t') = 2 ∧
  scaling_writes (L:=Ref.ref_libs) ex_cluster_scope ex_lb_scope
    (replica_count (live [ex_vm; ex_old_vm])) (live [ex_vm; ex_old_vm]) (writes t').
Proof.
  split; [vm_compute; reflexivity|].
  destruct (reconcileVirtualMachines_one_at_a_time (LL:=Ref.ref_laws) ex_env_two_vms
              ex_cluster_scope ex_lb_scope) as (_&[H|[_ H]]).
  - vm_compute in H. discriminate H.
  - exact H.
Defined.

Lemma getMachineReplicaCounts_spec_witness :
  LBController.getMachineReplicaCounts
    [ex_vm; ex_vm <| hv_Status ::= (λ st, st <| vst_VMState := Some VMStateFailed |>) |>]
    = (2, 1)%Z.
Proof. rewrite getMachineReplicaCounts_spec; [reflexivity|split; vm_compute; discriminate]. Defined.
