(* ===== verification/LBOutcome.v ===== *)
(** * What the load balancer controller reports, and its deletion

    The phase the deferred function computes, when the load balancer becomes ready, the order
    of a deletion, the finalizer, and a machine of a load balancer in a location with
    availability zones. *)
From stdpp Require Import prelude strings list gmap.
From S2P Require Import Prelude GoStd External Api Effects Util Naming Scope Example.
From S2P Require Import Telemetry Interfaces Services NetServices VMService.
From S2P Require Import VirtualMachine VMOutcome Machine LoadBalancer LBScaling.
Local Open Scope prog_scope.
Ltac wp_hook ::= first [wp_telemetry | wp_deref_first | wp_set_condition | wp_lb].

(** ** The phase *)
Section Phase.
Context {L : Libs} {LL : LibLaws L}.
Import LoadBalancerScope LBController.

Lemma GetTypedPhase_SetTypedPhase p st :
  LoadBalancerStatus.GetTypedPhase (LoadBalancerStatus.SetTypedPhase p st) = p.
Proof. by destruct p. Qed.
Lemma replicas_reason_infra (s : LoadBalancerScope) now c :
  metav1.c_Type c = LoadBalancerInfrastructureReadyCondition →
  replicas_reason (s <| LB := SetConditions
    (conditions_Set now (GetConditions (LB s)) c) (LB s) |>) = replicas_reason s.
Proof.
  intros Hc. unfold replicas_reason. rewrite !conditions_GetReason_Get. cbn. unfold const.
  by rewrite conditions_Get_Set_ne by (by rewrite Hc).
Qed.

(** Nothing in the way of the state the conditions report *)
Definition settled (s : LoadBalancerScope) : Prop :=
  NotDeleted (LB s) = true ∧ lst_ErrorReason (Status s) = None ∧ lst_Phase (Status s) ≠ "".

(** The phase the function computes *)
Definition phase_of (s : LoadBalancerScope) : AzureStackHCILoadBalancerPhase :=
  if negb (NotDeleted (LB s)) then LBPhaseDeleting
  else match lst_ErrorReason (Status s) with
  | Some _ => LBPhaseFailed
  | None =>
      if decide (lst_Phase (Status s) = "") then LBPhasePending
      else if conditions_IsFalse (GetConditions (LB s)) LoadBalancerReplicasReadyCondition
      then (if replicasAreUpgrading s then LBPhaseUpgrading else LBPhaseProvisioning)
      else if conditions_IsFalse (GetConditions (LB s))
                LoadBalancerInfrastructureReadyCondition
      then LBPhaseProvisioning else LBPhaseProvisioned
  end.
Lemma wp_reconcileStatus (env : Env) (s : LoadBalancerScope) (t : trace) :
  wp env reconcileStatus (λ o s' _, o = Ok tt ∧ ∃ s1, s' = SetPhase (phase_of s) s1 ∧
    lst_Selector (Status s1) =
      if decide (lst_Selector (Status s) = "")
      then LoadBalancerLabel +:+ "=" +:+ Name s else lst_Selector (Status s)) s t.
Proof.
  unfold reconcileStatus, phase_of. do 2 wp_step. change (id s) with s.
  destruct (decide (lst_Selector (Status s) = "")) as [Hs|Hs]; wp_run;
    (split; [done|]); change (id s) with s in *;
    repeat match goal with
      | H : negb _ = _ |- _ => rewrite H; clear H
      | H : decide (is_Some _) = _ |- _ => clear H
      | H : is_Some (lst_ErrorReason _) |- _ => destruct H as [? H]; rewrite H; clear H
      | H : ¬ is_Some (lst_ErrorReason _) |- _ =>
          apply eq_None_not_Some in H; rewrite H; clear H
      | H : decide (lst_Phase _ = _) = _ |- _ => rewrite H; clear H
      | H : conditions_IsFalse _ _ = _ |- _ => rewrite H; clear H
      end; eexists; unfold replicasAreUpgrading;
    rewrite ?replicas_reason_infra by done; split; reflexivity.
Qed.

(** C30: After every reconciliation the phase of the load balancer is Deleting exactly when it
    is being deleted, Failed exactly when it is not and has an error reason; Provisioned
    exactly when, besides, it had a phase and neither the replicas condition nor the
    infrastructure condition is False; Upgrading exactly when the replicas condition is False
    for that reason. The phase Scaling is never set. The selector is kept, or set to select
    the machines of the load balancer. *)
Theorem reconcileStatus_phase (env : Env) (s : LoadBalancerScope) (t : trace) :
  let replicas_false :=
    conditions_IsFalse (GetConditions (LB s)) LoadBalancerReplicasReadyCondition in
  let infra_false :=
    conditions_IsFalse (GetConditions (LB s)) LoadBalancerInfrastructureReadyCondition in
  wp env reconcileStatus (λ o s' _, o = Ok tt ∧
    let p := LoadBalancerStatus.GetTypedPhase (Status s') in
    (p = LBPhaseDeleting ↔ NotDeleted (LB s) = false) ∧
    (p = LBPhaseFailed ↔ NotDeleted (LB s) = true ∧ is_Some (lst_ErrorReason (Status s))) ∧
    (p = LBPhaseProvisioned ↔ settled s ∧ replicas_false = false ∧ infra_false = false) ∧
    (p = LBPhaseUpgrading ↔ settled s ∧ replicas_false = true ∧
       replicas_reason s = LoadBalancerReplicasUpgradingReason) ∧
    p ≠ LBPhaseScaling ∧
    lst_Selector (Status s') =
      if decide (lst_Selector (Status s) = "")
      then LoadBalancerLabel +:+ "=" +:+ Name s else lst_Selector (Status s)) s t.
Proof.
  intros rf inf. eapply wp_mono; [apply wp_reconcileStatus|].
  intros o s' t' (->&s1&->&Hsel). split; [done|]. cbn zeta.
  change (Status (SetPhase (phase_of s) s1))
    with (LoadBalancerStatus.SetTypedPhase (phase_of s) (Status s1)).
  rewrite GetTypedPhase_SetTypedPhase. unfold settled.
  split_and!; [..|exact Hsel]; unfold phase_of, replicasAreUpgrading;
    fold rf; fold inf; destruct (NotDeleted (LB s)), (lst_ErrorReason (Status s)),
      (decide (lst_Phase (Status s) = "")), rf, inf; simpl; try case_bool_decide;
    naive_solver.
Qed.
End Phase.

(** ** When the load balancer becomes ready *)
Lemma frame_of_keeps {S A} (R : relation S) `{!Reflexive R} (m : prog S A) :
  frame keeps m → frame (on_state R) m.
Proof.
  intros Hm env s t. specialize (Hm env s t). unfold on_state, keeps in *. by rewrite <-Hm.
Qed.

Section Ready.
Context {L : Libs} {LL : LibLaws L}.
Import LoadBalancerScope LBController.

(** Neither the object as it was read nor the metadata is touched, nor is readiness. *)
Definition same_object (s s' : LoadBalancerScope) : Prop :=
  patchBefore s' = patchBefore s ∧ lb_meta (LB s') = lb_meta (LB s).
Definition same_ready (s s' : LoadBalancerScope) : Prop :=
  lst_Ready (Status s') = lst_Ready (Status s) ∧ same_object s s'.
#[export] Instance same_object_preorder : PreOrder same_object.
Proof. split; unfold same_object; [done|]. intros a b c [??] [??]. split; congruence. Qed.
#[export] Instance same_ready_preorder : PreOrder same_ready.
Proof.
  split; unfold same_ready; [done|]. intros a b c [??] [??]. split; [congruence|]. by etrans.
Qed.
#[export] Instance same_ready_state_refl : Reflexive (on_state (E:=Call) same_ready).
Proof. apply on_state_preorder, _. Qed.

Hint Extern 5 (frame (on_state same_ready) _) =>
  apply frame_of_keeps; [apply _|solve [eauto 2 with frames nocore]] : frames.

Lemma set_condition_ready c : frame (on_state same_ready) (set_condition c).
Proof. unfold set_condition, SetCondition. frame_auto. Qed.
Lemma record_ready ty r f args : frame (on_state same_ready) (record ty r f args).
Proof. unfold record. frame_auto. Qed.
Hint Resolve set_condition_ready record_ready : frames.
Lemma service_status_ready cs :
  frame (on_state same_ready) (reconcileLoadBalancerServiceStatus cs).
Proof. unfold reconcileLoadBalancerServiceStatus, frontend_address. frame_auto. Qed.
Lemma service_ready cs : frame (on_state same_ready) (reconcileLoadBalancerService cs).
Proof. unfold reconcileLoadBalancerService. frame_auto. Qed.
Lemma mutateFn_ready cs vm : frame (on_state same_ready) (mutateFn cs vm).
Proof. unfold mutateFn, getVMImage. frame_auto. Qed.
Lemma scaleUp_ready cs : frame (on_state same_ready) (scaleUpVirtualMachines cs).
Proof.
  unfold scaleUpVirtualMachines, createOrUpdateVirtualMachine,
    GenerateAzureStackHCILoadBalancerMachineName.
  frame_auto. apply frame_CreateOrUpdate; [apply on_state_preorder, _|..]; intros;
    [frame_auto..|apply mutateFn_ready].
Qed.
Hint Resolve service_status_ready service_ready mutateFn_ready scaleUp_ready : frames.
Lemma deleteVM_ready cs vm : frame (on_state same_ready) (deleteVirtualMachine cs vm).
Proof. unfold deleteVirtualMachine. frame_auto. Qed.
Hint Resolve deleteVM_ready : frames.
Lemma reconcileVirtualMachines_ready cs :
  frame (on_state same_ready) (reconcileVirtualMachines cs).
Proof.
  unfold reconcileVirtualMachines, getVirtualMachinesForLoadBalancer, scale_replicas,
    scaleDownVirtualMachines, scale_up_to_max, replicas_condition, updateReplicaStatus.
  frame_auto; unfold same_ready, RemoveReplica, on_status; cbn; by destruct (Z.ltb _ _).
Qed.
Hint Resolve reconcileVirtualMachines_ready : frames.

(** The infrastructure condition is False for [reason]. *)
Definition not_ready_because (s : LoadBalancerScope) (reason msg : string) : Prop :=
  has_condition (GetConditions (LB s)) LoadBalancerInfrastructureReadyCondition
    metav1.ConditionFalse reason msg.
Definition serves (s : LoadBalancerScope) : Prop :=
  Address s ≠ "" ∧ (GetReplicas s = 0 ∨ 1 ≤ GetReadyReplicas s)%Z ∧
  conditions_IsFalse (GetConditions (LB s)) LoadBalancerInfrastructureReadyCondition = false.

Lemma wp_report_ready env res Q (s : LoadBalancerScope) t :
  Address s ≠ "" →
  (∀ s' new, lst_Ready (Status s') = true → serves s' → Q (Ok (res, None)) s' (new ++ t)) →
  (∀ s' new, lst_Ready (Status s') = lst_Ready (Status s) →
     not_ready_because s' LoadBalancerNoReplicasReadyReason "" →
     Q (Ok (no_address_result, None)) s' (new ++ t)) →
  wp env (report_ready res) Q s t.
Proof.
  intros Ha HQ HQ'. unfold report_ready. do 2 wp_step. change (id s) with s.
  case_decide as Hr.
  - wp_run; apply_above HQ' t; try done; apply has_condition_set.
  - assert (Hrep : (GetReplicas s = 0 ∨ 1 ≤ GetReadyReplicas s)%Z).
    { destruct (decide (GetReplicas s = 0%Z)); [by left|right].
      destruct (decide (1 ≤ GetReadyReplicas s)%Z); [done|]. destruct Hr. lia. }
    wp_run; apply_above HQ t; try done; (split; [done|split; [done|]]); try done.
    apply IsFalse_set_True.
Qed.

(** C13: [reconcileNormal] makes the load balancer ready only when it serves: the agent has
    given it an address, and it has no replicas at all (the network does the balancing) or
    one of them is ready; the infrastructure condition is not False then. If it returns
    without an error and is not ready, the infrastructure condition says whether the address
    or a ready replica is missing, and the request is repeated in 20 seconds; if it fails,
    the condition carries the message of the failure, unless the patch failed or no number of
    replicas is given. *)
Theorem lb_reconcileNormal_outcome env (cs : ClusterScope) (s : LoadBalancerScope) :
  wp env (reconcileNormal cs) (λ o s' t',
    match o with
    | Ok (res, None) =>
        lst_Ready (Status s') = true ∧ serves s' ∨
        lst_Ready (Status s') = lst_Ready (Status s) ∧ res = no_address_result ∧
        (not_ready_because s' LoadBalancerAddressUnavailableReason "" ∧ Address s' = "" ∨
         not_ready_because s' LoadBalancerNoReplicasReadyReason "")
    | Ok (res, Some e) =>
        lst_Ready (Status s') = lst_Ready (Status s) ∧ res = no_result ∧
        (lbs_Replicas (lb_Spec (LB s)) = None ∨
         (∃ before obj owned, t' = [Ev (KPatch KLoadBalancer before obj owned) (Some e)]) ∨
         ∃ reason, not_ready_because s' reason (Error e))
    | _ => lst_Ready (Status s') = lst_Ready (Status s)
    end) s [].
Proof.
  unfold reconcileNormal. wp_run_to (reconcileVirtualMachines cs).
  { split_and!; [done..|]. right; left. by eexists _, _, _. }
  2: { split_and!; [done..|]. by left. }
  wp_step. eapply wp_by_frame; [apply reconcileVirtualMachines_ready|].
  intros o s1 t1 [Hr1 _]. simpl in Hr1.
  destruct o as [[res [err|]]|w|]; [|cbv beta iota|done..].
  { wp_run. split_and!; [done..|]. right; right. eexists. apply has_condition_set. }
  wp_step. eapply wp_by_frame; [apply service_ready|]. intros o s2 t2 [Hr2 _]. simpl in Hr2.
  assert (Hready : lst_Ready (Status s2) = lst_Ready (Status s)) by (etrans; [exact Hr2|exact Hr1]).
  destruct o as [[err|]|w|]; [|cbv beta iota|done..].
  { wp_run. split_and!; [done..|]. right; right. eexists. apply has_condition_set. }
  clear Hr1 Hr2. unfold report_address. do 2 wp_step. case_decide as Ha.
  - wp_step. apply wp_service_status. intros o a rr new Hnew Ho Hsame Herr.
    destruct o as [[err|]|w|]; [|cbv beta iota|done..].
    { wp_run. split_and!; [done..|]. right; right. eexists. apply has_condition_set. }
    do 2 wp_step. case_decide as Ha2.
    + wp_run. right. split_and!; [done..|]. left. split; [apply has_condition_set|done].
    + apply wp_report_ready; [done| |].
      * intros s' new' H1 H2. by left.
      * intros s' new' H1 H2. right. split_and!; [by rewrite H1|done|by right].
  - apply wp_report_ready; [done| |].
    + intros s' new' H1 H2. by left.
    + intros s' new' H1 H2. right. split_and!; [by rewrite H1|done|by right].
Qed.
End Ready.

(** ** Deletion *)
Section Deletion.
Context {L : Libs} {LL : LibLaws L}.
Import LoadBalancerScope LBController.

(** The API server has accepted the deletion of [vm], or does not know it. *)
Definition vm_deleted (vm : AzureStackHCIVirtualMachine) (e : event) : Prop :=
  ∃ r, e = Ev (KDelete KVirtualMachine vm) r ∧
       match r with None => True | Some e => IsNotFound e = true end.
(** The agent has confirmed that the load balancer is gone. *)
Definition lb_gone (path : list string) (e : event) : Prop :=
  ∃ d, moc_delete_of e = Some d ∧ d.1 = (MLoadBalancer, path) ∧ gone d.
Definition is_kdelete {R} (c : Call R) : bool :=
  match c with KDelete _ _ => true | _ => false end.
(** The API server has listed the machines of the load balancer. *)
Definition listed (cs : ClusterScope) (s : LoadBalancerScope)
    (items : list AzureStackHCIVirtualMachine) (e : event) : Prop :=
  e = Ev (KList KVirtualMachine (ClusterScope.Namespace cs) [(LoadBalancerLabel, Name s)])
         (inr items).

Lemma wp_delete_accepted env (cs : ClusterScope) vm Q (s : LoadBalancerScope) t :
  (∀ err new, (err = None → NotDeleted vm = true →
       Exists (vm_deleted (CopyCorrelationID (LB s) vm)) new) →
     Q (Ok err) s (new ++ t)) →
  wp env (deleteVirtualMachine cs vm) Q s t.
Proof.
  intros HQ. unfold deleteVirtualMachine.
  destruct (NotDeleted vm) eqn:Hnd; simpl; [|by wp_run; apply (HQ _ [])].
  wp_run; apply_above HQ t; try done; intros _ _;
    apply Exists_app; right; apply Exists_cons_hd; by eexists.
Qed.
Lemma wp_delete_all env (cs : ClusterScope) vms Q (s : LoadBalancerScope) t :
  (∀ r new, (r = None → ∀ vm, vm ∈ vms → NotDeleted vm = true →
       Exists (vm_deleted (CopyCorrelationID (LB s) vm)) new) →
     Q (Ok r) s (new ++ t)) →
  wp env (for_each vms (λ vm, deleteVirtualMachine cs vm)) Q s t.
Proof.
  revert Q t. induction vms as [|vm vms IH]; intros Q t HQ; cbn [for_each].
  { wp_step. apply (HQ _ []). set_solver. }
  wp_step. apply wp_delete_accepted. intros [err|] new Hnew; cbv beta iota.
  { wp_step. by apply HQ. }
  apply IH. intros r new' Hr. rewrite app_assoc. apply HQ.
  intros Hnone vm' [->|Hvm']%elem_of_cons Hnd; apply Exists_app; auto.
Qed.

Lemma wp_reconcileDeleteVirtualMachines env (cs : ClusterScope) Q (s : LoadBalancerScope) t :
  (∀ r new, (r = None → ∃ items, Exists (listed cs s items) new ∧
       ∀ vm, vm ∈ items → NotDeleted vm = true →
         Exists (vm_deleted (CopyCorrelationID (LB s) vm)) new) →
     Q (Ok r) s (new ++ t)) →
  wp env (reconcileDeleteVirtualMachines cs) Q s t.
Proof.
  intros HQ. unfold reconcileDeleteVirtualMachines, getVirtualMachinesForLoadBalancer.
  do 5 wp_step. destruct r as [err|items]; wp_step.
  { wp_run. by apply_above HQ t. }
  apply wp_delete_all. intros r new Hr. apply_above HQ t. intros Hnone. exists items. split.
  - apply Exists_app. right. by apply Exists_cons_hd.
  - intros vm Hvm Hnd. apply Exists_app. left. apply Hr; [done| |done].
    by apply list_elem_of_filter.
Qed.

Lemma wp_delete_service env (cs : ClusterScope) Q (s : LoadBalancerScope) t :
  (∀ err new, Forall (ev_not (@is_kdelete)) new →
     (err = None → Exists (lb_gone [GetResourceGroup cs; Name s]) new) →
     Q (Ok err) s (new ++ t)) →
  wp env (reconcileDeleteLoadBalancerService cs) Q s t.
Proof.
  intros HQ. unfold reconcileDeleteLoadBalancerService. wp_run.
  cbn [gsvc_Delete loadbalancers.NewService].
  apply wp_loadbalancers_Delete. intros r n1 n2 Hn1 Hn2.
  set (d := (MLoadBalancer, [GetResourceGroup cs; Name s], r)).
  assert (Hnew : ∀ n, Forall (ev_is (@is_telemetry)) n → Forall (ev_not (@is_kdelete)) n).
  { intros n Hn. eapply Forall_impl; [exact Hn|]. by intros [R [] ?]. }
  assert (Hall : Forall (ev_not (@is_kdelete)) (n2 ++ Ev (MocDelete (moc_client cs)
            MLoadBalancer [GetResourceGroup cs; Name s]) r :: n1)).
  { apply Forall_app. split; [by apply Hnew|]. apply Forall_cons. split; [done|by apply Hnew]. }
  pose proof (delete_result_gone d) as Hgone.
  unfold delete_result in *. cbn [d snd] in Hgone.
  destruct r as [e|]; [destruct (ResourceNotFound e) eqn:He|].
  - wp_run. apply_above HQ t; [done|]. intros _. apply Exists_app. right.
    apply Exists_cons_hd. exists d. split_and!; [done|done|]. by apply (Hgone "").
  - destruct (ResourceNotFound (ErrWrap e _)) eqn:Hw.
    { apply ResourceNotFound_Wrap in Hw. congruence. }
    cbn [negb]. wp_run. by apply_above HQ t.
  - wp_run. apply_above HQ t; [done|]. intros _. apply Exists_app. right.
    apply Exists_cons_hd. by exists d.
Qed.

(** C14: Deleting a load balancer deletes the agent's load balancer first: no virtual machine is
    deleted before the agent has confirmed that it is gone. The handler gives up the
    finalizer only when, besides, the API server has accepted (or does not know) the deletion
    of every machine it lists for the load balancer that was not being deleted already; if
    any step fails, the finalizers stay and the infrastructure condition says so. *)
Theorem lb_reconcileDelete_spec env (cs : ClusterScope) (s : LoadBalancerScope) :
  wp env (reconcileDelete cs) (λ o s' t', ∃ err,
    o = Ok (no_result, err) ∧
    precedes (lb_gone [GetResourceGroup cs; Name s]) (ev_is (@is_kdelete)) t' ∧
    match err with
    | None =>
        AzureStackHCILoadBalancerFinalizer ∉ GetFinalizers (LB s') ∧
        Exists (lb_gone [GetResourceGroup cs; Name s]) t' ∧
        ∃ items, Exists (listed cs s items) t' ∧
          ∀ vm, vm ∈ items → NotDeleted vm = true →
            Exists (vm_deleted (CopyCorrelationID (LB s) vm)) t'
    | Some _ =>
        GetFinalizers (LB s') = GetFinalizers (LB s) ∧
        ∃ msg, not_ready_because s' DeletionFailedReason msg
    end) s [].
Proof.
  unfold reconcileDelete. do 3 wp_step. apply wp_delete_service. intros err new Hnew Hgone.
  rewrite app_nil_r.
  assert (Hp : precedes (lb_gone [GetResourceGroup cs; Name s]) (ev_is (@is_kdelete)) new).
  { rewrite <-(app_nil_r new). apply precedes_app_not; [|apply precedes_nil].
    eapply Forall_impl; [exact Hnew|]. intros [R c r]; simpl. congruence. }
  destruct err as [e|]; cbv beta iota.
  { wp_run. eexists. split; [done|]. split; [by do 2 (apply precedes_cons; [|done])|].
    split; [done|]. eexists. apply has_condition_set. }
  specialize (Hgone eq_refl).
  wp_step. apply wp_reconcileDeleteVirtualMachines. intros err new' Hdel.
  assert (Hp' : precedes (lb_gone [GetResourceGroup cs; Name s]) (ev_is (@is_kdelete))
            (new' ++ new)) by (by apply precedes_above).
  destruct err as [e|]; cbv beta iota; wp_run; eexists; (split; [done|]);
    (split; [by do 2 (apply precedes_cons; [|done])|]).
  - split; [done|]. eexists. apply has_condition_set.
  - split; [cbn; apply RemoveFinalizer_not_in|].
    destruct (Hdel eq_refl) as (items&Hl&Hvms). split.
    + do 2 apply Exists_cons_tl. apply Exists_app. by right.
    + exists items. split; [do 2 apply Exists_cons_tl; apply Exists_app; by left|].
      intros vm Hvm Hnd. do 2 apply Exists_cons_tl. apply Exists_app. left. auto.
Qed.
End Deletion.

(** ** The machines of a load balancer and availability zones *)
Section Zones.
Context {L : Libs} {LL : LibLaws L}.
Import LoadBalancerScope LBController.

Definition fresh_vm (ns name : string) : AzureStackHCIVirtualMachine :=
  mkVirtualMachine metav1.empty_type (metav1.named_meta ns name)
    zero_VirtualMachineSpec zero_VirtualMachineStatus.

(** C37: A virtual machine that the load balancer controller makes has no availability zone, and
    the controller of the virtual machines dereferences the field: in a location that has
    availability zones, a machine of a load balancer that the agent does not know yet makes
    it panic instead of creating the machine. *)
Theorem load_balancer_machine_panics (env : Env) (cs : ClusterScope) (s s2 : LoadBalancerScope)
    ns name vm (t t2 t' : trace) agent auth nic decoded (err : error) :
  mutateFn cs (fresh_vm ns name) env s t = (Ok (None, vm), s2, t2) →
  ClusterScope.Location cs ∈ SupportedAvailabilityZoneLocations →
  Base64.DecodeString (lbs_SSHPublicKey (lb_Spec (LB s))) = inr decoded →
  let scope := VirtualMachineScope.mkScope agent auth vm vm in
  env t' _ (MocGet (moc_client scope) MVirtualMachine
              [GetResourceGroup scope; VirtualMachineScope.Name scope]) = inl err →
  ∃ why, (VMReconciler.createVirtualMachine VMReconciler.newAzureStackHCIVirtualMachineService
            nic env scope t').1.1 = Panic why.
Proof.
  intros Hm Hloc Hkey scope Hget.
  assert (Hvm : vm_of_lb cs s vm ∧ vs_AvailabilityZone (hv_Spec vm) = None ∧
                vs_AdditionalSSHKeys (hv_Spec vm) = []).
  { pose proof (wp_lb_mutateFn env cs (fresh_vm ns name)
      (λ o _ _, match o with
       | Ok (None, vm) => vm_of_lb cs s vm ∧ vs_AvailabilityZone (hv_Spec vm) = None ∧
                          vs_AdditionalSSHKeys (hv_Spec vm) = []
       | _ => True end) s t) as H.
    unfold wp in H. rewrite Hm in H. apply H; [done|]. intros vm' H1 H2 H3.
    by split_and!. }
  destruct Hvm as ((_&_&_&_&_&_&_&Hl&Hk&_)&Haz&Hkeys).
  refine (proj1 (createVirtualMachine_nil_zone env scope t' nic [] decoded err _ _ _ _ Hget));
    unfold VirtualMachineScope.Location, VirtualMachineScope.Spec; cbn; try congruence.
  by rewrite Hkeys.
Qed.
End Zones.

(** ** The controller as a whole *)
Section Controller.
Context {L : Libs} {LL : LibLaws L}.
Import LoadBalancerScope LBController.

(** A machine is made, or something in the agent. *)
Definition makes {R} (c : Call R) : bool := writes_vm c || is_moc_create c.
Definition lb_finalized (o : AzureStackHCILoadBalancer) : Prop :=
  AzureStackHCILoadBalancerFinalizer ∈ GetFinalizers o.
Local Notation finalizer_first :=
  (precedes (patched KLoadBalancer lb_finalized) (ev_is (@makes))).

Lemma silent_makes_nothing new :
  Forall (ev_is (@is_silent)) new → Forall (λ e, ¬ ev_is (@makes) e) new.
Proof. apply ev_not_is. by intros R []. Qed.
Hint Resolve silent_makes_nothing : core.

Local Notation anything := (extends (E:=Call) (λ _, True)).
Ltac lb_service := cbn [gsvc_Get gsvc_Reconcile gsvc_Delete loadbalancers.NewService].
Lemma any_mutateFn cs vm : frame anything (mutateFn cs vm).
Proof. unfold mutateFn, getVMImage. frame_auto. Qed.
Lemma any_scaleUp cs : frame anything (scaleUpVirtualMachines cs).
Proof.
  unfold scaleUpVirtualMachines, createOrUpdateVirtualMachine, record,
    GenerateAzureStackHCILoadBalancerMachineName.
  frame_auto. apply frame_CreateOrUpdate; [apply _|..]; intros;
    [frame_auto..|apply any_mutateFn].
Qed.
Lemma any_service_status cs : frame anything (reconcileLoadBalancerServiceStatus cs).
Proof.
  unfold reconcileLoadBalancerServiceStatus, frontend_address. lb_service. frame_auto.
Qed.
Lemma any_condition c : frame anything (set_condition c).
Proof. unfold set_condition, SetCondition. frame_auto. Qed.
Lemma any_record ty r f args : frame anything (record ty r f args).
Proof. unfold record. frame_auto. Qed.
Hint Resolve any_scaleUp any_service_status any_condition any_record : frames.
Lemma any_reconcileVirtualMachines cs : frame anything (reconcileVirtualMachines cs).
Proof.
  unfold reconcileVirtualMachines, getVirtualMachinesForLoadBalancer, scale_replicas,
    scaleDownVirtualMachines, scale_up_to_max, replicas_condition, updateReplicaStatus,
    deleteVirtualMachine.
  frame_auto.
Qed.
Hint Resolve any_reconcileVirtualMachines : frames.
Lemma lb_reconcileNormal_finalizer_first env (cs : ClusterScope) (s : LoadBalancerScope) t :
  finalizer_first t → wp env (reconcileNormal cs) (λ _ _ t', finalizer_first t') s t.
Proof.
  intros Ht. unfold reconcileNormal. wp_run_to (reconcileVirtualMachines cs);
    try (by precedes_auto).
  eapply wp_by_frame.
  { instantiate (1 := anything). unfold report_address, report_ready, infrastructure_condition,
      reconcileLoadBalancerService. lb_service. frame_auto. }
  intros o s' t' Hext. eapply precedes_after; [exact Hext| |].
  - apply Exists_cons_hd. eexists _, _, _. split; [done|]. apply AddFinalizer_in.
  - by apply precedes_cons.
Qed.
Lemma lb_reconcileDelete_makes_nothing (cs : ClusterScope) :
  frame (extends (ev_not (@makes))) (reconcileDelete cs).
Proof.
  unfold reconcileDelete, reconcileDeleteLoadBalancerService, reconcileDeleteVirtualMachines,
    getVirtualMachinesForLoadBalancer, deleteVirtualMachine, infrastructure_condition,
    set_condition, SetCondition, record.
  lb_service. frame_auto.
Qed.
Lemma reconcileStatus_makes_nothing :
  frame (extends (ev_not (@makes))) (reconcileStatus ;; Close).
Proof.
  unfold reconcileStatus, Close, infrastructure_condition, set_condition, SetCondition.
  frame_auto.
Qed.

(** C22: In every run of the load balancer controller, whatever the API server and the agent
    answer, a machine, or the load balancer of the agent, is made only after the API server
    has accepted the load balancer with its finalizer. *)
Theorem lb_Reconcile_finalizer_first env req :
  wp env (Reconcile req) (λ _ _ t', finalizer_first t') tt [].
Proof.
  assert (Hnot : ∀ (S : Type) (s s' : S) t t', extends (ev_not (@makes)) (s, t) (s', t') →
            finalizer_first t → finalizer_first t').
  { intros S s s' t t' Hext. eapply precedes_not, extends_mono, Hext.
    intros []; simpl. by intros ->. }
  unfold Reconcile. wp_run; try (by precedes_auto).
  eapply wp_by_frame; [apply NewClusterScope_frame|]. intros oc s' t' (n1&Ht'&Hn1).
  simpl in Ht'. subst t'.
  destruct oc as [[err|cs]|w|]; wp_run; try (by precedes_auto).
  eapply wp_by_frame; [apply NewLoadBalancerScope_frame|]. intros ol s'' t' (n2&Ht'&Hn2).
  simpl in Ht'. subst t'.
  destruct ol as [[err|scope]|w|]; wp_run; try (by precedes_auto).
  apply wp_with_close.
  match goal with |- wp _ _ _ _ ?tr => assert (Hp : finalizer_first tr) by precedes_auto end.
  eapply (wp_mono _ _ (λ _ _ t', finalizer_first t')).
  - case_match; [by apply lb_reconcileNormal_finalizer_first|].
    eapply wp_by_frame; [apply lb_reconcileDelete_makes_nothing|]. intros; eauto.
  - intros oe s3 t3 Ht.
    destruct oe as [[]|w|]; [| |done];
      (eapply wp_by_frame; [apply reconcileStatus_makes_nothing|]);
      intros [|w2|] s4 t4 Hext; eauto.
Qed.
End Controller.

(** ** Concrete runs *)
Definition ex_deleting_lb : LoadBalancerScope :=
  ex_lb_scope <| LoadBalancerScope.LB ::= (λ o, o <| lb_meta ::= (λ m,
    m <| metav1.DeletionTimestamp := Some 1%Z |>
      <| metav1.Finalizers := [AzureStackHCILoadBalancerFinalizer] |>) |>) |>.

Lemma reconcileStatus_phase_witness :
  LoadBalancerStatus.GetTypedPhase (LoadBalancerScope.Status
    (LBController.reconcileStatus (L:=Ref.ref_libs) ex_env ex_deleting_lb []).1.2)
    = LBPhaseDeleting.
Proof.
  destruct (reconcileStatus_phase (LL:=Ref.ref_laws) ex_env ex_deleting_lb []) as (_&H&_).
  apply H. reflexivity.
Defined.

Lemma lb_reconcileNormal_outcome_witness :
  let '(o, s', _) := LBController.reconcileNormal (L:=Ref.ref_libs) ex_cluster_scope ex_env
                       ex_lb_scope [] in
  o = Ok (mkResult true Minute, None) ∧ serves (L:=Ref.ref_libs) s'.
Proof.
  pose proof (lb_reconcileNormal_outcome (LL:=Ref.ref_laws) ex_env ex_cluster_scope
                ex_lb_scope) as H.
  assert (Hc : (LBController.reconcileNormal (L:=Ref.ref_libs) ex_cluster_scope ex_env
                  ex_lb_scope []).1.1 = Ok (mkResult true Minute, None) ∧
               lst_Ready (LoadBalancerScope.Status (LBController.reconcileNormal
                 (L:=Ref.ref_libs) ex_cluster_scope ex_env ex_lb_scope []).1.2) = true)
    by (split; vm_compute; reflexivity).
  destruct (LBController.reconcileNormal _ _ _ _) as [[o s'] t'] eqn:E.
  apply (wp_elim _ _ _ _ _ _ _ _ E) in H. destruct Hc as [Ho Hr]. simpl in Ho, Hr. subst o.
  split; [reflexivity|]. destruct H as [[_ H]|(H&_)]; [exact H|].
  rewrite Hr in H. discriminate H.
Defined.

Lemma lb_reconcileDelete_spec_witness :
  let r := LBController.reconcileDelete (L:=Ref.ref_libs) ex_cluster_scope ex_env_two_vms
             ex_deleting_lb [] in
  AzureStackHCILoadBalancerFinalizer ∉ GetFinalizers (LoadBalancerScope.LB r.1.2) ∧
  precedes (lb_gone (L:=Ref.ref_libs) ["rg"; "cluster-load-balancer"])
    (ev_is (@is_kdelete)) r.2.
Proof.
  destruct (lb_reconcileDelete_spec (LL:=Ref.ref_laws) ex_env_two_vms ex_cluster_scope
              ex_deleting_lb) as (err&Ho&Hp&H).
  assert (err = None) as -> by (vm_compute in Ho; congruence).
  destruct H as [H _]. split; [exact H|exact Hp].
Defined.

Definition ex_zone_cluster : ClusterScope := ex_cluster_scope <| ClusterScope.HCICluster ::=
  (λ c, c <| hc_Spec ::= (λ sp, sp <| cs_Location := "eastus" |>) |>) |>.
Definition ex_zone_vm : AzureStackHCIVirtualMachine :=
  match (LBController.mutateFn (L:=Ref.ref_libs) ex_zone_cluster
           (fresh_vm "default" "lb-vm") ex_env ex_lb_scope []).1.1 with
  | Ok (_, vm) => vm
  | _ => ex_vm
  end.
Lemma load_balancer_machine_panics_witness :
  ∃ why, (VMReconciler.createVirtualMachine
            (VMReconciler.newAzureStackHCIVirtualMachineService (L:=Ref.ref_libs)) "nic"
            ex_env_no_vm
            (VirtualMachineScope.mkScope "agent" (mkAuthorizer 1) ex_zone_vm ex_zone_vm) []).1.1
         = Panic why.
Proof.
  apply (load_balancer_machine_panics (LL:=Ref.ref_laws) ex_env_no_vm ex_zone_cluster ex_lb_scope
           ex_lb_scope "default" "lb-vm" ex_zone_vm [] [] [] "agent" (mkAuthorizer 1) "nic" ""
           (ErrExt 3 "not found")).
  - vm_compute. reflexivity.
  - refine (bool_decide_unpack _ _). vm_compute. exact I.
  - vm_compute. reflexivity.
  - vm_compute. reflexivity.
Defined.

Lemma lb_Reconcile_finalizer_first_witness :
  let t := (LBController.Reconcile (L:=Ref.ref_libs) (mkNN "default" "lb") ex_env tt []).2 in
  Exists (ev_is (@makes)) t ∧
  precedes (patched KLoadBalancer lb_finalized) (ev_is (@makes)) t.
Proof.
  split; [|exact (lb_Reconcile_finalizer_first (LL:=Ref.ref_laws) ex_env
                    (mkNN "default" "lb"))].
  refine (bool_decide_unpack _ _). vm_compute. exact I.
Defined.
