(* ===== verification/Cluster.v ===== *)
(** * controllers: azurestackhcicluster_controller.go and azurestackhcicluster_reconciler.go

    The controller of the cluster resource. It makes the services of the cluster in the agent,
    then the load balancer resource, and reports that the infrastructure is provisioned; on
    deletion it waits for the machines, deletes the load balancer resource, waits for it, and
    deletes the services. The cluster scope is the state. *)
From stdpp Require Import prelude strings list gmap.
From S2P Require Import Prelude GoStd External Api Effects Util Naming Scope Example.
From S2P Require Import Telemetry Interfaces Services.
Local Open Scope prog_scope.

(** ** azurestackhcicluster_reconciler.go *)
Module ClusterReconciler.
Import ClusterScope.

Record azureStackHCIClusterReconciler := mkClusterReconciler {
  vnetSvc : Service ClusterScope;
  keyvaultSvc : Service ClusterScope;
  groupSvc : Service ClusterScope }.

Section Reconciler.
Context {L : Libs}.
Definition newAzureStackHCIClusterReconciler : azureStackHCIClusterReconciler :=
  mkClusterReconciler virtualnetworks.NewService keyvaults.NewService groups.NewService.

Definition createOrUpdateVnetName (s : ClusterScope) : ClusterScope :=
  if decide (vnet_Name (Vnet s) = "") then
    s <| HCICluster ::= (λ c, c <| hc_Spec ::= (λ sp, sp <| cs_NetworkSpec ::= (λ n,
           n <| ns_Vnet ::= (λ v, v <| vnet_Name := GenerateVnetName (Name s) |>)
           |>) |>) |>) |>
  else s.
Definition vnet_spec (s : ClusterScope) : virtualnetworks_Spec :=
  mkVirtualNetworksSpec (vnet_Name (Vnet s))
    (if decide (vnet_Group (Vnet s) = "") then GetResourceGroup s else vnet_Group (Vnet s))
    DefaultVnetCIDR.
Definition group_spec (s : ClusterScope) : groups_Spec :=
  mkGroupsSpec (GetResourceGroup s) (Location s).

Definition Reconcile (r : azureStackHCIClusterReconciler)
    : prog ClusterScope (option error) :=
  modify createOrUpdateVnetName ;;
  s <- gets id ;;
  iferr err <- svc_Reconcile (vnetSvc r) (IVirtualNetworksSpec (vnet_spec s)) then
    ret (Some (ErrWrap err ("failed to reconcile virtual network for cluster "
                             +:+ Name s))) ;;
  iferr err <- svc_Reconcile (groupSvc r) (IGroupsSpec (group_spec s)) then
    ret (Some (ErrWrap err ("failed to reconcile group for cluster " +:+ Name s))) ;;
  iferr err <- svc_Reconcile (keyvaultSvc r) (IKeyVaultsSpec (mkKeyVaultsSpec (Name s))) then
    ret (Some (ErrWrap err ("failed to reconcile keyvault for cluster " +:+ Name s))) ;;
  ret None.

(** [if err != nil && !ResourceNotFound(err)] *)
Definition unless_not_found (err : option error) : option error :=
  match err with
  | Some e => if ResourceNotFound e then None else Some e
  | None => None
  end.

Definition Delete (r : azureStackHCIClusterReconciler)
    : prog ClusterScope (option error) :=
  s <- gets id ;;
  err <- svc_Delete (keyvaultSvc r) (IKeyVaultsSpec (mkKeyVaultsSpec (Name s))) ;;
  match unless_not_found err with
  | Some err => ret (Some (ErrWrap err ("failed to delete keyvault " +:+ Name s
                                         +:+ " for cluster " +:+ Name s)))
  | None =>
      err <- svc_Delete (vnetSvc r) (IVirtualNetworksSpec (vnet_spec s)) ;;
      match unless_not_found err with
      | Some err => ret (Some (ErrWrap err ("failed to delete virtual network "
                      +:+ vnet_Name (Vnet s) +:+ " for cluster " +:+ Name s)))
      | None =>
          iferr err <- svc_Delete (groupSvc r) (IGroupsSpec (group_spec s)) then
            ret (Some (ErrWrap err ("failed to delete group " +:+ GetResourceGroup s
                                     +:+ " for cluster " +:+ Name s))) ;;
          ret None
      end
  end.
End Reconciler.
End ClusterReconciler.

(** ** azurestackhcicluster_controller.go *)
Module ClusterController.
Import ClusterScope ClusterReconciler.
Section Controller.
Context {L : Libs}.

Definition network_condition (status reason message : string) : prog ClusterScope unit :=
  SetCondition HCICluster (λ o s, s <| HCICluster := o |>)
    (metav1.cond NetworkInfrastructureReadyCondition status reason message).
Definition record (eventtype reason format : string) (args : list string)
    : prog ClusterScope unit :=
  s <- gets id ;;
  call (Eventf (mkObjectRef KCluster (mkNN (GetNamespace (HCICluster s))
                                           (GetName (HCICluster s))))
          eventtype reason format args).

(** The name of the load balancer resource *)
Definition lb_key (s : ClusterScope) : NamespacedName :=
  mkNN (Namespace s) (GenerateAzureStackHCILoadBalancerName (Name s)).
Definition lb_owner (s : ClusterScope) : metav1.OwnerReference :=
  metav1.mkOwnerReference (APIVersion s) (Kind s) (Name s) (UID s).
Definition lb_resource (lb : AzureStackHCILoadBalancer) : string :=
  metav1.Kind (lb_type lb) +:+ "/" +:+ GetNamespace lb +:+ "/" +:+ GetName lb.

(** [mutateFn] of [reconcileAzureStackHCILoadBalancer]; it cannot fail. *)
Definition mutateFn (spec : AzureStackHCILoadBalancerSpec) (lb : AzureStackHCILoadBalancer)
    : prog ClusterScope (option error * AzureStackHCILoadBalancer) :=
  s <- gets id ;;
  let lb := SetOwnerReferences (EnsureOwnerRef (metav1.OwnerReferences (lb_meta lb))
                                  (lb_owner s)) lb in
  let lb := lb <| lb_Spec ::= (λ sp,
    sp <| lbs_Image ::= (λ old, match lbs_Image spec with
                                | Some i => Some i | None => old end) |>
       <| lbs_SSHPublicKey := lbs_SSHPublicKey spec |>
       <| lbs_VMSize := lbs_VMSize spec |>
       <| lbs_Replicas := lbs_Replicas spec |>) |> in
  ret (None, CopyCorrelationID (HCICluster s) lb).

Definition set_endpoint (host : string) (s : ClusterScope) : ClusterScope :=
  s <| HCICluster ::= (λ c, c <| hc_Spec ::= (λ sp,
         sp <| cs_ControlPlaneEndpoint := clusterv1.mkAPIEndpoint host (APIServerPort s)
         |>) |>) |>.

(** Ready, or not and why the wait goes on *)
Definition reconcileAzureStackHCILoadBalancer : prog ClusterScope (bool * option error) :=
  s <- gets id ;;
  match LoadBalancerSpec s with
  | None => ret (true, None)
  | Some spec =>
      let lb := mkLoadBalancer metav1.empty_type
        (metav1.named_meta (nn_Namespace (lb_key s)) (nn_Name (lb_key s)))
        zero_LoadBalancerSpec zero_LoadBalancerStatus in
      ' (operationResult, err, lb) <- CreateOrUpdate KLoadBalancer lb (mutateFn spec) ;;
      (if IsCRDUpdate operationResult then
         (let '(operation, resourceType) := ConvertOperationResult operationResult in
          RecordHybridAKSCRDChange (GetCustomResourceTypeWithName s)
            (lb_resource lb) operation resourceType NoParams err)
       else ret tt) ;;
      match (match err with
             | Some e => if IsAlreadyExists e then None else Some e
             | None => None
             end) with
      | Some e =>
          network_condition metav1.ConditionFalse LoadBalancerProvisioningReason
            (Error e) ;;
          ret (false, Some e)
      | None =>
          if conditions_IsFalse (GetConditions lb) LoadBalancerInfrastructureReadyCondition
          then
            cond <- deref (conditions_Get (GetConditions lb)
                             LoadBalancerInfrastructureReadyCondition) "cond" ;;
            network_condition metav1.ConditionFalse (metav1.c_Reason cond)
              (metav1.c_Message cond) ;;
            ret (false, None)
          else
            (if decide (lst_Address (lb_Status lb) = "") then ret tt
             else modify (set_endpoint (lst_Address (lb_Status lb)))) ;;
            ret (true, None)
      end
  end.

(** The switch on [mocerrors.GetErrorCode(err)] *)
Definition service_failure_reason (err : error) : string :=
  let code := GetErrorCode err in
  if decide (code = OutOfMemory_Error) then OutOfMemoryReason
  else if decide (code = OutOfCapacity_Error) then OutOfCapacityReason
  else ClusterReconciliationFailedReason.
Definition set_provisioned (s : ClusterScope) : ClusterScope :=
  s <| HCICluster ::= (λ c, c <| hc_Status ::= (λ st,
         st <| cst_Initialization := Some (mkInitializationStatus (Some true)) |>) |>) |>.
Definition add_finalizer (f : string) (s : ClusterScope) : ClusterScope :=
  s <| HCICluster ::= (λ o, SetFinalizers (AddFinalizer (GetFinalizers o) f) o) |>.
Definition remove_finalizer (f : string) (s : ClusterScope) : ClusterScope :=
  s <| HCICluster ::= (λ o, SetFinalizers (RemoveFinalizer (GetFinalizers o) f) o) |>.

Definition reconcileNormal : prog ClusterScope (Result * option error) :=
  modify (add_finalizer ClusterFinalizer) ;;
  iferr err <- PatchObject then ret (no_result, Some err) ;;
  iferr err <- ClusterReconciler.Reconcile newAzureStackHCIClusterReconciler then
    (network_condition metav1.ConditionFalse (service_failure_reason err) (Error err) ;;
     let wrappedErr := ErrWrap err "failed to reconcile cluster services" in
     record "Warning" "ClusterReconcileFailed" (Error wrappedErr) [] ;;
     ret (no_result, Some wrappedErr)) ;;
  ' (ready, err) <- reconcileAzureStackHCILoadBalancer ;;
  if negb ready then
    match err with
    | Some err => ret (no_result, Some err)
    | None => ret (mkResult true (20 * Second), None)
    end
  else
    modify set_provisioned ;;
    network_condition metav1.ConditionTrue InfrastructureReadyReason "" ;;
    SetCondition HCICluster (λ o s, s <| HCICluster := o |>)
      (metav1.cond clusterv1.ReadyCondition metav1.ConditionTrue
         InfrastructureReadyReason "") ;;
    ret (no_result, None).

(** [deleteOrphanedMachines]: the machines no Cluster API machine owns *)
Definition delete_orphan (m : AzureStackHCIMachine) : prog ClusterScope (option error) :=
  try machine <- call (GetOwnerMachine (hm_meta m)) iferr err then ret (Some err) ;;
  match machine with
  | Some _ => ret None
  | None =>
      s <- gets id ;;
      let m := CopyCorrelationID (HCICluster s) m in
      err <- call (KUpdate KMachine m) ;;
      match (match err with
             | Some e => if IsNotFound e then None
                         else Some (ErrWrap e ("Failed to update AzureStackHCIMachine "
                                                +:+ GetName m))
             | None => None
             end) with
      | Some e => ret (Some e)
      | None =>
          err <- call (KDelete KMachine m) ;;
          RecordHybridAKSCRDChange (GetCustomResourceTypeWithName s)
            (metav1.Kind (hm_type m) +:+ "/" +:+ GetNamespace m +:+ "/" +:+ GetName m)
            OpDelete CRD NoParams err ;;
          match err with
          | Some e => if IsNotFound e then ret None
                      else ret (Some (ErrWrap e ("Failed to delete AzureStackHCIMachine "
                                                  +:+ GetName m)))
          | None => ret None
          end
      end
  end.
Definition deleteOrphanedMachines (azhciMachines : list AzureStackHCIMachine)
    : prog ClusterScope (option error) :=
  for_each azhciMachines delete_orphan.

Definition reconcileDeleteAzureStackHCILoadBalancer : prog ClusterScope (option error) :=
  s <- gets id ;;
  match LoadBalancerSpec s with
  | None => ret None
  | Some _ =>
      let shown := nn_Namespace (lb_key s) +:+ "/" +:+ nn_Name (lb_key s) in
      try lb <- call (KGet KLoadBalancer (lb_key s)) iferr err then
        (if negb (IsNotFound err) then
           ret (Some (ErrWrap err ("Failed to get AzureStackHCILoadBalancer " +:+ shown)))
         else ret None) ;;
      if negb (NotDeleted lb) then ret None
      else
        let lb := CopyCorrelationID (HCICluster s) lb in
        err <- call (KUpdate KLoadBalancer lb) ;;
        match (match err with
               | Some e => if IsNotFound e then None else Some e | None => None end) with
        | Some e =>
            network_condition metav1.ConditionFalse DeletionFailedReason (Error e) ;;
            ret (Some (ErrWrap e ("Failed to update AzureStackHCILoadBalancer " +:+ shown)))
        | None =>
            err <- call (KDelete KLoadBalancer lb) ;;
            RecordHybridAKSCRDChange (GetCustomResourceTypeWithName s)
              (lb_resource lb) OpDelete CRD NoParams err ;;
            match (match err with
                   | Some e => if IsNotFound e then None else Some e | None => None end) with
            | Some e =>
                network_condition metav1.ConditionFalse DeletionFailedReason (Error e) ;;
                ret (Some (ErrWrap e ("Failed to delete AzureStackHCILoadBalancer "
                                       +:+ shown)))
            | None => ret None
            end
        end
  end.

(** The last part of [reconcileDelete], without machines and load balancer *)
Definition delete_services : prog ClusterScope (Result * option error) :=
  s <- gets id ;;
  let ns := GetNamespace (HCICluster s) in
  let name := GetName (HCICluster s) in
  iferr err <- ClusterReconciler.Delete newAzureStackHCIClusterReconciler then
    (let wrappedErr := ErrWrap err ("error deleting AzureStackHCICluster "
                         +:+ ns +:+ "/" +:+ name) in
     record "Warning" "FailureClusterDelete" (Error wrappedErr) [] ;;
     network_condition metav1.ConditionFalse DeletionFailedReason (Error err) ;;
     ret (no_result, Some wrappedErr)) ;;
  record "Normal" "SuccessfulDeleteCluster"
    "Successfully deleted AzureStackHCICluster %s/%s" [ns; name] ;;
  modify (remove_finalizer ClusterFinalizer) ;;
  ret (no_result, None).

Definition reconcileDelete : prog ClusterScope (Result * option error) :=
  network_condition metav1.ConditionFalse "Deleted" "" ;;
  s <- gets id ;;
  let ns := GetNamespace (HCICluster s) in
  let name := GetName (HCICluster s) in
  let failed (what : string) (err : error) :=
    (let wrappedErr := ErrWrap err (what +:+ " AzureStackHCIMachines part of "
                         +:+ "AzureStackHCIClusters " +:+ ns +:+ "/" +:+ name) in
     record "Warning" "FailureListMachinesInCluster" (Error wrappedErr) [] ;;
     network_condition metav1.ConditionFalse DeletionFailedReason (Error err) ;;
     ret (no_result, Some wrappedErr)) in
  try azhciMachines <- GetAzureStackHCIMachinesInCluster ns name iferr err then
    failed "unable to list" err ;;
  match azhciMachines with
  | _ :: _ =>
      iferr err <- deleteOrphanedMachines azhciMachines then
        failed "failed to delete orphaned" err ;;
      network_condition metav1.ConditionFalse AzureStackHCIMachinesDeletingReason "" ;;
      ret (mkResult false (20 * Second), None)
  | [] =>
      iferr err <- reconcileDeleteAzureStackHCILoadBalancer then
        ret (no_result, Some (ErrWrap err
               "Failed to delete AzureStackHCICluster AzureStackHCILoadBalancer")) ;;
      lb <- call (KGet KLoadBalancer (lb_key s)) ;;
      match lb with
      | inr _ =>
          network_condition metav1.ConditionFalse LoadBalancerDeletingReason "" ;;
          ret (mkResult false (20 * Second), None)
      | inl _ => delete_services
      end
  end.

(** [reconcilePhase], which the deferred function runs *)
Definition set_phase (p : AzureStackHCIClusterPhase) (c : AzureStackHCICluster)
    : AzureStackHCICluster := c <| hc_Status ::= ClusterStatus.SetTypedPhase p |>.
Definition reconcile_phase (c : AzureStackHCICluster) : AzureStackHCICluster :=
  let c := if decide (cst_Phase (hc_Status c) = "")
           then set_phase ClusterPhasePending c else c in
  let c :=
    match cst_Initialization (hc_Status c) with
    | Some i =>
        match init_Provisioned i with
        | Some provisioned =>
            let c := if negb provisioned then set_phase ClusterPhaseProvisioning c else c in
            if provisioned then set_phase ClusterPhaseProvisioned c else c
        | None => set_phase ClusterPhaseProvisioning c
        end
    | None => set_phase ClusterPhaseProvisioning c
    end in
  if negb (NotDeleted c) then set_phase ClusterPhaseDeleting c else c.
Definition reconcilePhase : prog ClusterScope unit :=
  modify (λ s, s <| HCICluster ::= reconcile_phase |>).

Definition Reconcile (req : NamespacedName) : prog unit (Result * option error) :=
  try hciCluster <- call (KGet KCluster req) iferr err then
    (if IsNotFound err then ret (no_result, None) else ret (no_result, Some err)) ;;
  try owner <- call (GetOwnerCluster (hc_meta hciCluster)) iferr err then
    ret (no_result, Some err) ;;
  match owner with
  | None => ret (mkResult true Minute, None)
  | Some cluster =>
      try scope <- NewClusterScope (Some cluster) (Some hciCluster) iferr err then
        (call (Eventf (mkObjectRef KCluster (mkNN (GetNamespace hciCluster)
                                                  (GetName hciCluster)))
                 "Warning" "CreateClusterScopeFailed"
                 (Error (ErrWrap err "failed to create cluster scope")) []) ;;
         ret (no_result, Some (ErrNew ("failed to create scope: " +:+ plus_v_error err)))) ;;
      run_in scope (with_close (reconcilePhase ;; Close)
        (if NotDeleted hciCluster then reconcileNormal else reconcileDelete))
  end.
End Controller.
End ClusterController.

(** The symbolic execution goes through the controller's small programs. *)
Ltac wp_cluster :=
  lazymatch goal with
  | |- wp _ (ClusterController.record _ _ _ _) _ _ _ => unfold ClusterController.record
  | |- wp _ (ClusterController.network_condition _ _ _) _ _ _ =>
      unfold ClusterController.network_condition
  | |- wp _ (GetAzureStackHCIMachinesInCluster _ _) _ _ _ =>
      unfold GetAzureStackHCIMachinesInCluster
  | |- wp _ ClusterScope.Close _ _ _ => unfold ClusterScope.Close
  | |- wp _ ClusterScope.PatchObject _ _ _ => unfold ClusterScope.PatchObject
  end.
Ltac wp_hook ::= first [wp_telemetry | wp_deref_first | wp_set_condition | wp_cluster].
