(* ===== verification/ClusterOutcome.v ===== *)
(** * What the cluster controller reports

    When a cluster is provisioned and what is in the agent then, how its endpoint is set, and
    a cluster whose load balancer was just made. *)
From stdpp Require Import prelude strings list gmap.
From S2P Require Import Prelude GoStd External Api Effects Util Naming Scope Example.
From S2P Require Import Telemetry Interfaces Services NetServices VMService.
From S2P Require Import VirtualMachine VMOutcome Machine LBScaling LBOutcome Cluster.
Local Open Scope prog_scope.
Ltac wp_hook ::= first [wp_telemetry | wp_deref_first | wp_set_condition | wp_cluster].

(** ** The services of a cluster *)
Section ClusterServices.
Context {L : Libs} {LL : LibLaws L}.
Import ClusterScope ClusterReconciler.

(** The agent has answered with the object, or accepted it. *)
Definition in_agent (k : moc_kind) (path : list string) (e : event) : Prop :=
  match e with
  | Ev c r =>
      match c in Call R return R → Prop with
      | MocGet _ k' path' => λ r, k' = k ∧ path' = path ∧ ∃ x, r = inr x
      | MocGetVirtualNetwork _ path' =>
          λ r, k = MVirtualNetwork ∧ path' = path ∧ r.2 = None
      | MocCreateOrUpdate _ k' path' _ => λ r, k' = k ∧ path' = path ∧ r = None
      | _ => λ _, False
      end r
  end.
Local Notation silent_kube new := (Forall (ev_is (@is_agent)) new).

(** What a service that creates what is missing does *)
Definition ensures (k : moc_kind) (path : ClusterScope → list string)
    (reconcile : prog ClusterScope (option error)) : Prop :=
  ∀ env s t Q,
    (∀ o new, silent_kube new → o ≠ NoFuel →
       (o = Ok None → Exists (in_agent k (path s)) new) → Q o s (new ++ t)) →
    wp env reconcile Q s t.

Lemma telemetry_agent new : Forall (ev_is (@is_telemetry)) new → silent_kube new.
Proof. intros H. eapply Forall_impl; [exact H|]. by intros [R [] ?]. Qed.
Hint Resolve telemetry_agent : core.
Ltac service_done HQ t :=
  lazymatch goal with
  | |- ?Q _ _ ?tr => let p := events_above tr t in
      replace tr with (p ++ t) by (by simpl; rewrite <-?app_assoc; simpl; rewrite <-?app_assoc);
      apply HQ; [forall_auto|done|intros ?; simplify_eq; seek]
  end.
Lemma groups_ensure g :
  ensures MGroup (λ _, [group_Location g; group_Name g]) (groups.Reconcile (IGroupsSpec g)).
Proof.
  intros env s t Q HQ. unfold groups.Reconcile, groups.Get. wp_run; service_done HQ t.
Qed.
Lemma keyvaults_ensure v :
  ensures MKeyVault (λ s, [GetResourceGroup s; vault_Name v])
    (keyvaults.Reconcile (IKeyVaultsSpec v)).
Proof.
  intros env s t Q HQ. unfold keyvaults.Reconcile, keyvaults.Get. wp_run; service_done HQ t.
Qed.
Lemma virtualnetworks_ensure v :
  ensures MVirtualNetwork (λ _, [vnetsp_Group v; vnetsp_Name v])
    (virtualnetworks.Reconcile (IVirtualNetworksSpec v)).
Proof.
  intros env s t Q HQ. unfold virtualnetworks.Reconcile, virtualnetworks.Get.
  wp_run; service_done HQ t.
Qed.

(** The agent has the services of the cluster. *)
Definition services_in_agent (s : ClusterScope) (t : trace) : Prop :=
  Exists (in_agent MVirtualNetwork [vnetsp_Group (vnet_spec s); vnet_Name (Vnet s)]) t ∧
  Exists (in_agent MGroup [Location s; GetResourceGroup s]) t ∧
  Exists (in_agent MKeyVault [GetResourceGroup s; Name s]) t.
Lemma services_in_agent_above s new t :
  services_in_agent s t → services_in_agent s (new ++ t).
Proof. unfold services_in_agent. rewrite !Exists_app. tauto. Qed.

Lemma createOrUpdateVnetName_named (s : ClusterScope) :
  vnet_Name (Vnet (createOrUpdateVnetName s)) =
    if decide (vnet_Name (Vnet s) = "") then GenerateVnetName (Name s)
    else vnet_Name (Vnet s).
Proof. unfold createOrUpdateVnetName. by case_decide. Qed.

Lemma wp_services_Reconcile env Q (s : ClusterScope) t :
  (∀ o new, silent_kube new → o ≠ NoFuel →
     (o = Ok None → services_in_agent (createOrUpdateVnetName s) new) →
     Q o (createOrUpdateVnetName s) (new ++ t)) →
  wp env (Reconcile newAzureStackHCIClusterReconciler) Q s t.
Proof.
  intros HQ. unfold Reconcile. do 4 wp_step. change (id ?x) with x.
  set (s1 := createOrUpdateVnetName s) in *. wp_step.
  cbn [svc_Reconcile vnetSvc groupSvc keyvaultSvc newAzureStackHCIClusterReconciler
       virtualnetworks.NewService groups.NewService keyvaults.NewService].
  apply virtualnetworks_ensure. intros o n1 Hn1 Ho H1.
  destruct o as [[e|]|w|]; cbv beta iota; [wp_run; by apply HQ| |by apply HQ|done].
  specialize (H1 eq_refl). wp_step.
  apply groups_ensure. intros o n2 Hn2 Ho2 H2.
  destruct o as [[e|]|w|]; cbv beta iota; [wp_run| | |done];
    try (rewrite app_assoc; apply HQ; [by apply Forall_app|done|done]).
  specialize (H2 eq_refl). wp_step.
  apply keyvaults_ensure. intros o n3 Hn3 Ho3 H3.
  destruct o as [[e|]|w|]; cbv beta iota; [wp_run|wp_run| |done];
    (rewrite !app_assoc; apply HQ; [by repeat (apply Forall_app; split)|done|]); try done.
  intros _. specialize (H3 eq_refl). unfold services_in_agent. rewrite !Exists_app. tauto.
Qed.
End ClusterServices.

(** ** When the cluster is provisioned *)
Section ClusterReady.
Context {L : Libs} {LL : LibLaws L}.
Import ClusterScope ClusterReconciler ClusterController.

Definition network_because (s : ClusterScope) (status reason msg : string) : Prop :=
  has_condition (GetConditions (HCICluster s)) NetworkInfrastructureReadyCondition
    status reason msg.
Definition initialization (s : ClusterScope) := cst_Initialization (hc_Status (HCICluster s)).
Definition endpoint (s : ClusterScope) : clusterv1.APIEndpoint :=
  cs_ControlPlaneEndpoint (hc_Spec (HCICluster s)).

(** What CreateOrUpdate said of the load balancer resource of the cluster *)
Definition lb_answered (lb : AzureStackHCILoadBalancer) (err : option error) (e : event)
    : Prop :=
  (∃ obj op, e = Ev (KCouEnd KLoadBalancer obj) (op, err, lb)) ∨
  (∃ e', e = Ev (KCouBegin KLoadBalancer lb) (CouFailed e') ∧ err = Some e').
(** The resource was written, or exists already. *)
Definition accepted (err : option error) : Prop :=
  match err with None => True | Some e => IsAlreadyExists e = true end.

Definition not_changed (s s' : ClusterScope) : Prop :=
  initialization s' = initialization s ∧ endpoint s' = endpoint s.

(** What becomes of the endpoint *)
Definition endpoint_from (lb : AzureStackHCILoadBalancer) (s s' : ClusterScope) : Prop :=
  endpoint s' =
    if decide (lst_Address (lb_Status lb) = "") then endpoint s
    else clusterv1.mkAPIEndpoint (lst_Address (lb_Status lb)) (APIServerPort s).

Definition lb_outcome (s : ClusterScope) (o : bool * option error) (s' : ClusterScope)
    (new : trace) : Prop :=
  match LoadBalancerSpec s with
  | None => o = (true, None) ∧ s' = s ∧ new = []
  | Some _ =>
      ∃ lb err, Exists (lb_answered lb err) new ∧
      match o with
      | (true, e) => e = None ∧ accepted err ∧ endpoint_from lb s s' ∧
          conditions_IsFalse (GetConditions lb) LoadBalancerInfrastructureReadyCondition
            = false ∧ initialization s' = initialization s
      | (false, None) => accepted err ∧ not_changed s s' ∧ ∃ c,
          conditions_Get (GetConditions lb) LoadBalancerInfrastructureReadyCondition = Some c
          ∧ metav1.c_Status c = metav1.ConditionFalse ∧
          network_because s' metav1.ConditionFalse (metav1.c_Reason c) (metav1.c_Message c)
      | (false, Some e) => err = Some e ∧ ¬ accepted err ∧ not_changed s s' ∧
          network_because s' metav1.ConditionFalse LoadBalancerProvisioningReason (Error e)
      end
  end.

Lemma wp_lb_CreateOrUpdate env spec lb Q (s : ClusterScope) t :
  (∀ op err lb' new, Exists (lb_answered lb' err) new →
     Forall (ev_not (@is_moc_write)) new → Q (Ok (op, err, lb')) s (new ++ t)) →
  wp env (CreateOrUpdate KLoadBalancer lb (mutateFn spec)) Q s t.
Proof.
  intros HQ. apply wp_CreateOrUpdate.
  - intros e. apply_above HQ t; [|by repeat constructor].
    apply Exists_cons_hd. right. by eexists.
  - intros found cur _. unfold mutateFn. wp_run. intros [[op err] lb'].
    apply_above HQ t; [|by repeat constructor].
    apply Exists_cons_hd. left. by eexists _, _.
Qed.

(** The record of a change, when there is one *)
Lemma wp_crd_change {S} env op cr res err Q (s : S) t :
  (∀ new, Forall (ev_is (@is_telemetry)) new → Q (Ok tt) s (new ++ t)) →
  wp env (if IsCRDUpdate op then
            (let '(operation, resourceType) := ConvertOperationResult op in
             RecordHybridAKSCRDChange cr res operation resourceType NoParams err)
          else ret tt) Q s t.
Proof. intros HQ. wp_run; [by apply HQ|by apply (HQ [])]. Qed.

Lemma telemetry_no_moc_write new :
  Forall (ev_is (@is_telemetry)) new → Forall (ev_not (@is_moc_write)) new.
Proof. intros H. eapply Forall_impl; [exact H|]. by intros [R [] ?]. Qed.
Hint Resolve telemetry_no_moc_write : core.

Lemma wp_reconcileLoadBalancer env Q (s : ClusterScope) t :
  (∀ o s' new, lb_outcome s o s' new → Forall (ev_not (@is_moc_write)) new →
     Q (Ok o) s' (new ++ t)) →
  wp env reconcileAzureStackHCILoadBalancer Q s t.
Proof.
  intros HQ. unfold reconcileAzureStackHCILoadBalancer, lb_outcome in *.
  do 2 wp_step. change (id s) with s. destruct (LoadBalancerSpec s) as [spec|].
  2: { wp_step. by apply (HQ _ _ []). }
  wp_step. apply wp_lb_CreateOrUpdate. intros op err lb new Hlb Hnew. cbv beta iota.
  change (kobj KLoadBalancer) with AzureStackHCILoadBalancer in *.
  wp_step. apply wp_crd_change. intros new2 Hnew2. cbv beta iota.
  assert (Hacc : match (match err with
            | Some e => if IsAlreadyExists e then None else Some e | None => None end) with
          | Some e => err = Some e ∧ ¬ accepted err
          | None => accepted err end).
  { destruct err as [e|]; [|done]. simpl. by destruct (IsAlreadyExists e) eqn:He. }
  destruct (match err with Some _ => _ | None => _ end) as [e|] eqn:Eerr.
  { wp_run. apply_above HQ t; [|forall_auto].
    exists lb, err. split; [apply Exists_cons_tl, Exists_app; by right|].
    destruct Hacc. split_and!; try done. apply has_condition_set. }
  wp_step.
  - rewrite conditions_IsFalse_Get in Heqb. revert Heqb.
    destruct (conditions_Get (GetConditions lb) LoadBalancerInfrastructureReadyCondition)
      as [c|] eqn:Ec; [intros Hfalse%bool_decide_eq_true|done].
    cbn [deref]. wp_run. apply_above HQ t; [|forall_auto].
    exists lb, err. split; [apply Exists_cons_tl, Exists_app; by right|].
    split_and!; try done. exists c. split_and!; try done. apply has_condition_set.
  - wp_run; apply_above HQ t; try (by forall_auto); exists lb, err;
      (split; [apply Exists_app; by right|]); split_and!; try done;
      unfold endpoint_from; by case_decide.
Qed.

(** The finalizer is no matter to the services. *)
Lemma services_finalizer f s t :
  services_in_agent (createOrUpdateVnetName (add_finalizer f s)) t →
  services_in_agent (createOrUpdateVnetName s) t.
Proof. unfold createOrUpdateVnetName. change (Vnet (add_finalizer f s)) with (Vnet s).
  by case_decide. Qed.
Lemma not_changed_named f s :
  not_changed s (createOrUpdateVnetName (add_finalizer f s)).
Proof. unfold not_changed, createOrUpdateVnetName. by case_decide. Qed.
Lemma named_same f s :
  LoadBalancerSpec (createOrUpdateVnetName (add_finalizer f s)) = LoadBalancerSpec s ∧
  APIServerPort (createOrUpdateVnetName (add_finalizer f s)) = APIServerPort s.
Proof. unfold createOrUpdateVnetName. by case_decide. Qed.
Lemma not_changed_trans s1 s2 s3 : not_changed s1 s2 → not_changed s2 s3 → not_changed s1 s3.
Proof. unfold not_changed. intuition congruence. Qed.

(** The endpoint of a cluster that is provisioned, and why *)
Definition ready_endpoint (s s' : ClusterScope) (t : trace) : Prop :=
  match LoadBalancerSpec s with
  | None => endpoint s' = endpoint s
  | Some _ => ∃ lb err, Exists (lb_answered lb err) t ∧ accepted err ∧ endpoint_from lb s s' ∧
      conditions_IsFalse (GetConditions lb) LoadBalancerInfrastructureReadyCondition = false
  end.
(** The load balancer says why it is not ready, and the cluster repeats it. *)
Definition waits_for_lb (s' : ClusterScope) (t : trace) : Prop :=
  ∃ lb err c, Exists (lb_answered lb err) t ∧ accepted err ∧
    conditions_Get (GetConditions lb) LoadBalancerInfrastructureReadyCondition = Some c ∧
    metav1.c_Status c = metav1.ConditionFalse ∧
    network_because s' metav1.ConditionFalse (metav1.c_Reason c) (metav1.c_Message c).
Definition patch_failed (e : error) (t : trace) : Prop :=
  ∃ before obj owned, t = [Ev (KPatch KCluster before obj owned) (Some e)].

(** What is true after a reconciliation of a cluster *)
Definition normal_outcome (s : ClusterScope) (o : outcome (Result * option error))
    (s' : ClusterScope) (t' : trace) : Prop :=
  match o with
  | Ok (res, None) =>
      services_in_agent (createOrUpdateVnetName s) t' ∧
      (res = no_result ∧ initialization s' = Some (mkInitializationStatus (Some true)) ∧
       network_because s' metav1.ConditionTrue InfrastructureReadyReason "" ∧
       has_condition (GetConditions (HCICluster s')) clusterv1.ReadyCondition
         metav1.ConditionTrue InfrastructureReadyReason "" ∧ ready_endpoint s s' t' ∨
       res = mkResult true (20 * Second) ∧ not_changed s s' ∧ waits_for_lb s' t')
  | Ok (res, Some e) =>
      res = no_result ∧ not_changed s s' ∧
      (patch_failed e t' ∧ GetConditions (HCICluster s') = GetConditions (HCICluster s) ∨
       network_because s' metav1.ConditionFalse LoadBalancerProvisioningReason (Error e) ∨
       ∃ cause, e = ErrWrap cause "failed to reconcile cluster services" ∧
         network_because s' metav1.ConditionFalse (service_failure_reason cause)
           (Error cause))
  | Panic _ => not_changed s s'
  | NoFuel => False
  end.
Lemma wp_cluster_reconcileNormal env (s : ClusterScope) :
  wp env reconcileNormal (normal_outcome s) s [].
Proof.
  unfold reconcileNormal, normal_outcome. wp_run_to (ClusterReconciler.Reconcile newAzureStackHCIClusterReconciler).
  { split_and!; [done..|]. left. split; [by eexists _, _, _|done]. }
  wp_step. apply wp_services_Reconcile. intros o new Hnew Ho Hsvc.
  pose proof (not_changed_named ClusterFinalizer s) as Hs1.
  set (s1 := createOrUpdateVnetName _) in *.
  destruct o as [[err|]|w|]; cbv beta iota; [| |done..].
  { wp_run. split_and!; [done|exact Hs1|]. right; right. eexists. split; [done|].
    apply has_condition_set. }
  specialize (Hsvc eq_refl). apply services_finalizer in Hsvc.
  wp_step. apply wp_reconcileLoadBalancer. intros [ready e] s2 new2 Hlb _; cbv beta iota.
  rewrite !app_assoc. set (t2 := (new2 ++ new) ++ _) in *.
  assert (Hsvc' : services_in_agent (createOrUpdateVnetName s) t2)
    by (unfold t2; rewrite <-app_assoc; unfold services_in_agent in *; rewrite !Exists_app; tauto).
  assert (Hin : ∀ P, Exists P new2 → Exists P t2)
    by (intros P HP; unfold t2; rewrite !Exists_app; tauto).
  unfold lb_outcome in Hlb. destruct (named_same ClusterFinalizer s) as [Hspec Hport].
  fold s1 in Hspec, Hport. rewrite Hspec in Hlb.
  destruct ready; cbn [negb];
    [|destruct (LoadBalancerSpec s) as [spec|]; [|by destruct Hlb]].
  - wp_run. split; [by apply (services_in_agent_above _ [_; _])|]. left.
    split_and!; [done|done| |apply has_condition_set|].
    + apply has_condition_set_ne; [done|apply has_condition_set].
    + unfold ready_endpoint. destruct (LoadBalancerSpec s) as [spec|].
      * destruct Hlb as (lb&err&Hl1&_&Hl2&Hl3&Hl4&Hl5). exists lb, err.
        split_and!; [by do 2 apply Exists_cons_tl; apply Hin|done| |done].
        unfold endpoint_from in *. rewrite Hport in Hl3. destruct Hs1 as [_ <-]. exact Hl3.
      * destruct Hlb as (_&->&_). apply Hs1.
  - destruct Hlb as (lb&err&Hl1&Hl2). destruct e as [e|]; wp_run.
    + destruct Hl2 as (_&_&Hl3&Hl4). split_and!; [done|by eapply not_changed_trans|].
      by right; left.
    + destruct Hl2 as (Hl2&Hl3&c&Hl4&Hl5&Hl6). split; [done|]. right.
      split_and!; [done|by eapply not_changed_trans|]. exists lb, err, c. auto.
Qed.
(** C15: A reconciliation of a cluster that returns without an error leaves the virtual network,
    the group and the key vault of the cluster in the agent. The cluster is then provisioned
    and ready, with the address of its load balancer as the endpoint when it has one and the
    old endpoint otherwise, provided the load balancer resource does not say that it is not
    ready; if it says so, the cluster repeats its reason and asks again in 20 seconds. When a
    reconciliation fails or panics, whether the cluster is provisioned and its endpoint are as
    before. A service or the load balancer resource that failed is then in the condition of
    the network infrastructure, with a reason and the message of the error; an error of the
    patch of the finalizer, after which nothing else is called, leaves the conditions alone.
    What the conditions are after a panic is left open. *)
Theorem cluster_reconcileNormal_outcome env (s : ClusterScope) :
  wp env reconcileNormal (λ o s' t',
    match o with
    | Ok (res, None) =>
        services_in_agent (createOrUpdateVnetName s) t' ∧
        (res = no_result ∧ initialization s' = Some (mkInitializationStatus (Some true)) ∧
         network_because s' metav1.ConditionTrue InfrastructureReadyReason "" ∧
         has_condition (GetConditions (HCICluster s')) clusterv1.ReadyCondition
           metav1.ConditionTrue InfrastructureReadyReason "" ∧ ready_endpoint s s' t' ∨
         res = mkResult true (20 * Second) ∧ not_changed s s' ∧ waits_for_lb s' t')
    | Ok (res, Some e) =>
        res = no_result ∧ not_changed s s' ∧
        (patch_failed e t' ∧ GetConditions (HCICluster s') = GetConditions (HCICluster s) ∨
         network_because s' metav1.ConditionFalse LoadBalancerProvisioningReason (Error e) ∨
         ∃ cause, e = ErrWrap cause "failed to reconcile cluster services" ∧
           network_because s' metav1.ConditionFalse (service_failure_reason cause)
             (Error cause))
    | Panic _ => not_changed s s'
    | NoFuel => False
    end) s [].
Proof. apply wp_cluster_reconcileNormal. Qed.

(** *** A load balancer that was just made *)
(** The API server makes the load balancer of the cluster as it is asked to. *)
Definition makes_load_balancer (env : Env) : Prop :=
  ∀ t obj, env t _ (KCouBegin KLoadBalancer obj) = CouNew ∧
           env t _ (KCouEnd KLoadBalancer obj) = (OperationResultCreated, None, obj).
Definition lb_created (e : event) : Prop :=
  ∃ lb, e = Ev (KCouEnd KLoadBalancer lb) (OperationResultCreated, None, lb).

Lemma no_conditions_not_false ty : conditions_IsFalse [] ty = false.
Proof.
  rewrite conditions_IsFalse_Get. destruct (conditions_Get [] ty) eqn:E; [|done].
  apply conditions_Get_In in E. by apply elem_of_nil in E.
Qed.
Lemma wp_new_load_balancer env spec Q (s : ClusterScope) t :
  makes_load_balancer env → LoadBalancerSpec s = Some spec →
  (∀ new, Exists lb_created new → Q (Ok (true, None)) s (new ++ t)) →
  wp env reconcileAzureStackHCILoadBalancer Q s t.
Proof.
  intros Henv Hspec HQ. unfold reconcileAzureStackHCILoadBalancer. do 2 wp_step.
  change (id s) with s. rewrite Hspec. wp_step.
  unfold CreateOrUpdate, mutateFn. do 2 wp_step. rewrite (proj1 (Henv _ _)) in *. subst r.
  do 5 wp_step. change (id s) with s. do 3 wp_step.
  rewrite (proj2 (Henv _ _)) in H. simplify_eq.
  match goal with |- context [CopyCorrelationID ?a ?b] => set (lb := CopyCorrelationID a b) in * end.
  assert (Hst : lb_Status lb = zero_LoadBalancerStatus)
    by (unfold lb, CopyCorrelationID; by case_decide).
  apply wp_crd_change. intros new Hnew. cbv beta iota.
  change (GetConditions lb) with (lst_Conditions (lb_Status lb)). rewrite Hst.
  cbn [lst_Conditions lst_Address zero_LoadBalancerStatus]. rewrite no_conditions_not_false.
  wp_run; [|done]. apply_above HQ t. apply Exists_app. right. apply Exists_cons_hd.
  by eexists.
Qed.

(** C39: When the API server makes the load balancer resource of a cluster that had none, the
    same reconciliation marks the cluster as provisioned and ready, although the load balancer
    has no condition and no address yet: the endpoint of the cluster stays as it was, which is
    empty in a new cluster, and the reconciliation does not ask to be repeated. *)
Theorem cluster_ready_without_endpoint env (s : ClusterScope) spec :
  makes_load_balancer env → LoadBalancerSpec s = Some spec →
  wp env reconcileNormal (λ o s' t',
    match o with
    | Ok (res, None) =>
        Exists lb_created t' ∧ res = no_result ∧
        initialization s' = Some (mkInitializationStatus (Some true)) ∧
        has_condition (GetConditions (HCICluster s')) clusterv1.ReadyCondition
          metav1.ConditionTrue InfrastructureReadyReason "" ∧
        endpoint s' = endpoint s
    | _ => True
    end) s [].
Proof.
  intros Henv Hspec. unfold reconcileNormal.
  wp_run_to (ClusterReconciler.Reconcile newAzureStackHCIClusterReconciler); [done|].
  wp_step. apply wp_services_Reconcile. intros o new _ _ _.
  pose proof (not_changed_named ClusterFinalizer s) as [_ He].
  destruct (named_same ClusterFinalizer s) as [Hs _]. set (s1 := createOrUpdateVnetName _) in *.
  destruct o as [[err|]|w|]; cbv beta iota; [by wp_run| |done..].
  wp_step. eapply wp_new_load_balancer; [done|by rewrite Hs|]. intros new2 Hlb.
  cbn [negb]. wp_run. split_and!; [|done..| |exact He].
  - do 2 apply Exists_cons_tl. apply Exists_app. by left.
  - apply has_condition_set.
Qed.
End ClusterReady.

(** ** Concrete runs *)
Lemma cluster_reconcileNormal_outcome_witness :
  let '(o, s', t') := ClusterController.reconcileNormal (L:=Ref.ref_libs) ex_env
                        ex_cluster_scope [] in
  o = Ok (no_result, None) ∧
  services_in_agent (ClusterReconciler.createOrUpdateVnetName ex_cluster_scope) t' ∧
  initialization s' = Some (mkInitializationStatus (Some true)).
Proof.
  pose proof (cluster_reconcileNormal_outcome (LL:=Ref.ref_laws) ex_env ex_cluster_scope) as H.
  assert (Hc : (ClusterController.reconcileNormal (L:=Ref.ref_libs) ex_env
                  ex_cluster_scope []).1.1 = Ok (no_result, None))
    by (vm_compute; reflexivity).
  destruct (ClusterController.reconcileNormal _ _ _) as [[o s'] t'] eqn:E.
  apply (wp_elim _ _ _ _ _ _ _ _ E) in H. simpl in Hc. subst o.
  destruct H as [H [(_&Hi&_)|(Hr&_)]]; [|discriminate Hr].
  split; [reflexivity|]. split; [exact H|exact Hi].
Defined.

Lemma cluster_ready_without_endpoint_witness :
  let '(o, s', _) := ClusterController.reconcileNormal (L:=Ref.ref_libs) ex_env
                       ex_cluster_scope [] in
  o = Ok (no_result, None) ∧
  initialization s' = Some (mkInitializationStatus (Some true)) ∧
  endpoint s' = clusterv1.mkAPIEndpoint "" 0.
Proof.
  pose proof (cluster_ready_without_endpoint (LL:=Ref.ref_laws) ex_env ex_cluster_scope
                (zero_LoadBalancerSpec <| lbs_Replicas := Some 1%Z |>)) as H.
  assert (Hc : (ClusterController.reconcileNormal (L:=Ref.ref_libs) ex_env
                  ex_cluster_scope []).1.1 = Ok (no_result, None))
    by (vm_compute; reflexivity).
  destruct (ClusterController.reconcileNormal _ _ _) as [[o s'] t'] eqn:E.
  apply (wp_elim _ _ _ _ _ _ _ _ E) in H; [|intros t0 obj; split; reflexivity|reflexivity].
  simpl in Hc. subst o. destruct H as (_&_&Hi&_&He).
  split; [reflexivity|]. split; [exact Hi|exact He].
Defined.
