(* ===== verification/Termination.v ===== *)
(** * Termination

    The only loop of the controllers whose bound is not the length of a list is the one that
    scales a load balancer up to its maximum; the model runs it with fuel, which is enough
    ([LBScaling.scale_up_to_max_spec]). This file carries that over to whole handlers, for the
    theorems that speak of every run of one. *)
From stdpp Require Import prelude strings list gmap.
From S2P Require Import Prelude GoStd External Api Effects Util Naming.
From S2P Require Import Auth Scope Example Telemetry Interfaces Services NetServices VMService.
From S2P Require Import VirtualMachine Machine LoadBalancer LBScaling Cluster.
Local Open Scope prog_scope.

(** A program never stops for want of fuel. *)
Definition halts {S A} (m : prog S A) : Prop := ∀ env s t, (m env s t).1.1 ≠ NoFuel.
Create HintDb halts discriminated.
#[export] Hint Constants Opaque : halts.

Section Rules.
Context {S : Type}.
Lemma halts_ret {A} (a : A) : halts (S:=S) (ret a).
Proof. done. Qed.
Lemma halts_panic {A} why : halts (S:=S) (A:=A) (panic why).
Proof. done. Qed.
Lemma halts_gets {A} (f : S → A) : halts (gets f).
Proof. done. Qed.
Lemma halts_modify (f : S → S) : halts (modify f).
Proof. done. Qed.
Lemma halts_call {R} (c : Call R) : halts (S:=S) (call c).
Proof. done. Qed.
Lemma halts_deref {A} (p : option A) what : halts (S:=S) (deref p what).
Proof. by destruct p. Qed.
Lemma halts_bind {A B} (m : prog S A) (k : A → prog S B) :
  halts m → (∀ a, halts (k a)) → halts (bind m k).
Proof.
  intros Hm Hk env s t. unfold bind. specialize (Hm env s t).
  destruct (m env s t) as [[[a|w|] s'] t']; simpl in *; [apply Hk|done..].
Qed.
Lemma halts_for_each {A R} (l : list A) (body : A → prog S (option R)) :
  (∀ x, halts (body x)) → halts (for_each l body).
Proof.
  intros Hb. induction l as [|x l IH]; simpl; [done|].
  apply halts_bind; [done|]. by intros [].
Qed.
Lemma halts_deferred {A} (zero : A) f m :
  halts m → (∀ a, halts (f a)) → halts (S:=S) (deferred zero f m).
Proof.
  intros Hm Hf env s t. unfold deferred. specialize (Hm env s t).
  destruct (m env s t) as [[[a|w|] s'] t']; simpl in *; [apply Hf| |done].
  by destruct (f zero env s' t') as [[[] ?] ?].
Qed.
Lemma halts_run_in {S' A} (s0 : S') (m : prog S' A) : halts m → halts (S:=S) (run_in s0 m).
Proof.
  intros Hm env s t. unfold run_in. specialize (Hm env s0 t). by destruct (m env s0 t) as [[]].
Qed.
Lemma halts_zoom {S' A} view upd (m : prog S' A) : halts m → halts (S:=S) (zoom view upd m).
Proof.
  intros Hm env s t. unfold zoom. specialize (Hm env (view s) t).
  by destruct (m env (view s) t) as [[]].
Qed.
Lemma halts_poll n (condition : prog S (error + bool)) :
  halts condition → halts (poll n condition).
Proof.
  intros Hc. induction n as [|n IH]; simpl; (apply halts_bind; [done|]);
    intros [e|[]]; done.
Qed.
Lemma halts_with_close close (body : prog S (Result * option error)) :
  halts close → halts body → halts (with_close close body).
Proof.
  intros Hc Hb. apply halts_deferred; [done|]. intros [r e].
  apply halts_bind; [done|]. by intros.
Qed.
Lemma halts_CreateOrUpdate k obj (mutate : kobj k → prog S (option error * kobj k)) :
  (∀ o, halts (mutate o)) → halts (CreateOrUpdate k obj mutate).
Proof.
  intros Hm. apply halts_bind; [done|]. intros [e| |o]; [done|..];
    (apply halts_bind; [done|]); by intros [[] ?].
Qed.
End Rules.
Ltac halts_step :=
  lazymatch goal with
  | |- halts (ret _) => apply halts_ret
  | |- halts (panic _) => apply halts_panic
  | |- halts (gets _) => apply halts_gets
  | |- halts (modify _) => apply halts_modify
  | |- halts (call _) => apply halts_call
  | |- halts (deref _ _) => apply halts_deref
  | |- halts (bind _ _) => apply halts_bind; [|intros ?]
  | |- halts (for_each _ _) => apply halts_for_each; intros ?
  | |- halts (deferred _ _ _) => apply halts_deferred; [|intros ?]
  | |- halts (run_in _ _) => apply halts_run_in
  | |- halts (zoom _ _ _) => apply halts_zoom
  | |- halts (poll _ _) => apply halts_poll
  | |- halts (with_close _ _) => apply halts_with_close
  | |- halts (CreateOrUpdate _ _ _) => apply halts_CreateOrUpdate; intros ?
  | |- halts (match ?x with _ => _ end) => destruct x
  | |- halts ((match ?x with _ => _ end) _) => destruct x
  | |- halts (let _ := _ in _) => cbv zeta
  end.
(** An operation reached through a table of services is the operation of the service. *)
Ltac open_service :=
  lazymatch goal with
  | |- halts (svc_Reconcile _ _) => idtac
  | |- halts (svc_Delete _ _) => idtac
  | |- halts (gsvc_Get _ _) => idtac
  | |- halts (gsvc_Reconcile _ _) => idtac
  | |- halts (gsvc_Delete _ _) => idtac
  end;
  progress cbn [svc_Reconcile svc_Delete gsvc_Get gsvc_Reconcile gsvc_Delete
    ClusterReconciler.vnetSvc ClusterReconciler.groupSvc ClusterReconciler.keyvaultSvc
    ClusterReconciler.newAzureStackHCIClusterReconciler
    VMReconciler.networkInterfacesSvc VMReconciler.virtualMachinesSvc VMReconciler.disksSvc
    VMReconciler.newAzureStackHCIVirtualMachineService
    virtualnetworks.NewService groups.NewService keyvaults.NewService disks.NewService
    networkinterfaces.NewService virtualmachines.NewService loadbalancers.NewService].
(** The head of a program that has no rule is unfolded. *)
Ltac halts_auto :=
  repeat first [open_service | halts_step | solve [eauto 2 with halts nocore]
    | lazymatch goal with
      | |- halts ?m =>
          let h := head_of m in
          lazymatch h with
          | Prelude.while_loop => fail
          | _ => unfold h
          end
      end].

(** Of a program that halts, only the runs that answer or panic have to be considered. *)
Lemma wp_halts {S A} env (m : prog S A) Q (s : S) t :
  halts m → wp env m (λ o s' t', o ≠ NoFuel → Q o s' t') s t → wp env m Q s t.
Proof.
  intros Hm. specialize (Hm env s t). unfold wp.
  destruct (m env s t) as [[o s'] t']. simpl in *. auto.
Qed.

Section Parts.
Context {L : Libs} {S : Type}.
Lemma halts_random n : halts (S:=S) (RandomAlphaNumericString n).
Proof. induction n; simpl; halts_auto. Qed.
Lemma halts_ip_configs nicName i l :
  halts (VMReconciler.ip_configs nicName i l).
Proof. revert i. induction l as [|p l IH]; intros i; simpl; halts_auto. Qed.
End Parts.
#[export] Hint Resolve halts_random halts_ip_configs : halts.

(** The services: those that ask the agent a bounded number of times *)
Section Services.
Context {L : Libs} {S : Type} `{ScopeInterface S}.
Lemma halts_groups_Reconcile i : halts (groups.Reconcile (S:=S) i).
Proof. destruct i; halts_auto. Qed.
Lemma halts_groups_Delete i : halts (groups.Delete (S:=S) i).
Proof. destruct i; halts_auto. Qed.
Lemma halts_keyvaults_Reconcile i : halts (keyvaults.Reconcile (S:=S) i).
Proof. destruct i; halts_auto. Qed.
Lemma halts_keyvaults_Delete i : halts (keyvaults.Delete (S:=S) i).
Proof. destruct i; halts_auto. Qed.
Lemma halts_disks_Reconcile i : halts (disks.Reconcile (S:=S) i).
Proof. destruct i; halts_auto. Qed.
Lemma halts_disks_Delete i : halts (disks.Delete (S:=S) i).
Proof. destruct i; halts_auto. Qed.
Lemma halts_virtualnetworks_Reconcile i : halts (virtualnetworks.Reconcile (S:=S) i).
Proof. destruct i; halts_auto. Qed.
Lemma halts_virtualnetworks_Delete i : halts (virtualnetworks.Delete (S:=S) i).
Proof. destruct i; halts_auto. Qed.
Lemma halts_networkinterfaces_Reconcile i : halts (networkinterfaces.Reconcile (S:=S) i).
Proof. destruct i; halts_auto. Qed.
Lemma halts_networkinterfaces_Delete i : halts (networkinterfaces.Delete (S:=S) i).
Proof. destruct i; halts_auto. Qed.
Lemma halts_loadbalancers_Reconcile i : halts (loadbalancers.Reconcile (S:=S) i).
Proof. destruct i; halts_auto. Qed.
Lemma halts_loadbalancers_Delete i : halts (loadbalancers.Delete (S:=S) i).
Proof. destruct i; halts_auto. Qed.
Lemma halts_loadbalancers_Get i : halts (loadbalancers.Get (S:=S) i).
Proof. destruct i; halts_auto. Qed.
Lemma halts_virtualmachines_Reconcile i : halts (virtualmachines.Reconcile (S:=S) i).
Proof. destruct i; halts_auto. Qed.
Lemma halts_virtualmachines_Delete i : halts (virtualmachines.Delete (S:=S) i).
Proof. destruct i; halts_auto. Qed.
Lemma halts_virtualmachines_Get i : halts (virtualmachines.Get (S:=S) i).
Proof. destruct i; halts_auto. Qed.
End Services.
#[export] Hint Resolve halts_groups_Reconcile halts_groups_Delete halts_keyvaults_Reconcile
  halts_keyvaults_Delete halts_disks_Reconcile halts_disks_Delete
  halts_virtualnetworks_Reconcile halts_virtualnetworks_Delete
  halts_networkinterfaces_Reconcile halts_networkinterfaces_Delete
  halts_loadbalancers_Reconcile halts_loadbalancers_Delete
  halts_loadbalancers_Get halts_virtualmachines_Reconcile
  halts_virtualmachines_Delete halts_virtualmachines_Get : halts.

Section Controllers.
Context {L : Libs} {LL : LibLaws L}.
Lemma halts_reconcileVirtualMachines cs : halts (LBController.reconcileVirtualMachines cs).
Proof.
  intros env s t.
  pose proof (wp_reconcileVirtualMachines env cs (λ o _ _, o ≠ NoFuel) s t) as H.
  apply H. by intros.
Qed.
Hint Resolve halts_reconcileVirtualMachines : halts.

Lemma halts_cluster_Reconcile req : halts (ClusterController.Reconcile req).
Proof. halts_auto. Qed.
Hint Resolve halts_cluster_Reconcile : halts.

(** In particular the loop that makes machines until the load balancer has its maximum of
    replicas ends before the fuel does, although the counter is an int32. *)
Lemma halts_lb_Reconcile req : halts (LBController.Reconcile req).
Proof. halts_auto. Qed.
End Controllers.
