(* ===== verification/ClusterDelete.v ===== *)
(** * The deletion of a cluster, its phase and its finalizer

    The order in which a cluster goes: machines, load balancer, services, finalizer; which
    machines the controller deletes itself; the phase after every reconciliation. *)
From stdpp Require Import prelude strings list gmap.
From S2P Require Import Prelude GoStd External Api Effects Util Naming.
From S2P Require Import Scope Example Telemetry Interfaces Services NetServices VMService.
From S2P Require Import VirtualMachine VMOutcome Machine LBScaling LBOutcome Cluster.
From S2P Require Import Termination.
From S2P Require Import ClusterOutcome.
Local Open Scope prog_scope.
Ltac wp_hook ::= first [wp_telemetry | wp_deref_first | wp_set_condition | wp_cluster].

(** ** The services of a cluster go *)
Section Services.
Context {L : Libs} {LL : LibLaws L}.
Import ClusterScope ClusterReconciler.

(** The agent has confirmed that the object is gone. *)
Definition agent_gone (k : moc_kind) (path : list string) (e : event) : Prop :=
  ∃ d, moc_delete_of e = Some d ∧ d.1 = (k, path) ∧ gone d.
(** The network is gone, or the controller leaves it to its owner. *)
Definition vnet_settled (path : list string) (e : event) : Prop :=
  agent_gone MVirtualNetwork path e ∨
  (∃ c v err, e = Ev (MocGetVirtualNetwork c path) (v, Some err) ∧ ResourceNotFound err = true) ∨
  (∃ c v, e = Ev (MocGetVirtualNetwork c path) (v, None) ∧
     (∀ owner, network.vn_Tags (virtualnetworks.assert_VirtualNetwork (IVnet v))
                 !! virtualnetworks.OWNER = Some (Some owner) → owner = virtualnetworks.CAPH)).
(** The group is gone, or it is not one the provider made. *)
Definition group_settled (path : list string) (e : event) : Prop :=
  agent_gone MGroup path e ∨
  (∃ c err, e = Ev (MocGet c MGroup path) (inl err) ∧ ResourceNotFound err = true) ∨
  (∃ c g gs, e = Ev (MocGet c MGroup path) (inr (Some (g :: gs))) ∧
     cloud.g_Tags g !! groups.TagKeyClusterGroup ≠ Some (Some groups.TagValClusterGroup)).

(** What a deletion does: it asks the agent, and settles the resource when it succeeds or the
    resource is not found. *)
Definition settles (settled : ClusterScope → event → Prop) (k : moc_kind)
    (delete : prog ClusterScope (option error)) : Prop :=
  ∀ env s t Q,
    (∀ o new, Forall (ev_is (@is_agent_delete)) new →
       Forall (λ e, ev_is (@is_moc_delete) e → ev_is (@is_moc_delete_of k) e) new →
       o ≠ NoFuel →
       (∀ err, o = Ok err → unless_not_found err = None → Exists (settled s) new) →
       Q o s (new ++ t)) →
    wp env delete Q s t.

Lemma telemetry_agent_delete new :
  Forall (ev_is (@is_telemetry)) new → Forall (ev_is (@is_agent_delete)) new.
Proof. intros H. eapply Forall_impl; [exact H|]. by intros [R [] ?]. Qed.
Lemma telemetry_deletes_nothing k new :
  Forall (ev_is (@is_telemetry)) new →
  Forall (λ e, ev_is (@is_moc_delete) e → ev_is (@is_moc_delete_of k) e) new.
Proof. intros H. eapply Forall_impl; [exact H|]. by intros [R [] ?]. Qed.
Hint Resolve telemetry_agent_delete telemetry_deletes_nothing : core.

Lemma keyvaults_settles v :
  settles (λ s, agent_gone MKeyVault [GetResourceGroup s; vault_Name v]) MKeyVault
    (keyvaults.Delete (IKeyVaultsSpec v)).
Proof.
  intros env s t Q HQ. apply wp_keyvaults_Delete. intros r n1 n2 Hn1 Hn2.
  set (d := (MKeyVault, [GetResourceGroup s; vault_Name v], r)).
  apply_above HQ t; [forall_auto..|done|].
  intros err [= <-] Hnone. apply Exists_app. right. apply Exists_cons_hd. exists d.
  split_and!; [done|done|]. unfold gone. cbn. destruct r as [e|]; [|done].
  unfold delete_result in Hnone. destruct (ResourceNotFound e) eqn:He; [done|].
  cbn in Hnone. destruct (ResourceNotFound (ErrWrap e _)) eqn:Hw; [|done].
  apply ResourceNotFound_Wrap in Hw. congruence.
Qed.
(** A wrapped not-found error is not found, so a failure that is passed on is none. *)
Lemma wrapped_found e msg :
  ResourceNotFound e = false → unless_not_found (Some (ErrWrap e msg)) ≠ None.
Proof.
  intros He. cbn. destruct (ResourceNotFound (ErrWrap e msg)) eqn:Hw; [|done].
  apply ResourceNotFound_Wrap in Hw. congruence.
Qed.
Lemma not_found_shown e : unless_not_found (Some e) = None → ResourceNotFound e = true.
Proof. cbn. by destruct (ResourceNotFound e). Qed.

(** The end of a branch: the events and the resource they settle *)
Ltac settled_by tac :=
  repeat first [apply Exists_cons_hd; solve [tac] | apply Exists_cons_tl
               | apply Exists_app; right].
Ltac branch HQ t tac :=
  apply_above HQ t;
  [forall_auto|forall_auto|done
  |intros ? [= <-] ?; try (exfalso; by eapply wrapped_found); settled_by tac].
Lemma groups_settles g :
  settles (λ _, group_settled [group_Location g; group_Name g]) MGroup
    (groups.Delete (IGroupsSpec g)).
Proof.
  intros env s t Q HQ. unfold groups.Delete. wp_run;
    repeat match goal with H : bool_decide _ = _ |- _ =>
      first [apply bool_decide_eq_true in H | apply bool_decide_eq_false in H] end;
    branch HQ t ltac:(first
      [ left; eexists (_, _); split_and!; done
      | right; left; eexists _, _; split; [done|by first [assumption|apply not_found_shown]]
      | right; right; eexists _, _, _; split; done ]).
Qed.
Lemma virtualnetworks_settles v :
  settles (λ _, vnet_settled [vnetsp_Group v; vnetsp_Name v]) MVirtualNetwork
    (virtualnetworks.Delete (IVirtualNetworksSpec v)).
Proof.
  intros env s t Q HQ. unfold virtualnetworks.Delete, virtualnetworks.Get. wp_run;
    branch HQ t ltac:(first
      [ left; eexists (_, _); split_and!; done
      | right; left; eexists _, _, _; split; [done|by first [assumption|apply not_found_shown]]
      | right; right; eexists _, _; split; [done|intros owner Ho;
          match goal with Hs : match _ with _ => _ end = true |- _ =>
            rewrite Ho in Hs; by apply bool_decide_eq_true in Hs end] ]).
Qed.

Definition services_gone (s : ClusterScope) (t : trace) : Prop :=
  Exists (agent_gone MKeyVault [GetResourceGroup s; Name s]) t ∧
  Exists (vnet_settled [vnetsp_Group (vnet_spec s); vnet_Name (Vnet s)]) t ∧
  Exists (group_settled [Location s; GetResourceGroup s]) t.
(** The key vault goes first, the group last. *)
Definition services_in_order (s : ClusterScope) (t : trace) : Prop :=
  precedes (agent_gone MKeyVault [GetResourceGroup s; Name s])
    (ev_is (@is_moc_delete_of MVirtualNetwork)) t ∧
  precedes (vnet_settled [vnetsp_Group (vnet_spec s); vnet_Name (Vnet s)])
    (ev_is (@is_moc_delete_of MGroup)) t.

Lemma deletes_other k k' new :
  Forall (λ e, ev_is (@is_moc_delete) e → ev_is (@is_moc_delete_of k) e) new → k ≠ k' →
  Forall (λ e, ¬ ev_is (@is_moc_delete_of k') e) new.
Proof.
  intros HF Hne. eapply Forall_impl; [exact HF|]. intros [R c r]; destruct c; try done.
  unfold ev_is, is_moc_delete_of. intros H H'. specialize (H eq_refl). apply bool_decide_eq_true in H, H'. congruence.
Qed.
Lemma precedes_none P k k' new :
  Forall (λ e, ev_is (@is_moc_delete) e → ev_is (@is_moc_delete_of k) e) new → k ≠ k' →
  precedes P (ev_is (@is_moc_delete_of k')) new.
Proof.
  intros HF Hne. rewrite <-(app_nil_r new).
  apply precedes_app_not; [by eapply deletes_other|apply precedes_nil].
Qed.

Lemma wp_services_Delete env Q (s : ClusterScope) t :
  (∀ o new, Forall (ev_is (@is_agent_delete)) new → o ≠ NoFuel → services_in_order s new →
     (o = Ok None → services_gone s new) → Q o s (new ++ t)) →
  wp env (Delete newAzureStackHCIClusterReconciler) Q s t.
Proof.
  intros HQ. unfold Delete. do 3 wp_step. change (id s) with s.
  cbn [svc_Delete vnetSvc groupSvc keyvaultSvc newAzureStackHCIClusterReconciler
       virtualnetworks.NewService groups.NewService keyvaults.NewService].
  apply keyvaults_settles. intros o1 n1 Ha1 Hd1 Ho1 H1.
  assert (Hord1 : services_in_order s n1) by (split; by eapply precedes_none).
  destruct o1 as [err1|w|]; [|by apply HQ|done]. cbv beta iota.
  specialize (H1 err1 eq_refl). destruct (unless_not_found err1) as [e1|];
    [wp_step; by apply HQ|specialize (H1 eq_refl)]. wp_step.
  apply virtualnetworks_settles. intros o2 n2 Ha2 Hd2 Ho2 H2. rewrite app_assoc.
  assert (Ha12 : Forall (ev_is (@is_agent_delete)) (n2 ++ n1)) by (by apply Forall_app).
  assert (Hord2 : services_in_order s (n2 ++ n1)).
  { split; [apply precedes_above; [exact H1|by eapply precedes_none]|].
    apply precedes_app_not; [by eapply deletes_other|by eapply precedes_none]. }
  destruct o2 as [err2|w|]; [|by apply HQ|done]. cbv beta iota.
  specialize (H2 err2 eq_refl). destruct (unless_not_found err2) as [e2|];
    [wp_step; by apply HQ|specialize (H2 eq_refl)]. wp_step.
  apply groups_settles. intros o3 n3 Ha3 Hd3 Ho3 H3. rewrite app_assoc.
  assert (Hord3 : services_in_order s (n3 ++ n2 ++ n1)).
  { destruct Hord2 as [Hkv Hvn]. split.
    - apply precedes_app_not; [by eapply deletes_other|exact Hkv].
    - apply precedes_above; [apply Exists_app; by left|exact Hvn]. }
  assert (Ha : Forall (ev_is (@is_agent_delete)) (n3 ++ n2 ++ n1)) by (by apply Forall_app).
  destruct o3 as [[err3|]|w|]; [| | |done]; cbv beta iota; [wp_step|wp_step|]; apply HQ; try done.
  intros _. specialize (H3 None eq_refl eq_refl). unfold services_gone.
  rewrite !Exists_app. tauto.
Qed.
End Services.

(** ** The handler *)
Section Handler.
Context {L : Libs} {LL : LibLaws L}.
Import ClusterScope ClusterReconciler ClusterController.

Definition deletes_lb {R} (c : Call R) : bool :=
  match c with KDelete k _ => bool_decide (k = KLoadBalancer) | _ => false end.
(** A deletion that must wait for the machines *)
Definition tears_down {R} (c : Call R) : bool := is_moc_delete c || deletes_lb c.

(** The API server has answered that the cluster has no machines. *)
Definition no_machines (s : ClusterScope) (e : event) : Prop :=
  e = Ev (KList KMachine (GetNamespace (HCICluster s))
            [(clusterv1.ClusterNameLabel, GetName (HCICluster s))]) (inr []).
(** It could not be asked for the load balancer, or has none. *)
Definition lb_unavailable (s : ClusterScope) (e : event) : Prop :=
  ∃ err, e = Ev (KGet KLoadBalancer (lb_key s)) (inl err).

(** What a step of the deletion leaves: the condition is False, the rest is as before. *)
Record deleting (s s' : ClusterScope) : Prop := mkDeleting {
  deleting_condition : ∃ reason msg, network_because s' metav1.ConditionFalse reason msg;
  deleting_cluster : Cluster s' = Cluster s;
  deleting_meta : hc_meta (HCICluster s') = hc_meta (HCICluster s);
  deleting_spec : hc_Spec (HCICluster s') = hc_Spec (HCICluster s) }.
Lemma deleting_trans s1 s2 s3 : deleting s1 s2 → deleting s2 s3 → deleting s1 s3.
Proof. intros [] []. split; congruence. Qed.
Lemma deleting_services s s' t :
  deleting s s' →
  (services_gone s' t → services_gone s t) ∧ (services_in_order s' t → services_in_order s t) ∧
  lb_key s' = lb_key s.
Proof.
  intros [_ Hc Hm Hs]. unfold services_gone, services_in_order, vnet_spec, Vnet, Name, Location,
    lb_key, Namespace, Name. cbn. unfold Vnet. by rewrite Hs, Hc.
Qed.
Lemma wp_network_condition env reason msg Q (s : ClusterScope) t :
  (∀ s' now, deleting s s' → Q (Ok tt) s' (Ev TimeNow now :: t)) →
  wp env (network_condition metav1.ConditionFalse reason msg) Q s t.
Proof.
  intros HQ. wp_run. apply HQ. split; [|done..]. eexists _, _. apply has_condition_set.
Qed.

Lemma orphans_frame ms :
  frame (λ x y, extends (ev_not (@tears_down)) x y ∧ keeps x y) (deleteOrphanedMachines ms).
Proof. apply frame_and; unfold deleteOrphanedMachines, delete_orphan; frame_auto. Qed.

Lemma wp_delete_load_balancer env Q (s : ClusterScope) t :
  (∃ reason msg, network_because s metav1.ConditionFalse reason msg) →
  (∀ r s' new, deleting s s' → Forall (ev_not (@is_moc_delete)) new → Q (Ok r) s' (new ++ t)) →
  wp env reconcileDeleteAzureStackHCILoadBalancer Q s t.
Proof.
  intros Hc HQ. assert (Hs : deleting s s) by by split.
  assert (Hset : ∀ now reason msg, deleting s (s <| HCICluster := SetConditions
      (conditions_Set now (GetConditions (HCICluster s))
         (metav1.cond NetworkInfrastructureReadyCondition metav1.ConditionFalse reason msg))
      (HCICluster s) |>))
    by (intros; split; [eexists _, _; apply has_condition_set|done..]).
  unfold reconcileDeleteAzureStackHCILoadBalancer.
  wp_run; apply_above HQ t; try exact Hs; try apply Hset;
    repeat first [constructor; done | apply Forall_cons; split; [done|] | apply Forall_app; split;
      [eapply Forall_impl; [eassumption|]; by intros [R [] ?]|]].
Qed.

(** How far a deletion went, and in which order *)
Record deletion_order (s : ClusterScope) (t : trace) : Prop := mkDeletionOrder {
  order_machines : precedes (no_machines s) (ev_is (@tears_down)) t;
  order_lb : precedes (lb_unavailable s) (ev_is (@is_moc_delete)) t;
  order_services : services_in_order s t }.
Lemma order_quiet s t : Forall (ev_not (@tears_down)) t → deletion_order s t.
Proof.
  intros Ht. rewrite <-(app_nil_r t).
  split; [| |split]; (apply precedes_app_not; [|apply precedes_nil]);
    (eapply Forall_impl; [exact Ht|]); intros [R c r]; simpl; intros Hc Hc';
    destruct c; try done; congruence.
Qed.
Lemma order_no_delete s new t :
  Exists (no_machines s) t → Forall (ev_not (@is_moc_delete)) new → deletion_order s t →
  deletion_order s (new ++ t).
Proof.
  intros Hm Hn [H1 H2 [H3 H4]].
  split; [by apply precedes_above| |split]; (apply precedes_app_not; [|done]);
    (eapply Forall_impl; [exact Hn|]); intros [R c r]; by destruct c.
Qed.

(** What the finalizer's removal means *)
Definition deletion_complete (s : ClusterScope) (t : trace) : Prop :=
  Exists (no_machines s) t ∧ Exists (lb_unavailable s) t ∧ services_gone s t.

(** The postcondition of a deletion *)
Definition deletion_post (s : ClusterScope) (o : outcome (Result * option error))
    (s' : ClusterScope) (t' : trace) : Prop :=
  deletion_order s t' ∧
  (∃ reason msg, network_because s' metav1.ConditionFalse reason msg) ∧
  (GetFinalizers (HCICluster s') = GetFinalizers (HCICluster s) ∨
   o = Ok (no_result, None) ∧ ClusterFinalizer ∉ GetFinalizers (HCICluster s') ∧
   deletion_complete s t').
Lemma post_kept s o s' t' :
  deletion_order s t' → deleting s s' → deletion_post s o s' t'.
Proof.
  intros Ht [Hc _ Hm _]. split_and!; [done..|]. left.
  unfold GetFinalizers, MetaOf. cbn. by rewrite Hm.
Qed.

Lemma wp_delete_services env (s s1 : ClusterScope) t :
  deleting s s1 → Exists (no_machines s) t → Exists (lb_unavailable s) t →
  Forall (ev_not (@is_moc_delete)) t → deletion_order s t →
  wp env delete_services (deletion_post s) s1 t.
Proof.
  intros Hd Hm Hl Ht Hord. unfold delete_services. do 3 wp_step. change (id s1) with s1.
  apply wp_services_Delete. intros o new Hnew Ho Hin Hgone.
  destruct (deleting_services s s1 new Hd) as (Hg&Hi&_). apply Hi in Hin.
  assert (Ht' : ∀ k, Forall (λ e, ¬ ev_is (@is_moc_delete_of k) e) t).
  { intros k. eapply Forall_impl; [exact Ht|]. intros [R c r]; by destruct c. }
  assert (Hord' : deletion_order s (new ++ t)).
  { split; [by apply precedes_above, Hord|by apply precedes_above, Hord|].
    destruct Hin. split; by apply precedes_under. }
  assert (Hm' : Exists (no_machines s) (new ++ t)) by (apply Exists_app; by right).
  destruct o as [[err|]|w|]; cbv beta iota; [| |by apply post_kept|done].
  - wp_step. unfold record. wp_run. apply (post_kept s _ _ ([_; _] ++ new ++ t)).
    + apply order_no_delete; [done|by repeat constructor|done].
    + eapply deleting_trans; [exact Hd|]. split; [|done..]. eexists _, _.
      apply has_condition_set.
  - specialize (Hgone eq_refl). apply Hg in Hgone. unfold record. wp_run.
    split_and!; [| |right; split_and!; [done|apply RemoveFinalizer_not_in|]].
    + apply (order_no_delete _ [_]); [done|by repeat constructor|done].
    + apply Hd.
    + destruct Hgone as (?&?&?). split_and!; [..|split_and!];
        apply Exists_cons_tl, Exists_app; auto.
Qed.

(** Listing or handling the machines failed. *)
Lemma wp_list_failed env what err (s s1 : ClusterScope) t :
  deleting s s1 → deletion_order s t → Forall (ev_not (@tears_down)) t →
  wp env (let wrappedErr := ErrWrap err what in
     record "Warning" "FailureListMachinesInCluster" (Error wrappedErr) [] ;;
     network_condition metav1.ConditionFalse DeletionFailedReason (Error err) ;;
     ret (no_result, Some wrappedErr)) (deletion_post s) s1 t.
Proof.
  intros Hd Ho Hq. cbv zeta. wp_step. unfold record. do 3 wp_step. wp_step.
  apply wp_network_condition. intros s2 now2 Hd2. wp_step.
  apply post_kept; [|by eapply deleting_trans].
  apply order_quiet. by repeat (apply Forall_cons; split; [done|]).
Qed.

(** C16: A cluster is deleted in order: nothing is deleted in the agent, and the load balancer
    resource is not deleted either, before the API server has answered that the cluster has no
    machines; nothing is deleted in the agent before the load balancer could not be read any
    more; and of the services the network goes only after the key vault is gone, the group only
    after the network is gone or left to its owner. The handler gives up the finalizer only
    when all of that has happened, in one run; until then the finalizers stay. In every case,
    panics included, the condition of the network is False afterwards. *)
Theorem cluster_reconcileDelete_spec env (s : ClusterScope) :
  wp env reconcileDelete (λ o s' t',
    (precedes (no_machines s) (ev_is (@tears_down)) t' ∧
     precedes (lb_unavailable s) (ev_is (@is_moc_delete)) t' ∧ services_in_order s t') ∧
    (∃ reason msg, network_because s' metav1.ConditionFalse reason msg) ∧
    (GetFinalizers (HCICluster s') = GetFinalizers (HCICluster s) ∨
     o = Ok (no_result, None) ∧ ClusterFinalizer ∉ GetFinalizers (HCICluster s') ∧
     Exists (no_machines s) t' ∧ Exists (lb_unavailable s) t' ∧ services_gone s t')) s [].
Proof.
  eapply (wp_mono _ _ (deletion_post s)).
  2: { intros o s' t' ([]&?&Hf). by split_and!. }
  unfold reconcileDelete. wp_step. apply wp_network_condition. intros s1 now Hd1. cbv beta iota.
  pose proof (deleting_meta _ _ Hd1) as Hmeta. do 2 wp_step. change (id s1) with s1.
  assert (Hns : GetNamespace (HCICluster s1) = GetNamespace (HCICluster s) ∧
                GetName (HCICluster s1) = GetName (HCICluster s))
    by (unfold GetNamespace, GetName, MetaOf; cbn; by rewrite Hmeta).
  destruct Hns as [-> ->]. wp_step. unfold GetAzureStackHCIMachinesInCluster. wp_step.
  destruct r as [err|[|m ms]]; cbv beta iota.
  - apply wp_list_failed; [done|apply order_quiet|]; by repeat constructor.
  - wp_step.
    match goal with |- wp _ _ _ _ ?tr => set (t1 := tr) end.
    assert (Hm1 : Exists (no_machines s) t1) by by apply Exists_cons_hd.
    assert (Ho1 : deletion_order s t1) by (apply order_quiet; by repeat constructor).
    apply wp_delete_load_balancer; [apply Hd1|]. intros [err|] s2 new Hd2 Hnew; cbv beta iota.
    { wp_step. apply post_kept; [by apply order_no_delete|by eapply deleting_trans]. }
    assert (Hd : deleting s s2) by by eapply deleting_trans.
    destruct (deleting_services s s1 [] Hd1) as (_&_&->). do 2 wp_step. destruct r as [err|lb].
    + apply wp_delete_services; [done| | | |].
      * apply Exists_cons_tl, Exists_app. by right.
      * apply Exists_cons_hd. by eexists.
      * apply Forall_cons. split; [done|]. apply Forall_app. split; [done|by repeat constructor].
      * apply (order_no_delete s (_ :: new)); [done|by apply Forall_cons|done].
    + wp_step. apply wp_network_condition. intros s3 now2 Hd3. wp_step.
      apply post_kept; [|by eapply deleting_trans].
      apply (order_no_delete s (_ :: _ :: new)); [done| |done].
      by do 2 (apply Forall_cons; split; [done|]).
  - wp_step. eapply wp_by_frame; [apply orphans_frame|]. intros o s2 t2 [(new&Ht2&Hnew) Hk].
    simpl in Ht2. unfold keeps, on_state in Hk. simpl in Hk. subst s2 t2.
    match goal with |- context [new ++ ?tr] => assert (Hq : Forall (ev_not (@tears_down)) (new ++ tr))
      by (apply Forall_app; split; [exact Hnew|by repeat constructor]) end.
    destruct o as [[err|]|w|]; cbv beta iota.
    + by apply wp_list_failed; [|apply order_quiet|].
    + wp_step. apply wp_network_condition. intros s3 now2 Hd3. wp_step.
      apply post_kept; [|by eapply deleting_trans].
      apply order_quiet. by apply Forall_cons.
    + apply post_kept; [by apply order_quiet|done].
    + apply post_kept; [by apply order_quiet|done].
Qed.
End Handler.

(** ** Orphaned machines *)
Section Orphans.
Context {L : Libs} {LL : LibLaws L}.
Import ClusterScope ClusterController.

(** The API server knows no Cluster API machine that owns [m]. *)
Definition ownerless (m : AzureStackHCIMachine) (e : event) : Prop :=
  e = Ev (GetOwnerMachine (hm_meta m)) (inr None).
Definition owned (m : AzureStackHCIMachine) (e : event) : Prop :=
  ∃ owner, e = Ev (GetOwnerMachine (hm_meta m)) (inr (Some owner)).
Definition missing_or_ok (r : option error) : Prop :=
  match r with None => True | Some e => IsNotFound e = true end.
Definition machine_updated (m : AzureStackHCIMachine) (e : event) : Prop :=
  ∃ r, e = Ev (KUpdate KMachine m) r ∧ missing_or_ok r.
Definition machine_deleted (m : AzureStackHCIMachine) (e : event) : Prop :=
  ∃ r, e = Ev (KDelete KMachine m) r ∧ missing_or_ok r.
(** The machine whose deletion an event asks for *)
Definition machine_delete_of (e : event) : option AzureStackHCIMachine :=
  match e with
  | Ev c _ =>
      match c with
      | KDelete k o =>
          match k return kobj k → option AzureStackHCIMachine with
          | KMachine => Some
          | _ => λ _, None
          end o
      | _ => None
      end
  end.
(** What a deletion must come after: the machine is one of the list, the API server knows no
    owner of it, and it carries the correlation id of the cluster. *)
Definition orphan_first (s : ClusterScope) (ms : list AzureStackHCIMachine) (e : event)
    (earlier : trace) : Prop :=
  ∀ obj, machine_delete_of e = Some obj →
    ∃ m, m ∈ ms ∧ obj = CopyCorrelationID (HCICluster s) m ∧
      Exists (ownerless m) earlier ∧ Exists (machine_updated obj) earlier.

Lemma not_a_delete s ms new :
  Forall (ev_not (@is_kdelete)) new → Forall (λ e, ∀ t, orphan_first s ms e t) new.
Proof. intros H. eapply Forall_impl; [exact H|]. intros [R [] r] ? ? ?; done. Qed.

Lemma wp_delete_orphan env m ms Q (s : ClusterScope) t :
  m ∈ ms → each (orphan_first s ms) t →
  (∀ r new, each (orphan_first s ms) (new ++ t) →
     (r = None → Exists (owned m) new ∨
        Exists (machine_deleted (CopyCorrelationID (HCICluster s) m)) new) →
     Q (Ok r) s (new ++ t)) →
  wp env (delete_orphan m) Q s t.
Proof.
  intros Hm Ht HQ. unfold delete_orphan. do 2 wp_step.
  assert (Hquiet : ∀ e, ev_not (@is_kdelete) e → each (orphan_first s ms) (e :: t))
    by (intros e He; apply each_cons; [done|]; by destruct e as [R [] r']).
  destruct r as [err|[owner|]]; cbv beta iota.
  { wp_step. apply (HQ _ [_]); [by apply Hquiet|done]. }
  { wp_step. apply (HQ _ [_]); [by apply Hquiet|]. intros _. left. apply Exists_cons_hd. by eexists. }
  do 2 wp_step. change (id s) with s. do 2 wp_step. rename r into ur.
  set (obj := CopyCorrelationID (HCICluster s) m) in *.
  assert (Hup : each (orphan_first s ms) (Ev (KUpdate KMachine obj) ur ::
                  Ev (GetOwnerMachine (hm_meta m)) (inr None) :: t))
    by (apply each_cons; [by apply Hquiet|]; done).
  assert (Hacc : match (match ur with
            | Some e => if IsNotFound e then None
                        else Some (ErrWrap e ("Failed to update AzureStackHCIMachine "
                                               +:+ GetName obj))
            | None => None end) with Some _ => True | None => missing_or_ok ur end).
  { destruct ur as [e|]; [|done]. simpl. by destruct (IsNotFound e) eqn:He. }
  destruct (match ur with Some _ => _ | None => _ end) as [e|].
  { wp_step. by apply (HQ _ [_; _]). }
  do 2 wp_step.
  assert (Hdel : each (orphan_first s ms) (Ev (KDelete KMachine obj) r ::
                  Ev (KUpdate KMachine obj) ur ::
                  Ev (GetOwnerMachine (hm_meta m)) (inr None) :: t)).
  { apply each_cons; [done|]. intros ? [= <-]. exists m. split_and!; [done..| |].
    - by apply Exists_cons_tl, Exists_cons_hd.
    - apply Exists_cons_hd. by exists ur. }
  wp_step. wp_hook.
  match goal with Hn : Forall (ev_is (@is_telemetry)) ?n |- _ => 
    apply (each_app _ n) in Hdel;
      [|apply not_a_delete; eapply Forall_impl; [exact Hn|]; by intros [R [] ?]] end.
  assert (Hdone : missing_or_ok r → ∀ n, Exists (machine_deleted obj)
      (n ++ [Ev (KDelete KMachine obj) r; Ev (KUpdate KMachine obj) ur;
             Ev (GetOwnerMachine (hm_meta m)) (inr None)])).
  { intros Hr n. apply Exists_app. right. apply Exists_cons_hd. by exists r. }
  wp_run; apply_above HQ t; try (by rewrite <-app_assoc); intros [=]; right; by apply Hdone.
Qed.

(** C40: While a cluster waits for its machines, the controller deletes exactly those that no
    Cluster API machine owns: every deletion it asks for is of a machine of the list, with the
    correlation id of the cluster, after the API server has answered that the machine has no
    owner and has accepted (or not found) the update with that id; and when the loop succeeds,
    each machine of the list had an owner or its deletion was accepted (or not found). The loop
    never panics and leaves the cluster as it is. *)
Theorem deleteOrphanedMachines_spec env ms (s : ClusterScope) :
  wp env (deleteOrphanedMachines ms) (λ o s' t', s' = s ∧ ∃ err, o = Ok err ∧
    each (orphan_first s ms) t' ∧
    (err = None → ∀ m, m ∈ ms → Exists (owned m) t' ∨
       Exists (machine_deleted (CopyCorrelationID (HCICluster s) m)) t')) s [].
Proof.
  unfold deleteOrphanedMachines.
  assert (H : ∀ l t, (∀ m, m ∈ l → m ∈ ms) → each (orphan_first s ms) t →
    wp env (for_each l delete_orphan) (λ o s' t', s' = s ∧ ∃ err new, o = Ok err ∧
      t' = new ++ t ∧ each (orphan_first s ms) t' ∧
      (err = None → ∀ m, m ∈ l → Exists (owned m) new ∨
         Exists (machine_deleted (CopyCorrelationID (HCICluster s) m)) new)) s t).
  { induction l as [|m l IH]; intros t Hl Ht; cbn [for_each].
    { wp_step. split; [done|]. exists None, []. split_and!; [done..|]. set_solver. }
    wp_step. apply (wp_delete_orphan _ _ ms); [apply Hl; by left|done|].
    intros [err|] new Hnew Hm; cbv beta iota.
    { wp_step. split; [done|]. by eexists _, new. }
    eapply wp_mono; [apply IH; [|done]|].
    { intros m' Hm'. apply Hl. by right. }
    intros o s' t' (->&err&new'&->&->&He&Hr). split; [done|].
    exists err, (new' ++ new). rewrite <-app_assoc. split_and!; [done..|].
    intros -> m' [->|Hm']%elem_of_cons; rewrite !Exists_app; [tauto|].
    destruct (Hr eq_refl m' Hm'); tauto. }
  eapply wp_mono; [by apply H, each_nil|].
  intros o s' t' (->&err&new&->&->&He&Hr). rewrite app_nil_r in *.
  split; [done|]. by exists err.
Qed.
End Orphans.

(** ** The phase *)
Section ClusterPhase.
Import ClusterController.

Lemma GetTypedPhase_cluster p st :
  p ≠ ClusterPhaseUpgrading →
  ClusterStatus.GetTypedPhase (ClusterStatus.SetTypedPhase p st) = p.
Proof. by destruct p. Qed.

(** The infrastructure of the cluster was reported as provisioned. *)
Definition is_provisioned (c : AzureStackHCICluster) : Prop :=
  ∃ i, cst_Initialization (hc_Status c) = Some i ∧ init_Provisioned i = Some true.

(** The phase says where the cluster is. *)
Definition phase_shows (c : AzureStackHCICluster) : Prop :=
  let p := ClusterStatus.GetTypedPhase (hc_Status c) in
  (p = ClusterPhaseDeleting ↔ NotDeleted c = false) ∧
  (p = ClusterPhaseProvisioned ↔ NotDeleted c = true ∧ is_provisioned c) ∧
  (p = ClusterPhaseProvisioning ↔ NotDeleted c = true ∧ ¬ is_provisioned c).
Lemma reconcile_phase_shows (c : AzureStackHCICluster) :
  phase_shows (reconcile_phase c) ∧ ∃ p, reconcile_phase c = set_phase p c.
Proof.
  assert (Hs : ∀ q p c0, set_phase q (set_phase p c0) = set_phase q c0) by done.
  assert (Hp : ∃ q, reconcile_phase c = set_phase q c ∧
    q = if NotDeleted c then
          match cst_Initialization (hc_Status c) with
          | Some i => match init_Provisioned i with
                      | Some true => ClusterPhaseProvisioned | _ => ClusterPhaseProvisioning end
          | None => ClusterPhaseProvisioning
          end
        else ClusterPhaseDeleting).
  { eexists. split; [|reflexivity]. unfold reconcile_phase, NotDeleted, MetaOf.
    destruct c as [ty me sp [vm ph cs ini]]; destruct ini as [[[[]|]]|]; cbn;
      destruct (decide (ph = "")); cbn; by destruct (metav1.IsZero (metav1.DeletionTimestamp me)). }
  destruct Hp as (q&->&Hq). split; [|by eexists]. unfold phase_shows.
  change (hc_Status (set_phase q c)) with (ClusterStatus.SetTypedPhase q (hc_Status c)).
  rewrite GetTypedPhase_cluster by (subst q; repeat case_match; done).
  change (NotDeleted (set_phase q c)) with (NotDeleted c). unfold is_provisioned, set_phase. cbn.
  destruct (NotDeleted c), (cst_Initialization (hc_Status c)) as [[[[]|]]|];
    subst q; split_and!; try done; naive_solver.
Qed.
End ClusterPhase.

(** ** The controller as a whole *)
Section Whole.
Context {L : Libs} {LL : LibLaws L}.
Import ClusterScope ClusterController.

(** The run ends with the patch of the cluster. *)
Definition closes (P : AzureStackHCICluster → Prop) (t : trace) : Prop :=
  ∃ before obj fields r rest, t = Ev (KPatch KCluster before obj fields) r :: rest ∧ P obj.

Lemma wp_cluster_close env (s : ClusterScope) t :
  wp env (reconcilePhase ;; Close) (λ o _ t', o ≠ NoFuel ∧ closes phase_shows t') s t.
Proof.
  unfold reconcilePhase. wp_run. split; [done|]. eexists _, _, _, _, _. split; [done|].
  apply reconcile_phase_shows.
Qed.

(** C25: Every run of the cluster controller ends with a patch of the cluster, whatever happened
    before, unless it stopped before it changed anything. The cluster it patches shows its
    phase: Deleting exactly when it is being deleted; Provisioned exactly when it is not and
    its infrastructure was reported as provisioned; Provisioning in every other case. So the
    phases Pending, Failed and Upgrading are never stored. *)
Theorem cluster_Reconcile_closes env req :
  wp env (Reconcile req) (λ _ _ t',
    Forall (ev_not (@is_write)) t' ∨ closes phase_shows t') tt [].
Proof.
  apply wp_halts; [apply halts_cluster_Reconcile|].
  unfold Reconcile. wp_run; try (intros _; left; repeat constructor).
  eapply wp_by_frame; [apply NewClusterScope_frame|]. intros oc s' t' (new&Ht'&Hnew).
  simpl in Ht'. subst t'.
  assert (Hq : ∀ rest, Forall (ev_not (@is_write)) rest → Forall (ev_not (@is_write)) (new ++ rest)).
  { intros rest Hr. apply Forall_app. split; [|done]. eapply Forall_impl; [exact Hnew|].
    by intros [? [] ?]. }
  destruct oc as [[err|scope]|w|]; wp_run;
    try (intros _; left; try (apply Forall_cons; split; [done|]); apply Hq; by repeat constructor).
  apply wp_with_close. apply (wp_mono _ _ (λ _ _ _, True)); [done|].
  intros oe s3 t3 _. destruct oe as [[]|w|]; [| |done];
    (eapply wp_mono; [apply wp_cluster_close|]); intros [|w2|] s4 t4 [Hn Hc]; by auto.
Qed.

(** *** The finalizer *)
(** Something is made in the agent, or the load balancer of the cluster. *)
Definition cluster_makes {R} (c : Call R) : bool :=
  match c with KCouEnd k _ => bool_decide (k = KLoadBalancer) | _ => is_moc_create c end.
Definition cluster_finalized (o : AzureStackHCICluster) : Prop :=
  ClusterFinalizer ∈ GetFinalizers o.
Local Notation finalizer_first :=
  (precedes (patched KCluster cluster_finalized) (ev_is (@cluster_makes))).

Lemma silent_no_cluster new :
  Forall (ev_is (@is_silent)) new → Forall (λ e, ¬ ev_is (@cluster_makes) e) new.
Proof. apply ev_not_is. by intros R []. Qed.
Hint Resolve silent_no_cluster : core.

Local Notation anything := (extends (E:=Call) (λ _, True)).
Lemma any_lb_mutateFn spec lb : frame anything (mutateFn spec lb).
Proof. unfold mutateFn. frame_auto. Qed.
Lemma any_reconcileLoadBalancer : frame anything reconcileAzureStackHCILoadBalancer.
Proof.
  unfold reconcileAzureStackHCILoadBalancer, network_condition, SetCondition.
  frame_auto. apply frame_CreateOrUpdate; [apply _|..]; intros; frame_auto. apply any_lb_mutateFn.
Qed.
Hint Resolve any_reconcileLoadBalancer : frames.
Lemma cluster_reconcileNormal_finalizer_first env (s : ClusterScope) t :
  finalizer_first t → wp env reconcileNormal (λ _ _ t', finalizer_first t') s t.
Proof.
  intros Ht. unfold reconcileNormal.
  wp_run_to (ClusterReconciler.Reconcile ClusterReconciler.newAzureStackHCIClusterReconciler);
    try (by precedes_auto).
  eapply wp_by_frame.
  { instantiate (1 := anything).
    unfold ClusterReconciler.Reconcile, network_condition, SetCondition, record.
    cbn [svc_Reconcile ClusterReconciler.vnetSvc ClusterReconciler.groupSvc
         ClusterReconciler.keyvaultSvc ClusterReconciler.newAzureStackHCIClusterReconciler
         virtualnetworks.NewService groups.NewService keyvaults.NewService].
    frame_auto. }
  intros o s' t' Hext. eapply precedes_after; [exact Hext| |].
  - apply Exists_cons_hd. eexists _, _, _. split; [done|]. apply AddFinalizer_in.
  - by apply precedes_cons.
Qed.
Lemma cluster_reconcileDelete_makes_nothing :
  frame (extends (ev_not (@cluster_makes))) reconcileDelete.
Proof.
  unfold reconcileDelete, reconcileDeleteAzureStackHCILoadBalancer, delete_services,
    ClusterReconciler.Delete, deleteOrphanedMachines, delete_orphan,
    GetAzureStackHCIMachinesInCluster, network_condition, SetCondition, record.
  cbn [svc_Delete ClusterReconciler.vnetSvc ClusterReconciler.groupSvc
       ClusterReconciler.keyvaultSvc ClusterReconciler.newAzureStackHCIClusterReconciler
       virtualnetworks.NewService groups.NewService keyvaults.NewService].
  frame_auto.
Qed.
Lemma close_makes_nothing : frame (extends (ev_not (@cluster_makes))) (reconcilePhase ;; Close).
Proof. unfold reconcilePhase, Close, PatchObject. frame_auto. Qed.

(** C23: In every run of the cluster controller, whatever the API server and the agent answer,
    anything is made in the agent, and the load balancer resource is made or changed, only
    after the API server has accepted the cluster with its finalizer. *)
Theorem cluster_Reconcile_finalizer_first env req :
  wp env (Reconcile req) (λ _ _ t', finalizer_first t') tt [].
Proof.
  assert (Hnot : ∀ (S : Type) (s s' : S) t t', extends (ev_not (@cluster_makes)) (s, t) (s', t') →
            finalizer_first t → finalizer_first t').
  { intros S s s' t t' Hext. eapply precedes_not, extends_mono, Hext. intros []; simpl. by intros ->. }
  unfold Reconcile. wp_run; try (by precedes_auto).
  eapply wp_by_frame; [apply NewClusterScope_frame|]. intros oc s' t' (n1&Ht'&Hn1).
  simpl in Ht'. subst t'.
  destruct oc as [[err|scope]|w|]; wp_run; try (by precedes_auto).
  apply wp_with_close.
  match goal with |- wp _ _ _ _ ?tr => assert (Hp : finalizer_first tr) by precedes_auto end.
  eapply (wp_mono _ _ (λ _ _ t', finalizer_first t')).
  - case_match; [by apply cluster_reconcileNormal_finalizer_first|].
    eapply wp_by_frame; [apply cluster_reconcileDelete_makes_nothing|]. intros; eauto.
  - intros oe s3 t3 Ht.
    destruct oe as [[]|w|]; [| |done]; (eapply wp_by_frame; [apply close_makes_nothing|]);
      intros [|w2|] s4 t4 Hext; eauto.
Qed.
End Whole.

(** ** Concrete runs *)
(** A cluster that is being deleted, whose load balancer is gone *)
Definition ex_deleting_cluster : ClusterScope := ex_cluster_scope
  <| ClusterScope.HCICluster ::= (λ c, c <| hc_meta ::= (λ m,
       m <| metav1.DeletionTimestamp := Some 1%Z |>
         <| metav1.Finalizers := [ClusterFinalizer] |>) |>) |>.
Definition ex_env_no_lb : Env := λ _ R c,
  match c in Call R return R → R with
  | KGet KLoadBalancer _ => λ _, inl (ErrExt 1 "not found")
  | _ => λ r, r
  end (ex_answer R c).

Lemma cluster_reconcileDelete_spec_witness :
  let r := ClusterController.reconcileDelete (L:=Ref.ref_libs) ex_env_no_lb ex_deleting_cluster [] in
  ClusterFinalizer ∉ GetFinalizers (ClusterScope.HCICluster r.1.2) ∧
  services_gone (L:=Ref.ref_libs) ex_deleting_cluster r.2.
Proof.
  destruct (cluster_reconcileDelete_spec (LL:=Ref.ref_laws) ex_env_no_lb ex_deleting_cluster)
    as (_&_&[H|(_&H&_&_&Hs)]).
  - exfalso. vm_compute in H. discriminate H.
  - split; [exact H|exact Hs].
Defined.

(** Nobody owns the machines of the cluster. *)
Definition ex_env_orphans : Env := λ _ R c,
  match c in Call R return R → R with
  | GetOwnerMachine _ => λ _, inr None
  | _ => λ r, r
  end (ex_answer R c).
Lemma deleteOrphanedMachines_spec_witness :
  let t := (ClusterController.deleteOrphanedMachines (L:=Ref.ref_libs) [ex_machine]
              ex_env_orphans ex_cluster_scope []).2 in
  Exists (owned ex_machine) t ∨
  Exists (machine_deleted (L:=Ref.ref_libs)
    (CopyCorrelationID (ClusterScope.HCICluster ex_cluster_scope) ex_machine)) t.
Proof.
  destruct (deleteOrphanedMachines_spec (LL:=Ref.ref_laws) ex_env_orphans [ex_machine]
              ex_cluster_scope) as (_&err&Ho&_&H).
  assert (Hn : err = None) by (vm_compute in Ho; congruence).
  apply (H Hn). left.
Defined.

Lemma cluster_Reconcile_closes_witness :
  closes phase_shows
    (ClusterController.Reconcile (L:=Ref.ref_libs) (mkNN "default" "cluster") ex_env tt []).2.
Proof.
  destruct (cluster_Reconcile_closes (L:=Ref.ref_libs) ex_env (mkNN "default" "cluster"))
    as [H|H]; [|exact H]; exfalso.
  apply (bool_decide_eq_true_2 (Forall (ev_not (@is_write)) _)) in H.
  vm_compute in H. discriminate H.
Defined.

Lemma cluster_Reconcile_finalizer_first_witness :
  let t := (ClusterController.Reconcile (L:=Ref.ref_libs) (mkNN "default" "cluster")
              ex_env tt []).2 in
  Exists (ev_is (@cluster_makes)) t ∧
  precedes (patched KCluster cluster_finalized) (ev_is (@cluster_makes)) t.
Proof.
  split; [|exact (cluster_Reconcile_finalizer_first (LL:=Ref.ref_laws) ex_env
                    (mkNN "default" "cluster"))].
  refine (bool_decide_unpack _ _). vm_compute. exact I.
Defined.
