(* ===== verification/ConversionParts.v ===== *)
(** * Conversion between api/v1beta1 and api/v1beta2: the parts of the resources

    api/v1beta1/conversion.go and zz_generated.conversion.go. A conversion fills in the
    object it is given: it takes the converted object and the value [out] points to, and
    gives the new value of [out], or an error. (A caller that gets an error gives up the
    object.) The empty list is the nil slice, except in the two functions that are registered
    for slices of conditions, where [None] is nil. *)
From stdpp Require Import prelude strings list gmap.
From S2P Require Import Prelude GoStd External Api ApiV1beta1.

(** ** The error monad *)
Definition and_then {A B} (m : error + A) (k : A → error + B) : error + B :=
  match m with inl e => inl e | inr a => k a end.
Declare Scope conv_scope.
Delimit Scope conv_scope with conv.
Notation "x <- m ;; k" := (and_then m (λ x, k))
  (at level 100, m at next level, right associativity) : conv_scope.
Local Open Scope conv_scope.

(** The loop that converts the elements of a slice one by one into those of the slice [make]
    has filled with zero values, and ends at the first error *)
Fixpoint convert_slice {A B} (conv : A → B → error + B) (zero : B) (l : list A)
    : error + list B :=
  match l with
  | [] => inr []
  | a :: l => b <- conv a zero ;; bs <- convert_slice conv zero l ;; inr (b :: bs)
  end.
(** A pointer: the object it points to is converted into a new one; nil stays nil. *)
Definition convert_pointer {A B} (conv : A → B → error + B) (zero : B) (p : option A)
    : error + option B :=
  match p with
  | Some a => b <- conv a zero ;; inr (Some b)
  | None => inr None
  end.

(** The elements of a slice of pointers, converted one by one; a nil element stays nil *)
Definition map_pointers {A B} (f : A → B) (l : list (option A)) : list (option B) :=
  (λ p : option A, f <$> p) <$> l.

Section Convert.
Context {A B : Type} (conv : A → B → error + B) (zero : B) (f : A → B).
Context (Hconv : ∀ a, conv a zero = inr (f a)).
Lemma convert_slice_map l : convert_slice conv zero l = inr (f <$> l).
Proof. induction l as [|a l IH]; simpl; [done|]. by rewrite Hconv, IH. Qed.
Lemma convert_pointer_map p : convert_pointer conv zero p = inr (f <$> p).
Proof. destruct p; simpl; [by rewrite Hconv|done]. Qed.
End Convert.

(** ** conversion.go: conditions and endpoints *)
Definition Convert_v1_Condition_To_v1beta1_Condition
    (inp : metav1.Condition) (out : corev1beta1.Condition) : error + corev1beta1.Condition :=
  inr (out <| corev1beta1.c_Type := metav1.c_Type inp |>
    <| corev1beta1.c_Status := metav1.c_Status inp |>
    <| corev1beta1.c_LastTransitionTime := metav1.c_LastTransitionTime inp |>
    <| corev1beta1.c_Reason := metav1.c_Reason inp |>
    <| corev1beta1.c_Message := metav1.c_Message inp |>).
Definition Convert_v1beta1_Condition_To_v1_Condition
    (inp : corev1beta1.Condition) (out : metav1.Condition) : error + metav1.Condition :=
  let out := out <| metav1.c_Type := corev1beta1.c_Type inp |>
    <| metav1.c_Status := corev1beta1.c_Status inp |>
    <| metav1.c_LastTransitionTime := corev1beta1.c_LastTransitionTime inp |>
    <| metav1.c_Reason := corev1beta1.c_Reason inp |> in
  let out := if decide (metav1.c_Reason out = "") then out <| metav1.c_Reason := "Unknown" |>
             else out in
  let out := out <| metav1.c_Message := corev1beta1.c_Message inp |> in
  let out := if decide (metav1.c_Message out = "") then out <| metav1.c_Message := "Unknown" |>
             else out in
  inr out.
(** The slices of conditions, where [None] is the nil slice: [*out] is left as it was. *)
Definition Convert_Slice_v1_Condition_To_Slice_Pointer_v1beta1_Condition
    (inp : option (list metav1.Condition)) (out : option (list (option corev1beta1.Condition)))
    : error + option (list (option corev1beta1.Condition)) :=
  match inp with
  | None => inr out
  | Some l =>
      l <- convert_slice (λ c _,
             c <- Convert_v1_Condition_To_v1beta1_Condition c corev1beta1.zero_Condition ;;
             inr (Some c)) None l ;;
      inr (Some l)
  end.
Definition Convert_Slice_Pointer_v1beta1_Condition_To_Slice_v1_Condition
    (inp : option (list (option corev1beta1.Condition))) (out : option (list metav1.Condition))
    : error + option (list metav1.Condition) :=
  match inp with
  | None => inr out
  | Some l =>
      l <- convert_slice (λ p out,
             match p with
             | Some c => Convert_v1beta1_Condition_To_v1_Condition c out
             | None => inr out
             end) metav1.zero_Condition l ;;
      inr (Some l)
  end.
Definition Convert_v1beta2_APIEndpoint_To_v1beta1_APIEndpoint
    (inp : clusterv1.APIEndpoint) (out : corev1beta1.APIEndpoint)
    : error + corev1beta1.APIEndpoint :=
  inr (out <| corev1beta1.Host := clusterv1.Host inp |>
    <| corev1beta1.Port := clusterv1.Port inp |>).
Definition Convert_v1beta1_APIEndpoint_To_v1beta2_APIEndpoint
    (inp : corev1beta1.APIEndpoint) (out : clusterv1.APIEndpoint)
    : error + clusterv1.APIEndpoint :=
  inr (out <| clusterv1.Host := corev1beta1.Host inp |>
    <| clusterv1.Port := corev1beta1.Port inp |>).

(** ** conversion.go: disks, images and zones *)
Definition Convert_v1beta1_OSDisk_To_v1beta2_OSDisk
    (inp : v1beta1.OSDisk) (out : OSDisk) : error + OSDisk :=
  inr (out <| osd_Name := v1beta1.osd_Name inp |> <| osd_Source := v1beta1.osd_Source inp |>
    <| osd_OSType := v1beta1.osd_OSType inp |>
    <| osd_DiskSizeGB := v1beta1.osd_DiskSizeGB inp |>
    <| osd_ManagedDisk :=
         Some (mkManagedDisk (v1beta1.md_StorageAccountType (v1beta1.osd_ManagedDisk inp))) |>).
Definition Convert_v1beta2_OSDisk_To_v1beta1_OSDisk
    (inp : OSDisk) (out : v1beta1.OSDisk) : error + v1beta1.OSDisk :=
  let out := out <| v1beta1.osd_Name := osd_Name inp |>
    <| v1beta1.osd_Source := osd_Source inp |> <| v1beta1.osd_OSType := osd_OSType inp |>
    <| v1beta1.osd_DiskSizeGB := osd_DiskSizeGB inp |> in
  match osd_ManagedDisk inp with
  | Some d =>
      inr (out <| v1beta1.osd_ManagedDisk := v1beta1.mkManagedDisk (md_StorageAccountType d) |>)
  | None => inr out
  end.
Definition Convert_v1beta1_Image_To_v1beta2_Image
    (inp : v1beta1.Image) (out : Image) : error + Image :=
  inr (out <| img_Publisher := v1beta1.img_Publisher inp |>
    <| img_Offer := v1beta1.img_Offer inp |> <| img_SKU := v1beta1.img_SKU inp |>
    <| img_ID := v1beta1.img_ID inp |>
    <| img_SubscriptionID := v1beta1.img_SubscriptionID inp |>
    <| img_ResourceGroup := v1beta1.img_ResourceGroup inp |>
    <| img_Gallery := v1beta1.img_Gallery inp |> <| img_Name := v1beta1.img_Name inp |>
    <| img_Version := v1beta1.img_Version inp |> <| img_OSType := v1beta1.img_OSType inp |>).
Definition Convert_v1beta2_Image_To_v1beta1_Image
    (inp : Image) (out : v1beta1.Image) : error + v1beta1.Image :=
  inr (out <| v1beta1.img_Publisher := img_Publisher inp |>
    <| v1beta1.img_Offer := img_Offer inp |> <| v1beta1.img_SKU := img_SKU inp |>
    <| v1beta1.img_ID := img_ID inp |>
    <| v1beta1.img_SubscriptionID := img_SubscriptionID inp |>
    <| v1beta1.img_ResourceGroup := img_ResourceGroup inp |>
    <| v1beta1.img_Gallery := img_Gallery inp |> <| v1beta1.img_Name := img_Name inp |>
    <| v1beta1.img_Version := img_Version inp |> <| v1beta1.img_OSType := img_OSType inp |>).
Definition Convert_v1beta1_AvailabilityZone_To_v1beta2_AvailabilityZone
    (inp : v1beta1.AvailabilityZone) (out : AvailabilityZone) : error + AvailabilityZone :=
  inr (out <| az_ID := v1beta1.az_ID inp |> <| az_Enabled := v1beta1.az_Enabled inp |>).
Definition Convert_v1beta2_AvailabilityZone_To_v1beta1_AvailabilityZone
    (inp : AvailabilityZone) (out : v1beta1.AvailabilityZone)
    : error + v1beta1.AvailabilityZone :=
  inr (out <| v1beta1.az_ID := az_ID inp |> <| v1beta1.az_Enabled := az_Enabled inp |>).

(** ** zz_generated.conversion.go: the structs of types.go *)
Definition autoConvert_v1beta1_AzureStackHCIMachineProviderCondition_To_v1beta2_AzureStackHCIMachineProviderCondition
    (inp : v1beta1.AzureStackHCIMachineProviderCondition) (out : AzureStackHCIMachineProviderCondition)
    : error + AzureStackHCIMachineProviderCondition :=
  let out := out <| mpc_Type := v1beta1.mpc_Type inp |>
    <| mpc_Status := v1beta1.mpc_Status inp |>
    <| mpc_LastProbeTime := v1beta1.mpc_LastProbeTime inp |>
    <| mpc_LastTransitionTime := v1beta1.mpc_LastTransitionTime inp |>
    <| mpc_Reason := v1beta1.mpc_Reason inp |> <| mpc_Message := v1beta1.mpc_Message inp |> in
  inr out.
Definition Convert_v1beta1_AzureStackHCIMachineProviderCondition_To_v1beta2_AzureStackHCIMachineProviderCondition
    (inp : v1beta1.AzureStackHCIMachineProviderCondition) (out : AzureStackHCIMachineProviderCondition)
    : error + AzureStackHCIMachineProviderCondition :=
  autoConvert_v1beta1_AzureStackHCIMachineProviderCondition_To_v1beta2_AzureStackHCIMachineProviderCondition inp out.
Definition autoConvert_v1beta2_AzureStackHCIMachineProviderCondition_To_v1beta1_AzureStackHCIMachineProviderCondition
    (inp : AzureStackHCIMachineProviderCondition) (out : v1beta1.AzureStackHCIMachineProviderCondition)
    : error + v1beta1.AzureStackHCIMachineProviderCondition :=
  let out := out <| v1beta1.mpc_Type := mpc_Type inp |>
    <| v1beta1.mpc_Status := mpc_Status inp |>
    <| v1beta1.mpc_LastProbeTime := mpc_LastProbeTime inp |>
    <| v1beta1.mpc_LastTransitionTime := mpc_LastTransitionTime inp |>
    <| v1beta1.mpc_Reason := mpc_Reason inp |> <| v1beta1.mpc_Message := mpc_Message inp |> in
  inr out.
Definition Convert_v1beta2_AzureStackHCIMachineProviderCondition_To_v1beta1_AzureStackHCIMachineProviderCondition
    (inp : AzureStackHCIMachineProviderCondition) (out : v1beta1.AzureStackHCIMachineProviderCondition)
    : error + v1beta1.AzureStackHCIMachineProviderCondition :=
  autoConvert_v1beta2_AzureStackHCIMachineProviderCondition_To_v1beta1_AzureStackHCIMachineProviderCondition inp out.
Definition autoConvert_v1beta1_AzureStackHCIResourceReference_To_v1beta2_AzureStackHCIResourceReference
    (inp : v1beta1.AzureStackHCIResourceReference) (out : AzureStackHCIResourceReference)
    : error + AzureStackHCIResourceReference :=
  let out := out <| rr_ID := v1beta1.rr_ID inp |> in
  inr out.
Definition Convert_v1beta1_AzureStackHCIResourceReference_To_v1beta2_AzureStackHCIResourceReference
    (inp : v1beta1.AzureStackHCIResourceReference) (out : AzureStackHCIResourceReference)
    : error + AzureStackHCIResourceReference :=
  autoConvert_v1beta1_AzureStackHCIResourceReference_To_v1beta2_AzureStackHCIResourceReference inp out.
Definition autoConvert_v1beta2_AzureStackHCIResourceReference_To_v1beta1_AzureStackHCIResourceReference
    (inp : AzureStackHCIResourceReference) (out : v1beta1.AzureStackHCIResourceReference)
    : error + v1beta1.AzureStackHCIResourceReference :=
  let out := out <| v1beta1.rr_ID := rr_ID inp |> in
  inr out.
Definition Convert_v1beta2_AzureStackHCIResourceReference_To_v1beta1_AzureStackHCIResourceReference
    (inp : AzureStackHCIResourceReference) (out : v1beta1.AzureStackHCIResourceReference)
    : error + v1beta1.AzureStackHCIResourceReference :=
  autoConvert_v1beta2_AzureStackHCIResourceReference_To_v1beta1_AzureStackHCIResourceReference inp out.
Definition autoConvert_v1beta1_IpConfigurationSpec_To_v1beta2_IpConfigurationSpec
    (inp : v1beta1.IpConfigurationSpec) (out : IpConfigurationSpec)
    : error + IpConfigurationSpec :=
  let out := out <| ic_Name := v1beta1.ic_Name inp |> <| ic_Primary := v1beta1.ic_Primary inp |>
    <| ic_Allocation := v1beta1.ic_Allocation inp |>
    <| ic_IpAddress := v1beta1.ic_IpAddress inp |>
    <| ic_PrefixLength := v1beta1.ic_PrefixLength inp |>
    <| ic_SubnetId := v1beta1.ic_SubnetId inp |> <| ic_Gateway := v1beta1.ic_Gateway inp |> in
  inr out.
Definition Convert_v1beta1_IpConfigurationSpec_To_v1beta2_IpConfigurationSpec
    (inp : v1beta1.IpConfigurationSpec) (out : IpConfigurationSpec)
    : error + IpConfigurationSpec :=
  autoConvert_v1beta1_IpConfigurationSpec_To_v1beta2_IpConfigurationSpec inp out.
Definition autoConvert_v1beta2_IpConfigurationSpec_To_v1beta1_IpConfigurationSpec
    (inp : IpConfigurationSpec) (out : v1beta1.IpConfigurationSpec)
    : error + v1beta1.IpConfigurationSpec :=
  let out := out <| v1beta1.ic_Name := ic_Name inp |> <| v1beta1.ic_Primary := ic_Primary inp |>
    <| v1beta1.ic_Allocation := ic_Allocation inp |>
    <| v1beta1.ic_IpAddress := ic_IpAddress inp |>
    <| v1beta1.ic_PrefixLength := ic_PrefixLength inp |>
    <| v1beta1.ic_SubnetId := ic_SubnetId inp |> <| v1beta1.ic_Gateway := ic_Gateway inp |> in
  inr out.
Definition Convert_v1beta2_IpConfigurationSpec_To_v1beta1_IpConfigurationSpec
    (inp : IpConfigurationSpec) (out : v1beta1.IpConfigurationSpec)
    : error + v1beta1.IpConfigurationSpec :=
  autoConvert_v1beta2_IpConfigurationSpec_To_v1beta1_IpConfigurationSpec inp out.
Definition autoConvert_v1beta1_ManagedDisk_To_v1beta2_ManagedDisk
    (inp : v1beta1.ManagedDisk) (out : ManagedDisk) : error + ManagedDisk :=
  let out := out <| md_StorageAccountType := v1beta1.md_StorageAccountType inp |> in
  inr out.
Definition Convert_v1beta1_ManagedDisk_To_v1beta2_ManagedDisk
    (inp : v1beta1.ManagedDisk) (out : ManagedDisk) : error + ManagedDisk :=
  autoConvert_v1beta1_ManagedDisk_To_v1beta2_ManagedDisk inp out.
Definition autoConvert_v1beta2_ManagedDisk_To_v1beta1_ManagedDisk
    (inp : ManagedDisk) (out : v1beta1.ManagedDisk) : error + v1beta1.ManagedDisk :=
  let out := out <| v1beta1.md_StorageAccountType := md_StorageAccountType inp |> in
  inr out.
Definition Convert_v1beta2_ManagedDisk_To_v1beta1_ManagedDisk
    (inp : ManagedDisk) (out : v1beta1.ManagedDisk) : error + v1beta1.ManagedDisk :=
  autoConvert_v1beta2_ManagedDisk_To_v1beta1_ManagedDisk inp out.
Definition autoConvert_v1beta1_AvailabilityZone_To_v1beta2_AvailabilityZone
    (inp : v1beta1.AvailabilityZone) (out : AvailabilityZone) : error + AvailabilityZone :=
  let out := out <| az_ID := v1beta1.az_ID inp |> <| az_Enabled := v1beta1.az_Enabled inp |> in
  inr out.
Definition autoConvert_v1beta2_AvailabilityZone_To_v1beta1_AvailabilityZone
    (inp : AvailabilityZone) (out : v1beta1.AvailabilityZone)
    : error + v1beta1.AvailabilityZone :=
  let out := out <| v1beta1.az_ID := az_ID inp |> <| v1beta1.az_Enabled := az_Enabled inp |> in
  inr out.
Definition autoConvert_v1beta1_Image_To_v1beta2_Image
    (inp : v1beta1.Image) (out : Image) : error + Image :=
  let out := out <| img_Publisher := v1beta1.img_Publisher inp |>
    <| img_Offer := v1beta1.img_Offer inp |> <| img_SKU := v1beta1.img_SKU inp |>
    <| img_ID := v1beta1.img_ID inp |>
    <| img_SubscriptionID := v1beta1.img_SubscriptionID inp |>
    <| img_ResourceGroup := v1beta1.img_ResourceGroup inp |>
    <| img_Gallery := v1beta1.img_Gallery inp |> <| img_Name := v1beta1.img_Name inp |>
    <| img_Version := v1beta1.img_Version inp |> <| img_OSType := v1beta1.img_OSType inp |> in
  inr out.
Definition autoConvert_v1beta2_Image_To_v1beta1_Image
    (inp : Image) (out : v1beta1.Image) : error + v1beta1.Image :=
  let out := out <| v1beta1.img_Publisher := img_Publisher inp |>
    <| v1beta1.img_Offer := img_Offer inp |> <| v1beta1.img_SKU := img_SKU inp |>
    <| v1beta1.img_ID := img_ID inp |>
    <| v1beta1.img_SubscriptionID := img_SubscriptionID inp |>
    <| v1beta1.img_ResourceGroup := img_ResourceGroup inp |>
    <| v1beta1.img_Gallery := img_Gallery inp |> <| v1beta1.img_Name := img_Name inp |>
    <| v1beta1.img_Version := img_Version inp |> <| v1beta1.img_OSType := img_OSType inp |> in
  inr out.
Definition autoConvert_v1beta1_OSDisk_To_v1beta2_OSDisk
    (inp : v1beta1.OSDisk) (out : OSDisk) : error + OSDisk :=
  let out := out <| osd_Name := v1beta1.osd_Name inp |>
    <| osd_Source := v1beta1.osd_Source inp |> <| osd_OSType := v1beta1.osd_OSType inp |>
    <| osd_DiskSizeGB := v1beta1.osd_DiskSizeGB inp |> in
  inr out.
Definition autoConvert_v1beta2_OSDisk_To_v1beta1_OSDisk
    (inp : OSDisk) (out : v1beta1.OSDisk) : error + v1beta1.OSDisk :=
  let out := out <| v1beta1.osd_Name := osd_Name inp |>
    <| v1beta1.osd_Source := osd_Source inp |> <| v1beta1.osd_OSType := osd_OSType inp |>
    <| v1beta1.osd_DiskSizeGB := osd_DiskSizeGB inp |> in
  inr out.
Definition autoConvert_v1beta1_SubnetSpec_To_v1beta2_SubnetSpec
    (inp : v1beta1.SubnetSpec) (out : SubnetSpec) : error + SubnetSpec :=
  let out := out <| sn_ID := v1beta1.sn_ID inp |> <| sn_Name := v1beta1.sn_Name inp |>
    <| sn_VnetID := v1beta1.sn_VnetID inp |> <| sn_CidrBlock := v1beta1.sn_CidrBlock inp |> in
  inr out.
Definition Convert_v1beta1_SubnetSpec_To_v1beta2_SubnetSpec
    (inp : v1beta1.SubnetSpec) (out : SubnetSpec) : error + SubnetSpec :=
  autoConvert_v1beta1_SubnetSpec_To_v1beta2_SubnetSpec inp out.
Definition autoConvert_v1beta2_SubnetSpec_To_v1beta1_SubnetSpec
    (inp : SubnetSpec) (out : v1beta1.SubnetSpec) : error + v1beta1.SubnetSpec :=
  let out := out <| v1beta1.sn_ID := sn_ID inp |> <| v1beta1.sn_Name := sn_Name inp |>
    <| v1beta1.sn_VnetID := sn_VnetID inp |> <| v1beta1.sn_CidrBlock := sn_CidrBlock inp |> in
  inr out.
Definition Convert_v1beta2_SubnetSpec_To_v1beta1_SubnetSpec
    (inp : SubnetSpec) (out : v1beta1.SubnetSpec) : error + v1beta1.SubnetSpec :=
  autoConvert_v1beta2_SubnetSpec_To_v1beta1_SubnetSpec inp out.
Definition autoConvert_v1beta1_VnetSpec_To_v1beta2_VnetSpec
    (inp : v1beta1.VnetSpec) (out : VnetSpec) : error + VnetSpec :=
  let out := out <| vnet_ID := v1beta1.vnet_ID inp |> <| vnet_Name := v1beta1.vnet_Name inp |>
    <| vnet_CidrBlock := v1beta1.vnet_CidrBlock inp |>
    <| vnet_Group := v1beta1.vnet_Group inp |> in
  inr out.
Definition Convert_v1beta1_VnetSpec_To_v1beta2_VnetSpec
    (inp : v1beta1.VnetSpec) (out : VnetSpec) : error + VnetSpec :=
  autoConvert_v1beta1_VnetSpec_To_v1beta2_VnetSpec inp out.
Definition autoConvert_v1beta2_VnetSpec_To_v1beta1_VnetSpec
    (inp : VnetSpec) (out : v1beta1.VnetSpec) : error + v1beta1.VnetSpec :=
  let out := out <| v1beta1.vnet_ID := vnet_ID inp |> <| v1beta1.vnet_Name := vnet_Name inp |>
    <| v1beta1.vnet_CidrBlock := vnet_CidrBlock inp |>
    <| v1beta1.vnet_Group := vnet_Group inp |> in
  inr out.
Definition Convert_v1beta2_VnetSpec_To_v1beta1_VnetSpec
    (inp : VnetSpec) (out : v1beta1.VnetSpec) : error + v1beta1.VnetSpec :=
  autoConvert_v1beta2_VnetSpec_To_v1beta1_VnetSpec inp out.

(** A slice of pointers is converted by reinterpreting its memory: the two versions of the
    struct have the same fields in the same order. *)
Definition cast_v1beta2_Subnets (l : list (option v1beta1.SubnetSpec))
    : list (option SubnetSpec) :=
  map_pointers (λ p, mkSubnetSpec (v1beta1.sn_ID p) (v1beta1.sn_Name p) (v1beta1.sn_VnetID p)
               (v1beta1.sn_CidrBlock p)) l.
Definition cast_v1beta1_Subnets (l : list (option SubnetSpec))
    : list (option v1beta1.SubnetSpec) :=
  map_pointers (λ p, v1beta1.mkSubnetSpec (sn_ID p) (sn_Name p) (sn_VnetID p) (sn_CidrBlock p)) l.
Definition cast_v1beta2_IpConfigurations (l : list (option v1beta1.IpConfigurationSpec))
    : list (option IpConfigurationSpec) :=
  map_pointers (λ p, mkIpConfigurationSpec (v1beta1.ic_Name p) (v1beta1.ic_Primary p)
               (v1beta1.ic_Allocation p) (v1beta1.ic_IpAddress p) (v1beta1.ic_PrefixLength p)
               (v1beta1.ic_SubnetId p) (v1beta1.ic_Gateway p)) l.
Definition cast_v1beta1_IpConfigurations (l : list (option IpConfigurationSpec))
    : list (option v1beta1.IpConfigurationSpec) :=
  map_pointers (λ p, v1beta1.mkIpConfigurationSpec (ic_Name p) (ic_Primary p) (ic_Allocation p)
               (ic_IpAddress p) (ic_PrefixLength p) (ic_SubnetId p) (ic_Gateway p)) l.
Definition cast_v1beta2_NetworkInterfaces (l : list (option v1beta1.NetworkInterfaceSpec))
    : list (option NetworkInterfaceSpec) :=
  map_pointers (λ p, mkNetworkInterfaceSpec (v1beta1.nis_Name p)
               (cast_v1beta2_IpConfigurations (v1beta1.nis_IPConfigurations p))) l.
Definition cast_v1beta1_NetworkInterfaces (l : list (option NetworkInterfaceSpec))
    : list (option v1beta1.NetworkInterfaceSpec) :=
  map_pointers (λ p, v1beta1.mkNetworkInterfaceSpec (nis_Name p)
               (cast_v1beta1_IpConfigurations (nis_IPConfigurations p))) l.

Definition autoConvert_v1beta1_NetworkInterfaceSpec_To_v1beta2_NetworkInterfaceSpec
    (inp : v1beta1.NetworkInterfaceSpec) (out : NetworkInterfaceSpec)
    : error + NetworkInterfaceSpec :=
  let out := out <| nis_Name := v1beta1.nis_Name inp |>
    <| nis_IPConfigurations := cast_v1beta2_IpConfigurations (v1beta1.nis_IPConfigurations inp) |>
    in
  inr out.
Definition Convert_v1beta1_NetworkInterfaceSpec_To_v1beta2_NetworkInterfaceSpec
    (inp : v1beta1.NetworkInterfaceSpec) (out : NetworkInterfaceSpec)
    : error + NetworkInterfaceSpec :=
  autoConvert_v1beta1_NetworkInterfaceSpec_To_v1beta2_NetworkInterfaceSpec inp out.
Definition autoConvert_v1beta2_NetworkInterfaceSpec_To_v1beta1_NetworkInterfaceSpec
    (inp : NetworkInterfaceSpec) (out : v1beta1.NetworkInterfaceSpec)
    : error + v1beta1.NetworkInterfaceSpec :=
  let out := out <| v1beta1.nis_Name := nis_Name inp |>
    <| v1beta1.nis_IPConfigurations := cast_v1beta1_IpConfigurations (nis_IPConfigurations inp) |>
    in
  inr out.
Definition Convert_v1beta2_NetworkInterfaceSpec_To_v1beta1_NetworkInterfaceSpec
    (inp : NetworkInterfaceSpec) (out : v1beta1.NetworkInterfaceSpec)
    : error + v1beta1.NetworkInterfaceSpec :=
  autoConvert_v1beta2_NetworkInterfaceSpec_To_v1beta1_NetworkInterfaceSpec inp out.
Definition autoConvert_v1beta1_NetworkSpec_To_v1beta2_NetworkSpec
    (inp : v1beta1.NetworkSpec) (out : NetworkSpec) : error + NetworkSpec :=
  x <- Convert_v1beta1_VnetSpec_To_v1beta2_VnetSpec (v1beta1.ns_Vnet inp) (ns_Vnet out) ;;
  let out := out <| ns_Vnet := x |>
    <| ns_Subnets := cast_v1beta2_Subnets (v1beta1.ns_Subnets inp) |> in
  inr out.
Definition Convert_v1beta1_NetworkSpec_To_v1beta2_NetworkSpec
    (inp : v1beta1.NetworkSpec) (out : NetworkSpec) : error + NetworkSpec :=
  autoConvert_v1beta1_NetworkSpec_To_v1beta2_NetworkSpec inp out.
Definition autoConvert_v1beta2_NetworkSpec_To_v1beta1_NetworkSpec
    (inp : NetworkSpec) (out : v1beta1.NetworkSpec) : error + v1beta1.NetworkSpec :=
  x <- Convert_v1beta2_VnetSpec_To_v1beta1_VnetSpec (ns_Vnet inp) (v1beta1.ns_Vnet out) ;;
  let out := out <| v1beta1.ns_Vnet := x |>
    <| v1beta1.ns_Subnets := cast_v1beta1_Subnets (ns_Subnets inp) |> in
  inr out.
Definition Convert_v1beta2_NetworkSpec_To_v1beta1_NetworkSpec
    (inp : NetworkSpec) (out : v1beta1.NetworkSpec) : error + v1beta1.NetworkSpec :=
  autoConvert_v1beta2_NetworkSpec_To_v1beta1_NetworkSpec inp out.
Definition autoConvert_v1beta1_VM_To_v1beta2_VM
    (inp : v1beta1.VM) (out : VM) : error + VM :=
  let out := out <| vm_ID := v1beta1.vm_ID inp |> <| vm_Name := v1beta1.vm_Name inp |>
    <| vm_AvailabilityZone := v1beta1.vm_AvailabilityZone inp |>
    <| vm_VMSize := v1beta1.vm_VMSize inp |> in
  x <- Convert_v1beta1_Image_To_v1beta2_Image (v1beta1.vm_Image inp) (vm_Image out) ;;
  let out := out <| vm_Image := x |> in
  x <- Convert_v1beta1_OSDisk_To_v1beta2_OSDisk (v1beta1.vm_OSDisk inp) (vm_OSDisk out) ;;
  let out := out <| vm_OSDisk := x |> <| vm_BootstrapData := v1beta1.vm_BootstrapData inp |>
    <| vm_State := v1beta1.vm_State inp |> <| vm_Identity := v1beta1.vm_Identity inp |> in
  inr out.
Definition Convert_v1beta1_VM_To_v1beta2_VM
    (inp : v1beta1.VM) (out : VM) : error + VM :=
  autoConvert_v1beta1_VM_To_v1beta2_VM inp out.
Definition autoConvert_v1beta2_VM_To_v1beta1_VM
    (inp : VM) (out : v1beta1.VM) : error + v1beta1.VM :=
  let out := out <| v1beta1.vm_ID := vm_ID inp |> <| v1beta1.vm_Name := vm_Name inp |>
    <| v1beta1.vm_AvailabilityZone := vm_AvailabilityZone inp |>
    <| v1beta1.vm_VMSize := vm_VMSize inp |> in
  x <- Convert_v1beta2_Image_To_v1beta1_Image (vm_Image inp) (v1beta1.vm_Image out) ;;
  let out := out <| v1beta1.vm_Image := x |> in
  x <- Convert_v1beta2_OSDisk_To_v1beta1_OSDisk (vm_OSDisk inp) (v1beta1.vm_OSDisk out) ;;
  let out := out <| v1beta1.vm_OSDisk := x |>
    <| v1beta1.vm_BootstrapData := vm_BootstrapData inp |>
    <| v1beta1.vm_State := vm_State inp |> <| v1beta1.vm_Identity := vm_Identity inp |> in
  inr out.
Definition Convert_v1beta2_VM_To_v1beta1_VM
    (inp : VM) (out : v1beta1.VM) : error + v1beta1.VM :=
  autoConvert_v1beta2_VM_To_v1beta1_VM inp out.

(** ** conversion.go: specifications

    The network interfaces are copied element by element; a nil element stays nil. *)
(** The body of the loop over the addresses of an interface *)
Definition copy_ipconfig_v1beta2 (ipconfig : v1beta1.IpConfigurationSpec)
    : IpConfigurationSpec :=
  {| ic_Name := v1beta1.ic_Name ipconfig; ic_Primary := v1beta1.ic_Primary ipconfig;
     ic_Allocation := v1beta1.ic_Allocation ipconfig;
     ic_IpAddress := v1beta1.ic_IpAddress ipconfig;
     ic_PrefixLength := v1beta1.ic_PrefixLength ipconfig;
     ic_SubnetId := v1beta1.ic_SubnetId ipconfig; ic_Gateway := v1beta1.ic_Gateway ipconfig |}.
(** The body of the loop over the interfaces *)
Definition copy_nic_v1beta2 (nic : v1beta1.NetworkInterfaceSpec)
    : NetworkInterfaceSpec :=
  {| nis_Name := v1beta1.nis_Name nic;
     nis_IPConfigurations :=
       map_pointers copy_ipconfig_v1beta2 (v1beta1.nis_IPConfigurations nic) |}.
(** The body of the loop over the addresses of an interface *)
Definition copy_ipconfig_v1beta1 (ipconfig : IpConfigurationSpec)
    : v1beta1.IpConfigurationSpec :=
  {| v1beta1.ic_Name := ic_Name ipconfig; v1beta1.ic_Primary := ic_Primary ipconfig;
     v1beta1.ic_Allocation := ic_Allocation ipconfig;
     v1beta1.ic_IpAddress := ic_IpAddress ipconfig;
     v1beta1.ic_PrefixLength := ic_PrefixLength ipconfig;
     v1beta1.ic_SubnetId := ic_SubnetId ipconfig; v1beta1.ic_Gateway := ic_Gateway ipconfig |}.
(** The body of the loop over the interfaces *)
Definition copy_nic_v1beta1 (nic : NetworkInterfaceSpec)
    : v1beta1.NetworkInterfaceSpec :=
  {| v1beta1.nis_Name := nis_Name nic;
     v1beta1.nis_IPConfigurations :=
       map_pointers copy_ipconfig_v1beta1 (nis_IPConfigurations nic) |}.
Definition Convert_v1beta1_AzureStackHCIMachineSpec_To_v1beta2_AzureStackHCIMachineSpec
    (inp : v1beta1.AzureStackHCIMachineSpec) (out : AzureStackHCIMachineSpec)
    : error + AzureStackHCIMachineSpec :=
  let out := out <| ms_ProviderID := v1beta1.ms_ProviderID inp |>
    <| ms_VMSize := v1beta1.ms_VMSize inp |> <| ms_Location := v1beta1.ms_Location inp |>
    <| ms_SSHPublicKey := v1beta1.ms_SSHPublicKey inp |>
    <| ms_StorageContainer := v1beta1.ms_StorageContainer inp |>
    <| ms_GpuCount := v1beta1.ms_GpuCount inp |>
    <| ms_AllocatePublicIP := v1beta1.ms_AllocatePublicIP inp |>
    <| ms_AdditionalSSHKeys := v1beta1.ms_AdditionalSSHKeys inp |>
    <| ms_AvailabilitySetName := v1beta1.ms_AvailabilitySetName inp |>
    <| ms_PlacementGroupName := v1beta1.ms_PlacementGroupName inp |> in
  let out := if decide (v1beta1.ms_NetworkInterfaces inp = []) then out
             else out <| ms_NetworkInterfaces :=
                           map_pointers copy_nic_v1beta2 (v1beta1.ms_NetworkInterfaces inp) |> in
  let out := if decide (is_Some (v1beta1.az_ID (v1beta1.ms_AvailabilityZone inp)) ∨
                        is_Some (v1beta1.az_Enabled (v1beta1.ms_AvailabilityZone inp)))
             then out <| ms_AvailabilityZone := Some
                    (mkAvailabilityZone (v1beta1.az_ID (v1beta1.ms_AvailabilityZone inp))
                       (v1beta1.az_Enabled (v1beta1.ms_AvailabilityZone inp))) |>
             else out in
  out <- (if decide (v1beta1.img_OSType (v1beta1.ms_Image inp) ≠ "" ∨
                     is_Some (v1beta1.img_ID (v1beta1.ms_Image inp)) ∨
                     is_Some (v1beta1.img_Publisher (v1beta1.ms_Image inp)))
          then x <- Convert_v1beta1_Image_To_v1beta2_Image (v1beta1.ms_Image inp) zero_Image ;;
               inr (out <| ms_Image := Some x |>)
          else inr out) ;;
  if decide (v1beta1.osd_Name (v1beta1.ms_OSDisk inp) ≠ "" ∨
             v1beta1.osd_DiskSizeGB (v1beta1.ms_OSDisk inp) ≠ 0%Z)
  then x <- Convert_v1beta1_OSDisk_To_v1beta2_OSDisk (v1beta1.ms_OSDisk inp) zero_OSDisk ;;
       inr (out <| ms_OSDisk := Some x |>)
  else inr out.
Definition Convert_v1beta2_AzureStackHCIMachineSpec_To_v1beta1_AzureStackHCIMachineSpec
    (inp : AzureStackHCIMachineSpec) (out : v1beta1.AzureStackHCIMachineSpec)
    : error + v1beta1.AzureStackHCIMachineSpec :=
  let out := out <| v1beta1.ms_ProviderID := ms_ProviderID inp |>
    <| v1beta1.ms_VMSize := ms_VMSize inp |> <| v1beta1.ms_Location := ms_Location inp |>
    <| v1beta1.ms_SSHPublicKey := ms_SSHPublicKey inp |>
    <| v1beta1.ms_StorageContainer := ms_StorageContainer inp |>
    <| v1beta1.ms_GpuCount := ms_GpuCount inp |>
    <| v1beta1.ms_AllocatePublicIP := ms_AllocatePublicIP inp |>
    <| v1beta1.ms_AdditionalSSHKeys := ms_AdditionalSSHKeys inp |>
    <| v1beta1.ms_AvailabilitySetName := ms_AvailabilitySetName inp |>
    <| v1beta1.ms_PlacementGroupName := ms_PlacementGroupName inp |> in
  let out := if decide (ms_NetworkInterfaces inp = []) then out
             else out <| v1beta1.ms_NetworkInterfaces :=
                           map_pointers copy_nic_v1beta1 (ms_NetworkInterfaces inp) |> in
  let out := match ms_AvailabilityZone inp with
             | Some z => out <| v1beta1.ms_AvailabilityZone :=
                                  v1beta1.mkAvailabilityZone (az_ID z) (az_Enabled z) |>
             | None => out
             end in
  out <- match ms_Image inp with
         | Some i => x <- Convert_v1beta2_Image_To_v1beta1_Image i (v1beta1.ms_Image out) ;;
                     inr (out <| v1beta1.ms_Image := x |>)
         | None => inr out
         end ;;
  match ms_OSDisk inp with
  | Some d => x <- Convert_v1beta2_OSDisk_To_v1beta1_OSDisk d (v1beta1.ms_OSDisk out) ;;
              inr (out <| v1beta1.ms_OSDisk := x |>)
  | None => inr out
  end.
Definition Convert_v1beta1_AzureStackHCIVirtualMachineSpec_To_v1beta2_AzureStackHCIVirtualMachineSpec
    (inp : v1beta1.AzureStackHCIVirtualMachineSpec) (out : AzureStackHCIVirtualMachineSpec)
    : error + AzureStackHCIVirtualMachineSpec :=
  let out := out <| vs_VMSize := v1beta1.vs_VMSize inp |>
    <| vs_BootstrapData := v1beta1.vs_BootstrapData inp |>
    <| vs_Identity := v1beta1.vs_Identity inp |> <| vs_Location := v1beta1.vs_Location inp |>
    <| vs_SSHPublicKey := v1beta1.vs_SSHPublicKey inp |>
    <| vs_StorageContainer := v1beta1.vs_StorageContainer inp |>
    <| vs_GpuCount := v1beta1.vs_GpuCount inp |>
    <| vs_ResourceGroup := v1beta1.vs_ResourceGroup inp |>
    <| vs_VnetName := v1beta1.vs_VnetName inp |>
    <| vs_ClusterName := v1beta1.vs_ClusterName inp |>
    <| vs_SubnetName := v1beta1.vs_SubnetName inp |>
    <| vs_BackendPoolNames := v1beta1.vs_BackendPoolNames inp |>
    <| vs_AdditionalSSHKeys := v1beta1.vs_AdditionalSSHKeys inp |>
    <| vs_AvailabilitySetName := v1beta1.vs_AvailabilitySetName inp |>
    <| vs_PlacementGroupName := v1beta1.vs_PlacementGroupName inp |> in
  let out := if decide (v1beta1.vs_NetworkInterfaces inp = []) then out
             else out <| vs_NetworkInterfaces :=
                           map_pointers copy_nic_v1beta2 (v1beta1.vs_NetworkInterfaces inp) |> in
  let out := if decide (is_Some (v1beta1.az_ID (v1beta1.vs_AvailabilityZone inp)) ∨
                        is_Some (v1beta1.az_Enabled (v1beta1.vs_AvailabilityZone inp)))
             then out <| vs_AvailabilityZone := Some
                    (mkAvailabilityZone (v1beta1.az_ID (v1beta1.vs_AvailabilityZone inp))
                       (v1beta1.az_Enabled (v1beta1.vs_AvailabilityZone inp))) |>
             else out in
  x <- Convert_v1beta1_Image_To_v1beta2_Image (v1beta1.vs_Image inp) zero_Image ;;
  let out := out <| vs_Image := Some x |> in
  if decide (v1beta1.osd_Name (v1beta1.vs_OSDisk inp) ≠ "" ∨
             v1beta1.osd_DiskSizeGB (v1beta1.vs_OSDisk inp) ≠ 0%Z)
  then x <- Convert_v1beta1_OSDisk_To_v1beta2_OSDisk (v1beta1.vs_OSDisk inp) zero_OSDisk ;;
       inr (out <| vs_OSDisk := Some x |>)
  else inr out.
Definition Convert_v1beta2_AzureStackHCIVirtualMachineSpec_To_v1beta1_AzureStackHCIVirtualMachineSpec
    (inp : AzureStackHCIVirtualMachineSpec) (out : v1beta1.AzureStackHCIVirtualMachineSpec)
    : error + v1beta1.AzureStackHCIVirtualMachineSpec :=
  let out := out <| v1beta1.vs_VMSize := vs_VMSize inp |>
    <| v1beta1.vs_BootstrapData := vs_BootstrapData inp |>
    <| v1beta1.vs_Identity := vs_Identity inp |> <| v1beta1.vs_Location := vs_Location inp |>
    <| v1beta1.vs_SSHPublicKey := vs_SSHPublicKey inp |>
    <| v1beta1.vs_StorageContainer := vs_StorageContainer inp |>
    <| v1beta1.vs_GpuCount := vs_GpuCount inp |>
    <| v1beta1.vs_ResourceGroup := vs_ResourceGroup inp |>
    <| v1beta1.vs_VnetName := vs_VnetName inp |>
    <| v1beta1.vs_ClusterName := vs_ClusterName inp |>
    <| v1beta1.vs_SubnetName := vs_SubnetName inp |>
    <| v1beta1.vs_BackendPoolNames := vs_BackendPoolNames inp |>
    <| v1beta1.vs_AdditionalSSHKeys := vs_AdditionalSSHKeys inp |>
    <| v1beta1.vs_AvailabilitySetName := vs_AvailabilitySetName inp |>
    <| v1beta1.vs_PlacementGroupName := vs_PlacementGroupName inp |> in
  let out := if decide (vs_NetworkInterfaces inp = []) then out
             else out <| v1beta1.vs_NetworkInterfaces :=
                           map_pointers copy_nic_v1beta1 (vs_NetworkInterfaces inp) |> in
  let out := match vs_AvailabilityZone inp with
             | Some z => out <| v1beta1.vs_AvailabilityZone :=
                                  v1beta1.mkAvailabilityZone (az_ID z) (az_Enabled z) |>
             | None => out
             end in
  out <- match vs_Image inp with
         | Some i => x <- Convert_v1beta2_Image_To_v1beta1_Image i (v1beta1.vs_Image out) ;;
                     inr (out <| v1beta1.vs_Image := x |>)
         | None => inr out
         end ;;
  match vs_OSDisk inp with
  | Some d => x <- Convert_v1beta2_OSDisk_To_v1beta1_OSDisk d (v1beta1.vs_OSDisk out) ;;
              inr (out <| v1beta1.vs_OSDisk := x |>)
  | None => inr out
  end.
Definition Convert_v1beta1_AzureStackHCILoadBalancerSpec_To_v1beta2_AzureStackHCILoadBalancerSpec
    (inp : v1beta1.AzureStackHCILoadBalancerSpec) (out : AzureStackHCILoadBalancerSpec)
    : error + AzureStackHCILoadBalancerSpec :=
  let out := out <| lbs_SSHPublicKey := v1beta1.lbs_SSHPublicKey inp |>
    <| lbs_VMSize := v1beta1.lbs_VMSize inp |>
    <| lbs_StorageContainer := v1beta1.lbs_StorageContainer inp |>
    <| lbs_Replicas := v1beta1.lbs_Replicas inp |> in
  x <- Convert_v1beta1_Image_To_v1beta2_Image (v1beta1.lbs_Image inp) zero_Image ;;
  inr (out <| lbs_Image := Some x |>).
Definition Convert_v1beta2_AzureStackHCILoadBalancerSpec_To_v1beta1_AzureStackHCILoadBalancerSpec
    (inp : AzureStackHCILoadBalancerSpec) (out : v1beta1.AzureStackHCILoadBalancerSpec)
    : error + v1beta1.AzureStackHCILoadBalancerSpec :=
  let out := out <| v1beta1.lbs_SSHPublicKey := lbs_SSHPublicKey inp |>
    <| v1beta1.lbs_VMSize := lbs_VMSize inp |>
    <| v1beta1.lbs_StorageContainer := lbs_StorageContainer inp |>
    <| v1beta1.lbs_Replicas := lbs_Replicas inp |> in
  match lbs_Image inp with
  | Some i => x <- Convert_v1beta2_Image_To_v1beta1_Image i (v1beta1.lbs_Image out) ;;
              inr (out <| v1beta1.lbs_Image := x |>)
  | None => inr out
  end.
