(* ===== verification/Conversion.v ===== *)
(** * Conversion between api/v1beta1 and api/v1beta2: the resources

    The conversions of each kind of resource and of its list, and the methods [ConvertTo] and
    [ConvertFrom] through which controller-runtime's webhook calls them. *)
From stdpp Require Import prelude strings list gmap.
From S2P Require Import Prelude GoStd External Api ApiV1beta1 ConversionParts.
Local Open Scope conv_scope.

(** ** zz_generated.conversion.go: specifications

    The generated conversions of the specifications of machines and load balancers leave out
    the fields whose types differ; the functions of conversion.go take their place. *)

Definition autoConvert_v1beta1_AzureStackHCILoadBalancerSpec_To_v1beta2_AzureStackHCILoadBalancerSpec
    (inp : v1beta1.AzureStackHCILoadBalancerSpec) (out : AzureStackHCILoadBalancerSpec)
    : error + AzureStackHCILoadBalancerSpec :=
  let out := out <| lbs_SSHPublicKey := v1beta1.lbs_SSHPublicKey inp |>
    <| lbs_VMSize := v1beta1.lbs_VMSize inp |>
    <| lbs_StorageContainer := v1beta1.lbs_StorageContainer inp |>
    <| lbs_Replicas := v1beta1.lbs_Replicas inp |> in
  inr out.
Definition autoConvert_v1beta2_AzureStackHCILoadBalancerSpec_To_v1beta1_AzureStackHCILoadBalancerSpec
    (inp : AzureStackHCILoadBalancerSpec) (out : v1beta1.AzureStackHCILoadBalancerSpec)
    : error + v1beta1.AzureStackHCILoadBalancerSpec :=
  let out := out <| v1beta1.lbs_SSHPublicKey := lbs_SSHPublicKey inp |>
    <| v1beta1.lbs_VMSize := lbs_VMSize inp |>
    <| v1beta1.lbs_StorageContainer := lbs_StorageContainer inp |>
    <| v1beta1.lbs_Replicas := lbs_Replicas inp |> in
  inr out.
Definition autoConvert_v1beta1_AzureStackHCIMachineSpec_To_v1beta2_AzureStackHCIMachineSpec
    (inp : v1beta1.AzureStackHCIMachineSpec) (out : AzureStackHCIMachineSpec)
    : error + AzureStackHCIMachineSpec :=
  let out := out <| ms_ProviderID := v1beta1.ms_ProviderID inp |>
    <| ms_VMSize := v1beta1.ms_VMSize inp |> <| ms_Location := v1beta1.ms_Location inp |>
    <| ms_SSHPublicKey := v1beta1.ms_SSHPublicKey inp |>
    <| ms_StorageContainer := v1beta1.ms_StorageContainer inp |>
    <| ms_GpuCount := v1beta1.ms_GpuCount inp |>
    <| ms_AllocatePublicIP := v1beta1.ms_AllocatePublicIP inp |>
    <| ms_AdditionalSSHKeys := v1beta1.ms_AdditionalSSHKeys inp |>
    <| ms_NetworkInterfaces := cast_v1beta2_NetworkInterfaces (v1beta1.ms_NetworkInterfaces inp) |>
    <| ms_AvailabilitySetName := v1beta1.ms_AvailabilitySetName inp |>
    <| ms_PlacementGroupName := v1beta1.ms_PlacementGroupName inp |> in
  inr out.
Definition autoConvert_v1beta2_AzureStackHCIMachineSpec_To_v1beta1_AzureStackHCIMachineSpec
    (inp : AzureStackHCIMachineSpec) (out : v1beta1.AzureStackHCIMachineSpec)
    : error + v1beta1.AzureStackHCIMachineSpec :=
  let out := out <| v1beta1.ms_ProviderID := ms_ProviderID inp |>
    <| v1beta1.ms_VMSize := ms_VMSize inp |> <| v1beta1.ms_Location := ms_Location inp |>
    <| v1beta1.ms_SSHPublicKey := ms_SSHPublicKey inp |>
    <| v1beta1.ms_StorageContainer := ms_StorageContainer inp |>
    <| v1beta1.ms_GpuCount := ms_GpuCount inp |>
    <| v1beta1.ms_AllocatePublicIP := ms_AllocatePublicIP inp |>
    <| v1beta1.ms_AdditionalSSHKeys := ms_AdditionalSSHKeys inp |>
    <| v1beta1.ms_NetworkInterfaces := cast_v1beta1_NetworkInterfaces (ms_NetworkInterfaces inp) |>
    <| v1beta1.ms_AvailabilitySetName := ms_AvailabilitySetName inp |>
    <| v1beta1.ms_PlacementGroupName := ms_PlacementGroupName inp |> in
  inr out.
Definition autoConvert_v1beta1_AzureStackHCIVirtualMachineSpec_To_v1beta2_AzureStackHCIVirtualMachineSpec
    (inp : v1beta1.AzureStackHCIVirtualMachineSpec) (out : AzureStackHCIVirtualMachineSpec)
    : error + AzureStackHCIVirtualMachineSpec :=
  let out := out <| vs_VMSize := v1beta1.vs_VMSize inp |>
    <| vs_BootstrapData := v1beta1.vs_BootstrapData inp |>
    <| vs_Identity := v1beta1.vs_Identity inp |> <| vs_Location := v1beta1.vs_Location inp |>
    <| vs_SSHPublicKey := v1beta1.vs_SSHPublicKey inp |>
    <| vs_StorageContainer := v1beta1.vs_StorageContainer inp |>
    <| vs_GpuCount := v1beta1.vs_GpuCount inp |>
    <| vs_ResourceGroup := v1beta1.vs_ResourceGroup inp |>
    <| vs_VnetName := v1beta1.vs_VnetName inp |>
    <| vs_ClusterName := v1beta1.vs_ClusterName inp |>
    <| vs_SubnetName := v1beta1.vs_SubnetName inp |>
    <| vs_BackendPoolNames := v1beta1.vs_BackendPoolNames inp |>
    <| vs_AdditionalSSHKeys := v1beta1.vs_AdditionalSSHKeys inp |>
    <| vs_NetworkInterfaces := cast_v1beta2_NetworkInterfaces (v1beta1.vs_NetworkInterfaces inp) |>
    <| vs_AvailabilitySetName := v1beta1.vs_AvailabilitySetName inp |>
    <| vs_PlacementGroupName := v1beta1.vs_PlacementGroupName inp |> in
  inr out.
Definition autoConvert_v1beta2_AzureStackHCIVirtualMachineSpec_To_v1beta1_AzureStackHCIVirtualMachineSpec
    (inp : AzureStackHCIVirtualMachineSpec) (out : v1beta1.AzureStackHCIVirtualMachineSpec)
    : error + v1beta1.AzureStackHCIVirtualMachineSpec :=
  let out := out <| v1beta1.vs_VMSize := vs_VMSize inp |>
    <| v1beta1.vs_BootstrapData := vs_BootstrapData inp |>
    <| v1beta1.vs_Identity := vs_Identity inp |> <| v1beta1.vs_Location := vs_Location inp |>
    <| v1beta1.vs_SSHPublicKey := vs_SSHPublicKey inp |>
    <| v1beta1.vs_StorageContainer := vs_StorageContainer inp |>
    <| v1beta1.vs_GpuCount := vs_GpuCount inp |>
    <| v1beta1.vs_ResourceGroup := vs_ResourceGroup inp |>
    <| v1beta1.vs_VnetName := vs_VnetName inp |>
    <| v1beta1.vs_ClusterName := vs_ClusterName inp |>
    <| v1beta1.vs_SubnetName := vs_SubnetName inp |>
    <| v1beta1.vs_BackendPoolNames := vs_BackendPoolNames inp |>
    <| v1beta1.vs_AdditionalSSHKeys := vs_AdditionalSSHKeys inp |>
    <| v1beta1.vs_NetworkInterfaces := cast_v1beta1_NetworkInterfaces (vs_NetworkInterfaces inp) |>
    <| v1beta1.vs_AvailabilitySetName := vs_AvailabilitySetName inp |>
    <| v1beta1.vs_PlacementGroupName := vs_PlacementGroupName inp |> in
  inr out.
Definition autoConvert_v1beta1_AzureStackHCIClusterSpec_To_v1beta2_AzureStackHCIClusterSpec
    (inp : v1beta1.AzureStackHCIClusterSpec) (out : AzureStackHCIClusterSpec)
    : error + AzureStackHCIClusterSpec :=
  x <- Convert_v1beta1_NetworkSpec_To_v1beta2_NetworkSpec
         (v1beta1.cs_NetworkSpec inp) (cs_NetworkSpec out) ;;
  let out := out <| cs_NetworkSpec := x |>
    <| cs_ResourceGroup := v1beta1.cs_ResourceGroup inp |>
    <| cs_Location := v1beta1.cs_Location inp |> in
  x <- convert_pointer
         Convert_v1beta1_AzureStackHCILoadBalancerSpec_To_v1beta2_AzureStackHCILoadBalancerSpec
         zero_LoadBalancerSpec (v1beta1.cs_AzureStackHCILoadBalancer inp) ;;
  let out := out <| cs_AzureStackHCILoadBalancer := x |> in
  x <- Convert_v1beta1_APIEndpoint_To_v1beta2_APIEndpoint
         (v1beta1.cs_ControlPlaneEndpoint inp) (cs_ControlPlaneEndpoint out) ;;
  let out := out <| cs_ControlPlaneEndpoint := x |> <| cs_Version := v1beta1.cs_Version inp |>
    <| cs_Management := v1beta1.cs_Management inp |> in
  inr out.
Definition Convert_v1beta1_AzureStackHCIClusterSpec_To_v1beta2_AzureStackHCIClusterSpec
    (inp : v1beta1.AzureStackHCIClusterSpec) (out : AzureStackHCIClusterSpec)
    : error + AzureStackHCIClusterSpec :=
  autoConvert_v1beta1_AzureStackHCIClusterSpec_To_v1beta2_AzureStackHCIClusterSpec inp out.
Definition autoConvert_v1beta2_AzureStackHCIClusterSpec_To_v1beta1_AzureStackHCIClusterSpec
    (inp : AzureStackHCIClusterSpec) (out : v1beta1.AzureStackHCIClusterSpec)
    : error + v1beta1.AzureStackHCIClusterSpec :=
  x <- Convert_v1beta2_NetworkSpec_To_v1beta1_NetworkSpec
         (cs_NetworkSpec inp) (v1beta1.cs_NetworkSpec out) ;;
  let out := out <| v1beta1.cs_NetworkSpec := x |>
    <| v1beta1.cs_ResourceGroup := cs_ResourceGroup inp |>
    <| v1beta1.cs_Location := cs_Location inp |> in
  x <- convert_pointer
         Convert_v1beta2_AzureStackHCILoadBalancerSpec_To_v1beta1_AzureStackHCILoadBalancerSpec
         v1beta1.zero_LoadBalancerSpec (cs_AzureStackHCILoadBalancer inp) ;;
  let out := out <| v1beta1.cs_AzureStackHCILoadBalancer := x |> in
  x <- Convert_v1beta2_APIEndpoint_To_v1beta1_APIEndpoint
         (cs_ControlPlaneEndpoint inp) (v1beta1.cs_ControlPlaneEndpoint out) ;;
  let out := out <| v1beta1.cs_ControlPlaneEndpoint := x |>
    <| v1beta1.cs_Version := cs_Version inp |> <| v1beta1.cs_Management := cs_Management inp |>
    in
  inr out.
Definition Convert_v1beta2_AzureStackHCIClusterSpec_To_v1beta1_AzureStackHCIClusterSpec
    (inp : AzureStackHCIClusterSpec) (out : v1beta1.AzureStackHCIClusterSpec)
    : error + v1beta1.AzureStackHCIClusterSpec :=
  autoConvert_v1beta2_AzureStackHCIClusterSpec_To_v1beta1_AzureStackHCIClusterSpec inp out.

(** ** Statuses: conversion.go completes what is generated *)

Definition autoConvert_v1beta1_AzureStackHCILoadBalancerStatus_To_v1beta2_AzureStackHCILoadBalancerStatus
    (inp : v1beta1.AzureStackHCILoadBalancerStatus) (out : AzureStackHCILoadBalancerStatus)
    : error + AzureStackHCILoadBalancerStatus :=
  let out := out <| lst_Ready := v1beta1.lst_Ready inp |>
    <| lst_Replicas := v1beta1.lst_Replicas inp |>
    <| lst_ReadyReplicas := v1beta1.lst_ReadyReplicas inp |>
    <| lst_FailedReplicas := v1beta1.lst_FailedReplicas inp |>
    <| lst_Address := v1beta1.lst_Address inp |> <| lst_Port := v1beta1.lst_Port inp |>
    <| lst_Phase := v1beta1.lst_Phase inp |> in
  x <- convert_slice Convert_v1beta1_Condition_To_v1_Condition metav1.zero_Condition
         (v1beta1.lst_Conditions inp) ;;
  let out := out <| lst_Conditions := x |> <| lst_ErrorReason := v1beta1.lst_ErrorReason inp |>
    <| lst_ErrorMessage := v1beta1.lst_ErrorMessage inp |>
    <| lst_Selector := v1beta1.lst_Selector inp |> in
  inr out.
Definition Convert_v1beta1_AzureStackHCILoadBalancerStatus_To_v1beta2_AzureStackHCILoadBalancerStatus
    (inp : v1beta1.AzureStackHCILoadBalancerStatus) (out : AzureStackHCILoadBalancerStatus)
    : error + AzureStackHCILoadBalancerStatus :=
  autoConvert_v1beta1_AzureStackHCILoadBalancerStatus_To_v1beta2_AzureStackHCILoadBalancerStatus inp out.
Definition autoConvert_v1beta2_AzureStackHCILoadBalancerStatus_To_v1beta1_AzureStackHCILoadBalancerStatus
    (inp : AzureStackHCILoadBalancerStatus) (out : v1beta1.AzureStackHCILoadBalancerStatus)
    : error + v1beta1.AzureStackHCILoadBalancerStatus :=
  let out := out <| v1beta1.lst_Ready := lst_Ready inp |>
    <| v1beta1.lst_Replicas := lst_Replicas inp |>
    <| v1beta1.lst_ReadyReplicas := lst_ReadyReplicas inp |>
    <| v1beta1.lst_FailedReplicas := lst_FailedReplicas inp |>
    <| v1beta1.lst_Address := lst_Address inp |> <| v1beta1.lst_Port := lst_Port inp |>
    <| v1beta1.lst_Phase := lst_Phase inp |> in
  x <- convert_slice Convert_v1_Condition_To_v1beta1_Condition corev1beta1.zero_Condition
         (lst_Conditions inp) ;;
  let out := out <| v1beta1.lst_Conditions := x |>
    <| v1beta1.lst_ErrorReason := lst_ErrorReason inp |>
    <| v1beta1.lst_ErrorMessage := lst_ErrorMessage inp |>
    <| v1beta1.lst_Selector := lst_Selector inp |> in
  inr out.
Definition Convert_v1beta2_AzureStackHCILoadBalancerStatus_To_v1beta1_AzureStackHCILoadBalancerStatus
    (inp : AzureStackHCILoadBalancerStatus) (out : v1beta1.AzureStackHCILoadBalancerStatus)
    : error + v1beta1.AzureStackHCILoadBalancerStatus :=
  autoConvert_v1beta2_AzureStackHCILoadBalancerStatus_To_v1beta1_AzureStackHCILoadBalancerStatus inp out.
Definition autoConvert_v1beta1_AzureStackHCIVirtualMachineStatus_To_v1beta2_AzureStackHCIVirtualMachineStatus
    (inp : v1beta1.AzureStackHCIVirtualMachineStatus) (out : AzureStackHCIVirtualMachineStatus)
    : error + AzureStackHCIVirtualMachineStatus :=
  let out := out <| vst_Ready := v1beta1.vst_Ready inp |>
    <| vst_Addresses := v1beta1.vst_Addresses inp |>
    <| vst_VMState := v1beta1.vst_VMState inp |>
    <| vst_FailureReason := v1beta1.vst_FailureReason inp |>
    <| vst_FailureMessage := v1beta1.vst_FailureMessage inp |> in
  x <- convert_slice Convert_v1beta1_Condition_To_v1_Condition metav1.zero_Condition
         (v1beta1.vst_Conditions inp) ;;
  let out := out <| vst_Conditions := x |> in
  inr out.
Definition Convert_v1beta1_AzureStackHCIVirtualMachineStatus_To_v1beta2_AzureStackHCIVirtualMachineStatus
    (inp : v1beta1.AzureStackHCIVirtualMachineStatus) (out : AzureStackHCIVirtualMachineStatus)
    : error + AzureStackHCIVirtualMachineStatus :=
  autoConvert_v1beta1_AzureStackHCIVirtualMachineStatus_To_v1beta2_AzureStackHCIVirtualMachineStatus inp out.
Definition autoConvert_v1beta2_AzureStackHCIVirtualMachineStatus_To_v1beta1_AzureStackHCIVirtualMachineStatus
    (inp : AzureStackHCIVirtualMachineStatus) (out : v1beta1.AzureStackHCIVirtualMachineStatus)
    : error + v1beta1.AzureStackHCIVirtualMachineStatus :=
  let out := out <| v1beta1.vst_Ready := vst_Ready inp |>
    <| v1beta1.vst_Addresses := vst_Addresses inp |>
    <| v1beta1.vst_VMState := vst_VMState inp |>
    <| v1beta1.vst_FailureReason := vst_FailureReason inp |>
    <| v1beta1.vst_FailureMessage := vst_FailureMessage inp |> in
  x <- convert_slice Convert_v1_Condition_To_v1beta1_Condition corev1beta1.zero_Condition
         (vst_Conditions inp) ;;
  let out := out <| v1beta1.vst_Conditions := x |> in
  inr out.
Definition Convert_v1beta2_AzureStackHCIVirtualMachineStatus_To_v1beta1_AzureStackHCIVirtualMachineStatus
    (inp : AzureStackHCIVirtualMachineStatus) (out : v1beta1.AzureStackHCIVirtualMachineStatus)
    : error + v1beta1.AzureStackHCIVirtualMachineStatus :=
  autoConvert_v1beta2_AzureStackHCIVirtualMachineStatus_To_v1beta1_AzureStackHCIVirtualMachineStatus inp out.
Definition autoConvert_v1beta1_AzureStackHCIClusterStatus_To_v1beta2_AzureStackHCIClusterStatus
    (inp : v1beta1.AzureStackHCIClusterStatus) (out : AzureStackHCIClusterStatus)
    : error + AzureStackHCIClusterStatus :=
  x <- Convert_v1beta1_VM_To_v1beta2_VM (v1beta1.cst_Bastion inp) (cst_Bastion out) ;;
  let out := out <| cst_Bastion := x |> <| cst_Phase := v1beta1.cst_Phase inp |> in
  x <- convert_slice Convert_v1beta1_Condition_To_v1_Condition metav1.zero_Condition
         (v1beta1.cst_Conditions inp) ;;
  let out := out <| cst_Conditions := x |> in
  inr out.
Definition autoConvert_v1beta2_AzureStackHCIClusterStatus_To_v1beta1_AzureStackHCIClusterStatus
    (inp : AzureStackHCIClusterStatus) (out : v1beta1.AzureStackHCIClusterStatus)
    : error + v1beta1.AzureStackHCIClusterStatus :=
  x <- Convert_v1beta2_VM_To_v1beta1_VM (cst_Bastion inp) (v1beta1.cst_Bastion out) ;;
  let out := out <| v1beta1.cst_Bastion := x |> <| v1beta1.cst_Phase := cst_Phase inp |> in
  x <- convert_slice Convert_v1_Condition_To_v1beta1_Condition corev1beta1.zero_Condition
         (cst_Conditions inp) ;;
  let out := out <| v1beta1.cst_Conditions := x |> in
  inr out.
Definition Convert_v1beta1_AzureStackHCIClusterStatus_To_v1beta2_AzureStackHCIClusterStatus
    (inp : v1beta1.AzureStackHCIClusterStatus) (out : AzureStackHCIClusterStatus)
    : error + AzureStackHCIClusterStatus :=
  out <- autoConvert_v1beta1_AzureStackHCIClusterStatus_To_v1beta2_AzureStackHCIClusterStatus
           inp out ;;
  if v1beta1.cst_Ready inp
  then inr (out <| cst_Initialization := Some (mkInitializationStatus (Some true)) |>)
  else inr out.
Definition Convert_v1beta2_AzureStackHCIClusterStatus_To_v1beta1_AzureStackHCIClusterStatus
    (inp : AzureStackHCIClusterStatus) (out : v1beta1.AzureStackHCIClusterStatus)
    : error + v1beta1.AzureStackHCIClusterStatus :=
  out <- autoConvert_v1beta2_AzureStackHCIClusterStatus_To_v1beta1_AzureStackHCIClusterStatus
           inp out ;;
  inr (out <| v1beta1.cst_Ready := existsb (λ c,
         bool_decide (metav1.c_Type c = "Ready" ∧ metav1.c_Status c = metav1.ConditionTrue))
         (cst_Conditions inp) |>).

Definition autoConvert_v1beta1_AzureStackHCIMachineStatus_To_v1beta2_AzureStackHCIMachineStatus
    (inp : v1beta1.AzureStackHCIMachineStatus) (out : AzureStackHCIMachineStatus)
    : error + AzureStackHCIMachineStatus :=
  let out := out <| mst_Ready := v1beta1.mst_Ready inp |>
    <| mst_Addresses := v1beta1.mst_Addresses inp |>
    <| mst_VMState := v1beta1.mst_VMState inp |> in
  x <- convert_slice Convert_v1beta1_Condition_To_v1_Condition metav1.zero_Condition
         (v1beta1.mst_Conditions inp) ;;
  let out := out <| mst_Conditions := x |> in
  inr out.
Definition autoConvert_v1beta2_AzureStackHCIMachineStatus_To_v1beta1_AzureStackHCIMachineStatus
    (inp : AzureStackHCIMachineStatus) (out : v1beta1.AzureStackHCIMachineStatus)
    : error + v1beta1.AzureStackHCIMachineStatus :=
  let out := out <| v1beta1.mst_Ready := mst_Ready inp |>
    <| v1beta1.mst_Addresses := mst_Addresses inp |>
    <| v1beta1.mst_VMState := mst_VMState inp |> in
  x <- convert_slice Convert_v1_Condition_To_v1beta1_Condition corev1beta1.zero_Condition
         (mst_Conditions inp) ;;
  let out := out <| v1beta1.mst_Conditions := x |> in
  inr out.
Definition Convert_v1beta1_AzureStackHCIMachineStatus_To_v1beta2_AzureStackHCIMachineStatus
    (inp : v1beta1.AzureStackHCIMachineStatus) (out : AzureStackHCIMachineStatus)
    : error + AzureStackHCIMachineStatus :=
  out <- autoConvert_v1beta1_AzureStackHCIMachineStatus_To_v1beta2_AzureStackHCIMachineStatus
           inp out ;;
  if v1beta1.mst_Ready inp
  then inr (out <| mst_Initialization := Some (mkInitializationStatus (Some true)) |>)
  else inr out.
Definition Convert_v1beta2_AzureStackHCIMachineStatus_To_v1beta1_AzureStackHCIMachineStatus
    (inp : AzureStackHCIMachineStatus) (out : v1beta1.AzureStackHCIMachineStatus)
    : error + v1beta1.AzureStackHCIMachineStatus :=
  autoConvert_v1beta2_AzureStackHCIMachineStatus_To_v1beta1_AzureStackHCIMachineStatus
    inp out.

(** ** Resources and lists *)
Definition autoConvert_v1beta1_AzureStackHCICluster_To_v1beta2_AzureStackHCICluster
    (inp : v1beta1.AzureStackHCICluster) (out : AzureStackHCICluster)
    : error + AzureStackHCICluster :=
  let out := out <| hc_meta := v1beta1.hc_meta inp |> in
  x <- Convert_v1beta1_AzureStackHCIClusterSpec_To_v1beta2_AzureStackHCIClusterSpec
         (v1beta1.hc_Spec inp) (hc_Spec out) ;;
  let out := out <| hc_Spec := x |> in
  x <- Convert_v1beta1_AzureStackHCIClusterStatus_To_v1beta2_AzureStackHCIClusterStatus
         (v1beta1.hc_Status inp) (hc_Status out) ;;
  let out := out <| hc_Status := x |> in
  inr out.
Definition Convert_v1beta1_AzureStackHCICluster_To_v1beta2_AzureStackHCICluster
    (inp : v1beta1.AzureStackHCICluster) (out : AzureStackHCICluster)
    : error + AzureStackHCICluster :=
  autoConvert_v1beta1_AzureStackHCICluster_To_v1beta2_AzureStackHCICluster inp out.
Definition autoConvert_v1beta2_AzureStackHCICluster_To_v1beta1_AzureStackHCICluster
    (inp : AzureStackHCICluster) (out : v1beta1.AzureStackHCICluster)
    : error + v1beta1.AzureStackHCICluster :=
  let out := out <| v1beta1.hc_meta := hc_meta inp |> in
  x <- Convert_v1beta2_AzureStackHCIClusterSpec_To_v1beta1_AzureStackHCIClusterSpec
         (hc_Spec inp) (v1beta1.hc_Spec out) ;;
  let out := out <| v1beta1.hc_Spec := x |> in
  x <- Convert_v1beta2_AzureStackHCIClusterStatus_To_v1beta1_AzureStackHCIClusterStatus
         (hc_Status inp) (v1beta1.hc_Status out) ;;
  let out := out <| v1beta1.hc_Status := x |> in
  inr out.
Definition Convert_v1beta2_AzureStackHCICluster_To_v1beta1_AzureStackHCICluster
    (inp : AzureStackHCICluster) (out : v1beta1.AzureStackHCICluster)
    : error + v1beta1.AzureStackHCICluster :=
  autoConvert_v1beta2_AzureStackHCICluster_To_v1beta1_AzureStackHCICluster inp out.
Definition autoConvert_v1beta1_AzureStackHCIClusterList_To_v1beta2_AzureStackHCIClusterList
    (inp : v1beta1.AzureStackHCIClusterList) (out : AzureStackHCIClusterList)
    : error + AzureStackHCIClusterList :=
  let out := out <| hcl_meta := v1beta1.hcl_meta inp |> in
  x <- convert_slice Convert_v1beta1_AzureStackHCICluster_To_v1beta2_AzureStackHCICluster
         zero_Cluster (v1beta1.hcl_Items inp) ;;
  let out := out <| hcl_Items := x |> in
  inr out.
Definition Convert_v1beta1_AzureStackHCIClusterList_To_v1beta2_AzureStackHCIClusterList
    (inp : v1beta1.AzureStackHCIClusterList) (out : AzureStackHCIClusterList)
    : error + AzureStackHCIClusterList :=
  autoConvert_v1beta1_AzureStackHCIClusterList_To_v1beta2_AzureStackHCIClusterList inp out.
Definition autoConvert_v1beta2_AzureStackHCIClusterList_To_v1beta1_AzureStackHCIClusterList
    (inp : AzureStackHCIClusterList) (out : v1beta1.AzureStackHCIClusterList)
    : error + v1beta1.AzureStackHCIClusterList :=
  let out := out <| v1beta1.hcl_meta := hcl_meta inp |> in
  x <- convert_slice Convert_v1beta2_AzureStackHCICluster_To_v1beta1_AzureStackHCICluster
         v1beta1.zero_Cluster (hcl_Items inp) ;;
  let out := out <| v1beta1.hcl_Items := x |> in
  inr out.
Definition Convert_v1beta2_AzureStackHCIClusterList_To_v1beta1_AzureStackHCIClusterList
    (inp : AzureStackHCIClusterList) (out : v1beta1.AzureStackHCIClusterList)
    : error + v1beta1.AzureStackHCIClusterList :=
  autoConvert_v1beta2_AzureStackHCIClusterList_To_v1beta1_AzureStackHCIClusterList inp out.
Definition autoConvert_v1beta1_AzureStackHCIMachine_To_v1beta2_AzureStackHCIMachine
    (inp : v1beta1.AzureStackHCIMachine) (out : AzureStackHCIMachine)
    : error + AzureStackHCIMachine :=
  let out := out <| hm_meta := v1beta1.hm_meta inp |> in
  x <- Convert_v1beta1_AzureStackHCIMachineSpec_To_v1beta2_AzureStackHCIMachineSpec
         (v1beta1.hm_Spec inp) (hm_Spec out) ;;
  let out := out <| hm_Spec := x |> in
  x <- Convert_v1beta1_AzureStackHCIMachineStatus_To_v1beta2_AzureStackHCIMachineStatus
         (v1beta1.hm_Status inp) (hm_Status out) ;;
  let out := out <| hm_Status := x |> in
  inr out.
Definition Convert_v1beta1_AzureStackHCIMachine_To_v1beta2_AzureStackHCIMachine
    (inp : v1beta1.AzureStackHCIMachine) (out : AzureStackHCIMachine)
    : error + AzureStackHCIMachine :=
  autoConvert_v1beta1_AzureStackHCIMachine_To_v1beta2_AzureStackHCIMachine inp out.
Definition autoConvert_v1beta2_AzureStackHCIMachine_To_v1beta1_AzureStackHCIMachine
    (inp : AzureStackHCIMachine) (out : v1beta1.AzureStackHCIMachine)
    : error + v1beta1.AzureStackHCIMachine :=
  let out := out <| v1beta1.hm_meta := hm_meta inp |> in
  x <- Convert_v1beta2_AzureStackHCIMachineSpec_To_v1beta1_AzureStackHCIMachineSpec
         (hm_Spec inp) (v1beta1.hm_Spec out) ;;
  let out := out <| v1beta1.hm_Spec := x |> in
  x <- Convert_v1beta2_AzureStackHCIMachineStatus_To_v1beta1_AzureStackHCIMachineStatus
         (hm_Status inp) (v1beta1.hm_Status out) ;;
  let out := out <| v1beta1.hm_Status := x |> in
  inr out.
Definition Convert_v1beta2_AzureStackHCIMachine_To_v1beta1_AzureStackHCIMachine
    (inp : AzureStackHCIMachine) (out : v1beta1.AzureStackHCIMachine)
    : error + v1beta1.AzureStackHCIMachine :=
  autoConvert_v1beta2_AzureStackHCIMachine_To_v1beta1_AzureStackHCIMachine inp out.
Definition autoConvert_v1beta1_AzureStackHCIMachineList_To_v1beta2_AzureStackHCIMachineList
    (inp : v1beta1.AzureStackHCIMachineList) (out : AzureStackHCIMachineList)
    : error + AzureStackHCIMachineList :=
  let out := out <| hml_meta := v1beta1.hml_meta inp |> in
  x <- convert_slice Convert_v1beta1_AzureStackHCIMachine_To_v1beta2_AzureStackHCIMachine
         zero_Machine (v1beta1.hml_Items inp) ;;
  let out := out <| hml_Items := x |> in
  inr out.
Definition Convert_v1beta1_AzureStackHCIMachineList_To_v1beta2_AzureStackHCIMachineList
    (inp : v1beta1.AzureStackHCIMachineList) (out : AzureStackHCIMachineList)
    : error + AzureStackHCIMachineList :=
  autoConvert_v1beta1_AzureStackHCIMachineList_To_v1beta2_AzureStackHCIMachineList inp out.
Definition autoConvert_v1beta2_AzureStackHCIMachineList_To_v1beta1_AzureStackHCIMachineList
    (inp : AzureStackHCIMachineList) (out : v1beta1.AzureStackHCIMachineList)
    : error + v1beta1.AzureStackHCIMachineList :=
  let out := out <| v1beta1.hml_meta := hml_meta inp |> in
  x <- convert_slice Convert_v1beta2_AzureStackHCIMachine_To_v1beta1_AzureStackHCIMachine
         v1beta1.zero_Machine (hml_Items inp) ;;
  let out := out <| v1beta1.hml_Items := x |> in
  inr out.
Definition Convert_v1beta2_AzureStackHCIMachineList_To_v1beta1_AzureStackHCIMachineList
    (inp : AzureStackHCIMachineList) (out : v1beta1.AzureStackHCIMachineList)
    : error + v1beta1.AzureStackHCIMachineList :=
  autoConvert_v1beta2_AzureStackHCIMachineList_To_v1beta1_AzureStackHCIMachineList inp out.
Definition autoConvert_v1beta1_AzureStackHCIVirtualMachine_To_v1beta2_AzureStackHCIVirtualMachine
    (inp : v1beta1.AzureStackHCIVirtualMachine) (out : AzureStackHCIVirtualMachine)
    : error + AzureStackHCIVirtualMachine :=
  let out := out <| hv_meta := v1beta1.hv_meta inp |> in
  x <- Convert_v1beta1_AzureStackHCIVirtualMachineSpec_To_v1beta2_AzureStackHCIVirtualMachineSpec
         (v1beta1.hv_Spec inp) (hv_Spec out) ;;
  let out := out <| hv_Spec := x |> in
  x <- Convert_v1beta1_AzureStackHCIVirtualMachineStatus_To_v1beta2_AzureStackHCIVirtualMachineStatus
         (v1beta1.hv_Status inp) (hv_Status out) ;;
  let out := out <| hv_Status := x |> in
  inr out.
Definition Convert_v1beta1_AzureStackHCIVirtualMachine_To_v1beta2_AzureStackHCIVirtualMachine
    (inp : v1beta1.AzureStackHCIVirtualMachine) (out : AzureStackHCIVirtualMachine)
    : error + AzureStackHCIVirtualMachine :=
  autoConvert_v1beta1_AzureStackHCIVirtualMachine_To_v1beta2_AzureStackHCIVirtualMachine inp out.
Definition autoConvert_v1beta2_AzureStackHCIVirtualMachine_To_v1beta1_AzureStackHCIVirtualMachine
    (inp : AzureStackHCIVirtualMachine) (out : v1beta1.AzureStackHCIVirtualMachine)
    : error + v1beta1.AzureStackHCIVirtualMachine :=
  let out := out <| v1beta1.hv_meta := hv_meta inp |> in
  x <- Convert_v1beta2_AzureStackHCIVirtualMachineSpec_To_v1beta1_AzureStackHCIVirtualMachineSpec
         (hv_Spec inp) (v1beta1.hv_Spec out) ;;
  let out := out <| v1beta1.hv_Spec := x |> in
  x <- Convert_v1beta2_AzureStackHCIVirtualMachineStatus_To_v1beta1_AzureStackHCIVirtualMachineStatus
         (hv_Status inp) (v1beta1.hv_Status out) ;;
  let out := out <| v1beta1.hv_Status := x |> in
  inr out.
Definition Convert_v1beta2_AzureStackHCIVirtualMachine_To_v1beta1_AzureStackHCIVirtualMachine
    (inp : AzureStackHCIVirtualMachine) (out : v1beta1.AzureStackHCIVirtualMachine)
    : error + v1beta1.AzureStackHCIVirtualMachine :=
  autoConvert_v1beta2_AzureStackHCIVirtualMachine_To_v1beta1_AzureStackHCIVirtualMachine inp out.
Definition autoConvert_v1beta1_AzureStackHCIVirtualMachineList_To_v1beta2_AzureStackHCIVirtualMachineList
    (inp : v1beta1.AzureStackHCIVirtualMachineList) (out : AzureStackHCIVirtualMachineList)
    : error + AzureStackHCIVirtualMachineList :=
  let out := out <| hvl_meta := v1beta1.hvl_meta inp |> in
  x <- convert_slice
         Convert_v1beta1_AzureStackHCIVirtualMachine_To_v1beta2_AzureStackHCIVirtualMachine
         zero_VirtualMachine (v1beta1.hvl_Items inp) ;;
  let out := out <| hvl_Items := x |> in
  inr out.
Definition Convert_v1beta1_AzureStackHCIVirtualMachineList_To_v1beta2_AzureStackHCIVirtualMachineList
    (inp : v1beta1.AzureStackHCIVirtualMachineList) (out : AzureStackHCIVirtualMachineList)
    : error + AzureStackHCIVirtualMachineList :=
  autoConvert_v1beta1_AzureStackHCIVirtualMachineList_To_v1beta2_AzureStackHCIVirtualMachineList inp out.
Definition autoConvert_v1beta2_AzureStackHCIVirtualMachineList_To_v1beta1_AzureStackHCIVirtualMachineList
    (inp : AzureStackHCIVirtualMachineList) (out : v1beta1.AzureStackHCIVirtualMachineList)
    : error + v1beta1.AzureStackHCIVirtualMachineList :=
  let out := out <| v1beta1.hvl_meta := hvl_meta inp |> in
  x <- convert_slice
         Convert_v1beta2_AzureStackHCIVirtualMachine_To_v1beta1_AzureStackHCIVirtualMachine
         v1beta1.zero_VirtualMachine (hvl_Items inp) ;;
  let out := out <| v1beta1.hvl_Items := x |> in
  inr out.
Definition Convert_v1beta2_AzureStackHCIVirtualMachineList_To_v1beta1_AzureStackHCIVirtualMachineList
    (inp : AzureStackHCIVirtualMachineList) (out : v1beta1.AzureStackHCIVirtualMachineList)
    : error + v1beta1.AzureStackHCIVirtualMachineList :=
  autoConvert_v1beta2_AzureStackHCIVirtualMachineList_To_v1beta1_AzureStackHCIVirtualMachineList inp out.
Definition autoConvert_v1beta1_AzureStackHCILoadBalancer_To_v1beta2_AzureStackHCILoadBalancer
    (inp : v1beta1.AzureStackHCILoadBalancer) (out : AzureStackHCILoadBalancer)
    : error + AzureStackHCILoadBalancer :=
  let out := out <| lb_meta := v1beta1.lb_meta inp |> in
  x <- Convert_v1beta1_AzureStackHCILoadBalancerSpec_To_v1beta2_AzureStackHCILoadBalancerSpec
         (v1beta1.lb_Spec inp) (lb_Spec out) ;;
  let out := out <| lb_Spec := x |> in
  x <- Convert_v1beta1_AzureStackHCILoadBalancerStatus_To_v1beta2_AzureStackHCILoadBalancerStatus
         (v1beta1.lb_Status inp) (lb_Status out) ;;
  let out := out <| lb_Status := x |> in
  inr out.
Definition Convert_v1beta1_AzureStackHCILoadBalancer_To_v1beta2_AzureStackHCILoadBalancer
    (inp : v1beta1.AzureStackHCILoadBalancer) (out : AzureStackHCILoadBalancer)
    : error + AzureStackHCILoadBalancer :=
  autoConvert_v1beta1_AzureStackHCILoadBalancer_To_v1beta2_AzureStackHCILoadBalancer inp out.
Definition autoConvert_v1beta2_AzureStackHCILoadBalancer_To_v1beta1_AzureStackHCILoadBalancer
    (inp : AzureStackHCILoadBalancer) (out : v1beta1.AzureStackHCILoadBalancer)
    : error + v1beta1.AzureStackHCILoadBalancer :=
  let out := out <| v1beta1.lb_meta := lb_meta inp |> in
  x <- Convert_v1beta2_AzureStackHCILoadBalancerSpec_To_v1beta1_AzureStackHCILoadBalancerSpec
         (lb_Spec inp) (v1beta1.lb_Spec out) ;;
  let out := out <| v1beta1.lb_Spec := x |> in
  x <- Convert_v1beta2_AzureStackHCILoadBalancerStatus_To_v1beta1_AzureStackHCILoadBalancerStatus
         (lb_Status inp) (v1beta1.lb_Status out) ;;
  let out := out <| v1beta1.lb_Status := x |> in
  inr out.
Definition Convert_v1beta2_AzureStackHCILoadBalancer_To_v1beta1_AzureStackHCILoadBalancer
    (inp : AzureStackHCILoadBalancer) (out : v1beta1.AzureStackHCILoadBalancer)
    : error + v1beta1.AzureStackHCILoadBalancer :=
  autoConvert_v1beta2_AzureStackHCILoadBalancer_To_v1beta1_AzureStackHCILoadBalancer inp out.
Definition autoConvert_v1beta1_AzureStackHCILoadBalancerList_To_v1beta2_AzureStackHCILoadBalancerList
    (inp : v1beta1.AzureStackHCILoadBalancerList) (out : AzureStackHCILoadBalancerList)
    : error + AzureStackHCILoadBalancerList :=
  let out := out <| lbl_meta := v1beta1.lbl_meta inp |> in
  x <- convert_slice
         Convert_v1beta1_AzureStackHCILoadBalancer_To_v1beta2_AzureStackHCILoadBalancer
         zero_LoadBalancer (v1beta1.lbl_Items inp) ;;
  let out := out <| lbl_Items := x |> in
  inr out.
Definition Convert_v1beta1_AzureStackHCILoadBalancerList_To_v1beta2_AzureStackHCILoadBalancerList
    (inp : v1beta1.AzureStackHCILoadBalancerList) (out : AzureStackHCILoadBalancerList)
    : error + AzureStackHCILoadBalancerList :=
  autoConvert_v1beta1_AzureStackHCILoadBalancerList_To_v1beta2_AzureStackHCILoadBalancerList inp out.
Definition autoConvert_v1beta2_AzureStackHCILoadBalancerList_To_v1beta1_AzureStackHCILoadBalancerList
    (inp : AzureStackHCILoadBalancerList) (out : v1beta1.AzureStackHCILoadBalancerList)
    : error + v1beta1.AzureStackHCILoadBalancerList :=
  let out := out <| v1beta1.lbl_meta := lbl_meta inp |> in
  x <- convert_slice
         Convert_v1beta2_AzureStackHCILoadBalancer_To_v1beta1_AzureStackHCILoadBalancer
         v1beta1.zero_LoadBalancer (lbl_Items inp) ;;
  let out := out <| v1beta1.lbl_Items := x |> in
  inr out.
Definition Convert_v1beta2_AzureStackHCILoadBalancerList_To_v1beta1_AzureStackHCILoadBalancerList
    (inp : AzureStackHCILoadBalancerList) (out : v1beta1.AzureStackHCILoadBalancerList)
    : error + v1beta1.AzureStackHCILoadBalancerList :=
  autoConvert_v1beta2_AzureStackHCILoadBalancerList_To_v1beta1_AzureStackHCILoadBalancerList inp out.
Definition autoConvert_v1beta1_AzureStackHCIMachineTemplateResource_To_v1beta2_AzureStackHCIMachineTemplateResource
    (inp : v1beta1.AzureStackHCIMachineTemplateResource) (out : AzureStackHCIMachineTemplateResource)
    : error + AzureStackHCIMachineTemplateResource :=
  x <- Convert_v1beta1_AzureStackHCIMachineSpec_To_v1beta2_AzureStackHCIMachineSpec
         (v1beta1.mtr_Spec inp) (mtr_Spec out) ;;
  let out := out <| mtr_Spec := x |> in
  inr out.
Definition Convert_v1beta1_AzureStackHCIMachineTemplateResource_To_v1beta2_AzureStackHCIMachineTemplateResource
    (inp : v1beta1.AzureStackHCIMachineTemplateResource) (out : AzureStackHCIMachineTemplateResource)
    : error + AzureStackHCIMachineTemplateResource :=
  autoConvert_v1beta1_AzureStackHCIMachineTemplateResource_To_v1beta2_AzureStackHCIMachineTemplateResource inp out.
Definition autoConvert_v1beta2_AzureStackHCIMachineTemplateResource_To_v1beta1_AzureStackHCIMachineTemplateResource
    (inp : AzureStackHCIMachineTemplateResource) (out : v1beta1.AzureStackHCIMachineTemplateResource)
    : error + v1beta1.AzureStackHCIMachineTemplateResource :=
  x <- Convert_v1beta2_AzureStackHCIMachineSpec_To_v1beta1_AzureStackHCIMachineSpec
         (mtr_Spec inp) (v1beta1.mtr_Spec out) ;;
  let out := out <| v1beta1.mtr_Spec := x |> in
  inr out.
Definition Convert_v1beta2_AzureStackHCIMachineTemplateResource_To_v1beta1_AzureStackHCIMachineTemplateResource
    (inp : AzureStackHCIMachineTemplateResource) (out : v1beta1.AzureStackHCIMachineTemplateResource)
    : error + v1beta1.AzureStackHCIMachineTemplateResource :=
  autoConvert_v1beta2_AzureStackHCIMachineTemplateResource_To_v1beta1_AzureStackHCIMachineTemplateResource inp out.
Definition autoConvert_v1beta1_AzureStackHCIMachineTemplateSpec_To_v1beta2_AzureStackHCIMachineTemplateSpec
    (inp : v1beta1.AzureStackHCIMachineTemplateSpec) (out : AzureStackHCIMachineTemplateSpec)
    : error + AzureStackHCIMachineTemplateSpec :=
  x <- Convert_v1beta1_AzureStackHCIMachineTemplateResource_To_v1beta2_AzureStackHCIMachineTemplateResource
         (v1beta1.mts_Template inp) (mts_Template out) ;;
  let out := out <| mts_Template := x |> in
  inr out.
Definition Convert_v1beta1_AzureStackHCIMachineTemplateSpec_To_v1beta2_AzureStackHCIMachineTemplateSpec
    (inp : v1beta1.AzureStackHCIMachineTemplateSpec) (out : AzureStackHCIMachineTemplateSpec)
    : error + AzureStackHCIMachineTemplateSpec :=
  autoConvert_v1beta1_AzureStackHCIMachineTemplateSpec_To_v1beta2_AzureStackHCIMachineTemplateSpec inp out.
Definition autoConvert_v1beta2_AzureStackHCIMachineTemplateSpec_To_v1beta1_AzureStackHCIMachineTemplateSpec
    (inp : AzureStackHCIMachineTemplateSpec) (out : v1beta1.AzureStackHCIMachineTemplateSpec)
    : error + v1beta1.AzureStackHCIMachineTemplateSpec :=
  x <- Convert_v1beta2_AzureStackHCIMachineTemplateResource_To_v1beta1_AzureStackHCIMachineTemplateResource
         (mts_Template inp) (v1beta1.mts_Template out) ;;
  let out := out <| v1beta1.mts_Template := x |> in
  inr out.
Definition Convert_v1beta2_AzureStackHCIMachineTemplateSpec_To_v1beta1_AzureStackHCIMachineTemplateSpec
    (inp : AzureStackHCIMachineTemplateSpec) (out : v1beta1.AzureStackHCIMachineTemplateSpec)
    : error + v1beta1.AzureStackHCIMachineTemplateSpec :=
  autoConvert_v1beta2_AzureStackHCIMachineTemplateSpec_To_v1beta1_AzureStackHCIMachineTemplateSpec inp out.
Definition autoConvert_v1beta1_AzureStackHCIMachineTemplate_To_v1beta2_AzureStackHCIMachineTemplate
    (inp : v1beta1.AzureStackHCIMachineTemplate) (out : AzureStackHCIMachineTemplate)
    : error + AzureStackHCIMachineTemplate :=
  let out := out <| mt_meta := v1beta1.mt_meta inp |> in
  x <- Convert_v1beta1_AzureStackHCIMachineTemplateSpec_To_v1beta2_AzureStackHCIMachineTemplateSpec
         (v1beta1.mt_Spec inp) (mt_Spec out) ;;
  let out := out <| mt_Spec := x |> in
  inr out.
Definition Convert_v1beta1_AzureStackHCIMachineTemplate_To_v1beta2_AzureStackHCIMachineTemplate
    (inp : v1beta1.AzureStackHCIMachineTemplate) (out : AzureStackHCIMachineTemplate)
    : error + AzureStackHCIMachineTemplate :=
  autoConvert_v1beta1_AzureStackHCIMachineTemplate_To_v1beta2_AzureStackHCIMachineTemplate inp out.
Definition autoConvert_v1beta2_AzureStackHCIMachineTemplate_To_v1beta1_AzureStackHCIMachineTemplate
    (inp : AzureStackHCIMachineTemplate) (out : v1beta1.AzureStackHCIMachineTemplate)
    : error + v1beta1.AzureStackHCIMachineTemplate :=
  let out := out <| v1beta1.mt_meta := mt_meta inp |> in
  x <- Convert_v1beta2_AzureStackHCIMachineTemplateSpec_To_v1beta1_AzureStackHCIMachineTemplateSpec
         (mt_Spec inp) (v1beta1.mt_Spec out) ;;
  let out := out <| v1beta1.mt_Spec := x |> in
  inr out.
Definition Convert_v1beta2_AzureStackHCIMachineTemplate_To_v1beta1_AzureStackHCIMachineTemplate
    (inp : AzureStackHCIMachineTemplate) (out : v1beta1.AzureStackHCIMachineTemplate)
    : error + v1beta1.AzureStackHCIMachineTemplate :=
  autoConvert_v1beta2_AzureStackHCIMachineTemplate_To_v1beta1_AzureStackHCIMachineTemplate inp out.
Definition autoConvert_v1beta1_AzureStackHCIMachineTemplateList_To_v1beta2_AzureStackHCIMachineTemplateList
    (inp : v1beta1.AzureStackHCIMachineTemplateList) (out : AzureStackHCIMachineTemplateList)
    : error + AzureStackHCIMachineTemplateList :=
  let out := out <| mtl_meta := v1beta1.mtl_meta inp |> in
  x <- convert_slice
         Convert_v1beta1_AzureStackHCIMachineTemplate_To_v1beta2_AzureStackHCIMachineTemplate
         zero_MachineTemplate (v1beta1.mtl_Items inp) ;;
  let out := out <| mtl_Items := x |> in
  inr out.
Definition Convert_v1beta1_AzureStackHCIMachineTemplateList_To_v1beta2_AzureStackHCIMachineTemplateList
    (inp : v1beta1.AzureStackHCIMachineTemplateList) (out : AzureStackHCIMachineTemplateList)
    : error + AzureStackHCIMachineTemplateList :=
  autoConvert_v1beta1_AzureStackHCIMachineTemplateList_To_v1beta2_AzureStackHCIMachineTemplateList inp out.
Definition autoConvert_v1beta2_AzureStackHCIMachineTemplateList_To_v1beta1_AzureStackHCIMachineTemplateList
    (inp : AzureStackHCIMachineTemplateList) (out : v1beta1.AzureStackHCIMachineTemplateList)
    : error + v1beta1.AzureStackHCIMachineTemplateList :=
  let out := out <| v1beta1.mtl_meta := mtl_meta inp |> in
  x <- convert_slice
         Convert_v1beta2_AzureStackHCIMachineTemplate_To_v1beta1_AzureStackHCIMachineTemplate
         v1beta1.zero_MachineTemplate (mtl_Items inp) ;;
  let out := out <| v1beta1.mtl_Items := x |> in
  inr out.
Definition Convert_v1beta2_AzureStackHCIMachineTemplateList_To_v1beta1_AzureStackHCIMachineTemplateList
    (inp : AzureStackHCIMachineTemplateList) (out : v1beta1.AzureStackHCIMachineTemplateList)
    : error + v1beta1.AzureStackHCIMachineTemplateList :=
  autoConvert_v1beta2_AzureStackHCIMachineTemplateList_To_v1beta1_AzureStackHCIMachineTemplateList inp out.
Definition autoConvert_v1beta1_AzureStackHCIClusterTemplateResource_To_v1beta2_AzureStackHCIClusterTemplateResource
    (inp : v1beta1.AzureStackHCIClusterTemplateResource) (out : AzureStackHCIClusterTemplateResource)
    : error + AzureStackHCIClusterTemplateResource :=
  x <- Convert_v1beta1_AzureStackHCIClusterSpec_To_v1beta2_AzureStackHCIClusterSpec
         (v1beta1.ctr_Spec inp) (ctr_Spec out) ;;
  let out := out <| ctr_Spec := x |> in
  inr out.
Definition Convert_v1beta1_AzureStackHCIClusterTemplateResource_To_v1beta2_AzureStackHCIClusterTemplateResource
    (inp : v1beta1.AzureStackHCIClusterTemplateResource) (out : AzureStackHCIClusterTemplateResource)
    : error + AzureStackHCIClusterTemplateResource :=
  autoConvert_v1beta1_AzureStackHCIClusterTemplateResource_To_v1beta2_AzureStackHCIClusterTemplateResource inp out.
Definition autoConvert_v1beta2_AzureStackHCIClusterTemplateResource_To_v1beta1_AzureStackHCIClusterTemplateResource
    (inp : AzureStackHCIClusterTemplateResource) (out : v1beta1.AzureStackHCIClusterTemplateResource)
    : error + v1beta1.AzureStackHCIClusterTemplateResource :=
  x <- Convert_v1beta2_AzureStackHCIClusterSpec_To_v1beta1_AzureStackHCIClusterSpec
         (ctr_Spec inp) (v1beta1.ctr_Spec out) ;;
  let out := out <| v1beta1.ctr_Spec := x |> in
  inr out.
Definition Convert_v1beta2_AzureStackHCIClusterTemplateResource_To_v1beta1_AzureStackHCIClusterTemplateResource
    (inp : AzureStackHCIClusterTemplateResource) (out : v1beta1.AzureStackHCIClusterTemplateResource)
    : error + v1beta1.AzureStackHCIClusterTemplateResource :=
  autoConvert_v1beta2_AzureStackHCIClusterTemplateResource_To_v1beta1_AzureStackHCIClusterTemplateResource inp out.
Definition autoConvert_v1beta1_AzureStackHCIClusterTemplateSpec_To_v1beta2_AzureStackHCIClusterTemplateSpec
    (inp : v1beta1.AzureStackHCIClusterTemplateSpec) (out : AzureStackHCIClusterTemplateSpec)
    : error + AzureStackHCIClusterTemplateSpec :=
  x <- Convert_v1beta1_AzureStackHCIClusterTemplateResource_To_v1beta2_AzureStackHCIClusterTemplateResource
         (v1beta1.cts_Template inp) (cts_Template out) ;;
  let out := out <| cts_Template := x |> in
  inr out.
Definition Convert_v1beta1_AzureStackHCIClusterTemplateSpec_To_v1beta2_AzureStackHCIClusterTemplateSpec
    (inp : v1beta1.AzureStackHCIClusterTemplateSpec) (out : AzureStackHCIClusterTemplateSpec)
    : error + AzureStackHCIClusterTemplateSpec :=
  autoConvert_v1beta1_AzureStackHCIClusterTemplateSpec_To_v1beta2_AzureStackHCIClusterTemplateSpec inp out.
Definition autoConvert_v1beta2_AzureStackHCIClusterTemplateSpec_To_v1beta1_AzureStackHCIClusterTemplateSpec
    (inp : AzureStackHCIClusterTemplateSpec) (out : v1beta1.AzureStackHCIClusterTemplateSpec)
    : error + v1beta1.AzureStackHCIClusterTemplateSpec :=
  x <- Convert_v1beta2_AzureStackHCIClusterTemplateResource_To_v1beta1_AzureStackHCIClusterTemplateResource
         (cts_Template inp) (v1beta1.cts_Template out) ;;
  let out := out <| v1beta1.cts_Template := x |> in
  inr out.
Definition Convert_v1beta2_AzureStackHCIClusterTemplateSpec_To_v1beta1_AzureStackHCIClusterTemplateSpec
    (inp : AzureStackHCIClusterTemplateSpec) (out : v1beta1.AzureStackHCIClusterTemplateSpec)
    : error + v1beta1.AzureStackHCIClusterTemplateSpec :=
  autoConvert_v1beta2_AzureStackHCIClusterTemplateSpec_To_v1beta1_AzureStackHCIClusterTemplateSpec inp out.
Definition autoConvert_v1beta1_AzureStackHCIClusterTemplate_To_v1beta2_AzureStackHCIClusterTemplate
    (inp : v1beta1.AzureStackHCIClusterTemplate) (out : AzureStackHCIClusterTemplate)
    : error + AzureStackHCIClusterTemplate :=
  let out := out <| ct_meta := v1beta1.ct_meta inp |> in
  x <- Convert_v1beta1_AzureStackHCIClusterTemplateSpec_To_v1beta2_AzureStackHCIClusterTemplateSpec
         (v1beta1.ct_Spec inp) (ct_Spec out) ;;
  let out := out <| ct_Spec := x |> in
  inr out.
Definition Convert_v1beta1_AzureStackHCIClusterTemplate_To_v1beta2_AzureStackHCIClusterTemplate
    (inp : v1beta1.AzureStackHCIClusterTemplate) (out : AzureStackHCIClusterTemplate)
    : error + AzureStackHCIClusterTemplate :=
  autoConvert_v1beta1_AzureStackHCIClusterTemplate_To_v1beta2_AzureStackHCIClusterTemplate inp out.
Definition autoConvert_v1beta2_AzureStackHCIClusterTemplate_To_v1beta1_AzureStackHCIClusterTemplate
    (inp : AzureStackHCIClusterTemplate) (out : v1beta1.AzureStackHCIClusterTemplate)
    : error + v1beta1.AzureStackHCIClusterTemplate :=
  let out := out <| v1beta1.ct_meta := ct_meta inp |> in
  x <- Convert_v1beta2_AzureStackHCIClusterTemplateSpec_To_v1beta1_AzureStackHCIClusterTemplateSpec
         (ct_Spec inp) (v1beta1.ct_Spec out) ;;
  let out := out <| v1beta1.ct_Spec := x |> in
  inr out.
Definition Convert_v1beta2_AzureStackHCIClusterTemplate_To_v1beta1_AzureStackHCIClusterTemplate
    (inp : AzureStackHCIClusterTemplate) (out : v1beta1.AzureStackHCIClusterTemplate)
    : error + v1beta1.AzureStackHCIClusterTemplate :=
  autoConvert_v1beta2_AzureStackHCIClusterTemplate_To_v1beta1_AzureStackHCIClusterTemplate inp out.
Definition autoConvert_v1beta1_AzureStackHCIClusterTemplateList_To_v1beta2_AzureStackHCIClusterTemplateList
    (inp : v1beta1.AzureStackHCIClusterTemplateList) (out : AzureStackHCIClusterTemplateList)
    : error + AzureStackHCIClusterTemplateList :=
  let out := out <| ctl_meta := v1beta1.ctl_meta inp |> in
  x <- convert_slice
         Convert_v1beta1_AzureStackHCIClusterTemplate_To_v1beta2_AzureStackHCIClusterTemplate
         zero_ClusterTemplate (v1beta1.ctl_Items inp) ;;
  let out := out <| ctl_Items := x |> in
  inr out.
Definition Convert_v1beta1_AzureStackHCIClusterTemplateList_To_v1beta2_AzureStackHCIClusterTemplateList
    (inp : v1beta1.AzureStackHCIClusterTemplateList) (out : AzureStackHCIClusterTemplateList)
    : error + AzureStackHCIClusterTemplateList :=
  autoConvert_v1beta1_AzureStackHCIClusterTemplateList_To_v1beta2_AzureStackHCIClusterTemplateList inp out.
Definition autoConvert_v1beta2_AzureStackHCIClusterTemplateList_To_v1beta1_AzureStackHCIClusterTemplateList
    (inp : AzureStackHCIClusterTemplateList) (out : v1beta1.AzureStackHCIClusterTemplateList)
    : error + v1beta1.AzureStackHCIClusterTemplateList :=
  let out := out <| v1beta1.ctl_meta := ctl_meta inp |> in
  x <- convert_slice
         Convert_v1beta2_AzureStackHCIClusterTemplate_To_v1beta1_AzureStackHCIClusterTemplate
         v1beta1.zero_ClusterTemplate (ctl_Items inp) ;;
  let out := out <| v1beta1.ctl_Items := x |> in
  inr out.
Definition Convert_v1beta2_AzureStackHCIClusterTemplateList_To_v1beta1_AzureStackHCIClusterTemplateList
    (inp : AzureStackHCIClusterTemplateList) (out : v1beta1.AzureStackHCIClusterTemplateList)
    : error + v1beta1.AzureStackHCIClusterTemplateList :=
  autoConvert_v1beta2_AzureStackHCIClusterTemplateList_To_v1beta1_AzureStackHCIClusterTemplateList inp out.

(** ** The interface [conversion.Convertible] and the methods that implement it

    [src.ConvertTo(dst)] and [dst.ConvertFrom(src)]; the hub is v1beta2. The type assertion
    of the hub is the type of the argument. *)
Class Convertible (T Hub : Type) := {
  ConvertTo : T → Hub → error + Hub;
  ConvertFrom : T → Hub → error + T }.
Definition Cluster_ConvertTo (src : v1beta1.AzureStackHCICluster) (dst : AzureStackHCICluster)
    : error + AzureStackHCICluster :=
  Convert_v1beta1_AzureStackHCICluster_To_v1beta2_AzureStackHCICluster src dst.
Definition Cluster_ConvertFrom (dst : v1beta1.AzureStackHCICluster) (src : AzureStackHCICluster)
    : error + v1beta1.AzureStackHCICluster :=
  Convert_v1beta2_AzureStackHCICluster_To_v1beta1_AzureStackHCICluster src dst.
#[export] Instance Cluster_Convertible : Convertible v1beta1.AzureStackHCICluster AzureStackHCICluster :=
  {| ConvertTo := Cluster_ConvertTo; ConvertFrom := Cluster_ConvertFrom |}.
Definition ClusterList_ConvertTo (src : v1beta1.AzureStackHCIClusterList) (dst : AzureStackHCIClusterList)
    : error + AzureStackHCIClusterList :=
  Convert_v1beta1_AzureStackHCIClusterList_To_v1beta2_AzureStackHCIClusterList src dst.
Definition ClusterList_ConvertFrom (dst : v1beta1.AzureStackHCIClusterList) (src : AzureStackHCIClusterList)
    : error + v1beta1.AzureStackHCIClusterList :=
  Convert_v1beta2_AzureStackHCIClusterList_To_v1beta1_AzureStackHCIClusterList src dst.
#[export] Instance ClusterList_Convertible : Convertible v1beta1.AzureStackHCIClusterList AzureStackHCIClusterList :=
  {| ConvertTo := ClusterList_ConvertTo; ConvertFrom := ClusterList_ConvertFrom |}.
Definition Machine_ConvertTo (src : v1beta1.AzureStackHCIMachine) (dst : AzureStackHCIMachine)
    : error + AzureStackHCIMachine :=
  Convert_v1beta1_AzureStackHCIMachine_To_v1beta2_AzureStackHCIMachine src dst.
Definition Machine_ConvertFrom (dst : v1beta1.AzureStackHCIMachine) (src : AzureStackHCIMachine)
    : error + v1beta1.AzureStackHCIMachine :=
  Convert_v1beta2_AzureStackHCIMachine_To_v1beta1_AzureStackHCIMachine src dst.
#[export] Instance Machine_Convertible : Convertible v1beta1.AzureStackHCIMachine AzureStackHCIMachine :=
  {| ConvertTo := Machine_ConvertTo; ConvertFrom := Machine_ConvertFrom |}.
Definition MachineList_ConvertTo (src : v1beta1.AzureStackHCIMachineList) (dst : AzureStackHCIMachineList)
    : error + AzureStackHCIMachineList :=
  Convert_v1beta1_AzureStackHCIMachineList_To_v1beta2_AzureStackHCIMachineList src dst.
Definition MachineList_ConvertFrom (dst : v1beta1.AzureStackHCIMachineList) (src : AzureStackHCIMachineList)
    : error + v1beta1.AzureStackHCIMachineList :=
  Convert_v1beta2_AzureStackHCIMachineList_To_v1beta1_AzureStackHCIMachineList src dst.
#[export] Instance MachineList_Convertible : Convertible v1beta1.AzureStackHCIMachineList AzureStackHCIMachineList :=
  {| ConvertTo := MachineList_ConvertTo; ConvertFrom := MachineList_ConvertFrom |}.
Definition VirtualMachine_ConvertTo (src : v1beta1.AzureStackHCIVirtualMachine) (dst : AzureStackHCIVirtualMachine)
    : error + AzureStackHCIVirtualMachine :=
  Convert_v1beta1_AzureStackHCIVirtualMachine_To_v1beta2_AzureStackHCIVirtualMachine src dst.
Definition VirtualMachine_ConvertFrom (dst : v1beta1.AzureStackHCIVirtualMachine) (src : AzureStackHCIVirtualMachine)
    : error + v1beta1.AzureStackHCIVirtualMachine :=
  Convert_v1beta2_AzureStackHCIVirtualMachine_To_v1beta1_AzureStackHCIVirtualMachine src dst.
#[export] Instance VirtualMachine_Convertible : Convertible v1beta1.AzureStackHCIVirtualMachine AzureStackHCIVirtualMachine :=
  {| ConvertTo := VirtualMachine_ConvertTo; ConvertFrom := VirtualMachine_ConvertFrom |}.
Definition VirtualMachineList_ConvertTo (src : v1beta1.AzureStackHCIVirtualMachineList) (dst : AzureStackHCIVirtualMachineList)
    : error + AzureStackHCIVirtualMachineList :=
  Convert_v1beta1_AzureStackHCIVirtualMachineList_To_v1beta2_AzureStackHCIVirtualMachineList src dst.
Definition VirtualMachineList_ConvertFrom (dst : v1beta1.AzureStackHCIVirtualMachineList) (src : AzureStackHCIVirtualMachineList)
    : error + v1beta1.AzureStackHCIVirtualMachineList :=
  Convert_v1beta2_AzureStackHCIVirtualMachineList_To_v1beta1_AzureStackHCIVirtualMachineList src dst.
#[export] Instance VirtualMachineList_Convertible : Convertible v1beta1.AzureStackHCIVirtualMachineList AzureStackHCIVirtualMachineList :=
  {| ConvertTo := VirtualMachineList_ConvertTo; ConvertFrom := VirtualMachineList_ConvertFrom |}.
Definition LoadBalancer_ConvertTo (src : v1beta1.AzureStackHCILoadBalancer) (dst : AzureStackHCILoadBalancer)
    : error + AzureStackHCILoadBalancer :=
  Convert_v1beta1_AzureStackHCILoadBalancer_To_v1beta2_AzureStackHCILoadBalancer src dst.
Definition LoadBalancer_ConvertFrom (dst : v1beta1.AzureStackHCILoadBalancer) (src : AzureStackHCILoadBalancer)
    : error + v1beta1.AzureStackHCILoadBalancer :=
  Convert_v1beta2_AzureStackHCILoadBalancer_To_v1beta1_AzureStackHCILoadBalancer src dst.
#[export] Instance LoadBalancer_Convertible : Convertible v1beta1.AzureStackHCILoadBalancer AzureStackHCILoadBalancer :=
  {| ConvertTo := LoadBalancer_ConvertTo; ConvertFrom := LoadBalancer_ConvertFrom |}.
Definition LoadBalancerList_ConvertTo (src : v1beta1.AzureStackHCILoadBalancerList) (dst : AzureStackHCILoadBalancerList)
    : error + AzureStackHCILoadBalancerList :=
  Convert_v1beta1_AzureStackHCILoadBalancerList_To_v1beta2_AzureStackHCILoadBalancerList src dst.
Definition LoadBalancerList_ConvertFrom (dst : v1beta1.AzureStackHCILoadBalancerList) (src : AzureStackHCILoadBalancerList)
    : error + v1beta1.AzureStackHCILoadBalancerList :=
  Convert_v1beta2_AzureStackHCILoadBalancerList_To_v1beta1_AzureStackHCILoadBalancerList src dst.
#[export] Instance LoadBalancerList_Convertible : Convertible v1beta1.AzureStackHCILoadBalancerList AzureStackHCILoadBalancerList :=
  {| ConvertTo := LoadBalancerList_ConvertTo; ConvertFrom := LoadBalancerList_ConvertFrom |}.
Definition MachineTemplate_ConvertTo (src : v1beta1.AzureStackHCIMachineTemplate) (dst : AzureStackHCIMachineTemplate)
    : error + AzureStackHCIMachineTemplate :=
  Convert_v1beta1_AzureStackHCIMachineTemplate_To_v1beta2_AzureStackHCIMachineTemplate src dst.
Definition MachineTemplate_ConvertFrom (dst : v1beta1.AzureStackHCIMachineTemplate) (src : AzureStackHCIMachineTemplate)
    : error + v1beta1.AzureStackHCIMachineTemplate :=
  Convert_v1beta2_AzureStackHCIMachineTemplate_To_v1beta1_AzureStackHCIMachineTemplate src dst.
#[export] Instance MachineTemplate_Convertible : Convertible v1beta1.AzureStackHCIMachineTemplate AzureStackHCIMachineTemplate :=
  {| ConvertTo := MachineTemplate_ConvertTo; ConvertFrom := MachineTemplate_ConvertFrom |}.
Definition MachineTemplateList_ConvertTo (src : v1beta1.AzureStackHCIMachineTemplateList) (dst : AzureStackHCIMachineTemplateList)
    : error + AzureStackHCIMachineTemplateList :=
  Convert_v1beta1_AzureStackHCIMachineTemplateList_To_v1beta2_AzureStackHCIMachineTemplateList src dst.
Definition MachineTemplateList_ConvertFrom (dst : v1beta1.AzureStackHCIMachineTemplateList) (src : AzureStackHCIMachineTemplateList)
    : error + v1beta1.AzureStackHCIMachineTemplateList :=
  Convert_v1beta2_AzureStackHCIMachineTemplateList_To_v1beta1_AzureStackHCIMachineTemplateList src dst.
#[export] Instance MachineTemplateList_Convertible : Convertible v1beta1.AzureStackHCIMachineTemplateList AzureStackHCIMachineTemplateList :=
  {| ConvertTo := MachineTemplateList_ConvertTo; ConvertFrom := MachineTemplateList_ConvertFrom |}.
