(* ===== verification/ConversionRoundTrip.v ===== *)
(** * What survives a conversion

    A resource stored as v1beta2 is served to a client of v1beta1 and written back, and the
    other way round. The conversions never fail, and lose exactly what the [settled]
    functions below say. *)
From stdpp Require Import prelude strings list gmap.
From S2P Require Import Prelude GoStd External Api ApiV1beta1 ConversionParts Conversion.
From S2P Require Import Effects Util Naming Auth Scope Example Machine.
From S2P Require Import Cluster ClusterOutcome.
Local Open Scope conv_scope.

(** ** Through the other version and back

    [trip there back zero_b zero_a a c]: [a] is converted into a new object, that object is
    converted back into another new one, and the result is [c]; neither step fails. *)
Definition trip {A B} (there : A → B → error + B) (back : B → A → error + A)
    (zero_b : B) (zero_a : A) (a c : A) : Prop :=
  ∃ b, there a zero_b = inr b ∧ back b zero_a = inr c.
(** From v1beta1 to the hub and back, and from the hub to v1beta1 and back *)
Definition spoke_trip {T Hub} `{Convertible T Hub} (zt : T) (zh : Hub) : T → T → Prop :=
  trip ConvertTo (λ h t, ConvertFrom t h) zh zt.
Definition hub_trip {T Hub} `{Convertible T Hub} (zt : T) (zh : Hub) : Hub → Hub → Prop :=
  trip (λ h t, ConvertFrom t h) ConvertTo zt zh.

Section Trips.
Context {A B : Type} (there : A → B → error + B) (back : B → A → error + A) (zb : B) (za : A).
Context (settled : A → A) (Htrip : ∀ a, trip there back zb za a (settled a)).
Lemma slice_trip l : ∃ m,
  convert_slice there zb l = inr m ∧ convert_slice back za m = inr (settled <$> l).
Proof.
  induction l as [|a l (m&Hm&IH)]; [by exists []|].
  destruct (Htrip a) as (b&Hb&Ha). exists (b :: m). simpl. by rewrite Hb, Hm, Ha, IH.
Qed.
Lemma pointer_trip p : ∃ q,
  convert_pointer there zb p = inr q ∧ convert_pointer back za q = inr (settled <$> p).
Proof.
  destruct p as [a|]; [|by exists None]. destruct (Htrip a) as (b&Hb&Ha).
  exists (Some b). simpl. by rewrite Hb, Ha.
Qed.
End Trips.

(** ** Slices *)
#[local] Arguments map_pointers : simpl never.
Lemma map_pointers_compose {A B C} (f : A → B) (g : B → C) l :
  map_pointers g (map_pointers f l) = map_pointers (g ∘ f) l.
Proof.
  unfold map_pointers. rewrite <-list_fmap_compose. apply list_fmap_ext.
  by intros _ [] _.
Qed.
Lemma map_pointers_id {A} (f : A → A) l : (∀ a, f a = a) → map_pointers f l = l.
Proof.
  intros Hf. unfold map_pointers. rewrite <-(list_fmap_id l) at 2. apply list_fmap_ext.
  intros _ [a|] _; simpl; by rewrite ?Hf.
Qed.
Lemma copy_nic_v1beta1_v1beta2 n : copy_nic_v1beta1 (copy_nic_v1beta2 n) = n.
Proof.
  destruct n as [name l]. unfold copy_nic_v1beta1, copy_nic_v1beta2. cbn. f_equal.
  rewrite map_pointers_compose. apply map_pointers_id. by intros [].
Qed.
Lemma copy_nic_v1beta2_v1beta1 n : copy_nic_v1beta2 (copy_nic_v1beta1 n) = n.
Proof.
  destruct n as [name l]. unfold copy_nic_v1beta1, copy_nic_v1beta2. cbn. f_equal.
  rewrite map_pointers_compose. apply map_pointers_id. by intros [].
Qed.
Lemma nics_v1beta1_v1beta2 l : map_pointers copy_nic_v1beta1 (map_pointers copy_nic_v1beta2 l) = l.
Proof.
  rewrite map_pointers_compose. apply map_pointers_id, copy_nic_v1beta1_v1beta2.
Qed.
Lemma nics_v1beta2_v1beta1 l : map_pointers copy_nic_v1beta2 (map_pointers copy_nic_v1beta1 l) = l.
Proof.
  rewrite map_pointers_compose. apply map_pointers_id, copy_nic_v1beta2_v1beta1.
Qed.
Lemma subnets_v1beta1_v1beta2 l : cast_v1beta1_Subnets (cast_v1beta2_Subnets l) = l.
Proof.
  unfold cast_v1beta1_Subnets, cast_v1beta2_Subnets.
  rewrite map_pointers_compose. apply map_pointers_id. by intros [].
Qed.
Lemma subnets_v1beta2_v1beta1 l : cast_v1beta2_Subnets (cast_v1beta1_Subnets l) = l.
Proof.
  unfold cast_v1beta1_Subnets, cast_v1beta2_Subnets.
  rewrite map_pointers_compose. apply map_pointers_id. by intros [].
Qed.

(** ** Conditions *)
Definition or_unknown (s : string) : string := if decide (s = "") then "Unknown" else s.
(** What is left of a condition: no severity, and a reason and a message that are not
    empty *)
Definition settled_condition (c : corev1beta1.Condition) : corev1beta1.Condition :=
  c <| corev1beta1.c_Severity := "" |> <| corev1beta1.c_Reason ::= or_unknown |>
    <| corev1beta1.c_Message ::= or_unknown |>.
(** No generation *)
Definition settled_hub_condition (c : metav1.Condition) : metav1.Condition :=
  c <| metav1.c_ObservedGeneration := 0%Z |> <| metav1.c_Reason ::= or_unknown |>
    <| metav1.c_Message ::= or_unknown |>.

Lemma condition_trip c :
  trip Convert_v1beta1_Condition_To_v1_Condition Convert_v1_Condition_To_v1beta1_Condition
    metav1.zero_Condition corev1beta1.zero_Condition c (settled_condition c).
Proof.
  destruct c as [???? [|??] [|??]]; by eexists.
Qed.
Lemma hub_condition_trip c :
  trip Convert_v1_Condition_To_v1beta1_Condition Convert_v1beta1_Condition_To_v1_Condition
    corev1beta1.zero_Condition metav1.zero_Condition c (settled_hub_condition c).
Proof.
  destruct c as [???? [|??] [|??]]; by eexists.
Qed.
Lemma or_unknown_idemp s : or_unknown (or_unknown s) = or_unknown s.
Proof. unfold or_unknown. by repeat case_decide. Qed.

(** ** Specifications

    A machine keeps its image only if it has a system, an identifier or a publisher; every
    kind keeps its disk only if it has a name or a size. *)
Definition settled_image (i : v1beta1.Image) : v1beta1.Image :=
  if decide (v1beta1.img_OSType i ≠ "" ∨ is_Some (v1beta1.img_ID i) ∨
             is_Some (v1beta1.img_Publisher i)) then i else v1beta1.zero_Image.
Definition settled_disk (d : v1beta1.OSDisk) : v1beta1.OSDisk :=
  if decide (v1beta1.osd_Name d ≠ "" ∨ v1beta1.osd_DiskSizeGB d ≠ 0%Z) then d
  else v1beta1.zero_OSDisk.
Definition settled_machine_spec (s : v1beta1.AzureStackHCIMachineSpec) :=
  s <| v1beta1.ms_Image ::= settled_image |> <| v1beta1.ms_OSDisk ::= settled_disk |>.
Definition settled_vm_spec (s : v1beta1.AzureStackHCIVirtualMachineSpec) :=
  s <| v1beta1.vs_OSDisk ::= settled_disk |>.
(** In the hub, absent and empty are not told apart, and a disk has a managed disk. *)
Definition settled_hub_zone (z : option AvailabilityZone) : option AvailabilityZone :=
  z ← z; if decide (is_Some (az_ID z) ∨ is_Some (az_Enabled z)) then Some z else None.
Definition settled_hub_image (i : option Image) : option Image :=
  i ← i; if decide (img_OSType i ≠ "" ∨ is_Some (img_ID i) ∨ is_Some (img_Publisher i))
         then Some i else None.
Definition managed (d : OSDisk) : OSDisk :=
  d <| osd_ManagedDisk ::= (λ m, Some (default (mkManagedDisk "") m)) |>.
Definition settled_hub_disk (d : option OSDisk) : option OSDisk :=
  d ← d; if decide (osd_Name d ≠ "" ∨ osd_DiskSizeGB d ≠ 0%Z) then Some (managed d) else None.
Definition settled_hub_machine_spec (s : AzureStackHCIMachineSpec) :=
  s <| ms_AvailabilityZone ::= settled_hub_zone |> <| ms_Image ::= settled_hub_image |>
    <| ms_OSDisk ::= settled_hub_disk |>.
Definition some_image (i : option Image) : option Image := Some (default zero_Image i).
Definition settled_hub_vm_spec (s : AzureStackHCIVirtualMachineSpec) :=
  s <| vs_AvailabilityZone ::= settled_hub_zone |> <| vs_Image ::= some_image |>
    <| vs_OSDisk ::= settled_hub_disk |>.
Definition settled_hub_lb_spec (s : AzureStackHCILoadBalancerSpec) :=
  s <| lbs_Image ::= some_image |>.

Lemma map_pointers_nil {A B} (f : A → B) l : map_pointers f l = [] ↔ l = [].
Proof. by destruct l. Qed.
(** Every test of a conversion is decided. *)
#[local] Arguments const {E} newValue _ /.
#[local] Arguments set {R E} getter {Setter} fieldUpdater r /.
#[local] Arguments decide : simpl never.
Ltac decided :=
  unfold zero_MachineSpec, zero_VirtualMachineSpec, v1beta1.zero_MachineSpec,
    v1beta1.zero_VirtualMachineSpec; cbn;
  repeat (case_decide; cbn; subst).
(** What each conditional of the conversions of a specification computes *)
Definition copy_image_v1beta2 (i : v1beta1.Image) : Image :=
  mkImage (v1beta1.img_Publisher i) (v1beta1.img_Offer i) (v1beta1.img_SKU i)
    (v1beta1.img_ID i) (v1beta1.img_SubscriptionID i) (v1beta1.img_ResourceGroup i)
    (v1beta1.img_Gallery i) (v1beta1.img_Name i) (v1beta1.img_Version i)
    (v1beta1.img_OSType i).
Definition image_v1beta2 (i : v1beta1.Image) : option Image :=
  if decide (v1beta1.img_OSType i ≠ "" ∨ is_Some (v1beta1.img_ID i) ∨
             is_Some (v1beta1.img_Publisher i)) then Some (copy_image_v1beta2 i) else None.
Definition image_v1beta1 (i : option Image) : v1beta1.Image :=
  match i with
  | Some i =>
      v1beta1.mkImage (img_Publisher i) (img_Offer i) (img_SKU i) (img_ID i)
        (img_SubscriptionID i) (img_ResourceGroup i) (img_Gallery i) (img_Name i)
        (img_Version i) (img_OSType i)
  | None => v1beta1.zero_Image
  end.
Definition copy_disk_v1beta2 (d : v1beta1.OSDisk) : OSDisk :=
  mkOSDisk (v1beta1.osd_Name d) (v1beta1.osd_Source d) (v1beta1.osd_OSType d)
    (v1beta1.osd_DiskSizeGB d)
    (Some (mkManagedDisk (v1beta1.md_StorageAccountType (v1beta1.osd_ManagedDisk d)))).
Definition disk_v1beta2 (d : v1beta1.OSDisk) : option OSDisk :=
  if decide (v1beta1.osd_Name d ≠ "" ∨ v1beta1.osd_DiskSizeGB d ≠ 0%Z)
  then Some (copy_disk_v1beta2 d) else None.
Definition disk_v1beta1 (d : option OSDisk) : v1beta1.OSDisk :=
  match d with
  | Some d =>
      v1beta1.mkOSDisk (osd_Name d) (osd_Source d) (osd_OSType d) (osd_DiskSizeGB d)
        (v1beta1.mkManagedDisk
           match osd_ManagedDisk d with Some m => md_StorageAccountType m | None => "" end)
  | None => v1beta1.zero_OSDisk
  end.
Definition zone_v1beta2 (z : v1beta1.AvailabilityZone) : option AvailabilityZone :=
  if decide (is_Some (v1beta1.az_ID z) ∨ is_Some (v1beta1.az_Enabled z))
  then Some (mkAvailabilityZone (v1beta1.az_ID z) (v1beta1.az_Enabled z)) else None.
Definition zone_v1beta1 (z : option AvailabilityZone) : v1beta1.AvailabilityZone :=
  match z with
  | Some z => v1beta1.mkAvailabilityZone (az_ID z) (az_Enabled z)
  | None => v1beta1.zero_AvailabilityZone
  end.
Definition machine_spec_v1beta2 (s : v1beta1.AzureStackHCIMachineSpec) : AzureStackHCIMachineSpec :=
  {| ms_ProviderID := v1beta1.ms_ProviderID s; ms_VMSize := v1beta1.ms_VMSize s;
     ms_Location := v1beta1.ms_Location s; ms_SSHPublicKey := v1beta1.ms_SSHPublicKey s;
     ms_StorageContainer := v1beta1.ms_StorageContainer s;
     ms_GpuCount := v1beta1.ms_GpuCount s;
     ms_AllocatePublicIP := v1beta1.ms_AllocatePublicIP s;
     ms_AdditionalSSHKeys := v1beta1.ms_AdditionalSSHKeys s;
     ms_AvailabilitySetName := v1beta1.ms_AvailabilitySetName s;
     ms_PlacementGroupName := v1beta1.ms_PlacementGroupName s;
     ms_NetworkInterfaces := map_pointers copy_nic_v1beta2 (v1beta1.ms_NetworkInterfaces s);
     ms_AvailabilityZone := zone_v1beta2 (v1beta1.ms_AvailabilityZone s);
     ms_Image := image_v1beta2 (v1beta1.ms_Image s);
     ms_OSDisk := disk_v1beta2 (v1beta1.ms_OSDisk s) |}.
Definition machine_spec_v1beta1 (s : AzureStackHCIMachineSpec) : v1beta1.AzureStackHCIMachineSpec :=
  {| v1beta1.ms_ProviderID := ms_ProviderID s; v1beta1.ms_VMSize := ms_VMSize s;
     v1beta1.ms_Location := ms_Location s; v1beta1.ms_SSHPublicKey := ms_SSHPublicKey s;
     v1beta1.ms_StorageContainer := ms_StorageContainer s;
     v1beta1.ms_GpuCount := ms_GpuCount s;
     v1beta1.ms_AllocatePublicIP := ms_AllocatePublicIP s;
     v1beta1.ms_AdditionalSSHKeys := ms_AdditionalSSHKeys s;
     v1beta1.ms_AvailabilitySetName := ms_AvailabilitySetName s;
     v1beta1.ms_PlacementGroupName := ms_PlacementGroupName s;
     v1beta1.ms_NetworkInterfaces := map_pointers copy_nic_v1beta1 (ms_NetworkInterfaces s);
     v1beta1.ms_AvailabilityZone := zone_v1beta1 (ms_AvailabilityZone s);
     v1beta1.ms_Image := image_v1beta1 (ms_Image s);
     v1beta1.ms_OSDisk := disk_v1beta1 (ms_OSDisk s) |}.
Lemma machine_spec_up s :
  Convert_v1beta1_AzureStackHCIMachineSpec_To_v1beta2_AzureStackHCIMachineSpec s
    zero_MachineSpec = inr (machine_spec_v1beta2 s).
Proof.
  destruct s as [].
  unfold Convert_v1beta1_AzureStackHCIMachineSpec_To_v1beta2_AzureStackHCIMachineSpec,
    machine_spec_v1beta2, zone_v1beta2, image_v1beta2, disk_v1beta2.
  by decided.
Qed.
Lemma machine_spec_down s :
  Convert_v1beta2_AzureStackHCIMachineSpec_To_v1beta1_AzureStackHCIMachineSpec s
    v1beta1.zero_MachineSpec = inr (machine_spec_v1beta1 s).
Proof.
  destruct s as [?? [] [] [[???? []]|] ?????????];
    unfold Convert_v1beta2_AzureStackHCIMachineSpec_To_v1beta1_AzureStackHCIMachineSpec,
    machine_spec_v1beta1;
    by decided.
Qed.
Definition vm_spec_v1beta2 (s : v1beta1.AzureStackHCIVirtualMachineSpec) : AzureStackHCIVirtualMachineSpec :=
  {| vs_VMSize := v1beta1.vs_VMSize s; vs_BootstrapData := v1beta1.vs_BootstrapData s;
     vs_Identity := v1beta1.vs_Identity s; vs_Location := v1beta1.vs_Location s;
     vs_SSHPublicKey := v1beta1.vs_SSHPublicKey s;
     vs_StorageContainer := v1beta1.vs_StorageContainer s;
     vs_GpuCount := v1beta1.vs_GpuCount s; vs_ResourceGroup := v1beta1.vs_ResourceGroup s;
     vs_VnetName := v1beta1.vs_VnetName s; vs_ClusterName := v1beta1.vs_ClusterName s;
     vs_SubnetName := v1beta1.vs_SubnetName s;
     vs_BackendPoolNames := v1beta1.vs_BackendPoolNames s;
     vs_AdditionalSSHKeys := v1beta1.vs_AdditionalSSHKeys s;
     vs_AvailabilitySetName := v1beta1.vs_AvailabilitySetName s;
     vs_PlacementGroupName := v1beta1.vs_PlacementGroupName s;
     vs_NetworkInterfaces := map_pointers copy_nic_v1beta2 (v1beta1.vs_NetworkInterfaces s);
     vs_AvailabilityZone := zone_v1beta2 (v1beta1.vs_AvailabilityZone s);
     vs_Image := Some (copy_image_v1beta2 (v1beta1.vs_Image s));
     vs_OSDisk := disk_v1beta2 (v1beta1.vs_OSDisk s) |}.
Definition vm_spec_v1beta1 (s : AzureStackHCIVirtualMachineSpec) : v1beta1.AzureStackHCIVirtualMachineSpec :=
  {| v1beta1.vs_VMSize := vs_VMSize s; v1beta1.vs_BootstrapData := vs_BootstrapData s;
     v1beta1.vs_Identity := vs_Identity s; v1beta1.vs_Location := vs_Location s;
     v1beta1.vs_SSHPublicKey := vs_SSHPublicKey s;
     v1beta1.vs_StorageContainer := vs_StorageContainer s;
     v1beta1.vs_GpuCount := vs_GpuCount s; v1beta1.vs_ResourceGroup := vs_ResourceGroup s;
     v1beta1.vs_VnetName := vs_VnetName s; v1beta1.vs_ClusterName := vs_ClusterName s;
     v1beta1.vs_SubnetName := vs_SubnetName s;
     v1beta1.vs_BackendPoolNames := vs_BackendPoolNames s;
     v1beta1.vs_AdditionalSSHKeys := vs_AdditionalSSHKeys s;
     v1beta1.vs_AvailabilitySetName := vs_AvailabilitySetName s;
     v1beta1.vs_PlacementGroupName := vs_PlacementGroupName s;
     v1beta1.vs_NetworkInterfaces := map_pointers copy_nic_v1beta1 (vs_NetworkInterfaces s);
     v1beta1.vs_AvailabilityZone := zone_v1beta1 (vs_AvailabilityZone s);
     v1beta1.vs_Image := image_v1beta1 (vs_Image s);
     v1beta1.vs_OSDisk := disk_v1beta1 (vs_OSDisk s) |}.
Lemma vm_spec_up s :
  Convert_v1beta1_AzureStackHCIVirtualMachineSpec_To_v1beta2_AzureStackHCIVirtualMachineSpec s
    zero_VirtualMachineSpec = inr (vm_spec_v1beta2 s).
Proof.
  destruct s as [].
  unfold Convert_v1beta1_AzureStackHCIVirtualMachineSpec_To_v1beta2_AzureStackHCIVirtualMachineSpec,
    vm_spec_v1beta2, zone_v1beta2, image_v1beta2, disk_v1beta2.
  by decided.
Qed.
Lemma vm_spec_down s :
  Convert_v1beta2_AzureStackHCIVirtualMachineSpec_To_v1beta1_AzureStackHCIVirtualMachineSpec s
    v1beta1.zero_VirtualMachineSpec = inr (vm_spec_v1beta1 s).
Proof.
  destruct s as [? [] [] [[???? []]|] ???????????????];
    unfold Convert_v1beta2_AzureStackHCIVirtualMachineSpec_To_v1beta1_AzureStackHCIVirtualMachineSpec,
    vm_spec_v1beta1;
    by decided.
Qed.
Lemma zone_there z : zone_v1beta1 (zone_v1beta2 z) = z.
Proof. by destruct z as [[] []]. Qed.
Lemma zone_back z : zone_v1beta2 (zone_v1beta1 z) = settled_hub_zone z.
Proof. by destruct z as [[[] []]|]. Qed.
Lemma image_there i : image_v1beta1 (image_v1beta2 i) = settled_image i.
Proof. destruct i. unfold image_v1beta2, settled_image. by case_decide. Qed.
Lemma image_back i : image_v1beta2 (image_v1beta1 i) = settled_hub_image i.
Proof. by destruct i as [[]|]. Qed.
Lemma copy_image_there i : image_v1beta1 (Some (copy_image_v1beta2 i)) = i.
Proof. by destruct i. Qed.
Lemma copy_image_back i : Some (copy_image_v1beta2 (image_v1beta1 i)) = some_image i.
Proof. by destruct i as [[]|]. Qed.
Lemma disk_there d : disk_v1beta1 (disk_v1beta2 d) = settled_disk d.
Proof. destruct d as [???? []]. unfold disk_v1beta2, settled_disk. by case_decide. Qed.
Lemma disk_back d : disk_v1beta2 (disk_v1beta1 d) = settled_hub_disk d.
Proof. by destruct d as [[???? [[]|]]|]. Qed.

#[local] Arguments image_v1beta1 : simpl never.
(** The trip of a specification, field by field *)
Ltac spec_trip there back s :=
  eexists; split; [apply there|]; rewrite back; f_equal; destruct s;
  cbv [machine_spec_v1beta2 machine_spec_v1beta1 vm_spec_v1beta2 vm_spec_v1beta1
       settled_machine_spec settled_vm_spec settled_hub_machine_spec settled_hub_vm_spec];
  cbn; rewrite ?nics_v1beta1_v1beta2, ?nics_v1beta2_v1beta1, ?zone_there, ?zone_back,
    ?image_there, ?image_back, ?copy_image_there, ?copy_image_back, ?disk_there, ?disk_back;
  reflexivity.
Lemma machine_spec_trip s :
  trip Convert_v1beta1_AzureStackHCIMachineSpec_To_v1beta2_AzureStackHCIMachineSpec
    Convert_v1beta2_AzureStackHCIMachineSpec_To_v1beta1_AzureStackHCIMachineSpec
    zero_MachineSpec v1beta1.zero_MachineSpec s (settled_machine_spec s).
Proof. spec_trip machine_spec_up machine_spec_down s. Qed.
Lemma hub_machine_spec_trip s :
  trip Convert_v1beta2_AzureStackHCIMachineSpec_To_v1beta1_AzureStackHCIMachineSpec
    Convert_v1beta1_AzureStackHCIMachineSpec_To_v1beta2_AzureStackHCIMachineSpec
    v1beta1.zero_MachineSpec zero_MachineSpec s (settled_hub_machine_spec s).
Proof. spec_trip machine_spec_down machine_spec_up s. Qed.
Lemma vm_spec_trip s :
  trip Convert_v1beta1_AzureStackHCIVirtualMachineSpec_To_v1beta2_AzureStackHCIVirtualMachineSpec
    Convert_v1beta2_AzureStackHCIVirtualMachineSpec_To_v1beta1_AzureStackHCIVirtualMachineSpec
    zero_VirtualMachineSpec v1beta1.zero_VirtualMachineSpec s (settled_vm_spec s).
Proof. spec_trip vm_spec_up vm_spec_down s. Qed.
Lemma hub_vm_spec_trip s :
  trip Convert_v1beta2_AzureStackHCIVirtualMachineSpec_To_v1beta1_AzureStackHCIVirtualMachineSpec
    Convert_v1beta1_AzureStackHCIVirtualMachineSpec_To_v1beta2_AzureStackHCIVirtualMachineSpec
    v1beta1.zero_VirtualMachineSpec zero_VirtualMachineSpec s (settled_hub_vm_spec s).
Proof. spec_trip vm_spec_down vm_spec_up s. Qed.
Lemma lb_spec_trip s :
  trip Convert_v1beta1_AzureStackHCILoadBalancerSpec_To_v1beta2_AzureStackHCILoadBalancerSpec
    Convert_v1beta2_AzureStackHCILoadBalancerSpec_To_v1beta1_AzureStackHCILoadBalancerSpec
    zero_LoadBalancerSpec v1beta1.zero_LoadBalancerSpec s s.
Proof. destruct s as [? [] ???]. by eexists. Qed.
Lemma hub_lb_spec_trip s :
  trip Convert_v1beta2_AzureStackHCILoadBalancerSpec_To_v1beta1_AzureStackHCILoadBalancerSpec
    Convert_v1beta1_AzureStackHCILoadBalancerSpec_To_v1beta2_AzureStackHCILoadBalancerSpec
    v1beta1.zero_LoadBalancerSpec zero_LoadBalancerSpec s (settled_hub_lb_spec s).
Proof. destruct s as [? [[]|] ???]; by eexists. Qed.

(** ** The other parts of the resources *)
Lemma vm_trip v :
  trip Convert_v1beta1_VM_To_v1beta2_VM Convert_v1beta2_VM_To_v1beta1_VM zero_VM
    v1beta1.zero_VM v v.
Proof. destruct v as [???? [] [???? []] ???]. by eexists. Qed.
(** The bastion of a cluster *)
Definition settled_hub_vm (v : VM) : VM := v <| vm_OSDisk ::= managed |>.
Lemma hub_vm_trip v :
  trip Convert_v1beta2_VM_To_v1beta1_VM Convert_v1beta1_VM_To_v1beta2_VM v1beta1.zero_VM
    zero_VM v (settled_hub_vm v).
Proof. destruct v as [???? [] [???? [[]|]] ???]; by eexists. Qed.
Lemma network_trip n :
  trip Convert_v1beta1_NetworkSpec_To_v1beta2_NetworkSpec
    Convert_v1beta2_NetworkSpec_To_v1beta1_NetworkSpec
    (cs_NetworkSpec zero_ClusterSpec) v1beta1.zero_NetworkSpec n n.
Proof.
  destruct n as [[] l]. eexists. split; [reflexivity|]. cbn. by rewrite subnets_v1beta1_v1beta2.
Qed.
Lemma hub_network_trip n :
  trip Convert_v1beta2_NetworkSpec_To_v1beta1_NetworkSpec
    Convert_v1beta1_NetworkSpec_To_v1beta2_NetworkSpec
    v1beta1.zero_NetworkSpec (cs_NetworkSpec zero_ClusterSpec) n n.
Proof.
  destruct n as [[] l]. eexists. split; [reflexivity|]. cbn. by rewrite subnets_v1beta2_v1beta1.
Qed.

(** A trip of a record whose slices and specification have made theirs: what they became is
    rewritten in the conversion there and in the conversion back. *)
#[local] Arguments Convert_v1beta1_AzureStackHCIMachineSpec_To_v1beta2_AzureStackHCIMachineSpec : simpl never.
#[local] Arguments Convert_v1beta2_AzureStackHCIMachineSpec_To_v1beta1_AzureStackHCIMachineSpec : simpl never.
#[local] Arguments Convert_v1beta1_AzureStackHCIVirtualMachineSpec_To_v1beta2_AzureStackHCIVirtualMachineSpec : simpl never.
#[local] Arguments Convert_v1beta2_AzureStackHCIVirtualMachineSpec_To_v1beta1_AzureStackHCIVirtualMachineSpec : simpl never.
Ltac made H := let Hu := fresh "Hu" in let Hd := fresh "Hd" in destruct H as (?&Hu&Hd).
(** The function that is stuck is unfolded, unless it is a part whose result is known. *)
Ltac run_conversion :=
  cbn; repeat (first
    [ match goal with H : ?m = inr _ |- context [?m] => rewrite H end
    | lazymatch goal with
      | |- inr _ = _ => fail
      | |- and_then (and_then ?m _) _ = _ => let h := head_of m in unfold h
      | |- and_then ?m _ = _ => let h := head_of m in unfold h
      | |- ?m = _ => let h := head_of m in unfold h
      end ]; cbn).
Ltac assembled :=
  unfold spoke_trip, hub_trip, trip; eexists; split;
    [run_conversion; reflexivity
    |run_conversion; rewrite ?subnets_v1beta1_v1beta2, ?subnets_v1beta2_v1beta1; reflexivity].

Definition settled_hub_cluster_spec (s : AzureStackHCIClusterSpec) : AzureStackHCIClusterSpec :=
  s <| cs_AzureStackHCILoadBalancer ::= fmap settled_hub_lb_spec |>.
Lemma cluster_spec_trip s :
  trip Convert_v1beta1_AzureStackHCIClusterSpec_To_v1beta2_AzureStackHCIClusterSpec
    Convert_v1beta2_AzureStackHCIClusterSpec_To_v1beta1_AzureStackHCIClusterSpec
    zero_ClusterSpec v1beta1.zero_ClusterSpec s s.
Proof. destruct s as [[[] ?] ?? [[?[]???]|] [] ??]; assembled. Qed.
Lemma hub_cluster_spec_trip s :
  trip Convert_v1beta2_AzureStackHCIClusterSpec_To_v1beta1_AzureStackHCIClusterSpec
    Convert_v1beta1_AzureStackHCIClusterSpec_To_v1beta2_AzureStackHCIClusterSpec
    v1beta1.zero_ClusterSpec zero_ClusterSpec s (settled_hub_cluster_spec s).
Proof. destruct s as [[[] ?] ?? [[?[[]|]???]|] [] ??]; assembled. Qed.

(** ** The resources

    What is left of each kind. The kind and API version of the destination are its own. *)
Definition settled_lb (x : v1beta1.AzureStackHCILoadBalancer) : v1beta1.AzureStackHCILoadBalancer :=
  x <| v1beta1.lb_type := metav1.empty_type |>
    <| v1beta1.lb_Status ::= (λ st, st <| v1beta1.lst_Conditions ::= fmap settled_condition |>) |>.
Definition settled_vm (x : v1beta1.AzureStackHCIVirtualMachine)
    : v1beta1.AzureStackHCIVirtualMachine :=
  x <| v1beta1.hv_type := metav1.empty_type |> <| v1beta1.hv_Spec ::= settled_vm_spec |>
    <| v1beta1.hv_Status ::= (λ st, st <| v1beta1.vst_Conditions ::= fmap settled_condition |>) |>.
(** A machine loses its failure. *)
Definition settled_machine (x : v1beta1.AzureStackHCIMachine) : v1beta1.AzureStackHCIMachine :=
  x <| v1beta1.hm_type := metav1.empty_type |> <| v1beta1.hm_Spec ::= settled_machine_spec |>
    <| v1beta1.hm_Status ::= (λ st, st <| v1beta1.mst_Conditions ::= fmap settled_condition |>
         <| v1beta1.mst_FailureReason := None |> <| v1beta1.mst_FailureMessage := None |>) |>.
(** A cluster is ready afterwards when it has the condition Ready, whatever it was before. *)
Definition ready_condition (c : corev1beta1.Condition) : bool :=
  bool_decide (corev1beta1.c_Type c = "Ready" ∧ corev1beta1.c_Status c = metav1.ConditionTrue).
Definition settled_cluster (x : v1beta1.AzureStackHCICluster) : v1beta1.AzureStackHCICluster :=
  x <| v1beta1.hc_type := metav1.empty_type |>
    <| v1beta1.hc_Status ::= (λ st,
         st <| v1beta1.cst_Ready := existsb ready_condition (v1beta1.cst_Conditions st) |>
            <| v1beta1.cst_Conditions ::= fmap settled_condition |>) |>.
Definition settled_machine_template (x : v1beta1.AzureStackHCIMachineTemplate)
    : v1beta1.AzureStackHCIMachineTemplate :=
  x <| v1beta1.mt_type := metav1.empty_type |>
    <| v1beta1.mt_Spec ::= (λ s, s <| v1beta1.mts_Template ::= (λ r,
         r <| v1beta1.mtr_Spec ::= settled_machine_spec |>) |>) |>.

Lemma ready_condition_v1beta2 l m :
  convert_slice Convert_v1beta1_Condition_To_v1_Condition metav1.zero_Condition l = inr m →
  existsb (λ c, bool_decide (metav1.c_Type c = "Ready" ∧
                             metav1.c_Status c = metav1.ConditionTrue)) m
  = existsb ready_condition l.
Proof.
  revert m. induction l as [|c l IH]; intros m; [by injection 1 as <-|].
  destruct (condition_trip c) as (d&Hd&_).
  assert (Hty : metav1.c_Type d = corev1beta1.c_Type c ∧
                metav1.c_Status d = corev1beta1.c_Status c).
  { by destruct c as [???? [|??] [|??]]; injection Hd as <-. }
  cbn [convert_slice]. rewrite Hd. cbn [and_then].
  destruct (convert_slice _ _ l) as [|m']; cbn; [done|]. intros [= <-]. cbn.
  rewrite (IH m') by done. unfold ready_condition. by destruct Hty as [-> ->].
Qed.

Local Notation conditions := (slice_trip _ _ _ _ _ condition_trip).
Lemma lb_resource_trip x :
  spoke_trip v1beta1.zero_LoadBalancer zero_LoadBalancer x (settled_lb x).
Proof.
  destruct x as [ty meta [? [] ???] [??????? cs ???]]. made (conditions cs). assembled.
Qed.
Lemma vm_resource_trip x :
  spoke_trip v1beta1.zero_VirtualMachine zero_VirtualMachine x (settled_vm x).
Proof.
  destruct x as [ty meta s [????? cs]]. made (vm_spec_trip s). made (conditions cs). assembled.
Qed.
Lemma machine_resource_trip x :
  spoke_trip v1beta1.zero_Machine zero_Machine x (settled_machine x).
Proof.
  destruct x as [ty meta s [[] ?? cs ??]]; made (machine_spec_trip s); made (conditions cs);
    assembled.
Qed.
Lemma machine_template_trip x :
  spoke_trip v1beta1.zero_MachineTemplate zero_MachineTemplate x (settled_machine_template x).
Proof. destruct x as [ty meta [[s]]]. made (machine_spec_trip s). assembled. Qed.
Lemma cluster_resource_trip x :
  spoke_trip v1beta1.zero_Cluster zero_Cluster x (settled_cluster x).
Proof.
  destruct x as [ty meta [[[] ?] ?? [[?[]???]|] [] ??] [[???? [] [???? []] ???] [] ? cs]];
    made (conditions cs); pose proof (ready_condition_v1beta2 _ _ Hu) as Hready;
    unfold spoke_trip, trip; (eexists; split; [run_conversion; reflexivity|run_conversion]);
    rewrite ?subnets_v1beta1_v1beta2, ?Hready; reflexivity.
Qed.

(** What is left of a resource of the hub *)
Definition provisioned (b : bool) : option InitializationStatus :=
  if b then Some (mkInitializationStatus (Some true)) else None.
Definition hub_ready_condition (c : metav1.Condition) : bool :=
  bool_decide (metav1.c_Type c = "Ready" ∧ metav1.c_Status c = metav1.ConditionTrue).
Definition settled_hub_lb (x : AzureStackHCILoadBalancer) : AzureStackHCILoadBalancer :=
  x <| lb_type := metav1.empty_type |> <| lb_Spec ::= settled_hub_lb_spec |>
    <| lb_Status ::= (λ st, st <| lst_Conditions ::= fmap settled_hub_condition |>) |>.
Definition settled_hub_virtual_machine (x : AzureStackHCIVirtualMachine)
    : AzureStackHCIVirtualMachine :=
  x <| hv_type := metav1.empty_type |> <| hv_Spec ::= settled_hub_vm_spec |>
    <| hv_Status ::= (λ st, st <| vst_Conditions ::= fmap settled_hub_condition |>) |>.
Definition settled_hub_machine (x : AzureStackHCIMachine) : AzureStackHCIMachine :=
  x <| hm_type := metav1.empty_type |> <| hm_Spec ::= settled_hub_machine_spec |>
    <| hm_Status ::= (λ st, st <| mst_Conditions ::= fmap settled_hub_condition |>
         <| mst_Initialization := provisioned (mst_Ready st) |>) |>.
Definition settled_hub_cluster (x : AzureStackHCICluster) : AzureStackHCICluster :=
  x <| hc_type := metav1.empty_type |> <| hc_Spec ::= settled_hub_cluster_spec |>
    <| hc_Status ::= (λ st, st <| cst_Bastion ::= settled_hub_vm |>
         <| cst_Initialization := provisioned (existsb hub_ready_condition (cst_Conditions st)) |>
         <| cst_Conditions ::= fmap settled_hub_condition |>) |>.
Definition settled_hub_machine_template (x : AzureStackHCIMachineTemplate)
    : AzureStackHCIMachineTemplate :=
  x <| mt_type := metav1.empty_type |>
    <| mt_Spec ::= (λ s, s <| mts_Template ::= (λ r,
         r <| mtr_Spec ::= settled_hub_machine_spec |>) |>) |>.

Local Notation hub_conditions := (slice_trip _ _ _ _ _ hub_condition_trip).
Lemma hub_lb_resource_trip x :
  hub_trip v1beta1.zero_LoadBalancer zero_LoadBalancer x (settled_hub_lb x).
Proof.
  destruct x as [ty meta [? [[]|] ???] [??????? cs ???]]; made (hub_conditions cs); assembled.
Qed.
Lemma hub_vm_resource_trip x :
  hub_trip v1beta1.zero_VirtualMachine zero_VirtualMachine x (settled_hub_virtual_machine x).
Proof.
  destruct x as [ty meta s [????? cs]]. made (hub_vm_spec_trip s). made (hub_conditions cs).
  assembled.
Qed.
Lemma hub_machine_resource_trip x :
  hub_trip v1beta1.zero_Machine zero_Machine x (settled_hub_machine x).
Proof.
  destruct x as [ty meta s [[] ?? cs ?]]; made (hub_machine_spec_trip s);
    made (hub_conditions cs); assembled.
Qed.
Lemma hub_machine_template_trip x :
  hub_trip v1beta1.zero_MachineTemplate zero_MachineTemplate x
    (settled_hub_machine_template x).
Proof. destruct x as [ty meta [[s]]]. made (hub_machine_spec_trip s). assembled. Qed.
Lemma hub_cluster_resource_trip x :
  hub_trip v1beta1.zero_Cluster zero_Cluster x (settled_hub_cluster x).
Proof.
  destruct x as [ty meta [[[] ?] ?? [[?[[]|]???]|] [] ??]
                   [[???? [] [???? [[]|]] ???] ? cs ?]];
    made (hub_conditions cs); destruct (existsb hub_ready_condition cs) eqn:Hready;
    unfold hub_ready_condition in Hready;
    unfold hub_trip, trip; (eexists; split; [run_conversion; reflexivity|run_conversion]);
    rewrite ?subnets_v1beta2_v1beta1, ?Hready; run_conversion;
    unfold settled_hub_cluster, hub_ready_condition; cbn; rewrite ?Hready; reflexivity.
Qed.

(** ** The claims *)
Lemma settled_condition_idemp c : settled_condition (settled_condition c) = settled_condition c.
Proof. by destruct c as [???? [|??] [|??]]. Qed.
Lemma settled_hub_condition_idemp c :
  settled_hub_condition (settled_hub_condition c) = settled_hub_condition c.
Proof. by destruct c as [???? [|??] [|??]]. Qed.
Lemma settled_conditions_idemp (l : list corev1beta1.Condition) :
  settled_condition <$> (settled_condition <$> l) = settled_condition <$> l.
Proof. rewrite <-list_fmap_compose. apply list_fmap_ext. intros. apply settled_condition_idemp. Qed.
Lemma settled_hub_conditions_idemp (l : list metav1.Condition) :
  settled_hub_condition <$> (settled_hub_condition <$> l) = settled_hub_condition <$> l.
Proof.
  rewrite <-list_fmap_compose. apply list_fmap_ext. intros. apply settled_hub_condition_idemp.
Qed.
Lemma settled_image_idemp i : settled_image (settled_image i) = settled_image i.
Proof. unfold settled_image. by repeat case_decide. Qed.
Lemma settled_disk_idemp d : settled_disk (settled_disk d) = settled_disk d.
Proof. unfold settled_disk. by repeat case_decide. Qed.
Lemma settled_hub_zone_idemp z : settled_hub_zone (settled_hub_zone z) = settled_hub_zone z.
Proof. destruct z as [z|]; [|done]. cbn. case_decide; [|done]. cbn. by case_decide. Qed.
Lemma settled_hub_image_idemp i : settled_hub_image (settled_hub_image i) = settled_hub_image i.
Proof. destruct i as [i|]; [|done]. cbn. case_decide; [|done]. cbn. by case_decide. Qed.
Lemma settled_hub_disk_idemp d : settled_hub_disk (settled_hub_disk d) = settled_hub_disk d.
Proof. destruct d as [d|]; [|done]. cbn. case_decide; [|done]. cbn. by case_decide. Qed.
Lemma ready_settled (l : list corev1beta1.Condition) :
  existsb ready_condition (settled_condition <$> l) = existsb ready_condition l.
Proof. induction l as [|c l IH]; [done|]. cbn. by rewrite IH. Qed.
Lemma hub_ready_settled (l : list metav1.Condition) :
  existsb hub_ready_condition (settled_hub_condition <$> l) = existsb hub_ready_condition l.
Proof. induction l as [|c l IH]; [done|]. cbn. by rewrite IH. Qed.
Ltac idempotent :=
  unfold settled_lb, settled_vm, settled_machine, settled_machine_template, settled_cluster,
    settled_hub_lb, settled_hub_virtual_machine, settled_hub_machine,
    settled_hub_machine_template, settled_hub_cluster, settled_machine_spec, settled_vm_spec,
    settled_hub_machine_spec, settled_hub_vm_spec, settled_hub_lb_spec,
    settled_hub_cluster_spec, some_image; cbn;
  rewrite ?settled_conditions_idemp, ?settled_hub_conditions_idemp, ?settled_image_idemp,
    ?settled_disk_idemp, ?settled_hub_zone_idemp, ?settled_hub_image_idemp,
    ?settled_hub_disk_idemp, ?ready_settled, ?hub_ready_settled; reflexivity.

(** C17: A resource of v1beta1 that is converted into the hub version and back comes back as its
    settled form, for every kind: no conversion fails, and what is lost is stated exactly. Every
    condition loses its severity, and an empty reason or message becomes "Unknown"; a machine
    and a template lose an image without system, identifier and publisher; a machine, a
    template and a virtual machine lose a disk without name and size; a machine loses its
    failure; a cluster is ready afterwards exactly when it has a true condition of type Ready.
    A second trip changes nothing. *)
Theorem spoke_roundtrip :
  (∀ x, spoke_trip v1beta1.zero_LoadBalancer zero_LoadBalancer x (settled_lb x) ∧
        settled_lb (settled_lb x) = settled_lb x) ∧
  (∀ x, spoke_trip v1beta1.zero_VirtualMachine zero_VirtualMachine x (settled_vm x) ∧
        settled_vm (settled_vm x) = settled_vm x) ∧
  (∀ x, spoke_trip v1beta1.zero_Machine zero_Machine x (settled_machine x) ∧
        settled_machine (settled_machine x) = settled_machine x) ∧
  (∀ x, spoke_trip v1beta1.zero_MachineTemplate zero_MachineTemplate x (settled_machine_template x) ∧
        settled_machine_template (settled_machine_template x) = settled_machine_template x) ∧
  (∀ x, spoke_trip v1beta1.zero_Cluster zero_Cluster x (settled_cluster x) ∧
        settled_cluster (settled_cluster x) = settled_cluster x).
Proof.
  split_and!; intros x; (split; [first [apply lb_resource_trip | apply vm_resource_trip | apply machine_resource_trip | apply machine_template_trip | apply cluster_resource_trip]|]).
  - by destruct x as [?? [] []]; idempotent.
  - by destruct x as [?? [] []]; idempotent.
  - by destruct x as [?? [] []]; idempotent.
  - by destruct x as [?? [[[]]]]; idempotent.
  - by destruct x as [?? [] []]; idempotent.
Qed.

(** C18: A resource of the hub version that is converted to v1beta1 and back, as when a client of
    v1beta1 reads and updates it, comes back as its settled form: no conversion fails, and what
    is lost is stated exactly. Conditions lose their generation; an empty zone, and the image
    or disk of a machine without content, become absent; an absent image of a virtual machine
    or load balancer becomes an empty one; a machine is initialized afterwards exactly when it
    is ready, and a cluster exactly when it has a true condition of type Ready, whatever the
    initialization said before. A second trip changes nothing. *)
Theorem hub_roundtrip :
  (∀ x, hub_trip v1beta1.zero_LoadBalancer zero_LoadBalancer x (settled_hub_lb x) ∧
        settled_hub_lb (settled_hub_lb x) = settled_hub_lb x) ∧
  (∀ x, hub_trip v1beta1.zero_VirtualMachine zero_VirtualMachine x (settled_hub_virtual_machine x) ∧
        settled_hub_virtual_machine (settled_hub_virtual_machine x) = settled_hub_virtual_machine x) ∧
  (∀ x, hub_trip v1beta1.zero_Machine zero_Machine x (settled_hub_machine x) ∧
        settled_hub_machine (settled_hub_machine x) = settled_hub_machine x) ∧
  (∀ x, hub_trip v1beta1.zero_MachineTemplate zero_MachineTemplate x (settled_hub_machine_template x) ∧
        settled_hub_machine_template (settled_hub_machine_template x) = settled_hub_machine_template x) ∧
  (∀ x, hub_trip v1beta1.zero_Cluster zero_Cluster x (settled_hub_cluster x) ∧
        settled_hub_cluster (settled_hub_cluster x) = settled_hub_cluster x).
Proof.
  split_and!; intros x; (split; [first [apply hub_lb_resource_trip
    | apply hub_vm_resource_trip
    | apply hub_machine_resource_trip
    | apply hub_machine_template_trip
    | apply hub_cluster_resource_trip]|]).
  - by destruct x as [?? [] []]; idempotent.
  - by destruct x as [?? [] []]; idempotent.
  - by destruct x as [?? [] []]; idempotent.
  - by destruct x as [?? [[[]]]]; idempotent.
  - destruct x as [?? [??? [[]|] ???] [[????? [] ???] ???]]; idempotent.
Qed.

(** Lists: the items make their trips one by one. *)
Ltac list_trip l there back trip :=
  destruct l as [ty [] items];
  destruct (slice_trip there back _ _ _ trip items) as (?&Hu&Hd); assembled.
Definition settled_lbl (l : v1beta1.AzureStackHCILoadBalancerList) : v1beta1.AzureStackHCILoadBalancerList :=
  l <| v1beta1.lbl_type := metav1.empty_type |> <| v1beta1.lbl_Items ::= fmap settled_lb |>.
Definition settled_hub_lbl (l : AzureStackHCILoadBalancerList) : AzureStackHCILoadBalancerList :=
  l <| lbl_type := metav1.empty_type |> <| lbl_Items ::= fmap settled_hub_lb |>.
Definition settled_hvl (l : v1beta1.AzureStackHCIVirtualMachineList) : v1beta1.AzureStackHCIVirtualMachineList :=
  l <| v1beta1.hvl_type := metav1.empty_type |> <| v1beta1.hvl_Items ::= fmap settled_vm |>.
Definition settled_hub_hvl (l : AzureStackHCIVirtualMachineList) : AzureStackHCIVirtualMachineList :=
  l <| hvl_type := metav1.empty_type |> <| hvl_Items ::= fmap settled_hub_virtual_machine |>.
Definition settled_hml (l : v1beta1.AzureStackHCIMachineList) : v1beta1.AzureStackHCIMachineList :=
  l <| v1beta1.hml_type := metav1.empty_type |> <| v1beta1.hml_Items ::= fmap settled_machine |>.
Definition settled_hub_hml (l : AzureStackHCIMachineList) : AzureStackHCIMachineList :=
  l <| hml_type := metav1.empty_type |> <| hml_Items ::= fmap settled_hub_machine |>.
Definition settled_mtl (l : v1beta1.AzureStackHCIMachineTemplateList) : v1beta1.AzureStackHCIMachineTemplateList :=
  l <| v1beta1.mtl_type := metav1.empty_type |> <| v1beta1.mtl_Items ::= fmap settled_machine_template |>.
Definition settled_hub_mtl (l : AzureStackHCIMachineTemplateList) : AzureStackHCIMachineTemplateList :=
  l <| mtl_type := metav1.empty_type |> <| mtl_Items ::= fmap settled_hub_machine_template |>.
Definition settled_hcl (l : v1beta1.AzureStackHCIClusterList) : v1beta1.AzureStackHCIClusterList :=
  l <| v1beta1.hcl_type := metav1.empty_type |> <| v1beta1.hcl_Items ::= fmap settled_cluster |>.
Definition settled_hub_hcl (l : AzureStackHCIClusterList) : AzureStackHCIClusterList :=
  l <| hcl_type := metav1.empty_type |> <| hcl_Items ::= fmap settled_hub_cluster |>.

(** The list of each kind is converted item by item, in order, in both directions: a trip of
    a list keeps its metadata and its length, and each of its items comes back as its own
    settled form. *)
Theorem lists_roundtrip :
  (∀ l, spoke_trip (v1beta1.mkLoadBalancerList metav1.empty_type metav1.zero_ListMeta [])
          (mkLoadBalancerList metav1.empty_type metav1.zero_ListMeta []) l (settled_lbl l)) ∧
  (∀ l, hub_trip (v1beta1.mkLoadBalancerList metav1.empty_type metav1.zero_ListMeta [])
          (mkLoadBalancerList metav1.empty_type metav1.zero_ListMeta []) l (settled_hub_lbl l)) ∧
  (∀ l, spoke_trip (v1beta1.mkVirtualMachineList metav1.empty_type metav1.zero_ListMeta [])
          (mkVirtualMachineList metav1.empty_type metav1.zero_ListMeta []) l (settled_hvl l)) ∧
  (∀ l, hub_trip (v1beta1.mkVirtualMachineList metav1.empty_type metav1.zero_ListMeta [])
          (mkVirtualMachineList metav1.empty_type metav1.zero_ListMeta []) l (settled_hub_hvl l)) ∧
  (∀ l, spoke_trip (v1beta1.mkMachineList metav1.empty_type metav1.zero_ListMeta [])
          (mkMachineList metav1.empty_type metav1.zero_ListMeta []) l (settled_hml l)) ∧
  (∀ l, hub_trip (v1beta1.mkMachineList metav1.empty_type metav1.zero_ListMeta [])
          (mkMachineList metav1.empty_type metav1.zero_ListMeta []) l (settled_hub_hml l)) ∧
  (∀ l, spoke_trip (v1beta1.mkMachineTemplateList metav1.empty_type metav1.zero_ListMeta [])
          (mkMachineTemplateList metav1.empty_type metav1.zero_ListMeta []) l (settled_mtl l)) ∧
  (∀ l, hub_trip (v1beta1.mkMachineTemplateList metav1.empty_type metav1.zero_ListMeta [])
          (mkMachineTemplateList metav1.empty_type metav1.zero_ListMeta []) l (settled_hub_mtl l)) ∧
  (∀ l, spoke_trip (v1beta1.mkClusterList metav1.empty_type metav1.zero_ListMeta [])
          (mkClusterList metav1.empty_type metav1.zero_ListMeta []) l (settled_hcl l)) ∧
  (∀ l, hub_trip (v1beta1.mkClusterList metav1.empty_type metav1.zero_ListMeta [])
          (mkClusterList metav1.empty_type metav1.zero_ListMeta []) l (settled_hub_hcl l)).
Proof.
  split_and!; intros l.
  - list_trip l Convert_v1beta1_AzureStackHCILoadBalancer_To_v1beta2_AzureStackHCILoadBalancer
      Convert_v1beta2_AzureStackHCILoadBalancer_To_v1beta1_AzureStackHCILoadBalancer lb_resource_trip.
  - list_trip l Convert_v1beta2_AzureStackHCILoadBalancer_To_v1beta1_AzureStackHCILoadBalancer
      Convert_v1beta1_AzureStackHCILoadBalancer_To_v1beta2_AzureStackHCILoadBalancer hub_lb_resource_trip.
  - list_trip l Convert_v1beta1_AzureStackHCIVirtualMachine_To_v1beta2_AzureStackHCIVirtualMachine
      Convert_v1beta2_AzureStackHCIVirtualMachine_To_v1beta1_AzureStackHCIVirtualMachine vm_resource_trip.
  - list_trip l Convert_v1beta2_AzureStackHCIVirtualMachine_To_v1beta1_AzureStackHCIVirtualMachine
      Convert_v1beta1_AzureStackHCIVirtualMachine_To_v1beta2_AzureStackHCIVirtualMachine hub_vm_resource_trip.
  - list_trip l Convert_v1beta1_AzureStackHCIMachine_To_v1beta2_AzureStackHCIMachine
      Convert_v1beta2_AzureStackHCIMachine_To_v1beta1_AzureStackHCIMachine machine_resource_trip.
  - list_trip l Convert_v1beta2_AzureStackHCIMachine_To_v1beta1_AzureStackHCIMachine
      Convert_v1beta1_AzureStackHCIMachine_To_v1beta2_AzureStackHCIMachine hub_machine_resource_trip.
  - list_trip l Convert_v1beta1_AzureStackHCIMachineTemplate_To_v1beta2_AzureStackHCIMachineTemplate
      Convert_v1beta2_AzureStackHCIMachineTemplate_To_v1beta1_AzureStackHCIMachineTemplate machine_template_trip.
  - list_trip l Convert_v1beta2_AzureStackHCIMachineTemplate_To_v1beta1_AzureStackHCIMachineTemplate
      Convert_v1beta1_AzureStackHCIMachineTemplate_To_v1beta2_AzureStackHCIMachineTemplate hub_machine_template_trip.
  - list_trip l Convert_v1beta1_AzureStackHCICluster_To_v1beta2_AzureStackHCICluster
      Convert_v1beta2_AzureStackHCICluster_To_v1beta1_AzureStackHCICluster cluster_resource_trip.
  - list_trip l Convert_v1beta2_AzureStackHCICluster_To_v1beta1_AzureStackHCICluster
      Convert_v1beta1_AzureStackHCICluster_To_v1beta2_AzureStackHCICluster hub_cluster_resource_trip.
Qed.

(** ** The overrides

    A specification converted by hand, less the fields the generated conversion leaves out, is
    the one the generated conversion gives. *)
(** The conversions written by hand for the specifications of machines, virtual machines and
    load balancers, in either direction, forget none of the fields that the generated
    conversions handle, and give them the same values: they differ in the availability zone,
    the image and the disk only, the fields whose types differ. *)
Theorem overrides_complete :
  (∀ s, ∃ m, Convert_v1beta1_AzureStackHCIMachineSpec_To_v1beta2_AzureStackHCIMachineSpec s zero_MachineSpec = inr m ∧
     autoConvert_v1beta1_AzureStackHCIMachineSpec_To_v1beta2_AzureStackHCIMachineSpec s zero_MachineSpec
     = inr (m <| ms_AvailabilityZone := ms_AvailabilityZone zero_MachineSpec |> <| ms_Image := ms_Image zero_MachineSpec |> <| ms_OSDisk := ms_OSDisk zero_MachineSpec |>)) ∧
  (∀ s, ∃ m, Convert_v1beta2_AzureStackHCIMachineSpec_To_v1beta1_AzureStackHCIMachineSpec s v1beta1.zero_MachineSpec = inr m ∧
     autoConvert_v1beta2_AzureStackHCIMachineSpec_To_v1beta1_AzureStackHCIMachineSpec s v1beta1.zero_MachineSpec
     = inr (m <| v1beta1.ms_AvailabilityZone := v1beta1.ms_AvailabilityZone v1beta1.zero_MachineSpec |> <| v1beta1.ms_Image := v1beta1.ms_Image v1beta1.zero_MachineSpec |> <| v1beta1.ms_OSDisk := v1beta1.ms_OSDisk v1beta1.zero_MachineSpec |>)) ∧
  (∀ s, ∃ m, Convert_v1beta1_AzureStackHCIVirtualMachineSpec_To_v1beta2_AzureStackHCIVirtualMachineSpec s zero_VirtualMachineSpec = inr m ∧
     autoConvert_v1beta1_AzureStackHCIVirtualMachineSpec_To_v1beta2_AzureStackHCIVirtualMachineSpec s zero_VirtualMachineSpec
     = inr (m <| vs_AvailabilityZone := vs_AvailabilityZone zero_VirtualMachineSpec |> <| vs_Image := vs_Image zero_VirtualMachineSpec |> <| vs_OSDisk := vs_OSDisk zero_VirtualMachineSpec |>)) ∧
  (∀ s, ∃ m, Convert_v1beta2_AzureStackHCIVirtualMachineSpec_To_v1beta1_AzureStackHCIVirtualMachineSpec s v1beta1.zero_VirtualMachineSpec = inr m ∧
     autoConvert_v1beta2_AzureStackHCIVirtualMachineSpec_To_v1beta1_AzureStackHCIVirtualMachineSpec s v1beta1.zero_VirtualMachineSpec
     = inr (m <| v1beta1.vs_AvailabilityZone := v1beta1.vs_AvailabilityZone v1beta1.zero_VirtualMachineSpec |> <| v1beta1.vs_Image := v1beta1.vs_Image v1beta1.zero_VirtualMachineSpec |> <| v1beta1.vs_OSDisk := v1beta1.vs_OSDisk v1beta1.zero_VirtualMachineSpec |>)) ∧
  (∀ s, ∃ m, Convert_v1beta1_AzureStackHCILoadBalancerSpec_To_v1beta2_AzureStackHCILoadBalancerSpec s zero_LoadBalancerSpec = inr m ∧
     autoConvert_v1beta1_AzureStackHCILoadBalancerSpec_To_v1beta2_AzureStackHCILoadBalancerSpec s zero_LoadBalancerSpec
     = inr (m <| lbs_Image := lbs_Image zero_LoadBalancerSpec |>)) ∧
  (∀ s, ∃ m, Convert_v1beta2_AzureStackHCILoadBalancerSpec_To_v1beta1_AzureStackHCILoadBalancerSpec s v1beta1.zero_LoadBalancerSpec = inr m ∧
     autoConvert_v1beta2_AzureStackHCILoadBalancerSpec_To_v1beta1_AzureStackHCILoadBalancerSpec s v1beta1.zero_LoadBalancerSpec
     = inr (m <| v1beta1.lbs_Image := v1beta1.lbs_Image v1beta1.zero_LoadBalancerSpec |>)).
Proof.
  split_and!; intros s.
  - exists (machine_spec_v1beta2 s). split; [apply machine_spec_up|reflexivity].
  - exists (machine_spec_v1beta1 s). split; [apply machine_spec_down|reflexivity].
  - exists (vm_spec_v1beta2 s). split; [apply vm_spec_up|reflexivity].
  - exists (vm_spec_v1beta1 s). split; [apply vm_spec_down|reflexivity].
  - eexists. split; reflexivity.
  - destruct s as [? [i|] ???]; eexists; split; reflexivity.
Qed.

(** ** What both versions read the same

    The typed phase of a cluster and of a load balancer, and the order by age of virtual
    machines, are those of the converted object. *)
Lemma cluster_typed_phase st st' :
  cst_Phase st' = v1beta1.cst_Phase st →
  cluster_phase_string (ClusterStatus.GetTypedPhase st') =
    v1beta1.cluster_phase_string (v1beta1.ClusterStatus.GetTypedPhase st).
Proof.
  unfold ClusterStatus.GetTypedPhase, v1beta1.ClusterStatus.GetTypedPhase. intros ->.
  cbn. by repeat case_decide.
Qed.
Lemma lb_typed_phase st st' :
  lst_Phase st' = v1beta1.lst_Phase st →
  lb_phase_string (LoadBalancerStatus.GetTypedPhase st') =
    v1beta1.lb_phase_string (v1beta1.LoadBalancerStatus.GetTypedPhase st).
Proof.
  unfold LoadBalancerStatus.GetTypedPhase, v1beta1.LoadBalancerStatus.GetTypedPhase. intros ->.
  cbn. by repeat case_decide.
Qed.
Lemma vm_up_meta (x : v1beta1.AzureStackHCIVirtualMachine) :
  ∃ h, ConvertTo x zero_VirtualMachine = inr h ∧ hv_meta h = v1beta1.hv_meta x.
Proof.
  destruct x as [ty meta s [????? cs]]. made (vm_spec_trip s). made (conditions cs).
  eexists; (split; [run_conversion; reflexivity|done]).
Qed.
(** A cluster, or a load balancer, of v1beta1 has the typed phase of the object it converts
    to, an unknown phase included, and virtual machines are ordered by age as those they
    convert to. *)
Theorem versions_read_alike :
  (∀ c : v1beta1.AzureStackHCICluster, ∃ h, ConvertTo c zero_Cluster = inr h ∧
     cluster_phase_string (ClusterStatus.GetTypedPhase (hc_Status h)) =
       v1beta1.cluster_phase_string
         (v1beta1.ClusterStatus.GetTypedPhase (v1beta1.hc_Status c))) ∧
  (∀ b : v1beta1.AzureStackHCILoadBalancer, ∃ h, ConvertTo b zero_LoadBalancer = inr h ∧
     lb_phase_string (LoadBalancerStatus.GetTypedPhase (lb_Status h)) =
       v1beta1.lb_phase_string
         (v1beta1.LoadBalancerStatus.GetTypedPhase (v1beta1.lb_Status b))) ∧
  (∀ x y : v1beta1.AzureStackHCIVirtualMachine, ∃ hx hy,
     ConvertTo x zero_VirtualMachine = inr hx ∧ ConvertTo y zero_VirtualMachine = inr hy ∧
     ByCreationTimestamp_Less hx hy = v1beta1.ByCreationTimestamp_Less x y).
Proof.
  split_and!.
  - intros [ty meta [[[] ?] ?? [[?[]???]|] [] ??] [[???? [] [???? []] ???] [] ? cs]];
      made (conditions cs); eexists; (split; [run_conversion; reflexivity|]);
      by apply cluster_typed_phase.
  - intros [ty meta [? [] ???] [??????? cs ???]]. made (conditions cs). eexists.
    split; [run_conversion; reflexivity|]. by apply lb_typed_phase.
  - intros x y. destruct (vm_up_meta x) as (hx&Hx&Mx), (vm_up_meta y) as (hy&Hy&My).
    exists hx, hy. unfold ByCreationTimestamp_Less. by rewrite Mx, My.
Qed.

(** ** Clusters across an upgrade *)
Lemma ready_in cs c :
  c ∈ cs → hub_ready_condition c = true → existsb hub_ready_condition cs = true.
Proof. intros Hc Hr. apply existsb_exists. exists c. by rewrite <-list_elem_of_In. Qed.
Lemma cluster_up_provisioned (c : v1beta1.AzureStackHCICluster) :
  ∃ h, ConvertTo c zero_Cluster = inr h ∧
    MachineController.cluster_provisioned h = v1beta1.cst_Ready (v1beta1.hc_Status c).
Proof.
  destruct c as [ty meta [[[] ?] ?? [[?[]???]|] [] ??] [[???? [] [???? []] ???] [] ? cs]];
    made (conditions cs); eexists; (split; [run_conversion; reflexivity|done]).
Qed.
Section Upgrade.
Context {L : Libs} {LL : LibLaws L}.
Import ClusterScope.
(** C20: A cluster of v1beta1 that is ready is provisioned for the machine controller when it is
    read as v1beta2, and one that is not ready is not. In the other direction, a cluster of
    v1beta2 reads as ready, and is provisioned once a client of v1beta1 has written it back,
    exactly when it has a true condition of type Ready. The cluster controller sets that
    condition whenever it reports a cluster as provisioned, so what it reports survives. *)
Theorem cluster_provisioned_across_versions :
  (∀ c : v1beta1.AzureStackHCICluster, ∃ h, ConvertTo c zero_Cluster = inr h ∧
     MachineController.cluster_provisioned h = v1beta1.cst_Ready (v1beta1.hc_Status c)) ∧
  (∀ h : AzureStackHCICluster, ∃ c h', ConvertFrom v1beta1.zero_Cluster h = inr c ∧
     v1beta1.cst_Ready (v1beta1.hc_Status c) = existsb hub_ready_condition (GetConditions h) ∧
     ConvertTo c zero_Cluster = inr h' ∧
     MachineController.cluster_provisioned h' =
       existsb hub_ready_condition (GetConditions h)) ∧
  (∀ env (s : ClusterScope), wp env ClusterController.reconcileNormal (λ o s' _,
     o = Ok (no_result, None) →
     MachineController.cluster_provisioned (HCICluster s') = true ∧
     existsb hub_ready_condition (GetConditions (HCICluster s')) = true) s []).
Proof.
  split_and!; [exact cluster_up_provisioned|..].
  - intros h. destruct (hub_cluster_resource_trip h) as (c&Hc&Hback).
    destruct (cluster_up_provisioned c) as (h'&Hh'&Hp). exists c, h'.
    rewrite Hback in Hh'. injection Hh' as <-.
    assert (Hr : MachineController.cluster_provisioned (settled_hub_cluster h)
                 = existsb hub_ready_condition (GetConditions h)).
    { destruct h as [??? [?? cs ?]].
      unfold MachineController.cluster_provisioned, settled_hub_cluster. cbn.
      by destruct (existsb hub_ready_condition cs). }
    by rewrite <-Hp, Hr, Hback.
  - intros env s. eapply wp_mono; [apply wp_cluster_reconcileNormal|].
    intros o s' t' H ->. destruct H as [_ [(_&Hi&_&(c&Hc&Hs&_)&_)|[Hres _]]]; [|done].
    unfold initialization in Hi. unfold MachineController.cluster_provisioned.
    rewrite Hi. split; [done|]. apply (ready_in _ c); [by eapply conditions_Get_In|].
    apply bool_decide_eq_true_2. by rewrite (conditions_Get_Type _ _ _ Hc).
Qed.
End Upgrade.

Lemma cluster_provisioned_across_versions_witness :
  let h := ClusterScope.HCICluster
    (ClusterController.reconcileNormal (L:=Ref.ref_libs) ex_env ex_cluster_scope []).1.2 in
  MachineController.cluster_provisioned h = true ∧
  ∃ c h', ConvertFrom v1beta1.zero_Cluster h = inr c ∧
    v1beta1.cst_Ready (v1beta1.hc_Status c) = true ∧
    ConvertTo c zero_Cluster = inr h' ∧ MachineController.cluster_provisioned h' = true.
Proof.
  destruct (cluster_provisioned_across_versions (LL:=Ref.ref_laws)) as (_&Htrip&Hrun).
  specialize (Hrun ex_env ex_cluster_scope).
  assert (Hc : (ClusterController.reconcileNormal (L:=Ref.ref_libs) ex_env
                  ex_cluster_scope []).1.1 = Ok (no_result, None))
    by (vm_compute; reflexivity).
  destruct (ClusterController.reconcileNormal _ _ _) as [[o s'] t'] eqn:E.
  apply (wp_elim _ _ _ _ _ _ _ _ E) in Hrun. destruct (Hrun Hc) as [Hp Hr].
  split; [exact Hp|]. destruct (Htrip (ClusterScope.HCICluster s')) as (c&h'&H1&H2&H3&H4).
  rewrite Hr in H2, H4. exists c, h'. split_and!; assumption.
Defined.
