(* ===== verification/Registration.v ===== *)
(** * The scheme: which types it knows and which conversions

    groupversion_info.go of both versions, the [init] functions of the types, and
    RegisterConversions of api/v1beta1/zz_generated.conversion.go. The scheme itself is
    apimachinery's: what it does with a registration is a parameter. *)
From stdpp Require Import prelude strings list gmap.
From S2P Require Import Prelude GoStd External Api ApiV1beta1 ConversionParts Conversion.
Local Open Scope conv_scope.

(** ** The types *)
(** The names that both versions have; [TCondition], [TConditions] (a slice) and [TAPIEndpoint]
    are the ones of Cluster API and of apimachinery. *)
Inductive api_type :=
  | TAzureStackHCICluster | TAzureStackHCIClusterList | TAzureStackHCIClusterSpec
  | TAzureStackHCIClusterTemplate | TAzureStackHCIClusterTemplateList
  | TAzureStackHCIClusterTemplateResource | TAzureStackHCIClusterTemplateSpec
  | TAzureStackHCILoadBalancer | TAzureStackHCILoadBalancerList
  | TAzureStackHCILoadBalancerStatus | TAzureStackHCIMachine | TAzureStackHCIMachineList
  | TAzureStackHCIMachineProviderCondition | TAzureStackHCIMachineTemplate
  | TAzureStackHCIMachineTemplateList | TAzureStackHCIMachineTemplateResource
  | TAzureStackHCIMachineTemplateSpec | TAzureStackHCIResourceReference
  | TAzureStackHCIVirtualMachine | TAzureStackHCIVirtualMachineList
  | TAzureStackHCIVirtualMachineStatus | TIpConfigurationSpec | TManagedDisk
  | TNetworkInterfaceSpec | TNetworkSpec | TSubnetSpec | TVM | TVnetSpec | TConditions
  | TCondition | TAPIEndpoint | TAvailabilityZone | TAzureStackHCIClusterStatus
  | TAzureStackHCILoadBalancerSpec | TAzureStackHCIMachineSpec | TAzureStackHCIMachineStatus
  | TAzureStackHCIVirtualMachineSpec | TImage | TOSDisk.
#[export] Instance api_type_eq_dec : EqDecision api_type.
Proof. solve_decision. Defined.
Inductive version := V1beta1 | V1beta2.
#[export] Instance version_eq_dec : EqDecision version.
Proof. solve_decision. Defined.
Definition other (v : version) : version :=
  match v with V1beta1 => V1beta2 | V1beta2 => V1beta1 end.
Definition denote_v1beta1 (t : api_type) : Type :=
  match t with
  | TAzureStackHCICluster => v1beta1.AzureStackHCICluster
  | TAzureStackHCIClusterList => v1beta1.AzureStackHCIClusterList
  | TAzureStackHCIClusterSpec => v1beta1.AzureStackHCIClusterSpec
  | TAzureStackHCIClusterTemplate => v1beta1.AzureStackHCIClusterTemplate
  | TAzureStackHCIClusterTemplateList => v1beta1.AzureStackHCIClusterTemplateList
  | TAzureStackHCIClusterTemplateResource => v1beta1.AzureStackHCIClusterTemplateResource
  | TAzureStackHCIClusterTemplateSpec => v1beta1.AzureStackHCIClusterTemplateSpec
  | TAzureStackHCILoadBalancer => v1beta1.AzureStackHCILoadBalancer
  | TAzureStackHCILoadBalancerList => v1beta1.AzureStackHCILoadBalancerList
  | TAzureStackHCILoadBalancerStatus => v1beta1.AzureStackHCILoadBalancerStatus
  | TAzureStackHCIMachine => v1beta1.AzureStackHCIMachine
  | TAzureStackHCIMachineList => v1beta1.AzureStackHCIMachineList
  | TAzureStackHCIMachineProviderCondition => v1beta1.AzureStackHCIMachineProviderCondition
  | TAzureStackHCIMachineTemplate => v1beta1.AzureStackHCIMachineTemplate
  | TAzureStackHCIMachineTemplateList => v1beta1.AzureStackHCIMachineTemplateList
  | TAzureStackHCIMachineTemplateResource => v1beta1.AzureStackHCIMachineTemplateResource
  | TAzureStackHCIMachineTemplateSpec => v1beta1.AzureStackHCIMachineTemplateSpec
  | TAzureStackHCIResourceReference => v1beta1.AzureStackHCIResourceReference
  | TAzureStackHCIVirtualMachine => v1beta1.AzureStackHCIVirtualMachine
  | TAzureStackHCIVirtualMachineList => v1beta1.AzureStackHCIVirtualMachineList
  | TAzureStackHCIVirtualMachineStatus => v1beta1.AzureStackHCIVirtualMachineStatus
  | TIpConfigurationSpec => v1beta1.IpConfigurationSpec
  | TManagedDisk => v1beta1.ManagedDisk
  | TNetworkInterfaceSpec => v1beta1.NetworkInterfaceSpec
  | TNetworkSpec => v1beta1.NetworkSpec
  | TSubnetSpec => v1beta1.SubnetSpec
  | TVM => v1beta1.VM
  | TVnetSpec => v1beta1.VnetSpec
  | TConditions => option (list (option corev1beta1.Condition))
  | TCondition => corev1beta1.Condition
  | TAPIEndpoint => corev1beta1.APIEndpoint
  | TAvailabilityZone => v1beta1.AvailabilityZone
  | TAzureStackHCIClusterStatus => v1beta1.AzureStackHCIClusterStatus
  | TAzureStackHCILoadBalancerSpec => v1beta1.AzureStackHCILoadBalancerSpec
  | TAzureStackHCIMachineSpec => v1beta1.AzureStackHCIMachineSpec
  | TAzureStackHCIMachineStatus => v1beta1.AzureStackHCIMachineStatus
  | TAzureStackHCIVirtualMachineSpec => v1beta1.AzureStackHCIVirtualMachineSpec
  | TImage => v1beta1.Image
  | TOSDisk => v1beta1.OSDisk
  end.
Definition denote_v1beta2 (t : api_type) : Type :=
  match t with
  | TAzureStackHCICluster => AzureStackHCICluster
  | TAzureStackHCIClusterList => AzureStackHCIClusterList
  | TAzureStackHCIClusterSpec => AzureStackHCIClusterSpec
  | TAzureStackHCIClusterTemplate => AzureStackHCIClusterTemplate
  | TAzureStackHCIClusterTemplateList => AzureStackHCIClusterTemplateList
  | TAzureStackHCIClusterTemplateResource => AzureStackHCIClusterTemplateResource
  | TAzureStackHCIClusterTemplateSpec => AzureStackHCIClusterTemplateSpec
  | TAzureStackHCILoadBalancer => AzureStackHCILoadBalancer
  | TAzureStackHCILoadBalancerList => AzureStackHCILoadBalancerList
  | TAzureStackHCILoadBalancerStatus => AzureStackHCILoadBalancerStatus
  | TAzureStackHCIMachine => AzureStackHCIMachine
  | TAzureStackHCIMachineList => AzureStackHCIMachineList
  | TAzureStackHCIMachineProviderCondition => AzureStackHCIMachineProviderCondition
  | TAzureStackHCIMachineTemplate => AzureStackHCIMachineTemplate
  | TAzureStackHCIMachineTemplateList => AzureStackHCIMachineTemplateList
  | TAzureStackHCIMachineTemplateResource => AzureStackHCIMachineTemplateResource
  | TAzureStackHCIMachineTemplateSpec => AzureStackHCIMachineTemplateSpec
  | TAzureStackHCIResourceReference => AzureStackHCIResourceReference
  | TAzureStackHCIVirtualMachine => AzureStackHCIVirtualMachine
  | TAzureStackHCIVirtualMachineList => AzureStackHCIVirtualMachineList
  | TAzureStackHCIVirtualMachineStatus => AzureStackHCIVirtualMachineStatus
  | TIpConfigurationSpec => IpConfigurationSpec
  | TManagedDisk => ManagedDisk
  | TNetworkInterfaceSpec => NetworkInterfaceSpec
  | TNetworkSpec => NetworkSpec
  | TSubnetSpec => SubnetSpec
  | TVM => VM
  | TVnetSpec => VnetSpec
  | TConditions => option (list metav1.Condition)
  | TCondition => metav1.Condition
  | TAPIEndpoint => clusterv1.APIEndpoint
  | TAvailabilityZone => AvailabilityZone
  | TAzureStackHCIClusterStatus => AzureStackHCIClusterStatus
  | TAzureStackHCILoadBalancerSpec => AzureStackHCILoadBalancerSpec
  | TAzureStackHCIMachineSpec => AzureStackHCIMachineSpec
  | TAzureStackHCIMachineStatus => AzureStackHCIMachineStatus
  | TAzureStackHCIVirtualMachineSpec => AzureStackHCIVirtualMachineSpec
  | TImage => Image
  | TOSDisk => OSDisk
  end.
Definition denote (v : version) : api_type → Type :=
  match v with V1beta1 => denote_v1beta1 | V1beta2 => denote_v1beta2 end.

(** ** The conversions *)
(** A registered function, from [cv_from] to the other version of the type *)
Record conversion := mkConversion {
  cv_from : version; cv_type : api_type;
  cv_function : denote cv_from cv_type → denote (other cv_from) cv_type →
                error + denote (other cv_from) cv_type }.
(** The generated functions, in the order of the file; the list is cut in two. *)
Definition generated_conversions_1 : list conversion := [
  mkConversion V1beta2 TAzureStackHCICluster
    Convert_v1beta2_AzureStackHCICluster_To_v1beta1_AzureStackHCICluster;
  mkConversion V1beta1 TAzureStackHCICluster
    Convert_v1beta1_AzureStackHCICluster_To_v1beta2_AzureStackHCICluster;
  mkConversion V1beta2 TAzureStackHCIClusterList
    Convert_v1beta2_AzureStackHCIClusterList_To_v1beta1_AzureStackHCIClusterList;
  mkConversion V1beta1 TAzureStackHCIClusterList
    Convert_v1beta1_AzureStackHCIClusterList_To_v1beta2_AzureStackHCIClusterList;
  mkConversion V1beta2 TAzureStackHCIClusterSpec
    Convert_v1beta2_AzureStackHCIClusterSpec_To_v1beta1_AzureStackHCIClusterSpec;
  mkConversion V1beta1 TAzureStackHCIClusterSpec
    Convert_v1beta1_AzureStackHCIClusterSpec_To_v1beta2_AzureStackHCIClusterSpec;
  mkConversion V1beta2 TAzureStackHCIClusterTemplate
    Convert_v1beta2_AzureStackHCIClusterTemplate_To_v1beta1_AzureStackHCIClusterTemplate;
  mkConversion V1beta1 TAzureStackHCIClusterTemplate
    Convert_v1beta1_AzureStackHCIClusterTemplate_To_v1beta2_AzureStackHCIClusterTemplate;
  mkConversion V1beta2 TAzureStackHCIClusterTemplateList
    Convert_v1beta2_AzureStackHCIClusterTemplateList_To_v1beta1_AzureStackHCIClusterTemplateList;
  mkConversion V1beta1 TAzureStackHCIClusterTemplateList
    Convert_v1beta1_AzureStackHCIClusterTemplateList_To_v1beta2_AzureStackHCIClusterTemplateList;
  mkConversion V1beta2 TAzureStackHCIClusterTemplateResource
    Convert_v1beta2_AzureStackHCIClusterTemplateResource_To_v1beta1_AzureStackHCIClusterTemplateResource;
  mkConversion V1beta1 TAzureStackHCIClusterTemplateResource
    Convert_v1beta1_AzureStackHCIClusterTemplateResource_To_v1beta2_AzureStackHCIClusterTemplateResource;
  mkConversion V1beta2 TAzureStackHCIClusterTemplateSpec
    Convert_v1beta2_AzureStackHCIClusterTemplateSpec_To_v1beta1_AzureStackHCIClusterTemplateSpec;
  mkConversion V1beta1 TAzureStackHCIClusterTemplateSpec
    Convert_v1beta1_AzureStackHCIClusterTemplateSpec_To_v1beta2_AzureStackHCIClusterTemplateSpec;
  mkConversion V1beta2 TAzureStackHCILoadBalancer
    Convert_v1beta2_AzureStackHCILoadBalancer_To_v1beta1_AzureStackHCILoadBalancer;
  mkConversion V1beta1 TAzureStackHCILoadBalancer
    Convert_v1beta1_AzureStackHCILoadBalancer_To_v1beta2_AzureStackHCILoadBalancer;
  mkConversion V1beta2 TAzureStackHCILoadBalancerList
    Convert_v1beta2_AzureStackHCILoadBalancerList_To_v1beta1_AzureStackHCILoadBalancerList;
  mkConversion V1beta1 TAzureStackHCILoadBalancerList
    Convert_v1beta1_AzureStackHCILoadBalancerList_To_v1beta2_AzureStackHCILoadBalancerList;
  mkConversion V1beta2 TAzureStackHCILoadBalancerStatus
    Convert_v1beta2_AzureStackHCILoadBalancerStatus_To_v1beta1_AzureStackHCILoadBalancerStatus;
  mkConversion V1beta1 TAzureStackHCILoadBalancerStatus
    Convert_v1beta1_AzureStackHCILoadBalancerStatus_To_v1beta2_AzureStackHCILoadBalancerStatus;
  mkConversion V1beta2 TAzureStackHCIMachine
    Convert_v1beta2_AzureStackHCIMachine_To_v1beta1_AzureStackHCIMachine;
  mkConversion V1beta1 TAzureStackHCIMachine
    Convert_v1beta1_AzureStackHCIMachine_To_v1beta2_AzureStackHCIMachine;
  mkConversion V1beta2 TAzureStackHCIMachineList
    Convert_v1beta2_AzureStackHCIMachineList_To_v1beta1_AzureStackHCIMachineList;
  mkConversion V1beta1 TAzureStackHCIMachineList
    Convert_v1beta1_AzureStackHCIMachineList_To_v1beta2_AzureStackHCIMachineList;
  mkConversion V1beta2 TAzureStackHCIMachineProviderCondition
    Convert_v1beta2_AzureStackHCIMachineProviderCondition_To_v1beta1_AzureStackHCIMachineProviderCondition;
  mkConversion V1beta1 TAzureStackHCIMachineProviderCondition
    Convert_v1beta1_AzureStackHCIMachineProviderCondition_To_v1beta2_AzureStackHCIMachineProviderCondition;
  mkConversion V1beta2 TAzureStackHCIMachineTemplate
    Convert_v1beta2_AzureStackHCIMachineTemplate_To_v1beta1_AzureStackHCIMachineTemplate;
  mkConversion V1beta1 TAzureStackHCIMachineTemplate
    Convert_v1beta1_AzureStackHCIMachineTemplate_To_v1beta2_AzureStackHCIMachineTemplate].
Definition generated_conversions_2 : list conversion := [
  mkConversion V1beta2 TAzureStackHCIMachineTemplateList
    Convert_v1beta2_AzureStackHCIMachineTemplateList_To_v1beta1_AzureStackHCIMachineTemplateList;
  mkConversion V1beta1 TAzureStackHCIMachineTemplateList
    Convert_v1beta1_AzureStackHCIMachineTemplateList_To_v1beta2_AzureStackHCIMachineTemplateList;
  mkConversion V1beta2 TAzureStackHCIMachineTemplateResource
    Convert_v1beta2_AzureStackHCIMachineTemplateResource_To_v1beta1_AzureStackHCIMachineTemplateResource;
  mkConversion V1beta1 TAzureStackHCIMachineTemplateResource
    Convert_v1beta1_AzureStackHCIMachineTemplateResource_To_v1beta2_AzureStackHCIMachineTemplateResource;
  mkConversion V1beta2 TAzureStackHCIMachineTemplateSpec
    Convert_v1beta2_AzureStackHCIMachineTemplateSpec_To_v1beta1_AzureStackHCIMachineTemplateSpec;
  mkConversion V1beta1 TAzureStackHCIMachineTemplateSpec
    Convert_v1beta1_AzureStackHCIMachineTemplateSpec_To_v1beta2_AzureStackHCIMachineTemplateSpec;
  mkConversion V1beta2 TAzureStackHCIResourceReference
    Convert_v1beta2_AzureStackHCIResourceReference_To_v1beta1_AzureStackHCIResourceReference;
  mkConversion V1beta1 TAzureStackHCIResourceReference
    Convert_v1beta1_AzureStackHCIResourceReference_To_v1beta2_AzureStackHCIResourceReference;
  mkConversion V1beta2 TAzureStackHCIVirtualMachine
    Convert_v1beta2_AzureStackHCIVirtualMachine_To_v1beta1_AzureStackHCIVirtualMachine;
  mkConversion V1beta1 TAzureStackHCIVirtualMachine
    Convert_v1beta1_AzureStackHCIVirtualMachine_To_v1beta2_AzureStackHCIVirtualMachine;
  mkConversion V1beta2 TAzureStackHCIVirtualMachineList
    Convert_v1beta2_AzureStackHCIVirtualMachineList_To_v1beta1_AzureStackHCIVirtualMachineList;
  mkConversion V1beta1 TAzureStackHCIVirtualMachineList
    Convert_v1beta1_AzureStackHCIVirtualMachineList_To_v1beta2_AzureStackHCIVirtualMachineList;
  mkConversion V1beta2 TAzureStackHCIVirtualMachineStatus
    Convert_v1beta2_AzureStackHCIVirtualMachineStatus_To_v1beta1_AzureStackHCIVirtualMachineStatus;
  mkConversion V1beta1 TAzureStackHCIVirtualMachineStatus
    Convert_v1beta1_AzureStackHCIVirtualMachineStatus_To_v1beta2_AzureStackHCIVirtualMachineStatus;
  mkConversion V1beta2 TIpConfigurationSpec
    Convert_v1beta2_IpConfigurationSpec_To_v1beta1_IpConfigurationSpec;
  mkConversion V1beta1 TIpConfigurationSpec
    Convert_v1beta1_IpConfigurationSpec_To_v1beta2_IpConfigurationSpec;
  mkConversion V1beta2 TManagedDisk
    Convert_v1beta2_ManagedDisk_To_v1beta1_ManagedDisk;
  mkConversion V1beta1 TManagedDisk
    Convert_v1beta1_ManagedDisk_To_v1beta2_ManagedDisk;
  mkConversion V1beta2 TNetworkInterfaceSpec
    Convert_v1beta2_NetworkInterfaceSpec_To_v1beta1_NetworkInterfaceSpec;
  mkConversion V1beta1 TNetworkInterfaceSpec
    Convert_v1beta1_NetworkInterfaceSpec_To_v1beta2_NetworkInterfaceSpec;
  mkConversion V1beta2 TNetworkSpec
    Convert_v1beta2_NetworkSpec_To_v1beta1_NetworkSpec;
  mkConversion V1beta1 TNetworkSpec
    Convert_v1beta1_NetworkSpec_To_v1beta2_NetworkSpec;
  mkConversion V1beta2 TSubnetSpec
    Convert_v1beta2_SubnetSpec_To_v1beta1_SubnetSpec;
  mkConversion V1beta1 TSubnetSpec
    Convert_v1beta1_SubnetSpec_To_v1beta2_SubnetSpec;
  mkConversion V1beta2 TVM
    Convert_v1beta2_VM_To_v1beta1_VM;
  mkConversion V1beta1 TVM
    Convert_v1beta1_VM_To_v1beta2_VM;
  mkConversion V1beta2 TVnetSpec
    Convert_v1beta2_VnetSpec_To_v1beta1_VnetSpec;
  mkConversion V1beta1 TVnetSpec
    Convert_v1beta1_VnetSpec_To_v1beta2_VnetSpec].
(** The functions conversion.go writes *)
Definition manual_conversions : list conversion := [
  mkConversion V1beta1 TConditions
    Convert_Slice_Pointer_v1beta1_Condition_To_Slice_v1_Condition;
  mkConversion V1beta2 TConditions
    Convert_Slice_v1_Condition_To_Slice_Pointer_v1beta1_Condition;
  mkConversion V1beta2 TCondition
    Convert_v1_Condition_To_v1beta1_Condition;
  mkConversion V1beta1 TAPIEndpoint
    Convert_v1beta1_APIEndpoint_To_v1beta2_APIEndpoint;
  mkConversion V1beta1 TAvailabilityZone
    Convert_v1beta1_AvailabilityZone_To_v1beta2_AvailabilityZone;
  mkConversion V1beta1 TAzureStackHCIClusterStatus
    Convert_v1beta1_AzureStackHCIClusterStatus_To_v1beta2_AzureStackHCIClusterStatus;
  mkConversion V1beta1 TAzureStackHCILoadBalancerSpec
    Convert_v1beta1_AzureStackHCILoadBalancerSpec_To_v1beta2_AzureStackHCILoadBalancerSpec;
  mkConversion V1beta1 TAzureStackHCIMachineSpec
    Convert_v1beta1_AzureStackHCIMachineSpec_To_v1beta2_AzureStackHCIMachineSpec;
  mkConversion V1beta1 TAzureStackHCIMachineStatus
    Convert_v1beta1_AzureStackHCIMachineStatus_To_v1beta2_AzureStackHCIMachineStatus;
  mkConversion V1beta1 TAzureStackHCIVirtualMachineSpec
    Convert_v1beta1_AzureStackHCIVirtualMachineSpec_To_v1beta2_AzureStackHCIVirtualMachineSpec;
  mkConversion V1beta1 TCondition
    Convert_v1beta1_Condition_To_v1_Condition;
  mkConversion V1beta1 TImage
    Convert_v1beta1_Image_To_v1beta2_Image;
  mkConversion V1beta1 TOSDisk
    Convert_v1beta1_OSDisk_To_v1beta2_OSDisk;
  mkConversion V1beta2 TAPIEndpoint
    Convert_v1beta2_APIEndpoint_To_v1beta1_APIEndpoint;
  mkConversion V1beta2 TAvailabilityZone
    Convert_v1beta2_AvailabilityZone_To_v1beta1_AvailabilityZone;
  mkConversion V1beta2 TAzureStackHCIClusterStatus
    Convert_v1beta2_AzureStackHCIClusterStatus_To_v1beta1_AzureStackHCIClusterStatus;
  mkConversion V1beta2 TAzureStackHCILoadBalancerSpec
    Convert_v1beta2_AzureStackHCILoadBalancerSpec_To_v1beta1_AzureStackHCILoadBalancerSpec;
  mkConversion V1beta2 TAzureStackHCIMachineSpec
    Convert_v1beta2_AzureStackHCIMachineSpec_To_v1beta1_AzureStackHCIMachineSpec;
  mkConversion V1beta2 TAzureStackHCIMachineStatus
    Convert_v1beta2_AzureStackHCIMachineStatus_To_v1beta1_AzureStackHCIMachineStatus;
  mkConversion V1beta2 TAzureStackHCIVirtualMachineSpec
    Convert_v1beta2_AzureStackHCIVirtualMachineSpec_To_v1beta1_AzureStackHCIVirtualMachineSpec;
  mkConversion V1beta2 TImage
    Convert_v1beta2_Image_To_v1beta1_Image;
  mkConversion V1beta2 TOSDisk
    Convert_v1beta2_OSDisk_To_v1beta1_OSDisk].

(** ** Registration *)
(** A scheme is changed in place: what was registered before an error stays. *)
Section Register.
Context {S : Type}.
(** [AddGeneratedConversionFunc], [AddConversionFunc] and [AddKnownTypes] of the scheme, and
    [metav1.AddToGroupVersion] *)
Context (AddGeneratedConversionFunc AddConversionFunc : conversion → S → option error * S).
Context (AddKnownTypes : string * string → list api_type → S → S).
Context (AddToGroupVersion : string * string → S → S).

(** [if err := f(s); err != nil { return err }], one after the other *)
Fixpoint in_turn (fs : list (S → option error * S)) (s : S) : option error * S :=
  match fs with
  | [] => (None, s)
  | f :: fs =>
      let '(err, s) := f s in
      match err with Some e => (Some e, s) | None => in_turn fs s end
  end.
Definition RegisterConversions : S → option error * S :=
  in_turn ((AddGeneratedConversionFunc <$> (generated_conversions_1 ++ generated_conversions_2)) ++
           (AddConversionFunc <$> manual_conversions)).

(** The types of a version, in the order in which the [init] functions of its files run *)
Definition objectTypes : list api_type :=
  [TAzureStackHCICluster; TAzureStackHCIClusterList;
   TAzureStackHCIClusterTemplate; TAzureStackHCIClusterTemplateList;
   TAzureStackHCILoadBalancer; TAzureStackHCILoadBalancerList;
   TAzureStackHCIMachine; TAzureStackHCIMachineList;
   TAzureStackHCIMachineTemplate; TAzureStackHCIMachineTemplateList;
   TAzureStackHCIVirtualMachine; TAzureStackHCIVirtualMachineList].
Definition GroupVersion (v : version) : string * string :=
  ("infrastructure.cluster.x-k8s.io",
   match v with V1beta1 => "v1beta1" | V1beta2 => "v1beta2" end).
Definition addKnownTypes (v : version) (s : S) : option error * S :=
  (None, AddToGroupVersion (GroupVersion v) (AddKnownTypes (GroupVersion v) objectTypes s)).
(** [schemeBuilder] after the [init] functions; [AddToScheme] runs its functions in turn. *)
Definition schemeBuilder (v : version) : list (S → option error * S) :=
  match v with
  | V1beta1 => [addKnownTypes V1beta1; RegisterConversions]
  | V1beta2 => [addKnownTypes V1beta2]
  end.
Definition AddToScheme (v : version) : S → option error * S := in_turn (schemeBuilder v).
(** The [init] function of the manager, which drops the errors, after the client's and
    Cluster API's own types *)
Definition init (s : S) : S := (AddToScheme V1beta2 (AddToScheme V1beta1 s).2).2.
End Register.

(** ** Properties *)
(** *** A conversion that succeeds *)
Definition succeeds {A} (m : error + A) : Prop := ∃ a, m = inr a.
Lemma succeeds_then {A B} (m : error + A) (k : A → error + B) :
  succeeds m → (∀ a, succeeds (k a)) → succeeds (and_then m k).
Proof. intros [a ->] Hk. apply Hk. Qed.
Lemma succeeds_slice {A B} (conv : A → B → error + B) zero l :
  (∀ a, succeeds (conv a zero)) → succeeds (convert_slice conv zero l).
Proof.
  intros Hc. induction l as [|a l IH]; simpl; [by eexists|].
  apply succeeds_then; [done|]. intros b. apply succeeds_then; [done|]. by eexists.
Qed.
Lemma succeeds_pointer {A B} (conv : A → B → error + B) zero p :
  (∀ a, succeeds (conv a zero)) → succeeds (convert_pointer conv zero p).
Proof. intros Hc. destruct p; simpl; [apply succeeds_then; [done|]|]; by eexists. Qed.
Ltac succeeds_step :=
  lazymatch goal with
  | |- succeeds (inr _) => by eexists
  | |- succeeds (and_then _ _) => apply succeeds_then; [|intros ?]
  | |- succeeds (convert_slice _ _ _) => apply succeeds_slice; intros ?
  | |- succeeds (convert_pointer _ _ _) => apply succeeds_pointer; intros ?
  | |- succeeds (match ?x with _ => _ end) => destruct x
  | |- succeeds (let _ := _ in _) => cbv zeta
  | |- succeeds ?m => let f := head_of m in unfold f; cbv beta
  end.
Definition total (c : conversion) : Prop := ∀ a b, succeeds (cv_function c a b).
Lemma conversions_total :
  Forall total (generated_conversions_1 ++ generated_conversions_2 ++ manual_conversions).
Proof.
  unfold generated_conversions_1, generated_conversions_2, manual_conversions, app.
  repeat apply Forall_cons_2; [..|apply Forall_nil_2]; intros a b; cbn [cv_function];
    repeat succeeds_step.
Qed.

(** *** A scheme that records what it is told *)
Record recording := mkRecording {
  known_types : list ((string * string) * api_type);
  conversions : list conversion }.
Definition record_conversion (c : conversion) (r : recording) : option error * recording :=
  (None, mkRecording (known_types r) (conversions r ++ [c])).
Definition record_types (gv : string * string) (ts : list api_type) (r : recording) : recording :=
  mkRecording (known_types r ++ ((λ t, (gv, t)) <$> ts)) (conversions r).
Definition converts (c : conversion) : version * api_type := (cv_from c, cv_type c).

(** C19: After the [init] function of the manager, the scheme knows the objects and the lists of
    all kinds in both versions, each once; for every one of them it has a conversion to the
    other version, and for every conversion the one back; no two functions are registered for
    the same pair of types, and none of the 78 functions ever fails, whatever it converts and
    whatever it fills in. So the errors [init] drops, which a conversion webhook would turn
    into refused requests, do not come from this package. *)
Theorem init_complete :
  let s := init record_conversion record_conversion record_types (λ _ s, s) (mkRecording [] []) in
  known_types s = ((λ t, (GroupVersion V1beta1, t)) <$> objectTypes) ++
                  ((λ t, (GroupVersion V1beta2, t)) <$> objectTypes) ∧
  NoDup objectTypes ∧
  (∀ v t, t ∈ objectTypes → (v, t) ∈ converts <$> conversions s) ∧
  (∀ v t, (v, t) ∈ converts <$> conversions s → (other v, t) ∈ converts <$> conversions s) ∧
  NoDup (converts <$> conversions s) ∧ length (conversions s) = 78 ∧
  Forall total (conversions s).
Proof.
  cbv zeta.
  match goal with |- context [conversions ?s] => assert (Hc : conversions s =
    generated_conversions_1 ++ generated_conversions_2 ++ manual_conversions) by done end.
  rewrite Hc. split_and!; [done|..|done|exact conversions_total].
  - refine (bool_decide_unpack _ _). vm_compute. exact I.
  - assert (H : Forall (λ t, ∀ v, (v, t) ∈ converts <$> (generated_conversions_1 ++
      generated_conversions_2 ++ manual_conversions)) objectTypes).
    { repeat apply Forall_cons_2; [..|apply Forall_nil_2]; intros [];
        refine (bool_decide_unpack _ _); vm_compute; exact I. }
    intros v t Ht. rewrite Forall_forall in H. by apply H.
  - intros v t Hv.
    assert (H : Forall (λ x, (other x.1, x.2) ∈ converts <$> (generated_conversions_1 ++
      generated_conversions_2 ++ manual_conversions)) (converts <$> (generated_conversions_1 ++
      generated_conversions_2 ++ manual_conversions)))
      by (refine (bool_decide_unpack _ _); vm_compute; exact I).
    rewrite Forall_forall in H. by apply (H (v, t)).
  - refine (bool_decide_unpack _ _). vm_compute. exact I.
Qed.
