(* ===== verification/Protocol.v ===== *)
(** * The protocol of the finalizers

    A controller that makes things outside of its object (machines in the agent, other
    objects) has to find them again when the object is deleted. The pattern the controllers
    use is the same: nothing is made before the API server has stored the object with the
    controller's finalizer, and the finalizer goes when nothing is left. This file states the
    pattern once, as a labelled step relation on a shared world that users, other controllers
    and the workers for other keys change too; its invariant, that nothing is left without an
    object that holds the finalizer; and the rules by which the trace of a worker is shown to
    follow it. *)
From stdpp Require Import prelude strings list gmap relations.
From S2P Require Import Prelude GoStd External Api Effects.

#[export] Instance NamespacedName_countable : Countable NamespacedName.
Proof.
  refine (inj_countable' (λ k, (nn_Namespace k, nn_Name k)) (λ p, mkNN p.1 p.2) _).
  by intros [].
Defined.
#[export] Instance moc_kind_countable : Countable moc_kind.
Proof.
  refine (inj_countable'
    (λ k, match k with
          | MVirtualMachine => 0 | MNetworkInterface => 1 | MLoadBalancer => 2 | MDisk => 3
          | MGroup => 4 | MKeyVault => 5 | MVipPool => 6 | MVirtualNetwork => 7
          end)
    (λ n, match n with
          | 0 => MVirtualMachine | 1 => MNetworkInterface | 2 => MLoadBalancer | 3 => MDisk
          | 4 => MGroup | 5 => MKeyVault | 6 => MVipPool | _ => MVirtualNetwork
          end) _).
  by intros [].
Defined.

Definition object_key {O} `{Object O} (o : O) : NamespacedName :=
  mkNN (GetNamespace o) (GetName o).

(** ** What an object of type [O] guards: resources of type [R], which the place [P] it
    describes determines; two places share nothing. *)
Class Guard (O R P : Type) `{Object O} `{EqDecision P} `{Countable R} := {
  guard_finalizer : string;
  place_of : O → P;
  resources : P → list R;
  resources_disjoint p q x : x ∈ resources p → x ∈ resources q → p = q }.

(** The stored objects, and the resources there are *)
Record world (O R : Type) `{Countable R} := mkWorld {
  objects : gmap NamespacedName O; held : gset R }.
Arguments mkWorld {O R _ _} objects held.
Arguments objects {O R _ _} w.
Arguments held {O R _ _} w.
Lemma world_eq {O R} `{Countable R} (w w' : world O R) :
  objects w' = objects w → held w' = held w → w' = w.
Proof. destruct w, w'. simpl. by intros -> ->. Qed.

(** The cases of a step, with names *)
Ltac step_cases H :=
  destruct H as [k o os a Hk Hp|k o o' os a Hk Hp Hf|k o os a Hk Hf|os a a' Hs
                |k o os a a' Hk Hf Hs|k o o' os a Hk Hp Hc];
  cbn [objects held] in *.

Section Protocol.
Context {O R P : Type} `{Object O} `{EqDecision P} `{Countable R} {G : Guard O R P}.
Local Notation world := (world O R).

Definition finalized (o : O) : Prop := guard_finalizer ∈ GetFinalizers o.
Lemma finalized_nonempty o : finalized o → GetFinalizers o ≠ [].
Proof. unfold finalized. intros Hf Hn. rewrite Hn in Hf. by apply elem_of_nil in Hf. Qed.
(** The object of [k] is stored with the finalizer. *)
Definition kept (k : NamespacedName) (w : world) : Prop :=
  ∃ o, objects w !! k = Some o ∧ finalized o.

(** ** The steps of the actors *)
Context (home : NamespacedName → P).
(** There is nothing of [k]. *)
Definition cleared (k : NamespacedName) (w : world) : Prop :=
  ∀ x, x ∈ resources (home k) → x ∉ held w.

(** The label is the key whose worker takes the step, [None] for everybody else: clients
    create objects, change them without taking the finalizer away and see them removed once
    it is gone; resources may be lost at any time. Only the worker of a key makes its
    resources, while the finalizer holds the object, and only it writes the object without
    regard for the finalizer, when nothing is left.

    This is what a worker relies on, and the theorems that mention [others] or [run] hold only
    as far as it is kept. Two things that users and other controllers can do are left out,
    because nothing in the code is safe from them: to strip the finalizer from an object that
    is in use, and to move an object to another place, by a change of the resource group that
    it describes. Nothing in the repository strips a finalizer of another controller; the
    machine controller moves a virtual machine object when the group of its cluster was
    edited. *)
Inductive step : option NamespacedName → world → world → Prop :=
  | step_create k o os a :
      os !! k = None → place_of o = home k →
      step None (mkWorld os a) (mkWorld (<[k := o]> os) a)
  | step_write k o o' os a :
      os !! k = Some o → place_of o' = home k → (finalized o → finalized o') →
      step None (mkWorld os a) (mkWorld (<[k := o']> os) a)
  | step_remove k o os a :
      os !! k = Some o → ¬ finalized o →
      step None (mkWorld os a) (mkWorld (delete k os) a)
  | step_lose os a a' :
      a' ⊆ a → step None (mkWorld os a) (mkWorld os a')
  | step_make k o os a a' :
      os !! k = Some o → finalized o → a' ⊆ a ∪ list_to_set (resources (home k)) →
      step (Some k) (mkWorld os a) (mkWorld os a')
  | step_release k o o' os a :
      os !! k = Some o → place_of o' = home k → cleared k (mkWorld os a) →
      step (Some k) (mkWorld os a) (mkWorld (<[k := o']> os) a).

Definition any_step (w w' : world) : Prop := ∃ l, step l w w'.
(** The others, for the worker of [key]: no key is given to two workers at a time. *)
Definition others (key : NamespacedName) (w w' : world) : Prop :=
  ∃ l, l ≠ Some key ∧ step l w w'.
Lemma others_any key w w' : rtc (others key) w w' → rtc any_step w w'.
Proof. induction 1 as [|w1 w2 w3 (l&_&Hl)]; [done|]. eapply rtc_l; [by exists l|done]. Qed.
(** What an actor may do: its own steps, if it is the worker of a key, and everybody's. *)
Definition moves (l : option NamespacedName) : relation world :=
  rtc (λ w w', ∃ l', (l' = None ∨ l' = l) ∧ step l' w w').
#[export] Instance moves_preorder l : PreOrder (moves l).
Proof. unfold moves. apply _. Qed.
Lemma moves_step l l' w w' : step l' w w' → l' = None ∨ l' = l → moves l w w'.
Proof. intros Hs Hl. apply rtc_once. eauto. Qed.
Lemma moves_any l w w' : moves l w w' → rtc any_step w w'.
Proof. induction 1 as [|w1 w2 w3 (l'&_&Hs)]; [done|]. eapply rtc_l; [by exists l'|done]. Qed.
(** The moves of one actor are moves of the others for a worker. *)
Lemma moves_others l key w w' : l ≠ Some key → moves l w w' → rtc (others key) w w'.
Proof.
  intros Hl. induction 1 as [|w1 w2 w3 (l'&Hl'&Hs)]; [done|].
  eapply rtc_l; [exists l'; split; [naive_solver|done]|done].
Qed.

(** The objects are where their keys say. *)
Definition placed (w : world) : Prop :=
  ∀ k o, objects w !! k = Some o → place_of o = home k.
(** Nothing is leaked: what there is of a key is held by its object's finalizer. *)
Definition no_leak (w : world) : Prop :=
  ∀ k x, x ∈ resources (home k) → x ∈ held w → kept k w.

Lemma placed_step l w w' : step l w w' → placed w → placed w'.
Proof.
  unfold placed. intros [] Hp k' o0; simpl in *; rewrite ?lookup_insert_Some,
    ?lookup_delete_Some; naive_solver.
Qed.
Lemma placed_steps w w' : rtc any_step w w' → placed w → placed w'.
Proof. induction 1 as [|w1 w2 w3 [l Hl] _ IH]; [done|]. eauto using placed_step. Qed.

(** A write keeps what it does not touch. *)
Lemma kept_insert k k' o o' os a a' :
  os !! k = Some o → (finalized o → finalized o') →
  kept k' (mkWorld os a) → kept k' (mkWorld (<[k := o']> os) a').
Proof.
  intros Hk Hf (o1&H1'&F1). simpl in *. destruct (decide (k = k')) as [<-|Hne].
  - exists o'. simpl. rewrite lookup_insert_eq. split; [done|]. naive_solver.
  - exists o1. simpl. by rewrite lookup_insert_ne.
Qed.
Lemma kept_insert_ne k k' o' os a a' :
  k ≠ k' → kept k' (mkWorld os a) → kept k' (mkWorld (<[k := o']> os) a').
Proof. intros Hne (o1&H1'&F1). exists o1. simpl in *. by rewrite lookup_insert_ne. Qed.
Lemma kept_insert_new k k' o' os a a' :
  os !! k = None → kept k' (mkWorld os a) → kept k' (mkWorld (<[k := o']> os) a').
Proof.
  intros Hk Hkept. eapply kept_insert_ne; [|exact Hkept].
  intros ->. destruct Hkept as (?&?&?). simpl in *. congruence.
Qed.
Lemma kept_delete k k' o os a a' :
  os !! k = Some o → ¬ finalized o →
  kept k' (mkWorld os a) → kept k' (mkWorld (delete k os) a').
Proof.
  intros Hk Hf (o1&H1'&F1). simpl in *. exists o1. simpl.
  rewrite lookup_delete_ne by naive_solver. done.
Qed.
Lemma kept_same_objects k w w' : objects w' = objects w → kept k w → kept k w'.
Proof. unfold kept. by intros ->. Qed.

(** Another actor's steps leave the finalizer of [key]. *)
Lemma kept_others key w w' : others key w w' → kept key w → kept key w'.
Proof.
  intros (l&Hl&Hs). revert Hl. step_cases Hs; intros Hl Hkept; try exact Hkept;
    eauto using kept_insert, kept_delete, kept_insert_new.
  eapply kept_insert_ne; [|exact Hkept]. by intros ->.
Qed.

Context {Hhome : Inj (=) (=) home}.
(** What the worker of [k] may have made is not of another key. *)
Lemma made_elsewhere (k k' : NamespacedName) (x : R) (a a' : gset R) :
  a' ⊆ a ∪ list_to_set (resources (home k)) → x ∈ resources (home k') → x ∈ a' →
  x ∈ a ∨ k = k'.
Proof.
  intros Hs Hx [Ha|Ha%elem_of_list_to_set]%Hs%elem_of_union; [by left|right].
  apply Hhome. eauto using resources_disjoint.
Qed.
(** Nor do they make anything of it. *)
Lemma absent_others key (x : R) w w' :
  x ∈ resources (home key) → others key w w' → x ∉ held w → x ∉ held w'.
Proof.
  intros Hx (l&Hl&Hs). revert Hl. step_cases Hs; intros Hl Hn; try done; [set_solver|].
  intros Ha. by destruct (made_elsewhere _ _ _ _ _ Hs Hx Ha) as [Ha'| ->].
Qed.
(** The invariant *)
Lemma no_leak_step l w w' : step l w w' → no_leak w → no_leak w'.
Proof.
  unfold no_leak. intros Hs Hn k' x Hx Ha. revert Hn Ha.
  step_cases Hs; intros Hn Ha; eauto using kept_insert, kept_delete, kept_insert_new.
  - destruct (made_elsewhere _ _ _ _ _ Hs Hx Ha) as [Ha'| <-]; [|by exists o].
    exact (Hn k' x Hx Ha').
  - eapply kept_insert_ne; [|by eapply Hn]. intros ->. by apply (Hc x).
Qed.
Lemma no_leak_steps w w' : rtc any_step w w' → no_leak w → no_leak w'.
Proof. induction 1 as [|w1 w2 w3 [l Hl] _ IH]; [done|]. eauto using no_leak_step. Qed.
End Protocol.

(** ** What a call may do to the world *)
Section Effects.
Context {O R P : Type} `{Object O} `{EqDecision P} `{Countable R} {G : Guard O R P}.
Local Notation world := (world O R).

(** A call learns something of the world, patches an object, makes or takes away a resource,
    or is one of which nothing is assumed. *)
Inductive effect :=
  | Learn (φ : world → Prop)
  | Patched (before obj : O) (r : option error)
  | Made (x : R)
  | Unmade (x : R) (confirmed : bool)
  | Unknown.

(** What a patch leaves of a field: the stored value, unless the patch changes it. *)
Definition patched_field {A} `{EqDecision A} (f : O → A) (before obj stored : O) : A :=
  if decide (f before = f obj) then f stored else f obj.
(** A patch that is accepted is applied, and one that is not may be. The object goes with its
    last finalizer when it is being deleted. A patch of an object that is not there is
    accepted only when there is nothing to change in the finalizers, or none to leave. *)
Definition patch_effect (before obj : O) (r : option error) (w w' : world) : Prop :=
  held w' = held w ∧
  match objects w !! object_key obj with
  | None =>
      objects w' = objects w ∧
      (r = None → GetFinalizers before = GetFinalizers obj ∨ GetFinalizers obj = [])
  | Some stored =>
      r ≠ None ∧ objects w' = objects w ∨
      ∃ stored', GetFinalizers stored' = patched_field GetFinalizers before obj stored ∧
        place_of stored' = patched_field place_of before obj stored ∧
        (objects w' = <[object_key obj := stored']> (objects w) ∨
         GetFinalizers stored' = [] ∧ objects w' = delete (object_key obj) (objects w))
  end.
(** Making a resource may make any that belongs to the same place, or none when it fails; taking
    one away may take others, and has done so when it is confirmed. *)
Definition allows (home : NamespacedName → P) (f : effect) (w w' : world) : Prop :=
  match f with
  | Learn φ => w' = w ∧ φ w
  | Patched before obj r => patch_effect before obj r w w'
  | Made x =>
      objects w' = objects w ∧
      ∀ k, x ∈ resources (home k) → held w' ⊆ held w ∪ list_to_set (resources (home k))
  | Unmade x confirmed =>
      objects w' = objects w ∧ held w' ⊆ held w ∧ (confirmed = true → x ∉ held w')
  | Unknown => True
  end.
(** An object that is read has the key asked for and is at its place. It may be an old version,
    but not so old that a live object that had the finalizer has lost it since: only this
    controller takes it away, after it has seen the deletion. *)
Definition object_read (home : NamespacedName → P) (key : NamespacedName) (o : O)
    (w : world) : Prop :=
  object_key o = key ∧ place_of o = home key ∧
  (NotDeleted o = true → finalized o → kept key w).

Lemma object_read_others (home : NamespacedName → P) key o w w' :
  others home key w w' → object_read home key o w → object_read home key o w'.
Proof. intros Ho (?&?&?). split_and!; eauto using kept_others. Qed.

(** [serves c r w w']: in the world [w], the call [c] may be answered with [r] and leave [w']. *)
Definition service := ∀ X, Call X → X → world → world → Prop.
Class Answers (home : NamespacedName → P) (effect_of : event → effect) (serves : service)
    : Prop :=
  answers X (c : Call X) r w w' :
    serves X c r w w' → allows home (effect_of (Ev c r)) w w'.

Context (home : NamespacedName → P) (serves : service).
Context (key : NamespacedName) (w0 : world).
(** The worlds a worker for [key] can leave behind with a trace of calls that starts in
    [w0], the others moving before, between and after its calls *)
Inductive run : trace → world → Prop :=
  | run_start w : rtc (others home key) w0 w → run [] w
  | run_call X (c : Call X) r t w w1 w2 :
      run t w → serves X c r w w1 → rtc (others home key) w1 w2 → run (Ev c r :: t) w2.

(** What holds in the world whenever this trace has happened *)
Definition always (φ : world → Prop) (t : trace) : Prop := ∀ w, run t w → φ w.
(** The guarantee of the worker: each of its calls moves the world as the protocol allows the
    worker of [key]. *)
Definition answered_with (e : event) (w w' : world) : Prop :=
  match e with Ev c r => serves _ c r w w' end.
Definition conforms (t : trace) : Prop :=
  each (λ e earlier, ∀ w w', run earlier w → answered_with e w w' →
    moves home (Some key) w w') t.
Lemma conforms_nil : conforms [].
Proof. apply each_nil. Qed.
Lemma run_others t w w' : run t w → rtc (others home key) w w' → run t w'.
Proof.
  intros Hr Ho. destruct Hr; [eapply run_start|eapply run_call]; try done; by etrans.
Qed.
(** Every world on the way is reached by steps the protocol allows. *)
Lemma conforms_now t : conforms t → always (rtc (any_step home) w0) t.
Proof.
  intros Ht w Hr. induction Hr as [w Ho|X c r t w w1 w2 Hr IH Hs Ho]; [by eapply others_any|].
  etrans; [|by eapply others_any]. etrans; [|eapply moves_any, (Ht [] _ _ eq_refl _ _ Hr Hs)].
  apply IH. intros later e earlier ->. by apply (Ht (Ev c r :: later)).
Qed.
Lemma always_mono (φ ψ : world → Prop) t : (∀ w, φ w → ψ w) → always φ t → always ψ t.
Proof. intros Himp Ha w Hw. auto. Qed.
Lemma run_inv e t w : run (e :: t) w →
  ∃ wb wa, run t wb ∧ (match e with Ev c r => serves _ c r wb wa end) ∧
    rtc (others home key) wa w.
Proof. inversion 1; simplify_eq. eauto 6. Qed.
End Effects.
Arguments effect O R {_ _}.
Arguments service O R {_ _}.

(** ** The rules for a trace *)
Section Rules.
Context {O R P : Type} `{Object O} `{EqDecision P} `{Countable R} {G : Guard O R P}.
Local Notation world := (world O R).
Context (home : NamespacedName → P) {Hhome : Inj (=) (=) home}.
Context (effect_of : event → effect O R) (serves : service O R).
Context {HW : Answers home effect_of serves}.
Context (key : NamespacedName) (w0 : world).
Local Notation always := (always home serves key w0).
Local Notation conforms := (conforms home serves key w0).

(** A property the others keep, and the last call establishes *)
Lemma always_event (φ : world → Prop) e t :
  (∀ w w', others home key w w' → φ w → φ w') →
  (∀ w w', run home serves key w0 t w → allows home (effect_of e) w w' → φ w') →
  always φ (e :: t).
Proof.
  intros Ho Hc w (wb&wa&Hb&Hs&Ha)%run_inv. destruct e as [X c r].
  apply answers in Hs. specialize (Hc wb wa Hb Hs). clear Hs. induction Ha; eauto.
Qed.
Lemma always_const (φ : Prop) new t : always (λ _, φ) t → always (λ _, φ) (new ++ t).
Proof.
  intros Ht. induction new as [|e new IH]; simpl; [done|].
  apply always_event; [done|]. intros w w' Hw _. exact (IH w Hw).
Qed.
(** Every call of the trace was answered. *)
Lemma run_served e t w : e ∈ t → run home serves key w0 t w → ∃ w1 w2, answered_with serves e w1 w2.
Proof.
  intros He. induction 1 as [|X c r t w w1 w2 _ IH Hs _]; [by apply not_elem_of_nil in He|].
  apply elem_of_cons in He as [->|He]; [by exists w, w1|auto].
Qed.
Lemma always_later (φ : Prop) t t' new :
  t' = new ++ t → always (λ _, φ) t → always (λ _, φ) t'.
Proof. intros ->. apply always_const. Qed.
Lemma conforms_event e t :
  (∀ w w', run home serves key w0 t w → allows home (effect_of e) w w' →
     moves home (Some key) w w') →
  conforms t → conforms (e :: t).
Proof.
  intros Hc Ht. apply each_cons; [done|]. intros w w' Hr Hs. apply Hc; [done|].
  destruct e as [X c r]. by apply (answers X c r) in Hs.
Qed.

(** *** Reads *)
(** A read may say that something is not there, which is then out of sight. *)
Definition reads (e : event) : Prop :=
  match effect_of e with Learn _ | Unmade _ _ => True | _ => False end.
(** Nothing but resources can be lost with it, as others may lose them. *)
Lemma reads_lose e w w' :
  reads e → allows home (effect_of e) w w' → w' = w ∨ step home None w w'.
Proof.
  unfold reads. destruct (effect_of e); try done; intros _; [by intros [-> _]; left|].
  destruct w, w'. intros (?&?&_). simpl in *. subst. right. by apply step_lose.
Qed.
Lemma always_reads (φ : world → Prop) new t :
  (∀ w w', others home key w w' → φ w → φ w') → Forall reads new →
  always φ t → always φ (new ++ t).
Proof.
  intros Ho Hn Ht. induction Hn as [|e new He _ IH]; [done|]. simpl.
  apply always_event; [done|]. intros w w' Hw [->|Hs]%reads_lose; [by apply IH| |done].
  eapply Ho; [by exists None|]. by apply IH.
Qed.
Lemma conforms_reads new t : Forall reads new → conforms t → conforms (new ++ t).
Proof.
  intros Hn Ht. induction Hn as [|e new He _ IH]; [done|]. simpl.
  apply conforms_event; [|done]. intros w w' _ [->|Hs]%reads_lose; [done| |done].
  eapply moves_step; [exact Hs|by left].
Qed.
Lemma always_learned e t (φ : world → Prop) :
  effect_of e = Learn φ → (∀ w w', others home key w w' → φ w → φ w') → always φ (e :: t).
Proof.
  intros He Ho. apply always_event; [done|]. intros w w' _. rewrite He. by intros [-> ?].
Qed.

(** What was learned during a stretch of reads still holds. *)
Lemma always_seen e t (φ : world → Prop) :
  e ∈ t → Forall reads t → effect_of e = Learn φ →
  (∀ w w', others home key w w' → φ w → φ w') → always φ t.
Proof.
  intros (l1&l2&->)%list_elem_of_split [Ht _]%Forall_app He Ho.
  apply always_reads; [done..|]. by apply always_learned.
Qed.

(** *** Resources *)
(** Making a resource of the key's place, the finalizer being stored *)
Lemma conforms_made e x t :
  effect_of e = Made x → always (λ _, x ∈ resources (home key)) t → always (kept key) t →
  conforms t → conforms (e :: t) ∧ always (kept key) (e :: t).
Proof.
  intros He Hx Hk Ht. split.
  - apply conforms_event; [|done]. intros [os a] [os' a'] Hr. rewrite He. intros [Hob Hs].
    destruct (Hk _ Hr) as (ob&Ho&Hf). simpl in *. subst.
    eapply moves_step; [|by right]. eapply step_make; [done..|]. apply Hs, (Hx _ Hr).
  - apply always_event; [apply kept_others|]. intros w w' Hr. rewrite He. intros [Hob _].
    eapply kept_same_objects; [done|]. by apply Hk.
Qed.
Lemma conforms_unmade e x sure t :
  effect_of e = Unmade x sure → conforms t → conforms (e :: t).
Proof.
  intros He. apply conforms_event. intros [os a] [os' a'] _. rewrite He.
  intros (?&?&_). simpl in *. subst. eapply moves_step; [by apply step_lose|by left].
Qed.

(** A resource that is confirmed gone stays away when the key's worker makes nothing
    afterwards. *)
Definition makes_nothing (e : event) : Prop :=
  match effect_of e with Learn _ | Unmade _ _ => True | _ => False end.
Definition gone_with (x : R) (e : event) : Prop :=
  ∀ w w', allows home (effect_of e) w w' → x ∉ held w'.
Lemma always_absent x t :
  x ∈ resources (home key) → Forall makes_nothing t → Exists (gone_with x) t →
  always (λ w, x ∉ held w) t.
Proof.
  intros Hx. induction 1 as [|e t Hev Ht IH]; [by inversion 1|]. intros He.
  apply always_event; [by intros w w'; apply absent_others|]. intros w w' Hr Hs.
  apply Exists_cons in He as [He|He]; [by apply (He w w')|]. specialize (IH He w Hr).
  unfold makes_nothing in Hev. destruct (effect_of e); try done.
  - by destruct Hs as [-> _].
  - destruct Hs as (_&Hs&_). set_solver.
Qed.
Lemma always_cleared t :
  Forall makes_nothing t → Forall (λ x, Exists (gone_with x) t) (resources (home key)) →
  always (cleared home key) t.
Proof.
  intros Ht Hd w Hw x Hx. rewrite Forall_forall in Hd.
  exact (always_absent x t Hx Ht (Hd x Hx) w Hw).
Qed.
Lemma conforms_makes_nothing new t :
  Forall makes_nothing new → conforms t → conforms (new ++ t).
Proof.
  intros Hn Ht. induction Hn as [|e new Hev _ IH]; [done|]. simpl.
  unfold makes_nothing in Hev. destruct (effect_of e) eqn:He; try done.
  - apply (conforms_reads [_]); [|done]. constructor; [|done]. unfold reads. by rewrite He.
  - by eapply conforms_unmade.
Qed.

(** *** Patches *)
(** The worker's copies of the object: as it was read, and as it will be patched *)
Definition owned (before obj : O) : Prop :=
  object_key obj = key ∧ place_of obj = home key ∧ place_of before = place_of obj.
(** A patch is a step when it leaves the finalizers, or ours among them, or when nothing is
    left. *)
Definition closable (before obj : O) (t : trace) : Prop :=
  conforms t ∧ always (λ _, owned before obj) t ∧
  (GetFinalizers before = GetFinalizers obj ∨ finalized obj ∨ always (cleared home key) t).

Lemma patched_step before obj w w' stored stored' :
  place_of stored' = home key → objects w !! key = Some stored →
  GetFinalizers stored' = patched_field GetFinalizers before obj stored →
  GetFinalizers before = GetFinalizers obj ∨ finalized obj ∨ cleared home key w →
  objects w' = <[key := stored']> (objects w) → held w' = held w →
  moves home (Some key) w w'.
Proof.
  intros Hp Hst Hf Hcase Hob Hh. rewrite (world_eq (mkWorld _ _) w' Hob Hh).
  destruct w as [os a]; simpl in *. unfold patched_field in Hf. destruct Hcase as [Heq|[Hfin|Hc]].
  - rewrite decide_True in Hf by done. eapply moves_step; [|by left].
    eapply step_write; [done..|].
    unfold finalized. by rewrite Hf.
  - eapply moves_step; [|by left]. eapply step_write; [done..|]. intros Hfs. unfold finalized in *.
    rewrite Hf. by case_decide.
  - eapply moves_step; [by eapply step_release|by right].
Qed.
Lemma conforms_patch before obj e r t :
  effect_of e = Patched before obj r → placed home w0 → closable before obj t →
  conforms (e :: t).
Proof.
  intros He Hplaced (Hconf&Hown&Hcase). eapply conforms_event; [|exact Hconf].
  intros w w' Hr. rewrite He. intros [Hh Hob]. destruct (Hown _ Hr) as (Hk&Hp&Hb).
  destruct (objects w !! object_key obj) as [stored|] eqn:Hst;
    [|destruct Hob as [Hob _]; by rewrite (world_eq _ _ Hob Hh)].
  destruct Hob as [[_ Hob]|(stored'&Hf&Hp'&Hob)]; [by rewrite (world_eq _ _ Hob Hh)|].
  rewrite Hk in *.
  pose proof (placed_steps home _ _ (conforms_now _ _ _ _ _ Hconf _ Hr) Hplaced key stored Hst)
    as Hps.
  unfold patched_field in Hp'. rewrite decide_True, Hps in Hp' by done.
  assert (Hcase' : GetFinalizers before = GetFinalizers obj ∨ finalized obj ∨ cleared home key w)
    by naive_solver.
  destruct Hob as [Hob|[Hnil Hob]];
    [exact (patched_step _ _ _ _ _ _ Hp' Hst Hf Hcase' Hob Hh)|].
  transitivity (mkWorld (<[key := stored']> (objects w)) (held w));
    [exact (patched_step _ _ _ (mkWorld _ _) _ _ Hp' Hst Hf Hcase' eq_refl eq_refl)|].
  eapply moves_step; [|by left].
  rewrite (world_eq (mkWorld (delete key (<[key := stored']> (objects w))) (held w)) w');
    [|simpl; by rewrite delete_insert_eq|done].
  eapply step_remove; [apply lookup_insert_eq|]. intros Hn. by eapply finalized_nonempty.
Qed.
Lemma closable_patch before obj e r t :
  effect_of e = Patched before obj r → placed home w0 → finalized obj →
  closable before obj t → closable before obj (e :: t).
Proof.
  intros He Hp Hfin Hcl. split_and!; [by eapply conforms_patch| |by right; left].
  apply (always_const _ [e]), Hcl.
Qed.
(** An accepted patch with the finalizer holds the object. *)
Lemma kept_patch before obj e t :
  effect_of e = Patched before obj None → always (λ _, owned before obj) t → finalized obj →
  (GetFinalizers before = GetFinalizers obj → always (kept key) t) →
  always (kept key) (e :: t).
Proof.
  intros He Hown Hfin Hk. apply always_event; [apply kept_others|].
  intros w w' Hr. rewrite He. intros [Hh Hob]. destruct (Hown _ Hr) as (Hkey&_).
  rewrite Hkey in Hob. destruct (objects w !! key) as [stored|] eqn:Hst.
  - destruct Hob as [[? _]|(stored'&Hf&_&Hob)]; [done|].
    assert (Hfin' : finalized stored').
    { unfold finalized, patched_field in *. rewrite Hf. case_decide as Heq; [|done].
      destruct (Hk Heq _ Hr) as (?&?&?). by simplify_eq. }
    destruct Hob as [Hob|[Hnil _]]; [|by apply finalized_nonempty in Hfin'].
    exists stored'. rewrite Hob, lookup_insert_eq. done.
  - destruct Hob as [_ Hob]. destruct (Hob eq_refl) as [Heq|Hnil].
    + destruct (Hk Heq _ Hr) as (?&?&?). congruence.
    + by apply finalized_nonempty in Hfin.
Qed.

(** The last call of a worker lets its object go: the finalizer is off, and nothing is left. *)
Definition lets_go (t : trace) : Prop :=
  ∃ e earlier, t = e :: earlier ∧
    ∀ w w', run home serves key w0 earlier w → answered_with serves e w w' →
      ¬ kept key w' ∧ cleared home key w'.
Lemma patch_lets_go before obj e t :
  effect_of e = Patched before obj None → always (λ _, owned before obj) t →
  finalized before → ¬ finalized obj → always (cleared home key) t → lets_go (e :: t).
Proof.
  intros He Hown Hb Hobj Hc. exists e, t. split; [done|]. intros w w' Hr Ha.
  assert (Hp : patch_effect before obj None w w').
  { destruct e as [X c r]. apply HW in Ha. by rewrite He in Ha. }
  destruct (Hown _ Hr) as (Hk&_), Hp as [Hh Hob]. rewrite Hk in Hob. split.
  - intros (o&Ho&Hf). destruct (objects w !! key) as [stored|] eqn:Hst;
      [|destruct Hob as [Hob _]; congruence].
    destruct Hob as [[? _]|(stored'&Hf'&_&[Hob|[_ Hob]])]; [done|..]; rewrite Hob in Ho.
    + rewrite lookup_insert_eq in Ho. simplify_eq. apply Hobj. unfold finalized in *.
      unfold patched_field in Hf'. rewrite Hf' in Hf. case_decide as Heq; [by rewrite <-Heq|done].
    + by rewrite lookup_delete_eq in Ho.
  - intros x Hx. rewrite Hh. by apply (Hc w Hr).
Qed.

(** *** A worker that makes things *)
(** It follows the protocol, and the finalizer holds its object. *)
Definition working (before obj : O) (t : trace) : Prop :=
  conforms t ∧ always (λ _, owned before obj) t ∧ always (kept key) t ∧ finalized obj.
Definition same_owner (before obj before' obj' : O) : Prop :=
  before' = before ∧ object_key obj' = object_key obj ∧ place_of obj' = place_of obj.
(** What only makes resources of the place [p], takes away or reads *)
Definition within_place (p : P) (e : event) : Prop :=
  match effect_of e with Learn _ | Unmade _ _ => True | Made x => x ∈ resources p | _ => False end.

Lemma working_closable before obj t : working before obj t → closable before obj t.
Proof. intros (?&?&_&?). split_and!; auto. Qed.
(** What was reported since leaves a worker free to close. *)
Lemma cleared_others w w' : others home key w w' → cleared home key w → cleared home key w'.
Proof. intros Ho Hc x Hx. apply (absent_others home key x w w' Hx Ho). by apply Hc. Qed.
Lemma closable_reads before obj before' obj' t t' new :
  t' = new ++ t → Forall reads new → same_owner before obj before' obj' →
  GetFinalizers obj' = GetFinalizers obj → closable before obj t → closable before' obj' t'.
Proof.
  intros -> Hn (->&Hk&Hp) Hf (Hc&Ho&Hcase). split_and!.
  - by apply conforms_reads.
  - apply (always_const _ new) in Ho. unfold owned in *. by rewrite Hk, Hp.
  - destruct Hcase as [Hcase|[Hcase|Hcase]].
    + left. by rewrite Hf.
    + right; left. unfold finalized in *. by rewrite Hf.
    + right; right. apply always_reads; [apply cleared_others|done..].
Qed.
(** The accepted patch of the finalizer starts the work. *)
Lemma working_patched before obj e t :
  effect_of e = Patched before obj None → placed home w0 → closable before obj t →
  finalized obj → (GetFinalizers before = GetFinalizers obj → always (kept key) t) →
  working before obj (e :: t).
Proof.
  intros He Hp Hcl Hfin Hk. pose proof (closable_patch _ _ _ _ _ He Hp Hfin Hcl) as (Hc&Ho&_).
  split_and!; [done..| |done]. eapply kept_patch; [done|apply Hcl|done..].
Qed.
Lemma working_made before obj e x t :
  effect_of e = Made x → always (λ _, x ∈ resources (home key)) t →
  working before obj t → working before obj (e :: t).
Proof.
  intros He Hx (Hc&Ho&Hk&Hf). destruct (conforms_made e x t He Hx Hk Hc).
  split_and!; [done| |done..]. by apply (always_const _ [e]).
Qed.
Lemma working_within_place p before obj before' obj' t t' new :
  t' = new ++ t → Forall (within_place p) new → always (λ _, p = home key) t →
  same_owner before obj before' obj' → GetFinalizers obj' = GetFinalizers obj →
  working before obj t → working before' obj' t'.
Proof.
  intros -> Hn Hp (->&Hk&Hpl) Hf Hw.
  assert (Hw' : working before obj (new ++ t)).
  { induction Hn as [|e new Hev _ IH]; [done|]. simpl. pose proof IH as (Hc&Ho&Hkept&Hfin).
    unfold within_place in Hev. destruct (effect_of e) as [φ| |x|x sure|] eqn:He; try done.
    - assert (reads e) by (unfold reads; by rewrite He).
      split_and!; [by apply (conforms_reads [_]); [constructor|]|by apply (always_const _ [e])
                  |apply (always_reads _ [_]);
                   [apply kept_others|by constructor|done]|done].
    - eapply working_made; [done| |done]. apply always_const.
      eapply always_mono; [|exact Hp]. intros w <-. exact Hev.
    - split_and!; [by eapply conforms_unmade|by apply (always_const _ [e])| |done].
      apply always_event; [apply kept_others|]. intros w w' Hr. rewrite He. intros [Hob _].
      eapply kept_same_objects; [done|]. by apply Hkept. }
  destruct Hw' as (Hc&Ho&Hkept&Hfin). split_and!; [done| |done|].
  - unfold owned. by rewrite Hk, Hpl.
  - unfold finalized. by rewrite Hf.
Qed.
Lemma working_within before obj before' obj' t t' new :
  t' = new ++ t → Forall (within_place (place_of obj)) new →
  same_owner before obj before' obj' → GetFinalizers obj' = GetFinalizers obj →
  working before obj t → working before' obj' t'.
Proof.
  intros Heq Hn Hs Hf Hw. eapply working_within_place; [done..| |done|done|exact Hw].
  destruct Hw as (_&Ho&_). eapply always_mono; [|exact Ho]. by intros w (_&Hpl&_).
Qed.

(** *** A worker that takes things away *)
(** It may close its scope when it leaves the finalizers, or when all of the place is gone. *)
Lemma closable_unmaking before obj before' obj' t t' new :
  t' = new ++ t → Forall makes_nothing new → conforms t → always (λ _, owned before obj) t →
  same_owner before obj before' obj' →
  GetFinalizers before = GetFinalizers obj' ∨
  Forall makes_nothing t ∧
    always (λ _, Forall (λ x, Exists (gone_with x) t') (resources (home key))) t' →
  closable before' obj' t'.
Proof.
  intros -> Hnew Hc Ho (->&Hk&Hp) Hcase.
  apply (always_const _ new) in Ho. split_and!.
  - by apply conforms_makes_nothing.
  - unfold owned in *. by rewrite Hk, Hp.
  - destruct Hcase as [Hf|[Ht Hd]]; [by left|right; right].
    intros w Hw. apply (always_cleared (new ++ t)); [by apply Forall_app|by apply (Hd w)|done].
Qed.
End Rules.

(** ** The state of a worker

    A scope has the object as it was read and as it will be patched. *)
Section Worker.
Context {O R P : Type} `{Object O} `{EqDecision P} `{Countable R} {G : Guard O R P}.
Context (effect_of : event → effect O R) {S : Type} (before obj : S → O).
Implicit Type s : S.

(** What a worker never changes in its scope before it is done *)
Definition identity s s' : Prop :=
  same_owner (before s) (obj s) (before s') (obj s') ∧
  GetFinalizers (obj s') = GetFinalizers (obj s).
#[export] Instance identity_preorder : PreOrder identity.
Proof.
  unfold identity, same_owner. split; [done|].
  intros s1 s2 s3 ((->&->&->)&->) ((->&->&->)&->). done.
Qed.
Definition careful (p : P) : relation (S * trace) :=
  λ x y, identity x.1 y.1 ∧ extends (within_place effect_of p) x y.
#[export] Instance careful_preorder p : PreOrder (careful p).
Proof.
  split; [by intros x|]. intros x y z [Hxy ?] [Hyz ?]. split; by etrans.
Qed.

Context (Hsilent : ∀ e, ev_is (@is_silent) e → reads effect_of e).
Lemma reads_make_nothing e : ev_is (@is_silent) e → makes_nothing effect_of e.
Proof. intros He%Hsilent. unfold reads, makes_nothing in *. by destruct (effect_of e). Qed.
Lemma reads_within p e : ev_is (@is_silent) e → within_place effect_of p e.
Proof. intros He%Hsilent. unfold reads, within_place in *. by destruct (effect_of e). Qed.
(** What a worker reports changes nothing outside. *)
Lemma careful_reports {A} p (m : prog S A) :
  frame (on_state identity) m → frame (extends (ev_is (@is_silent))) m → frame (careful p) m.
Proof.
  intros Hs Hm env s t. split; [apply Hs|]. eapply extends_mono; [|apply Hm].
  apply reads_within.
Qed.
Lemma wp_reports {A} env p x (m : prog S A) s t :
  careful p x (s, t) → frame (on_state identity) m → frame (extends (ev_is (@is_silent))) m →
  wp env m (λ _ s' t', careful p x (s', t')) s t.
Proof.
  intros Hx Hs Hm. eapply wp_by_frame; [by apply careful_reports|].
  intros o s' t' Hc. by etrans.
Qed.
End Worker.

(** ** Simulated worlds

    A world that is a function: it answers the calls one after the other, and with it the
    environment of a run. The witnesses use it. *)
Section Answers.
Context {W : Type} (serve : ∀ X, Call X → W → X * W) (w1 : W).
Fixpoint world_after (t : trace) : W :=
  match t with [] => w1 | Ev c _ :: t => (serve _ c (world_after t)).2 end.
Definition sim_env : Env := λ t X c, (serve X c (world_after t)).1.
Fixpoint answered (t : trace) : Prop :=
  match t with [] => True | Ev c r :: t => r = sim_env t _ c ∧ answered t end.
End Answers.

Section Simulation.
Context {O R P : Type} `{Object O} `{EqDecision P} `{Countable R} {G : Guard O R P}.
Local Notation world := (world O R).
Context (serve : ∀ X, Call X → world → X * world) (w1 : world).
Local Notation world_after := (world_after serve w1).
Local Notation answered := (answered serve w1).

Definition service_of : service O R := λ X c r w w', serve X c w = (r, w').
Lemma run_after (home : NamespacedName → P) key w0 t :
  rtc (others home key) w0 w1 → answered t → run home service_of key w0 t (world_after t).
Proof.
  intros Hstart. induction t as [|[X c r] t IH]; simpl; [intros _; by apply run_start|].
  intros [-> Ha]. eapply run_call; [by apply IH|by apply surjective_pairing|done].
Qed.

(** An API server that stores what a patch says of the finalizers *)
Definition sim_read (home : NamespacedName → P) (key : NamespacedName) (w : world) : error + O :=
  match objects w !! key with
  | Some o => if decide (object_key o = key ∧ place_of o = home key) then inr o
              else inl (ErrExt 1 "not found")
  | None => inl (ErrExt 1 "not found")
  end.
Definition sim_patch (before obj : O) (w : world) : option error * world :=
  match objects w !! object_key obj with
  | None => (Some (ErrExt 1 "not found"), w)
  | Some stored =>
      let o := if decide (place_of before = place_of obj) then stored else obj in
      let stored' := SetFinalizers (patched_field GetFinalizers before obj stored) o in
      (None, if decide (GetFinalizers stored' = [] ∧ NotDeleted stored = false)
             then mkWorld (delete (object_key obj) (objects w)) (held w)
             else mkWorld (<[object_key obj := stored']> (objects w)) (held w))
  end.
Lemma sim_read_allowed home key o w :
  sim_read home key w = inr o → object_read home key o w.
Proof.
  unfold sim_read, object_read. intros Hr. repeat case_match; simplify_eq.
  split_and!; try naive_solver. by eexists.
Qed.
Lemma sim_patch_allowed before obj r w w' :
  (∀ l o, GetFinalizers (SetFinalizers l o) = l) →
  (∀ l o, place_of (SetFinalizers l o) = place_of o) →
  sim_patch before obj w = (r, w') → patch_effect before obj r w w'.
Proof.
  intros Hfin Hplace. unfold sim_patch, patch_effect.
  destruct (objects w !! object_key obj) as [stored|] eqn:Hst; intros; simplify_eq; [|by split].
  rewrite Hfin. split; [by case_decide|]. right.
  match goal with |- context [<[_ := ?x]> _] => exists x end. split_and!.
  - apply Hfin.
  - rewrite Hplace. unfold patched_field.
    by destruct (decide (place_of before = place_of obj)).
  - rewrite Hfin.
    match goal with |- context [decide (?A ∧ ?B)] => destruct (decide (A ∧ B)) as [[]|] end;
      [by right|by left].
Qed.
End Simulation.
