(* ===== verification/VMProtocol.v ===== *)
(** * The virtual machine controller follows the protocol of the finalizers

    An object guards what the agent has of its machine: the machine, its network interface
    and its disk. What the calls of the controller do to the shared world is a table of
    effects; every change a run of [VMController.Reconcile] makes is a step of the protocol. *)
From stdpp Require Import prelude strings list gmap relations.
From S2P Require Import Prelude GoStd External Api Effects Util Naming Scope Example.
From S2P Require Import Telemetry Interfaces Services NetServices VMService.
From S2P Require Import VirtualMachine Protocol.
Local Open Scope prog_scope.

(** ** What an object guards *)
Notation agent_resource := (moc_kind * list string)%type.
(** Where the agent has the machine: resource group and name *)
Notation vm_place := (string * string)%type.
Definition vm_place_of (o : AzureStackHCIVirtualMachine) : vm_place :=
  (vs_ResourceGroup (hv_Spec o), GetName o).
Definition vm_resources (p : vm_place) : list agent_resource :=
  [(MVirtualMachine, [p.1; p.2]); (MNetworkInterface, [p.1; GenerateNICName p.2]);
   (MDisk, [p.1; ""; GenerateOSDiskName p.2])].
Lemma vm_resources_disjoint p q x : x ∈ vm_resources p → x ∈ vm_resources q → p = q.
Proof.
  destruct p as [g n], q as [g' n']. unfold vm_resources, GenerateNICName, GenerateOSDiskName.
  rewrite !elem_of_cons, !elem_of_nil. simpl.
  intros [->|[->|[->|[]]]] [H|[H|[H|[]]]]; simplify_eq; try done;
    match goal with H : _ +:+ _ = _ +:+ _ |- _ => apply append_inj_r in H end; by subst.
Qed.
#[export] Instance vm_guard : Guard AzureStackHCIVirtualMachine agent_resource vm_place := {
  guard_finalizer := VirtualMachineFinalizer;
  place_of := vm_place_of;
  resources := vm_resources;
  resources_disjoint := vm_resources_disjoint }.
(** The deletion goes through the resources of the object's place. *)
Lemma vm_delete_order_resources (s : VirtualMachineScope) :
  vm_delete_order s = resources (place_of (VirtualMachineScope.HCIVM s)).
Proof. done. Qed.

(** ** What the calls do *)
Section Effects.
Context {L : Libs} (home : NamespacedName → vm_place).
Notation vm_effect := (effect AzureStackHCIVirtualMachine agent_resource).
Notation nothing := (Learn (λ _, True)).

(** A delete that succeeds, or finds nothing, is confirmed. Reads, records and the process
    change nothing; nothing is assumed of the other writes. *)
Definition vm_effect_of (e : event) : vm_effect :=
  match e with
  | Ev c r =>
      match c in Call R return R → vm_effect with
      | KGet k key =>
          match k return error + kobj k → vm_effect with
          | KVirtualMachine => λ r,
              match r with inr o => Learn (object_read home key o) | inl _ => nothing end
          | _ => λ _, nothing
          end
      | KPatch k before obj _ =>
          match k return kobj k → kobj k → option error → vm_effect with
          | KVirtualMachine => Patched
          | _ => λ _ _ _, Unknown
          end before obj
      | MocCreateOrUpdate _ k path _ => λ _, Made (k, path)
      | MocDelete _ k path => λ r,
          Unmade (k, path) (match r with None => true | Some e => ResourceNotFound e end)
      | c => λ _, if is_silent c then nothing else Unknown
      end r
  end.
Lemma vm_silent_reads e : ev_is (@is_silent) e → reads vm_effect_of e.
Proof. destruct e as [R [] r]; try done. by destruct k, r. Qed.
(** *** A run that leaves the scope alone and makes only what is the place's own *)
Section FromState.
Context {S : Type} (p : vm_place) (s0 : S).
Definition from_state : relation (S * trace) :=
  λ x y, x.1 = s0 → y.1 = s0 ∧ extends (within_place vm_effect_of p) x y.
#[export] Instance from_state_preorder : PreOrder from_state.
Proof.
  split; [intros x Hx; by split; [|reflexivity]|].
  intros x y z Hxy Hyz Hx. destruct (Hxy Hx) as [Hy ?], (Hyz Hy) as [Hz ?].
  split; [done|]. by etrans.
Qed.
Lemma from_state_gets {A B} (f : S → A) (k : A → prog S B) :
  frame from_state (k (f s0)) → frame from_state (bind (gets f) k).
Proof. intros Hk env s t Hs. simpl in Hs. subst. by apply Hk. Qed.
Lemma from_state_call {R} (c : Call R) :
  (∀ r, within_place vm_effect_of p (Ev c r)) → frame from_state (call c).
Proof. intros Hc env s t Hs. split; [done|]. by apply frame_extends_call. Qed.
Lemma from_state_delete {A} (m : prog S A) :
  frame (extends (ev_is (@is_agent_delete))) m → frame keeps m → frame from_state m.
Proof.
  intros Hm Hk env s t Hs. specialize (Hk env s t). unfold keeps, on_state in Hk. simpl in *.
  split; [congruence|]. eapply extends_mono; [|apply Hm].
  intros [R c r]. by destruct c.
Qed.
End FromState.
End Effects.
Notation nothing := (Learn (λ _, True)).

Ltac frame_from :=
  repeat lazymatch goal with
    | |- frame (from_state _ _ _) (bind (gets _) _) => apply from_state_gets; cbv beta
    | |- frame (from_state _ _ _) (call _) => apply from_state_call; intros ?; cbn; try done
    | _ => first [ frame_step
                 | apply from_state_delete; [solve [frame_auto]|solve [frame_auto]] ]
    end.

Section Places.
Context {L : Libs} (home : NamespacedName → vm_place).
Import VirtualMachineScope VMReconciler.
Local Notation ams := newAzureStackHCIVirtualMachineService.
Implicit Type s : VirtualMachineScope.

Lemma nic_within p s n :
  (MNetworkInterface, [GetResourceGroup s; nic_Name n]) ∈ vm_resources p →
  frame (from_state home p s) (networkinterfaces.Reconcile (INetworkInterfacesSpec n)).
Proof. intros Hn. unfold networkinterfaces.Reconcile. frame_from. Qed.
Lemma vm_within p s v :
  (MVirtualMachine, [GetResourceGroup s; vmsp_Name v]) ∈ vm_resources p →
  frame (from_state home p s) (virtualmachines.Reconcile (IVirtualMachinesSpec v)).
Proof.
  intros Hn. pose proof (generateComputerName_frame (S:=Scope.VirtualMachineScope)) as Hname.
  unfold virtualmachines.Reconcile, virtualmachines.ssh_keys. frame_from.
  apply from_state_delete; [|apply Hname]. eapply frame_extends_mono; [|apply Hname].
  intros [R c r]. by destruct c.
Qed.
Lemma ip_configs_within p s nic i l : frame (from_state home p s) (ip_configs nic i l).
Proof. revert i. induction l; intros i; simpl; frame_from; auto. Qed.
Lemma Create_within s : frame (from_state home (place_of (HCIVM s)) s) (Create ams).
Proof.
  unfold Create, reconcileNetworkInterface, createVirtualMachine, vm_zone. vm_services.
  frame_from; first [ apply ip_configs_within | apply nic_within | apply vm_within ];
    unfold vm_resources; simpl; set_solver.
Qed.
End Places.

(** The reports of the controller *)
Ltac reports :=
  apply wp_reports; [apply vm_silent_reads|done|..];
  unfold VMController.report_state, VMController.setVMProvisionFailure,
    VMController.set_condition, VMController.record, SetCondition;
  frame_auto.

Section Creates.
Context {L : Libs} (home : NamespacedName → vm_place).
Import VirtualMachineScope VMReconciler VMController.
Local Notation ams := newAzureStackHCIVirtualMachineService.
Local Notation careful := (careful (vm_effect_of home) patchBefore HCIVM).
Implicit Type s : VirtualMachineScope.

Lemma from_state_careful p s t s' t' :
  from_state home p s (s, t) (s', t') → s' = s ∧ careful p (s, t) (s', t').
Proof.
  intros H. destruct (H eq_refl) as [Hs Hext]. simpl in Hs. subst.
  split; [done|]. by split.
Qed.
Lemma getOrCreate_careful env s t :
  wp env (getOrCreate ams) (λ o s' t', careful (place_of (HCIVM s)) (s, t) (s', t')) s t.
Proof.
  unfold getOrCreate, findVM. do 3 wp_step.
  eapply wp_by_frame; [apply (from_state_delete home (place_of (HCIVM s)) s); frame_auto|].
  intros o s' t' [-> Hc]%from_state_careful.
  destruct o as [[err|[vm|]]|w|]; [reports|by wp_step| |exact Hc..].
  wp_step. eapply wp_by_frame; [apply Create_within|].
  intros o s' t'' [-> Hc']%from_state_careful.
  assert (Hc2 : careful (place_of (HCIVM s)) (s, t) (s, t'')) by by etrans.
  destruct o as [[err|vm']|w|]; try exact Hc2; reports.
Qed.
End Creates.

(** ** The controller follows the protocol *)
Section Refinement.
Context {L : Libs} {LL : LibLaws L}.
Context (home : NamespacedName → vm_place) {Hhome : Inj (=) (=) home}.
Context (serves : service AzureStackHCIVirtualMachine agent_resource).
Context {HW : Answers home (vm_effect_of home) serves}.
Context (key : NamespacedName) (w0 : world AzureStackHCIVirtualMachine agent_resource).
Context (Hplaced : placed home w0).
Import VirtualMachineScope VMReconciler VMController.
Local Notation always := (always home serves key w0).
Local Notation conforms := (conforms home serves key w0).
Local Notation owned := (owned home key).
Local Notation closable s t := (closable home serves key w0 (patchBefore s) (HCIVM s) t).
Local Notation reads := (reads (vm_effect_of home)).
Local Notation makes_nothing := (makes_nothing (vm_effect_of home)).
Implicit Type s : VirtualMachineScope.

Lemma vm_reconcileNormal_closable env s t :
  closable s t → GetFinalizers (patchBefore s) = GetFinalizers (HCIVM s) →
  (finalized (patchBefore s) → always (kept key) t) →
  wp env reconcileNormal (λ _ s' t', closable s' t') s t.
Proof.
  intros Hcl Hf Hkept. unfold reconcileNormal.
  set (s1 := add_finalizer VirtualMachineFinalizer s).
  assert (Hfin : finalized (HCIVM s1)) by apply AddFinalizer_in.
  assert (Hcl1 : closable s1 t) by (destruct Hcl as (?&?&_); split_and!; auto).
  wp_step. wp_step. wp_step; [by wp_step|]. unfold PatchObject. do 9 wp_step.
  - wp_step. by eapply (closable_patch home (vm_effect_of home) serves).
  - eapply wp_mono with (Q := λ _ s' t',
      careful (vm_effect_of home) patchBefore HCIVM (place_of (HCIVM s1)) (s1, _) (s', t')).
    + wp_step. eapply wp_mono; [apply (getOrCreate_careful home)|].
      intros [[err|vm]|w|] s' t' Hcare; [by wp_step|reports|exact Hcare..].
    + intros o s' t' [[Hs Hfs] (new&Heq&Hnew)].
      eapply working_closable, (working_within home (vm_effect_of home) serves);
        [exact Heq|exact Hnew|exact Hs|exact Hfs|].
      eapply (working_patched home (vm_effect_of home) serves); [done..|].
      intros Hsame. apply Hkept.
      exact (eq_ind_r (λ l, VirtualMachineFinalizer ∈ l) Hfin Hsame).
Qed.

(** *** Deletion *)
Lemma moc_deletes_gone t k path r :
  (k, path, r) ∈ moc_deletes t → gone (k, path, r) →
  Exists (gone_with home (vm_effect_of home) (k, path)) t.
Proof.
  unfold moc_deletes. rewrite elem_of_reverse, list_elem_of_omap. intros (e&He&Hd) Hg.
  apply Exists_exists. exists e. split; [done|]. intros w w' Ha.
  destruct e as [X c r']. destruct c; simplify_eq/=. destruct Ha as (_&_&Ha). apply Ha.
  unfold gone in Hg. simpl in Hg. by case_match.
Qed.
Lemma deletes_complete s t t' ds :
  moc_deletes t' = moc_deletes t ++ ds → deletes_in_order (vm_delete_order s) ds true →
  Forall (λ x, Exists (gone_with home (vm_effect_of home) x) t')
    (resources (place_of (HCIVM s))).
Proof.
  rewrite <-vm_delete_order_resources. intros Hds (Htake&Hlen&Hgone).
  rewrite Hlen, take_ge in Htake by done. rewrite <-Htake. apply Forall_fmap.
  rewrite Forall_forall in Hgone |- *. intros [[k path] r] Hin. simpl.
  eapply moc_deletes_gone; [|by apply Hgone].
  rewrite Hds. apply elem_of_app. by right.
Qed.
Lemma vm_reconcileDelete_makes_nothing : frame (extends makes_nothing) reconcileDelete.
Proof.
  apply (frame_extends_mono (ev_is (λ R c, is_silent c || is_moc_delete c))).
  - intros [R [] r]; try done. by destruct k, r.
  - unfold reconcileDelete, VMReconciler.Delete, set_condition, record, SetCondition.
    vm_services. frame_auto.
Qed.
Lemma vm_reconcileDelete_closable env s t :
  closable s t → GetFinalizers (patchBefore s) = GetFinalizers (HCIVM s) →
  Forall makes_nothing t → wp env reconcileDelete (λ _ s' t', closable s' t') s t.
Proof.
  intros Hcl Hf Ht. eapply wp_frame; [apply vm_reconcileDelete_makes_nothing|].
  unfold reconcileDelete, set_condition, SetCondition, record. wp_run.
  apply wp_Delete. intros t' ds [err|] Hds Hord; rewrite ?bool_decide_true in Hord by done;
    wp_run; intros (new&Heq&Hnew);
    (eapply (closable_unmaking home (vm_effect_of home) serves);
     [exact Heq|exact Hnew|apply Hcl|apply Hcl|done|]); [by left|right].
  split; [done|]. eapply (always_later home (vm_effect_of home) serves); [exact Heq|].
  eapply always_mono; [|apply Hcl]. intros w (_&Hp&_). rewrite <-Hp.
  apply (deletes_complete s t _ ds); [by deletes_simpl|done].
Qed.

(** *** The deletion goes through *)
(** The agent has nothing left of what it is asked to delete, and patches are accepted. *)
Definition granted (e : event) : Prop :=
  match e with
  | Ev c r =>
      match c in Call R return R → Prop with
      | MocDelete _ k path => λ r, gone (k, path, r)
      | KPatch _ _ _ _ => λ r, r = None
      | _ => λ _, True
      end r
  end.
Lemma granted_gone t : Forall granted t → Forall gone (moc_deletes t).
Proof.
  intros Ht. unfold moc_deletes. apply Forall_reverse. apply Forall_forall.
  intros d (e&He&Hd)%list_elem_of_omap. rewrite Forall_forall in Ht. apply Ht in He.
  destruct e as [X c r]. destruct c; by simplify_eq/=.
Qed.
Lemma vm_reconcileDelete_done env s t :
  always (λ _, owned (patchBefore s) (HCIVM s)) t → Forall makes_nothing t →
  wp env reconcileDelete (λ o s' t', (∃ r, o = Ok r) ∧ patchBefore s' = patchBefore s ∧
    always (λ _, owned (patchBefore s') (HCIVM s')) t' ∧
    (Forall granted t' → ¬ finalized (HCIVM s') ∧ always (cleared home key) t')) s t.
Proof.
  intros Hown Ht. eapply wp_frame; [apply vm_reconcileDelete_makes_nothing|].
  unfold reconcileDelete, set_condition, SetCondition, record. wp_run.
  apply wp_Delete. intros t' ds [err|] Hds Hord; rewrite ?bool_decide_true in Hord by done;
    wp_run; intros (new&Heq&Hnew);
    pose proof (always_later home (vm_effect_of home) serves key w0 _ t _ new Heq Hown) as Hown';
    (split_and!; [by eexists|done|exact Hown'|]); intros Hg.
  - destruct Hord as (_&ds'&d&->&_&Hd). exfalso. apply Hd.
    assert (Ht' : Forall granted t') by (by repeat apply Forall_inv_tail in Hg).
    apply granted_gone in Ht'. rewrite Hds, app_assoc in Ht'.
    by apply Forall_app in Ht' as [_ [? _]%Forall_cons].
  - split; [apply RemoveFinalizer_not_in|]. intros w Hw.
    simpl in Heq, Hown'. set (t1 := Ev (Eventf _ _ _ _ _) _ :: t') in *.
    apply (always_cleared home (vm_effect_of home) serves key w0 t1); [| |exact Hw].
    + rewrite Heq. by apply Forall_app.
    + destruct (Hown' w Hw) as (_&Hp&_). rewrite <-Hp.
      apply (deletes_complete s t _ ds); [by deletes_simpl|done].
Qed.

(** *** The whole run *)
Lemma vm_close_conforms env s t : closable s t → wp env Close (λ _ _ t', conforms t') s t.
Proof.
  intros Hcl. unfold Close, PatchObject. wp_run.
  by eapply (conforms_patch home (vm_effect_of home) serves).
Qed.
Lemma vm_Reconcile_conforms env : wp env (Reconcile key) (λ _ _ t', conforms t') tt [].
Proof.
  assert (Hn : conforms []) by apply conforms_nil.
  unfold Reconcile. wp_step. wp_step. destruct r as [err|o].
  { wp_run; by apply (conforms_reads home (vm_effect_of home) serves _ _ [_]);
      [repeat constructor|]. }
  set (t0 := [Ev (KGet KVirtualMachine key) (inr o)]).
  assert (Hread : always (object_read home key o) t0).
  { by eapply (always_learned home (vm_effect_of home) serves); [|apply object_read_others]. }
  wp_step. apply wp_NewVirtualMachineScope. intros res new Hnew Hscope.
  assert (Hsil : Forall reads new) by (eapply Forall_impl; [exact Hnew|apply vm_silent_reads]).
  assert (Hc1 : conforms (new ++ t0)).
  { apply (conforms_reads home (vm_effect_of home) serves); [done|].
    by apply (conforms_reads home (vm_effect_of home) serves _ _ [_]); [repeat constructor|]. }
  destruct res as [[err|scope]|w|]; [|destruct (Hscope _ eq_refl) as [Hb Hv]|done..].
  { wp_run. by apply (conforms_reads home (vm_effect_of home) serves _ _ [_]);
      [repeat constructor|]. }
  assert (Hcl : closable scope (new ++ t0)).
  { split_and!; [done| |left; by rewrite Hb, Hv].
    apply (always_const home (vm_effect_of home) serves). eapply always_mono; [|exact Hread].
    intros w (?&?&_). rewrite Hb, Hv. by split_and!. }
  wp_step. apply wp_with_close. apply (wp_mono _ _ (λ _ s' t', closable s' t')).
  - destruct (NotDeleted o) eqn:Hdel.
    + apply vm_reconcileNormal_closable; [done|by rewrite Hb, Hv|]. intros Hfin.
      apply (always_reads home (vm_effect_of home) serves); [apply kept_others|done|].
      eapply always_mono; [|exact Hread]. intros w (_&_&Hk). apply Hk; [done|by rewrite <-Hb].
    + apply vm_reconcileDelete_closable; [done|by rewrite Hb, Hv|]. apply Forall_app. split.
      * eapply Forall_impl; [exact Hnew|]. apply reads_make_nothing, vm_silent_reads.
      * by repeat constructor.
  - intros res s'' t'' Hcl'. destruct res as [[]|w|]; [| |apply Hcl'];
      (eapply wp_mono; [by apply vm_close_conforms|]); by intros [].
Qed.
Lemma vm_close_lets_go env s t :
  finalized (patchBefore s) → always (λ _, owned (patchBefore s) (HCIVM s)) t →
  (Forall granted t → ¬ finalized (HCIVM s) ∧ always (cleared home key) t) →
  wp env Close (λ _ _ t', Forall granted t' → lets_go home serves key w0 t') s t.
Proof.
  intros Hb Hown Hd. unfold Close, PatchObject. wp_run. intros [-> Ht]%Forall_cons.
  destruct (Hd Ht). by eapply (patch_lets_go home (vm_effect_of home) serves).
Qed.
Lemma vm_deletion_lets_go (env : Env) :
  match env [] (error + kobj KVirtualMachine)%type (KGet KVirtualMachine key) with
  | inr o => NotDeleted o = false ∧ finalized (o : AzureStackHCIVirtualMachine)
  | inl _ => False
  end →
  wp env (Reconcile key) (λ _ _ t,
    Exists (ev_is (@is_moc_delete)) t → Forall granted t → lets_go home serves key w0 t) tt [].
Proof.
  unfold Reconcile. intros Ho. wp_step. wp_step. cbn [kobj] in *.
  rewrite H in Ho. destruct r as [err|o]; [done|]. destruct Ho as [Hdel Hfin].
  set (t0 := [Ev (KGet KVirtualMachine key) (inr o)]).
  assert (Hread : always (object_read home key o) t0).
  { by eapply (always_learned home (vm_effect_of home) serves); [|apply object_read_others]. }
  wp_step. apply wp_NewVirtualMachineScope. intros res new Hnew Hscope.
  assert (Hq : Forall (ev_is (@is_silent)) (new ++ t0))
    by (apply Forall_app; by repeat constructor).
  assert (Hno : ∀ t, Forall (ev_is (@is_silent)) t → ¬ Exists (ev_is (@is_moc_delete)) t).
  { intros t Ht. apply Forall_not_Exists. eapply Forall_impl; [exact Ht|]. by intros [X [] r]. }
  destruct res as [[err|scope]|w|]; [|destruct (Hscope _ eq_refl) as [Hb Hv]|..];
    [wp_run; intros He; exfalso; eapply Hno; [|exact He]; by repeat constructor| |
     by intros He%Hno..].
  rewrite Hdel. wp_step. apply wp_with_close.
  eapply wp_mono; [apply vm_reconcileDelete_done|].
  - apply (always_const home (vm_effect_of home) serves). eapply always_mono; [|exact Hread].
    intros w (?&?&_). rewrite Hb, Hv. by split_and!.
  - eapply Forall_impl; [exact Hq|]. apply reads_make_nothing, vm_silent_reads.
  - intros res s t ([[res' err] ->]&Hpb&Hown&Hd). eapply wp_mono.
    + apply vm_close_lets_go; [by rewrite Hpb, Hb|exact Hown|exact Hd].
    + by intros [] s' t' Hl _.
Qed.
End Refinement.

Section Contract.
Context {L : Libs} {LL : LibLaws L}.

(** C2: The virtual machine controller follows the protocol of the finalizers: every change that
    a run of [Reconcile] makes to the shared world is a step the worker for its key may take.
    It makes something in the agent only while the stored object holds the finalizer, and it
    takes the finalizer away only when the agent has nothing left of the machine. So if no
    machine, network interface or disk in the agent is without a stored object that holds the
    finalizer before the run, none is after it, nor at any point in between.
    Between any two calls users, other controllers and the workers for other keys may act,
    within [Protocol.step]: they create objects, change them, see them removed once the
    finalizer is gone, and take things out of the agent. They do not strip this finalizer from
    an object, nor change the resource group and the name that it describes; every object is
    at the place of its key ([placed]), and different keys have different places. The machine
    controller writes the group of the cluster into the object, so this asks that the cluster
    keeps its group. Assumed of the answers is the table [vm_effect_of]: a read gives the
    object asked for, perhaps an old version, but not one so old that a live object with the
    finalizer has lost it since; an accepted patch is applied to the finalizers, a failed one
    may be; creating may fail half way and makes nothing elsewhere; a delete that is confirmed
    has deleted. *)
Theorem vm_controller_protocol (home : NamespacedName → vm_place)
    (serves : service AzureStackHCIVirtualMachine agent_resource) (env : Env)
    (key : NamespacedName) (w0 : world AzureStackHCIVirtualMachine agent_resource) :
  Inj (=) (=) home → Answers home (vm_effect_of home) serves → placed home w0 →
  wp env (VMController.Reconcile key) (λ _ _ t, conforms home serves key w0 t ∧
    ∀ later earlier w, t = later ++ earlier → run home serves key w0 earlier w →
      rtc (any_step home) w0 w ∧ (no_leak home w0 → no_leak home w)) tt [].
Proof.
  intros Hhome HW Hp. eapply wp_mono; [by apply (vm_Reconcile_conforms home serves key w0)|].
  intros o s t Hc. split; [done|]. intros later earlier w -> Hw. apply each_earlier in Hc.
  pose proof (conforms_now _ _ _ _ _ Hc w Hw) as Hsteps. eauto using no_leak_steps.
Qed.

(** C24: A deletion goes through in one run. The object that a run of [Reconcile] reads first is
    being deleted and holds the finalizer; whatever the others do between the calls, within
    the assumptions of the protocol, if the run gets as far as the agent, the agent has nothing left of what it is asked to delete
    and the API server accepts the patches, then the last call of the run leaves the stored
    object without the finalizer, if it leaves it at all, and nothing of the machine in the
    agent. *)
Theorem vm_deletion_completes (home : NamespacedName → vm_place)
    (serves : service AzureStackHCIVirtualMachine agent_resource) (env : Env)
    (key : NamespacedName) (w0 : world AzureStackHCIVirtualMachine agent_resource) :
  Inj (=) (=) home → Answers home (vm_effect_of home) serves →
  match env [] (error + kobj KVirtualMachine)%type (KGet KVirtualMachine key) with
  | inr o => NotDeleted o = false ∧ finalized (o : AzureStackHCIVirtualMachine)
  | inl _ => False
  end →
  wp env (VMController.Reconcile key) (λ _ _ t,
    Exists (ev_is (@is_moc_delete)) t → Forall granted t → lets_go home serves key w0 t) tt [].
Proof. intros Hhome HW. by apply vm_deletion_lets_go. Qed.
End Contract.

(** ** A simulated run *)
Module VMSim.
Definition home (k : NamespacedName) : vm_place := (nn_Namespace k, nn_Name k).
#[export] Instance home_inj : Inj (=) (=) home.
Proof. intros [] [] H. by simplify_eq/=. Qed.
Definition vm : AzureStackHCIVirtualMachine :=
  ex_vm <| hv_Spec ::= (λ s, s <| vs_ResourceGroup := "default" |>) |>.
Definition key : NamespacedName := mkNN "default" "vm".
Notation world := (world AzureStackHCIVirtualMachine agent_resource).

(** An agent that knows what it was told to make, and plain success for the rest *)
Definition serve (X : Type) (c : Call X) (w : world) : X * world :=
  match c in Call X return X * world with
  | KGet k key =>
      match k return (error + kobj k) * world with
      | KVirtualMachine => (sim_read home key w, w)
      | k => (ex_answer _ (KGet k key), w)
      end
  | KPatch k before obj owned =>
      match k return kobj k → kobj k → option error * world with
      | KVirtualMachine => λ before obj, sim_patch before obj w
      | k => λ _ _, (None, w)
      end before obj
  | MocGet _ k path =>
      (if decide ((k, path) ∈ held w) then inr (Some [ex_mocobj k])
       else inl (ErrExt 3 "not found"), w)
  | MocCreateOrUpdate _ k path _ => (None, mkWorld (objects w) ({[ (k, path) ]} ∪ held w))
  | MocDelete _ k path => (None, mkWorld (objects w) (held w ∖ {[ (k, path) ]}))
  | c => (ex_answer _ c, w)
  end.
#[export] Instance sim_answers :
  Answers home (vm_effect_of (L:=Ref.ref_libs) home) (service_of serve).
Proof.
  intros X c r w w' Hs. unfold service_of in Hs.
  destruct c; try by injection Hs as <- <-.
  - destruct k; simpl in *; simplify_eq; try done.
    match goal with |- context [sim_read home ?k ?w] => destruct (sim_read home k w) eqn:Hr end;
      [done|]. split; [done|]. by apply sim_read_allowed.
  - destruct k; try done. by apply sim_patch_allowed.
  - injection Hs as <- <-. split; [done|]. intros k' Hin. cbn [held objects].
    apply union_subseteq. split; [|set_solver]. apply union_subseteq_r'.
    apply singleton_subseteq_l. rewrite elem_of_list_to_set. exact Hin.
  - injection Hs as <- <-. simpl. split; [done|]. set_solver.
Qed.

(** Somebody makes the object, before the worker starts. *)
Definition w0 : world := mkWorld ∅ ∅.
Definition w1 : world := mkWorld {[ key := vm ]} ∅.
Lemma vm_start : rtc (others home key) w0 w1.
Proof. apply rtc_once. exists None. split; [done|]. by apply step_create. Qed.
End VMSim.

Lemma vm_controller_protocol_witness :
  let t := (VMController.Reconcile (L:=Ref.ref_libs) VMSim.key
              (sim_env VMSim.serve VMSim.w1) tt []).2 in
  let w := world_after VMSim.serve VMSim.w1 t in
  run VMSim.home (service_of VMSim.serve) VMSim.key VMSim.w0 t w ∧
  (MVirtualMachine, ["default"; "vm"]) ∈ held w ∧ no_leak VMSim.home w.
Proof.
  cbv zeta.
  match goal with |- ?R ∧ _ => assert (Hrun : R) end.
  { apply run_after; [apply VMSim.vm_start|]. vm_compute. repeat split. }
  split; [exact Hrun|]. split; [refine (bool_decide_unpack _ _); vm_compute; exact I|].
  destruct (vm_controller_protocol (LL:=Ref.ref_laws) VMSim.home _
    (sim_env VMSim.serve VMSim.w1) VMSim.key VMSim.w0 VMSim.home_inj VMSim.sim_answers
    (λ k o, ltac:(done))) as [_ Hp].
  destruct (Hp [] _ _ eq_refl Hrun) as [_ Hn].
  apply Hn. intros k x _ Hx. by apply not_elem_of_empty in Hx.
Defined.

(** The same world when the object is being deleted *)
Module VMDeletion.
Import VMSim.
Definition deleted_vm : AzureStackHCIVirtualMachine :=
  vm <| hv_meta ::= (λ m, m <| metav1.Finalizers := [VirtualMachineFinalizer] |>
                            <| metav1.DeletionTimestamp := Some 1%Z |>) |>.
Definition w : world :=
  mkWorld {[ key := deleted_vm ]} (list_to_set (vm_resources (home key))).
Definition t : trace :=
  (VMController.Reconcile (L:=Ref.ref_libs) key (sim_env serve w) tt []).2.
Definition after : world := world_after serve w t.
End VMDeletion.

Lemma vm_deletion_completes_witness :
  ¬ kept VMSim.key VMDeletion.after ∧ cleared VMSim.home VMSim.key VMDeletion.after.
Proof.
  assert (Hl : lets_go VMSim.home (service_of VMSim.serve) VMSim.key VMDeletion.w VMDeletion.t).
  { apply (vm_deletion_completes (LL:=Ref.ref_laws) VMSim.home _ (sim_env VMSim.serve VMDeletion.w)
      VMSim.key VMDeletion.w VMSim.home_inj VMSim.sim_answers).
    - split; [done|]. by apply list_elem_of_singleton.
    - refine (bool_decide_unpack _ _). vm_compute. exact I.
    - vm_compute. repeat constructor. }
  assert (Ha : answered VMSim.serve VMDeletion.w VMDeletion.t) by (vm_compute; repeat split).
  revert Ha Hl. unfold VMDeletion.after. generalize VMDeletion.t.
  intros t Ha ([X c r]&earlier&->&Hl). destruct Ha as [-> Ha].
  apply (Hl (world_after VMSim.serve VMDeletion.w earlier)).
  - by apply run_after.
  - apply surjective_pairing.
Defined.
