(* ===== verification/MachineProtocol.v ===== *)
(** * The machine controller follows the protocol of the finalizers

    A machine guards the virtual machine resource of its name: what there is outside of the
    machine is an object of the API server, which the controller makes with CreateOrUpdate,
    deletes, and waits for until it is not found. *)
From stdpp Require Import prelude strings list gmap relations.
From S2P Require Import Prelude GoStd External Api Effects Util Naming Scope Example.
From S2P Require Import Telemetry Interfaces VirtualMachine Machine Protocol.
Local Open Scope prog_scope.

(** ** What a machine guards *)
#[export] Instance machine_guard :
  Guard AzureStackHCIMachine NamespacedName NamespacedName := {
  guard_finalizer := MachineFinalizer;
  place_of := object_key;
  resources k := [k];
  resources_disjoint p q x := ltac:(intros Hp Hq; set_solver) }.

(** ** What the calls do *)
Notation machine_effect := (effect AzureStackHCIMachine NamespacedName).
Notation machine_world := (world AzureStackHCIMachine NamespacedName).
Notation nothing := (Learn (λ _, True)).

Section Effects.
Context {L : Libs}.
(** The resource the world holds is a virtual machine object that exists and is in sight. The
    client reads from a cache, which may lag behind: an answer that an object is not found is
    not taken to be true, the object is out of sight from then on if it exists after all, and
    in sight again when CreateOrUpdate, which ends in a call to the API server, has been about
    it. What CreateOrUpdate finds has the key asked for; owners and clusters are looked up in
    the namespace of the object; an update makes nothing, and a delete may only mark the
    object. *)
Definition machine_effect_of (e : event) : machine_effect :=
  match e with
  | Ev c r =>
      match c in Call R return R → machine_effect with
      | KGet k key =>
          match k return error + kobj k → machine_effect with
          | KMachine => λ r,
              match r with inr o => Learn (object_read id key o) | inl _ => nothing end
          | KVirtualMachine => λ r,
              match r with
              | inl e => if IsNotFound e then Unmade key true else nothing
              | inr _ => nothing
              end
          | _ => λ _, nothing
          end
      | GetOwnerMachine m => λ r,
          match r with
          | inr (Some x) =>
              Learn (λ _, metav1.Namespace (clusterv1.m_meta x) = metav1.Namespace m)
          | _ => nothing
          end
      | GetClusterFromMetadata m => λ r,
          match r with
          | inr x => Learn (λ _, metav1.Namespace (clusterv1.cl_meta x) = metav1.Namespace m)
          | inl _ => nothing
          end
      | KCouBegin k obj =>
          match k return kobj k → cou_get k → machine_effect with
          | KVirtualMachine => λ obj r,
              match r with
              | CouFound o => Learn (λ _, object_key o = object_key obj)
              | _ => nothing
              end
          | _ => λ _ _, nothing
          end obj
      | KCouEnd k obj => λ _,
          match k return kobj k → machine_effect with
          | KVirtualMachine => λ obj, Made (object_key obj)
          | _ => λ _, Unknown
          end obj
      | KUpdate k _ => λ _,
          match k with KVirtualMachine => nothing | _ => Unknown end
      | KDelete k obj =>
          match k return kobj k → option error → machine_effect with
          | KVirtualMachine => λ obj _, Unmade (object_key obj) false
          | _ => λ _ _, Unknown
          end obj
      | KPatch k before obj _ =>
          match k return kobj k → kobj k → option error → machine_effect with
          | KMachine => Patched
          | _ => λ _ _ _, Unknown
          end before obj
      | c => λ _, if is_silent c then nothing else Unknown
      end r
  end.
Lemma machine_silent_reads e : ev_is (@is_silent) e → reads machine_effect_of e.
Proof.
  destruct e as [R c r]. unfold reads. destruct c; try done; try destruct k; simpl;
    intros _; repeat case_match; done.
Qed.
End Effects.

(** ** How a run of the controller begins

    It reads the machine, its owner, the cluster of the owner and the infrastructure of the
    cluster, and either stops, having changed nothing, or goes on with a scope of these. *)
Section Reading.
Context {L : Libs}.
Import MachineScope MachineController.
Implicit Type s : MachineScope.

Definition read_for (key : NamespacedName) (cs : ClusterScope) s (t : trace) : Prop :=
  ∃ m ck, Ev (KGet KMachine key) (inr (HCIMachine s)) ∈ t ∧
    Ev (GetOwnerMachine (hm_meta (HCIMachine s))) (inr (Some m)) ∈ t ∧
    Ev (GetClusterFromMetadata (clusterv1.m_meta m)) (inr (ClusterScope.Cluster cs)) ∈ t ∧
    Ev (KGet KCluster ck) (inr (ClusterScope.HCICluster cs)) ∈ t.
Lemma wp_machine_Reconcile env key (Q : outcome (Result * option error) → unit → trace → Prop) :
  (∀ o t, Forall (ev_is (@is_silent)) t → Q o tt t) →
  (∀ cs s t, Forall (ev_is (@is_silent)) t → read_for key cs s t →
     patchBefore s = HCIMachine s →
     wp env (with_close Close (if NotDeleted (HCIMachine s) then reconcileNormal cs
                               else reconcileDelete cs)) (λ o _ t', Q o tt t') s t) →
  wp env (Reconcile key) Q tt [].
Proof.
  intros Hquiet Hrun. unfold Reconcile. wp_run_to (ClusterScope.NewClusterScope (S:=unit));
    try (by apply Hquiet; repeat constructor).
  match goal with |- wp _ _ _ _ ?tr => set (t0 := tr) end.
  assert (Ht0 : Forall (ev_is (@is_silent)) t0) by (by repeat constructor).
  apply wp_NewClusterScope. intros res n1 Hn1 Hcs.
  assert (Ht1 : Forall (ev_is (@is_silent)) (n1 ++ t0)) by by apply Forall_app.
  destruct res as [[err|cs]|w|];
    [wp_run; by apply Hquiet; repeat constructor| |by apply Hquiet..].
  destruct (Hcs _ eq_refl) as [Hc Hhc].
  wp_step. apply wp_NewMachineScope. intros res n2 Hn2 Hsc.
  assert (Ht2 : Forall (ev_is (@is_silent)) (n2 ++ n1 ++ t0)) by by apply Forall_app.
  destruct res as [[err|scope]|w|];
    [wp_run; by apply Hquiet; repeat constructor| |by apply Hquiet..].
  destruct (Hsc _ eq_refl) as [Hb Ho].
  wp_step. rewrite <-Ho. apply Hrun; [done| |by rewrite Hb, Ho].
  assert (Hin : ∀ e, e ∈ t0 → e ∈ n2 ++ n1 ++ t0) by (intros e He; rewrite !elem_of_app; auto).
  eexists _, _. rewrite Ho, Hc, Hhc. split_and!; apply Hin; repeat constructor.
Qed.
End Reading.

(** ** The controller follows the protocol *)
Section Refinement.
Context {L : Libs} {LL : LibLaws L}.
Context (serves : service AzureStackHCIMachine NamespacedName).
Context {HW : Answers id machine_effect_of serves}.
Context (key : NamespacedName) (w0 : machine_world) (Hplaced : placed id w0).
Import MachineScope MachineController.
Local Notation always := (always id serves key w0).
Local Notation conforms := (conforms id serves key w0).
Local Notation closable s t := (closable id serves key w0 (patchBefore s) (HCIMachine s) t).
Local Notation working s t := (working id serves key w0 (patchBefore s) (HCIMachine s) t).
Local Notation reads := (reads machine_effect_of).
Local Notation makes_nothing := (makes_nothing machine_effect_of).
Local Notation careful := (careful machine_effect_of patchBefore HCIMachine).
Implicit Type s : MachineScope.

(** The virtual machine of the scope has the key of the machine. *)
Definition same_key (cs : ClusterScope) s (t : trace) : Prop :=
  always (λ _, MachineController.vm_key cs s = key) t.

(** *** The virtual machine is made *)
Lemma CopyCorrelationID_key {T T'} `{Object T, Object T'} (a : T) (b : T') :
  (∀ m o, MetaOf (SetMeta m o) = m) → object_key (CopyCorrelationID a b) = object_key b.
Proof.
  intros Hm. unfold CopyCorrelationID. case_decide; [done|].
  unfold object_key, GetName, GetNamespace, SetAnnotations. by rewrite Hm.
Qed.
Lemma mutateFn_key env cs vm s t :
  wp env (mutateFn cs vm) (λ o _ _,
    match o with Ok (_, vm') => object_key vm' = object_key vm | _ => True end) s t.
Proof.
  unfold mutateFn, GetBootstrapData, getVMImage. wp_run; try done;
    by rewrite CopyCorrelationID_key.
Qed.
Lemma silent_working s t t' new :
  t' = new ++ t → Forall (ev_is (@is_silent)) new → working s t → working s t'.
Proof.
  intros Heq Hn. eapply (working_within id machine_effect_of serves); [exact Heq| |done..].
  eapply Forall_impl; [exact Hn|]. apply reads_within, machine_silent_reads.
Qed.
Lemma reconcileVirtualMachineNormal_working env cs s t :
  working s t → same_key cs s t →
  wp env (reconcileVirtualMachineNormal cs) (λ o s' t', s' = s ∧ working s t') s t.
Proof.
  intros Hw Hkey. unfold reconcileVirtualMachineNormal. do 3 wp_step.
  apply wp_CreateOrUpdate.
  { intros e. apply wp_after_CreateOrUpdate. intros r new Hnew _. split; [done|].
    eapply silent_working; [reflexivity|done|].
    by eapply (silent_working _ _ _ [_]); [reflexivity|repeat constructor|]. }
  intros found cur Hcur.
  match goal with |- wp _ _ _ _ ?tr => set (t1 := tr) end.
  assert (Hw1 : working s t1)
    by (eapply (silent_working _ _ _ [_]); [reflexivity|repeat constructor|done]).
  assert (Hcur1 : always (λ _, object_key cur = key) t1).
  { pose proof (always_later id machine_effect_of serves key w0 _ t t1 [_] eq_refl Hkey) as Hkey1.
    destruct Hcur as [[_ ->]| ->]; [exact Hkey1|]. intros w Hrun.
    etrans; [|exact (Hkey1 w Hrun)]. revert w Hrun.
    by apply (always_learned id machine_effect_of serves). }
  eapply wp_mono; [apply (wp_and _ _ (λ o s' t',
    ∃ o', o = Ok o' ∧ s' = s ∧ extends (ev_is (@is_silent)) (s, t1) (s', t')));
    [|apply mutateFn_key]|].
  { apply wp_mutateFn. intros o t' Hext _. by exists o. }
  intros o s' t' [(o'&->&->&new&Heq&Hnew) Hvm']. destruct o' as [err vm']. simpl in Heq.
  assert (Hw2 : working s t') by by eapply silent_working.
  destruct err as [e|]; [|intros r; destruct r as [[op err] vm2]];
    apply wp_after_CreateOrUpdate; intros r' new' Hnew' _; (split; [done|]);
    (eapply silent_working; [reflexivity|done|]); [done|].
  eapply (working_made id machine_effect_of serves); [done| |done].
  eapply (always_later id machine_effect_of serves); [exact Heq|].
  eapply always_mono; [|exact Hcur1]. intros w Hk.
  apply list_elem_of_singleton. etrans; [exact Hvm'|exact Hk].
Qed.

(** *** What the controller reports *)
Lemma report_vm_careful p vm : frame (careful p) (report_vm vm).
Proof.
  apply careful_reports; [apply machine_silent_reads|..];
    unfold report_vm, merge_conditions, report_state, record, set_condition, SetCondition;
    frame_auto.
Qed.
Lemma machine_reconcileNormal_closable env cs s t :
  closable s t → same_key cs s t → GetFinalizers (patchBefore s) = GetFinalizers (HCIMachine s) →
  (finalized (patchBefore s) → always (kept key) t) →
  wp env (reconcileNormal cs) (λ _ s' t', closable s' t') s t.
Proof.
  intros Hcl Hkey Hf Hkept. unfold reconcileNormal.
  set (s1 := add_finalizer MachineFinalizer s).
  assert (Hfin : finalized (HCIMachine s1)) by apply AddFinalizer_in.
  assert (Hcl1 : closable s1 t) by (destruct Hcl as (?&?&_); split_and!; auto).
  assert (Hw : working s1 (Ev (KPatch KMachine (patchBefore s1) (HCIMachine s1)
      [clusterv1.ReadyCondition; VMRunningCondition]) None :: t)).
  { eapply (working_patched id machine_effect_of serves); [done..|].
    intros Hsame. apply Hkept.
    exact (eq_ind_r (λ l, MachineFinalizer ∈ l) Hfin Hsame). }
  wp_step. wp_step. unfold PatchObject. do 8 wp_step.
  - by eapply (closable_patch id machine_effect_of serves).
  - wp_step. by apply working_closable.
  - wp_step. wp_step. wp_step; [|wp_step; by apply working_closable].
    wp_step. eapply wp_mono; [apply (reconcileVirtualMachineNormal_working _ _ _ _ Hw)|].
    { by apply (always_later id machine_effect_of serves key w0 _ t _ [_] eq_refl). }
    intros o s' t' [-> Hw']. destruct o as [[err|vm]|w|]; [wp_step|..];
      try by apply working_closable.
    eapply wp_by_frame; [apply (report_vm_careful (place_of (HCIMachine s1)))|].
    intros o s'' t'' [[Hs Hfs] (new&Heq&Hnew)].
    by eapply working_closable, (working_within id machine_effect_of serves).
Qed.

(** *** Deletion *)
Lemma machine_reconcileDelete_makes_nothing cs : frame (extends makes_nothing) (reconcileDelete cs).
Proof.
  unfold reconcileDelete, reconcileVirtualMachineDelete.
  assert (Htel : ∀ e, ev_is (@is_telemetry) e → makes_nothing e).
  { intros e He. eapply reads_make_nothing; [apply machine_silent_reads|].
    destruct e as [R [] r]; done. }
  frame_auto.
  unfold Protocol.makes_nothing. destruct r as [err|]; simpl; [by destruct (IsNotFound err)|done].
Qed.
Lemma machine_reconcileDelete_closable env cs s t :
  closable s t → same_key cs s t → GetFinalizers (patchBefore s) = GetFinalizers (HCIMachine s) →
  Forall makes_nothing t → wp env (reconcileDelete cs) (λ _ s' t', closable s' t') s t.
Proof.
  intros Hcl Hkey Hf Ht. eapply wp_frame; [apply machine_reconcileDelete_makes_nothing|].
  unfold reconcileDelete, reconcileVirtualMachineDelete. wp_run; intros (evs&Heq&Hevs);
    (eapply (closable_unmaking id machine_effect_of serves);
     [exact Heq|exact Hevs|apply Hcl|apply Hcl|done|]); try by left.
  right. split; [done|]. eapply (always_later id machine_effect_of serves); [exact Heq|].
  eapply always_mono; [|exact Hkey]. intros w Hk. apply Forall_singleton, Exists_cons_hd.
  intros w1 w2. simpl. destruct (IsNotFound e) eqn:He; [|done].
  intros (_&_&Hn). unfold id in *. rewrite <-Hk. by apply Hn.
Qed.

(** *** The whole run *)
Lemma machine_close_conforms env s t : closable s t → wp env Close (λ _ _ t', conforms t') s t.
Proof.
  intros Hcl. unfold Close, PatchObject. wp_run.
  by eapply (conforms_patch id machine_effect_of serves).
Qed.
Lemma handlers_conform env cs s t :
  conforms t → always (object_read id key (HCIMachine s)) t → same_key cs s t →
  patchBefore s = HCIMachine s → Forall reads t →
  wp env (with_close Close (if NotDeleted (HCIMachine s) then reconcileNormal cs
                            else reconcileDelete cs)) (λ _ _ t', conforms t') s t.
Proof.
  intros Hc Hread Hkey Hb Ht.
  assert (Hcl : closable s t).
  { split_and!; [done| |left; by rewrite Hb].
    eapply always_mono; [|exact Hread]. intros w (?&?&_). rewrite Hb. by split_and!. }
  apply wp_with_close. apply (wp_mono _ _ (λ _ s' t', closable s' t')).
  - destruct (NotDeleted (HCIMachine s)) eqn:Hdel.
    + apply machine_reconcileNormal_closable; [done|done|by rewrite Hb|]. intros Hfin.
      eapply always_mono; [|exact Hread]. intros w (_&_&Hk). apply Hk; [done|by rewrite <-Hb].
    + apply machine_reconcileDelete_closable; [done|done|by rewrite Hb|].
      eapply Forall_impl; [exact Ht|]. intros e. unfold Protocol.reads, Protocol.makes_nothing.
      by destruct (machine_effect_of e).
  - intros res s'' t'' Hcl'. destruct res as [[]|w|]; [| |apply Hcl'];
      (eapply wp_mono; [by apply machine_close_conforms|]); by intros [].
Qed.
(** The machine, its owner and the cluster being read, the virtual machine has its key. *)
Lemma read_same_key cs s t : Forall reads t → read_for key cs s t → same_key cs s t.
Proof.
  intros Ht (m&ck&Ho&Hm&Hc&_) w Hw.
  pose proof (always_seen id machine_effect_of serves key w0 _ t _ Ho Ht eq_refl
    (object_read_others _ _ _) w Hw) as (Hk&_&_).
  pose proof (always_seen id machine_effect_of serves key w0 _ t _ Hm Ht eq_refl
    ltac:(done) w Hw) as Hns. simpl in Hns.
  pose proof (always_seen id machine_effect_of serves key w0 _ t _ Hc Ht eq_refl
    ltac:(done) w Hw) as Hns'. simpl in Hns'.
  rewrite <-Hk. unfold vm_key, ClusterScope.Namespace, object_key. by rewrite Hns', Hns.
Qed.
Lemma machine_Reconcile_conforms env : wp env (Reconcile key) (λ _ _ t', conforms t') tt [].
Proof.
  assert (Hr : ∀ t, Forall (ev_is (@is_silent)) t → Forall reads t).
  { intros t Ht. eapply Forall_impl; [exact Ht|apply machine_silent_reads]. }
  assert (Hs : ∀ t, Forall (ev_is (@is_silent)) t → conforms t).
  { intros t Ht%Hr. rewrite <-(app_nil_r t).
    apply (conforms_reads id machine_effect_of serves); [done|apply conforms_nil]. }
  apply wp_machine_Reconcile; [by intros o t Ht; apply Hs|]. intros cs s t Ht Hread Hb.
  apply handlers_conform; [by apply Hs| |apply read_same_key; auto|done|by apply Hr].
  destruct Hread as (m&ck&Ho&_).
  by eapply (always_seen id machine_effect_of serves key w0); [exact Ho|apply Hr| |
    apply object_read_others].
Qed.
End Refinement.

Section Contract.
Context {L : Libs} {LL : LibLaws L}.

(** C3: The machine controller follows the protocol of the finalizers: every change a run of
    [Reconcile] makes is a step the worker for its key may take. It makes the virtual machine
    object of its own name only, and only while the stored machine holds the finalizer; it
    takes the finalizer away only when the object of that name is gone or the client has said
    that it is not found. The client reads from a cache and may say so of an object that
    exists; [held] are the virtual machine objects of which it has not, since CreateOrUpdate
    was last about them. So when each of those has a stored machine that holds the finalizer,
    the same is true after the run and at any point in between.
    Between any two calls others may act, within [Protocol.step]: they create machines, change
    them without taking this finalizer away, see them removed once it is gone, and lose or
    delete virtual machine objects; they neither strip the finalizer nor make virtual machine
    objects of a machine's name. Assumed of the API server is the table [machine_effect_of]: a
    read gives the machine asked for, and not one so old that a live one with the finalizer
    has lost it since; owners and clusters are in the namespace of what they are looked up
    for; an accepted patch is applied to the finalizers. *)
Theorem machine_controller_protocol (serves : service AzureStackHCIMachine NamespacedName)
    (env : Env) (key : NamespacedName) (w0 : machine_world) :
  Answers id machine_effect_of serves → placed id w0 →
  wp env (MachineController.Reconcile key) (λ _ _ t, conforms id serves key w0 t ∧
    ∀ later earlier w, t = later ++ earlier → run id serves key w0 earlier w →
      rtc (any_step id) w0 w ∧ (no_leak id w0 → no_leak id w)) tt [].
Proof.
  intros HW Hp. eapply wp_mono; [by apply (machine_Reconcile_conforms serves key w0)|].
  intros o s t Hc. split; [done|]. intros later earlier w -> Hw. apply each_earlier in Hc.
  pose proof (conforms_now _ _ _ _ _ Hc w Hw) as Hsteps. split; [done|].
  by apply (no_leak_steps id).
Qed.
End Contract.

(** ** A simulated run *)
Module MachineSim.
Definition key : NamespacedName := mkNN "default" "machine".
Definition hcicluster : AzureStackHCICluster :=
  ex_hcicluster <| hc_Status ::= (λ s,
    s <| cst_Initialization := Some (mkInitializationStatus (Some true)) |>) |>.

(** An API server that knows which virtual machines were made *)
Definition serve (X : Type) (c : Call X) (w : machine_world) : X * machine_world :=
  match c in Call X return X * machine_world with
  | KGet k key =>
      match k return (error + kobj k) * machine_world with
      | KMachine => (sim_read id key w, w)
      | KVirtualMachine =>
          (if decide (key ∈ held w) then inr ex_vm else inl (ErrExt 1 "not found"), w)
      | KCluster => (inr hcicluster, w)
      | k => (ex_answer _ (KGet k key), w)
      end
  | GetOwnerMachine m =>
      (inr (if decide (metav1.Namespace m = "default") then Some ex_capi_machine else None), w)
  | GetClusterFromMetadata m =>
      (if decide (metav1.Namespace m = "default") then inr ex_cluster
       else inl (ErrExt 1 "not found"), w)
  | KPatch k before obj owned =>
      match k return kobj k → kobj k → option error * machine_world with
      | KMachine => λ before obj, sim_patch before obj w
      | k => λ _ _, (None, w)
      end before obj
  | KCouEnd k obj =>
      match k return kobj k → OperationResult * option error * kobj k * machine_world with
      | KVirtualMachine => λ obj, (OperationResultCreated, None, obj,
          mkWorld (objects w) ({[ object_key obj ]} ∪ held w))
      | k => λ obj, (OperationResultCreated, None, obj, w)
      end obj
  | KDelete k obj =>
      match k return kobj k → option error * machine_world with
      | KVirtualMachine => λ obj, (None, mkWorld (objects w) (held w ∖ {[ object_key obj ]}))
      | k => λ _, (None, w)
      end obj
  | c => (ex_answer _ c, w)
  end.
#[export] Instance sim_answers :
  Answers id (machine_effect_of (L:=Ref.ref_libs)) (service_of serve).
Proof.
  intros X c r w w' Hs. unfold service_of in Hs.
  destruct c; try destruct k; try (by injection Hs as <- <-); try (by apply sim_patch_allowed).
  - injection Hs as <- <-. simpl.
    match goal with |- context [sim_read id ?k ?w] => destruct (sim_read id k w) eqn:Hr end;
      [done|]. split; [done|]. by apply sim_read_allowed.
  - injection Hs as <- <-. simpl. by case_decide; simpl; [|split_and!].
  - injection Hs as <- <-. split; [done|]. simpl. split; [set_solver|done].
  - injection Hs as <- <-. split; [done|]. intros k Hk%list_elem_of_singleton. simpl in *.
    rewrite Hk. set_solver.
  - injection Hs as <- <-. simpl. by case_decide.
  - injection Hs as <- <-. simpl. by case_decide.
Qed.

(** Somebody makes the object, before the worker starts. *)
Definition w0 : machine_world := mkWorld ∅ ∅.
Definition w1 : machine_world := mkWorld {[ key := ex_machine ]} ∅.
Lemma machine_start : rtc (others id key) w0 w1.
Proof. apply rtc_once. exists None. split; [done|]. by apply step_create. Qed.
End MachineSim.

Lemma machine_controller_protocol_witness :
  let t := (MachineController.Reconcile (L:=Ref.ref_libs) MachineSim.key
              (sim_env MachineSim.serve MachineSim.w1) tt []).2 in
  let w := world_after MachineSim.serve MachineSim.w1 t in
  run id (service_of MachineSim.serve) MachineSim.key MachineSim.w0 t w ∧
  MachineSim.key ∈ held w ∧ no_leak id w.
Proof.
  cbv zeta.
  match goal with |- ?R ∧ _ => assert (Hrun : R) end.
  { apply run_after; [apply MachineSim.machine_start|]. vm_compute. repeat split. }
  split; [exact Hrun|]. split; [refine (bool_decide_unpack _ _); vm_compute; exact I|].
  destruct (machine_controller_protocol (LL:=Ref.ref_laws) _
    (sim_env MachineSim.serve MachineSim.w1) MachineSim.key MachineSim.w0
    MachineSim.sim_answers (λ k o, ltac:(done))) as [_ Hp].
  destruct (Hp [] _ _ eq_refl Hrun) as [_ Hn].
  apply Hn. intros k x _ Hx. by apply not_elem_of_empty in Hx.
Defined.

(** *** A client that lags behind *)
(** If [held] were every virtual machine object there is, a machine that is deleted before the
    client's cache has its virtual machine would leave it behind. *)
Definition stale_serve (X : Type) (c : Call X) (w : machine_world) : X * machine_world :=
  match c in Call X return X * machine_world with
  | KGet KVirtualMachine key => (inl (ErrExt 1 "not found"), w)
  | c => MachineSim.serve _ c w
  end.
Definition deleted_machine : AzureStackHCIMachine :=
  ex_machine <| hm_meta ::= (λ m,
    m <| metav1.Finalizers := [MachineFinalizer] |>
      <| metav1.DeletionTimestamp := Some 1%Z |>) |>.
Lemma stale_not_found_orphans :
  let w1 := mkWorld {[ MachineSim.key := deleted_machine ]} {[ MachineSim.key ]} in
  let t := (MachineController.Reconcile (L:=Ref.ref_libs) MachineSim.key
              (sim_env stale_serve w1) tt []).2 in
  let w := world_after stale_serve w1 t in
  no_leak id w1 ∧ run id (service_of stale_serve) MachineSim.key w1 t w ∧
  objects w !! MachineSim.key = None ∧ MachineSim.key ∈ held w.
Proof.
  cbv zeta. split_and!.
  - intros k x Hx%list_elem_of_singleton Hh. simpl in Hh. apply elem_of_singleton in Hh.
    unfold id in *. subst. eexists. split; [apply lookup_singleton_eq|by left].
  - apply run_after; [done|]. vm_compute. repeat split.
  - vm_compute. reflexivity.
  - refine (bool_decide_unpack _ _). vm_compute. exact I.
Qed.
