(* ===== verification/LBProtocol.v ===== *)
(** * The load balancer controller follows the protocol of the finalizers

    A load balancer guards the load balancer of its name in the agent. Where that is depends
    on the cluster, of which the object does not tell: the place is a function of the key.
    What the controller does to virtual machine objects in between is nothing to this world;
    [LBClient] says what it is to the others. *)
From stdpp Require Import prelude strings list gmap relations.
From S2P Require Import Prelude GoStd External Api Effects Util Naming Scope Example.
From S2P Require Import Telemetry Interfaces Services NetServices VirtualMachine Machine.
From S2P Require Import LoadBalancer LBScaling LBOutcome Protocol VMProtocol.
Local Open Scope prog_scope.
Ltac wp_hook ::= first [wp_telemetry | wp_deref_first | wp_set_condition | wp_lb].

(** ** What a load balancer guards *)
Notation lb_place := (string * string)%type.
Definition lb_resources (p : lb_place) : list agent_resource := [(MLoadBalancer, [p.1; p.2])].
Lemma lb_resources_disjoint p q x : x ∈ lb_resources p → x ∈ lb_resources q → p = q.
Proof.
  destruct p, q. unfold lb_resources. intros ->%list_elem_of_singleton H.
  apply list_elem_of_singleton in H. by simplify_eq/=.
Qed.
Definition lb_guard (home : NamespacedName → lb_place) :
  Guard AzureStackHCILoadBalancer agent_resource lb_place := {|
  guard_finalizer := AzureStackHCILoadBalancerFinalizer;
  place_of o := home (object_key o);
  resources := lb_resources;
  resources_disjoint := lb_resources_disjoint |}.
Notation lb_world := (world AzureStackHCILoadBalancer agent_resource).

(** ** What the calls do *)
Section Effects.
Context {L : Libs} (home : NamespacedName → lb_place).
#[local] Existing Instance lb_guard.
Notation lb_effect := (effect AzureStackHCILoadBalancer agent_resource).

(** Virtual machine objects are not of this world. *)
Definition lb_effect_of (e : event) : lb_effect :=
  match e with
  | Ev c r =>
      match c in Call R return R → lb_effect with
      | KGet k asked =>
          match k return error + kobj k → lb_effect with
          | KLoadBalancer => λ r,
              match r with
              | inr o => Learn (object_read (G:=lb_guard home) home asked o)
              | inl _ => nothing
              end
          | _ => λ _, nothing
          end
      | KCouEnd k _ => λ _, match k with KVirtualMachine => nothing | _ => Unknown end
      | KUpdate k _ => λ _, match k with KVirtualMachine => nothing | _ => Unknown end
      | KDelete k _ => λ _, match k with KVirtualMachine => nothing | _ => Unknown end
      | KPatch k before obj _ =>
          match k return kobj k → kobj k → option error → lb_effect with
          | KLoadBalancer => Patched
          | _ => λ _ _ _, Unknown
          end before obj
      | MocCreateOrUpdate _ k path _ => λ _, Made (k, path)
      | MocDelete _ k path => λ r,
          Unmade (k, path) (match r with None => true | Some e => ResourceNotFound e end)
      | c => λ _, if is_silent c then nothing else Unknown
      end r
  end.
Lemma lb_silent_reads e : ev_is (@is_silent) e → reads lb_effect_of e.
Proof. destruct e as [R [] r]; try done. by destruct k, r. Qed.
(** The calls about virtual machine objects *)
Definition is_vm_call {R} (c : Call R) : bool :=
  match c with
  | KCouEnd KVirtualMachine _ | KUpdate KVirtualMachine _ | KDelete KVirtualMachine _ => true
  | c => is_silent c
  end.
Lemma vm_call_reads e : ev_is (@is_vm_call) e → reads lb_effect_of e.
Proof. destruct e as [R [] r]; try done; destruct k; try done; by destruct r. Qed.

(** The object does not tell where the load balancer is: the controller takes the resource group
    of the cluster, every time it runs, to make it as well as to delete it. That the clusters
    the worker for [key] reads still name the group it was made in is an assumption of its
    own. Nothing enforces it: the field of the cluster may be edited. *)
Definition in_group (key : NamespacedName) (hc : AzureStackHCICluster) : Prop :=
  (cs_ResourceGroup (hc_Spec hc), nn_Name key) = home key.
Definition steady_answer (key : NamespacedName) (e : event) : Prop :=
  match e with
  | Ev c r =>
      match c in Call R return R → Prop with
      | KGet k _ =>
          match k return error + kobj k → Prop with
          | KCluster => λ r, match r with inr hc => in_group key hc | inl _ => True end
          | _ => λ _, True
          end
      | _ => λ _, True
      end r
  end.
Definition steady_group (key : NamespacedName)
    (serves : service AzureStackHCILoadBalancer agent_resource) : Prop :=
  ∀ X (c : Call X) r w w', serves X c r w w' → steady_answer key (Ev c r).
End Effects.

(** ** How a run of the controller begins *)
Section Reading.
Context {L : Libs}.
Import LoadBalancerScope LBController.
Implicit Type s : LoadBalancerScope.

(** The load balancer, its owner and the infrastructure of that were read. *)
Definition lb_read_for (key : NamespacedName) (cs : ClusterScope) s (t : trace) : Prop :=
  ∃ ck, Ev (KGet KLoadBalancer key) (inr (LB s)) ∈ t ∧
    Ev (GetOwnerCluster (lb_meta (LB s))) (inr (Some (ClusterScope.Cluster cs))) ∈ t ∧
    Ev (KGet KCluster ck) (inr (ClusterScope.HCICluster cs)) ∈ t.
Lemma wp_lb_Reconcile env key (Q : outcome (Result * option error) → unit → trace → Prop) :
  (∀ o t, Forall (ev_is (@is_silent)) t → Q o tt t) →
  (∀ cs s t, Forall (ev_is (@is_silent)) t → lb_read_for key cs s t → patchBefore s = LB s →
     wp env (with_close (reconcileStatus ;; Close)
       (if NotDeleted (LB s) then reconcileNormal cs else reconcileDelete cs))
       (λ o _ t', Q o tt t') s t) →
  wp env (Reconcile key) Q tt [].
Proof.
  intros Hquiet Hrun. unfold Reconcile. wp_run_to (ClusterScope.NewClusterScope (S:=unit));
    try (by apply Hquiet; repeat constructor).
  match goal with |- wp _ _ _ _ ?tr => set (t0 := tr) end.
  assert (Ht0 : Forall (ev_is (@is_silent)) t0) by (by repeat constructor).
  apply wp_NewClusterScope. intros res n1 Hn1 Hcs.
  assert (Ht1 : Forall (ev_is (@is_silent)) (n1 ++ t0)) by by apply Forall_app.
  destruct res as [[err|cs]|w|];
    [wp_run; by apply Hquiet; repeat constructor| |by apply Hquiet..].
  destruct (Hcs _ eq_refl) as [Hc Hhc].
  wp_step. apply wp_NewLoadBalancerScope. intros res n2 Hn2 Hsc.
  assert (Ht2 : Forall (ev_is (@is_silent)) (n2 ++ n1 ++ t0)) by by apply Forall_app.
  destruct res as [[err|scope]|w|];
    [wp_run; by apply Hquiet; repeat constructor| |by apply Hquiet..].
  destruct (Hsc _ eq_refl) as [Hb Ho].
  wp_step. rewrite <-Ho. apply Hrun; [done| |by rewrite Hb, Ho].
  assert (Hin : ∀ e, e ∈ t0 → e ∈ n2 ++ n1 ++ t0) by (intros e He; rewrite !elem_of_app; auto).
  eexists. rewrite Ho, Hc, Hhc. split_and!; apply Hin; repeat constructor.
Qed.

End Reading.

(** ** What a run does to its scope and to the world *)
Section Scope.
Context {L : Libs} {LL : LibLaws L}.
Context (home : NamespacedName → lb_place).
#[local] Hint Extern 0 (Guard AzureStackHCILoadBalancer _ _) =>
  exact (lb_guard home) : typeclass_instances.
Import LoadBalancerScope LBController.
Local Notation identity := (identity patchBefore LB).
Local Notation within_place p := (within_place (G:=lb_guard home) (lb_effect_of home) p).
Local Notation careful p :=
  (careful (G:=lb_guard home) (lb_effect_of home) patchBefore LB p).
Implicit Type s : LoadBalancerScope.

Lemma same_object_identity s s' : same_object s s' → identity s s'.
Proof.
  intros [Hb Hm]. unfold Protocol.identity, same_owner, object_key, GetName, GetNamespace,
    GetFinalizers. simpl. unfold object_key, GetName, GetNamespace. simpl. by rewrite Hb, Hm.
Qed.
Lemma frame_of_same_object {A} (m : prog LoadBalancerScope A) :
  frame (on_state same_object) m → frame (on_state identity) m.
Proof. intros Hm env s t. apply same_object_identity, Hm. Qed.
Lemma frame_of_ready {A} (m : prog LoadBalancerScope A) :
  frame (on_state same_ready) m → frame (on_state same_object) m.
Proof. intros Hm env s t. by destruct (Hm env s t). Qed.
Hint Extern 6 (frame (on_state same_object) _) =>
  apply frame_of_ready; solve [eauto 2 using set_condition_ready, record_ready,
    service_status_ready, service_ready, reconcileVirtualMachines_ready with nocore] : frames.

Lemma report_address_same_object cs res : frame (on_state same_object) (report_address cs res).
Proof. unfold report_address, report_ready, infrastructure_condition. frame_auto. Qed.
Lemma reconcileStatus_same_object : frame (on_state same_object) reconcileStatus.
Proof. unfold reconcileStatus, infrastructure_condition. frame_auto. Qed.

Ltac lb_service := cbn [gsvc_Get gsvc_Reconcile gsvc_Delete loadbalancers.NewService].
Lemma report_address_silent cs res :
  frame (extends (ev_is (@is_silent))) (report_address cs res).
Proof.
  unfold report_address, report_ready, infrastructure_condition,
    reconcileLoadBalancerServiceStatus, frontend_address, set_condition, SetCondition, record.
  lb_service. frame_auto.
Qed.
Lemma reconcileStatus_silent : frame (extends (ev_is (@is_silent))) reconcileStatus.
Proof. unfold reconcileStatus, infrastructure_condition, set_condition, SetCondition. frame_auto. Qed.
Lemma scaleUp_calls cs : frame (extends (ev_is (@is_vm_call))) (scaleUpVirtualMachines cs).
Proof.
  unfold scaleUpVirtualMachines, createOrUpdateVirtualMachine, record,
    GenerateAzureStackHCILoadBalancerMachineName.
  frame_auto. apply frame_CreateOrUpdate; [apply _|..]; intros; unfold mutateFn, getVMImage;
    frame_auto.
Qed.
Lemma deleteVM_calls cs vm : frame (extends (ev_is (@is_vm_call))) (deleteVirtualMachine cs vm).
Proof. unfold deleteVirtualMachine. frame_auto. Qed.
Hint Resolve scaleUp_calls deleteVM_calls : frames.
Lemma reconcileVirtualMachines_calls cs :
  frame (extends (ev_is (@is_vm_call))) (reconcileVirtualMachines cs).
Proof.
  unfold reconcileVirtualMachines, getVirtualMachinesForLoadBalancer, scale_replicas,
    scaleDownVirtualMachines, scale_up_to_max, replicas_condition, updateReplicaStatus,
    reconcileLoadBalancerServiceStatus, frontend_address, set_condition, SetCondition, record.
  lb_service. frame_auto.
Qed.
Lemma reconcileDeleteVMs_calls cs :
  frame (extends (ev_is (@is_vm_call))) (reconcileDeleteVirtualMachines cs).
Proof.
  unfold reconcileDeleteVirtualMachines, getVirtualMachinesForLoadBalancer. frame_auto.
Qed.

(** *** The service of the load balancer *)
(** It makes the load balancer of the place, if anything. *)
Lemma loadbalancers_within env l (cs : ClusterScope) t :
  wp env (loadbalancers.Reconcile (ILoadBalancersSpec l)) (λ _ cs' t',
    ∃ new, t' = new ++ t ∧ Forall (within_place (GetResourceGroup cs, lbsp_Name l)) new) cs t.
Proof.
  assert (Htel : ∀ new p, Forall (ev_is (@is_telemetry)) new → Forall (within_place p) new).
  { intros new p Hn. eapply Forall_impl; [exact Hn|]. intros [R c r]. by destruct c. }
  unfold loadbalancers.Reconcile, loadbalancers.Get. wp_run.
  all: match goal with |- ∃ _, ?tr = _ ∧ _ => let p := events_above tr t in exists p end.
  all: split; [by simplify_list_eq|].
  all: repeat first [ apply Forall_nil; done | apply Forall_cons; split; [cbn; try done|]
                    | apply Forall_app; split | by apply Htel ].
  all: try by apply list_elem_of_singleton.
Qed.
Lemma service_careful env cs s t :
  wp env (reconcileLoadBalancerService cs) (λ _ s' t',
    careful (GetResourceGroup cs, Name s) (s, t) (s', t')) s t.
Proof.
  eapply wp_frame; [apply frame_of_same_object, frame_of_ready, service_ready|].
  unfold reconcileLoadBalancerService. do 4 wp_step. wp_step.
  lb_service. wp_step.
  eapply wp_mono; [apply loadbalancers_within|].
  intros [[err|]|w|] cs' t' (new&->&Hn); wp_run; intros Hs; (split; [exact Hs|by exists new]).
Qed.

(** *** Parts of the handlers that make nothing *)
Lemma vm_calls_careful {A} p (m : prog LoadBalancerScope A) :
  frame (on_state same_object) m → frame (extends (ev_is (@is_vm_call))) m →
  frame (careful p) m.
Proof.
  intros Hs Hm env s t. split; [by apply frame_of_same_object|].
  eapply extends_mono; [|apply Hm]. intros e He%(vm_call_reads home).
  unfold reads, Protocol.within_place in *. by destruct (lb_effect_of home e).
Qed.
Lemma silent_careful {A} p (m : prog LoadBalancerScope A) :
  frame (on_state same_object) m → frame (extends (ev_is (@is_silent))) m →
  frame (careful p) m.
Proof.
  intros Hs Hm. apply vm_calls_careful; [done|]. eapply frame_extends_mono, Hm.
  intros [R c r]. by destruct c.
Qed.
Lemma wp_careful_silent {A} env p x (m : prog LoadBalancerScope A) s t :
  frame (on_state same_object) m → frame (extends (ev_is (@is_silent))) m →
  careful p x (s, t) → wp env m (λ _ s' t', careful p x (s', t')) s t.
Proof.
  intros Hs Hm Hx. eapply wp_by_frame; [by apply (silent_careful p)|].
  intros o s' t' Hc. by etrans.
Qed.
Lemma careful_name p s s' t t' : careful p (s, t) (s', t') → Name s' = Name s.
Proof. intros [[(_&Hk&_) _] _]. exact (f_equal nn_Name Hk). Qed.
End Scope.

(** What the handlers report *)
Ltac wp_reports :=
  apply wp_careful_silent;
  [ unfold LBController.infrastructure_condition;
    frame_auto; auto using frame_of_ready, LBOutcome.set_condition_ready, record_ready,
      report_address_same_object
  | unfold LBController.infrastructure_condition, LBController.set_condition, SetCondition,
      LBController.record; frame_auto; apply report_address_silent
  | first [assumption | reflexivity] ].

(** ** The controller follows the protocol *)
Section Refinement.
Context {L : Libs} {LL : LibLaws L}.
Context (home : NamespacedName → lb_place) {Hhome : Inj (=) (=) home}.
#[local] Hint Extern 0 (Guard AzureStackHCILoadBalancer _ _) =>
  exact (lb_guard home) : typeclass_instances.
Context (serves : service AzureStackHCILoadBalancer agent_resource).
Context (key : NamespacedName) (w0 : lb_world).
Local Notation effects := (lb_effect_of home).
Context {HW : Answers home effects serves} (Hplaced : placed home w0).
Context (Hsteady : steady_group home key serves).
Import LoadBalancerScope LBController.
Local Notation always := (always home serves key w0).
Local Notation conforms := (conforms home serves key w0).
Local Notation closable s t := (closable home serves key w0 (patchBefore s) (LB s) t).
Local Notation working s t := (working home serves key w0 (patchBefore s) (LB s) t).
Local Notation reads := (reads effects).
Local Notation makes_nothing := (makes_nothing effects).
Local Notation careful p := (careful effects patchBefore LB p).
Implicit Type s : LoadBalancerScope.

(** The place of the scope is the one of its key. *)
Definition same_place (cs : ClusterScope) s (t : trace) : Prop :=
  always (λ _, (GetResourceGroup cs, Name s) = home key) t.
Lemma careful_closable p s s' t t' :
  careful p (s, t) (s', t') → always (λ _, p = home key) t → working s t → closable s' t'.
Proof.
  intros [[Hs Hf] (new&Heq&Hnew)] Hp Hw.
  by eapply working_closable, (working_within_place home effects serves).
Qed.
Lemma lb_reconcileNormal_closable env cs s t :
  closable s t → same_place cs s t → GetFinalizers (patchBefore s) = GetFinalizers (LB s) →
  (finalized (patchBefore s) → always (kept key) t) →
  wp env (reconcileNormal cs) (λ _ s' t', closable s' t') s t.
Proof.
  intros Hcl Hplace Hf Hkept. unfold reconcileNormal.
  set (s1 := add_finalizer AzureStackHCILoadBalancerFinalizer s).
  assert (Hfin : finalized (LB s1)) by apply AddFinalizer_in.
  assert (Hcl1 : closable s1 t) by (destruct Hcl as (?&?&_); split_and!; auto).
  set (p := (GetResourceGroup cs, Name s1)).
  wp_step. wp_step. wp_step. unfold PatchObject. do 6 wp_step.
  { wp_step. by eapply (closable_patch home effects serves). }
  change (add_finalizer AzureStackHCILoadBalancerFinalizer s) with s1.
  match goal with |- wp _ _ _ _ ?tr => set (t1 := tr) end.
  assert (Hw : working s1 t1).
  { eapply (working_patched home effects serves); [done..|]. intros Hsame. apply Hkept.
    exact (eq_ind_r (λ l, AzureStackHCILoadBalancerFinalizer ∈ l) Hfin Hsame). }
  assert (Hp : always (λ _, p = home key) t1)
    by by apply (always_later home effects serves key w0 _ t _ [_] eq_refl).
  eapply (wp_mono _ _ (λ _ s' t', careful p (s1, t1) (s', t')));
    [|intros o s' t' Hc; by eapply careful_closable].
  do 2 wp_step. wp_step; [|wp_reports].
  wp_step. eapply wp_by_frame.
  { apply (vm_calls_careful home p); [apply frame_of_ready, reconcileVirtualMachines_ready|].
    apply reconcileVirtualMachines_calls. }
  intros o s2 t2 Hc. destruct o as [[res [err|]]|w|]; try exact Hc; [wp_reports|].
  wp_step.
  eapply wp_mono; [apply (service_careful home)|].
  intros o s3 t3 Hc'. rewrite (careful_name home _ _ _ _ _ Hc) in Hc'.
  eapply transitivity in Hc'; [|exact Hc].
  destruct o as [[err|]|w|]; try exact Hc'; wp_reports.
Qed.

(** *** Deletion *)
Definition is_vm_call_or_delete {R} (c : Call R) : bool := is_vm_call c || is_moc_delete c.
Lemma reads_make_nothing' e : ev_is (@is_vm_call_or_delete) e → makes_nothing e.
Proof.
  destruct e as [R c r]. destruct c; try done; destruct k; try done; by destruct r.
Qed.
Lemma lb_reconcileDelete_unmakes cs : frame (extends makes_nothing) (reconcileDelete cs).
Proof.
  apply (frame_extends_mono (ev_is (@is_vm_call_or_delete))); [apply reads_make_nothing'|].
  unfold reconcileDelete, reconcileDeleteLoadBalancerService, infrastructure_condition,
    set_condition, SetCondition, record.
  assert (Hvms : frame (extends (ev_is (@is_vm_call_or_delete)))
                   (reconcileDeleteVirtualMachines cs)).
  { eapply frame_extends_mono, reconcileDeleteVMs_calls. intros [R c r].
    unfold ev_is, is_vm_call_or_delete. by intros ->. }
  cbn [gsvc_Delete loadbalancers.NewService]. frame_auto.
Qed.
Lemma lb_gone_with t path :
  Exists (lb_gone path) t → Exists (gone_with home effects (MLoadBalancer, path)) t.
Proof.
  intros He. eapply Exists_impl; [exact He|]. intros [X c r] ([[k p] r']&Hd&Heq&Hg) w w' Ha.
  destruct c; try done. simplify_eq/=. destruct Ha as (_&_&Ha). apply Ha.
  unfold gone in Hg. simpl in Hg. by case_match.
Qed.
Lemma lb_reconcileDelete_closable env cs s t :
  closable s t → same_place cs s t → GetFinalizers (patchBefore s) = GetFinalizers (LB s) →
  Forall makes_nothing t → wp env (reconcileDelete cs) (λ _ s' t', closable s' t') s t.
Proof.
  intros Hcl Hplace Hf Ht. eapply wp_frame; [apply lb_reconcileDelete_unmakes|].
  unfold reconcileDelete. do 3 wp_step. apply wp_delete_service. intros err new _ Hgone.
  assert (Hunmade : ∀ s' t', same_owner (patchBefore s) (LB s) (patchBefore s') (LB s') →
    GetFinalizers (LB s') = GetFinalizers (LB s) ∨
      Exists (lb_gone [GetResourceGroup cs; Name s]) t' →
    extends makes_nothing (s, t) (s', t') → closable s' t').
  { intros s' t' Hs Hcase (evs&Heq&Hevs).
    eapply (closable_unmaking home effects serves);
      [exact Heq|exact Hevs|apply Hcl|apply Hcl|done|].
    destruct Hcase as [->|He]; [by left|right]. split; [done|].
    eapply (always_later home effects serves); [exact Heq|].
    eapply always_mono; [|exact Hplace]. intros w <-. by apply Forall_singleton, lb_gone_with. }
  destruct err as [e|]; cbv beta iota; [wp_run; apply Hunmade; [done|by left]|].
  wp_step. apply wp_reconcileDeleteVirtualMachines. intros err new' _.
  destruct err as [e|]; cbv beta iota; wp_run; (apply Hunmade; [done|]); [by left|right].
  do 2 apply Exists_cons_tl. apply Exists_app. right. apply Exists_app. left. auto.
Qed.

(** *** The whole run *)
Lemma lb_close_conforms env s t :
  closable s t → wp env (reconcileStatus ;; Close) (λ _ _ t', conforms t') s t.
Proof.
  intros Hcl. wp_step. eapply wp_by_frame.
  { apply (frame_and (on_state same_object) (extends (ev_is (@is_silent))));
      [apply reconcileStatus_same_object|apply reconcileStatus_silent]. }
  intros o s' t' [Hs (new&Heq&Hnew)].
  assert (Hcl' : closable s' t').
  { apply (same_object_identity home) in Hs as [Hs Hf].
    eapply (closable_reads home effects serves); [exact Heq| |exact Hs|exact Hf|exact Hcl].
    eapply Forall_impl; [exact Hnew|apply lb_silent_reads]. }
  destruct o as [[]|w|]; [|apply Hcl'..]. unfold Close. wp_run.
  by eapply (conforms_patch home effects serves).
Qed.
Lemma lb_handlers_conform env cs s t :
  always (object_read home key (LB s)) t → same_place cs s t →
  patchBefore s = LB s → Forall reads t →
  wp env (with_close (reconcileStatus ;; Close)
    (if NotDeleted (LB s) then reconcileNormal cs else reconcileDelete cs))
    (λ _ _ t', conforms t') s t.
Proof.
  intros Hread Hplace Hb Ht.
  assert (Hcl : closable s t).
  { split_and!; [|  |left; by rewrite Hb].
    - rewrite <-(app_nil_r t). apply (conforms_reads home effects serves); [done|].
      apply conforms_nil.
    - eapply always_mono; [|exact Hread]. intros w (?&?&_). rewrite Hb. by split_and!. }
  apply wp_with_close. apply (wp_mono _ _ (λ _ s' t', closable s' t')).
  - destruct (NotDeleted (LB s)) eqn:Hdel.
    + apply lb_reconcileNormal_closable; [done|done|by rewrite Hb|]. intros Hfin.
      eapply always_mono; [|exact Hread]. intros w (_&_&Hk). apply Hk; [done|by rewrite <-Hb].
    + apply lb_reconcileDelete_closable; [done|done|by rewrite Hb|].
      eapply Forall_impl; [exact Ht|]. intros e. unfold Protocol.reads, Protocol.makes_nothing.
      by destruct (effects e).
  - intros res s'' t'' Hcl'. destruct res as [[]|w|]; [| |apply Hcl'];
      (eapply wp_mono; [by apply lb_close_conforms|]); by intros [].
Qed.
Lemma lb_Reconcile_conforms env : wp env (Reconcile key) (λ _ _ t', conforms t') tt [].
Proof.
  assert (Hr : ∀ t, Forall (ev_is (@is_silent)) t → Forall reads t).
  { intros t Ht. eapply Forall_impl; [exact Ht|apply lb_silent_reads]. }
  apply wp_lb_Reconcile.
  - intros o t Ht%Hr. rewrite <-(app_nil_r t). apply (conforms_reads home effects serves); [done|].
    apply conforms_nil.
  - intros cs s t Ht%Hr (ck&Hlb&_&Hhc) Hb.
    assert (Hread : always (object_read home key (LB s)) t).
    { by eapply (always_seen home effects serves key w0); [exact Hlb| | |
        apply object_read_others]. }
    apply lb_handlers_conform; [done| |done|done]. intros w Hw.
    destruct (run_served home serves key w0 _ _ _ Hhc Hw) as (w1&w2&Hg%Hsteady).
    destruct (Hread w Hw) as (Hk&_&_). cbn in Hg. unfold in_group in Hg. rewrite <-Hg.
    exact (f_equal (pair _) (f_equal nn_Name Hk)).
Qed.
End Refinement.

Section Contract.
Context {L : Libs} {LL : LibLaws L}.

(** C4: The load balancer controller follows the protocol of the finalizers, as long as the
    cluster keeps its resource group: every change that a run of [Reconcile] makes to the load
    balancers, stored or in the agent, is a step the worker for its key may take. It makes the
    agent's load balancer only while the stored object holds the finalizer, and it takes the
    finalizer away only when the agent has no load balancer of that name any more. So if the
    agent has no load balancer without a stored object that holds the finalizer before the
    run, it has none after it, nor at any point in between.
    The assumptions: every cluster the run reads names the resource group that belongs to the
    key ([steady_group]; without it a load balancer is lost, [moved_group_leaks]), and
    different keys have different places; the table [lb_effect_of] holds of the answers (a
    read gives the object asked for, not so old that a live one with the finalizer has lost
    it since; an accepted patch is applied to the finalizers; a delete that is confirmed has
    deleted; creating makes nothing elsewhere); and what others do between two calls is within
    [Protocol.step]: they may create objects, change them and see them removed, but do not
    strip the finalizer while it is in use, and make nothing in the agent at the key's place. *)
Theorem lb_controller_protocol (home : NamespacedName → lb_place)
    (serves : service AzureStackHCILoadBalancer agent_resource) (env : Env)
    (key : NamespacedName) (w0 : lb_world)
    (G : Guard AzureStackHCILoadBalancer agent_resource lb_place := lb_guard home) :
  Inj (=) (=) home → Answers home (lb_effect_of home) serves → steady_group home key serves →
  placed home w0 →
  wp env (LBController.Reconcile key) (λ _ _ t, conforms home serves key w0 t ∧
    ∀ later earlier w, t = later ++ earlier → run home serves key w0 earlier w →
      rtc (any_step home) w0 w ∧ (no_leak home w0 → no_leak home w)) tt [].
Proof.
  intros Hhome HW Hg Hp. eapply wp_mono; [by apply (lb_Reconcile_conforms home serves key w0)|].
  intros o s t Hc. split; [done|]. intros later earlier w -> Hw. apply each_earlier in Hc.
  pose proof (conforms_now _ _ _ _ _ Hc w Hw) as Hsteps. split; [done|].
  by apply (no_leak_steps home).
Qed.
End Contract.

(** ** A simulated run *)
Module LBSim.
Definition key : NamespacedName := mkNN "default" "cluster-load-balancer".
Definition cluster : AzureStackHCICluster :=
  ex_hcicluster <| hc_Spec ::= (λ s, s <| cs_ResourceGroup := "default" |>) |>.

Section Serve.
Context (home : NamespacedName → lb_place).
#[local] Hint Extern 0 (Guard AzureStackHCILoadBalancer _ _) =>
  exact (lb_guard home) : typeclass_instances.
(** An agent that knows what it was told to make, and plain success for the rest *)
Definition serve (X : Type) (c : Call X) (w : lb_world) : X * lb_world :=
  match c in Call X return X * lb_world with
  | KGet k key =>
      match k return (error + kobj k) * lb_world with
      | KLoadBalancer => (sim_read home key w, w)
      | KCluster => (inr cluster, w)
      | k => (ex_answer _ (KGet k key), w)
      end
  | KPatch k before obj owned =>
      match k return kobj k → kobj k → option error * lb_world with
      | KLoadBalancer => λ before obj, sim_patch (G:=lb_guard home) before obj w
      | k => λ _ _, (None, w)
      end before obj
  | MocGet _ k path =>
      (if decide ((k, path) ∈ held w) then inr (Some [ex_mocobj k])
       else inl (ErrExt 3 "not found"), w)
  | MocCreateOrUpdate _ k path _ => (None, mkWorld (objects w) ({[ (k, path) ]} ∪ held w))
  | MocDelete _ k path => (None, mkWorld (objects w) (held w ∖ {[ (k, path) ]}))
  | c => (ex_answer _ c, w)
  end.
Lemma sim_answers : Answers home (lb_effect_of (L:=Ref.ref_libs) home) (service_of serve).
Proof.
  intros X c r w w' Hs. unfold service_of in Hs.
  destruct c; try match goal with k : kind |- _ => destruct k end;
    try (by injection Hs as <- <-); try (by apply sim_patch_allowed).
  - injection Hs as <- <-. simpl.
    match goal with |- context [sim_read home ?k ?w] => destruct (sim_read home k w) eqn:Hr end;
      [done|]. split; [done|]. by apply sim_read_allowed.
  - injection Hs as <- <-. split; [done|]. intros k' Hin. cbn [held objects].
    apply union_subseteq. split; [|set_solver]. apply union_subseteq_r'.
    apply singleton_subseteq_l. rewrite elem_of_list_to_set. exact Hin.
  - injection Hs as <- <-. simpl. split; [done|]. set_solver.
Qed.
End Serve.

(** The group of the cluster is the namespace. *)
Definition home (k : NamespacedName) : lb_place := (nn_Namespace k, nn_Name k).
#[export] Instance home_inj : Inj (=) (=) home.
Proof. intros [] [] H. by simplify_eq/=. Qed.
#[export] Instance guard : Guard AzureStackHCILoadBalancer agent_resource lb_place :=
  lb_guard home.
Lemma sim_steady : steady_group home key (service_of (serve home)).
Proof.
  intros X c r w w' Hs. destruct c; try done. destruct k; try done. by injection Hs as <- _.
Qed.

(** Somebody makes the object, before the worker starts. *)
Definition w0 : lb_world := mkWorld ∅ ∅.
Definition w1 : lb_world := mkWorld {[ key := ex_lb ]} ∅.
Lemma lb_start : rtc (others home key) w0 w1.
Proof. apply rtc_once. exists None. split; [done|]. by apply step_create. Qed.

(** *** The group of the cluster has changed *)
(** The load balancer was made in the group [old-default], and is being deleted. *)
Definition old_home (k : NamespacedName) : lb_place := ("old-" +:+ nn_Namespace k, nn_Name k).
Definition old_guard : Guard AzureStackHCILoadBalancer agent_resource lb_place :=
  lb_guard old_home.
Definition moved : lb_world :=
  mkWorld
    {[ key := ex_lb <| lb_meta ::= (λ m,
         m <| metav1.Finalizers := [AzureStackHCILoadBalancerFinalizer] |>
           <| metav1.DeletionTimestamp := Some 1%Z |>) |> ]}
    {[ (MLoadBalancer, ["old-default"; "cluster-load-balancer"]) ]}.
End LBSim.
Import (hints) LBSim.

Lemma lb_controller_protocol_witness :
  let t := (LBController.Reconcile (L:=Ref.ref_libs) LBSim.key
              (sim_env (LBSim.serve LBSim.home) LBSim.w1) tt []).2 in
  let w := world_after (LBSim.serve LBSim.home) LBSim.w1 t in
  run LBSim.home (service_of (LBSim.serve LBSim.home)) LBSim.key LBSim.w0 t w ∧
  (MLoadBalancer, ["default"; "cluster-load-balancer"]) ∈ held w ∧ no_leak LBSim.home w.
Proof.
  cbv zeta.
  match goal with |- ?R ∧ _ => assert (Hrun : R) end.
  { apply run_after; [apply LBSim.lb_start|]. vm_compute. repeat split. }
  split; [exact Hrun|]. split; [refine (bool_decide_unpack _ _); vm_compute; exact I|].
  destruct (lb_controller_protocol (LL:=Ref.ref_laws) LBSim.home _
    (sim_env (LBSim.serve LBSim.home) LBSim.w1) LBSim.key LBSim.w0 LBSim.home_inj
    (LBSim.sim_answers _) LBSim.sim_steady (λ k o, ltac:(done))) as [_ Hp].
  destruct (Hp [] _ _ eq_refl Hrun) as [_ Hn].
  apply Hn. intros k x _ Hx. by apply not_elem_of_empty in Hx.
Defined.

