(* ===== verification/Client.v ===== *)
(** * A controller as a client of the others

    Each controller keeps the protocol of its own objects and is one of the others for the
    protocols of the other controllers: it creates, updates and deletes their objects and
    makes things in the agent. What it may do there is its profile. Every write carries the
    finalizers of the version it was made from; that, with the API server's refusal of updates
    to old versions, is why no controller ever takes the finalizer of another one away. *)
From stdpp Require Import prelude strings list gmap.
From S2P Require Import Prelude GoStd External Api Effects Util Naming Scope.
From S2P Require Import Telemetry Interfaces VirtualMachine Machine.
From S2P Require Import Protocol VMProtocol MachineProtocol.
Local Open Scope prog_scope.

(** The version an object was read at, empty for one that was never stored *)
Definition version_of {O} `{Object O} (o : O) : string :=
  metav1.ObjectResourceVersion (MetaOf o).

(** What the objects were at their versions *)
Record history := mkHistory {
  vm_at : NamespacedName → string → AzureStackHCIVirtualMachine;
  machine_at : NamespacedName → string → AzureStackHCIMachine;
  lb_at : NamespacedName → string → AzureStackHCILoadBalancer }.
Section Versions.
Context {O : Type} `{Object O} (at_version : NamespacedName → string → O).
(** The object is the one of its version; it has the finalizers of that version. *)
Definition as_stored (o : O) : Prop := o = at_version (object_key o) (version_of o).
Definition keeps_finalizers (o : O) : Prop :=
  GetFinalizers o = GetFinalizers (at_version (object_key o) (version_of o)).

(** What a write leaves of an object *)
Definition same_identity (o o' : O) : Prop :=
  object_key o' = object_key o ∧ version_of o' = version_of o ∧
  GetFinalizers o' = GetFinalizers o.
Lemma same_identity_keeps o o' : same_identity o o' → as_stored o → keeps_finalizers o'.
Proof. intros (Hk&Hv&Hf) Ho. unfold keeps_finalizers. by rewrite Hk, Hv, Hf, <-Ho. Qed.
Lemma CopyCorrelationID_identity {T} `{Object T} (source : T) (o : O) :
  (∀ m (x : O), MetaOf (SetMeta m x) = m) → same_identity o (CopyCorrelationID source o).
Proof.
  intros Hm. unfold CopyCorrelationID. case_decide; [done|].
  unfold same_identity, object_key, GetName, GetNamespace, version_of, GetFinalizers,
    SetAnnotations. by rewrite Hm.
Qed.
End Versions.
Lemma CopyCorrelationID_place {T} `{Object T} (source : T) (vm : AzureStackHCIVirtualMachine) :
  place_of (CopyCorrelationID source vm) = place_of vm.
Proof. unfold CopyCorrelationID. by case_decide. Qed.

(** What a controller does to the objects of the others: the kinds and keys of the objects it
    makes, the kind it patches, and what it makes in the agent *)
Record profile := mkProfile {
  makes_object : kind → NamespacedName → Prop;
  patches : kind;
  agent_kinds : moc_kind → bool }.

Section Client.
(** Where the agent has a virtual machine, the history of the objects, and which load
    balancers there are *)
Context (home : NamespacedName → vm_place) (past : history).
Context (balancer : NamespacedName → Prop).

(** What the answers to a worker say, whenever they come: objects have the keys asked for and
    are the ones of their version; a virtual machine object is at the place of its key; owners
    and clusters are in the namespace of the object; the worker's cluster is one of [ours]. *)
Definition placed_vm (o : AzureStackHCIVirtualMachine) : Prop :=
  place_of o = home (object_key o) ∧ as_stored (vm_at past) o.
Definition honest (ours : AzureStackHCICluster → Prop) (e : event) : Prop :=
  match e with
  | Ev c r =>
      match c in Call R return R → Prop with
      | KGet k asked =>
          match k return error + kobj k → Prop with
          | KMachine => λ r, match r with inr o => object_key o = asked | inl _ => True end
          | KVirtualMachine => λ r,
              match r with inr o => object_key o = asked ∧ placed_vm o | inl _ => True end
          | KLoadBalancer => λ r,
              match r with
              | inr o => object_key o = asked ∧ balancer asked ∧ as_stored (lb_at past) o
              | inl _ => True
              end
          | KCluster => λ r, match r with inr hc => ours hc | inl _ => True end
          | _ => λ _, True
          end
      | KList k _ _ =>
          match k return error + list (kobj k) → Prop with
          | KMachine => λ r,
              match r with inr os => Forall (as_stored (machine_at past)) os | inl _ => True end
          | KVirtualMachine => λ r,
              match r with inr os => Forall placed_vm os | inl _ => True end
          | _ => λ _, True
          end
      | GetOwnerMachine m => λ r,
          match r with
          | inr (Some x) => metav1.Namespace (clusterv1.m_meta x) = metav1.Namespace m
          | _ => True
          end
      | GetOwnerCluster m => λ r,
          match r with
          | inr (Some x) => metav1.Namespace (clusterv1.cl_meta x) = metav1.Namespace m
          | _ => True
          end
      | GetClusterFromMetadata m => λ r,
          match r with
          | inr x => metav1.Namespace (clusterv1.cl_meta x) = metav1.Namespace m
          | inl _ => True
          end
      | KCouBegin k obj =>
          match k return kobj k → cou_get k → Prop with
          | KVirtualMachine => λ obj r,
              match r with
              | CouFound o => object_key o = object_key obj ∧ as_stored (vm_at past) o
              | _ => True
              end
          | KLoadBalancer => λ obj r,
              match r with
              | CouFound o => object_key o = object_key obj ∧ as_stored (lb_at past) o
              | _ => True
              end
          | _ => λ _ _, True
          end obj
      | _ => λ _, True
      end r
  end.

(** ** The writes of a client *)
(** An object that is written stays where it is, and keeps the finalizers of its version. *)
Definition kept_object (k : kind) : kobj k → Prop :=
  match k return kobj k → Prop with
  | KVirtualMachine => λ o,
      place_of o = home (object_key o) ∧ keeps_finalizers (vm_at past) o
  | KMachine => keeps_finalizers (machine_at past)
  | KLoadBalancer => keeps_finalizers (lb_at past)
  | _ => λ _, False
  end.
(** One that is made is new to the client, or it is such an update. *)
Definition made_object (p : profile) (k : kind) : kobj k → Prop :=
  match k return kobj k → Prop with
  | KVirtualMachine => λ o,
      makes_object p k (object_key o) ∧ place_of o = home (object_key o) ∧
      (version_of o = "" ∨ keeps_finalizers (vm_at past) o)
  | KLoadBalancer => λ o,
      makes_object p k (object_key o) ∧ (version_of o = "" ∨ keeps_finalizers (lb_at past) o)
  | _ => λ _, False
  end.
Definition client_write (p : profile) (e : event) : Prop :=
  match e with
  | Ev c _ =>
      match c with
      | KCouEnd k obj => made_object p k obj
      | KUpdate k obj => kept_object k obj
      | KDelete k _ =>
          match k with KVirtualMachine | KMachine | KLoadBalancer => True | _ => False end
      | KPatch k _ _ _ => k = patches p
      | MocCreateOrUpdate _ k _ _ => agent_kinds p k = true
      | MocDelete _ _ _ => True
      | c => is_silent c = true
      end
  end.
(** A client that has been answered honestly so far sends such a write next. *)
Definition client_of (p : profile) (ours : AzureStackHCICluster → Prop) : trace → Prop :=
  each (λ e earlier, Forall (honest ours) earlier → client_write p e).

Context (p : profile) (ours : AzureStackHCICluster → Prop).
Local Notation client := (client_of p ours).
Lemma client_nil : client [].
Proof. apply each_nil. Qed.
Lemma client_cons e t :
  client t → (Forall (honest ours) t → client_write p e) → client (e :: t).
Proof. intros Ht He. by apply each_cons. Qed.
Lemma client_writes new t : Forall (client_write p) new → client t → client (new ++ t).
Proof.
  intros Hn Ht. apply each_app; [done|]. eapply Forall_impl; [exact Hn|]. by intros e He _ _.
Qed.
Lemma silent_client_write e : ev_is (@is_silent) e → client_write p e.
Proof. destruct e as [R c r]. by destruct c. Qed.
Lemma client_silent new t : Forall (ev_is (@is_silent)) new → client t → client (new ++ t).
Proof.
  intros Hn. apply client_writes. eapply Forall_impl; [exact Hn|apply silent_client_write].
Qed.
Lemma client_telemetry new t : Forall (ev_is (@is_telemetry)) new → client t → client (new ++ t).
Proof.
  intros Hn. apply client_silent. eapply Forall_impl; [exact Hn|]. intros [R c r]. by destruct c.
Qed.
Lemma client_extends {S} (s s' : S) t t' :
  extends (client_write p) (s, t) (s', t') → client t → client t'.
Proof. intros (new&Heq&Hn). simpl in Heq. subst. by apply client_writes. Qed.
Lemma client_extends_silent {S} (s s' : S) t t' :
  extends (ev_is (@is_silent)) (s, t) (s', t') → client t → client t'.
Proof. intros Hext. eapply client_extends, extends_mono, Hext. apply silent_client_write. Qed.
(** A part that writes nothing that depends on the answers *)
Lemma wp_client_frame {S A} env (m : prog S A) s t :
  frame (extends (client_write p)) m → client t → wp env m (λ _ _ t', client t') s t.
Proof.
  intros Hm Ht. eapply wp_by_frame; [exact Hm|]. intros o s' t' Hext. by eapply client_extends.
Qed.
End Client.
Arguments client_nil {home past balancer p ours}.
Arguments client_cons {home past balancer p ours} e t.
Arguments client_writes {home past balancer p ours} new t.
Arguments client_silent {home past balancer p ours} new t.
Arguments client_telemetry {home past balancer p ours} new t.
Arguments client_extends {home past balancer p ours S} s s' t t'.
Arguments client_extends_silent {home past balancer p ours S} s s' t t'.
Arguments wp_client_frame {home past balancer p ours S A} env m s t.
