(* ===== verification/MachineClient.v ===== *)
(** * What the machine controller does to virtual machine objects

    For the virtual machine controller the machine controller is one of the others: a client
    that creates, updates and deletes the objects it works on. Every write it sends is for the
    key of its machine, leaves the object where it is, and carries the finalizers of the
    version it was made from. *)
From stdpp Require Import prelude strings list gmap.
From S2P Require Import Prelude GoStd External Api Effects Util Naming Scope.
From S2P Require Import Telemetry Interfaces VirtualMachine Machine Protocol VMProtocol.
From S2P Require Import MachineProtocol Client.
Local Open Scope prog_scope.

Section Client.
Context {L : Libs}.
Context (home : NamespacedName → vm_place) (past : history) (balancer : NamespacedName → Prop).
Context (key : NamespacedName).
Import MachineScope MachineController.
Implicit Type s : MachineScope.

(** The resource group of the cluster is the one the machine is in. It makes the virtual
    machine object of its name. *)
Definition machine_cluster (hc : AzureStackHCICluster) : Prop :=
  (cs_ResourceGroup (hc_Spec hc), nn_Name key) = home key.
Definition machine_profile : profile :=
  mkProfile (λ k o, k = KVirtualMachine ∧ o = key) KMachine (λ _, false).
Local Notation honest := (honest home past balancer machine_cluster).
Local Notation client := (client_of home past balancer machine_profile machine_cluster).

(** The scope is of the machine of [key]. *)
Local Notation group cs := (cs_ResourceGroup (hc_Spec (ClusterScope.HCICluster cs))).
Definition in_place (cs : ClusterScope) s (t : trace) : Prop :=
  Forall honest t →
  vm_key cs s = key ∧ home key = (group cs, nn_Name key).
Lemma in_place_later cs s t t' new : t' = new ++ t → in_place cs s t → in_place cs s t'.
Proof. intros -> Hin [_ Ht]%Forall_app. auto. Qed.
Lemma read_in_place cs s t : read_for key cs s t → in_place cs s t.
Proof.
  intros (m&ck&Ho&Hm&Hc&Hhc) Ht. rewrite Forall_forall in Ht.
  apply Ht in Ho, Hm, Hc, Hhc. simpl in *. split; [|by rewrite <-Hhc].
  rewrite <-Ho. unfold vm_key, ClusterScope.Namespace, object_key. by rewrite Hc, Hm.
Qed.

(** ** The virtual machine is made *)
Lemma mutateFn_identity env cs vm s t :
  wp env (mutateFn cs vm) (λ o _ _,
    match o with
    | Ok (e, vm') => same_identity vm vm' ∧
        (e = None → vs_ResourceGroup (hv_Spec vm') = group cs)
    | _ => True
    end) s t.
Proof.
  unfold mutateFn, GetBootstrapData, getVMImage. wp_run; try done; (split; [|intros ?]);
    try done; match goal with |- context [CopyCorrelationID ?m ?v] =>
      first [ exact (CopyCorrelationID_identity m v (λ _ _, eq_refl))
            | exact (f_equal fst (CopyCorrelationID_place m v)) ] end.
Qed.
Lemma mutateFn_silent cs vm : frame (extends (ev_is (@is_silent))) (mutateFn cs vm).
Proof. unfold mutateFn, GetBootstrapData, getVMImage. frame_auto. Qed.
Lemma reconcileVirtualMachineNormal_client env cs s t :
  client t → in_place cs s t →
  wp env (reconcileVirtualMachineNormal cs) (λ _ _ t', client t') s t.
Proof.
  intros Ht Hin. unfold reconcileVirtualMachineNormal. do 3 wp_step.
  assert (Hafter : ∀ op err vm s t, client t →
            wp env (after_CreateOrUpdate cs op err vm) (λ _ _ t', client t') s t).
  { intros op err vm s1 t1 Ht1. apply wp_after_CreateOrUpdate. intros r new Hnew _.
    by apply client_silent. }
  apply wp_CreateOrUpdate;
    [intros e; by apply Hafter, (client_silent [_]); [repeat constructor|]|].
  intros found cur Hcur. set (obj := mkVirtualMachine _ _ _ _) in *.
  match goal with |- wp _ _ _ _ ?tr => set (t1 := tr) end.
  assert (Ht1 : client t1) by (by apply (client_silent [_]); [repeat constructor|]).
  assert (Hin1 : in_place cs s t1) by (by eapply (in_place_later _ _ _ _ [_])).
  eapply wp_frame; [apply mutateFn_silent|]. eapply wp_mono; [apply mutateFn_identity|].
  intros [[[e|] vm']|w|] s' t' Hvm (new&Heq&Hnew); simpl in Heq; subst t';
    [by apply Hafter, client_silent| |by apply client_silent..].
  intros [[op err] vm2]. apply Hafter, client_cons; [by apply client_silent|].
  intros Hh. destruct Hvm as [(Hk&Hv&Hf) Hg]. specialize (Hg eq_refl).
  pose proof (in_place_later _ _ _ _ _ eq_refl Hin1 Hh) as [Hkey Hhome].
  assert (Hcur' : object_key (O:=AzureStackHCIVirtualMachine) cur = key ∧
                  (version_of (O:=AzureStackHCIVirtualMachine) cur = "" ∨
                   keeps_finalizers (vm_at past) cur)).
  { destruct Hcur as [[-> ->]| ->]; [by split; [|left]|].
    apply Forall_app in Hh as [_ [[Ho Ha] _]%Forall_cons].
    split; [exact (eq_trans Ho Hkey)|]. right. exact (f_equal GetFinalizers Ha). }
  destruct Hcur' as [Hkc Hvc]. simpl. unfold keeps_finalizers in *.
  rewrite Hk, Hv, Hf. split_and!; [done|exact Hkc| |done]. rewrite Hkc, Hhome.
  exact (f_equal2 pair Hg (f_equal nn_Name (eq_trans Hk Hkc))).
Qed.

Lemma report_vm_silent vm : frame (extends (ev_is (@is_silent))) (report_vm vm).
Proof.
  unfold report_vm, merge_conditions, report_state, record, set_condition, SetCondition.
  frame_auto.
Qed.
Lemma machine_reconcileNormal_client env cs s t :
  client t → in_place cs s t → wp env (reconcileNormal cs) (λ _ _ t', client t') s t.
Proof.
  intros Ht Hin. unfold reconcileNormal. wp_run_to (reconcileVirtualMachineNormal cs);
    try (by apply client_cons).
  wp_step. eapply wp_mono; [apply reconcileVirtualMachineNormal_client|].
  - by apply client_cons.
  - by eapply (in_place_later _ _ _ _ [_]).
  - intros o s' t' Ht'. destruct o as [[err|vm]|w|]; [wp_step|..]; try done.
    eapply wp_by_frame; [apply report_vm_silent|]. intros o s'' t'' Hext.
    by eapply client_extends_silent.
Qed.

(** ** It is deleted *)
Lemma machine_reconcileDelete_client env cs s t :
  client t → in_place cs s t → wp env (reconcileDelete cs) (λ _ _ t', client t') s t.
Proof.
  intros Ht Hin. unfold reconcileDelete, reconcileVirtualMachineDelete.
  do 6 wp_step; [by wp_run; apply client_cons|].
  set (vm' := CopyCorrelationID (HCIMachine (id s)) k).
  set (t1 := Ev (KGet KVirtualMachine _) (inr k) :: t).
  assert (Ht1 : client t1) by by apply client_cons.
  assert (Hup : ∀ r, client (Ev (KUpdate KVirtualMachine vm') r :: t1)).
  { intros ur. apply client_cons; [done|]. intros [(_&Hp&Ha) _]%Forall_cons.
    assert (Hid : same_identity (O:=AzureStackHCIVirtualMachine) k vm')
      by by apply CopyCorrelationID_identity.
    split; [|exact (same_identity_keeps _ _ _ Hid Ha)].
    exact (eq_trans (CopyCorrelationID_place _ k) (eq_trans Hp (f_equal home (eq_sym (proj1 Hid))))). }
  wp_run; try done; apply client_telemetry; try done; by apply client_cons.
Qed.

(** ** The whole run *)
Lemma machine_Reconcile_client env : wp env (Reconcile key) (λ _ _ t', client t') tt [].
Proof.
  assert (Hs : ∀ t, Forall (ev_is (@is_silent)) t → client t).
  { intros t Ht. rewrite <-(app_nil_r t). apply client_silent; [done|apply each_nil]. }
  apply wp_machine_Reconcile; [by auto|]. intros cs s t Ht Hread%read_in_place _.
  apply wp_with_close. apply (wp_mono _ _ (λ _ _ t', client t')).
  - destruct (NotDeleted _);
      [apply machine_reconcileNormal_client|apply machine_reconcileDelete_client]; auto.
  - intros res s' t' Ht'. unfold Close, PatchObject.
    destruct res as [[]|w|]; wp_run; first [done | by apply client_cons].
Qed.
End Client.
