(* ===== verification/LBClient.v ===== *)
(** * What the load balancer controller does to virtual machine objects

    For the virtual machine controller, and for the machines that have objects of their own,
    the load balancer controller is one of the others. It makes objects of its own names only,
    one per replica, and what it updates before it deletes it is as the API server listed
    it. *)
From stdpp Require Import prelude strings list gmap.
From S2P Require Import Prelude GoStd External Api Effects Util Naming Scope.
From S2P Require Import Telemetry Interfaces Services NetServices VirtualMachine Machine.
From S2P Require Import LoadBalancer LBScaling LBOutcome Protocol VMProtocol MachineProtocol.
From S2P Require Import LBProtocol Client.
Local Open Scope prog_scope.
Ltac wp_hook ::= first [wp_telemetry | wp_deref_first | wp_set_condition | wp_lb].

Section Client.
Context {L : Libs} {LL : LibLaws L}.
Context (home : NamespacedName → vm_place) (lb_home : NamespacedName → lb_place).
Context (past : history) (balancer : NamespacedName → Prop).
Context (key : NamespacedName).
Import LoadBalancerScope LBController.
Implicit Type s : LoadBalancerScope.

(** The replicas are named after the load balancer; the resource group of the cluster is the
    one they, and the load balancer, are in. *)
Definition replica_of (key k : NamespacedName) : Prop :=
  ∃ suffix, k = mkNN (nn_Namespace key) (nn_Name key +:+ "-" +:+ suffix).
Definition lb_cluster (hc : AzureStackHCICluster) : Prop :=
  (cs_ResourceGroup (hc_Spec hc), nn_Name key) = lb_home key ∧
  ∀ k, replica_of key k → (cs_ResourceGroup (hc_Spec hc), nn_Name k) = home k.
Definition lb_profile : profile :=
  mkProfile (λ k o, k = KVirtualMachine ∧ balancer key ∧ replica_of key o) KLoadBalancer
            (λ k, match k with MLoadBalancer => true | _ => false end).
Local Notation honest := (honest home past balancer lb_cluster).
Local Notation client := (client_of home past balancer lb_profile lb_cluster).
Local Notation client_write := (client_write home past lb_profile).

(** The scope is of the load balancer of [key]. *)
Definition lb_in_place (cs : ClusterScope) s (t : trace) : Prop :=
  Forall honest t →
  ClusterScope.Namespace cs = nn_Namespace key ∧ Name s = nn_Name key ∧ balancer key ∧
  lb_cluster (ClusterScope.HCICluster cs).
(** What every part of a run preserves *)
Definition good (cs : ClusterScope) s (t : trace) : Prop := client t ∧ lb_in_place cs s t.
Lemma lb_in_place_later cs s s' t t' new :
  same_object s s' → t' = new ++ t → lb_in_place cs s t → lb_in_place cs s' t'.
Proof.
  intros [_ Hm] -> Hin [_ Ht]%Forall_app. unfold Name, GetName in *. simpl in *.
  rewrite Hm. by apply Hin.
Qed.
Lemma read_lb_in_place cs s t : lb_read_for key cs s t → lb_in_place cs s t.
Proof.
  intros (ck&Ho&Hc&Hhc) Ht. rewrite Forall_forall in Ht.
  apply Ht in Ho, Hc, Hhc. simpl in *. destruct Ho as (Hk&Hb&_). split_and!; try done.
  - unfold ClusterScope.Namespace. rewrite Hc. exact (f_equal nn_Namespace Hk).
  - exact (f_equal nn_Name Hk).
Qed.

(** A part whose writes do not depend on the answers *)
Lemma preserves_good {A} env cs (m : prog LoadBalancerScope A) :
  frame (on_state same_object) m → frame (extends client_write) m → preserves env (good cs) m.
Proof.
  intros Hs Hm. apply (preserves_frame env (good cs) (λ x y,
    on_state same_object x y ∧ extends client_write x y)); [by apply frame_and|].
  intros s t s' t' [Hso (new&Heq&Hnew)] [Hc Hin]. simpl in Heq. split.
  - subst. by apply client_writes.
  - by eapply lb_in_place_later.
Qed.
Lemma preserves_good_silent {A} env cs (m : prog LoadBalancerScope A) :
  frame (on_state same_object) m → frame (extends (ev_is (@is_silent))) m →
  preserves env (good cs) m.
Proof.
  intros Hs Hm. apply preserves_good; [done|]. eapply frame_extends_mono, Hm.
  apply silent_client_write.
Qed.

(** ** A replica is made *)
Lemma lb_mutateFn_identity env cs vm s t :
  wp env (mutateFn cs vm) (λ o s' t', s' = s ∧ t' = t ∧
    match o with
    | Ok (e, vm') => same_identity vm vm' ∧
        (e = None → vs_ResourceGroup (hv_Spec vm') =
                      cs_ResourceGroup (hc_Spec (ClusterScope.HCICluster cs)))
    | _ => True
    end) s t.
Proof.
  unfold mutateFn, getVMImage. wp_run; (split; [done|]); (split; [done|]); try done;
    (split; [|intros ?]); try done; match goal with |- context [CopyCorrelationID ?m ?v] =>
      first [ exact (CopyCorrelationID_identity m v (λ _ _, eq_refl))
            | exact (f_equal fst (CopyCorrelationID_place m v)) ] end.
Qed.
Lemma replica_name env name s t :
  wp env (GenerateAzureStackHCILoadBalancerMachineName name) (λ o s' t',
    s' = s ∧ extends (ev_is (@is_silent)) (s, t) (s', t') ∧
    match o with
    | Ok (n, None) => ∃ suffix, n = name +:+ "-" +:+ suffix
    | _ => True
    end) s t.
Proof.
  unfold GenerateAzureStackHCILoadBalancerMachineName. wp_step. eapply wp_by_frame.
  { apply (frame_and keeps (extends (ev_is (@is_agent_read))));
      [apply keeps_random|apply RandomAlphaNumericString_frame]. }
  intros o s' t' [Hs Hext]. assert (s' = s) as -> by by symmetry.
  assert (Hsil : extends (ev_is (@is_silent)) (s, t) (s, t')).
  { eapply extends_mono, Hext. intros [R c r]. by destruct c. }
  destruct o as [[err|suffix]|w|]; wp_run; split_and!; try done. by eexists.
Qed.
Lemma good_extends cs s t s' t' :
  extends (ev_is (@is_silent)) (s, t) (s', t') → same_object s s' → good cs s t → good cs s' t'.
Proof.
  intros Hext Hs [Hc Hin]. split; [by eapply client_extends_silent|].
  destruct Hext as (new&Heq&_). by eapply lb_in_place_later.
Qed.
Lemma good_call {R} cs s t (c : Call R) r :
  is_silent c = true → good cs s t → good cs s (Ev c r :: t).
Proof.
  intros Hc. apply good_extends; [|done]. exists [Ev c r]. split; [done|by repeat constructor].
Qed.
Lemma replica_made_good env cs suffix s t :
  let vm := mkVirtualMachine metav1.empty_type
    (metav1.named_meta (ClusterScope.Namespace cs) (Name s +:+ "-" +:+ suffix))
    zero_VirtualMachineSpec zero_VirtualMachineStatus in
  good cs s t →
  wp env (CreateOrUpdate KVirtualMachine vm (mutateFn cs)) (λ _ s' t', good cs s' t') s t.
Proof.
  intros vm Hg. apply wp_CreateOrUpdate.
  { intros e. by apply good_call. }
  intros found cur Hcur.
  match goal with |- wp _ _ _ _ ?tr => assert (Hg1 : good cs s tr) by by apply good_call end.
  eapply wp_mono; [apply lb_mutateFn_identity|].
  intros [[[e|] vm']|w|] s' t' (->&->&Hvm); [exact Hg1| |exact Hg1..].
  intros r. destruct Hg1 as [Hc1 Hin1]. split; [|by eapply (lb_in_place_later _ _ _ _ _ [_])].
  apply client_cons; [done|]. intros Hh. destruct Hvm as [(Hk&Hv&Hf) Hgr]. specialize (Hgr eq_refl).
  destruct (Hin1 Hh) as (Hns&Hname&Hb&_&Hhome).
  assert (Hrep : replica_of key (object_key vm)).
  { exists suffix. unfold vm, object_key, GetName, GetNamespace. simpl. by rewrite Hns, Hname. }
  assert (Hcur' : object_key (O:=AzureStackHCIVirtualMachine) cur = object_key vm ∧
    (version_of (O:=AzureStackHCIVirtualMachine) cur = "" ∨ keeps_finalizers (vm_at past) cur)).
  { destruct Hcur as [[-> ->]| ->]; [by split; [|left]|].
    apply Forall_cons in Hh as [[Ho Ha] _]. split; [exact Ho|]. right. exact (f_equal GetFinalizers Ha). }
  destruct Hcur' as [Hkc Hvc]. simpl. unfold keeps_finalizers in *.
  assert (Hkey : object_key (O:=AzureStackHCIVirtualMachine) vm' = object_key vm) by by etrans.
  rewrite Hv, Hf, Hkey. rewrite Hkc in Hvc. split_and!; [done..| |done].
  rewrite <-(Hhome _ Hrep). exact (f_equal2 pair Hgr (f_equal nn_Name Hkey)).
Qed.
Lemma set_condition_silent c : frame (extends (ev_is (@is_silent))) (set_condition c).
Proof. unfold set_condition, SetCondition. frame_auto. Qed.
Lemma record_silent ty r f args : frame (extends (ev_is (@is_silent))) (record ty r f args).
Proof. unfold record. frame_auto. Qed.
Lemma service_status_silent cs :
  frame (extends (ev_is (@is_silent))) (reconcileLoadBalancerServiceStatus cs).
Proof.
  unfold reconcileLoadBalancerServiceStatus, frontend_address.
  cbn [gsvc_Get loadbalancers.NewService]. frame_auto.
Qed.
Hint Extern 5 (frame (on_state same_object) _) =>
  apply frame_of_keeps; [apply _|solve [eauto 2 with frames nocore]] : frames.
Hint Extern 6 (frame (on_state same_object) _) =>
  apply frame_of_ready; solve [eauto 2 using LBOutcome.set_condition_ready, record_ready,
    service_status_ready, service_ready with nocore] : frames.
Hint Resolve set_condition_silent record_silent service_status_silent : frames.
(** A part that only reports *)
Ltac good_silent := apply preserves_good_silent; frame_auto.
Lemma createOrUpdate_good env cs : preserves env (good cs) (createOrUpdateVirtualMachine cs).
Proof.
  intros s t Hg. unfold createOrUpdateVirtualMachine. do 3 wp_step.
  eapply wp_mono; [apply replica_name|]. intros o s1 t1 (->&Hext&Hname).
  assert (Hg1 : good cs s t1) by by eapply good_extends.
  destruct o as [[name [err|]]|w|]; [by wp_step| |done..]. destruct Hname as [suffix ->].
  wp_step. eapply wp_mono; [by apply replica_made_good|].
  intros [[[op err] vm]|w|] s2 t2 Hg2; [|done..].
  match goal with |- wp _ ?m _ _ _ => assert (Hm : preserves env (good cs) m) by good_silent end.
  by apply Hm.
Qed.
Lemma scaleUp_good env cs : preserves env (good cs) (scaleUpVirtualMachines cs).
Proof.
  unfold scaleUpVirtualMachines. repeat preserve_step; try apply createOrUpdate_good; good_silent.
Qed.

(** ** A replica is deleted *)
(** The API server has listed it. *)
Definition good_with (vms : list AzureStackHCIVirtualMachine) cs s t : Prop :=
  good cs s t ∧ (Forall honest t → Forall (placed_vm home past) vms).
Lemma preserves_good_with {A} env vms cs (m : prog LoadBalancerScope A) :
  preserves env (good cs) m → frame (extends (λ _, True)) m → preserves env (good_with vms cs) m.
Proof.
  intros Hm Hf s t [Hg Hp]. eapply wp_frame; [exact Hf|].
  eapply wp_mono; [by apply Hm|]. intros o s' t' Hg' (new&Heq&_). simpl in Heq. subst t'.
  split; [done|]. intros [_ Ht]%Forall_app. auto.
Qed.
Lemma good_with_cons vms cs s t e :
  good_with vms cs s t → (Forall honest t → client_write e) → good_with vms cs s (e :: t).
Proof.
  intros [[Hc Hin] Hp] He. split; [split|].
  - by apply client_cons.
  - by eapply (lb_in_place_later _ _ _ _ _ [_]).
  - intros [_ Ht]%Forall_cons. auto.
Qed.
Lemma good_with_telemetry vms cs s t new :
  Forall (ev_is (@is_telemetry)) new → good_with vms cs s t → good_with vms cs s (new ++ t).
Proof.
  intros Hn [[Hc Hin] Hp]. split; [split|].
  - by apply client_telemetry.
  - by eapply lb_in_place_later.
  - intros [_ Ht]%Forall_app. auto.
Qed.
Lemma deleteVM_good env cs vms vm :
  vm ∈ vms → preserves env (good_with vms cs) (deleteVirtualMachine cs vm).
Proof.
  intros Hvm s t Hg. unfold deleteVirtualMachine. wp_step; [by wp_step|].
  do 4 wp_step. set (vm' := CopyCorrelationID (LB s) vm).
  match goal with |- wp _ _ _ _ ?tr => assert (Hg1 : good_with vms cs s tr) end.
  { apply good_with_cons; [done|]. intros Ht. destruct Hg as [_ Hp]. specialize (Hp Ht).
    rewrite Forall_forall in Hp. destruct (Hp _ Hvm) as [Hpl Has].
    assert (Hid : same_identity vm vm') by by apply CopyCorrelationID_identity.
    split; [|exact (same_identity_keeps _ _ _ Hid Has)].
    exact (eq_trans (CopyCorrelationID_place _ vm) (eq_trans Hpl (f_equal home (eq_sym (proj1 Hid))))). }
  wp_run; try exact Hg1; (apply good_with_telemetry; [done|]); by apply good_with_cons.
Qed.
Lemma wp_list_replicas env cs Q s t :
  good cs s t → (∀ err t', good cs s t' → Q (Ok (inl err)) s t') →
  (∀ vms t', good_with vms cs s t' → Q (Ok (inr vms)) s t') →
  wp env (getVirtualMachinesForLoadBalancer cs) Q s t.
Proof.
  intros Hg Herr HQ. unfold getVirtualMachinesForLoadBalancer. do 4 wp_step.
  destruct r as [err|items]; wp_step; [by apply Herr, good_call|]. apply HQ.
  split; [by apply good_call|]. intros [Hl _]%Forall_cons.
  apply Forall_forall. intros vm [_ Hvm]%list_elem_of_filter. by eapply Forall_forall in Hl.
Qed.
Lemma reconcileDeleteVMs_good env cs :
  preserves env (good cs) (reconcileDeleteVirtualMachines cs).
Proof.
  intros s t Hg. unfold reconcileDeleteVirtualMachines. wp_step.
  apply wp_list_replicas; [done|intros err t' Hg'; by wp_step|]. intros vms t' Hg'.
  eapply wp_mono; [apply (preserves_for_each env (good_with vms cs)); [|exact Hg']|].
  - intros vm Hvm. by apply deleteVM_good.
  - by intros o s1 t1 [? _].
Qed.

(** ** The replicas are scaled *)
Lemma selected_in s vms vm : selectVirtualMachineForScaleDown s vms = inr vm → vm ∈ vms.
Proof.
  unfold selectVirtualMachineForScaleDown.
  pose proof (Sort_perm ByCreationTimestamp_Less vms) as Hp.
  destruct (Sort _ vms) as [|first rest]; [done|].
  destruct (List.find _ _) eqn:Hf; intros [= <-]; rewrite <-Hp; [|by left].
  apply find_some in Hf as [Hf _]. by apply list_elem_of_In.
Qed.
Hint Resolve any_scaleUp any_service_status any_condition any_record : frames.
Ltac good_with_silent := apply preserves_good_with; [good_silent|frame_auto].
Lemma scaleDown_good env cs vms :
  preserves env (good_with vms cs) (scaleDownVirtualMachines cs vms).
Proof.
  unfold scaleDownVirtualMachines.
  apply preserves_bind; [apply preserves_gets|]. intros lbs.
  apply preserves_bind; [good_with_silent|]. intros _.
  destruct (selectVirtualMachineForScaleDown lbs vms) as [err|vm] eqn:Hvm;
    [apply preserves_ret|].
  apply preserves_bind; [by eapply deleteVM_good, selected_in|]. intros err.
  unfold RemoveReplica, on_status. good_with_silent.
Qed.
Lemma scale_replicas_good env cs vms : preserves env (good_with vms cs) (scale_replicas cs vms).
Proof.
  unfold scale_replicas, scale_up_to_max, replicas_condition.
  repeat preserve_step; try apply scaleDown_good;
    try (apply preserves_good_with; [apply scaleUp_good|frame_auto]); try good_with_silent.
Qed.
Lemma reconcileVirtualMachines_good env cs : preserves env (good cs) (reconcileVirtualMachines cs).
Proof.
  intros s t Hg. unfold reconcileVirtualMachines. wp_step.
  apply wp_list_replicas; [done|intros err t' Hg'; by wp_step|]. intros vms t' Hg'.
  eapply (wp_mono _ _ (λ _ s' t', good_with vms cs s' t')); [|by intros o s1 t1 [? _]].
  match goal with |- wp _ ?m _ _ _ => assert (Hm : preserves env (good_with vms cs) m);
    [|by apply Hm] end.
  unfold replicas_condition, updateReplicaStatus.
  repeat preserve_step; try apply scale_replicas_good; try good_with_silent.
Qed.

(** ** The handlers *)
Lemma service_writes cs : frame (extends client_write) (reconcileLoadBalancerService cs).
Proof.
  unfold reconcileLoadBalancerService. cbn [gsvc_Reconcile loadbalancers.NewService].
  unfold loadbalancers.Reconcile, loadbalancers.Get. frame_auto.
Qed.
Lemma delete_service_good env cs : preserves env (good cs) (reconcileDeleteLoadBalancerService cs).
Proof.
  unfold reconcileDeleteLoadBalancerService. cbn [gsvc_Delete loadbalancers.NewService].
  apply preserves_good; frame_auto.
Qed.
(** A change of the finalizers leaves the scope where it is. *)
Lemma preserves_good_modify env cs f :
  (∀ s, Name (f s) = Name s) → preserves env (good cs) (modify f).
Proof.
  intros Hf s t [Hc Hin]. split; [done|]. intros Ht. cbn. rewrite Hf. by apply Hin.
Qed.
Ltac good_part :=
  first [ apply reconcileVirtualMachines_good | apply reconcileDeleteVMs_good
        | apply delete_service_good | solve [good_silent]
        | solve [apply preserves_good; [frame_auto|first [apply service_writes|frame_auto]]]
        | by apply preserves_good_modify ].
Lemma lb_reconcileNormal_good env cs : preserves env (good cs) (reconcileNormal cs).
Proof.
  unfold reconcileNormal, report_address, report_ready, infrastructure_condition, PatchObject.
  repeat first [good_part | preserve_step].
Qed.
Lemma lb_reconcileDelete_good env cs : preserves env (good cs) (reconcileDelete cs).
Proof.
  unfold reconcileDelete, infrastructure_condition. repeat first [good_part | preserve_step].
Qed.
Lemma lb_close_good env cs : preserves env (good cs) (reconcileStatus ;; Close).
Proof.
  unfold reconcileStatus, infrastructure_condition, Close.
  repeat first [good_part | preserve_step].
Qed.

(** ** The whole run *)
Lemma lb_Reconcile_client env : wp env (Reconcile key) (λ _ _ t', client t') tt [].
Proof.
  assert (Hs : ∀ t, Forall (ev_is (@is_silent)) t → client t).
  { intros t Ht. rewrite <-(app_nil_r t). apply client_silent; [done|apply client_nil]. }
  apply wp_lb_Reconcile; [by auto|]. intros cs s t Ht Hread%read_lb_in_place _.
  assert (Hg : good cs s t) by (split; auto).
  apply wp_with_close. apply (wp_mono _ _ (λ _ s' t', good cs s' t')).
  - destruct (NotDeleted _); [by apply lb_reconcileNormal_good|by apply lb_reconcileDelete_good].
  - intros res s' t' Hg'. destruct res as [[res e]|w|]; [| |apply Hg'];
      (eapply wp_mono; [by apply (lb_close_good env cs)|]); intros [] s2 t2 [? _]; done.
Qed.
End Client.
