(* ===== verification/ClusterClient.v ===== *)
(** * What the cluster controller does to load balancers and machines

    For the load balancer controller and the machine controller the cluster controller is one
    of the others. It makes and updates the load balancer resource of its cluster, and deletes
    that and the machines nobody owns, after an update of what it has read. In the agent it
    makes networks, groups and key vaults only. *)
From stdpp Require Import prelude strings list gmap.
From S2P Require Import Prelude GoStd External Api Effects Util Naming Scope.
From S2P Require Import Telemetry Interfaces Services Cluster.
From S2P Require Import Protocol VMProtocol MachineProtocol Client.
Local Open Scope prog_scope.
Ltac wp_hook ::= first [wp_telemetry | wp_deref_first | wp_set_condition | wp_cluster].

Section Client.
Context {L : Libs} {LL : LibLaws L}.
Context (home : NamespacedName → vm_place) (past : history) (balancer : NamespacedName → Prop).
Import ClusterScope ClusterReconciler ClusterController.
Implicit Type s : ClusterScope.

Definition any_cluster (hc : AzureStackHCICluster) : Prop := True.
Definition cluster_profile : profile :=
  mkProfile (λ k _, k = KLoadBalancer) KCluster
            (λ k, match k with MVirtualNetwork | MGroup | MKeyVault => true | _ => false end).
Local Notation honest := (honest home past balancer any_cluster).
Local Notation client := (client_of home past balancer cluster_profile any_cluster).
Local Notation client_write := (client_write home past cluster_profile).
(** What every part of a run preserves, whatever the scope *)
Definition well_behaved s (t : trace) : Prop := client t.
Lemma preserves_client {A} env (m : prog ClusterScope A) :
  frame (extends client_write) m → preserves env well_behaved m.
Proof. intros Hm s t Ht. by apply wp_client_frame. Qed.

(** ** The services of the cluster *)
Lemma groups_writes i : frame (extends client_write) (groups.Reconcile (S:=ClusterScope) i).
Proof. unfold groups.Reconcile, groups.Get. frame_auto. Qed.
Lemma keyvaults_writes i : frame (extends client_write) (keyvaults.Reconcile (S:=ClusterScope) i).
Proof. unfold keyvaults.Reconcile, keyvaults.Get. frame_auto. Qed.
Lemma virtualnetworks_writes i :
  frame (extends client_write) (virtualnetworks.Reconcile (S:=ClusterScope) i).
Proof. unfold virtualnetworks.Reconcile, virtualnetworks.Get. frame_auto. Qed.
Hint Resolve groups_writes keyvaults_writes virtualnetworks_writes : frames.
Lemma cluster_condition_writes st r m : frame (extends client_write) (network_condition st r m).
Proof. unfold network_condition, SetCondition. frame_auto. Qed.
Lemma cluster_record_writes ty r f args : frame (extends client_write) (record ty r f args).
Proof. unfold record. frame_auto. Qed.
Hint Resolve cluster_condition_writes cluster_record_writes : frames.
Ltac cluster_services :=
  cbn [vnetSvc groupSvc keyvaultSvc newAzureStackHCIClusterReconciler svc_Reconcile svc_Delete
       groups.NewService keyvaults.NewService virtualnetworks.NewService].
Lemma services_writes :
  frame (extends client_write)
    (ClusterReconciler.Reconcile newAzureStackHCIClusterReconciler).
Proof. unfold ClusterReconciler.Reconcile. cluster_services. frame_auto. Qed.
Lemma services_delete_writes :
  frame (extends client_write) (ClusterReconciler.Delete newAzureStackHCIClusterReconciler).
Proof. unfold ClusterReconciler.Delete. cluster_services. frame_auto. Qed.
Hint Resolve services_writes services_delete_writes : frames.

(** ** The load balancer resource *)
Lemma cluster_mutateFn_identity env spec lb s t :
  wp env (mutateFn spec lb) (λ o _ t', t' = t ∧
    match o with Ok (_, lb') => same_identity lb lb' | _ => True end) s t.
Proof.
  unfold mutateFn. wp_run. split; [done|].
  match goal with |- context [CopyCorrelationID ?m ?v] =>
    exact (CopyCorrelationID_identity m v (λ _ _, eq_refl)) end.
Qed.
Lemma lb_made_client env lb spec :
  version_of lb = "" →
  preserves env well_behaved (CreateOrUpdate KLoadBalancer lb (mutateFn spec)).
Proof.
  intros Hnew s t Ht. apply wp_CreateOrUpdate; [intros e; by apply client_cons|].
  intros found cur Hcur. match goal with |- wp _ _ _ _ ?tr =>
    assert (Ht1 : client tr) by by apply client_cons end.
  eapply wp_mono; [apply cluster_mutateFn_identity|].
  intros [[[e|] lb']|w|] s' t' [-> Hlb]; [exact Ht1| |exact Ht1..].
  intros r. apply client_cons; [done|]. intros Hh. split; [done|].
  destruct Hcur as [[-> ->]| ->]; [left; exact (eq_trans (proj1 (proj2 Hlb)) Hnew)|right].
  apply Forall_cons in Hh as [[_ Ha] _]. exact (same_identity_keeps _ _ _ Hlb Ha).
Qed.
Lemma lb_updated_client s lb t t1 :
  t1 = Ev (KGet KLoadBalancer (lb_key s)) (inr lb) :: t → client t →
  let lb' := CopyCorrelationID (HCICluster s) lb in
  ∀ r, client (Ev (KUpdate KLoadBalancer lb') r :: t1).
Proof.
  intros -> Ht lb' r. apply client_cons; [by apply client_cons|].
  intros [(_&_&Ha) _]%Forall_cons.
  exact (same_identity_keeps (O:=AzureStackHCILoadBalancer) _ _ _
    (CopyCorrelationID_identity (HCICluster s) lb (λ _ _, eq_refl)) Ha).
Qed.
Ltac client_part :=
  first [ solve [apply preserves_client; frame_auto] | by apply lb_made_client | preserve_step ].
Lemma lb_resource_client env : preserves env well_behaved reconcileAzureStackHCILoadBalancer.
Proof. unfold reconcileAzureStackHCILoadBalancer. repeat client_part. Qed.
Lemma lb_resource_delete_client env :
  preserves env well_behaved reconcileDeleteAzureStackHCILoadBalancer.
Proof.
  unfold reconcileDeleteAzureStackHCILoadBalancer. intros s t Ht. do 3 wp_step; [|by wp_step].
  wp_step. wp_step. destruct r as [e|lb].
  { match goal with |- wp _ ?m _ _ _ => assert (Hm : preserves env well_behaved m)
      by (repeat client_part) end. by apply Hm, client_cons. }
  match goal with |- wp _ _ _ _ ?tr => set (t1 := tr) end.
  assert (Ht1 : client t1) by by apply client_cons.
  wp_step; [by wp_step|]. wp_step. wp_step.
  match goal with |- wp _ ?m _ _ _ => assert (Hm : preserves env well_behaved m)
    by (repeat client_part) end. apply Hm. by eapply lb_updated_client.
Qed.

(** ** The machines nobody owns *)
Definition with_listed (ms : list AzureStackHCIMachine) s (t : trace) : Prop :=
  client t ∧ (Forall honest t → Forall (as_stored (machine_at past)) ms).
Lemma with_listed_cons ms s t e :
  with_listed ms s t → (Forall honest t → client_write e) → with_listed ms s (e :: t).
Proof.
  intros [Hc Hp] He. split; [by apply client_cons|]. intros [_ Ht]%Forall_cons. auto.
Qed.
Lemma with_listed_telemetry ms s t new :
  Forall (ev_is (@is_telemetry)) new → with_listed ms s t → with_listed ms s (new ++ t).
Proof.
  intros Hn [Hc Hp]. split; [by apply client_telemetry|]. intros [_ Ht]%Forall_app. auto.
Qed.
Lemma delete_orphan_client env ms m :
  m ∈ ms → preserves env (with_listed ms) (delete_orphan m).
Proof.
  intros Hm s t Hl. unfold delete_orphan. do 3 wp_step; [wp_step; by apply with_listed_cons|].
  wp_step; [wp_step; by apply with_listed_cons|]. do 4 wp_step.
  set (m' := CopyCorrelationID (HCICluster (id s)) m).
  match goal with |- wp _ _ _ _ ?tr => assert (Hg1 : with_listed ms s tr) end.
  { apply with_listed_cons; [by apply with_listed_cons|]. intros [_ Ht]%Forall_cons.
    destruct Hl as [_ Hp]. specialize (Hp Ht). rewrite Forall_forall in Hp.
    exact (same_identity_keeps (O:=AzureStackHCIMachine) _ _ _
      (CopyCorrelationID_identity _ m (λ _ _, eq_refl)) (Hp _ Hm)). }
  wp_run; try exact Hg1; (apply with_listed_telemetry; [done|]); by apply with_listed_cons.
Qed.
Lemma orphans_client env ms : preserves env (with_listed ms) (deleteOrphanedMachines ms).
Proof. apply preserves_for_each. intros m Hm. by apply delete_orphan_client. Qed.

(** ** The handlers and the whole run *)
Lemma cluster_reconcileNormal_client env : preserves env well_behaved reconcileNormal.
Proof.
  unfold reconcileNormal, PatchObject, SetCondition. repeat first [apply lb_resource_client | client_part].
Qed.
Lemma cluster_reconcileDelete_client env : preserves env well_behaved reconcileDelete.
Proof.
  unfold reconcileDelete. apply preserves_bind; [client_part|intros _].
  apply preserves_bind; [client_part|intros s0]. intros s t Ht. cbv zeta. wp_step.
  unfold GetAzureStackHCIMachinesInCluster. wp_step.
  match goal with |- wp _ _ _ _ ?tr => assert (Ht1 : client tr) by by apply client_cons end.
  destruct r as [e|[|m ms]]; cbv beta iota.
  - match goal with |- wp _ ?m _ _ _ => assert (Hm : preserves env well_behaved m)
      by (repeat client_part) end. by apply Hm.
  - match goal with |- wp _ ?m _ _ _ => assert (Hm : preserves env well_behaved m) end;
      [|by apply Hm].
    repeat first [apply lb_resource_delete_client | client_part].
    unfold delete_services. apply preserves_client. frame_auto.
  - wp_step. eapply wp_mono; [apply orphans_client|].
    { split; [done|]. by intros [Hl _]%Forall_cons. }
    intros [o|w|] s1 t1 [Hc _]; [|done..].
    match goal with |- wp _ ?m _ _ _ => assert (Hm : preserves env well_behaved m)
      by (repeat client_part) end. by apply Hm.
Qed.
Lemma cluster_Reconcile_client env key :
  wp env (ClusterController.Reconcile key) (λ _ _ t', client t') tt [].
Proof.
  assert (Hs : ∀ t, Forall (ev_is (@is_silent)) t → client t).
  { intros t Ht. rewrite <-(app_nil_r t). apply client_silent; [done|apply client_nil]. }
  unfold ClusterController.Reconcile. wp_run_to (NewClusterScope (S:=unit));
    try (by apply Hs; repeat constructor).
  apply wp_NewClusterScope. intros res n1 Hn1 _.
  match goal with |- context [n1 ++ ?tr] =>
    assert (Ht1 : Forall (ev_is (@is_silent)) (n1 ++ tr))
      by (apply Forall_app; split; [done|by repeat constructor]) end.
  destruct res as [[err|cs]|w|]; [wp_run; apply Hs; by repeat constructor| |by apply Hs..].
  wp_step. apply wp_with_close. apply (wp_mono _ _ (λ _ s' t', client t')).
  - destruct (NotDeleted _);
      [by apply cluster_reconcileNormal_client, Hs|by apply cluster_reconcileDelete_client, Hs].
  - intros res s' t' Ht'.
    assert (Hc : preserves env well_behaved (reconcilePhase ;; Close)).
    { unfold reconcilePhase, Close, PatchObject. repeat client_part. }
    destruct res as [[res e]|w|]; [| |done];
      (eapply wp_mono; [by apply Hc|]); by intros [].
Qed.
End Client.
