(* ===== verification/VMClient.v ===== *)
(** * What the virtual machine controller does for the others

    It patches its own objects, and makes machines, network interfaces and disks in the
    agent. *)
From stdpp Require Import prelude strings list gmap.
From S2P Require Import Prelude GoStd External Api Effects Util Naming Scope.
From S2P Require Import Telemetry Interfaces Services NetServices VMService VirtualMachine.
From S2P Require Import Protocol VMProtocol MachineProtocol Client.
Local Open Scope prog_scope.

Section Client.
Context {L : Libs} {LL : LibLaws L}.
Context (home : NamespacedName → vm_place) (past : history).
Import VirtualMachineScope VMReconciler VMController.

Definition vm_kind (k : moc_kind) : bool :=
  match k with MVirtualMachine | MNetworkInterface | MDisk => true | _ => false end.
Definition vm_profile : profile := mkProfile (λ _ _, False) KVirtualMachine vm_kind.
Local Notation client_write := (client_write home past vm_profile).

Lemma vms_write i :
  frame (extends client_write) (virtualmachines.Reconcile (S:=VirtualMachineScope) i).
Proof.
  unfold virtualmachines.Reconcile, virtualmachines.ssh_keys. frame_auto.
  eapply frame_extends_mono; [|apply generateComputerName_frame]. intros [R c r]. by destruct c.
Qed.
Lemma nics_write i :
  frame (extends client_write) (networkinterfaces.Reconcile (S:=VirtualMachineScope) i).
Proof. unfold networkinterfaces.Reconcile. frame_auto. Qed.
Hint Resolve vms_write nics_write : frames.
Lemma ip_configs_writes nic i l : frame (extends client_write) (ip_configs nic i l).
Proof. revert i. induction l; intros i; simpl; frame_auto; auto. Qed.
Lemma getOrCreate_writes :
  frame (extends client_write) (getOrCreate newAzureStackHCIVirtualMachineService).
Proof.
  unfold getOrCreate, findVM, setVMProvisionFailure, set_condition, record, SetCondition,
    Create, reconcileNetworkInterface, createVirtualMachine, vm_zone.
  vm_services. frame_auto. apply ip_configs_writes.
Qed.
Lemma VMReconcile_calls key : frame (extends client_write) (VMController.Reconcile key).
Proof.
  pose proof getOrCreate_writes. pose proof report_state_frame.
  unfold VMController.Reconcile, with_close, VMController.reconcileNormal,
    VMController.reconcileDelete, VMReconciler.Delete, VMController.set_condition,
    VMController.record, SetCondition, VirtualMachineScope.Close, VirtualMachineScope.PatchObject.
  vm_services. frame_auto.
Qed.
Lemma vm_Reconcile_client balancer ours env key :
  wp env (VMController.Reconcile key)
    (λ _ _ t', client_of home past balancer vm_profile ours t') tt [].
Proof. apply wp_client_frame; [apply VMReconcile_calls|apply client_nil]. Qed.
End Client.
