(* ===== verification/System.v ===== *)
(** * The system the controllers share

    What the API server stores of machines, virtual machines and load balancers, and what the
    agent has: the state on which the workers of all four controllers take turns. A machine
    guards the virtual machine object of its name, that object guards what the agent has of
    it, and a load balancer object guards the agent's load balancer; each protocol is about a
    view of the state. This file says what the API server and the agent do with a call, and
    that a call is, in the view of a protocol, what its owner may rely on, and what a client
    is allowed to do. *)
From stdpp Require Import prelude strings list gmap relations.
From S2P Require Import Prelude GoStd External Api Effects Util Naming Scope.
From S2P Require Import Telemetry Interfaces Services NetServices VMService.
From S2P Require Import VirtualMachine Machine LoadBalancer Protocol VMProtocol MachineProtocol.
From S2P Require Import LBProtocol Client MachineClient LBClient VMClient.
Local Open Scope prog_scope.

(** ** The shared state *)
(** The last field is not stored anywhere: of which virtual machine objects the worker of the
    machine was told, wrongly, that they are not found, since it last called CreateOrUpdate
    about them. The client reads from a cache, which lags behind. *)
Record system := mkSystem {
  sys_machines : gmap NamespacedName AzureStackHCIMachine;
  sys_vms : gmap NamespacedName AzureStackHCIVirtualMachine;
  sys_lbs : gmap NamespacedName AzureStackHCILoadBalancer;
  sys_agent : gset agent_resource;
  sys_denied : gset NamespacedName }.
Definition with_machines os (σ : system) :=
  mkSystem os (sys_vms σ) (sys_lbs σ) (sys_agent σ) (sys_denied σ).
Definition with_vms os (σ : system) :=
  mkSystem (sys_machines σ) os (sys_lbs σ) (sys_agent σ) (sys_denied σ).
Definition with_lbs os (σ : system) :=
  mkSystem (sys_machines σ) (sys_vms σ) os (sys_agent σ) (sys_denied σ).
Definition with_agent a (σ : system) :=
  mkSystem (sys_machines σ) (sys_vms σ) (sys_lbs σ) a (sys_denied σ).
Definition with_denied d (σ : system) :=
  mkSystem (sys_machines σ) (sys_vms σ) (sys_lbs σ) (sys_agent σ) d.

(** Where the agent has virtual machines and load balancers, which load balancers there are,
    and the names that machines give to virtual machines *)
Record naming := mkNaming {
  vm_home : NamespacedName → vm_place;
  lb_home : NamespacedName → lb_place;
  balancer : NamespacedName → Prop;
  managed : NamespacedName → Prop;
  managed_dec k : Decision (managed k) }.
#[export] Existing Instance managed_dec.
(** Different keys have different places, and no machine has the name of a replica. *)
Class NamingLaws (N : naming) := {
  vm_home_inj : Inj (=) (=) (vm_home N);
  lb_home_inj : Inj (=) (=) (lb_home N);
  replicas_unmanaged kl k : balancer N kl → replica_of kl k → ¬ managed N k }.
#[export] Existing Instances vm_home_inj lb_home_inj.

(** ** What the API server does with a write *)
Section Stored.
Context {O R P : Type} `{Object O} `{EqDecision P} `{Countable R} {G : Guard O R P}.
Context (at_version : NamespacedName → string → O).
Implicit Type os : gmap NamespacedName O.
(** An object is stored: a new one where there was none, or a changed one in place of the
    version the client had. *)
Definition created (o : O) os os' : Prop :=
  os !! object_key o = None ∧
  ∃ stored, place_of stored = place_of o ∧ os' = <[object_key o := stored]> os.
Definition updated (o : O) os os' : Prop :=
  os !! object_key o = Some (at_version (object_key o) (version_of o)) ∧
  ∃ stored, place_of stored = place_of o ∧ GetFinalizers stored = GetFinalizers o ∧
            os' = <[object_key o := stored]> os.
Definition put (o : O) os os' : Prop :=
  if decide (version_of o = "") then created o os os' else updated o os os'.
(** A deletion marks an object that has finalizers and removes one that has none. *)
Definition deleted (o : O) os os' : Prop :=
  ∃ stored, os !! object_key o = Some stored ∧
    ((∃ marked, place_of marked = place_of stored ∧
        GetFinalizers marked = GetFinalizers stored ∧ os' = <[object_key o := marked]> os) ∨
     GetFinalizers stored = [] ∧ os' = delete (object_key o) os).

(** The keys of the objects there are *)
Lemma updated_dom o os os' : updated o os os' → dom os' = dom os.
Proof. intros (Ho&stored&_&_&->). apply dom_insert_lookup_L. by eexists. Qed.
Lemma put_dom o os os' : put o os os' → dom os' ⊆ dom os ∪ {[ object_key o ]}.
Proof.
  unfold put. case_decide; [|intros Hu; rewrite (updated_dom _ _ _ Hu); set_solver].
  intros (_&stored&_&->). rewrite dom_insert_L. set_solver.
Qed.
Lemma deleted_dom o os os' : deleted o os os' → dom os' ⊆ dom os.
Proof.
  intros (stored&Ho&[(marked&_&_&->)|[_ ->]]).
  - rewrite dom_insert_lookup_L; [done|by eexists].
  - rewrite dom_delete_L. set_solver.
Qed.
Lemma patched_dom before obj r (w w' : world O R) :
  patch_effect before obj r w w' → dom (objects w') ⊆ dom (objects w).
Proof.
  intros [_ Hp]. destruct (objects w !! object_key obj) as [o|] eqn:Ho.
  - destruct Hp as [[_ ->]|(o'&_&_&[->|[_ ->]])]; [done|..].
    + rewrite dom_insert_lookup_L; [done|by eexists].
    + rewrite dom_delete_L. set_solver.
  - by destruct Hp as [-> _].
Qed.

Context (home : NamespacedName → P).
Local Notation moves := (moves home None).
Lemma stored_moves os a k o stored :
  placed home (mkWorld os a) → os !! k = Some o → place_of stored = home k →
  (finalized o → finalized stored) →
  moves (mkWorld os a) (mkWorld (<[k := stored]> os) a).
Proof.
  intros Hp Ho Hs Hf. apply (moves_step home None None); [|by left].
  by apply (step_write home k o).
Qed.
Lemma created_moves o os os' a :
  place_of o = home (object_key o) → created o os os' → moves (mkWorld os a) (mkWorld os' a).
Proof.
  intros Hpl (Hn&stored&Hs&->). apply (moves_step home None None); [|by left].
  apply step_create; [done|]. by rewrite Hs.
Qed.
Lemma updated_moves o os os' a :
  placed home (mkWorld os a) → place_of o = home (object_key o) →
  keeps_finalizers at_version o → updated o os os' → moves (mkWorld os a) (mkWorld os' a).
Proof.
  intros Hp Hpl Hk (Ho&stored&Hs&Hf&->). apply (stored_moves _ _ _ _ _ Hp Ho); [by rewrite Hs|].
  unfold finalized. by rewrite Hf, Hk.
Qed.
Lemma put_moves o os os' a :
  placed home (mkWorld os a) → place_of o = home (object_key o) →
  version_of o = "" ∨ keeps_finalizers at_version o → put o os os' →
  moves (mkWorld os a) (mkWorld os' a).
Proof.
  intros Hp Hpl Hk. unfold put. case_decide as Hv; [by apply created_moves|].
  destruct Hk as [?|Hk]; [done|]. by apply updated_moves.
Qed.
Lemma deleted_moves o os os' a :
  placed home (mkWorld os a) → deleted o os os' → moves (mkWorld os a) (mkWorld os' a).
Proof.
  intros Hp (stored&Ho&[(marked&Hpl&Hf&->)|[Hf ->]]).
  - apply (stored_moves _ _ _ _ _ Hp Ho); [rewrite Hpl; by apply Hp|].
    unfold finalized. by rewrite Hf.
  - apply (moves_step home None None); [|by left]. apply (step_remove home _ stored); [done|].
    intros Hfin. by apply finalized_nonempty in Hfin.
Qed.
End Stored.

Section System.
Context {L : Libs} (N : naming) (past : history).
#[local] Hint Extern 0 (Guard AzureStackHCILoadBalancer _ _) =>
  exact (lb_guard (lb_home N)) : typeclass_instances.

(** ** What each protocol sees of the state *)
Definition machine_view (σ : system) : machine_world :=
  mkWorld (sys_machines σ)
    (filter (λ k, managed N k ∧ k ∉ sys_denied σ) (dom (sys_vms σ))).
Definition vm_view (σ : system) : world AzureStackHCIVirtualMachine agent_resource :=
  mkWorld (sys_vms σ) (filter (λ x, vm_kind x.1 = true) (sys_agent σ)).
Definition lb_view (σ : system) : lb_world :=
  mkWorld (sys_lbs σ) (filter (λ x, x.1 = MLoadBalancer) (sys_agent σ)).

(** ** What the API server and the agent do with a call *)
(** Making something in the agent makes that, or more of the same virtual machine. *)
Definition goes_with (x y : agent_resource) : Prop :=
  x = y ∨ ∃ key, x ∈ vm_resources (vm_home N key) ∧ y ∈ vm_resources (vm_home N key).
(** What is left after a worker was told that an object is not found: it is denied if it is
    stored all the same. Only the worker of a machine acts on it. *)
Definition told_missing (by_machine : bool) (key : NamespacedName) (σ : system) : system :=
  if decide (by_machine = true ∧ is_Some (sys_vms σ !! key))
  then with_denied ({[ key ]} ∪ sys_denied σ) σ else σ.
(** CreateOrUpdate ends in a call to the API server itself. *)
Definition no_longer_denied (key : NamespacedName) (σ : system) : system :=
  with_denied (sys_denied σ ∖ {[ key ]}) σ.
Lemma told_missing_none b key σ : sys_vms σ !! key = None → told_missing b key σ = σ.
Proof. intros Hn. apply decide_False. intros [_ Hs]. by apply eq_None_not_Some in Hn. Qed.
(** A read may be answered with an old version, but not with one so old that a live object
    with the finalizer has lost it since; it may say that nothing is found although there is
    something. A write is applied, or is not, whatever the answer. Nothing is assumed of
    writes that no controller sends. *)
Definition changes (by_machine : bool) (e : event) (σ σ' : system) : Prop :=
  match e with
  | Ev c r =>
      match c in Call R return R → Prop with
      | KGet k key => λ r,
          match k return error + kobj k → Prop with
          | KMachine => λ r, σ' = σ ∧
              match r with
              | inr o => NotDeleted o = true → finalized o → kept key (machine_view σ)
              | inl _ => True
              end
          | KVirtualMachine => λ r,
              match r with
              | inr o => σ' = σ ∧ (NotDeleted o = true → finalized o → kept key (vm_view σ))
              | inl e => σ' = if IsNotFound e then told_missing by_machine key σ else σ
              end
          | KLoadBalancer => λ r, σ' = σ ∧
              match r with
              | inr o => NotDeleted o = true → finalized (o : AzureStackHCILoadBalancer) →
                         kept key (lb_view σ)
              | inl _ => True
              end
          | _ => λ _, σ' = σ
          end r
      | KCouEnd k obj => λ _,
          match k return kobj k → Prop with
          | KVirtualMachine => λ (o : AzureStackHCIVirtualMachine), ∃ σ1,
              (σ1 = σ ∨ ∃ os, put (vm_at past) o (sys_vms σ) os ∧ σ1 = with_vms os σ) ∧
              σ' = no_longer_denied (object_key o) σ1
          | KLoadBalancer => λ (o : AzureStackHCILoadBalancer),
              σ' = σ ∨ ∃ os, put (lb_at past) o (sys_lbs σ) os ∧ σ' = with_lbs os σ
          | _ => λ _, True
          end obj
      | KUpdate k obj => λ _,
          match k return kobj k → Prop with
          | KMachine => λ (o : AzureStackHCIMachine),
              σ' = σ ∨ ∃ os, updated (machine_at past) o (sys_machines σ) os ∧
                             σ' = with_machines os σ
          | KVirtualMachine => λ (o : AzureStackHCIVirtualMachine),
              σ' = σ ∨ ∃ os, updated (vm_at past) o (sys_vms σ) os ∧ σ' = with_vms os σ
          | KLoadBalancer => λ (o : AzureStackHCILoadBalancer),
              σ' = σ ∨ ∃ os, updated (lb_at past) o (sys_lbs σ) os ∧ σ' = with_lbs os σ
          | _ => λ _, True
          end obj
      | KDelete k obj => λ _,
          match k return kobj k → Prop with
          | KMachine => λ (o : AzureStackHCIMachine),
              σ' = σ ∨ ∃ os, deleted o (sys_machines σ) os ∧ σ' = with_machines os σ
          | KVirtualMachine => λ (o : AzureStackHCIVirtualMachine), σ' = σ ∨ ∃ os, deleted o (sys_vms σ) os ∧ σ' = with_vms os σ
          | KLoadBalancer => λ (o : AzureStackHCILoadBalancer), σ' = σ ∨ ∃ os, deleted o (sys_lbs σ) os ∧ σ' = with_lbs os σ
          | _ => λ _, True
          end obj
      | KPatch k before obj _ =>
          match k return kobj k → kobj k → option error → Prop with
          | KMachine => λ (before obj : AzureStackHCIMachine) r, ∃ os, σ' = with_machines os σ ∧
              patch_effect before obj r (machine_view σ) (machine_view σ')
          | KVirtualMachine => λ (before obj : AzureStackHCIVirtualMachine) r, ∃ os, σ' = with_vms os σ ∧
              patch_effect before obj r (vm_view σ) (vm_view σ')
          | KLoadBalancer => λ (before obj : AzureStackHCILoadBalancer) r, ∃ os, σ' = with_lbs os σ ∧
              patch_effect before obj r (lb_view σ) (lb_view σ')
          | _ => λ _ _ _, σ' = σ
          end before obj
      | MocCreateOrUpdate _ k path _ => λ _, ∃ a, σ' = with_agent a σ ∧
          ∀ x, x ∈ a → x ∈ sys_agent σ ∨ goes_with x (k, path)
      | MocDelete _ k path => λ r, ∃ a, σ' = with_agent a σ ∧ a ⊆ sys_agent σ ∧
          ((match r with None => true | Some e => ResourceNotFound e end) = true → (k, path) ∉ a)
      | c => λ _, if is_silent c then σ' = σ else True
      end r
  end.

(** ** The owners of the objects *)
(** A call is, in the view of the protocol that its sender follows, what the table of effects
    says. *)
Lemma held_machine_view k σ :
  k ∈ held (machine_view σ) ↔ (managed N k ∧ k ∉ sys_denied σ) ∧ is_Some (sys_vms σ !! k).
Proof. simpl. by rewrite elem_of_filter, elem_of_dom. Qed.
Lemma vms_view_grows key os σ :
  dom os ⊆ dom (sys_vms σ) ∪ {[ key ]} →
  held (machine_view (no_longer_denied key (with_vms os σ))) ⊆
    held (machine_view σ) ∪ list_to_set [key].
Proof.
  simpl. intros Hos k. rewrite union_empty_r_L, elem_of_union, !elem_of_filter, elem_of_singleton.
  intros [[Hk Hd] Hdom%Hos]. destruct (decide (k = key)); [by right|left].
  split; [split; [done|]|]; set_solver.
Qed.
Lemma vms_view_shrinks os σ :
  dom os ⊆ dom (sys_vms σ) → held (machine_view (with_vms os σ)) ⊆ held (machine_view σ).
Proof. simpl. set_solver. Qed.
(** Who was told that a virtual machine is not found has lost sight of it. *)
Lemma told_missing_view b key σ :
  sys_machines (told_missing b key σ) = sys_machines σ ∧
  vm_view (told_missing b key σ) = vm_view σ ∧ lb_view (told_missing b key σ) = lb_view σ ∧
  held (machine_view (told_missing b key σ)) ⊆ held (machine_view σ).
Proof.
  unfold told_missing. case_decide; [|done]. split_and!; [done..|]. simpl.
  intros k. rewrite !elem_of_filter, not_elem_of_union. tauto.
Qed.
Lemma told_missing_unseen key σ : key ∉ held (machine_view (told_missing true key σ)).
Proof.
  rewrite held_machine_view. unfold told_missing. case_decide as Hd; [|tauto].
  simpl. set_solver.
Qed.

Lemma machine_allowed ours e σ σ' :
  honest (vm_home N) past (balancer N) ours e → changes true e σ σ' →
  allows id (machine_effect_of e) (machine_view σ) (machine_view σ').
Proof.
  destruct e as [R c r]. intros Hh Hc.
  destruct c; try match goal with k : kind |- _ => destruct k end; try done; simpl in Hc;
    try (by subst); try (by destruct Hc as [-> _]); try (by simpl; repeat case_match; subst).
  - destruct Hc as [-> Hc]. simpl in *. by destruct r.
  - simpl in *. destruct r as [e|o]; [|by destruct Hc as [-> _]].
    subst σ'. destruct (IsNotFound e); [|done].
    destruct (told_missing_view true key σ) as (Hm&_&_&Hheld).
    split; [exact Hm|]. split; [exact Hheld|]. intros _. apply told_missing_unseen.
  - destruct Hc as [->|(os&Hc&->)]; [done|]. split; [|done]. apply world_eq; [done|].
    simpl. by rewrite (updated_dom _ _ _ _ Hc).
  - destruct Hc as [->|(os&Hc&->)]; (split; [done|]); [done|]. split; [|done].
    by apply deleted_dom, vms_view_shrinks in Hc.
  - simpl in *. subst. destruct r; [done..|]. by destruct Hh.
  - destruct Hc as (σ1&[->|(os&Hc&->)]&->); (split; [done|]);
      intros k Hk%list_elem_of_singleton; simpl in Hk; rewrite <-Hk.
    + apply (vms_view_grows (object_key obj) (sys_vms σ)). set_solver.
    + exact (vms_view_grows _ _ _ (put_dom _ _ _ _ Hc)).
  - by destruct Hc as (os&_&Hc).
Qed.

Lemma vm_kind_resources x p : x ∈ vm_resources p → vm_kind x.1 = true.
Proof. unfold vm_resources. rewrite !elem_of_cons, elem_of_nil. naive_solver. Qed.
Lemma agent_view_shrinks (P : agent_resource → Prop) `{!∀ x, Decision (P x)} (a a' : gset agent_resource) :
  a' ⊆ a → filter P a' ⊆ filter P a.
Proof. set_solver. Qed.
Lemma vm_allowed {NL : NamingLaws N} ours b e σ σ' :
  honest (vm_home N) past (balancer N) ours e → changes b e σ σ' →
  allows (vm_home N) (vm_effect_of (vm_home N) e) (vm_view σ) (vm_view σ').
Proof.
  destruct e as [R c r]. intros Hh Hc.
  destruct c; try match goal with k : kind |- _ => destruct k end; try done; simpl in Hc;
    try (by subst); try (by destruct Hc as [-> _]).
  - simpl in *. destruct r as [e|o].
    { subst. destruct (IsNotFound e); [|done]. split; [apply told_missing_view|done]. }
    destruct Hc as [-> Hc].
    destruct Hh as (Hk&[Hp _]). split; [done|]. split_and!; [done| |done].
    exact (eq_trans Hp (f_equal (vm_home N) Hk)).
  - by destruct Hc as (os&_&Hc).
  - destruct Hc as (a&->&Ha). split; [done|]. intros key Hkey x. cbn [held vm_view with_agent sys_agent].
    rewrite elem_of_union, elem_of_list_to_set, !elem_of_filter. intros [Hk [Hx|Hx]%Ha]; [by left|].
    right. destruct Hx as [->|(key'&Hx&Hy)]; [done|].
    by rewrite <-(vm_resources_disjoint _ _ _ Hy Hkey).
  - destruct Hc as (a&->&Ha&Hgone). split; [done|]. split; [by apply agent_view_shrinks|].
    intros Hr%Hgone. simpl. rewrite elem_of_filter. naive_solver.
Qed.
Lemma lb_allowed key b e σ σ' :
  honest (vm_home N) past (balancer N) (lb_cluster (vm_home N) (lb_home N) key) e →
  changes b e σ σ' →
  allows (lb_home N) (lb_effect_of (lb_home N) e) (lb_view σ) (lb_view σ').
Proof.
  destruct e as [R c r]. intros Hh Hc.
  destruct c; try match goal with k : kind |- _ => destruct k end; try done; simpl in Hc;
    try (by subst); try (by destruct Hc as [-> _]); try (by destruct Hc as [->|(os&_&->)]);
    try (by destruct Hc as (?&[->|(os&_&->)]&->)).
  - simpl in *. destruct r as [e|o]; [|by destruct Hc as [-> _]].
    subst. split; [|done]. destruct (IsNotFound e); [apply told_missing_view|done].
  - destruct Hc as [-> Hc]. simpl in *. destruct r as [e|o]; [done|].
    destruct Hh as (Hk&_). split; [done|]. split_and!; [done|exact (f_equal (lb_home N) Hk)|done].
  - by destruct Hc as (os&_&Hc).
  - destruct Hc as (a&->&Ha). split; [done|]. intros key' Hkey x. cbn [held lb_view with_agent sys_agent].
    apply list_elem_of_singleton in Hkey. simplify_eq.
    rewrite elem_of_union, elem_of_list_to_set, !elem_of_filter. intros [Hk [Hx|Hx]%Ha]; [by left|].
    right. apply list_elem_of_singleton. destruct Hx as [->|(key0&Hx&_)]; [done|].
    apply vm_kind_resources in Hx. by rewrite Hk in Hx.
  - destruct Hc as (a&->&Ha&Hgone). split; [done|]. split; [by apply agent_view_shrinks|].
    intros Hr%Hgone. simpl. rewrite elem_of_filter. naive_solver.
Qed.

(** ** The clients of the others *)
(** A call of a client that writes as its profile says is, in the view of another protocol,
    what anybody may do. *)
Lemma shrinks_moves {O R P} `{G : Guard O R P} (home : NamespacedName → P) os (a a' : gset R) :
  a' ⊆ a → moves home None (mkWorld os a) (mkWorld os a').
Proof. intros Ha. eapply moves_step; [by apply step_lose|by left]. Qed.
Lemma told_missing_moves {O R P} `{G : Guard O R P} (home : NamespacedName → P)
    (view : system → world O R) key b (e : error) σ :
  objects (view (told_missing b key σ)) = objects (view σ) →
  held (view (told_missing b key σ)) ⊆ held (view σ) →
  moves home None (view σ) (view (if IsNotFound e then told_missing b key σ else σ)).
Proof.
  intros Ho Hh. destruct (IsNotFound e); [|done].
  destruct (view σ) as [os a], (view (told_missing b key σ)) as [os' a']. simpl in *. subst.
  by apply shrinks_moves.
Qed.
Ltac client_cases Hc :=
  first [ by subst | by destruct Hc as [-> _] | by destruct Hc as [->|(os&Hc&->)]
        | by destruct Hc as (os&->&Hc) ].
Context (p : profile).

Lemma machine_elsewhere b e σ σ' :
  patches p ≠ KMachine → (∀ k, makes_object p KVirtualMachine k → ¬ managed N k) →
  placed id (machine_view σ) → client_write (vm_home N) past p e → changes b e σ σ' →
  moves id None (machine_view σ) (machine_view σ').
Proof.
  destruct e as [R c r]. intros Hpk Hm Hp Hw Hc.
  destruct c; try match goal with k : kind |- _ => destruct k end; try done;
    simpl in Hw, Hc; try client_cases Hc.
  - destruct r as [err|o]; [|by destruct Hc as [-> _]]. subst.
    destruct (told_missing_view b key σ) as (Hm1&Hm2&Hm3&Hm4).
    apply (told_missing_moves id machine_view); [exact Hm1|exact Hm4].
  - destruct Hc as [->|(os&Hc&->)]; [done|]. by apply (updated_moves (machine_at past) id obj).
  - destruct Hc as [->|(os&Hc&->)]; [done|].
    apply shrinks_moves, vms_view_shrinks. by rewrite (updated_dom _ _ _ _ Hc).
  - destruct Hc as [->|(os&Hc&->)]; [done|]. by apply (deleted_moves id obj).
  - destruct Hc as [->|(os&Hc&->)]; [done|].
    by apply shrinks_moves, vms_view_shrinks, (deleted_dom obj).
  - destruct Hc as (σ1&Hc&->). destruct Hw as [Hmk%Hm _].
    assert (Hd : sys_machines σ1 = sys_machines σ ∧ sys_denied σ1 = sys_denied σ ∧
      dom (sys_vms σ1) ⊆ dom (sys_vms σ) ∪ {[ object_key obj ]}).
    { destruct Hc as [->|(os&Hc%put_dom&->)]; [|done]. split_and!; [done..|set_solver]. }
    destruct Hd as (Hm1&Hm2&Hd). unfold machine_view, no_longer_denied. simpl.
    rewrite Hm1, Hm2. apply shrinks_moves. intros x.
    rewrite !elem_of_filter. intros [[Hx Hden] [Hdx|Hdx%elem_of_singleton]%Hd%elem_of_union];
      [|by subst].
    split; [split; [done|]|done]. intros Hin. apply Hden. apply elem_of_difference.
    split; [done|]. intros Heq%elem_of_singleton. by subst.
  - destruct Hc as (os&->&Hc). apply shrinks_moves, vms_view_shrinks.
    exact (patched_dom _ _ _ _ _ Hc).
Qed.
Lemma vm_elsewhere b e σ σ' :
  patches p ≠ KVirtualMachine → (∀ k, agent_kinds p k = true → vm_kind k = false) →
  placed (vm_home N) (vm_view σ) → client_write (vm_home N) past p e → changes b e σ σ' →
  moves (vm_home N) None (vm_view σ) (vm_view σ').
Proof.
  destruct e as [R c r]. intros Hpk Hm Hp Hw Hc.
  destruct c; try match goal with k : kind |- _ => destruct k end; try done;
    simpl in Hw, Hc; try client_cases Hc.
  - destruct r as [err|o]; [|by destruct Hc as [-> _]]. subst.
    destruct (told_missing_view b key σ) as (Hm1&Hm2&Hm3&Hm4).
    apply (told_missing_moves (vm_home N) vm_view); by rewrite Hm2.
  - destruct Hc as [->|(os&Hc&->)]; [done|]. destruct Hw.
    by apply (updated_moves (vm_at past) (vm_home N) obj).
  - destruct Hc as [->|(os&Hc&->)]; [done|]. by apply (deleted_moves (vm_home N) obj).
  - destruct Hc as (?&[->|(os&Hc&->)]&->); [done|]. destruct Hw as (_&?&?).
    by apply (put_moves (vm_at past) (vm_home N) obj).
  - destruct Hc as (a&->&Ha). apply shrinks_moves. intros x.
    rewrite !elem_of_filter. intros [Hk [Hx|Hx]%Ha]; [done|]. apply Hm in Hw.
    destruct Hx as [->|(key&_&Hy%vm_kind_resources)]; simpl in *; congruence.
  - destruct Hc as (a&->&Ha&_). by apply shrinks_moves, agent_view_shrinks.
Qed.
Lemma lb_elsewhere b e σ σ' :
  patches p ≠ KLoadBalancer → agent_kinds p MLoadBalancer = false →
  placed (lb_home N) (lb_view σ) → client_write (vm_home N) past p e → changes b e σ σ' →
  moves (lb_home N) None (lb_view σ) (lb_view σ').
Proof.
  destruct e as [R c r]. intros Hpk Hm Hp Hw Hc.
  destruct c; try match goal with k : kind |- _ => destruct k end; try done;
    simpl in Hw, Hc; try client_cases Hc; try (by destruct Hc as (?&[->|(os&_&->)]&->)).
  - destruct r as [err|o]; [|by destruct Hc as [-> _]]. subst.
    destruct (told_missing_view b key σ) as (Hm1&Hm2&Hm3&Hm4).
    apply (told_missing_moves (lb_home N) lb_view); by rewrite Hm3.
  - destruct Hc as [->|(os&Hc&->)]; [done|]. by apply (updated_moves (lb_at past) (lb_home N) obj).
  - destruct Hc as [->|(os&Hc&->)]; [done|]. by apply (deleted_moves (lb_home N) obj).
  - destruct Hc as [->|(os&Hc&->)]; [done|]. destruct Hw as (_&?).
    by apply (put_moves (lb_at past) (lb_home N) obj).
  - destruct Hc as (a&->&Ha). apply shrinks_moves. intros x.
    rewrite !elem_of_filter. intros [Hk [Hx|Hx]%Ha]; [done|].
    destruct Hx as [->|(key&Hx%vm_kind_resources&_)]; simpl in *; [congruence|].
    by rewrite Hk in Hx.
  - destruct Hc as (a&->&Ha&_). by apply shrinks_moves, agent_view_shrinks.
Qed.
End System.
