(* ===== verification/Execution.v ===== *)
(** * The executions of the four controllers

    Any number of workers of the four controllers, one per key and controller at a time, take
    turns on the state of [System] with everybody else, call by call; a worker may stop at any
    point. Each worker of the machine, the virtual machine and the load balancer controller
    follows the protocol of its own objects ([MachineProtocol], [VMProtocol], [LBProtocol]),
    every worker is a client for the protocols of the others ([MachineClient], [VMClient],
    [LBClient], [ClusterClient]), and so the three invariants hold together in every
    execution. *)
From stdpp Require Import prelude strings list gmap relations.
From S2P Require Import Prelude GoStd External Api Effects Util Naming Scope Example.
From S2P Require Import Telemetry Interfaces Services NetServices VMService.
From S2P Require Import VirtualMachine Machine LoadBalancer Cluster.
From S2P Require Import Protocol VMProtocol MachineProtocol LBProtocol.
From S2P Require Import Client MachineClient LBClient VMClient ClusterClient System.
Local Open Scope prog_scope.

(** The workers *)
Inductive actor :=
  | MachineWorker (key : NamespacedName) | VMWorker (key : NamespacedName)
  | LBWorker (key : NamespacedName) | ClusterWorker (key : NamespacedName).
#[export] Instance actor_eq_dec : EqDecision actor.
Proof. solve_decision. Defined.
#[export] Instance actor_countable : Countable actor.
Proof.
  refine (inj_countable'
    (λ a, match a with
          | MachineWorker k => inl (inl k) | VMWorker k => inl (inr k)
          | LBWorker k => inr (inl k) | ClusterWorker k => inr (inr k)
          end)
    (λ s, match s with
          | inl (inl k) => MachineWorker k | inl (inr k) => VMWorker k
          | inr (inl k) => LBWorker k | inr (inr k) => ClusterWorker k
          end) _).
  by intros [].
Defined.

Section Executions.
Context {L : Libs} (N : naming) (past : history).
#[local] Hint Extern 0 (Guard AzureStackHCILoadBalancer _ _) =>
  exact (lb_guard (lb_home N)) : typeclass_instances.

Definition program (a : actor) : prog unit (Result * option error) :=
  match a with
  | MachineWorker k => MachineController.Reconcile k
  | VMWorker k => VMController.Reconcile k
  | LBWorker k => LBController.Reconcile k
  | ClusterWorker k => ClusterController.Reconcile k
  end.
(** What the worker writes of the others, and which clusters it is told to be in *)
Definition profile_of (a : actor) : profile :=
  match a with
  | MachineWorker k => machine_profile k
  | VMWorker k => vm_profile
  | LBWorker k => lb_profile (balancer N) k
  | ClusterWorker k => cluster_profile
  end.
Definition cluster_of (a : actor) : AzureStackHCICluster → Prop :=
  match a with
  | MachineWorker k => machine_cluster (vm_home N) k
  | LBWorker k => lb_cluster (vm_home N) (lb_home N) k
  | _ => any_cluster
  end.
Local Notation honest a := (honest (vm_home N) past (balancer N) (cluster_of a)).
(** The worker of a machine takes a virtual machine that is not found for gone. *)
Definition by_machine (a : actor) : bool :=
  match a with MachineWorker _ => true | _ => false end.
Definition system_allows (a : actor) (e : event) (σ σ' : system) : Prop :=
  honest a e ∧ changes N past (by_machine a) e σ σ'.
(** A worker can have made these calls, with these answers, so far. *)
Definition possible (a : actor) (t : trace) : Prop :=
  ∃ env later, (program a env tt []).2 = later ++ t.

(** What an actor may do in each view, [None] being everybody else *)
Definition machine_label (a : option actor) : option NamespacedName :=
  match a with Some (MachineWorker k) => Some k | _ => None end.
Definition vm_label (a : option actor) : option NamespacedName :=
  match a with Some (VMWorker k) => Some k | _ => None end.
Definition lb_label (a : option actor) : option NamespacedName :=
  match a with Some (LBWorker k) => Some k | _ => None end.
Definition acts (a : option actor) (σ σ' : system) : Prop :=
  moves id (machine_label a) (machine_view N σ) (machine_view N σ') ∧
  moves (vm_home N) (vm_label a) (vm_view σ) (vm_view σ') ∧
  moves (lb_home N) (lb_label a) (lb_view σ) (lb_view σ').

(** The shared state, and the calls of each worker that is at work *)
Record config := mkConfig { cfg_system : system; cfg_traces : gmap actor trace }.
Context (serves : actor → event → system → system → Prop).
(** A worker starts, makes its next call, or is gone; somebody else acts. *)
Inductive exec : config → config → Prop :=
  | exec_start a σ ts :
      ts !! a = None → exec (mkConfig σ ts) (mkConfig σ (<[a := []]> ts))
  | exec_call a e t σ σ' ts :
      ts !! a = Some t → possible a (e :: t) → serves a e σ σ' →
      exec (mkConfig σ ts) (mkConfig σ' (<[a := e :: t]> ts))
  | exec_stop a σ ts :
      exec (mkConfig σ ts) (mkConfig σ (delete a ts))
  | exec_others σ σ' ts :
      acts None σ σ' → exec (mkConfig σ ts) (mkConfig σ' ts).

(** ** The invariant *)
(** Every object is where its key says, and nothing is left without an object that holds the
    finalizer, for the three protocols. *)
Definition consistent (σ : system) : Prop :=
  (placed id (machine_view N σ) ∧ no_leak id (machine_view N σ)) ∧
  (placed (vm_home N) (vm_view σ) ∧ no_leak (vm_home N) (vm_view σ)) ∧
  (placed (lb_home N) (lb_view σ) ∧ no_leak (lb_home N) (lb_view σ)).
(** The calls of a worker are a run of it in the world it sees. *)
Definition machine_serves : service AzureStackHCIMachine NamespacedName :=
  λ X c r w w', allows id (machine_effect_of (Ev c r)) w w'.
Definition vm_serves : service AzureStackHCIVirtualMachine agent_resource :=
  λ X c r w w', allows (vm_home N) (vm_effect_of (vm_home N) (Ev c r)) w w'.
Definition lb_serves (k : NamespacedName) : service AzureStackHCILoadBalancer agent_resource :=
  λ X c r w w', allows (lb_home N) (lb_effect_of (lb_home N) (Ev c r)) w w' ∧
    steady_answer (lb_home N) k (Ev c r).
#[local] Instance machine_serves_answers : Answers id machine_effect_of machine_serves.
Proof. by intros X c r w w'. Qed.
#[local] Instance vm_serves_answers : Answers (vm_home N) (vm_effect_of (vm_home N)) vm_serves.
Proof. by intros X c r w w'. Qed.
#[local] Instance lb_serves_answers k :
  Answers (lb_home N) (lb_effect_of (lb_home N)) (lb_serves k).
Proof. by intros X c r w w' []. Qed.
Lemma lb_serves_steady k : steady_group (lb_home N) k (lb_serves k).
Proof. by intros X c r w w' []. Qed.
(** The clusters of a worker are where its keys say. *)
Lemma honest_steady k e : honest (LBWorker k) e → steady_answer (lb_home N) k e.
Proof.
  destruct e as [X c r]. destruct c; try done. destruct k0; try done. simpl.
  destruct r as [err|hc]; [done|]. intros Hh. apply Hh.
Qed.
Definition follows (a : actor) (t : trace) (σ : system) : Prop :=
  Forall (honest a) t ∧
  match a with
  | MachineWorker k => ∃ w0, placed id w0 ∧ run id machine_serves k w0 t (machine_view N σ)
  | VMWorker k => ∃ w0, placed (vm_home N) w0 ∧ run (vm_home N) vm_serves k w0 t (vm_view σ)
  | LBWorker k => ∃ w0, placed (lb_home N) w0 ∧
                        run (lb_home N) (lb_serves k) k w0 t (lb_view σ)
  | ClusterWorker k => True
  end.
Definition invariant (c : config) : Prop :=
  consistent (cfg_system c) ∧
  ∀ a t, cfg_traces c !! a = Some t → follows a t (cfg_system c).

Context {NL : NamingLaws N} {LL : LibLaws L}.
Lemma acts_consistent a σ σ' : acts a σ σ' → consistent σ → consistent σ'.
Proof.
  intros (Hm%moves_any&Hv%moves_any&Hl%moves_any) ([]&[]&[]).
  split_and!; try (by eapply placed_steps).
  - by apply (no_leak_steps id _ _ Hm).
  - by apply (no_leak_steps (vm_home N) _ _ Hv).
  - by apply (no_leak_steps (lb_home N) _ _ Hl).
Qed.
Lemma acts_follows a b t σ σ' : a ≠ Some b → acts a σ σ' → follows b t σ → follows b t σ'.
Proof.
  intros Hab (Hm&Hv&Hl) [Hh Hf]. split; [done|]. destruct b as [k|k|k|k]; [..|done].
  - destruct Hf as (w0&Hp&Hr). exists w0. split; [done|]. eapply run_others; [exact Hr|].
    eapply moves_others; [|exact Hm]. destruct a as [[]|]; simpl; congruence.
  - destruct Hf as (w0&Hp&Hr). exists w0. split; [done|]. eapply run_others; [exact Hr|].
    eapply moves_others; [|exact Hv]. destruct a as [[]|]; simpl; congruence.
  - destruct Hf as (w0&Hp&Hr). exists w0. split; [done|]. eapply run_others; [exact Hr|].
    eapply moves_others; [|exact Hl]. destruct a as [[]|]; simpl; congruence.
Qed.
Lemma start_follows a σ : consistent σ → follows a [] σ.
Proof.
  intros ([]&[]&[]). split; [done|].
  destruct a; [eexists|eexists|eexists|done]; (split; [|by apply run_start]); done.
Qed.

(** Every worker is a client of the others. *)
Lemma worker_client env a :
  wp env (program a)
    (λ _ _ t, client_of (vm_home N) past (balancer N) (profile_of a) (cluster_of a) t) tt [].
Proof.
  destruct a; simpl.
  - apply machine_Reconcile_client.
  - apply vm_Reconcile_client.
  - apply lb_Reconcile_client.
  - apply cluster_Reconcile_client.
Qed.
Lemma call_client_write a e t :
  possible a (e :: t) → Forall (honest a) t →
  client_write (vm_home N) past (profile_of a) e.
Proof.
  intros (env&later&Heq) Hh. pose proof (worker_client env a) as Hcl.
  unfold wp in Hcl. rewrite Heq in Hcl. by eapply Hcl.
Qed.
(** The next call of a worker is something it may do, in all three views. *)
Lemma call_machine_view a e t σ σ' :
  follows a t σ → consistent σ → possible a (e :: t) → system_allows a e σ σ' →
  moves id (machine_label (Some a)) (machine_view N σ) (machine_view N σ').
Proof.
  intros [Hh Hf] Hcons Hpos [He Hc]. pose proof (call_client_write a e t Hpos Hh) as Hw.
  destruct Hcons as ([Hp _]&_&_), Hpos as (env&later&Heq).
  assert (Hother : patches (profile_of a) ≠ KMachine →
    (∀ k, makes_object (profile_of a) KVirtualMachine k → ¬ managed N k) →
    moves id None (machine_view N σ) (machine_view N σ')) by (intros; by eapply machine_elsewhere).
  destruct a as [k|k|k|k]; simpl in *.
  - destruct Hf as (w0&Hp0&Hr).
    pose proof (machine_Reconcile_conforms machine_serves k w0 Hp0 env) as Hconf.
    unfold wp in Hconf. rewrite Heq in Hconf. eapply Hconf; [reflexivity|exact Hr|].
    destruct e as [X c r]. by eapply machine_allowed.
  - apply Hother; [done|by intros k' []].
  - apply Hother; [done|]. intros k' (_&Hb&Hrep). by eapply replicas_unmanaged.
  - by apply Hother.
Qed.
Lemma call_vm_view a e t σ σ' :
  follows a t σ → consistent σ → possible a (e :: t) → system_allows a e σ σ' →
  moves (vm_home N) (vm_label (Some a)) (vm_view σ) (vm_view σ').
Proof.
  intros [Hh Hf] Hcons Hpos [He Hc]. pose proof (call_client_write a e t Hpos Hh) as Hw.
  destruct Hcons as (_&[Hp _]&_), Hpos as (env&later&Heq).
  assert (Hother : patches (profile_of a) ≠ KVirtualMachine →
    (∀ k, agent_kinds (profile_of a) k = true → vm_kind k = false) →
    moves (vm_home N) None (vm_view σ) (vm_view σ')) by (intros; by eapply vm_elsewhere).
  destruct a as [k|k|k|k]; simpl in *; try (apply Hother; [done|by intros []]).
  destruct Hf as (w0&Hp0&Hr).
  pose proof (vm_Reconcile_conforms (vm_home N) vm_serves k w0 Hp0 env) as Hconf.
  unfold wp in Hconf. rewrite Heq in Hconf. eapply Hconf; [reflexivity|exact Hr|].
  destruct e as [X c r]. by eapply vm_allowed.
Qed.
Lemma call_lb_view a e t σ σ' :
  follows a t σ → consistent σ → possible a (e :: t) → system_allows a e σ σ' →
  moves (lb_home N) (lb_label (Some a)) (lb_view σ) (lb_view σ').
Proof.
  intros [Hh Hf] Hcons Hpos [He Hc]. pose proof (call_client_write a e t Hpos Hh) as Hw.
  destruct Hcons as (_&_&[Hp _]), Hpos as (env&later&Heq).
  assert (Hother : patches (profile_of a) ≠ KLoadBalancer →
    agent_kinds (profile_of a) MLoadBalancer = false →
    moves (lb_home N) None (lb_view σ) (lb_view σ')) by (intros; by eapply lb_elsewhere).
  destruct a as [k|k|k|k]; simpl in *; try by apply Hother.
  destruct Hf as (w0&Hp0&Hr).
  pose proof (lb_Reconcile_conforms (lb_home N) (lb_serves k) k w0 Hp0
    (lb_serves_steady k) env) as Hconf.
  unfold wp in Hconf. rewrite Heq in Hconf. eapply Hconf; [reflexivity|exact Hr|].
  destruct e as [X c r]. split; [by eapply lb_allowed|by apply honest_steady].
Qed.
Lemma call_acts a e t σ σ' :
  follows a t σ → consistent σ → possible a (e :: t) → system_allows a e σ σ' →
  acts (Some a) σ σ'.
Proof.
  intros. split_and!; eauto using call_machine_view, call_vm_view, call_lb_view.
Qed.
Lemma call_follows a e t σ σ' :
  follows a t σ → system_allows a e σ σ' → follows a (e :: t) σ'.
Proof.
  intros [Hh Hf] [He Hc]. split; [by constructor|].
  destruct a as [k|k|k|k], e as [X c r]; [..|done]; destruct Hf as (w0&Hp&Hr); exists w0;
    (split; [done|]); (eapply run_call; [exact Hr| |done]).
  - by eapply machine_allowed.
  - by eapply vm_allowed.
  - split; [by eapply lb_allowed|by apply honest_steady].
Qed.

Context (Hserves : ∀ a e σ σ', serves a e σ σ' → system_allows a e σ σ').
Lemma exec_invariant c c' : exec c c' → invariant c → invariant c'.
Proof.
  intros [a σ ts Hn|a e t σ σ' ts Ht Hpos Hs|a σ ts|σ σ' ts Ha] [Hcons Hf]; simpl in *.
  - split; [done|]. intros b t. simpl. rewrite lookup_insert_Some.
    intros [[<- <-]|[_ Hb]]; [by apply start_follows|by apply Hf].
  - apply Hserves in Hs. pose proof (call_acts _ _ _ _ _ (Hf _ _ Ht) Hcons Hpos Hs) as Hacts.
    split; [by eapply acts_consistent|]. intros b t'. simpl. rewrite lookup_insert_Some.
    intros [[<- <-]|[Hne Hb]]; [by eapply call_follows; [apply Hf|]|].
    eapply acts_follows; [|exact Hacts|by apply Hf]. congruence.
  - split; [done|]. intros b t. simpl. rewrite lookup_delete_Some. intros [_ Hb]. by apply Hf.
  - split; [by eapply acts_consistent|]. intros b t Hb.
    eapply acts_follows; [|exact Ha|by apply Hf]. done.
Qed.
Lemma execs_invariant c c' : rtc exec c c' → invariant c → invariant c'.
Proof. induction 1; eauto using exec_invariant. Qed.
End Executions.

Section Contract.
Context {L : Libs} {LL : LibLaws L}.

End Contract.

(** ** A simulated execution *)
Section Simulation.
Context {L : Libs} (N : naming).
Context (serve : actor → ∀ X, Call X → system → X * system).
Definition system_of (a : actor) (e : event) (σ σ' : system) : Prop :=
  match e with Ev c r => serve a _ c σ = (r, σ') end.
Local Notation exec := (exec N system_of).

(** A worker runs, and leaves behind what its calls have done. *)
Definition calls_of (a : actor) (σ : system) : trace := (program a (sim_env (serve a) σ) tt []).2.
Lemma exec_calls a σ ts t later :
  calls_of a σ = later ++ t → answered (serve a) σ t →
  rtc exec (mkConfig σ (<[a := []]> ts)) (mkConfig (world_after (serve a) σ t) (<[a := t]> ts)).
Proof.
  revert later. induction t as [|[X c r] t IH]; intros later Heq; [done|]. intros [-> Ha]. simpl.
  eapply rtc_r.
  { apply (IH (later ++ [Ev c (sim_env (serve a) σ t X c)])); [|done].
    rewrite Heq. by rewrite <-app_assoc. }
  rewrite <-(insert_insert_eq ts a (Ev c (sim_env (serve a) σ t X c) :: t) t).
  apply (exec_call _ _ _ _ t).
  - apply lookup_insert_eq.
  - by exists (sim_env (serve a) σ), later.
  - apply surjective_pairing.
Qed.
Lemma exec_worker a σ ts :
  ts !! a = None → answered (serve a) σ (calls_of a σ) →
  rtc exec (mkConfig σ ts) (mkConfig (world_after (serve a) σ (calls_of a σ)) ts).
Proof.
  intros Hts Ha. eapply rtc_l; [by apply (exec_start _ _ a)|]. eapply rtc_r.
  - by apply (exec_calls a σ ts (calls_of a σ) []).
  - rewrite <-(delete_insert_id ts a (calls_of a σ)) at 2 by done. apply exec_stop.
Qed.
End Simulation.

Module SystemSim.
Definition home (k : NamespacedName) : vm_place := (nn_Namespace k, nn_Name k).
Definition key : NamespacedName := mkNN "default" "machine".
Definition lb_key : NamespacedName := mkNN "default" "cluster-load-balancer".
Definition cluster_key : NamespacedName := mkNN "default" "cluster".
Definition names : naming := mkNaming home home (λ k, k = lb_key) (λ k, k = key) _.
#[export] Instance names_laws : NamingLaws names.
Proof.
  split; [by intros [] [] ?; simplify_eq/=..|]. simpl. by intros ? ? -> [suffix ->].
Qed.

(** An object at its versions: as it is made, with the finalizer, and when it is deleted *)
Definition meta_at (f : string) (k : NamespacedName) (v : string) (m : metav1.ObjectMeta)
    : metav1.ObjectMeta :=
  m <| metav1.Name := nn_Name k |> <| metav1.Namespace := nn_Namespace k |>
    <| metav1.ObjectResourceVersion := v |>
    <| metav1.Finalizers := if decide (v = "1") then [] else [f] |>
    <| metav1.DeletionTimestamp := if decide (v = "3") then Some 1%Z else None |>.
Definition version_now {O} `{Object O} (f : string) (o : O) : string :=
  if decide (f ∈ GetFinalizers o) then if NotDeleted o then "2" else "3" else "1".
Definition sim_vm_at (k : NamespacedName) (v : string) : AzureStackHCIVirtualMachine :=
  ex_vm <| hv_meta ::= meta_at VirtualMachineFinalizer k v |>
        <| hv_Spec ::= (λ p, p <| vs_ResourceGroup := nn_Namespace k |>) |>.
Definition sim_lb_at (k : NamespacedName) (v : string) : AzureStackHCILoadBalancer :=
  ex_lb <| lb_meta ::= meta_at AzureStackHCILoadBalancerFinalizer k v |>.
Definition past : history := mkHistory sim_vm_at (λ _ _, ex_machine) sim_lb_at.
Definition cluster : AzureStackHCICluster :=
  MachineSim.hcicluster <| hc_Spec ::= (λ p, p <| cs_ResourceGroup := "default" |>) |>.
Definition marked_meta (m : metav1.ObjectMeta) : metav1.ObjectMeta :=
  m <| metav1.DeletionTimestamp := Some 1%Z |>.
Definition actor_key (a : actor) : NamespacedName :=
  match a with MachineWorker k | VMWorker k | LBWorker k | ClusterWorker k => k end.
Definition here (a : actor) : bool := String.eqb (nn_Namespace (actor_key a)) "default".
Definition unknown {A} : error + A := inl (ErrExt 1 "not found").

(** The objects that are read: the worker of a machine finds a virtual machine only once its
    controller has put the finalizer there. *)
Definition read_vm (a : actor) (k : NamespacedName) (σ : system)
    : (error + AzureStackHCIVirtualMachine) * system :=
  match sys_vms σ !! k with
  | Some vm =>
      if decide (by_machine a = true ∧ VirtualMachineFinalizer ∉ GetFinalizers vm)
      then (unknown, told_missing true k σ)
      else (inr (sim_vm_at k (version_now VirtualMachineFinalizer vm)), σ)
  | None => (unknown, σ)
  end.
Definition read_lb (k : NamespacedName) (σ : system) : error + AzureStackHCILoadBalancer :=
  match sys_lbs σ !! k with
  | Some lb => if decide (k = lb_key)
               then inr (sim_lb_at k (version_now AzureStackHCILoadBalancerFinalizer lb))
               else unknown
  | None => unknown
  end.
(** The virtual machines that are not of the machine are the replicas. *)
Definition list_replicas (σ : system) : list AzureStackHCIVirtualMachine :=
  (λ k, sim_vm_at k "2") <$> filter (λ k, k ≠ key) (map_to_list (sys_vms σ)).*1.

(** An API server that keeps the objects, refuses every update, and an agent that knows what
    it was told to make *)
Definition serve (a : actor) (X : Type) (c : Call X) (σ : system) : X * system :=
  match c in Call X return X * system with
  | KGet k key =>
      match k return (error + kobj k) * system with
      | KMachine => (sim_read id key (machine_view names σ), σ)
      | KVirtualMachine => read_vm a key σ
      | KLoadBalancer => (read_lb key σ, σ)
      | KCluster => (if here a then inr cluster else unknown, σ)
      | k => (ex_answer _ (KGet k key), σ)
      end
  | KList k ns labels =>
      match k return (error + list (kobj k)) * system with
      | KVirtualMachine => (inr (list_replicas σ), σ)
      | k => (inr [], σ)
      end
  | GetOwnerMachine m =>
      (inr (if decide (metav1.Namespace m = "default") then Some ex_capi_machine else None), σ)
  | GetOwnerCluster m =>
      (inr (if decide (metav1.Namespace m = "default") then Some ex_cluster else None), σ)
  | GetClusterFromMetadata m =>
      (if decide (metav1.Namespace m = "default") then inr ex_cluster else unknown, σ)
  | KCouBegin k obj => (CouNew, σ)
  | KCouEnd k obj =>
      match k return kobj k → OperationResult * option error * kobj k * system with
      | KVirtualMachine => λ obj,
          if decide (version_of obj = "" ∧ sys_vms σ !! object_key obj = None)
          then (OperationResultCreated, None, obj, no_longer_denied (object_key obj)
                  (with_vms (<[object_key obj := obj]> (sys_vms σ)) σ))
          else (OperationResultNone, Some (ErrExt 2 "already exists"), obj,
                no_longer_denied (object_key obj) σ)
      | KLoadBalancer => λ obj,
          if decide (version_of obj = "" ∧ sys_lbs σ !! object_key obj = None)
          then (OperationResultCreated, None, obj,
                with_lbs (<[object_key obj := obj]> (sys_lbs σ)) σ)
          else (OperationResultNone, Some (ErrExt 2 "already exists"), obj, σ)
      | k => λ obj, (OperationResultCreated, None, obj, σ)
      end obj
  | KDelete k obj =>
      match k return kobj k → option error * system with
      | KVirtualMachine => λ obj,
          match sys_vms σ !! object_key obj with
          | Some vm => (None, with_vms (<[object_key obj := vm <| hv_meta ::= marked_meta |>]>
                                          (sys_vms σ)) σ)
          | None => (Some (ErrExt 1 "not found"), σ)
          end
      | k => λ _, (None, σ)
      end obj
  | KPatch k before obj owned =>
      match k return kobj k → kobj k → option error * system with
      | KMachine => λ before obj,
          let (r, w) := sim_patch before obj (machine_view names σ) in
          (r, with_machines (objects w) σ)
      | KVirtualMachine => λ before obj,
          let (r, w) := sim_patch before obj (vm_view σ) in (r, with_vms (objects w) σ)
      | KLoadBalancer => λ before obj,
          let (r, w) := sim_patch (G:=lb_guard home) before obj (lb_view σ) in
          (r, with_lbs (objects w) σ)
      | k => λ _ _, (None, σ)
      end before obj
  | MocGet _ k path =>
      (if decide ((k, path) ∈ sys_agent σ) then inr (Some [ex_mocobj k])
       else inl (ErrExt 3 "not found"), σ)
  | MocCreateOrUpdate _ k path _ => (None, with_agent ({[ (k, path) ]} ∪ sys_agent σ) σ)
  | MocDelete _ k path => (None, with_agent (sys_agent σ ∖ {[ (k, path) ]}) σ)
  | c => (ex_answer _ c, σ)
  end.

Lemma sim_vm_placed k v : placed_vm home past (sim_vm_at k v).
Proof. split; [done|]. unfold as_stored. by destruct k. Qed.
Lemma version_finalized {O} `{Object O} f (o : O) :
  f ∈ (if decide (version_now f o = "1") then [] else [f]) → f ∈ GetFinalizers o.
Proof. unfold version_now. destruct (decide (f ∈ GetFinalizers o)); [done|]. by intros ?%elem_of_nil. Qed.
Ltac sim_answer Hs := injection Hs as <- <-; simpl.
Lemma serve_allowed a e σ σ' :
  system_of serve a e σ σ' → system_allows (L:=Ref.ref_libs) names past a e σ σ'.
Proof.
  destruct e as [X c r]. unfold system_of, system_allows. intros Hs.
  destruct c; try match goal with k : kind |- _ => destruct k end;
    try (by sim_answer Hs); try (by sim_answer Hs; split; [|left]); try (by sim_answer Hs; case_decide).
  - sim_answer Hs. destruct (sim_read id key0 (machine_view names σ)) as [err|o] eqn:Hr; [done|].
    apply sim_read_allowed in Hr as (Hk&_&Hkept). split; [exact Hk|]. split; [done|exact Hkept].
  - simpl in Hs. unfold read_vm in Hs. destruct (sys_vms σ !! key0) as [vm|] eqn:Hvm.
    + case_decide as Hd; sim_answer Hs; [by destruct Hd as [-> _]|].
      split; [split; [by destruct key0|apply sim_vm_placed]|]. split; [done|].
      intros _ Hfin. exists vm. split; [done|]. by apply version_finalized.
    + sim_answer Hs. split; [done|]. by rewrite told_missing_none.
  - sim_answer Hs. unfold read_lb. destruct (sys_lbs σ !! key0) as [lb|] eqn:Hlb; [|done].
    case_decide as Hk; [|done]. split; [split_and!; [by destruct key0|done|by subst]|].
    split; [done|]. intros _ Hfin. exists lb. split; [done|]. by apply version_finalized.
  - sim_answer Hs. split; [|done]. destruct (here a) eqn:Ha; [|done]. apply String.eqb_eq in Ha.
    destruct a as [k|k|k|k]; simpl in *; [|done| |done]; unfold machine_cluster, lb_cluster, home.
    + by rewrite Ha.
    + rewrite Ha. split; [done|]. intros k' [suffix ->]. simpl. by rewrite Ha.
  - sim_answer Hs. split; [|done]. unfold list_replicas. apply Forall_fmap, Forall_forall.
    intros k _. apply sim_vm_placed.
  - simpl in Hs. split; [done|]. simpl. revert Hs.
    case_match eqn:Hvm; intros [= <- <-]; [|by left].
    right. eexists. split; [|done]. eexists. split; [done|]. left.
    match goal with |- context [?vm <| hv_meta ::= marked_meta |>] =>
      by exists (vm <| hv_meta ::= marked_meta |>) end.
  - simpl in Hs. split; [done|]. simpl. case_decide as Hd; injection Hs as <- <-;
      try (eexists; split; [|done]); [|by left].
    destruct Hd as [Hv Hn]. right. eexists. split; [|done]. unfold put. rewrite decide_True by done.
    split; [done|]. by exists obj.
  - simpl in Hs. split; [done|]. simpl. case_decide as Hd; injection Hs as <- <-;
      try (eexists; split; [|done]); [|by left].
    destruct Hd as [Hv Hn]. right. eexists. split; [|done]. unfold put. rewrite decide_True by done.
    split; [done|]. by exists obj.
  - simpl in Hs. split; [done|]. simpl. revert Hs. case_match eqn:Hp; intros [= <- <-].
    eexists. split; [done|]. apply sim_patch_allowed in Hp as [_ Ho]; [|done..]. by split.
  - simpl in Hs. split; [done|]. simpl. revert Hs. case_match eqn:Hp; intros [= <- <-].
    eexists. split; [done|]. apply sim_patch_allowed in Hp as [_ Ho]; [|done..]. by split.
  - simpl in Hs. split; [done|]. simpl. revert Hs. case_match eqn:Hp; intros [= <- <-].
    eexists. split; [done|]. apply sim_patch_allowed in Hp as [_ Ho]; [|done..]. by split.
  - sim_answer Hs. split; [done|]. eexists. split; [done|]. intros x.
    rewrite elem_of_union, elem_of_singleton. intros [->|Hx]; [right; by left|by left].
  - sim_answer Hs. split; [done|]. eexists. split; [done|]. split; [set_solver|]. set_solver.
Qed.

(** The life of a cluster's load balancer and of a machine. The cluster's worker makes the
    load balancer object, whose worker makes a replica's object and the agent's load
    balancer; the machine's worker makes the virtual machine object, is told that it is not
    found, and gives up; the worker of that object makes what the agent has, and the machine's
    worker finds the object when it runs again. Somebody deletes the load balancer and the
    machine, and the workers that follow take everything of them away. *)
Definition after (a : actor) (σ : system) : system :=
  world_after (serve a) σ (calls_of (L:=Ref.ref_libs) serve a σ).
Definition mark_machine (m : AzureStackHCIMachine) := m <| hm_meta ::= marked_meta |>.
Definition mark_lb (lb : AzureStackHCILoadBalancer) := lb <| lb_meta ::= marked_meta |>.
Definition deletion (σ : system) : system :=
  with_lbs (alter mark_lb lb_key (sys_lbs σ))
    (with_machines (alter mark_machine key (sys_machines σ)) σ).
Definition w0 : system := mkSystem {[ key := ex_machine ]} ∅ ∅ ∅ ∅.
Definition w1 : system := after (ClusterWorker cluster_key) w0.
Definition w2 : system := after (LBWorker lb_key) w1.
Definition w3 : system := after (MachineWorker key) w2.
Definition w4 : system := after (VMWorker key) w3.
Definition w5 : system := after (MachineWorker key) w4.
Definition w6 : system := deletion w5.
Definition w7 : system := after (LBWorker lb_key) w6.
Definition w8 : system := after (MachineWorker key) w7.
Definition w9 : system := after (VMWorker key) w8.
Definition w10 : system := after (MachineWorker key) w9.
Definition leads (σ σ' : system) : Prop :=
  rtc (exec (L:=Ref.ref_libs) names (system_of serve)) (mkConfig σ ∅) (mkConfig σ' ∅).
Lemma worker_leads a σ :
  answered (serve a) σ (calls_of (L:=Ref.ref_libs) serve a σ) → leads σ (after a σ).
Proof. by apply exec_worker. Qed.
Lemma leads_trans σ1 σ2 σ3 : leads σ1 σ2 → leads σ2 σ3 → leads σ1 σ3.
Proof. unfold leads. intros H12 H23. by etrans. Qed.
(** Somebody marks an object. *)
Lemma marked_moves {O R P} `{G : Guard O R P} (home : NamespacedName → P) (f : O → O) k os
    (a : gset R) :
  (∀ o, place_of (f o) = place_of o) → (∀ o, GetFinalizers (f o) = GetFinalizers o) →
  placed home (mkWorld os a) → moves home None (mkWorld os a) (mkWorld (alter f k os) a).
Proof.
  intros Hpl Hf Hp. destruct (os !! k) as [o|] eqn:Ho.
  - assert (alter f k os = <[k := f o]> os) as ->.
    { apply map_eq. intros j. destruct (decide (j = k)) as [->|]; by simplify_map_eq. }
    apply (stored_moves home _ _ _ _ _ Hp Ho); [rewrite Hpl; by apply Hp|].
    unfold finalized. by rewrite Hf.
  - assert (alter f k os = os) as ->; [|done].
    apply map_eq. intros j. destruct (decide (j = k)) as [->|]; by simplify_map_eq.
Qed.
Lemma deletion_leads σ : consistent names σ → leads σ (deletion σ).
Proof.
  intros ([Hm _]&_&[Hl _]). apply rtc_once, exec_others. split_and!; [|done|].
  - by apply (marked_moves id mark_machine key).
  - by apply (marked_moves (G:=lb_guard home) home mark_lb lb_key).
Qed.
Ltac worker_runs a := apply (worker_leads a); vm_compute; repeat split.
Lemma made : leads w0 w5.
Proof.
  apply (leads_trans _ w1); [by worker_runs (ClusterWorker cluster_key)|].
  apply (leads_trans _ w2); [by worker_runs (LBWorker lb_key)|].
  apply (leads_trans _ w3); [by worker_runs (MachineWorker key)|].
  apply (leads_trans _ w4); [by worker_runs (VMWorker key)|].
  by worker_runs (MachineWorker key).
Qed.
Lemma taken_away : leads w6 w10.
Proof.
  apply (leads_trans _ w7); [by worker_runs (LBWorker lb_key)|].
  apply (leads_trans _ w8); [by worker_runs (MachineWorker key)|].
  apply (leads_trans _ w9); [by worker_runs (VMWorker key)|].
  by worker_runs (MachineWorker key).
Qed.
Lemma w0_consistent : consistent names w0.
Proof.
  assert (Hm : placed id (machine_view names w0)).
  { intros k o. simpl. by intros [<- <-]%lookup_singleton_Some. }
  split_and!; try done; intros k x _ Hx; try by apply not_elem_of_empty in Hx.
Qed.
Lemma not_kept {O R P} `{G : Guard O R P} k (w : world O R) : objects w !! k = None → ¬ kept k w.
Proof. intros Hk (o&Ho&_). by rewrite Hk in Ho. Qed.
Lemma machine_gone : ¬ kept key (machine_view names w10).
Proof. apply not_kept. by vm_compute. Qed.
Lemma vm_object_gone : sys_vms w10 !! key = None.
Proof. by vm_compute. Qed.
Lemma lb_gone : ¬ kept (G:=lb_guard home) lb_key (lb_view w10).
Proof. apply (not_kept (G:=lb_guard home)). by vm_compute. Qed.
End SystemSim.

