(* ===== verification/WellFormed.v ===== *)
(** * Well-formed objects

    What the types of the fields and the API conventions ask of an object: no finalizer and no
    condition type twice, counters and ports within an int32, a phase that reads back. Every
    controller keeps it: whatever it patches is well-formed when what it read was. *)
From stdpp Require Import prelude strings list gmap.
From S2P Require Import Prelude GoStd External Api Effects Util Naming Scope Example.
From S2P Require Import Telemetry Interfaces Services NetServices VMService VirtualMachine.
From S2P Require Import Machine LoadBalancer Cluster ClusterDelete Protocol.
From S2P Require Import VMProtocol MachineProtocol.
Local Open Scope prog_scope.

(** ** Objects *)
Definition tidy {T} `{Object T} `{Conditioned T} (o : T) : Prop :=
  NoDup (GetFinalizers o) ∧ NoDup (metav1.c_Type <$> GetConditions o).
Definition tidy_status (st : AzureStackHCILoadBalancerStatus) : Prop :=
  is_int32 (lst_Replicas st) ∧ is_int32 (lst_ReadyReplicas st) ∧
  is_int32 (lst_FailedReplicas st) ∧ is_int32 (lst_Port st) ∧
  (lst_Phase st = "" ∨ LoadBalancerStatus.GetTypedPhase st ≠ LBPhaseUnknown).
Definition tidy_load_balancer (o : AzureStackHCILoadBalancer) : Prop :=
  tidy o ∧ tidy_status (lb_Status o).
Definition tidy_cluster (o : AzureStackHCICluster) : Prop :=
  tidy o ∧ is_int32 (clusterv1.Port (cs_ControlPlaneEndpoint (hc_Spec o))) ∧
  (cst_Phase (hc_Status o) = "" ∨ ClusterStatus.GetTypedPhase (hc_Status o) ≠ ClusterPhaseUnknown).
Definition well_formed (k : kind) : kobj k → Prop :=
  match k with
  | KMachine => λ o : AzureStackHCIMachine, tidy o
  | KVirtualMachine => λ o : AzureStackHCIVirtualMachine, tidy o
  | KLoadBalancer => tidy_load_balancer
  | KCluster => tidy_cluster
  | KCapiCluster => λ o, is_int32 (clusterv1.cl_APIServerPort o)
  | KSecret | KCapiMachine => λ _, True
  end.

(** What an answer brings in, and what a patch stores *)
Definition brings_well_formed (e : event) : Prop :=
  match e with
  | Ev c r =>
      match c in Call R return R → Prop with
      | KGet k _ => λ r, match r with inr o => well_formed k o | inl _ => True end
      | GetOwnerCluster _ => λ r,
          match r with inr (Some o) => well_formed KCapiCluster o | _ => True end
      | GetClusterFromMetadata _ => λ r,
          match r with inr o => well_formed KCapiCluster o | inl _ => True end
      | _ => λ _, True
      end r
  end.
Definition patches_well_formed (e : event) : Prop :=
  match e with Ev (KPatch k _ obj _) _ => well_formed k obj | _ => True end.
Definition is_patch {R} (c : Call R) : bool :=
  match c with KPatch _ _ _ _ => true | _ => false end.

(** ** Programs that keep their scope well-formed *)
Section Safe.
Context {S : Type} (wf : S → Prop).
(** From a well-formed scope, the program makes a well-formed one and patches nothing else. *)
Definition safe : relation (S * trace) := λ x y,
  ∃ new, y.2 = new ++ x.2 ∧ (wf x.1 → wf y.1 ∧ Forall patches_well_formed new).
#[export] Instance safe_preorder : PreOrder safe.
Proof.
  split; [intros x; exists []; split; [done|]; by split; [|constructor]|].
  intros x y z (n1&H1&W1) (n2&H2&W2). exists (n2 ++ n1). split; [by rewrite H2, H1, app_assoc|].
  intros [Hy Hn1]%W1. apply W2 in Hy as [Hz Hn2]. split; [done|]. by apply Forall_app.
Qed.
Lemma safe_modify f : (∀ s, wf s → wf (f s)) → frame safe (modify f).
Proof. intros Hf env s t. exists []. split; [done|]. split; [by apply Hf|constructor]. Qed.
Lemma quiet_well_formed new :
  Forall (ev_not (@is_patch)) new → Forall patches_well_formed new.
Proof. intros Hn. eapply Forall_impl; [exact Hn|]. by intros [R [] r]. Qed.
Lemma safe_quiet {A} (m : prog S A) :
  frame (extends (ev_not (@is_patch))) m → frame keeps m → frame safe m.
Proof.
  intros Hm Hk env s t. destruct (Hm env s t) as (new&Hn&Hq). specialize (Hk env s t).
  exists new. split; [exact Hn|]. unfold keeps, on_state in Hk. simpl in *. intros Hs.
  split; [by rewrite <-Hk|]. by apply quiet_well_formed.
Qed.
Lemma safe_call {R} (c : Call R) : is_patch c = false → frame safe (call c).
Proof. intros Hc. apply safe_quiet; [by apply frame_extends_call|apply keeps_call]. Qed.
Lemma safe_run_in {S' A} (s0 : S') (m : prog S' A) :
  frame (extends (ev_not (@is_patch))) m → frame safe (run_in s0 m).
Proof.
  intros Hm. apply safe_quiet; [by apply frame_extends_run_in|by apply frame_state_run_in].
Qed.
(** The patch of the object in the scope *)
Lemma safe_patch k before (obj : S → kobj k) fields :
  (∀ s, wf s → well_formed k (obj s)) →
  frame safe (b <- gets before ;; o <- gets obj ;; call (KPatch k b o fields)).
Proof.
  intros Ho env s t. unfold bind, gets, call. simpl. eexists [_]. split; [done|].
  intros Hs. split; [done|]. repeat constructor. by apply Ho.
Qed.
(** A run from a well-formed scope *)
Lemma safe_run {A} env (m : prog S A) s t :
  frame safe m → wf s →
  wp env m (λ _ s' t', ∃ new, t' = new ++ t ∧ Forall patches_well_formed new) s t.
Proof.
  intros Hm Hs. eapply wp_by_frame; [exact Hm|]. intros o s' t' (new&Heq&Hw). exists new.
  split; [exact Heq|]. by apply Hw.
Qed.
End Safe.

Lemma getMachineReplicaCounts_range vms :
  is_int32 (LBController.getMachineReplicaCounts vms).1 ∧
  is_int32 (LBController.getMachineReplicaCounts vms).2.
Proof.
  split; [apply int32_range|]. simpl. assert (H0 : is_int32 0) by done. revert H0.
  generalize 0%Z. induction vms as [|vm vms IH]; intros z Hz; simpl; [done|]. apply IH.
  repeat case_match; auto using int32_range.
Qed.

(** ** The four controllers *)
Ltac safe_step :=
  lazymatch goal with
  | |- frame (safe _) (modify _) => apply safe_modify; intros ? ?
  | |- frame (safe _) (call _) => apply safe_call; done
  | |- frame (safe _) (run_in _ _) => apply safe_run_in; solve [frame_auto]
  | |- frame (safe _) (SetCondition _ _ _) => unfold SetCondition
  | |- frame (safe _) VirtualMachineScope.PatchObject => apply safe_patch; intros ? Hwf; apply Hwf
  | |- frame (safe _) MachineScope.PatchObject => apply safe_patch; intros ? Hwf; apply Hwf
  | |- frame (safe _) LoadBalancerScope.PatchObject => apply safe_patch; intros ? Hwf; apply Hwf
  | |- frame (safe _) VirtualMachineScope.Close => apply safe_patch; intros ? Hwf; apply Hwf
  | |- frame (safe _) MachineScope.Close => apply safe_patch; intros ? Hwf; apply Hwf
  | |- frame (safe _) LoadBalancerScope.Close => apply safe_patch; intros ? Hwf; apply Hwf
  | |- frame (safe _) ClusterScope.Close => apply safe_patch; intros ? Hwf; apply Hwf
  | |- frame (safe _) ClusterScope.PatchObject => apply safe_patch; intros ? Hwf; apply Hwf
  | |- frame (safe _) (PollImmediate _ _ _) => unfold PollImmediate
  | |- frame (safe _) (CreateOrUpdate _ _ _) =>
      apply frame_CreateOrUpdate; [apply _|intros ?|intros ?|intros ?]
  | |- frame (safe _) (poll _ _) => apply frame_poll; [apply _|]
  | |- frame (safe _) _ => frame_step
  end.
Ltac safe_auto :=
  repeat first [ safe_step
               | solve [eauto 2 with safe nocore]
               | apply safe_quiet; [solve [frame_auto]|solve [frame_auto]] ].
Ltac lb_service := cbn [gsvc_Get gsvc_Reconcile gsvc_Delete loadbalancers.NewService].
Ltac cluster_services :=
  cbn [svc_Reconcile svc_Delete ClusterReconciler.vnetSvc ClusterReconciler.groupSvc
       ClusterReconciler.keyvaultSvc ClusterReconciler.newAzureStackHCIClusterReconciler
       virtualnetworks.NewService groups.NewService keyvaults.NewService].
(** What a change of the object leaves of it *)
Ltac still_tidy :=
  unfold well_formed, tidy_load_balancer, tidy_status, tidy_cluster, tidy in *;
  destruct_and?; split_and?;
  first [ assumption | apply conditions_Set_NoDup; assumption
        | apply AddFinalizer_NoDup; assumption | apply RemoveFinalizer_NoDup; assumption
        | apply int32_range ].

Section VirtualMachine.
Context {L : Libs} {LL : LibLaws L}.
Import VirtualMachineScope VMReconciler VMController.
Local Notation fine := (λ s, well_formed KVirtualMachine (HCIVM s)).
Lemma safe_vm_normal : frame (safe fine) reconcileNormal.
Proof.
  unfold reconcileNormal, getOrCreate, findVM, setVMProvisionFailure, report_state, record,
    set_condition.
  safe_auto; still_tidy.
Qed.
Lemma safe_vm_delete : frame (safe fine) reconcileDelete.
Proof.
  unfold reconcileDelete, VMReconciler.Delete, volumes_detached, ListVolumeAttachments,
    NewTargetClusterClient, NewTargetClusterConfig, GetNodeName, ListVolumeAttachmentOnNode,
    record, set_condition.
  vm_services. safe_auto; still_tidy.
Qed.
End VirtualMachine.

Section Machine.
Context {L : Libs} {LL : LibLaws L}.
Import MachineScope MachineController.
Local Notation fine := (λ s, well_formed KMachine (HCIMachine s)).
Lemma safe_machine_normal cs : frame (safe fine) (reconcileNormal cs).
Proof.
  unfold reconcileNormal, reconcileVirtualMachineNormal, after_CreateOrUpdate, mutateFn,
    GetBootstrapData, getVMImage, report_vm, report_state, merge_conditions, record,
    set_condition.
  safe_auto; still_tidy.
Qed.
Lemma safe_machine_delete cs : frame (safe fine) (reconcileDelete cs).
Proof. unfold reconcileDelete, reconcileVirtualMachineDelete. safe_auto; still_tidy. Qed.
End Machine.

Lemma APIServerPort_range cs :
  is_int32 (clusterv1.cl_APIServerPort (ClusterScope.Cluster cs)) →
  is_int32 (ClusterScope.APIServerPort cs).
Proof. unfold ClusterScope.APIServerPort. by case_decide. Qed.

Section LoadBalancer.
Context {L : Libs} {LL : LibLaws L}.
Import LoadBalancerScope LBController.
Context (cs : ClusterScope).
Local Notation fine := (λ s, well_formed KLoadBalancer (LB s) ∧
                             well_formed KCapiCluster (ClusterScope.Cluster cs)).
Lemma safe_lb_status : frame (safe fine) (reconcileLoadBalancerServiceStatus cs).
Proof.
  unfold reconcileLoadBalancerServiceStatus, frontend_address. lb_service.
  safe_auto; still_tidy.
Qed.
Hint Resolve safe_lb_status : safe.
Lemma safe_scaleUp : frame (safe fine) (scaleUpVirtualMachines cs).
Proof.
  unfold scaleUpVirtualMachines, createOrUpdateVirtualMachine, mutateFn, getVMImage,
    GenerateAzureStackHCILoadBalancerMachineName, record.
  safe_auto; still_tidy.
Qed.
Lemma status_tidy f s :
  fine s → lst_Conditions (f (Status s)) = lst_Conditions (Status s) → tidy_status (f (Status s)) →
  fine (on_status f s).
Proof.
  intros [[[Hf Hc] _] Hp] Heq Hst. split; [|done]. split; [|done]. split; [done|].
  by change (NoDup (metav1.c_Type <$> lst_Conditions (f (Status s)))); rewrite Heq.
Qed.
Lemma RemoveReplica_tidy s : fine s → fine (RemoveReplica s).
Proof.
  intros Hs. apply status_tidy; [done|by case_match|]. destruct Hs as [[_ Hs] _].
  case_match; [|done]. destruct Hs as (?&?&?&?&?). split_and!; try done. apply int32_range.
Qed.
Lemma safe_scaleDown vms : frame (safe fine) (scaleDownVirtualMachines cs vms).
Proof.
  unfold scaleDownVirtualMachines, deleteVirtualMachine, record.
  safe_auto; by apply RemoveReplica_tidy.
Qed.
Lemma safe_counts vms : frame (safe fine) (updateReplicaStatus cs vms).
Proof.
  unfold updateReplicaStatus. destruct (getMachineReplicaCounts_range vms) as [Hr Hf].
  destruct (getMachineReplicaCounts vms) as [r f]. safe_auto; still_tidy.
Qed.
Hint Resolve safe_scaleUp safe_scaleDown safe_counts : safe.
Lemma safe_lb_machines : frame (safe fine) (reconcileVirtualMachines cs).
Proof.
  unfold reconcileVirtualMachines, getVirtualMachinesForLoadBalancer, scale_replicas,
    scale_up_to_max, replicas_condition, set_condition, record.
  safe_auto; still_tidy.
Qed.
Hint Resolve safe_lb_machines : safe.
Lemma safe_lb_normal : frame (safe fine) (reconcileNormal cs).
Proof.
  unfold reconcileNormal, reconcileLoadBalancerService, report_address, report_ready,
    infrastructure_condition, set_condition, record. lb_service.
  safe_auto; try (still_tidy; fail).
  match goal with H : _ ∧ _ |- _ => pose proof (APIServerPort_range cs (proj2 H)) end. still_tidy.
Qed.
Lemma safe_lb_delete : frame (safe fine) (reconcileDelete cs).
Proof.
  unfold reconcileDelete, reconcileDeleteLoadBalancerService, reconcileDeleteVirtualMachines,
    getVirtualMachinesForLoadBalancer, deleteVirtualMachine, infrastructure_condition,
    set_condition, record. lb_service.
  safe_auto; still_tidy.
Qed.
Lemma phase_tidy p s :
  p ≠ LBPhaseUnknown → fine s → fine (SetPhase p s).
Proof.
  intros Hp Hs. apply status_tidy; [done..|]. destruct Hs as [[_ (?&?&?&?&_)] _].
  split_and!; try done. right. by destruct p.
Qed.
Lemma safe_lb_close : frame (safe fine) (reconcileStatus ;; Close).
Proof.
  unfold reconcileStatus, infrastructure_condition, set_condition.
  safe_auto; try (still_tidy; fail); apply phase_tidy; try done; by case_match.
Qed.
End LoadBalancer.

Section Cluster.
Context {L : Libs} {LL : LibLaws L}.
Import ClusterScope ClusterController.
Local Notation fine :=
  (λ s, well_formed KCluster (HCICluster s) ∧ well_formed KCapiCluster (Cluster s)).
Lemma endpoint_tidy host s : fine s → fine (set_endpoint host s).
Proof.
  intros [(?&_&?) Hp]. split; [|done]. split; [done|]. split; [by apply APIServerPort_range|done].
Qed.
Lemma reconcile_phase_tidy s : fine s → fine (s <| HCICluster ::= reconcile_phase |>).
Proof.
  intros [(?&?&_) Hp]. split; [|done].
  destruct (reconcile_phase_shows (HCICluster s)) as [Hshows [p Heq]].
  change (tidy_cluster (reconcile_phase (HCICluster s))). split; [by rewrite Heq|].
  split; [by rewrite Heq|]. right. destruct Hshows as (Hd&Hprov&Hing). intros Hu.
  rewrite Hu in *. destruct (NotDeleted _); naive_solver.
Qed.
Lemma safe_cluster_load_balancer : frame (safe fine) reconcileAzureStackHCILoadBalancer.
Proof.
  unfold reconcileAzureStackHCILoadBalancer, mutateFn, network_condition.
  safe_auto; try (still_tidy; fail).
  by apply endpoint_tidy.
Qed.
Hint Resolve safe_cluster_load_balancer : safe.
Lemma safe_cluster_normal : frame (safe fine) reconcileNormal.
Proof.
  unfold reconcileNormal, ClusterReconciler.Reconcile, network_condition, record. cluster_services.
  safe_auto; try (still_tidy; fail).
  unfold ClusterReconciler.createOrUpdateVnetName. by case_decide.
Qed.
Lemma safe_cluster_delete : frame (safe fine) reconcileDelete.
Proof.
  unfold reconcileDelete, reconcileDeleteAzureStackHCILoadBalancer, delete_services,
    ClusterReconciler.Delete, deleteOrphanedMachines, delete_orphan,
    GetAzureStackHCIMachinesInCluster, network_condition, record. cluster_services.
  safe_auto; still_tidy.
Qed.
Lemma safe_cluster_close : frame (safe fine) (reconcilePhase ;; Close).
Proof.
  unfold reconcilePhase. 
  safe_auto. by apply reconcile_phase_tidy.
Qed.
End Cluster.

(** ** The whole runs *)
Section Runs.
Context {L : Libs} {LL : LibLaws L}.

Definition keeps_well_formed : trace → Prop :=
  each (λ e earlier, Forall brings_well_formed earlier → patches_well_formed e).
Lemma silent_keeps t : Forall (ev_is (@is_silent)) t → keeps_well_formed t.
Proof.
  intros Ht. rewrite <-(app_nil_r t). apply each_app; [apply each_nil|].
  eapply Forall_impl; [exact Ht|]. by intros [R [] r].
Qed.
(** A handler that is safe runs on a scope of what was read. *)
Lemma handler_keeps {S} (wf : S → Prop) env close body s t :
  frame (safe wf) close → frame (safe wf) body → Forall (ev_is (@is_silent)) t →
  (Forall brings_well_formed t → wf s) →
  wp env (with_close close body) (λ _ _ t', keeps_well_formed t') s t.
Proof.
  intros Hclose Hbody Ht Hs.
  assert (Hm : frame (safe wf) (with_close close body)) by (unfold with_close; frame_auto; done).
  eapply wp_by_frame; [exact Hm|].
  intros o s' t' (new&Heq&Hw). simpl in Heq. subst t'.
  apply each_above; [by apply silent_keeps|]. intros later e earlier -> [_ Ht']%Forall_app.
  apply Hs in Ht'. apply Hw in Ht' as [_ Hn]. by apply Forall_app in Hn as [_ [He _]%Forall_cons].
Qed.
Ltac keeps_silent :=
  apply silent_keeps; repeat first [ done | constructor | apply Forall_app; split ].

Lemma vm_keeps env key :
  wp env (VMController.Reconcile key) (λ _ _ t, keeps_well_formed t) tt [].
Proof.
  unfold VMController.Reconcile.
  wp_run_to (VirtualMachineScope.NewVirtualMachineScope (S:=unit)); try keeps_silent.
  apply wp_NewVirtualMachineScope. intros res new Hn Hs.
  destruct res as [[err|s]|w|]; [wp_run; keeps_silent| |keeps_silent..].
  destruct (Hs _ eq_refl) as [_ Ho]. wp_step.
  apply (handler_keeps (λ s, well_formed KVirtualMachine (VirtualMachineScope.HCIVM s))).
  - safe_auto.
  - by case_match; [apply safe_vm_normal|apply safe_vm_delete].
  - apply Forall_app. by repeat constructor.
  - intros [_ [Hv _]%Forall_cons]%Forall_app. by rewrite Ho.
Qed.
Lemma machine_keeps env key :
  wp env (MachineController.Reconcile key) (λ _ _ t, keeps_well_formed t) tt [].
Proof.
  apply wp_machine_Reconcile; [by intros; apply silent_keeps|].
  intros cs s t Ht (m&ck&Ho&_) Hb.
  apply (handler_keeps (λ s, well_formed KMachine (MachineScope.HCIMachine s))).
  - safe_auto.
  - by case_match; [apply safe_machine_normal|apply safe_machine_delete].
  - done.
  - intros Hbr. rewrite Forall_forall in Hbr. by apply Hbr in Ho.
Qed.
Lemma lb_keeps env key :
  wp env (LBController.Reconcile key) (λ _ _ t, keeps_well_formed t) tt [].
Proof.
  unfold LBController.Reconcile.
  wp_run_to (ClusterScope.NewClusterScope (S:=unit)); try keeps_silent.
  match goal with |- wp _ _ _ _ ?tr => set (t0 := tr) end.
  apply wp_NewClusterScope. intros res n1 Hn1 Hcs.
  destruct res as [[err|cs]|w|]; [wp_run; keeps_silent| |keeps_silent..].
  destruct (Hcs _ eq_refl) as [Hc _].
  wp_step. apply wp_NewLoadBalancerScope. intros res n2 Hn2 Hs.
  destruct res as [[err|s]|w|]; [wp_run; keeps_silent| |keeps_silent..].
  destruct (Hs _ eq_refl) as [_ Ho]. wp_step.
  assert (Ht : Forall (ev_is (@is_silent)) (n2 ++ n1 ++ t0))
    by (repeat (apply Forall_app; split; [done|]); by repeat constructor).
  apply (handler_keeps (λ s, well_formed KLoadBalancer (LoadBalancerScope.LB s) ∧
                             well_formed KCapiCluster (ClusterScope.Cluster cs))).
  - apply safe_lb_close.
  - case_match; [apply safe_lb_normal|apply safe_lb_delete].
  - done.
  - rewrite Ho, Hc. subst t0. rewrite !Forall_app, !Forall_cons. by intros (_&_&_&?&?&_).
Qed.
Lemma cluster_keeps env key :
  wp env (ClusterController.Reconcile key) (λ _ _ t, keeps_well_formed t) tt [].
Proof.
  unfold ClusterController.Reconcile.
  wp_run_to (ClusterScope.NewClusterScope (S:=unit)); try keeps_silent.
  match goal with |- wp _ _ _ _ ?tr => set (t0 := tr) end.
  apply wp_NewClusterScope. intros res n1 Hn1 Hcs.
  destruct res as [[err|s]|w|]; [wp_run; keeps_silent| |keeps_silent..].
  destruct (Hcs _ eq_refl) as [Hc Hhc]. wp_step.
  apply (handler_keeps (λ s, well_formed KCluster (ClusterScope.HCICluster s) ∧
                             well_formed KCapiCluster (ClusterScope.Cluster s))).
  - apply safe_cluster_close.
  - case_match; [apply safe_cluster_normal|apply safe_cluster_delete].
  - apply Forall_app. by repeat constructor.
  - rewrite Hc, Hhc. subst t0. rewrite Forall_app, !Forall_cons. by intros (_&?&?&_).
Qed.

(** C6: The controllers keep the objects well-formed. Whatever the API server and the agent
    answer, if the objects that a run of any of the four controllers has read so far are
    well-formed, so is every object it patches: no finalizer and no type of condition is in it
    twice, the counters of replicas and the ports are int32 numbers although the run adds to
    them and takes their values from lists and from the agent, and its phase, if it has one,
    is one of the phases of its type. *)
Theorem controllers_keep_well_formed env key :
  wp env (VMController.Reconcile key) (λ _ _ t, keeps_well_formed t) tt [] ∧
  wp env (MachineController.Reconcile key) (λ _ _ t, keeps_well_formed t) tt [] ∧
  wp env (LBController.Reconcile key) (λ _ _ t, keeps_well_formed t) tt [] ∧
  wp env (ClusterController.Reconcile key) (λ _ _ t, keeps_well_formed t) tt [].
Proof. split_and!; [apply vm_keeps|apply machine_keeps|apply lb_keeps|apply cluster_keeps]. Qed.
End Runs.

(** The objects of the example are well-formed. *)
Lemma ex_well_formed k : well_formed k (ex_kobj k).
Proof.
  destruct k; try done; repeat first [ apply NoDup_nil_2 | by left | done | split ].
Qed.
Lemma ex_brings t X (c : Call X) : brings_well_formed (Ev c (ex_env t X c)).
Proof.
  destruct c; try done; [apply ex_well_formed|apply (ex_well_formed KCapiCluster)..].
Qed.

Lemma keeps_all t :
  keeps_well_formed t → Forall brings_well_formed t → Forall patches_well_formed t.
Proof.
  intros Hk Hb. apply Forall_forall. intros e (later&earlier&->)%list_elem_of_split.
  apply Forall_app in Hb as [_ [_ Hb]%Forall_cons]. by apply (Hk later e earlier).
Qed.

Lemma controllers_keep_well_formed_witness :
  let t := (LBController.Reconcile (L:=Ref.ref_libs) (mkNN "default" "cluster-load-balancer")
              ex_env tt []).2 in
  Exists (ev_is (@is_patch)) t ∧ Forall patches_well_formed t.
Proof.
  cbv zeta. destruct (controllers_keep_well_formed (LL:=Ref.ref_laws) ex_env
    (mkNN "default" "cluster-load-balancer")) as (_&_&Hlb&_). unfold wp in Hlb. revert Hlb.
  set (t := (LBController.Reconcile _ _ _ _).2). intros Ht.
  assert (Ha : answered (λ X c (_ : unit), (ex_env [] X c, tt)) tt t) by (vm_compute; repeat split).
  split; [refine (bool_decide_unpack _ _); vm_compute; exact I|]. apply keeps_all; [exact Ht|].
  revert Ha. clear Ht. generalize t. induction t0 as [|[X c r] t0 IH]; [done|].
  intros [-> Ha]. constructor; [apply ex_brings|by apply IH].
Defined.
