(* ===== verification/Manager.v ===== *)
(** * The process around the controllers

    cmd/manager/main.go as a program over the calls it makes of controller-runtime, with the
    watches each controller registers, the conversion webhooks, the loggers of the
    controllers, the health check of pkg/network and the event recorder of pkg/record.
    [os.Exit(1)] ends [main] with [Some 1]; a return ends it with [None]. *)
From stdpp Require Import prelude strings list.
From Stdlib Require Import Ascii.
From S2P Require Import Prelude GoStd External Api Effects.
Local Open Scope prog_scope.

(** ** What is registered with the manager *)
Inductive api_object :=
  | OCluster | OMachine | OMachineTemplate | OVirtualMachine | OLoadBalancer | OCapiMachine.
Inductive api_version := V1beta1 | V1beta2.
(** From a changed object to the keys of the objects to reconcile *)
Inductive event_mapping :=
  | MachineToInfrastructure (infrastructure : api_object)
  | ClusterToMachines
  | RequestForOwner (owner : api_object).
(** controller.Options; the rate limiter is the library's default everywhere. *)
Record controller_Options := mkControllerOptions { MaxConcurrentReconciles : Z }.
(** ctrl.NewControllerManagedBy(mgr) up to Complete *)
Record controller_builder := mkBuilder {
  b_Options : controller_Options; b_For : api_object;
  b_Watches : list (api_object * event_mapping) }.
(** ctrl.Options *)
Record manager_Options := mkManagerOptions {
  mo_LeaderElection : bool; mo_LeaderElectionID : string; mo_HealthProbeBindAddress : string;
  mo_BurstSize : Z; mo_DefaultNamespaces : option (list string); mo_SyncPeriod : Z;
  mo_WebhookPort : Z }.
(** The variables the flags set *)
Record flags := mkFlags {
  enableLeaderElection : bool; watchNamespace : string; profilerAddress : string;
  azureStackHCIClusterConcurrency : Z; azureStackHCIMachineConcurrency : Z;
  azureStackHCIloadBalancerConcurrency : Z; azureStackHCIVirtualMachineConcurrency : Z;
  syncPeriod : Z; healthAddr : string; webhookPort : Z }.
Inductive health_check := Ping | Endpoint (address : string).

(** The calls [main] makes. [GetConfigOrDie] without an answer has ended the process. *)
Inductive StartCall : Type → Type :=
  | Parse (defaults : flags) : StartCall flags
  | GoListenAndServe (address : string) : StartCall unit
  | GetConfigOrDie : StartCall (option RestConfig)
  | NewManager (config : RestConfig) (options : manager_Options) : StartCall (option error)
  | InitEventRecorder (name : string) : StartCall unit
  | CompleteController (b : controller_builder) : StartCall (option error)
  | CompleteWebhook (v : api_version) (o : api_object) : StartCall (option error)
  | AddReadyzCheck (name : string) (c : health_check) : StartCall (option error)
  | AddHealthzCheck (name : string) (c : health_check) : StartCall (option error)
  | LookupEnv (name : string) : StartCall string
  | Start : StartCall (option error)
  | DialTimeout (network address : string) (timeout : Z) : StartCall (option error).
Notation start_prog := (Prelude.prog StartCall).
Notation start_trace := (Prelude.trace StartCall).

(** ** SetupWithManager of the controllers *)
Module MachineSetup.
Definition SetupWithManager {S} (options : controller_Options) : start_prog S (option error) :=
  call (CompleteController (mkBuilder options OMachine
    [(OCapiMachine, MachineToInfrastructure OMachine); (OCluster, ClusterToMachines);
     (OVirtualMachine, RequestForOwner OMachine)])).
End MachineSetup.
Module ClusterSetup.
Definition SetupWithManager {S} (options : controller_Options) : start_prog S (option error) :=
  call (CompleteController (mkBuilder options OCluster [])).
End ClusterSetup.
Module LoadBalancerSetup.
Definition SetupWithManager {S} (options : controller_Options) : start_prog S (option error) :=
  call (CompleteController (mkBuilder options OLoadBalancer
    [(OVirtualMachine, RequestForOwner OLoadBalancer)])).
End LoadBalancerSetup.
Module VirtualMachineSetup.
Definition SetupWithManager {S} (options : controller_Options) : start_prog S (option error) :=
  call (CompleteController (mkBuilder options OVirtualMachine [])).
End VirtualMachineSetup.

(** ** SetupWebhookWithManager of the types *)
Section Webhooks.
Context {S : Type}.
Local Notation webhook := (start_prog S (option error)).
Definition Cluster_SetupWebhookWithManager : webhook := call (CompleteWebhook V1beta2 OCluster).
Definition Machine_SetupWebhookWithManager : webhook := call (CompleteWebhook V1beta2 OMachine).
Definition MachineTemplate_SetupWebhookWithManager : webhook :=
  call (CompleteWebhook V1beta2 OMachineTemplate).
Definition VirtualMachine_SetupWebhookWithManager : webhook :=
  call (CompleteWebhook V1beta2 OVirtualMachine).
Definition LoadBalancer_SetupWebhookWithManager : webhook :=
  call (CompleteWebhook V1beta2 OLoadBalancer).
(** Those of v1beta1, which [main] does not call *)
Definition v1beta1_Cluster_SetupWebhookWithManager : webhook :=
  call (CompleteWebhook V1beta1 OCluster).
Definition v1beta1_Machine_SetupWebhookWithManager : webhook :=
  call (CompleteWebhook V1beta1 OMachine).
Definition v1beta1_MachineTemplate_SetupWebhookWithManager : webhook :=
  call (CompleteWebhook V1beta1 OMachineTemplate).
Definition v1beta1_VirtualMachine_SetupWebhookWithManager : webhook :=
  call (CompleteWebhook V1beta1 OVirtualMachine).
Definition v1beta1_LoadBalancer_SetupWebhookWithManager : webhook :=
  call (CompleteWebhook V1beta1 OLoadBalancer).
End Webhooks.

(** ** cmd/manager/main.go *)
(** The defaults of the flags *)
Definition InitFlags : flags :=
  {| enableLeaderElection := false; watchNamespace := ""; profilerAddress := "";
     azureStackHCIClusterConcurrency := 10; azureStackHCIMachineConcurrency := 10;
     azureStackHCIloadBalancerConcurrency := 10; azureStackHCIVirtualMachineConcurrency := 5;
     syncPeriod := (10 * Minute)%Z; healthAddr := ":9440"; webhookPort := 9443 |}.

Section Main.
Context {S : Type}.

Definition setupChecks : start_prog S (option Z) :=
  iferr _ <- call (AddReadyzCheck "ping" Ping) then ret (Some 1%Z) ;;
  cloudAgentFqdn <- call (LookupEnv "AZURESTACKHCI_CLOUDAGENT_FQDN") ;;
  if decide (cloudAgentFqdn = "") then ret (Some 1%Z)
  else
    let cloudAgentAddress := cloudAgentFqdn +:+ ":55000" in
    iferr _ <- call (AddHealthzCheck "ping" (Endpoint cloudAgentAddress)) then
      ret (Some 1%Z) ;;
    ret None.

(** The options of the manager *)
Definition manager_options (f : flags) : manager_Options :=
  {| mo_LeaderElection := enableLeaderElection f;
     mo_LeaderElectionID := "controller-leader-election-caph";
     mo_HealthProbeBindAddress := healthAddr f; mo_BurstSize := 100;
     mo_DefaultNamespaces :=
       if decide (watchNamespace f ≠ "") then Some [watchNamespace f] else None;
     mo_SyncPeriod := syncPeriod f; mo_WebhookPort := webhookPort f |}.

Definition main : start_prog S (option Z) :=
  f <- call (Parse InitFlags) ;;
  (if decide (profilerAddress f ≠ "") then call (GoListenAndServe (profilerAddress f))
   else ret tt) ;;
  config <- call GetConfigOrDie ;;
  match config with
  | None => ret (Some 1%Z)
  | Some config =>
      iferr _ <- call (NewManager config (manager_options f)) then ret (Some 1%Z) ;;
      call (InitEventRecorder "azurestackhci-controller") ;;
      iferr _ <- MachineSetup.SetupWithManager
                   (mkControllerOptions (azureStackHCIMachineConcurrency f)) then
        ret (Some 1%Z) ;;
      iferr _ <- ClusterSetup.SetupWithManager
                   (mkControllerOptions (azureStackHCIClusterConcurrency f)) then
        ret (Some 1%Z) ;;
      iferr _ <- LoadBalancerSetup.SetupWithManager
                   (mkControllerOptions (azureStackHCIloadBalancerConcurrency f)) then
        ret (Some 1%Z) ;;
      iferr _ <- VirtualMachineSetup.SetupWithManager
                   (mkControllerOptions (azureStackHCIVirtualMachineConcurrency f)) then
        ret (Some 1%Z) ;;
      iferr _ <- Cluster_SetupWebhookWithManager then ret (Some 1%Z) ;;
      iferr _ <- Machine_SetupWebhookWithManager then ret (Some 1%Z) ;;
      iferr _ <- MachineTemplate_SetupWebhookWithManager then ret (Some 1%Z) ;;
      iferr _ <- VirtualMachine_SetupWebhookWithManager then ret (Some 1%Z) ;;
      iferr _ <- LoadBalancer_SetupWebhookWithManager then ret (Some 1%Z) ;;
      exited <- setupChecks ;;
      match exited with
      | Some code => ret (Some code)
      | None =>
          iferr _ <- call Start then ret (Some 1%Z) ;;
          ret None
      end
  end.
End Main.

(** ** pkg/network *)
Definition EndpointChecker {S} (targetIPAddress : string) : start_prog S (option error) :=
  let dialTimeout := (1 * Second)%Z in
  iferr err <- call (DialTimeout "tcp" targetIPAddress dialTimeout) then
    ret (Some (ErrNew ("failed to dial: " +:+ Error err))) ;;
  ret None.

(** ** The loggers of the controllers

    A logger is the labels it puts on its lines. *)
Definition logger := list (string * string).
Section Loggers.
Context {S : Type}.
Definition nn_String (key : NamespacedName) : string :=
  nn_Namespace key +:+ "/" +:+ nn_Name key.
(** [log.WithValues("operationId", ..., "correlationId", ...)] *)
Definition with_operation {T} `{Object T} (o : T) (log : logger) : logger :=
  log ++ [("operationId", map_get (GetAnnotations o) AzureOperationIDAnnotationKey);
          ("correlationId", map_get (GetAnnotations o) AzureCorrelationIDAnnotationKey)].

Definition Cluster_ConstructLogger (log : logger) (req : option NamespacedName)
    : prog S logger :=
  match req with
  | None => ret log
  | Some key =>
      let log := log ++ [("azureStackHCICluster", nn_String key)] in
      try azureStackHCICluster <- call (KGet KCluster key) iferr err then ret log ;;
      ret (with_operation azureStackHCICluster log)
  end.
Definition Machine_ConstructLogger (log : logger) (req : option NamespacedName)
    : prog S logger :=
  match req with
  | None => ret log
  | Some key =>
      let log := log ++ [("azureStackHCIMachine", nn_String key)] in
      try azureStackHCIMachine <- call (KGet KMachine key) iferr err then ret log ;;
      ret (with_operation azureStackHCIMachine log)
  end.
Definition LoadBalancer_ConstructLogger (log : logger) (req : option NamespacedName)
    : prog S logger :=
  match req with
  | None => ret log
  | Some key =>
      let log := log ++ [("azureStackHCILoadBalancer", nn_String key)] in
      try azureStackHCILoadBalancer <- call (KGet KLoadBalancer key) iferr err then ret log ;;
      ret (with_operation azureStackHCILoadBalancer log)
  end.
Definition VirtualMachine_ConstructLogger (log : logger) (req : option NamespacedName)
    : prog S logger :=
  match req with
  | None => ret log
  | Some key =>
      let log := log ++ [("azureStackHCIVirtualMachine", nn_String key)] in
      try azureStackHCIVirtualMachine <- call (KGet KVirtualMachine key) iferr err then
        ret log ;;
      ret (with_operation azureStackHCIVirtualMachine log)
  end.
End Loggers.

(** ** pkg/record

    The package's recorder is set once; [Title] is [strings.Title], on ASCII. *)
Module Recorder.
Definition is_letter_or_digit (c : ascii) : bool :=
  let n := nat_of_ascii c in
  (48 <=? n) && (n <=? 57) || (65 <=? n) && (n <=? 90) || (97 <=? n) && (n <=? 122)
  || (n =? 95).
Definition ascii_upper (c : ascii) : ascii :=
  let n := nat_of_ascii c in
  if (97 <=? n) && (n <=? 122) then ascii_of_nat (n - 32) else c.
Fixpoint title_from (prev : ascii) (s : string) : string :=
  match s with
  | EmptyString => EmptyString
  | String c s' =>
      String (if is_letter_or_digit prev then c else ascii_upper c) (title_from c s')
  end.
Definition Title (s : string) : string := title_from " "%char s.

Section Recorder.
Context {R : Type}.
(** [initOnce] and [defaultRecorder] *)
Record package := mkPackage { initOnce : bool; defaultRecorder : R }.
Definition InitFromRecorder (recorder : R) (p : package) : package :=
  if initOnce p then p else mkPackage true recorder.
(** What the recorder of the package is asked to record *)
Record recorded := mkRecorded {
  r_by : R; r_object : ObjectRef; r_type : string; r_reason : string;
  r_message : string; r_args : list string }.
Definition Event (p : package) (object : ObjectRef) (reason message : string) : recorded :=
  mkRecorded (defaultRecorder p) object "Normal" (Title reason) message [].
Definition Eventf (p : package) (object : ObjectRef) (reason message : string)
    (args : list string) : recorded :=
  mkRecorded (defaultRecorder p) object "Normal" (Title reason) message args.
Definition Warn (p : package) (object : ObjectRef) (reason message : string) : recorded :=
  mkRecorded (defaultRecorder p) object "Warning" (Title reason) message [].
Definition Warnf (p : package) (object : ObjectRef) (reason message : string)
    (args : list string) : recorded :=
  mkRecorded (defaultRecorder p) object "Warning" (Title reason) message args.

(** Only the first recorder counts. *)
Lemma InitFromRecorder_once (first default : R) (later : list R) :
  defaultRecorder (foldl (λ p r, InitFromRecorder r p) (mkPackage false default)
                     (first :: later)) = first.
Proof. simpl. by induction later. Qed.
End Recorder.

Lemma ascii_upper_letter c : is_letter_or_digit (ascii_upper c) = is_letter_or_digit c.
Proof. by destruct c as [[] [] [] [] [] [] [] []]. Qed.
Lemma ascii_upper_idemp c : ascii_upper (ascii_upper c) = ascii_upper c.
Proof. by destruct c as [[] [] [] [] [] [] [] []]. Qed.
Lemma title_from_idemp prev prev' s :
  is_letter_or_digit prev = is_letter_or_digit prev' →
  title_from prev' (title_from prev s) = title_from prev s.
Proof.
  revert prev prev'. induction s as [|c s IH]; intros prev prev' Hp; simpl; [done|].
  rewrite <-Hp. destruct (is_letter_or_digit prev) eqn:E.
  - f_equal. by apply IH.
  - rewrite ascii_upper_idemp. f_equal. apply IH. by rewrite ascii_upper_letter.
Qed.
(** A reason that is a title stays as it is. *)
Lemma Title_idemp s : Title (Title s) = Title s.
Proof. by apply title_from_idemp. Qed.
End Recorder.

(** ** What has happened before the manager starts *)
Inductive registration :=
  | RController (b : controller_builder) | RWebhook (v : api_version) (o : api_object)
  | RReadyz (name : string) (c : health_check) | RHealthz (name : string) (c : health_check).
Definition accepted (r : option error) (x : registration) : option registration :=
  match r with None => Some x | Some _ => None end.
(** What the manager has accepted, latest first *)
Definition registered (t : start_trace) : list registration :=
  omap (λ e, match e with
             | Ev c r =>
                 match c in StartCall R return R → option registration with
                 | CompleteController b => λ r, accepted r (RController b)
                 | CompleteWebhook v o => λ r, accepted r (RWebhook v o)
                 | AddReadyzCheck name c => λ r, accepted r (RReadyz name c)
                 | AddHealthzCheck name c => λ r, accepted r (RHealthz name c)
                 | _ => λ _, None
                 end r
             end) t.
(** The starts of the manager: what each answered and what happened before it *)
Fixpoint starts (t : start_trace) : list (option error * start_trace) :=
  match t with
  | [] => []
  | Ev c r :: t =>
      match c in StartCall R return R → list (option error * start_trace) with
      | Start => λ r, (r, t) :: starts t
      | _ => λ _, starts t
      end r
  end.
(** Everything the process offers, with these flags and this agent *)
Definition offers (f : flags) (fqdn : string) : list registration :=
  let workers n o watches := RController (mkBuilder (mkControllerOptions n) o watches) in
  [ workers (azureStackHCIMachineConcurrency f) OMachine
      [(OCapiMachine, MachineToInfrastructure OMachine); (OCluster, ClusterToMachines);
       (OVirtualMachine, RequestForOwner OMachine)];
    workers (azureStackHCIClusterConcurrency f) OCluster [];
    workers (azureStackHCIloadBalancerConcurrency f) OLoadBalancer
      [(OVirtualMachine, RequestForOwner OLoadBalancer)];
    workers (azureStackHCIVirtualMachineConcurrency f) OVirtualMachine [];
    RWebhook V1beta2 OCluster; RWebhook V1beta2 OMachine; RWebhook V1beta2 OMachineTemplate;
    RWebhook V1beta2 OVirtualMachine; RWebhook V1beta2 OLoadBalancer;
    RReadyz "ping" Ping; RHealthz "ping" (Endpoint (fqdn +:+ ":55000")) ].

(** C33: The process starts its manager at most once and as its last act, and only after the
    manager has accepted, in this order, the four controllers with their watches and
    concurrency, the five conversion webhooks and both health checks, the latter of the agent
    that AZURESTACKHCI_CLOUDAGENT_FQDN names; so never without that variable, and always with
    the controllers, whatever the webhook port. Any refusal ends it with exit code 1, and it
    ends without one exactly when the manager ran and stopped without an error. *)
Theorem main_starts_complete {S} env (s : S) :
  wp env main (λ o _ t, ∃ code, o = Ok code ∧
    (starts t = [] ∧ code = Some 1%Z ∨
     ∃ r earlier, t = Ev Start r :: earlier ∧ starts earlier = [] ∧
       code = match r with None => None | Some _ => Some 1%Z end ∧
       ∃ f fqdn, Ev (Parse InitFlags) f ∈ earlier ∧
         Ev (LookupEnv "AZURESTACKHCI_CLOUDAGENT_FQDN") fqdn ∈ earlier ∧ fqdn ≠ "" ∧
         reverse (registered earlier) = offers f fqdn)) s [].
Proof.
  unfold main, setupChecks, MachineSetup.SetupWithManager, ClusterSetup.SetupWithManager,
    LoadBalancerSetup.SetupWithManager, VirtualMachineSetup.SetupWithManager,
    Cluster_SetupWebhookWithManager, Machine_SetupWebhookWithManager,
    MachineTemplate_SetupWebhookWithManager, VirtualMachine_SetupWebhookWithManager,
    LoadBalancer_SetupWebhookWithManager.
  wp_run; (eexists; split; [reflexivity|]); try (left; by split); right;
    (do 2 eexists; do 3 (split; [reflexivity|]); do 2 eexists;
     split; [|split; [|split; [eassumption|reflexivity]]]); by repeat constructor.
Qed.

(** A health check reports exactly that the agent cannot be reached. *)
Lemma EndpointChecker_spec {S} env address (s : S) t :
  wp env (EndpointChecker address) (λ o s' t', s' = s ∧ ∃ r,
    t' = Ev (DialTimeout "tcp" address Second) r :: t ∧
    o = Ok ((λ e, ErrNew ("failed to dial: " +:+ Error e)) <$> r)) s t.
Proof. unfold EndpointChecker. wp_run; (split; [done|]); by eexists. Qed.
(** The loggers label a line with the object's operation and correlation, if it is there. *)
Lemma Machine_ConstructLogger_spec {S} env log key (s : S) t :
  wp env (Machine_ConstructLogger log (Some key)) (λ o s' t', s' = s ∧ ∃ r,
    t' = Ev (KGet KMachine key) r :: t ∧
    o = Ok (log ++ [("azureStackHCIMachine", nn_String key)] ++
            match r with
            | inr m => with_operation (m : AzureStackHCIMachine) []
            | inl _ => []
            end)) s t.
Proof.
  unfold Machine_ConstructLogger. wp_run; (split; [done|]); eexists; (split; [reflexivity|]);
    unfold with_operation; by rewrite <-?app_assoc, ?app_nil_r.
Qed.
