(* ===== verification/Memory.v ===== *)
(** * The memory of a Go program

    A finite map from locations to variables, in which a pointer is the place of a variable or
    of a part of one, and a slice is a part of an array. Elsewhere the development treats what
    a pointer points to as a value; here it is a cell of the memory, so that two pointers may
    share it. [denotes] says which value a part of the memory holds, through its pointers, and
    which cells that takes. *)
From stdpp Require Import prelude strings list gmap.
From S2P Require Import Prelude.

(** ** Values and places *)
Notation loc := positive (only parsing).
Inductive step := SField (f : string) | SIndex (i : nat).
(** A variable, or a field or an element of one *)
Definition place : Type := loc * list step.
Definition field (p : place) (f : string) : place := (p.1, p.2 ++ [SField f]).
Definition element (p : place) (i : nat) : place := (p.1, p.2 ++ [SIndex i]).

Inductive prim := PString (s : string) | PBool (b : bool) | PInt (z : Z).
#[export] Instance prim_eq_dec : EqDecision prim.
Proof. solve_decision. Defined.
(** A slice is an array, the offset of its first element and its length. What a map holds is a
    variable with a field for each key; the map itself is a pointer to it. *)
Inductive gval :=
  | GPrim (p : prim)
  | GStruct (fs : list (string * gval))
  | GArray (vs : list gval)
  | GPtr (p : option place)
  | GSlice (s : option (place * nat * nat)).

Fixpoint assoc {A} (f : string) (fs : list (string * A)) : option A :=
  match fs with
  | [] => None
  | (g, x) :: fs => if decide (f = g) then Some x else assoc f fs
  end.
Fixpoint assoc_set {A} (f : string) (y : A) (fs : list (string * A)) : list (string * A) :=
  match fs with
  | [] => []
  | (g, x) :: fs => if decide (f = g) then (g, y) :: fs else (g, x) :: assoc_set f y fs
  end.
Fixpoint walk (path : list step) (v : gval) : option gval :=
  match path with
  | [] => Some v
  | SField f :: path =>
      match v with GStruct fs => assoc f fs ≫= walk path | _ => None end
  | SIndex i :: path =>
      match v with GArray vs => vs !! i ≫= walk path | _ => None end
  end.
Fixpoint put (path : list step) (x v : gval) : option gval :=
  match path with
  | [] => Some x
  | SField f :: path =>
      match v with
      | GStruct fs => y ← assoc f fs; z ← put path x y; Some (GStruct (assoc_set f z fs))
      | _ => None
      end
  | SIndex i :: path =>
      match v with
      | GArray vs => y ← vs !! i; z ← put path x y; Some (GArray (<[i := z]> vs))
      | _ => None
      end
  end.

Section Assoc.
Context {A : Type}.
Implicit Type fs : list (string * A).
Lemma assoc_set_same f y fs : is_Some (assoc f fs) → assoc f (assoc_set f y fs) = Some y.
Proof.
  induction fs as [|[g x] fs IH]; simpl; [by intros []|].
  case_decide as Hf; simpl; [by rewrite decide_True|rewrite decide_False; done].
Qed.
Lemma assoc_set_other f g y fs : f ≠ g → assoc g (assoc_set f y fs) = assoc g fs.
Proof.
  intros Hne. induction fs as [|[k x] fs IH]; simpl; [done|].
  repeat (case_decide; simpl; subst; try done).
Qed.
Lemma assoc_set_set f y z fs : assoc_set f y (assoc_set f z fs) = assoc_set f y fs.
Proof.
  induction fs as [|[g x] fs IH]; simpl; [done|].
  case_decide as Hf; simpl; [by rewrite decide_True|rewrite decide_False by done; by f_equal].
Qed.
Lemma assoc_set_names f y fs : (assoc_set f y fs).*1 = fs.*1.
Proof.
  induction fs as [|[g x] fs IH]; csimpl; [done|].
  case_decide; csimpl; [done|by rewrite IH].
Qed.
Lemma assoc_set_id f x fs : assoc f fs = Some x → assoc_set f x fs = fs.
Proof.
  induction fs as [|[g y] fs IH]; simpl; [done|]. case_decide; [congruence|].
  intros Hx. f_equal. auto.
Qed.
Lemma assoc_elem f x fs : assoc f fs = Some x → (f, x) ∈ fs.
Proof.
  induction fs as [|[g y] fs IH]; simpl; [done|]. case_decide as Hf.
  - intros [= ->]. subst. by left.
  - right. auto.
Qed.
Lemma elem_assoc f x fs : NoDup fs.*1 → (f, x) ∈ fs → assoc f fs = Some x.
Proof.
  induction fs as [|[g y] fs IH]; simpl; [by intros _ ?%elem_of_nil|].
  intros [Hg Hnd]%NoDup_cons [[= -> ->]|Hin]%elem_of_cons; [by rewrite decide_True|].
  rewrite decide_False; [by apply IH|]. intros ->. apply Hg.
  by apply (list_elem_of_fmap_2 fst _ (g, x)).
Qed.
End Assoc.

(** *** The laws of places *)
Lemma walk_app p q v : walk (p ++ q) v = walk p v ≫= walk q.
Proof.
  revert v. induction p as [|[f|i] p IH]; intros v; simpl; [done|..].
  - destruct v; try done. destruct (assoc f fs); simpl; auto.
  - destruct v; try done. destruct (vs !! i); simpl; auto.
Qed.
Lemma put_app p q x v :
  put (p ++ q) x v = (y ← walk p v; z ← put q x y; put p z v).
Proof.
  revert v. induction p as [|[f|i] p IH]; intros v; simpl.
  - by destruct (put q x v).
  - destruct v; try done. destruct (assoc f fs) as [y|]; simpl; [|done]. rewrite IH.
    destruct (walk p y); simpl; [|done]. by destruct (put q x g).
  - destruct v; try done. destruct (vs !! i) as [y|]; simpl; [|done]. rewrite IH.
    destruct (walk p y); simpl; [|done]. by destruct (put q x g).
Qed.
Lemma put_is_Some p x v : is_Some (walk p v) → is_Some (put p x v).
Proof.
  revert v. induction p as [|[f|i] p IH]; intros v; simpl; [by eexists|..].
  - destruct v; try by intros []. destruct (assoc f fs) as [y|]; simpl; [|by intros []].
    intros [z ->]%IH. by eexists.
  - destruct v; try by intros []. destruct (vs !! i) as [y|]; simpl; [|by intros []].
    intros [z ->]%IH. by eexists.
Qed.
Lemma walk_put p x v w : put p x v = Some w → walk p w = Some x.
Proof.
  revert v w. induction p as [|[f|i] p IH]; intros v w; simpl; [by intros [= ->]|..].
  - destruct v; try done. destruct (assoc f fs) as [y|] eqn:Hy; simpl; [|done].
    destruct (put p x y) as [z|] eqn:Hz; simpl; [|done]. intros [= <-].
    rewrite assoc_set_same by eauto. simpl. eauto.
  - destruct v; try done. destruct (vs !! i) as [y|] eqn:Hy; simpl; [|done].
    destruct (put p x y) as [z|] eqn:Hz; simpl; [|done]. intros [= <-].
    rewrite list_lookup_insert_eq by (by eapply lookup_lt_Some). simpl. eauto.
Qed.
Lemma put_same p x v : walk p v = Some x → put p x v = Some v.
Proof.
  revert v. induction p as [|[f|i] p IH]; intros v; simpl; [done|..].
  - destruct v; try done. destruct (assoc f fs) as [y|] eqn:Hy; simpl; [|done].
    intros ->%IH. simpl. do 2 f_equal. by apply assoc_set_id.
  - destruct v; try done. destruct (vs !! i) as [y|] eqn:Hy; simpl; [|done].
    intros ->%IH. simpl. do 2 f_equal. by apply list_insert_id.
Qed.
Lemma put_put p x y v w : put p x v = Some w → put p y w = put p y v.
Proof.
  revert v w. induction p as [|[f|i] p IH]; intros v w; simpl; [done|..].
  - destruct v; try done. destruct (assoc f fs) as [a|] eqn:Ha; simpl; [|done].
    destruct (put p x a) as [b|] eqn:Hb; simpl; [|done]. intros [= <-].
    rewrite assoc_set_same by eauto. simpl. rewrite (IH _ _ Hb).
    destruct (put p y a); simpl; [|done]. by rewrite assoc_set_set.
  - destruct v; try done. destruct (vs !! i) as [a|] eqn:Ha; simpl; [|done].
    destruct (put p x a) as [b|] eqn:Hb; simpl; [|done]. intros [= <-].
    rewrite list_lookup_insert_eq by (by eapply lookup_lt_Some). simpl. rewrite (IH _ _ Hb).
    destruct (put p y a); simpl; [|done]. by rewrite list_insert_insert_eq.
Qed.

(** ** The memory and its operations *)
Notation memory := (gmap loc gval).
(** [None] is a panic: a nil or an ill-typed pointer. *)
Definition mem (A : Type) : Type := memory → option (A * memory).
#[export] Instance mem_ret : MRet mem := λ A a h, Some (a, h).
#[export] Instance mem_bind : MBind mem := λ A B k m h,
  match m h with Some (a, h') => k a h' | None => None end.
Definition panic {A} : mem A := λ _, None.
Declare Scope mem_scope.
Delimit Scope mem_scope with mem.
Notation "x <- m ;; k" := (mbind (M:=mem) (λ x, k) m)
  (at level 100, m at next level, right associativity) : mem_scope.
Notation "m ;; k" := (mbind (M:=mem) (λ _, k) m)
  (at level 100, right associativity) : mem_scope.
Notation "p .> f" := (field p f) (at level 11, left associativity) : mem_scope.
Local Open Scope mem_scope.

Definition get (h : memory) (p : place) : option gval := h !! p.1 ≫= walk p.2.
Definition load (p : place) : mem gval := λ h,
  match get h p with Some v => Some (v, h) | None => None end.
Definition store (p : place) (x : gval) : mem unit := λ h,
  match h !! p.1 ≫= put p.2 x with Some c => Some (tt, <[p.1 := c]> h) | None => None end.
(** A new variable *)
Definition alloc (x : gval) : mem place := λ h,
  let l := fresh (dom h) in Some ((l, []), <[l := x]> h).
(** The place the pointer at [p] points to *)
Definition deref (p : place) : mem place :=
  v <- load p ;;
  match v with GPtr (Some q) => mret q | _ => panic end.
(** [*out = *in] *)
Definition copy_value (inp out : place) : mem unit := v <- load inp ;; store out v.
(** [*p != nil] for a pointer or a slice *)
Definition is_set (p : place) : mem bool :=
  v <- load p ;;
  match v with
  | GPtr q => mret (bool_decide (is_Some q))
  | GSlice s => mret (bool_decide (is_Some s))
  | _ => panic
  end.
(** The length of the slice at [p] *)
Definition len (p : place) : mem nat :=
  v <- load p ;;
  match v with
  | GSlice (Some (_, _, n)) => mret n
  | GSlice None => mret 0
  | _ => panic
  end.
(** The place of the element [i] of the slice at [p] *)
Definition index (p : place) (i : nat) : mem place :=
  v <- load p ;;
  match v with
  | GSlice (Some (a, off, n)) => if decide (i < n) then mret (element a (off + i)) else panic
  | _ => panic
  end.
(** [for i := 0; i < n; i++ { body }], from [i] on *)
Fixpoint for_from (i n : nat) (body : nat → mem unit) : mem unit :=
  match n with
  | 0 => mret tt
  | S n => body i ;; for_from (S i) n body
  end.
(** [for i := range *p { body }] *)
Definition for_range (p : place) (body : nat → mem unit) : mem unit :=
  n <- len p ;; for_from 0 n body.

(** ** What a part of the memory holds *)
(** A value with what its pointers point to. A nil slice and one without elements hold the
    same. *)
Inductive tree :=
  | TPrim (p : prim)
  | TStruct (ts : list (string * tree))
  | TNil
  | TRef (t : tree)
  | TList (ts : list tree).

Section Forall2.
Context {A B : Type} (P : A → B → Prop).
Fixpoint each2 (xs : list A) (ys : list B) : Prop :=
  match xs, ys with
  | [], [] => True
  | x :: xs, y :: ys => P x y ∧ each2 xs ys
  | _, _ => False
  end.
End Forall2.
Section Every.
Context {A : Type} (P : A → Prop).
Fixpoint every (xs : list A) : Prop := match xs with [] => True | x :: xs => P x ∧ every xs end.
End Every.
Lemma each2_Forall2 {A B} (P : A → B → Prop) xs ys : each2 P xs ys ↔ Forall2 P xs ys.
Proof.
  revert ys. induction xs as [|x xs IH]; intros [|y ys]; simpl; [by split; auto|..].
  - by split; [|intros ?%Forall2_nil_inv_l].
  - by split; [|intros ?%Forall2_nil_inv_r].
  - rewrite IH. split; [intros []; by constructor|by intros [? ?]%Forall2_cons].
Qed.
Lemma every_Forall {A} (P : A → Prop) xs : every P xs ↔ Forall P xs.
Proof. induction xs as [|x xs IH]; simpl; [done|]. by rewrite IH, Forall_cons. Qed.

(** The value [v] in the memory [h] is [t]; its pointers lead to cells of [R] only. *)
Fixpoint denotes (h : memory) (R : gset loc) (t : tree) (v : gval) : Prop :=
  match t, v with
  | TPrim p, GPrim q => p = q
  | TStruct ts, GStruct fs =>
      fs.*1 = ts.*1 ∧
      every (λ '(n, t), match assoc n fs with Some v => denotes h R t v | None => False end) ts
  | TNil, GPtr None => True
  | TRef t, GPtr (Some p) =>
      p.1 ∈ R ∧ match get h p with Some v => denotes h R t v | None => False end
  | TList ts, GSlice None => ts = []
  | TList ts, GSlice (Some (p, off, n)) =>
      p.1 ∈ R ∧ n = length ts ∧
      match get h p with
      | Some (GArray vs) => each2 (denotes h R) ts (take n (drop off vs))
      | _ => False
      end
  | _, _ => False
  end.

Section TreeInd.
Context (P : tree → Prop).
Context (HPrim : ∀ p, P (TPrim p)) (HNil : P TNil) (HRef : ∀ t, P t → P (TRef t)).
Context (HStruct : ∀ ts, (∀ n t, (n, t) ∈ ts → P t) → P (TStruct ts)).
Context (HList : ∀ ts, (∀ t, t ∈ ts → P t) → P (TList ts)).
Lemma every_fields (ts : list (string * tree)) : every (λ x, P x.2) ts → ∀ n t, (n, t) ∈ ts → P t.
Proof. rewrite every_Forall, Forall_forall. intros Hall n t Hin. by apply (Hall (n, t)). Qed.
Lemma every_elements ts : every P ts → ∀ t, t ∈ ts → P t.
Proof. by rewrite every_Forall, Forall_forall. Qed.
Fixpoint tree_ind' (t : tree) : P t :=
  match t with
  | TPrim p => HPrim p
  | TStruct ts =>
      HStruct ts (every_fields ts ((fix go ts : every (λ x, P x.2) ts :=
        match ts with [] => I | x :: ts => conj (tree_ind' x.2) (go ts) end) ts))
  | TNil => HNil
  | TRef t => HRef t (tree_ind' t)
  | TList ts =>
      HList ts (every_elements ts ((fix go ts : every P ts :=
        match ts with [] => I | t :: ts => conj (tree_ind' t) (go ts) end) ts))
  end.
End TreeInd.

Lemma and_iff_compat_l' (A B C : Prop) : (A → B ↔ C) → A ∧ B ↔ A ∧ C.
Proof. naive_solver. Qed.
Lemma denotes_struct h R ts fs :
  denotes h R (TStruct ts) (GStruct fs) ↔
  fs.*1 = ts.*1 ∧
  (∀ n t, (n, t) ∈ ts → ∃ v, assoc n fs = Some v ∧ denotes h R t v).
Proof.
  simpl. apply and_iff_compat_l. rewrite every_Forall, Forall_forall. split.
  - intros Hall n t Hin. specialize (Hall _ Hin). simpl in Hall.
    destruct (assoc n fs); [by eexists|done].
  - intros Hall [n t] Hin. by destruct (Hall n t Hin) as (v&->&?).
Qed.
Lemma denotes_list h R ts p off n :
  denotes h R (TList ts) (GSlice (Some (p, off, n))) ↔
  p.1 ∈ R ∧ n = length ts ∧ ∃ vs, get h p = Some (GArray vs) ∧
  (∀ i t, ts !! i = Some t → ∃ v, vs !! (off + i) = Some v ∧ denotes h R t v).
Proof.
  simpl. apply and_iff_compat_l, and_iff_compat_l'. intros ->. split.
  - destruct (get h p) as [[| |vs| |]|]; try done.
    rewrite each2_Forall2. intros Hall. eexists. split; [done|]. intros i t Hi.
    destruct (Forall2_lookup_l _ _ _ _ _ Hall Hi) as (v&Hv&?). exists v. split; [|done].
    apply lookup_take_Some in Hv as [Hv _]. by rewrite lookup_drop in Hv.
  - intros (vs&->&Hall). rewrite each2_Forall2. apply Forall2_same_length_lookup. split.
    + rewrite length_take, length_drop. destruct ts as [|t ts] using rev_ind; [done|].
      destruct (Hall (length ts) t) as (v&Hv%lookup_lt_Some&_); [|rewrite length_app; simpl; lia].
      by rewrite lookup_app_r, Nat.sub_diag.
    + intros i t v Ht [Hv _]%lookup_take_Some. rewrite lookup_drop in Hv.
      destruct (Hall i t Ht) as (?&?&?). by simplify_eq.
Qed.

(** What a part of the memory holds depends on the cells it leads to only. *)
Lemma denotes_frame h h' R R' t v :
  denotes h R t v → R ⊆ R' → (∀ l, l ∈ R → l ∈ dom h → h' !! l = h !! l) →
  denotes h' R' t v.
Proof.
  intros Hd HR Hh. revert v Hd.
  assert (Hget : ∀ p v, p.1 ∈ R → get h p = Some v → get h' p = Some v).
  { intros p v Hp. unfold get. destruct (h !! p.1) as [c|] eqn:Hc; [|done].
    rewrite Hh by (done || by apply elem_of_dom_2 in Hc). by rewrite Hc. }
  induction t as [p| |t IH|ts IH|ts IH] using tree_ind'; intros v; destruct v as [q|fs|vs|[q|]|[[[q off] n]|]];
    try done.
  - intros [Hq Ht]. split; [set_solver|]. destruct (get h q) as [w|] eqn:Hw; [|done].
    rewrite (Hget _ _ Hq Hw). auto.
  - rewrite !denotes_struct. intros [Hn Hall]. split; [done|]. intros m t Hin.
    destruct (Hall m t Hin) as (w&?&?). exists w. split; [done|]. by eapply IH.
  - rewrite !denotes_list. intros (Hq&Hn&vs&Hvs&Hall). split_and!; [set_solver|done|].
    exists vs. split; [by apply Hget|]. intros i t Hi. destruct (Hall i t Hi) as (w&?&?).
    exists w. split; [done|]. eapply IH; [by eapply list_elem_of_lookup_2|done].
Qed.

(** The same as a function, for memories that are at hand *)
Fixpoint denotesb (h : memory) (R : gset loc) (t : tree) (v : gval) : bool :=
  match t, v with
  | TPrim p, GPrim q => bool_decide (p = q)
  | TStruct ts, GStruct fs =>
      bool_decide (fs.*1 = ts.*1) &&
      forallb (λ '(n, t), match assoc n fs with Some v => denotesb h R t v | None => false end) ts
  | TNil, GPtr None => true
  | TRef t, GPtr (Some p) =>
      bool_decide (p.1 ∈ R) &&
      match get h p with Some v => denotesb h R t v | None => false end
  | TList ts, GSlice None => match ts with [] => true | _ => false end
  | TList ts, GSlice (Some (p, off, n)) =>
      bool_decide (p.1 ∈ R) && bool_decide (n = length ts) &&
      match get h p with
      | Some (GArray vs) =>
          (fix all (ts : list tree) (vs : list gval) : bool :=
             match ts, vs with
             | [], [] => true
             | t :: ts, v :: vs => denotesb h R t v && all ts vs
             | _, _ => false
             end) ts (take n (drop off vs))
      | _ => false
      end
  | _, _ => false
  end.
Lemma denotesb_denotes h R t v : denotesb h R t v = true → denotes h R t v.
Proof.
  revert v. induction t as [p| |t IH|ts IH|ts IH] using tree_ind'; intros v;
    destruct v as [q|fs|vs|[q|]|[[[q off] n]|]]; try done; simpl.
  - apply bool_decide_eq_true.
  - intros [Hq%bool_decide_eq_true Ht]%andb_true_iff. split; [done|].
    destruct (get h q); [by apply IH|done].
  - intros [Hn%bool_decide_eq_true Ht]%andb_true_iff. split; [done|].
    apply every_Forall, Forall_forall. intros [m t] Hin.
    rewrite forallb_forall in Ht. specialize (Ht (m, t)). rewrite <-list_elem_of_In in Ht.
    specialize (Ht Hin). simpl in Ht. destruct (assoc m fs); [by eapply IH|done].
  - intros [[Hq%bool_decide_eq_true Hn%bool_decide_eq_true]%andb_true_iff Ht]%andb_true_iff.
    split_and!; [done..|]. destruct (get h q) as [[| |vs| |]|]; try done.
    generalize dependent (take n (drop off vs)). clear Hn. induction ts as [|t ts IHts];
      intros ws Ht; destruct ws as [|w ws]; try done; simpl.
    apply andb_true_iff in Ht as [Hw Hws]. split.
    + apply IH; [by left|done].
    + apply IHts; [|done]. intros u Hu. apply IH. by right.
  - by destruct ts.
Qed.

(** ** Types and their values in memory *)
(** A Go type with the tree of each of its values and its zero value *)
Class Layout (A : Type) := { tree_of : A → tree; zero : A }.
Arguments zero A {_}.
#[export] Instance string_layout : Layout string := {| tree_of s := TPrim (PString s); zero := "" |}.
#[export] Instance bool_layout : Layout bool := {| tree_of b := TPrim (PBool b); zero := false |}.
#[export] Instance Z_layout : Layout Z := {| tree_of z := TPrim (PInt z); zero := 0%Z |}.
#[export] Instance option_layout `{Layout A} : Layout (option A) :=
  {| tree_of o := match o with Some x => TRef (tree_of x) | None => TNil end; zero := None |}.
#[export] Instance list_layout `{Layout A} : Layout (list A) :=
  {| tree_of l := TList (tree_of <$> l); zero := [] |}.

(** The memory of a zero value *)
Fixpoint blank (t : tree) : gval :=
  match t with
  | TPrim p => GPrim p
  | TStruct ts => GStruct (prod_map id blank <$> ts)
  | TNil | TRef _ => GPtr None
  | TList _ => GSlice None
  end.
Definition zero_val A `{Layout A} : gval := blank (tree_of (zero A)).

(** A value without pointers is copied by an assignment. *)
Fixpoint flat (t : tree) : bool :=
  match t with
  | TPrim _ | TNil => true
  | TStruct ts => forallb (λ '(_, t), flat t) ts
  | TRef _ | TList _ => false
  end.
Lemma flat_denotes h R h' R' t v : flat t = true → denotes h R t v → denotes h' R' t v.
Proof.
  revert v. induction t as [p| |t IH|ts IH|ts IH] using tree_ind'; intros v Hf; try done;
    destruct v as [q|fs|vs|[q|]|]; try done.
  rewrite !denotes_struct. intros [Hn Hall]. split; [done|]. intros m t Hin.
  destruct (Hall m t Hin) as (w&?&?). exists w. split; [done|]. eapply IH; [done| |done].
  simpl in Hf. rewrite forallb_forall in Hf. apply (Hf (m, t)), list_elem_of_In, Hin.
Qed.

(** ** The blocks of a generated deep copy *)
(** [*out = new(A); **out = **in] *)
Definition new_copy A `{Layout A} (inp out : place) : mem unit :=
  p <- alloc (zero_val A) ;;
  store out (GPtr (Some p)) ;;
  q <- deref inp ;; r <- deref out ;;
  copy_value q r.
Section Blocks.
Context (A : Type) {HA : Layout A}.
(** [*out = new(A); in.DeepCopyInto( *out)], [in] being what [inp] points to *)
Definition new_into (DeepCopyInto : place → place → mem unit) (inp out : place) : mem unit :=
  p <- alloc (zero_val A) ;;
  store out (GPtr (Some p)) ;;
  q <- deref inp ;; r <- deref out ;;
  DeepCopyInto q r.
(** [make([]A, n)] *)
Definition make_slice (n : nat) : mem gval :=
  p <- alloc (GArray (replicate n (zero_val A))) ;;
  mret (GSlice (Some (p, 0, n))).
(** [*out = make([]A, len( *in)); copy( *out, *in)] *)
Definition make_copy (inp out : place) : mem unit :=
  n <- len inp ;; s <- make_slice n ;; store out s ;;
  for_range inp (λ i, p <- index inp i ;; q <- index out i ;; copy_value p q).
(** [*out = make([]A, len( *in))], then [DeepCopyInto] from each element to its copy *)
Definition make_into (DeepCopyInto : place → place → mem unit) (inp out : place) : mem unit :=
  n <- len inp ;; s <- make_slice n ;; store out s ;;
  for_range inp (λ i, p <- index inp i ;; q <- index out i ;; DeepCopyInto p q).
End Blocks.
(** [if in.F != nil { in, out := &in.F, &out.F; body }] *)
Definition unless_nil (body : place → place → mem unit) (inp out : place) : mem unit :=
  b <- is_set inp ;;
  if (b : bool) then body inp out else mret tt.
(** The loop of a slice of pointers: those that are not nil are copied. *)
Definition make_each A `{Layout A} (body : place → place → mem unit) (inp out : place) : mem unit :=
  n <- len inp ;; s <- make_slice (option A) n ;; store out s ;;
  for_range inp (λ i, p <- index inp i ;; q <- index out i ;; unless_nil body p q).

(** ** The methods *)
(** [DeepCopy] of a struct: nil for a nil receiver, else [DeepCopyInto] a new variable *)
Definition deep_copy A `{Layout A} (DeepCopyInto : place → place → mem unit)
    (inp : option place) : mem (option place) :=
  match inp with
  | None => mret None
  | Some inp => out <- alloc (zero_val A) ;; DeepCopyInto inp out ;; mret (Some out)
  end.
(** [DeepCopy] of a slice type *)
Definition deep_copy_slice (DeepCopyInto : gval → place → mem unit) (inp : gval) : mem gval :=
  match inp with
  | GSlice None => mret (GSlice None)
  | _ => out <- alloc (GSlice None) ;; DeepCopyInto inp out ;; load out
  end.
(** A runtime.Object that is not nil: the type of the pointer and the pointer *)
Record iface := mkIface { iface_type : string; iface_ptr : place }.
(** [DeepCopyObject]: a nil pointer becomes a nil interface. *)
Definition deep_copy_object (type : string) (DeepCopy : option place → mem (option place))
    (inp : option place) : mem (option iface) :=
  c <- DeepCopy inp ;;
  match c with Some c => mret (Some (mkIface type c)) | None => mret None end.

(** A type with its method *)
Record copier := mkCopier {
  cp_type : Type; cp_layout : Layout cp_type;
  cp_DeepCopy : option place → mem (option place) }.
Arguments mkCopier cp_type {cp_layout} cp_DeepCopy.
Record object_copier := mkObjectCopier {
  oc_name : string; oc_type : Type; oc_layout : Layout oc_type;
  oc_DeepCopyObject : option place → mem (option iface) }.
Arguments mkObjectCopier oc_name oc_type {oc_layout} oc_DeepCopyObject.
(** A slice of pointers to [sc_type] *)
Record slice_copier := mkSliceCopier {
  sc_type : Type; sc_layout : Layout sc_type;
  sc_DeepCopyInto : gval → place → mem unit; sc_DeepCopy : gval → mem gval }.
Arguments mkSliceCopier sc_type {sc_layout} sc_DeepCopyInto sc_DeepCopy.
