(* ===== verification/CopyRules.v ===== *)
(** * What it takes to copy a value

    [copies t f]: from any place that holds [t], [f] makes another place hold [t], with the help
    of new cells only; nothing else changes and the new value leads to none of the old cells.
    There is a rule for each block of a generated deep copy and one for a struct, whose fields
    are copied one after the other. *)
From stdpp Require Import prelude strings list gmap.
From S2P Require Import Prelude Memory.
Local Open Scope mem_scope.

(** The run of [m] from [h] does not panic and ends in [Q]. *)
Definition runs {A} (m : mem A) (h : memory) (Q : A → memory → Prop) : Prop :=
  match m h with Some (a, h') => Q a h' | None => False end.
Lemma runs_bind {A B} (m : mem A) (k : A → mem B) h Q :
  runs m h (λ a h', runs (k a) h' Q) → runs (mbind k m) h Q.
Proof. unfold runs, mbind, mem_bind. by destruct (m h) as [[a h']|]. Qed.
Lemma runs_ret {A} (a : A) h (Q : A → memory → Prop) : Q a h → runs (mret a) h Q.
Proof. done. Qed.
Lemma runs_weaken {A} (m : mem A) h (Q Q' : A → memory → Prop) :
  runs m h Q → (∀ a h', Q a h' → Q' a h') → runs m h Q'.
Proof. unfold runs. destruct (m h) as [[a h']|]; auto. Qed.
Lemma runs_load p h (Q : gval → memory → Prop) v : get h p = Some v → Q v h → runs (load p) h Q.
Proof. unfold runs, load. by intros ->. Qed.

(** ** What a copy may change *)
(** The place [out] has the value [x] now, the cells of [F] are new, the other old cells are as
    they were. *)
Record modifies (h : memory) (out : place) (x : gval) (F : gset loc) (h' : memory) : Prop := {
  mod_out : ∃ c c', h !! out.1 = Some c ∧ put out.2 x c = Some c' ∧ h' !! out.1 = Some c';
  mod_others : ∀ l, l ∈ dom h → l ≠ out.1 → h' !! l = h !! l;
  mod_new : F ## dom h;
  mod_made : F ⊆ dom h' }.

Lemma apart (X : gset loc) (l k : loc) : l ∉ X → k ∈ X → l ≠ k.
Proof. by intros Hl Hk ->. Qed.
Lemma get_dom h p v : get h p = Some v → p.1 ∈ dom h.
Proof.
  unfold get. destruct (h !! p.1) eqn:Hp; [|done]. intros _. by apply elem_of_dom_2 in Hp.
Qed.
Section Modifies.
Context {h h' : memory} {out : place} {x : gval} {F : gset loc} (Hm : modifies h out x F h').
Lemma modifies_get : get h' out = Some x.
Proof.
  destruct (mod_out _ _ _ _ _ Hm) as (c&c'&_&Hp&Hc). unfold get. rewrite Hc. simpl.
  by eapply walk_put.
Qed.
Lemma modifies_dom : dom h ⊆ dom h'.
Proof.
  intros l Hl. destruct (decide (l = out.1)) as [->|Hne].
  - destruct (mod_out _ _ _ _ _ Hm) as (c&c'&_&_&Hc). by apply elem_of_dom_2 in Hc.
  - apply elem_of_dom. rewrite (mod_others _ _ _ _ _ Hm) by done. by apply elem_of_dom.
Qed.
Lemma modifies_elsewhere p v : p.1 ≠ out.1 → get h p = Some v → get h' p = Some v.
Proof.
  intros Hne Hg. apply get_dom in Hg as Hd. unfold get in *.
  by rewrite (mod_others _ _ _ _ _ Hm).
Qed.
Lemma modifies_denotes R t v : out.1 ∉ R → denotes h R t v → denotes h' R t v.
Proof.
  intros Hout Hd. eapply denotes_frame; [done..|]. intros l Hl Hdom.
  apply (mod_others _ _ _ _ _ Hm); [done|]. by intros ->.
Qed.
Lemma modifies_out_dom : out.1 ∈ dom h.
Proof. destruct (mod_out _ _ _ _ _ Hm) as (c&c'&Hc&_). by apply elem_of_dom_2 in Hc. Qed.
Lemma modifies_new_denotes G t v l :
  G ⊆ F → l ∈ dom h → denotes h' G t v → l ∉ G.
Proof. intros HG Hl _ Hin. pose proof (mod_new _ _ _ _ _ Hm). set_solver. Qed.
End Modifies.

(** Two changes in turn: first of a place, then of a part of it or of the same place *)
Lemma modifies_store h p x w c :
  get h p = Some w → h !! p.1 ≫= put p.2 x = Some c →
  modifies h p x ∅ (<[p.1 := c]> h).
Proof.
  unfold get. destruct (h !! p.1) as [c0|] eqn:Hc0; simpl; [|done]. intros _ Hp. split.
  - exists c0, c. by rewrite lookup_insert_eq.
  - intros l _ Hne. by rewrite lookup_insert_ne.
  - set_solver.
  - set_solver.
Qed.
Lemma runs_store h p x w (Q : unit → memory → Prop) :
  get h p = Some w → (∀ h', dom h' = dom h → modifies h p x ∅ h' → Q tt h') →
  runs (store p x) h Q.
Proof.
  intros Hw HQ. unfold runs, store.
  destruct (h !! p.1 ≫= put p.2 x) as [c|] eqn:Hc.
  - apply HQ; [|by eapply modifies_store]. apply dom_insert_lookup_L.
    destruct (h !! p.1); [by eexists|done].
  - unfold get in Hw. destruct (h !! p.1) as [c0|] eqn:Hc0; simpl in *; [|done].
    destruct (put_is_Some p.2 x c0) as [? ?]; [by eexists|congruence].
Qed.
Lemma runs_alloc h x (Q : place → memory → Prop) :
  (∀ l, l ∉ dom h → Q (l, []) (<[l := x]> h)) → runs (alloc x) h Q.
Proof. intros HQ. unfold runs, alloc. apply HQ, is_fresh. Qed.

(** Changes in turn: of a cell that is new, of the place itself, and after an allocation *)
Lemma modifies_inside h h' h'' out x p y F F' :
  modifies h out x F h' → p.1 ∈ F → modifies h' p y F' h'' → modifies h out x (F ∪ F') h''.
Proof.
  intros Hm Hp Hm'. pose proof (mod_new _ _ _ _ _ Hm) as Hn.
  pose proof (modifies_out_dom Hm) as Hout. pose proof (modifies_dom Hm) as Hd.
  pose proof (mod_new _ _ _ _ _ Hm') as Hn'.
  split.
  - destruct (mod_out _ _ _ _ _ Hm) as (c&c'&?&?&Hc). exists c, c'. split_and!; [done..|].
    rewrite (mod_others _ _ _ _ _ Hm'); [done|set_solver|].
    apply not_eq_sym, (apart (dom h)); set_solver.
  - intros l Hl Hne. rewrite (mod_others _ _ _ _ _ Hm') by set_solver.
    by apply (mod_others _ _ _ _ _ Hm).
  - set_solver.
  - pose proof (mod_made _ _ _ _ _ Hm). pose proof (modifies_dom Hm').
    pose proof (mod_made _ _ _ _ _ Hm'). set_solver.
Qed.
Lemma modifies_part h h' h'' out q x y z F F' :
  modifies h out x F h' → put q y x = Some z → modifies h' (out.1, out.2 ++ q) y F' h'' →
  modifies h out z (F ∪ F') h''.
Proof.
  intros Hm Hz Hm'. pose proof (modifies_dom Hm) as Hd.
  pose proof (mod_new _ _ _ _ _ Hm') as Hn'.
  destruct (mod_out _ _ _ _ _ Hm) as (c&c'&Hc&Hp&Hc').
  destruct (mod_out _ _ _ _ _ Hm') as (d&d'&Hd1&Hp'&Hd'). simpl in *.
  split.
  - exists c, d'. split_and!; [done| |done]. assert (d = c') as -> by congruence.
    rewrite put_app, (walk_put _ _ _ _ Hp) in Hp'. simpl in Hp'. rewrite Hz in Hp'. simpl in Hp'.
    by rewrite <-(put_put _ _ z _ _ Hp).
  - intros l Hl Hne. rewrite (mod_others _ _ _ _ _ Hm') by set_solver.
    by apply (mod_others _ _ _ _ _ Hm).
  - pose proof (mod_new _ _ _ _ _ Hm). set_solver.
  - pose proof (mod_made _ _ _ _ _ Hm). pose proof (modifies_dom Hm').
    pose proof (mod_made _ _ _ _ _ Hm'). set_solver.
Qed.
Definition same_on (R : gset loc) (h h' : memory) : Prop := ∀ l, l ∈ R → h' !! l = h !! l.
Lemma modifies_after h h1 h' out x F F' :
  same_on (dom h) h h1 → F ## dom h → F ⊆ dom h1 → out.1 ∈ dom h → modifies h1 out x F' h' →
  modifies h out x (F ∪ F') h'.
Proof.
  intros Hs HF HF1 Hout Hm.
  assert (Hd : dom h ⊆ dom h1).
  { intros l Hl. apply elem_of_dom. rewrite Hs by done. by apply elem_of_dom. }
  pose proof (mod_new _ _ _ _ _ Hm) as Hn. split.
  - destruct (mod_out _ _ _ _ _ Hm) as (c&c'&Hc&?). exists c, c'. by rewrite Hs in Hc.
  - intros l Hl Hne. rewrite (mod_others _ _ _ _ _ Hm) by (done || by apply Hd). by apply Hs.
  - set_solver.
  - pose proof (mod_made _ _ _ _ _ Hm). pose proof (modifies_dom Hm). set_solver.
Qed.
Lemma same_on_insert h l z : l ∉ dom h → same_on (dom h) h (<[l := z]> h).
Proof. intros Hl k Hk. apply lookup_insert_ne. by apply (apart (dom h)). Qed.
Lemma modifies_alloc h h' l z out x F :
  l ∉ dom h → out.1 ∈ dom h → modifies (<[l := z]> h) out x F h' →
  modifies h out x ({[l]} ∪ F) h'.
Proof.
  intros Hl Hout. apply modifies_after; [by apply same_on_insert|set_solver|set_solver|done].
Qed.

(** ** Specifications *)
(** [inp] holds [t] in cells of [R]; [out] is elsewhere and has the value [w]. *)
Record ready (h : memory) (inp out : place) (R : gset loc) (t : tree) (v w : gval) : Prop := {
  rd_inp : get h inp = Some v;
  rd_denotes : denotes h R t v;
  rd_region : R ⊆ dom h;
  rd_apart : out.1 ∉ R;
  rd_other : out.1 ≠ inp.1;
  rd_out : get h out = Some w }.
Definition made (h : memory) (out : place) (t : tree) (h' : memory) : Prop :=
  ∃ x F, modifies h out x F h' ∧ denotes h' F t x.
Definition copies_when (pre : gval → gval → Prop) (t : tree) (f : place → place → mem unit) : Prop :=
  ∀ h inp out R v w, ready h inp out R t v w → pre v w →
  runs (f inp out) h (λ _, made h out t).
Definition copies : tree → (place → place → mem unit) → Prop := copies_when (λ _ _, True).
(** As [copies], where [out] has the value of [inp] already, but not its own cells *)
Definition fills : tree → (place → place → mem unit) → Prop := copies_when eq.
Lemma copies_any pre t f : copies t f → copies_when pre t f.
Proof. intros Hc h inp out R v w Hr _. by eapply Hc. Qed.
Lemma ready_later h h' inp out out' R t v w w' F x :
  ready h inp out R t v w → modifies h out x F h' → get h' out' = Some w' →
  out'.1 = out.1 ∨ out'.1 ∉ dom h → ready h' inp out' R t v w'.
Proof.
  intros [] Hm Hw Ho. pose proof (modifies_dom Hm) as Hd. apply get_dom in rd_inp0 as Hi. split.
  - by apply (modifies_elsewhere Hm).
  - by apply (modifies_denotes Hm).
  - set_solver.
  - destruct Ho as [->|Ho]; [done|set_solver].
  - destruct Ho as [->|Ho]; [done|by eapply apart].
  - done.
Qed.

(** ** The rules *)
Lemma copies_value t : flat t = true → copies t copy_value.
Proof.
  intros Hf h inp out R v w [] _. apply runs_bind, (runs_load _ _ _ v); [done|].
  eapply runs_store; [done|]. intros h' _ Hm. exists v, ∅. split; [done|].
  by eapply flat_denotes.
Qed.
(** A pointer to a new variable, into which its target is copied *)
Lemma copies_new_into `{Layout A} t f : copies t f → copies (TRef t) (new_into A f).
Proof.
  intros Hf h inp out R v w [] _. destruct v as [| | |[q|]|]; try done.
  destruct rd_denotes0 as [HqR Hq]. destruct (get h q) as [v|] eqn:Hv; [|done].
  apply get_dom in rd_inp0 as Hi. apply get_dom in rd_out0 as Ho.
  apply runs_bind, runs_alloc. intros l Hl.
  assert (Hh1 : ∀ p u, get h p = Some u → get (<[l:=zero_val A]> h) p = Some u).
  { intros p u Hp. apply get_dom in Hp as Hd. unfold get in *.
    rewrite lookup_insert_ne; [done|]. by apply (apart (dom h)). }
  apply runs_bind. eapply runs_store; [by apply Hh1|]. intros h2 Hd2 Hm2.
  assert (Hm : modifies h out (GPtr (Some (l, []))) {[l]} h2).
  { apply modifies_alloc in Hm2; [|done..]. by rewrite (right_id_L ∅ (∪)) in Hm2. }
  assert (get h2 (l, []) = Some (zero_val A)) as Hl2.
  { apply (modifies_elsewhere Hm2); [by apply (apart (dom h))|]. unfold get. simpl.
    by rewrite lookup_insert_eq. }
  apply runs_bind. unfold deref.
  apply runs_bind, (runs_load _ _ _ (GPtr (Some q))); [by apply (modifies_elsewhere Hm)|].
  apply runs_ret, runs_bind, runs_bind, (runs_load _ _ _ (GPtr (Some (l, [])))).
  { by apply (modifies_get Hm). }
  apply runs_ret. eapply runs_weaken; [apply (Hf h2 q (l, []) R v (zero_val A)); [|done]|].
  - split; [apply (modifies_elsewhere Hm); [|done]| | | | |done].
    + by apply not_eq_sym, (apart R).
    + by apply (modifies_denotes Hm).
    + etrans; [done|by apply (modifies_dom Hm)].
    + simpl. by intros ?%rd_region0.
    + apply (apart (dom h)); [done|by apply rd_region0].
  - intros _ h3 (x&F&Hm3&Hx). eexists _, _. split.
    + eapply modifies_inside; [exact Hm| |exact Hm3]. by apply elem_of_singleton.
    + simpl. split; [by apply elem_of_union_l, elem_of_singleton|]. rewrite (modifies_get Hm3).
      eapply denotes_frame; [done|set_solver|done].
Qed.
Lemma copies_new_copy `{Layout A} t : flat t = true → copies (TRef t) (new_copy A).
Proof. intros Hf. by apply (copies_new_into t copy_value), copies_value. Qed.

(** A pointer or a slice that is nil is left alone: [out] is nil already. *)
Definition nilable (t : tree) : bool := match t with TNil | TRef _ | TList _ => true | _ => false end.
Definition is_nil (v : gval) : bool :=
  match v with GPtr None | GSlice None => true | _ => false end.
Lemma copies_unless_nil t f :
  nilable t = true → (t = TNil ∨ copies t f) →
  copies_when (λ v w, is_nil v = true → w = v) t (unless_nil f).
Proof.
  intros Hn Hf h inp out R v w Hr Hw. apply runs_bind.
  assert (Hset : runs (is_set inp) h (λ b h', b = negb (is_nil v) ∧ h' = h)).
  { destruct Hr. apply runs_bind, (runs_load _ _ _ v); [done|].
    destruct t, v as [| | |[]|[[[]]|]]; try done; by apply runs_ret. }
  eapply runs_weaken; [exact Hset|]. intros b h' [-> ->].
  destruct (is_nil v) eqn:Hnil; simpl.
  - apply runs_ret. exists v, ∅. rewrite (Hw eq_refl) in Hr. destruct Hr. split.
    + split; [|done|set_solver|set_solver]. unfold get in rd_out0.
      destruct (h !! out.1) as [c|]; [|done]. simpl in rd_out0. exists c, c. split_and!; [done| |done].
      by apply put_same.
    + destruct t, v as [| | |[]|[[[]]|]]; done.
  - destruct Hf as [->|Hf]; [by destruct Hr, v as [| | |[]|]|]. by eapply Hf.
Qed.
Lemma fills_unless_nil t f : nilable t = true → (t = TNil ∨ copies t f) → fills t (unless_nil f).
Proof.
  intros Hn Hf h inp out R v w Hr <-. by eapply copies_unless_nil.
Qed.

(** *** Loops *)
Lemma runs_for (Inv : nat → memory → Prop) body n i h :
  (∀ j h, i ≤ j < i + n → Inv j h → runs (body j) h (λ _, Inv (S j))) →
  Inv i h → runs (for_from i n body) h (λ _, Inv (i + n)).
Proof.
  revert i h. induction n as [|n IH]; intros i h Hb Hi; simpl.
  - by rewrite Nat.add_0_r.
  - apply runs_bind. eapply runs_weaken; [apply Hb; [lia|done]|]. intros [] h' Hi'.
    replace (i + S n) with (S i + n) by lia. apply IH; [|done]. intros j k Hj. apply Hb. lia.
Qed.
(** All elements are copied, from an array of zero values. *)
Definition make_elements A `{Layout A} (f : place → place → mem unit) (inp out : place) : mem unit :=
  n <- len inp ;; s <- make_slice A n ;; store out s ;;
  for_range inp (λ i, p <- index inp i ;; q <- index out i ;; f p q).

Section Loop.
Context {A : Type} {HA : Layout A} (ts : list tree).
Context (h0 : memory) (inp out : place) (R : gset loc) (l : loc).
Context (Hl : l ∉ dom h0).
Local Notation n := (length ts).
(** After [i] rounds the array at [l] has the copies of the first [i] elements, in the cells
    of [F]. *)
Definition copied (i : nat) (h : memory) : Prop :=
  ∃ F ws, modifies h0 out (GSlice (Some ((l, []), 0, n))) ({[l]} ∪ F) h ∧ l ∉ F ∧
    h !! l = Some (GArray ws) ∧ length ws = n ∧
    (∀ j t, j < i → ts !! j = Some t → ∃ x, ws !! j = Some x ∧ denotes h F t x) ∧
    (∀ j, i ≤ j < n → ws !! j = Some (zero_val A)).
Lemma copied_made h : copied n h → made h0 out (TList ts) h.
Proof.
  intros (F&ws&Hm&HlF&Hws&Hn&Hd&_). eexists _, _. split; [exact Hm|].
  apply denotes_list. split_and!; [set_solver|done|]. exists ws. unfold get. simpl. rewrite Hws.
  split; [done|]. intros i t Hi. apply lookup_lt_Some in Hi as Hlt.
  destruct (Hd i t Hlt Hi) as (x&Hx&Ht). exists x. split; [done|].
  eapply denotes_frame; [done|set_solver|done].
Qed.
Context (f : place → place → mem unit).
Context (Hf : ∀ t, t ∈ ts → copies_when (λ _ w, w = zero_val A) t f).
Lemma copied_step p off vs w i h :
  ready h0 inp out R (TList ts) (GSlice (Some (p, off, n))) w →
  get h0 p = Some (GArray vs) → p.1 ∈ R → i < n →
  (∀ j t, ts !! j = Some t → ∃ v, vs !! (off + j) = Some v ∧ denotes h0 R t v) →
  copied i h →
  runs (p <- index inp i ;; q <- index out i ;; f p q) h (λ _, copied (S i)).
Proof.
  intros Hr Hp HpR Hi Hvs (F&ws&Hm&HlF&Hws&Hn&Hd&Hz). destruct (lookup_lt_is_Some_2 ts i Hi) as [t Ht].
  destruct (Hvs i t Ht) as (v&Hv&Hden). destruct Hr.
  assert (Hlout : l ≠ out.1) by (apply (apart (dom h0)); [done|by eapply get_dom]).
  apply runs_bind, runs_bind, (runs_load _ _ _ (GSlice (Some (p, off, n)))).
  { apply (modifies_elsewhere Hm); done. }
  rewrite decide_True by done. apply runs_ret, runs_bind, runs_bind.
  apply (runs_load _ _ _ (GSlice (Some ((l, []), 0, n)))); [by apply (modifies_get Hm)|].
  rewrite decide_True by done. apply runs_ret.
  assert (Hwi : ws !! i = Some (zero_val A)) by (apply Hz; lia).
  eapply runs_weaken;
    [apply (Hf t (list_elem_of_lookup_2 _ _ _ Ht) h _ _ R v (zero_val A)); [|done]|].
  - split.
    + apply (modifies_elsewhere Hm); [by apply not_eq_sym, (apart R)|].
      unfold get, element in *. simpl. destruct (h0 !! p.1) as [c|]; [|done]. simpl in *.
      rewrite walk_app, Hp. simpl. by rewrite Hv.
    + by apply (modifies_denotes Hm).
    + etrans; [done|by apply (modifies_dom Hm)].
    + simpl. by intros ?%rd_region0.
    + apply (apart (dom h0)); [done|by apply rd_region0].
    + unfold get, element. simpl. rewrite Hws. simpl. by rewrite Hwi.
  - intros _ h' (x&F'&Hm'&Hx). exists (F ∪ F'), (<[i := x]> ws).
    assert (HlF' : l ∉ F').
    { apply elem_of_dom_2 in Hws. intros HF'. by apply (mod_new _ _ _ _ _ Hm' l). }
    split_and!.
    + rewrite (assoc_L (∪)). eapply modifies_inside; [exact Hm| |exact Hm'].
      by apply elem_of_union_l, elem_of_singleton.
    + set_solver.
    + destruct (mod_out _ _ _ _ _ Hm') as (c&c'&Hc&Hput&Hc'). simpl in *. rewrite Hws in Hc.
      injection Hc as <-. rewrite Hwi in Hput. simpl in Hput. by simplify_eq.
    + by rewrite length_insert.
    + intros j u Hj Hu. destruct (decide (j = i)) as [->|Hne].
      * exists x. rewrite list_lookup_insert_eq by (by eapply lookup_lt_Some). split; [done|].
        simplify_eq. eapply denotes_frame; [done|set_solver|done].
      * destruct (Hd j u) as (y&Hy&Hdy); [lia|done|]. exists y.
        rewrite list_lookup_insert_ne by done. split; [done|].
        apply (modifies_denotes Hm') in Hdy; [|done]. eapply denotes_frame; [done|set_solver|done].
    + intros j Hj. rewrite list_lookup_insert_ne by lia. apply Hz. lia.
Qed.
End Loop.

Lemma runs_len h inp out R ts v w :
  ready h inp out R (TList ts) v w → runs (len inp) h (λ n h', n = length ts ∧ h' = h).
Proof.
  intros []. apply runs_bind, (runs_load _ _ _ v); [done|].
  destruct v as [| | | |[[[p off] n]|]]; try done; apply runs_ret; [|by rewrite rd_denotes0].
  by apply denotes_list in rd_denotes0 as (_&->&_).
Qed.
Lemma copies_elements `{Layout A} ts f :
  (∀ t, t ∈ ts → copies_when (λ _ w, w = zero_val A) t f) → copies (TList ts) (make_elements A f).
Proof.
  intros Hf h inp out R v w Hr _. apply runs_bind.
  eapply runs_weaken; [by eapply runs_len|]. intros n h' [-> ->].
  apply runs_bind, runs_bind, runs_alloc. intros l Hl. apply runs_ret, runs_bind.
  assert (Ho : out.1 ∈ dom h) by (destruct Hr; by eapply get_dom).
  set (zs := replicate (length ts) (zero_val A)).
  eapply (runs_store _ _ _ w).
  { destruct Hr. unfold get in *. rewrite lookup_insert_ne; [done|]. by apply (apart (dom h)). }
  intros h2 _ Hm2.
  assert (Hm : modifies h out (GSlice (Some ((l, []), 0, length ts))) ({[l]} ∪ ∅) h2).
  { by apply modifies_alloc in Hm2. }
  assert (Hl2 : h2 !! l = Some (GArray zs)).
  { rewrite (mod_others _ _ _ _ _ Hm2); [by rewrite lookup_insert_eq| |].
    - rewrite dom_insert_L. set_solver.
    - by apply (apart (dom h)). }
  apply runs_bind. eapply runs_weaken.
  { eapply runs_len, (ready_later _ _ _ _ out); [exact Hr|exact Hm|by apply (modifies_get Hm)|].
    by left. }
  intros n h' [-> ->].
  assert (H0 : copied (A:=A) ts h out l 0 h2).
  { exists ∅, zs. split_and!; [done|set_solver|done| | |].
    - unfold zs. by rewrite length_replicate.
    - intros j t Hj. lia.
    - intros j Hj. unfold zs. rewrite lookup_replicate. split; [done|lia]. }
  destruct v as [| | | |[[[p off] n]|]]; try by destruct Hr.
  - pose proof Hr as []. apply denotes_list in rd_denotes0 as (HpR&->&vs&Hvs&Hall).
    eapply runs_weaken.
    { apply (runs_for (copied (A:=A) ts h out l)); [|exact H0]. intros j k Hj Hc.
      eapply copied_step; [done..|lia|done|done]. }
    intros [] h' Hc. by eapply copied_made.
  - destruct Hr. simpl in rd_denotes0. subst ts. apply runs_ret. by eapply copied_made.
Qed.
Lemma copies_make_copy `{Layout A} ts :
  Forall (λ t, flat t = true) ts → copies (TList ts) (make_copy A).
Proof.
  intros Hts. apply copies_elements. intros t Ht. apply copies_any, copies_value.
  by eapply Forall_forall in Hts.
Qed.
Lemma copies_make_into `{Layout A} ts f :
  Forall (λ t, copies t f) ts → copies (TList ts) (make_into A f).
Proof.
  intros Hts. apply copies_elements. intros t Ht. apply copies_any.
  by eapply Forall_forall in Hts.
Qed.
Lemma copies_make_each `{Layout A} ts f :
  Forall (λ t, t = TNil ∨ is_Some (match t with TRef t => Some t | _ => None end) ∧ copies t f) ts →
  copies (TList ts) (make_each A f).
Proof.
  intros Hts. apply (copies_elements (A:=option A)). intros t Ht h inp out R v w Hr ->.
  eapply Forall_forall in Hts; [|done].
  eapply (copies_unless_nil t f); [| |done|].
  - by destruct Hts as [->|[[] ?]]; [|destruct t].
  - naive_solver.
  - destruct Hr, v as [| | |[]|[[[]]|]]; try done.
    destruct Hts as [->|[[] ?]]; [done|by destruct t].
Qed.

(** ** Structs *)
Section Struct.
Context (h0 : memory) (inp out : place) (R : gset loc) (ts : list (string * tree)).
Context (fs : list (string * gval)) (w0 : gval).
Context (Hr : ready h0 inp out R (TStruct ts) (GStruct fs) w0) (Hnames : NoDup ts.*1).
(** The fields [done] are copies, in the cells of [F]; the others are still those of [inp]. *)
Definition partly (fin : list string) (h : memory) : Prop :=
  ∃ F gs, modifies h0 out (GStruct gs) F h ∧ gs.*1 = fs.*1 ∧
    (∀ n t, (n, t) ∈ ts → ∃ v, assoc n gs = Some v ∧
       if decide (n ∈ fin) then denotes h F t v else assoc n fs = Some v).
Definition completes (fin : list string) (m : mem unit) : Prop :=
  ∀ h, partly fin h → runs m h (λ _, made h0 out (TStruct ts)).

Lemma partly_field fin h n t f :
  assoc n ts = Some t → n ∉ fin → fills t f → partly fin h →
  runs (f (inp.>n) (out.>n)) h (λ _, partly (n :: fin)).
Proof.
  intros Ht Hn Hf (F&gs&Hm&Hgs&Hall). pose proof Hr as [].
  apply denotes_struct in rd_denotes0 as [Hfs Hd].
  destruct (Hall n t) as (v&Hv&Hnv); [by apply assoc_elem|].
  rewrite decide_False in Hnv by done.
  destruct (Hd n t) as (v'&Hv'&Hden); [by apply assoc_elem|]. simplify_eq.
  assert (Hget : ∀ h p xs, get h p = Some (GStruct xs) → get h (p.>n) = assoc n xs).
  { intros k p xs. unfold get, field. simpl. destruct (k !! p.1) as [c|]; [|done]. simpl.
    intros Hw. rewrite walk_app, Hw. simpl. by destruct (assoc n xs). }
  eapply runs_weaken.
  { apply (Hf h (inp.>n) (out.>n) R v v); [|done].
    destruct (ready_later _ _ _ _ out _ _ _ _ _ _ _ Hr Hm (modifies_get Hm)) as []; [by left|].
    split; [by erewrite Hget|by apply (modifies_denotes Hm)|done..|].
    by erewrite Hget by (apply (modifies_get Hm)). }
  intros [] h' (x&F'&Hm'&Hx).
  exists (F ∪ F'), (assoc_set n x gs). split_and!.
  - eapply modifies_part; [exact Hm| |exact Hm']. simpl. by rewrite Hv.
  - by rewrite assoc_set_names.
  - intros m u Hu. destruct (Hall m u Hu) as (y&Hy&Hyd).
    destruct (decide (m = n)) as [->|Hne].
    + exists x. rewrite assoc_set_same by by eexists. split; [done|].
      rewrite decide_True by by left. apply elem_assoc in Hu; [|done]. simplify_eq.
      eapply denotes_frame; [done|set_solver|done].
    + exists y. rewrite assoc_set_other by done. split; [done|]. revert Hyd.
      case_decide as Hin.
      * intros Hyd. rewrite decide_True by by right. apply (modifies_denotes Hm') in Hyd.
        -- eapply denotes_frame; [done|set_solver|done].
        -- simpl. intros HF. apply (mod_new _ _ _ _ _ Hm out.1); [done|]. by eapply get_dom.
      * intros ?. rewrite decide_False; [done|]. rewrite elem_of_cons. naive_solver.
Qed.
Lemma completes_field fin n t f m :
  assoc n ts = Some t → n ∉ fin → fills t f → completes (n :: fin) m →
  completes fin (f (inp.>n) (out.>n) ;; m).
Proof.
  intros Ht Hn Hf Hm h Hp. apply runs_bind. eapply runs_weaken; [by eapply partly_field|].
  intros [] h'. apply Hm.
Qed.
(** The fields that are left have no pointers. *)
Definition rest_flat (fin : list string) : bool :=
  forallb (λ '(n, t), bool_decide (n ∈ fin) || flat t) ts.
Lemma partly_made fin h : rest_flat fin = true → partly fin h → made h0 out (TStruct ts) h.
Proof.
  intros Hf (F&gs&Hm&Hgs&Hall). exists (GStruct gs), F. split; [done|]. destruct Hr.
  apply denotes_struct in rd_denotes0 as [Hfs Hd]. apply denotes_struct.
  split; [congruence|]. intros n t Hin. destruct (Hall n t Hin) as (v&Hv&Hden). exists v.
  split; [done|]. revert Hden. case_decide as Hn; [done|]. intros Hv'.
  destruct (Hd n t Hin) as (v''&?&?). simplify_eq. eapply flat_denotes; [|done].
  unfold rest_flat in Hf. rewrite forallb_forall in Hf.
  specialize (Hf (n, t)). rewrite <-list_elem_of_In in Hf. specialize (Hf Hin). simpl in Hf.
  by rewrite bool_decide_eq_false_2 in Hf.
Qed.
Lemma completes_last fin n t f :
  assoc n ts = Some t → n ∉ fin → fills t f → rest_flat (n :: fin) = true →
  completes fin (f (inp.>n) (out.>n)).
Proof.
  intros Ht Hn Hf Hrest h Hp. eapply runs_weaken; [by eapply partly_field|].
  intros [] h'. by apply partly_made.
Qed.
End Struct.

Lemma copies_fields ts (m : place → place → mem unit) :
  NoDup ts.*1 →
  (∀ h0 inp out R fs w0, ready h0 inp out R (TStruct ts) (GStruct fs) w0 →
     completes h0 out ts fs [] (m inp out)) →
  copies (TStruct ts) (λ inp out, copy_value inp out ;; m inp out).
Proof.
  intros Hnd Hm h inp out R v w Hr _. destruct v as [|fs| | |]; try by destruct Hr.
  apply runs_bind. eapply runs_weaken with
    (λ _ h', modifies h out (GStruct fs) ∅ h').
  { destruct Hr. apply runs_bind, (runs_load _ _ _ (GStruct fs)); [done|].
    by eapply runs_store. }
  intros [] h' Hm'. eapply Hm; [exact Hr|]. exists ∅, fs. split_and!; [done..|].
  intros n t Hin. destruct Hr. apply denotes_struct in rd_denotes0 as [_ Hd].
  destruct (Hd n t Hin) as (v&?&?). exists v. by rewrite decide_False by apply not_elem_of_nil.
Qed.

(** ** Types whose values are copied by a function, by an assignment *)
Class DeepCopies (A : Type) `{Layout A} (f : place → place → mem unit) :=
  deep_copies : ∀ a : A, copies (tree_of a) f.
Class Plain (A : Type) `{Layout A} := plain : ∀ a : A, flat (tree_of a) = true.
#[export] Instance string_plain : Plain string.
Proof. done. Qed.
#[export] Instance bool_plain : Plain bool.
Proof. done. Qed.
#[export] Instance Z_plain : Plain Z.
Proof. done. Qed.
#[export] Instance plain_copies `{Plain A} : DeepCopies A copy_value.
Proof. intros a. apply copies_value, plain. Qed.

(** What the statement of a field does for a field of type [A] *)
Class Fills (A : Type) `{Layout A} (f : place → place → mem unit) :=
  fills_field : ∀ a : A, fills (tree_of a) f.
#[export] Instance copies_Fills `{DeepCopies A f} : Fills A f | 10.
Proof. intros a. apply copies_any, deep_copies. Qed.
#[export] Instance ptr_copy_Fills `{Plain A} : Fills (option A) (unless_nil (new_copy A)).
Proof.
  intros [a|]; apply fills_unless_nil; [done| |done|by left].
  right. apply copies_new_copy, plain.
Qed.
#[export] Instance ptr_into_Fills `{DeepCopies A f} : Fills (option A) (unless_nil (new_into A f)).
Proof.
  intros [a|]; apply fills_unless_nil; [done| |done|by left].
  right. apply copies_new_into, deep_copies.
Qed.
#[export] Instance slice_copy_copies `{Plain A} : DeepCopies (list A) (make_copy A).
Proof. intros l. apply copies_make_copy, Forall_fmap, Forall_true. intros a. apply plain. Qed.
#[export] Instance slice_into_copies `{DeepCopies A f} : DeepCopies (list A) (make_into A f).
Proof. intros l. apply copies_make_into, Forall_fmap, Forall_true. intros a. apply deep_copies. Qed.
#[export] Instance slice_each_copy_copies `{Plain A} :
  DeepCopies (list (option A)) (make_each A (new_copy A)).
Proof.
  intros l. apply copies_make_each, Forall_fmap, Forall_true. intros [a|]; [right|by left].
  split; [by eexists|]. apply copies_new_copy, plain.
Qed.
#[export] Instance slice_each_into_copies `{DeepCopies A f} :
  DeepCopies (list (option A)) (make_each A (new_into A f)).
Proof.
  intros l. apply copies_make_each, Forall_fmap, Forall_true. intros [a|]; [right|by left].
  split; [by eexists|]. apply copies_new_into, deep_copies.
Qed.
#[export] Instance slice_Fills {A} `{Layout A} {f} `{!DeepCopies (list A) f} : Fills (list A) (unless_nil f).
Proof. intros l. apply fills_unless_nil; [done|]. right. apply deep_copies. Qed.

(** The function of a struct copies it: its statements, field by field. *)
Ltac by_computation := refine (bool_decide_unpack _ _); vm_compute; exact I.
Ltac copy_field Hr :=
  lazymatch goal with
  | |- completes _ _ _ _ _ (mbind _ _) =>
      eapply (completes_field _ _ _ _ _ _ _ Hr);
        [by_computation|reflexivity|by_computation|apply fills_field|copy_field Hr]
  | |- _ =>
      eapply (completes_last _ _ _ _ _ _ _ Hr);
        [by_computation|reflexivity|by_computation|apply fills_field|reflexivity]
  end.
Ltac copy_struct :=
  lazymatch goal with |- DeepCopies _ ?f => unfold f end;
  let x := fresh in let Hr := fresh in intros x;
  first
    [ apply copies_value; reflexivity
    | unshelve refine (copies_fields _ (λ inp out, _) _ _);
      [by_computation|intros ?????? Hr; copy_field Hr] ].
