(* ===== verification/DeepCopy.v ===== *)
(** * Deep copies, api/v1beta2/zz_generated.deepcopy.go

    How the structs lie in memory, and the generated functions that copy them. *)
From stdpp Require Import prelude strings list gmap.
From S2P Require Import Prelude GoStd External Api Memory CopyRules.
Local Open Scope mem_scope.

(** ** The libraries *)
(** The structs of apimachinery and of Cluster API that the resources have as fields: those
    with pointers in them are copied by their own functions. *)
#[export] Instance TypeMeta_layout : Layout metav1.TypeMeta := {|
  tree_of x := TStruct [("Kind", tree_of (metav1.Kind x));
    ("APIVersion", tree_of (metav1.APIVersion x))];
  zero := metav1.empty_type |}.
#[export] Instance NodeAddress_layout : Layout NodeAddress := {|
  tree_of x := TStruct [("Type", tree_of (na_Type x)); ("Address", tree_of (na_Address x))];
  zero := mkNodeAddress "" "" |}.
#[export] Instance APIEndpoint_layout : Layout clusterv1.APIEndpoint := {|
  tree_of x := TStruct [("Host", tree_of (clusterv1.Host x)); ("Port", tree_of (clusterv1.Port x))];
  zero := clusterv1.mkAPIEndpoint "" 0 |}.
#[export] Instance APIEndpoint_v1beta1_layout : Layout corev1beta1.APIEndpoint := {|
  tree_of x := TStruct [("Host", tree_of (corev1beta1.Host x));
    ("Port", tree_of (corev1beta1.Port x))];
  zero := corev1beta1.zero_APIEndpoint |}.
#[export] Instance TypeMeta_plain : Plain metav1.TypeMeta.
Proof. done. Qed.
#[export] Instance NodeAddress_plain : Plain NodeAddress.
Proof. done. Qed.
#[export] Instance APIEndpoint_plain : Plain clusterv1.APIEndpoint.
Proof. done. Qed.
#[export] Instance APIEndpoint_v1beta1_plain : Plain corev1beta1.APIEndpoint.
Proof. done. Qed.
Class ApiMachinery := {
  ObjectMeta_layout :: Layout metav1.ObjectMeta;
  ListMeta_layout :: Layout metav1.ListMeta;
  Condition_layout :: Layout metav1.Condition;
  Condition_v1beta1_layout :: Layout corev1beta1.Condition;
  ObjectMeta_DeepCopyInto : place → place → mem unit;
  ListMeta_DeepCopyInto : place → place → mem unit;
  Condition_DeepCopyInto : place → place → mem unit;
  Condition_v1beta1_DeepCopyInto : place → place → mem unit;
  Time_DeepCopyInto : place → place → mem unit }.
Class ApiMachineryLaws (AM : ApiMachinery) := {
  ObjectMeta_copies :: DeepCopies metav1.ObjectMeta ObjectMeta_DeepCopyInto;
  ListMeta_copies :: DeepCopies metav1.ListMeta ListMeta_DeepCopyInto;
  Condition_copies :: DeepCopies metav1.Condition Condition_DeepCopyInto;
  Condition_v1beta1_copies ::
    DeepCopies corev1beta1.Condition Condition_v1beta1_DeepCopyInto;
  Time_copies :: DeepCopies Z Time_DeepCopyInto }.

Section Copies.
Context {AM : ApiMachinery}.
(** ** The structs and their copies *)
#[export] Instance AvailabilityZone_layout : Layout AvailabilityZone := {|
  tree_of x := TStruct [("ID", tree_of (az_ID x)); ("Enabled", tree_of (az_Enabled x))];
  zero := mkAvailabilityZone (zero _) (zero _) |}.
Definition AvailabilityZone_DeepCopyInto (inp out : place) : mem unit :=
  copy_value inp out ;;
  unless_nil (new_copy string) (inp.>"ID") (out.>"ID") ;;
  unless_nil (new_copy bool) (inp.>"Enabled") (out.>"Enabled").
Definition AvailabilityZone_DeepCopy : option place → mem (option place) :=
  deep_copy AvailabilityZone AvailabilityZone_DeepCopyInto.
#[export] Instance VnetSpec_layout : Layout VnetSpec := {|
  tree_of x := TStruct [("ID", tree_of (vnet_ID x)); ("Name", tree_of (vnet_Name x));
    ("CidrBlock", tree_of (vnet_CidrBlock x)); ("Group", tree_of (vnet_Group x))];
  zero := mkVnetSpec (zero _) (zero _) (zero _) (zero _) |}.
Definition VnetSpec_DeepCopyInto (inp out : place) : mem unit :=
  copy_value inp out.
Definition VnetSpec_DeepCopy : option place → mem (option place) :=
  deep_copy VnetSpec VnetSpec_DeepCopyInto.
#[export] Instance SubnetSpec_layout : Layout SubnetSpec := {|
  tree_of x := TStruct [("ID", tree_of (sn_ID x)); ("Name", tree_of (sn_Name x));
    ("VnetID", tree_of (sn_VnetID x)); ("CidrBlock", tree_of (sn_CidrBlock x))];
  zero := mkSubnetSpec (zero _) (zero _) (zero _) (zero _) |}.
Definition SubnetSpec_DeepCopyInto (inp out : place) : mem unit :=
  copy_value inp out.
Definition SubnetSpec_DeepCopy : option place → mem (option place) :=
  deep_copy SubnetSpec SubnetSpec_DeepCopyInto.
Definition Subnets_DeepCopyInto (inp : gval) (out : place) : mem unit :=
  inp <- alloc inp ;;
  make_each SubnetSpec (new_copy SubnetSpec) inp out.
Definition Subnets_DeepCopy : gval → mem gval := deep_copy_slice Subnets_DeepCopyInto.
#[export] Instance NetworkSpec_layout : Layout NetworkSpec := {|
  tree_of x := TStruct [("Vnet", tree_of (ns_Vnet x)); ("Subnets", tree_of (ns_Subnets x))];
  zero := mkNetworkSpec (zero _) (zero _) |}.
Definition NetworkSpec_DeepCopyInto (inp out : place) : mem unit :=
  copy_value inp out ;;
  copy_value (inp.>"Vnet") (out.>"Vnet") ;;
  unless_nil (make_each SubnetSpec (new_copy SubnetSpec)) (inp.>"Subnets") (out.>"Subnets").
Definition NetworkSpec_DeepCopy : option place → mem (option place) :=
  deep_copy NetworkSpec NetworkSpec_DeepCopyInto.
#[export] Instance Image_layout : Layout Image := {|
  tree_of x := TStruct [("Publisher", tree_of (img_Publisher x));
    ("Offer", tree_of (img_Offer x)); ("SKU", tree_of (img_SKU x)); ("ID", tree_of (img_ID x));
    ("SubscriptionID", tree_of (img_SubscriptionID x));
    ("ResourceGroup", tree_of (img_ResourceGroup x)); ("Gallery", tree_of (img_Gallery x));
    ("Name", tree_of (img_Name x)); ("Version", tree_of (img_Version x));
    ("OSType", tree_of (img_OSType x))];
  zero := mkImage (zero _) (zero _) (zero _) (zero _) (zero _) (zero _) (zero _) (zero _)
     (zero _) (zero _) |}.
Definition Image_DeepCopyInto (inp out : place) : mem unit :=
  copy_value inp out ;;
  unless_nil (new_copy string) (inp.>"Publisher") (out.>"Publisher") ;;
  unless_nil (new_copy string) (inp.>"Offer") (out.>"Offer") ;;
  unless_nil (new_copy string) (inp.>"SKU") (out.>"SKU") ;;
  unless_nil (new_copy string) (inp.>"ID") (out.>"ID") ;;
  unless_nil (new_copy string) (inp.>"SubscriptionID") (out.>"SubscriptionID") ;;
  unless_nil (new_copy string) (inp.>"ResourceGroup") (out.>"ResourceGroup") ;;
  unless_nil (new_copy string) (inp.>"Gallery") (out.>"Gallery") ;;
  unless_nil (new_copy string) (inp.>"Name") (out.>"Name") ;;
  unless_nil (new_copy string) (inp.>"Version") (out.>"Version").
Definition Image_DeepCopy : option place → mem (option place) :=
  deep_copy Image Image_DeepCopyInto.
#[export] Instance AzureStackHCILoadBalancerSpec_layout : Layout AzureStackHCILoadBalancerSpec := {|
  tree_of x := TStruct [("SSHPublicKey", tree_of (lbs_SSHPublicKey x));
    ("Image", tree_of (lbs_Image x)); ("VMSize", tree_of (lbs_VMSize x));
    ("StorageContainer", tree_of (lbs_StorageContainer x));
    ("Replicas", tree_of (lbs_Replicas x))];
  zero := mkLoadBalancerSpec (zero _) (zero _) (zero _) (zero _) (zero _) |}.
Definition AzureStackHCILoadBalancerSpec_DeepCopyInto (inp out : place) : mem unit :=
  copy_value inp out ;;
  unless_nil (new_into Image Image_DeepCopyInto) (inp.>"Image") (out.>"Image") ;;
  unless_nil (new_copy Z) (inp.>"Replicas") (out.>"Replicas").
Definition AzureStackHCILoadBalancerSpec_DeepCopy : option place → mem (option place) :=
  deep_copy AzureStackHCILoadBalancerSpec AzureStackHCILoadBalancerSpec_DeepCopyInto.
#[export] Instance AzureStackHCIClusterSpec_layout : Layout AzureStackHCIClusterSpec := {|
  tree_of x := TStruct [("NetworkSpec", tree_of (cs_NetworkSpec x));
    ("ResourceGroup", tree_of (cs_ResourceGroup x)); ("Location", tree_of (cs_Location x));
    ("AzureStackHCILoadBalancer", tree_of (cs_AzureStackHCILoadBalancer x));
    ("ControlPlaneEndpoint", tree_of (cs_ControlPlaneEndpoint x));
    ("Version", tree_of (cs_Version x)); ("Management", tree_of (cs_Management x))];
  zero := mkClusterSpec (zero _) (zero _) (zero _) (zero _) (zero _) (zero _) (zero _) |}.
Definition AzureStackHCIClusterSpec_DeepCopyInto (inp out : place) : mem unit :=
  copy_value inp out ;;
  NetworkSpec_DeepCopyInto (inp.>"NetworkSpec") (out.>"NetworkSpec") ;;
  unless_nil (new_into AzureStackHCILoadBalancerSpec AzureStackHCILoadBalancerSpec_DeepCopyInto)
      (inp.>"AzureStackHCILoadBalancer") (out.>"AzureStackHCILoadBalancer") ;;
  copy_value (inp.>"ControlPlaneEndpoint") (out.>"ControlPlaneEndpoint") ;;
  unless_nil (new_copy string) (inp.>"Version") (out.>"Version").
Definition AzureStackHCIClusterSpec_DeepCopy : option place → mem (option place) :=
  deep_copy AzureStackHCIClusterSpec AzureStackHCIClusterSpec_DeepCopyInto.
#[export] Instance ManagedDisk_layout : Layout ManagedDisk := {|
  tree_of x := TStruct [("StorageAccountType", tree_of (md_StorageAccountType x))];
  zero := mkManagedDisk (zero _) |}.
Definition ManagedDisk_DeepCopyInto (inp out : place) : mem unit :=
  copy_value inp out.
Definition ManagedDisk_DeepCopy : option place → mem (option place) :=
  deep_copy ManagedDisk ManagedDisk_DeepCopyInto.
#[export] Instance OSDisk_layout : Layout OSDisk := {|
  tree_of x := TStruct [("Name", tree_of (osd_Name x)); ("Source", tree_of (osd_Source x));
    ("OSType", tree_of (osd_OSType x)); ("DiskSizeGB", tree_of (osd_DiskSizeGB x));
    ("ManagedDisk", tree_of (osd_ManagedDisk x))];
  zero := mkOSDisk (zero _) (zero _) (zero _) (zero _) (zero _) |}.
Definition OSDisk_DeepCopyInto (inp out : place) : mem unit :=
  copy_value inp out ;;
  unless_nil (new_copy ManagedDisk) (inp.>"ManagedDisk") (out.>"ManagedDisk").
Definition OSDisk_DeepCopy : option place → mem (option place) :=
  deep_copy OSDisk OSDisk_DeepCopyInto.
#[export] Instance VM_layout : Layout VM := {|
  tree_of x := TStruct [("ID", tree_of (vm_ID x)); ("Name", tree_of (vm_Name x));
    ("AvailabilityZone", tree_of (vm_AvailabilityZone x)); ("VMSize", tree_of (vm_VMSize x));
    ("Image", tree_of (vm_Image x)); ("OSDisk", tree_of (vm_OSDisk x));
    ("BootstrapData", tree_of (vm_BootstrapData x)); ("State", tree_of (vm_State x));
    ("Identity", tree_of (vm_Identity x))];
  zero := mkVM (zero _) (zero _) (zero _) (zero _) (zero _) (zero _) (zero _) (zero _) (zero _) |}.
Definition VM_DeepCopyInto (inp out : place) : mem unit :=
  copy_value inp out ;;
  Image_DeepCopyInto (inp.>"Image") (out.>"Image") ;;
  OSDisk_DeepCopyInto (inp.>"OSDisk") (out.>"OSDisk").
Definition VM_DeepCopy : option place → mem (option place) := deep_copy VM VM_DeepCopyInto.
#[export] Instance InitializationStatus_layout : Layout InitializationStatus := {|
  tree_of x := TStruct [("Provisioned", tree_of (init_Provisioned x))];
  zero := mkInitializationStatus (zero _) |}.
Definition AzureStackHCIClusterInitializationStatus_DeepCopyInto (inp out : place) : mem unit :=
  copy_value inp out ;;
  unless_nil (new_copy bool) (inp.>"Provisioned") (out.>"Provisioned").
Definition AzureStackHCIClusterInitializationStatus_DeepCopy : option place → mem (option place) :=
  deep_copy InitializationStatus AzureStackHCIClusterInitializationStatus_DeepCopyInto.
#[export] Instance AzureStackHCIClusterStatus_layout : Layout AzureStackHCIClusterStatus := {|
  tree_of x := TStruct [("Bastion", tree_of (cst_Bastion x)); ("Phase", tree_of (cst_Phase x));
    ("Conditions", tree_of (cst_Conditions x));
    ("Initialization", tree_of (cst_Initialization x))];
  zero := mkClusterStatus (zero _) (zero _) (zero _) (zero _) |}.
Definition AzureStackHCIClusterStatus_DeepCopyInto (inp out : place) : mem unit :=
  copy_value inp out ;;
  VM_DeepCopyInto (inp.>"Bastion") (out.>"Bastion") ;;
  unless_nil (make_into metav1.Condition Condition_DeepCopyInto)
      (inp.>"Conditions") (out.>"Conditions") ;;
  unless_nil (new_into InitializationStatus AzureStackHCIClusterInitializationStatus_DeepCopyInto)
      (inp.>"Initialization") (out.>"Initialization").
Definition AzureStackHCIClusterStatus_DeepCopy : option place → mem (option place) :=
  deep_copy AzureStackHCIClusterStatus AzureStackHCIClusterStatus_DeepCopyInto.
#[export] Instance AzureStackHCICluster_layout : Layout AzureStackHCICluster := {|
  tree_of x := TStruct [("TypeMeta", tree_of (hc_type x)); ("ObjectMeta", tree_of (hc_meta x));
    ("Spec", tree_of (hc_Spec x)); ("Status", tree_of (hc_Status x))];
  zero := mkCluster (zero _) (zero _) (zero _) (zero _) |}.
Definition AzureStackHCICluster_DeepCopyInto (inp out : place) : mem unit :=
  copy_value inp out ;;
  copy_value (inp.>"TypeMeta") (out.>"TypeMeta") ;;
  ObjectMeta_DeepCopyInto (inp.>"ObjectMeta") (out.>"ObjectMeta") ;;
  AzureStackHCIClusterSpec_DeepCopyInto (inp.>"Spec") (out.>"Spec") ;;
  AzureStackHCIClusterStatus_DeepCopyInto (inp.>"Status") (out.>"Status").
Definition AzureStackHCICluster_DeepCopy : option place → mem (option place) :=
  deep_copy AzureStackHCICluster AzureStackHCICluster_DeepCopyInto.
Definition AzureStackHCICluster_DeepCopyObject : option place → mem (option iface) :=
  deep_copy_object "AzureStackHCICluster" AzureStackHCICluster_DeepCopy.
#[export] Instance AzureStackHCIClusterList_layout : Layout AzureStackHCIClusterList := {|
  tree_of x := TStruct [("TypeMeta", tree_of (hcl_type x)); ("ListMeta", tree_of (hcl_meta x));
    ("Items", tree_of (hcl_Items x))];
  zero := mkClusterList (zero _) (zero _) (zero _) |}.
Definition AzureStackHCIClusterList_DeepCopyInto (inp out : place) : mem unit :=
  copy_value inp out ;;
  copy_value (inp.>"TypeMeta") (out.>"TypeMeta") ;;
  ListMeta_DeepCopyInto (inp.>"ListMeta") (out.>"ListMeta") ;;
  unless_nil (make_into AzureStackHCICluster AzureStackHCICluster_DeepCopyInto)
      (inp.>"Items") (out.>"Items").
Definition AzureStackHCIClusterList_DeepCopy : option place → mem (option place) :=
  deep_copy AzureStackHCIClusterList AzureStackHCIClusterList_DeepCopyInto.
Definition AzureStackHCIClusterList_DeepCopyObject : option place → mem (option iface) :=
  deep_copy_object "AzureStackHCIClusterList" AzureStackHCIClusterList_DeepCopy.
#[export] Instance AzureStackHCIClusterTemplateResource_layout : Layout AzureStackHCIClusterTemplateResource := {|
  tree_of x := TStruct [("Spec", tree_of (ctr_Spec x))];
  zero := mkClusterTemplateResource (zero _) |}.
Definition AzureStackHCIClusterTemplateResource_DeepCopyInto (inp out : place) : mem unit :=
  copy_value inp out ;;
  AzureStackHCIClusterSpec_DeepCopyInto (inp.>"Spec") (out.>"Spec").
Definition AzureStackHCIClusterTemplateResource_DeepCopy : option place → mem (option place) :=
  deep_copy AzureStackHCIClusterTemplateResource AzureStackHCIClusterTemplateResource_DeepCopyInto.
#[export] Instance AzureStackHCIClusterTemplateSpec_layout : Layout AzureStackHCIClusterTemplateSpec := {|
  tree_of x := TStruct [("Template", tree_of (cts_Template x))];
  zero := mkClusterTemplateSpec (zero _) |}.
Definition AzureStackHCIClusterTemplateSpec_DeepCopyInto (inp out : place) : mem unit :=
  copy_value inp out ;;
  AzureStackHCIClusterTemplateResource_DeepCopyInto (inp.>"Template") (out.>"Template").
Definition AzureStackHCIClusterTemplateSpec_DeepCopy : option place → mem (option place) :=
  deep_copy AzureStackHCIClusterTemplateSpec AzureStackHCIClusterTemplateSpec_DeepCopyInto.
#[export] Instance AzureStackHCIClusterTemplate_layout : Layout AzureStackHCIClusterTemplate := {|
  tree_of x := TStruct [("TypeMeta", tree_of (ct_type x)); ("ObjectMeta", tree_of (ct_meta x));
    ("Spec", tree_of (ct_Spec x))];
  zero := mkClusterTemplate (zero _) (zero _) (zero _) |}.
Definition AzureStackHCIClusterTemplate_DeepCopyInto (inp out : place) : mem unit :=
  copy_value inp out ;;
  copy_value (inp.>"TypeMeta") (out.>"TypeMeta") ;;
  ObjectMeta_DeepCopyInto (inp.>"ObjectMeta") (out.>"ObjectMeta") ;;
  AzureStackHCIClusterTemplateSpec_DeepCopyInto (inp.>"Spec") (out.>"Spec").
Definition AzureStackHCIClusterTemplate_DeepCopy : option place → mem (option place) :=
  deep_copy AzureStackHCIClusterTemplate AzureStackHCIClusterTemplate_DeepCopyInto.
Definition AzureStackHCIClusterTemplate_DeepCopyObject : option place → mem (option iface) :=
  deep_copy_object "AzureStackHCIClusterTemplate" AzureStackHCIClusterTemplate_DeepCopy.
#[export] Instance AzureStackHCIClusterTemplateList_layout : Layout AzureStackHCIClusterTemplateList := {|
  tree_of x := TStruct [("TypeMeta", tree_of (ctl_type x)); ("ListMeta", tree_of (ctl_meta x));
    ("Items", tree_of (ctl_Items x))];
  zero := mkClusterTemplateList (zero _) (zero _) (zero _) |}.
Definition AzureStackHCIClusterTemplateList_DeepCopyInto (inp out : place) : mem unit :=
  copy_value inp out ;;
  copy_value (inp.>"TypeMeta") (out.>"TypeMeta") ;;
  ListMeta_DeepCopyInto (inp.>"ListMeta") (out.>"ListMeta") ;;
  unless_nil (make_into AzureStackHCIClusterTemplate AzureStackHCIClusterTemplate_DeepCopyInto)
      (inp.>"Items") (out.>"Items").
Definition AzureStackHCIClusterTemplateList_DeepCopy : option place → mem (option place) :=
  deep_copy AzureStackHCIClusterTemplateList AzureStackHCIClusterTemplateList_DeepCopyInto.
Definition AzureStackHCIClusterTemplateList_DeepCopyObject : option place → mem (option iface) :=
  deep_copy_object "AzureStackHCIClusterTemplateList" AzureStackHCIClusterTemplateList_DeepCopy.
#[export] Instance AzureStackHCILoadBalancerStatus_layout : Layout AzureStackHCILoadBalancerStatus := {|
  tree_of x := TStruct [("Ready", tree_of (lst_Ready x)); ("Replicas", tree_of (lst_Replicas x));
    ("ReadyReplicas", tree_of (lst_ReadyReplicas x));
    ("FailedReplicas", tree_of (lst_FailedReplicas x)); ("Address", tree_of (lst_Address x));
    ("Port", tree_of (lst_Port x)); ("Phase", tree_of (lst_Phase x));
    ("Conditions", tree_of (lst_Conditions x)); ("ErrorReason", tree_of (lst_ErrorReason x));
    ("ErrorMessage", tree_of (lst_ErrorMessage x)); ("Selector", tree_of (lst_Selector x))];
  zero := mkLoadBalancerStatus (zero _) (zero _) (zero _) (zero _) (zero _) (zero _) (zero _)
     (zero _) (zero _) (zero _) (zero _) |}.
Definition AzureStackHCILoadBalancerStatus_DeepCopyInto (inp out : place) : mem unit :=
  copy_value inp out ;;
  unless_nil (make_into metav1.Condition Condition_DeepCopyInto)
      (inp.>"Conditions") (out.>"Conditions") ;;
  unless_nil (new_copy string) (inp.>"ErrorReason") (out.>"ErrorReason") ;;
  unless_nil (new_copy string) (inp.>"ErrorMessage") (out.>"ErrorMessage").
Definition AzureStackHCILoadBalancerStatus_DeepCopy : option place → mem (option place) :=
  deep_copy AzureStackHCILoadBalancerStatus AzureStackHCILoadBalancerStatus_DeepCopyInto.
#[export] Instance AzureStackHCILoadBalancer_layout : Layout AzureStackHCILoadBalancer := {|
  tree_of x := TStruct [("TypeMeta", tree_of (lb_type x)); ("ObjectMeta", tree_of (lb_meta x));
    ("Spec", tree_of (lb_Spec x)); ("Status", tree_of (lb_Status x))];
  zero := mkLoadBalancer (zero _) (zero _) (zero _) (zero _) |}.
Definition AzureStackHCILoadBalancer_DeepCopyInto (inp out : place) : mem unit :=
  copy_value inp out ;;
  copy_value (inp.>"TypeMeta") (out.>"TypeMeta") ;;
  ObjectMeta_DeepCopyInto (inp.>"ObjectMeta") (out.>"ObjectMeta") ;;
  AzureStackHCILoadBalancerSpec_DeepCopyInto (inp.>"Spec") (out.>"Spec") ;;
  AzureStackHCILoadBalancerStatus_DeepCopyInto (inp.>"Status") (out.>"Status").
Definition AzureStackHCILoadBalancer_DeepCopy : option place → mem (option place) :=
  deep_copy AzureStackHCILoadBalancer AzureStackHCILoadBalancer_DeepCopyInto.
Definition AzureStackHCILoadBalancer_DeepCopyObject : option place → mem (option iface) :=
  deep_copy_object "AzureStackHCILoadBalancer" AzureStackHCILoadBalancer_DeepCopy.
#[export] Instance AzureStackHCILoadBalancerList_layout : Layout AzureStackHCILoadBalancerList := {|
  tree_of x := TStruct [("TypeMeta", tree_of (lbl_type x)); ("ListMeta", tree_of (lbl_meta x));
    ("Items", tree_of (lbl_Items x))];
  zero := mkLoadBalancerList (zero _) (zero _) (zero _) |}.
Definition AzureStackHCILoadBalancerList_DeepCopyInto (inp out : place) : mem unit :=
  copy_value inp out ;;
  copy_value (inp.>"TypeMeta") (out.>"TypeMeta") ;;
  ListMeta_DeepCopyInto (inp.>"ListMeta") (out.>"ListMeta") ;;
  unless_nil (make_into AzureStackHCILoadBalancer AzureStackHCILoadBalancer_DeepCopyInto)
      (inp.>"Items") (out.>"Items").
Definition AzureStackHCILoadBalancerList_DeepCopy : option place → mem (option place) :=
  deep_copy AzureStackHCILoadBalancerList AzureStackHCILoadBalancerList_DeepCopyInto.
Definition AzureStackHCILoadBalancerList_DeepCopyObject : option place → mem (option iface) :=
  deep_copy_object "AzureStackHCILoadBalancerList" AzureStackHCILoadBalancerList_DeepCopy.
#[export] Instance IpConfigurationSpec_layout : Layout IpConfigurationSpec := {|
  tree_of x := TStruct [("Name", tree_of (ic_Name x)); ("Primary", tree_of (ic_Primary x));
    ("Allocation", tree_of (ic_Allocation x)); ("IpAddress", tree_of (ic_IpAddress x));
    ("PrefixLength", tree_of (ic_PrefixLength x)); ("SubnetId", tree_of (ic_SubnetId x));
    ("Gateway", tree_of (ic_Gateway x))];
  zero := mkIpConfigurationSpec (zero _) (zero _) (zero _) (zero _) (zero _) (zero _) (zero _) |}.
Definition IpConfigurationSpec_DeepCopyInto (inp out : place) : mem unit :=
  copy_value inp out.
Definition IpConfigurationSpec_DeepCopy : option place → mem (option place) :=
  deep_copy IpConfigurationSpec IpConfigurationSpec_DeepCopyInto.
Definition IpConfigurations_DeepCopyInto (inp : gval) (out : place) : mem unit :=
  inp <- alloc inp ;;
  make_each IpConfigurationSpec (new_copy IpConfigurationSpec) inp out.
Definition IpConfigurations_DeepCopy : gval → mem gval :=
  deep_copy_slice IpConfigurations_DeepCopyInto.
#[export] Instance NetworkInterfaceSpec_layout : Layout NetworkInterfaceSpec := {|
  tree_of x := TStruct [("Name", tree_of (nis_Name x));
    ("IPConfigurations", tree_of (nis_IPConfigurations x))];
  zero := mkNetworkInterfaceSpec (zero _) (zero _) |}.
Definition NetworkInterfaceSpec_DeepCopyInto (inp out : place) : mem unit :=
  copy_value inp out ;;
  unless_nil (make_each IpConfigurationSpec (new_copy IpConfigurationSpec))
      (inp.>"IPConfigurations") (out.>"IPConfigurations").
Definition NetworkInterfaceSpec_DeepCopy : option place → mem (option place) :=
  deep_copy NetworkInterfaceSpec NetworkInterfaceSpec_DeepCopyInto.
Definition NetworkInterfaces_DeepCopyInto (inp : gval) (out : place) : mem unit :=
  inp <- alloc inp ;;
  make_each NetworkInterfaceSpec
      (new_into NetworkInterfaceSpec NetworkInterfaceSpec_DeepCopyInto) inp out.
Definition NetworkInterfaces_DeepCopy : gval → mem gval :=
  deep_copy_slice NetworkInterfaces_DeepCopyInto.
#[export] Instance AzureStackHCIMachineSpec_layout : Layout AzureStackHCIMachineSpec := {|
  tree_of x := TStruct [("ProviderID", tree_of (ms_ProviderID x));
    ("VMSize", tree_of (ms_VMSize x)); ("AvailabilityZone", tree_of (ms_AvailabilityZone x));
    ("Image", tree_of (ms_Image x)); ("OSDisk", tree_of (ms_OSDisk x));
    ("Location", tree_of (ms_Location x)); ("SSHPublicKey", tree_of (ms_SSHPublicKey x));
    ("StorageContainer", tree_of (ms_StorageContainer x)); ("GpuCount", tree_of (ms_GpuCount x));
    ("AllocatePublicIP", tree_of (ms_AllocatePublicIP x));
    ("AdditionalSSHKeys", tree_of (ms_AdditionalSSHKeys x));
    ("NetworkInterfaces", tree_of (ms_NetworkInterfaces x));
    ("AvailabilitySetName", tree_of (ms_AvailabilitySetName x));
    ("PlacementGroupName", tree_of (ms_PlacementGroupName x))];
  zero := mkMachineSpec (zero _) (zero _) (zero _) (zero _) (zero _) (zero _) (zero _) (zero _)
     (zero _) (zero _) (zero _) (zero _) (zero _) (zero _) |}.
Definition AzureStackHCIMachineSpec_DeepCopyInto (inp out : place) : mem unit :=
  copy_value inp out ;;
  unless_nil (new_copy string) (inp.>"ProviderID") (out.>"ProviderID") ;;
  unless_nil (new_into AvailabilityZone AvailabilityZone_DeepCopyInto)
      (inp.>"AvailabilityZone") (out.>"AvailabilityZone") ;;
  unless_nil (new_into Image Image_DeepCopyInto) (inp.>"Image") (out.>"Image") ;;
  unless_nil (new_into OSDisk OSDisk_DeepCopyInto) (inp.>"OSDisk") (out.>"OSDisk") ;;
  unless_nil (make_copy string) (inp.>"AdditionalSSHKeys") (out.>"AdditionalSSHKeys") ;;
  unless_nil (make_each NetworkInterfaceSpec (new_into NetworkInterfaceSpec NetworkInterfaceSpec_DeepCopyInto))
      (inp.>"NetworkInterfaces") (out.>"NetworkInterfaces").
Definition AzureStackHCIMachineSpec_DeepCopy : option place → mem (option place) :=
  deep_copy AzureStackHCIMachineSpec AzureStackHCIMachineSpec_DeepCopyInto.
Definition AzureStackHCIMachineInitializationStatus_DeepCopyInto (inp out : place) : mem unit :=
  copy_value inp out ;;
  unless_nil (new_copy bool) (inp.>"Provisioned") (out.>"Provisioned").
Definition AzureStackHCIMachineInitializationStatus_DeepCopy : option place → mem (option place) :=
  deep_copy InitializationStatus AzureStackHCIMachineInitializationStatus_DeepCopyInto.
#[export] Instance AzureStackHCIMachineStatus_layout : Layout AzureStackHCIMachineStatus := {|
  tree_of x := TStruct [("Ready", tree_of (mst_Ready x));
    ("Addresses", tree_of (mst_Addresses x)); ("VMState", tree_of (mst_VMState x));
    ("Conditions", tree_of (mst_Conditions x));
    ("Initialization", tree_of (mst_Initialization x))];
  zero := mkMachineStatus (zero _) (zero _) (zero _) (zero _) (zero _) |}.
Definition AzureStackHCIMachineStatus_DeepCopyInto (inp out : place) : mem unit :=
  copy_value inp out ;;
  unless_nil (make_copy NodeAddress) (inp.>"Addresses") (out.>"Addresses") ;;
  unless_nil (new_copy string) (inp.>"VMState") (out.>"VMState") ;;
  unless_nil (make_into metav1.Condition Condition_DeepCopyInto)
      (inp.>"Conditions") (out.>"Conditions") ;;
  unless_nil (new_into InitializationStatus AzureStackHCIMachineInitializationStatus_DeepCopyInto)
      (inp.>"Initialization") (out.>"Initialization").
Definition AzureStackHCIMachineStatus_DeepCopy : option place → mem (option place) :=
  deep_copy AzureStackHCIMachineStatus AzureStackHCIMachineStatus_DeepCopyInto.
#[export] Instance AzureStackHCIMachine_layout : Layout AzureStackHCIMachine := {|
  tree_of x := TStruct [("TypeMeta", tree_of (hm_type x)); ("ObjectMeta", tree_of (hm_meta x));
    ("Spec", tree_of (hm_Spec x)); ("Status", tree_of (hm_Status x))];
  zero := mkMachine (zero _) (zero _) (zero _) (zero _) |}.
Definition AzureStackHCIMachine_DeepCopyInto (inp out : place) : mem unit :=
  copy_value inp out ;;
  copy_value (inp.>"TypeMeta") (out.>"TypeMeta") ;;
  ObjectMeta_DeepCopyInto (inp.>"ObjectMeta") (out.>"ObjectMeta") ;;
  AzureStackHCIMachineSpec_DeepCopyInto (inp.>"Spec") (out.>"Spec") ;;
  AzureStackHCIMachineStatus_DeepCopyInto (inp.>"Status") (out.>"Status").
Definition AzureStackHCIMachine_DeepCopy : option place → mem (option place) :=
  deep_copy AzureStackHCIMachine AzureStackHCIMachine_DeepCopyInto.
Definition AzureStackHCIMachine_DeepCopyObject : option place → mem (option iface) :=
  deep_copy_object "AzureStackHCIMachine" AzureStackHCIMachine_DeepCopy.
#[export] Instance AzureStackHCIMachineList_layout : Layout AzureStackHCIMachineList := {|
  tree_of x := TStruct [("TypeMeta", tree_of (hml_type x)); ("ListMeta", tree_of (hml_meta x));
    ("Items", tree_of (hml_Items x))];
  zero := mkMachineList (zero _) (zero _) (zero _) |}.
Definition AzureStackHCIMachineList_DeepCopyInto (inp out : place) : mem unit :=
  copy_value inp out ;;
  copy_value (inp.>"TypeMeta") (out.>"TypeMeta") ;;
  ListMeta_DeepCopyInto (inp.>"ListMeta") (out.>"ListMeta") ;;
  unless_nil (make_into AzureStackHCIMachine AzureStackHCIMachine_DeepCopyInto)
      (inp.>"Items") (out.>"Items").
Definition AzureStackHCIMachineList_DeepCopy : option place → mem (option place) :=
  deep_copy AzureStackHCIMachineList AzureStackHCIMachineList_DeepCopyInto.
Definition AzureStackHCIMachineList_DeepCopyObject : option place → mem (option iface) :=
  deep_copy_object "AzureStackHCIMachineList" AzureStackHCIMachineList_DeepCopy.
#[export] Instance AzureStackHCIMachineProviderCondition_layout : Layout AzureStackHCIMachineProviderCondition := {|
  tree_of x := TStruct [("Type", tree_of (mpc_Type x)); ("Status", tree_of (mpc_Status x));
    ("LastProbeTime", tree_of (mpc_LastProbeTime x));
    ("LastTransitionTime", tree_of (mpc_LastTransitionTime x));
    ("Reason", tree_of (mpc_Reason x)); ("Message", tree_of (mpc_Message x))];
  zero := mkProviderCondition (zero _) (zero _) (zero _) (zero _) (zero _) (zero _) |}.
Definition AzureStackHCIMachineProviderCondition_DeepCopyInto (inp out : place) : mem unit :=
  copy_value inp out ;;
  Time_DeepCopyInto (inp.>"LastProbeTime") (out.>"LastProbeTime") ;;
  Time_DeepCopyInto (inp.>"LastTransitionTime") (out.>"LastTransitionTime").
Definition AzureStackHCIMachineProviderCondition_DeepCopy : option place → mem (option place) :=
  deep_copy AzureStackHCIMachineProviderCondition AzureStackHCIMachineProviderCondition_DeepCopyInto.
#[export] Instance AzureStackHCIMachineTemplateResource_layout : Layout AzureStackHCIMachineTemplateResource := {|
  tree_of x := TStruct [("Spec", tree_of (mtr_Spec x))];
  zero := mkMachineTemplateResource (zero _) |}.
Definition AzureStackHCIMachineTemplateResource_DeepCopyInto (inp out : place) : mem unit :=
  copy_value inp out ;;
  AzureStackHCIMachineSpec_DeepCopyInto (inp.>"Spec") (out.>"Spec").
Definition AzureStackHCIMachineTemplateResource_DeepCopy : option place → mem (option place) :=
  deep_copy AzureStackHCIMachineTemplateResource AzureStackHCIMachineTemplateResource_DeepCopyInto.
#[export] Instance AzureStackHCIMachineTemplateSpec_layout : Layout AzureStackHCIMachineTemplateSpec := {|
  tree_of x := TStruct [("Template", tree_of (mts_Template x))];
  zero := mkMachineTemplateSpec (zero _) |}.
Definition AzureStackHCIMachineTemplateSpec_DeepCopyInto (inp out : place) : mem unit :=
  copy_value inp out ;;
  AzureStackHCIMachineTemplateResource_DeepCopyInto (inp.>"Template") (out.>"Template").
Definition AzureStackHCIMachineTemplateSpec_DeepCopy : option place → mem (option place) :=
  deep_copy AzureStackHCIMachineTemplateSpec AzureStackHCIMachineTemplateSpec_DeepCopyInto.
#[export] Instance AzureStackHCIMachineTemplate_layout : Layout AzureStackHCIMachineTemplate := {|
  tree_of x := TStruct [("TypeMeta", tree_of (mt_type x)); ("ObjectMeta", tree_of (mt_meta x));
    ("Spec", tree_of (mt_Spec x))];
  zero := mkMachineTemplate (zero _) (zero _) (zero _) |}.
Definition AzureStackHCIMachineTemplate_DeepCopyInto (inp out : place) : mem unit :=
  copy_value inp out ;;
  copy_value (inp.>"TypeMeta") (out.>"TypeMeta") ;;
  ObjectMeta_DeepCopyInto (inp.>"ObjectMeta") (out.>"ObjectMeta") ;;
  AzureStackHCIMachineTemplateSpec_DeepCopyInto (inp.>"Spec") (out.>"Spec").
Definition AzureStackHCIMachineTemplate_DeepCopy : option place → mem (option place) :=
  deep_copy AzureStackHCIMachineTemplate AzureStackHCIMachineTemplate_DeepCopyInto.
Definition AzureStackHCIMachineTemplate_DeepCopyObject : option place → mem (option iface) :=
  deep_copy_object "AzureStackHCIMachineTemplate" AzureStackHCIMachineTemplate_DeepCopy.
#[export] Instance AzureStackHCIMachineTemplateList_layout : Layout AzureStackHCIMachineTemplateList := {|
  tree_of x := TStruct [("TypeMeta", tree_of (mtl_type x)); ("ListMeta", tree_of (mtl_meta x));
    ("Items", tree_of (mtl_Items x))];
  zero := mkMachineTemplateList (zero _) (zero _) (zero _) |}.
Definition AzureStackHCIMachineTemplateList_DeepCopyInto (inp out : place) : mem unit :=
  copy_value inp out ;;
  copy_value (inp.>"TypeMeta") (out.>"TypeMeta") ;;
  ListMeta_DeepCopyInto (inp.>"ListMeta") (out.>"ListMeta") ;;
  unless_nil (make_into AzureStackHCIMachineTemplate AzureStackHCIMachineTemplate_DeepCopyInto)
      (inp.>"Items") (out.>"Items").
Definition AzureStackHCIMachineTemplateList_DeepCopy : option place → mem (option place) :=
  deep_copy AzureStackHCIMachineTemplateList AzureStackHCIMachineTemplateList_DeepCopyInto.
Definition AzureStackHCIMachineTemplateList_DeepCopyObject : option place → mem (option iface) :=
  deep_copy_object "AzureStackHCIMachineTemplateList" AzureStackHCIMachineTemplateList_DeepCopy.
#[export] Instance AzureStackHCIResourceReference_layout : Layout AzureStackHCIResourceReference := {|
  tree_of x := TStruct [("ID", tree_of (rr_ID x))];
  zero := mkResourceReference (zero _) |}.
Definition AzureStackHCIResourceReference_DeepCopyInto (inp out : place) : mem unit :=
  copy_value inp out ;;
  unless_nil (new_copy string) (inp.>"ID") (out.>"ID").
Definition AzureStackHCIResourceReference_DeepCopy : option place → mem (option place) :=
  deep_copy AzureStackHCIResourceReference AzureStackHCIResourceReference_DeepCopyInto.
#[export] Instance AzureStackHCIVirtualMachineSpec_layout : Layout AzureStackHCIVirtualMachineSpec := {|
  tree_of x := TStruct [("VMSize", tree_of (vs_VMSize x));
    ("AvailabilityZone", tree_of (vs_AvailabilityZone x)); ("Image", tree_of (vs_Image x));
    ("OSDisk", tree_of (vs_OSDisk x)); ("BootstrapData", tree_of (vs_BootstrapData x));
    ("Identity", tree_of (vs_Identity x)); ("Location", tree_of (vs_Location x));
    ("SSHPublicKey", tree_of (vs_SSHPublicKey x));
    ("StorageContainer", tree_of (vs_StorageContainer x)); ("GpuCount", tree_of (vs_GpuCount x));
    ("ResourceGroup", tree_of (vs_ResourceGroup x)); ("VnetName", tree_of (vs_VnetName x));
    ("ClusterName", tree_of (vs_ClusterName x)); ("SubnetName", tree_of (vs_SubnetName x));
    ("BackendPoolNames", tree_of (vs_BackendPoolNames x));
    ("AdditionalSSHKeys", tree_of (vs_AdditionalSSHKeys x));
    ("NetworkInterfaces", tree_of (vs_NetworkInterfaces x));
    ("AvailabilitySetName", tree_of (vs_AvailabilitySetName x));
    ("PlacementGroupName", tree_of (vs_PlacementGroupName x))];
  zero := mkVirtualMachineSpec (zero _) (zero _) (zero _) (zero _) (zero _) (zero _) (zero _)
     (zero _) (zero _) (zero _) (zero _) (zero _) (zero _) (zero _) (zero _) (zero _) (zero _)
     (zero _) (zero _) |}.
Definition AzureStackHCIVirtualMachineSpec_DeepCopyInto (inp out : place) : mem unit :=
  copy_value inp out ;;
  unless_nil (new_into AvailabilityZone AvailabilityZone_DeepCopyInto)
      (inp.>"AvailabilityZone") (out.>"AvailabilityZone") ;;
  unless_nil (new_into Image Image_DeepCopyInto) (inp.>"Image") (out.>"Image") ;;
  unless_nil (new_into OSDisk OSDisk_DeepCopyInto) (inp.>"OSDisk") (out.>"OSDisk") ;;
  unless_nil (new_copy string) (inp.>"BootstrapData") (out.>"BootstrapData") ;;
  unless_nil (make_copy string) (inp.>"BackendPoolNames") (out.>"BackendPoolNames") ;;
  unless_nil (make_copy string) (inp.>"AdditionalSSHKeys") (out.>"AdditionalSSHKeys") ;;
  unless_nil (make_each NetworkInterfaceSpec (new_into NetworkInterfaceSpec NetworkInterfaceSpec_DeepCopyInto))
      (inp.>"NetworkInterfaces") (out.>"NetworkInterfaces").
Definition AzureStackHCIVirtualMachineSpec_DeepCopy : option place → mem (option place) :=
  deep_copy AzureStackHCIVirtualMachineSpec AzureStackHCIVirtualMachineSpec_DeepCopyInto.
#[export] Instance AzureStackHCIVirtualMachineStatus_layout : Layout AzureStackHCIVirtualMachineStatus := {|
  tree_of x := TStruct [("Ready", tree_of (vst_Ready x));
    ("Addresses", tree_of (vst_Addresses x)); ("VMState", tree_of (vst_VMState x));
    ("FailureReason", tree_of (vst_FailureReason x));
    ("FailureMessage", tree_of (vst_FailureMessage x));
    ("Conditions", tree_of (vst_Conditions x))];
  zero := mkVirtualMachineStatus (zero _) (zero _) (zero _) (zero _) (zero _) (zero _) |}.
Definition AzureStackHCIVirtualMachineStatus_DeepCopyInto (inp out : place) : mem unit :=
  copy_value inp out ;;
  unless_nil (make_copy NodeAddress) (inp.>"Addresses") (out.>"Addresses") ;;
  unless_nil (new_copy string) (inp.>"VMState") (out.>"VMState") ;;
  unless_nil (new_copy string) (inp.>"FailureReason") (out.>"FailureReason") ;;
  unless_nil (new_copy string) (inp.>"FailureMessage") (out.>"FailureMessage") ;;
  unless_nil (make_into metav1.Condition Condition_DeepCopyInto)
      (inp.>"Conditions") (out.>"Conditions").
Definition AzureStackHCIVirtualMachineStatus_DeepCopy : option place → mem (option place) :=
  deep_copy AzureStackHCIVirtualMachineStatus AzureStackHCIVirtualMachineStatus_DeepCopyInto.
#[export] Instance AzureStackHCIVirtualMachine_layout : Layout AzureStackHCIVirtualMachine := {|
  tree_of x := TStruct [("TypeMeta", tree_of (hv_type x)); ("ObjectMeta", tree_of (hv_meta x));
    ("Spec", tree_of (hv_Spec x)); ("Status", tree_of (hv_Status x))];
  zero := mkVirtualMachine (zero _) (zero _) (zero _) (zero _) |}.
Definition AzureStackHCIVirtualMachine_DeepCopyInto (inp out : place) : mem unit :=
  copy_value inp out ;;
  copy_value (inp.>"TypeMeta") (out.>"TypeMeta") ;;
  ObjectMeta_DeepCopyInto (inp.>"ObjectMeta") (out.>"ObjectMeta") ;;
  AzureStackHCIVirtualMachineSpec_DeepCopyInto (inp.>"Spec") (out.>"Spec") ;;
  AzureStackHCIVirtualMachineStatus_DeepCopyInto (inp.>"Status") (out.>"Status").
Definition AzureStackHCIVirtualMachine_DeepCopy : option place → mem (option place) :=
  deep_copy AzureStackHCIVirtualMachine AzureStackHCIVirtualMachine_DeepCopyInto.
Definition AzureStackHCIVirtualMachine_DeepCopyObject : option place → mem (option iface) :=
  deep_copy_object "AzureStackHCIVirtualMachine" AzureStackHCIVirtualMachine_DeepCopy.
#[export] Instance AzureStackHCIVirtualMachineList_layout : Layout AzureStackHCIVirtualMachineList := {|
  tree_of x := TStruct [("TypeMeta", tree_of (hvl_type x)); ("ListMeta", tree_of (hvl_meta x));
    ("Items", tree_of (hvl_Items x))];
  zero := mkVirtualMachineList (zero _) (zero _) (zero _) |}.
Definition AzureStackHCIVirtualMachineList_DeepCopyInto (inp out : place) : mem unit :=
  copy_value inp out ;;
  copy_value (inp.>"TypeMeta") (out.>"TypeMeta") ;;
  ListMeta_DeepCopyInto (inp.>"ListMeta") (out.>"ListMeta") ;;
  unless_nil (make_into AzureStackHCIVirtualMachine AzureStackHCIVirtualMachine_DeepCopyInto)
      (inp.>"Items") (out.>"Items").
Definition AzureStackHCIVirtualMachineList_DeepCopy : option place → mem (option place) :=
  deep_copy AzureStackHCIVirtualMachineList AzureStackHCIVirtualMachineList_DeepCopyInto.
Definition AzureStackHCIVirtualMachineList_DeepCopyObject : option place → mem (option iface) :=
  deep_copy_object "AzureStackHCIVirtualMachineList" AzureStackHCIVirtualMachineList_DeepCopy.
Definition VirtualMachinesByCreationTimestamp_DeepCopyInto (inp : gval) (out : place)
    : mem unit :=
  inp <- alloc inp ;;
  make_each AzureStackHCIVirtualMachine
      (new_into AzureStackHCIVirtualMachine AzureStackHCIVirtualMachine_DeepCopyInto) inp out.
Definition VirtualMachinesByCreationTimestamp_DeepCopy : gval → mem gval :=
  deep_copy_slice VirtualMachinesByCreationTimestamp_DeepCopyInto.

(** ** All of them *)
(** The [DeepCopy] of each struct *)
Definition copiers : list copier := [
  mkCopier AvailabilityZone AvailabilityZone_DeepCopy;
  mkCopier VnetSpec VnetSpec_DeepCopy;
  mkCopier SubnetSpec SubnetSpec_DeepCopy;
  mkCopier NetworkSpec NetworkSpec_DeepCopy;
  mkCopier Image Image_DeepCopy;
  mkCopier AzureStackHCILoadBalancerSpec AzureStackHCILoadBalancerSpec_DeepCopy;
  mkCopier AzureStackHCIClusterSpec AzureStackHCIClusterSpec_DeepCopy;
  mkCopier ManagedDisk ManagedDisk_DeepCopy;
  mkCopier OSDisk OSDisk_DeepCopy;
  mkCopier VM VM_DeepCopy;
  mkCopier InitializationStatus AzureStackHCIClusterInitializationStatus_DeepCopy;
  mkCopier AzureStackHCIClusterStatus AzureStackHCIClusterStatus_DeepCopy;
  mkCopier AzureStackHCICluster AzureStackHCICluster_DeepCopy;
  mkCopier AzureStackHCIClusterList AzureStackHCIClusterList_DeepCopy;
  mkCopier AzureStackHCIClusterTemplateResource AzureStackHCIClusterTemplateResource_DeepCopy;
  mkCopier AzureStackHCIClusterTemplateSpec AzureStackHCIClusterTemplateSpec_DeepCopy;
  mkCopier AzureStackHCIClusterTemplate AzureStackHCIClusterTemplate_DeepCopy;
  mkCopier AzureStackHCIClusterTemplateList AzureStackHCIClusterTemplateList_DeepCopy;
  mkCopier AzureStackHCILoadBalancerStatus AzureStackHCILoadBalancerStatus_DeepCopy;
  mkCopier AzureStackHCILoadBalancer AzureStackHCILoadBalancer_DeepCopy;
  mkCopier AzureStackHCILoadBalancerList AzureStackHCILoadBalancerList_DeepCopy;
  mkCopier IpConfigurationSpec IpConfigurationSpec_DeepCopy;
  mkCopier NetworkInterfaceSpec NetworkInterfaceSpec_DeepCopy;
  mkCopier AzureStackHCIMachineSpec AzureStackHCIMachineSpec_DeepCopy;
  mkCopier InitializationStatus AzureStackHCIMachineInitializationStatus_DeepCopy;
  mkCopier AzureStackHCIMachineStatus AzureStackHCIMachineStatus_DeepCopy;
  mkCopier AzureStackHCIMachine AzureStackHCIMachine_DeepCopy;
  mkCopier AzureStackHCIMachineList AzureStackHCIMachineList_DeepCopy;
  mkCopier AzureStackHCIMachineProviderCondition AzureStackHCIMachineProviderCondition_DeepCopy;
  mkCopier AzureStackHCIMachineTemplateResource AzureStackHCIMachineTemplateResource_DeepCopy;
  mkCopier AzureStackHCIMachineTemplateSpec AzureStackHCIMachineTemplateSpec_DeepCopy;
  mkCopier AzureStackHCIMachineTemplate AzureStackHCIMachineTemplate_DeepCopy;
  mkCopier AzureStackHCIMachineTemplateList AzureStackHCIMachineTemplateList_DeepCopy;
  mkCopier AzureStackHCIResourceReference AzureStackHCIResourceReference_DeepCopy;
  mkCopier AzureStackHCIVirtualMachineSpec AzureStackHCIVirtualMachineSpec_DeepCopy;
  mkCopier AzureStackHCIVirtualMachineStatus AzureStackHCIVirtualMachineStatus_DeepCopy;
  mkCopier AzureStackHCIVirtualMachine AzureStackHCIVirtualMachine_DeepCopy;
  mkCopier AzureStackHCIVirtualMachineList AzureStackHCIVirtualMachineList_DeepCopy].
(** The [DeepCopyObject] of each resource and list, with the name of its type *)
Definition object_copiers : list object_copier := [
  mkObjectCopier "AzureStackHCICluster" AzureStackHCICluster AzureStackHCICluster_DeepCopyObject;
  mkObjectCopier "AzureStackHCIClusterList" AzureStackHCIClusterList AzureStackHCIClusterList_DeepCopyObject;
  mkObjectCopier "AzureStackHCIClusterTemplate" AzureStackHCIClusterTemplate AzureStackHCIClusterTemplate_DeepCopyObject;
  mkObjectCopier "AzureStackHCIClusterTemplateList" AzureStackHCIClusterTemplateList AzureStackHCIClusterTemplateList_DeepCopyObject;
  mkObjectCopier "AzureStackHCILoadBalancer" AzureStackHCILoadBalancer AzureStackHCILoadBalancer_DeepCopyObject;
  mkObjectCopier "AzureStackHCILoadBalancerList" AzureStackHCILoadBalancerList AzureStackHCILoadBalancerList_DeepCopyObject;
  mkObjectCopier "AzureStackHCIMachine" AzureStackHCIMachine AzureStackHCIMachine_DeepCopyObject;
  mkObjectCopier "AzureStackHCIMachineList" AzureStackHCIMachineList AzureStackHCIMachineList_DeepCopyObject;
  mkObjectCopier "AzureStackHCIMachineTemplate" AzureStackHCIMachineTemplate AzureStackHCIMachineTemplate_DeepCopyObject;
  mkObjectCopier "AzureStackHCIMachineTemplateList" AzureStackHCIMachineTemplateList AzureStackHCIMachineTemplateList_DeepCopyObject;
  mkObjectCopier "AzureStackHCIVirtualMachine" AzureStackHCIVirtualMachine AzureStackHCIVirtualMachine_DeepCopyObject;
  mkObjectCopier "AzureStackHCIVirtualMachineList" AzureStackHCIVirtualMachineList AzureStackHCIVirtualMachineList_DeepCopyObject].
(** The slice types, whose elements are pointers *)
Definition slice_copiers : list slice_copier := [
  mkSliceCopier SubnetSpec Subnets_DeepCopyInto Subnets_DeepCopy;
  mkSliceCopier IpConfigurationSpec IpConfigurations_DeepCopyInto IpConfigurations_DeepCopy;
  mkSliceCopier NetworkInterfaceSpec NetworkInterfaces_DeepCopyInto NetworkInterfaces_DeepCopy;
  mkSliceCopier AzureStackHCIVirtualMachine VirtualMachinesByCreationTimestamp_DeepCopyInto VirtualMachinesByCreationTimestamp_DeepCopy].

(** ** They copy *)
Context {AL : ApiMachineryLaws AM}.
#[export] Instance AvailabilityZone_copies :
  DeepCopies AvailabilityZone AvailabilityZone_DeepCopyInto.
Proof. copy_struct. Qed.
#[export] Instance VnetSpec_plain : Plain VnetSpec.
Proof. done. Qed.
#[export] Instance VnetSpec_copies : DeepCopies VnetSpec VnetSpec_DeepCopyInto.
Proof. copy_struct. Qed.
#[export] Instance SubnetSpec_plain : Plain SubnetSpec.
Proof. done. Qed.
#[export] Instance SubnetSpec_copies : DeepCopies SubnetSpec SubnetSpec_DeepCopyInto.
Proof. copy_struct. Qed.
#[export] Instance NetworkSpec_copies : DeepCopies NetworkSpec NetworkSpec_DeepCopyInto.
Proof. copy_struct. Qed.
#[export] Instance Image_copies : DeepCopies Image Image_DeepCopyInto.
Proof. copy_struct. Qed.
#[export] Instance AzureStackHCILoadBalancerSpec_copies :
  DeepCopies AzureStackHCILoadBalancerSpec AzureStackHCILoadBalancerSpec_DeepCopyInto.
Proof. copy_struct. Qed.
#[export] Instance AzureStackHCIClusterSpec_copies :
  DeepCopies AzureStackHCIClusterSpec AzureStackHCIClusterSpec_DeepCopyInto.
Proof. copy_struct. Qed.
#[export] Instance ManagedDisk_plain : Plain ManagedDisk.
Proof. done. Qed.
#[export] Instance ManagedDisk_copies : DeepCopies ManagedDisk ManagedDisk_DeepCopyInto.
Proof. copy_struct. Qed.
#[export] Instance OSDisk_copies : DeepCopies OSDisk OSDisk_DeepCopyInto.
Proof. copy_struct. Qed.
#[export] Instance VM_copies : DeepCopies VM VM_DeepCopyInto.
Proof. copy_struct. Qed.
#[export] Instance AzureStackHCIClusterInitializationStatus_copies :
  DeepCopies InitializationStatus AzureStackHCIClusterInitializationStatus_DeepCopyInto.
Proof. copy_struct. Qed.
#[export] Instance AzureStackHCIClusterStatus_copies :
  DeepCopies AzureStackHCIClusterStatus AzureStackHCIClusterStatus_DeepCopyInto.
Proof. copy_struct. Qed.
#[export] Instance AzureStackHCICluster_copies :
  DeepCopies AzureStackHCICluster AzureStackHCICluster_DeepCopyInto.
Proof. copy_struct. Qed.
#[export] Instance AzureStackHCIClusterList_copies :
  DeepCopies AzureStackHCIClusterList AzureStackHCIClusterList_DeepCopyInto.
Proof. copy_struct. Qed.
#[export] Instance AzureStackHCIClusterTemplateResource_copies :
  DeepCopies AzureStackHCIClusterTemplateResource AzureStackHCIClusterTemplateResource_DeepCopyInto.
Proof. copy_struct. Qed.
#[export] Instance AzureStackHCIClusterTemplateSpec_copies :
  DeepCopies AzureStackHCIClusterTemplateSpec AzureStackHCIClusterTemplateSpec_DeepCopyInto.
Proof. copy_struct. Qed.
#[export] Instance AzureStackHCIClusterTemplate_copies :
  DeepCopies AzureStackHCIClusterTemplate AzureStackHCIClusterTemplate_DeepCopyInto.
Proof. copy_struct. Qed.
#[export] Instance AzureStackHCIClusterTemplateList_copies :
  DeepCopies AzureStackHCIClusterTemplateList AzureStackHCIClusterTemplateList_DeepCopyInto.
Proof. copy_struct. Qed.
#[export] Instance AzureStackHCILoadBalancerStatus_copies :
  DeepCopies AzureStackHCILoadBalancerStatus AzureStackHCILoadBalancerStatus_DeepCopyInto.
Proof. copy_struct. Qed.
#[export] Instance AzureStackHCILoadBalancer_copies :
  DeepCopies AzureStackHCILoadBalancer AzureStackHCILoadBalancer_DeepCopyInto.
Proof. copy_struct. Qed.
#[export] Instance AzureStackHCILoadBalancerList_copies :
  DeepCopies AzureStackHCILoadBalancerList AzureStackHCILoadBalancerList_DeepCopyInto.
Proof. copy_struct. Qed.
#[export] Instance IpConfigurationSpec_plain : Plain IpConfigurationSpec.
Proof. done. Qed.
#[export] Instance IpConfigurationSpec_copies :
  DeepCopies IpConfigurationSpec IpConfigurationSpec_DeepCopyInto.
Proof. copy_struct. Qed.
#[export] Instance NetworkInterfaceSpec_copies :
  DeepCopies NetworkInterfaceSpec NetworkInterfaceSpec_DeepCopyInto.
Proof. copy_struct. Qed.
#[export] Instance AzureStackHCIMachineSpec_copies :
  DeepCopies AzureStackHCIMachineSpec AzureStackHCIMachineSpec_DeepCopyInto.
Proof. copy_struct. Qed.
#[export] Instance AzureStackHCIMachineInitializationStatus_copies :
  DeepCopies InitializationStatus AzureStackHCIMachineInitializationStatus_DeepCopyInto.
Proof. copy_struct. Qed.
#[export] Instance AzureStackHCIMachineStatus_copies :
  DeepCopies AzureStackHCIMachineStatus AzureStackHCIMachineStatus_DeepCopyInto.
Proof. copy_struct. Qed.
#[export] Instance AzureStackHCIMachine_copies :
  DeepCopies AzureStackHCIMachine AzureStackHCIMachine_DeepCopyInto.
Proof. copy_struct. Qed.
#[export] Instance AzureStackHCIMachineList_copies :
  DeepCopies AzureStackHCIMachineList AzureStackHCIMachineList_DeepCopyInto.
Proof. copy_struct. Qed.
#[export] Instance AzureStackHCIMachineProviderCondition_copies :
  DeepCopies AzureStackHCIMachineProviderCondition AzureStackHCIMachineProviderCondition_DeepCopyInto.
Proof. copy_struct. Qed.
#[export] Instance AzureStackHCIMachineTemplateResource_copies :
  DeepCopies AzureStackHCIMachineTemplateResource AzureStackHCIMachineTemplateResource_DeepCopyInto.
Proof. copy_struct. Qed.
#[export] Instance AzureStackHCIMachineTemplateSpec_copies :
  DeepCopies AzureStackHCIMachineTemplateSpec AzureStackHCIMachineTemplateSpec_DeepCopyInto.
Proof. copy_struct. Qed.
#[export] Instance AzureStackHCIMachineTemplate_copies :
  DeepCopies AzureStackHCIMachineTemplate AzureStackHCIMachineTemplate_DeepCopyInto.
Proof. copy_struct. Qed.
#[export] Instance AzureStackHCIMachineTemplateList_copies :
  DeepCopies AzureStackHCIMachineTemplateList AzureStackHCIMachineTemplateList_DeepCopyInto.
Proof. copy_struct. Qed.
#[export] Instance AzureStackHCIResourceReference_copies :
  DeepCopies AzureStackHCIResourceReference AzureStackHCIResourceReference_DeepCopyInto.
Proof. copy_struct. Qed.
#[export] Instance AzureStackHCIVirtualMachineSpec_copies :
  DeepCopies AzureStackHCIVirtualMachineSpec AzureStackHCIVirtualMachineSpec_DeepCopyInto.
Proof. copy_struct. Qed.
#[export] Instance AzureStackHCIVirtualMachineStatus_copies :
  DeepCopies AzureStackHCIVirtualMachineStatus AzureStackHCIVirtualMachineStatus_DeepCopyInto.
Proof. copy_struct. Qed.
#[export] Instance AzureStackHCIVirtualMachine_copies :
  DeepCopies AzureStackHCIVirtualMachine AzureStackHCIVirtualMachine_DeepCopyInto.
Proof. copy_struct. Qed.
#[export] Instance AzureStackHCIVirtualMachineList_copies :
  DeepCopies AzureStackHCIVirtualMachineList AzureStackHCIVirtualMachineList_DeepCopyInto.
Proof. copy_struct. Qed.
End Copies.
