(* ===== verification/DeepCopyV1beta1.v ===== *)
(** * Deep copies, api/v1beta1/zz_generated.deepcopy.go

    As [DeepCopy], for the structs of v1beta1. *)
From stdpp Require Import prelude strings list gmap.
From S2P Require Import Prelude GoStd External ApiV1beta1 Memory CopyRules DeepCopy.
Local Open Scope mem_scope.

Module V1beta1.

Section Copies.
Context {AM : ApiMachinery}.
(** ** The structs and their copies *)
#[export] Instance AvailabilityZone_layout : Layout v1beta1.AvailabilityZone := {|
  tree_of x := TStruct [("ID", tree_of (v1beta1.az_ID x));
    ("Enabled", tree_of (v1beta1.az_Enabled x))];
  zero := v1beta1.mkAvailabilityZone (zero _) (zero _) |}.
Definition AvailabilityZone_DeepCopyInto (inp out : place) : mem unit :=
  copy_value inp out ;;
  unless_nil (new_copy string) (inp.>"ID") (out.>"ID") ;;
  unless_nil (new_copy bool) (inp.>"Enabled") (out.>"Enabled").
Definition AvailabilityZone_DeepCopy : option place → mem (option place) :=
  deep_copy v1beta1.AvailabilityZone AvailabilityZone_DeepCopyInto.
#[export] Instance VnetSpec_layout : Layout v1beta1.VnetSpec := {|
  tree_of x := TStruct [("ID", tree_of (v1beta1.vnet_ID x));
    ("Name", tree_of (v1beta1.vnet_Name x)); ("CidrBlock", tree_of (v1beta1.vnet_CidrBlock x));
    ("Group", tree_of (v1beta1.vnet_Group x))];
  zero := v1beta1.mkVnetSpec (zero _) (zero _) (zero _) (zero _) |}.
Definition VnetSpec_DeepCopyInto (inp out : place) : mem unit :=
  copy_value inp out.
Definition VnetSpec_DeepCopy : option place → mem (option place) :=
  deep_copy v1beta1.VnetSpec VnetSpec_DeepCopyInto.
#[export] Instance SubnetSpec_layout : Layout v1beta1.SubnetSpec := {|
  tree_of x := TStruct [("ID", tree_of (v1beta1.sn_ID x)); ("Name", tree_of (v1beta1.sn_Name x));
    ("VnetID", tree_of (v1beta1.sn_VnetID x)); ("CidrBlock", tree_of (v1beta1.sn_CidrBlock x))];
  zero := v1beta1.mkSubnetSpec (zero _) (zero _) (zero _) (zero _) |}.
Definition SubnetSpec_DeepCopyInto (inp out : place) : mem unit :=
  copy_value inp out.
Definition SubnetSpec_DeepCopy : option place → mem (option place) :=
  deep_copy v1beta1.SubnetSpec SubnetSpec_DeepCopyInto.
Definition Subnets_DeepCopyInto (inp : gval) (out : place) : mem unit :=
  inp <- alloc inp ;;
  make_each v1beta1.SubnetSpec (new_copy v1beta1.SubnetSpec) inp out.
Definition Subnets_DeepCopy : gval → mem gval := deep_copy_slice Subnets_DeepCopyInto.
#[export] Instance NetworkSpec_layout : Layout v1beta1.NetworkSpec := {|
  tree_of x := TStruct [("Vnet", tree_of (v1beta1.ns_Vnet x));
    ("Subnets", tree_of (v1beta1.ns_Subnets x))];
  zero := v1beta1.mkNetworkSpec (zero _) (zero _) |}.
Definition NetworkSpec_DeepCopyInto (inp out : place) : mem unit :=
  copy_value inp out ;;
  copy_value (inp.>"Vnet") (out.>"Vnet") ;;
  unless_nil (make_each v1beta1.SubnetSpec (new_copy v1beta1.SubnetSpec))
      (inp.>"Subnets") (out.>"Subnets").
Definition NetworkSpec_DeepCopy : option place → mem (option place) :=
  deep_copy v1beta1.NetworkSpec NetworkSpec_DeepCopyInto.
#[export] Instance Image_layout : Layout v1beta1.Image := {|
  tree_of x := TStruct [("Publisher", tree_of (v1beta1.img_Publisher x));
    ("Offer", tree_of (v1beta1.img_Offer x)); ("SKU", tree_of (v1beta1.img_SKU x));
    ("ID", tree_of (v1beta1.img_ID x));
    ("SubscriptionID", tree_of (v1beta1.img_SubscriptionID x));
    ("ResourceGroup", tree_of (v1beta1.img_ResourceGroup x));
    ("Gallery", tree_of (v1beta1.img_Gallery x)); ("Name", tree_of (v1beta1.img_Name x));
    ("Version", tree_of (v1beta1.img_Version x)); ("OSType", tree_of (v1beta1.img_OSType x))];
  zero := v1beta1.mkImage (zero _) (zero _) (zero _) (zero _) (zero _) (zero _) (zero _)
     (zero _) (zero _) (zero _) |}.
Definition Image_DeepCopyInto (inp out : place) : mem unit :=
  copy_value inp out ;;
  unless_nil (new_copy string) (inp.>"Publisher") (out.>"Publisher") ;;
  unless_nil (new_copy string) (inp.>"Offer") (out.>"Offer") ;;
  unless_nil (new_copy string) (inp.>"SKU") (out.>"SKU") ;;
  unless_nil (new_copy string) (inp.>"ID") (out.>"ID") ;;
  unless_nil (new_copy string) (inp.>"SubscriptionID") (out.>"SubscriptionID") ;;
  unless_nil (new_copy string) (inp.>"ResourceGroup") (out.>"ResourceGroup") ;;
  unless_nil (new_copy string) (inp.>"Gallery") (out.>"Gallery") ;;
  unless_nil (new_copy string) (inp.>"Name") (out.>"Name") ;;
  unless_nil (new_copy string) (inp.>"Version") (out.>"Version").
Definition Image_DeepCopy : option place → mem (option place) :=
  deep_copy v1beta1.Image Image_DeepCopyInto.
#[export] Instance AzureStackHCILoadBalancerSpec_layout : Layout v1beta1.AzureStackHCILoadBalancerSpec := {|
  tree_of x := TStruct [("SSHPublicKey", tree_of (v1beta1.lbs_SSHPublicKey x));
    ("Image", tree_of (v1beta1.lbs_Image x)); ("VMSize", tree_of (v1beta1.lbs_VMSize x));
    ("StorageContainer", tree_of (v1beta1.lbs_StorageContainer x));
    ("Replicas", tree_of (v1beta1.lbs_Replicas x))];
  zero := v1beta1.mkLoadBalancerSpec (zero _) (zero _) (zero _) (zero _) (zero _) |}.
Definition AzureStackHCILoadBalancerSpec_DeepCopyInto (inp out : place) : mem unit :=
  copy_value inp out ;;
  Image_DeepCopyInto (inp.>"Image") (out.>"Image") ;;
  unless_nil (new_copy Z) (inp.>"Replicas") (out.>"Replicas").
Definition AzureStackHCILoadBalancerSpec_DeepCopy : option place → mem (option place) :=
  deep_copy v1beta1.AzureStackHCILoadBalancerSpec AzureStackHCILoadBalancerSpec_DeepCopyInto.
#[export] Instance AzureStackHCIClusterSpec_layout : Layout v1beta1.AzureStackHCIClusterSpec := {|
  tree_of x := TStruct [("NetworkSpec", tree_of (v1beta1.cs_NetworkSpec x));
    ("ResourceGroup", tree_of (v1beta1.cs_ResourceGroup x));
    ("Location", tree_of (v1beta1.cs_Location x));
    ("AzureStackHCILoadBalancer", tree_of (v1beta1.cs_AzureStackHCILoadBalancer x));
    ("ControlPlaneEndpoint", tree_of (v1beta1.cs_ControlPlaneEndpoint x));
    ("Version", tree_of (v1beta1.cs_Version x));
    ("Management", tree_of (v1beta1.cs_Management x))];
  zero := v1beta1.mkClusterSpec (zero _) (zero _) (zero _) (zero _) (zero _) (zero _) (zero _) |}.
Definition AzureStackHCIClusterSpec_DeepCopyInto (inp out : place) : mem unit :=
  copy_value inp out ;;
  NetworkSpec_DeepCopyInto (inp.>"NetworkSpec") (out.>"NetworkSpec") ;;
  unless_nil (new_into v1beta1.AzureStackHCILoadBalancerSpec AzureStackHCILoadBalancerSpec_DeepCopyInto)
      (inp.>"AzureStackHCILoadBalancer") (out.>"AzureStackHCILoadBalancer") ;;
  copy_value (inp.>"ControlPlaneEndpoint") (out.>"ControlPlaneEndpoint") ;;
  unless_nil (new_copy string) (inp.>"Version") (out.>"Version").
Definition AzureStackHCIClusterSpec_DeepCopy : option place → mem (option place) :=
  deep_copy v1beta1.AzureStackHCIClusterSpec AzureStackHCIClusterSpec_DeepCopyInto.
#[export] Instance ManagedDisk_layout : Layout v1beta1.ManagedDisk := {|
  tree_of x := TStruct [("StorageAccountType", tree_of (v1beta1.md_StorageAccountType x))];
  zero := v1beta1.mkManagedDisk (zero _) |}.
Definition ManagedDisk_DeepCopyInto (inp out : place) : mem unit :=
  copy_value inp out.
Definition ManagedDisk_DeepCopy : option place → mem (option place) :=
  deep_copy v1beta1.ManagedDisk ManagedDisk_DeepCopyInto.
#[export] Instance OSDisk_layout : Layout v1beta1.OSDisk := {|
  tree_of x := TStruct [("Name", tree_of (v1beta1.osd_Name x));
    ("Source", tree_of (v1beta1.osd_Source x)); ("OSType", tree_of (v1beta1.osd_OSType x));
    ("DiskSizeGB", tree_of (v1beta1.osd_DiskSizeGB x));
    ("ManagedDisk", tree_of (v1beta1.osd_ManagedDisk x))];
  zero := v1beta1.mkOSDisk (zero _) (zero _) (zero _) (zero _) (zero _) |}.
Definition OSDisk_DeepCopyInto (inp out : place) : mem unit :=
  copy_value inp out ;;
  copy_value (inp.>"ManagedDisk") (out.>"ManagedDisk").
Definition OSDisk_DeepCopy : option place → mem (option place) :=
  deep_copy v1beta1.OSDisk OSDisk_DeepCopyInto.
#[export] Instance VM_layout : Layout v1beta1.VM := {|
  tree_of x := TStruct [("ID", tree_of (v1beta1.vm_ID x)); ("Name", tree_of (v1beta1.vm_Name x));
    ("AvailabilityZone", tree_of (v1beta1.vm_AvailabilityZone x));
    ("VMSize", tree_of (v1beta1.vm_VMSize x)); ("Image", tree_of (v1beta1.vm_Image x));
    ("OSDisk", tree_of (v1beta1.vm_OSDisk x));
    ("BootstrapData", tree_of (v1beta1.vm_BootstrapData x));
    ("State", tree_of (v1beta1.vm_State x)); ("Identity", tree_of (v1beta1.vm_Identity x))];
  zero := v1beta1.mkVM (zero _) (zero _) (zero _) (zero _) (zero _) (zero _) (zero _) (zero _)
     (zero _) |}.
Definition VM_DeepCopyInto (inp out : place) : mem unit :=
  copy_value inp out ;;
  Image_DeepCopyInto (inp.>"Image") (out.>"Image") ;;
  copy_value (inp.>"OSDisk") (out.>"OSDisk").
Definition VM_DeepCopy : option place → mem (option place) :=
  deep_copy v1beta1.VM VM_DeepCopyInto.
#[export] Instance AzureStackHCIClusterStatus_layout : Layout v1beta1.AzureStackHCIClusterStatus := {|
  tree_of x := TStruct [("Bastion", tree_of (v1beta1.cst_Bastion x));
    ("Ready", tree_of (v1beta1.cst_Ready x)); ("Phase", tree_of (v1beta1.cst_Phase x));
    ("Conditions", tree_of (v1beta1.cst_Conditions x))];
  zero := v1beta1.mkClusterStatus (zero _) (zero _) (zero _) (zero _) |}.
Definition AzureStackHCIClusterStatus_DeepCopyInto (inp out : place) : mem unit :=
  copy_value inp out ;;
  VM_DeepCopyInto (inp.>"Bastion") (out.>"Bastion") ;;
  unless_nil (make_into corev1beta1.Condition Condition_v1beta1_DeepCopyInto)
      (inp.>"Conditions") (out.>"Conditions").
Definition AzureStackHCIClusterStatus_DeepCopy : option place → mem (option place) :=
  deep_copy v1beta1.AzureStackHCIClusterStatus AzureStackHCIClusterStatus_DeepCopyInto.
#[export] Instance AzureStackHCICluster_layout : Layout v1beta1.AzureStackHCICluster := {|
  tree_of x := TStruct [("TypeMeta", tree_of (v1beta1.hc_type x));
    ("ObjectMeta", tree_of (v1beta1.hc_meta x)); ("Spec", tree_of (v1beta1.hc_Spec x));
    ("Status", tree_of (v1beta1.hc_Status x))];
  zero := v1beta1.mkCluster (zero _) (zero _) (zero _) (zero _) |}.
Definition AzureStackHCICluster_DeepCopyInto (inp out : place) : mem unit :=
  copy_value inp out ;;
  copy_value (inp.>"TypeMeta") (out.>"TypeMeta") ;;
  ObjectMeta_DeepCopyInto (inp.>"ObjectMeta") (out.>"ObjectMeta") ;;
  AzureStackHCIClusterSpec_DeepCopyInto (inp.>"Spec") (out.>"Spec") ;;
  AzureStackHCIClusterStatus_DeepCopyInto (inp.>"Status") (out.>"Status").
Definition AzureStackHCICluster_DeepCopy : option place → mem (option place) :=
  deep_copy v1beta1.AzureStackHCICluster AzureStackHCICluster_DeepCopyInto.
Definition AzureStackHCICluster_DeepCopyObject : option place → mem (option iface) :=
  deep_copy_object "AzureStackHCICluster" AzureStackHCICluster_DeepCopy.
#[export] Instance AzureStackHCIClusterList_layout : Layout v1beta1.AzureStackHCIClusterList := {|
  tree_of x := TStruct [("TypeMeta", tree_of (v1beta1.hcl_type x));
    ("ListMeta", tree_of (v1beta1.hcl_meta x)); ("Items", tree_of (v1beta1.hcl_Items x))];
  zero := v1beta1.mkClusterList (zero _) (zero _) (zero _) |}.
Definition AzureStackHCIClusterList_DeepCopyInto (inp out : place) : mem unit :=
  copy_value inp out ;;
  copy_value (inp.>"TypeMeta") (out.>"TypeMeta") ;;
  ListMeta_DeepCopyInto (inp.>"ListMeta") (out.>"ListMeta") ;;
  unless_nil (make_into v1beta1.AzureStackHCICluster AzureStackHCICluster_DeepCopyInto)
      (inp.>"Items") (out.>"Items").
Definition AzureStackHCIClusterList_DeepCopy : option place → mem (option place) :=
  deep_copy v1beta1.AzureStackHCIClusterList AzureStackHCIClusterList_DeepCopyInto.
Definition AzureStackHCIClusterList_DeepCopyObject : option place → mem (option iface) :=
  deep_copy_object "AzureStackHCIClusterList" AzureStackHCIClusterList_DeepCopy.
#[export] Instance AzureStackHCIClusterTemplateResource_layout : Layout v1beta1.AzureStackHCIClusterTemplateResource := {|
  tree_of x := TStruct [("Spec", tree_of (v1beta1.ctr_Spec x))];
  zero := v1beta1.mkClusterTemplateResource (zero _) |}.
Definition AzureStackHCIClusterTemplateResource_DeepCopyInto (inp out : place) : mem unit :=
  copy_value inp out ;;
  AzureStackHCIClusterSpec_DeepCopyInto (inp.>"Spec") (out.>"Spec").
Definition AzureStackHCIClusterTemplateResource_DeepCopy : option place → mem (option place) :=
  deep_copy v1beta1.AzureStackHCIClusterTemplateResource AzureStackHCIClusterTemplateResource_DeepCopyInto.
#[export] Instance AzureStackHCIClusterTemplateSpec_layout : Layout v1beta1.AzureStackHCIClusterTemplateSpec := {|
  tree_of x := TStruct [("Template", tree_of (v1beta1.cts_Template x))];
  zero := v1beta1.mkClusterTemplateSpec (zero _) |}.
Definition AzureStackHCIClusterTemplateSpec_DeepCopyInto (inp out : place) : mem unit :=
  copy_value inp out ;;
  AzureStackHCIClusterTemplateResource_DeepCopyInto (inp.>"Template") (out.>"Template").
Definition AzureStackHCIClusterTemplateSpec_DeepCopy : option place → mem (option place) :=
  deep_copy v1beta1.AzureStackHCIClusterTemplateSpec AzureStackHCIClusterTemplateSpec_DeepCopyInto.
#[export] Instance AzureStackHCIClusterTemplate_layout : Layout v1beta1.AzureStackHCIClusterTemplate := {|
  tree_of x := TStruct [("TypeMeta", tree_of (v1beta1.ct_type x));
    ("ObjectMeta", tree_of (v1beta1.ct_meta x)); ("Spec", tree_of (v1beta1.ct_Spec x))];
  zero := v1beta1.mkClusterTemplate (zero _) (zero _) (zero _) |}.
Definition AzureStackHCIClusterTemplate_DeepCopyInto (inp out : place) : mem unit :=
  copy_value inp out ;;
  copy_value (inp.>"TypeMeta") (out.>"TypeMeta") ;;
  ObjectMeta_DeepCopyInto (inp.>"ObjectMeta") (out.>"ObjectMeta") ;;
  AzureStackHCIClusterTemplateSpec_DeepCopyInto (inp.>"Spec") (out.>"Spec").
Definition AzureStackHCIClusterTemplate_DeepCopy : option place → mem (option place) :=
  deep_copy v1beta1.AzureStackHCIClusterTemplate AzureStackHCIClusterTemplate_DeepCopyInto.
Definition AzureStackHCIClusterTemplate_DeepCopyObject : option place → mem (option iface) :=
  deep_copy_object "AzureStackHCIClusterTemplate" AzureStackHCIClusterTemplate_DeepCopy.
#[export] Instance AzureStackHCIClusterTemplateList_layout : Layout v1beta1.AzureStackHCIClusterTemplateList := {|
  tree_of x := TStruct [("TypeMeta", tree_of (v1beta1.ctl_type x));
    ("ListMeta", tree_of (v1beta1.ctl_meta x)); ("Items", tree_of (v1beta1.ctl_Items x))];
  zero := v1beta1.mkClusterTemplateList (zero _) (zero _) (zero _) |}.
Definition AzureStackHCIClusterTemplateList_DeepCopyInto (inp out : place) : mem unit :=
  copy_value inp out ;;
  copy_value (inp.>"TypeMeta") (out.>"TypeMeta") ;;
  ListMeta_DeepCopyInto (inp.>"ListMeta") (out.>"ListMeta") ;;
  unless_nil (make_into v1beta1.AzureStackHCIClusterTemplate AzureStackHCIClusterTemplate_DeepCopyInto)
      (inp.>"Items") (out.>"Items").
Definition AzureStackHCIClusterTemplateList_DeepCopy : option place → mem (option place) :=
  deep_copy v1beta1.AzureStackHCIClusterTemplateList AzureStackHCIClusterTemplateList_DeepCopyInto.
Definition AzureStackHCIClusterTemplateList_DeepCopyObject : option place → mem (option iface) :=
  deep_copy_object "AzureStackHCIClusterTemplateList" AzureStackHCIClusterTemplateList_DeepCopy.
#[export] Instance AzureStackHCILoadBalancerStatus_layout : Layout v1beta1.AzureStackHCILoadBalancerStatus := {|
  tree_of x := TStruct [("Ready", tree_of (v1beta1.lst_Ready x));
    ("Replicas", tree_of (v1beta1.lst_Replicas x));
    ("ReadyReplicas", tree_of (v1beta1.lst_ReadyReplicas x));
    ("FailedReplicas", tree_of (v1beta1.lst_FailedReplicas x));
    ("Address", tree_of (v1beta1.lst_Address x)); ("Port", tree_of (v1beta1.lst_Port x));
    ("Phase", tree_of (v1beta1.lst_Phase x)); ("Conditions", tree_of (v1beta1.lst_Conditions x));
    ("ErrorReason", tree_of (v1beta1.lst_ErrorReason x));
    ("ErrorMessage", tree_of (v1beta1.lst_ErrorMessage x));
    ("Selector", tree_of (v1beta1.lst_Selector x))];
  zero := v1beta1.mkLoadBalancerStatus (zero _) (zero _) (zero _) (zero _) (zero _) (zero _)
     (zero _) (zero _) (zero _) (zero _) (zero _) |}.
Definition AzureStackHCILoadBalancerStatus_DeepCopyInto (inp out : place) : mem unit :=
  copy_value inp out ;;
  unless_nil (make_into corev1beta1.Condition Condition_v1beta1_DeepCopyInto)
      (inp.>"Conditions") (out.>"Conditions") ;;
  unless_nil (new_copy string) (inp.>"ErrorReason") (out.>"ErrorReason") ;;
  unless_nil (new_copy string) (inp.>"ErrorMessage") (out.>"ErrorMessage").
Definition AzureStackHCILoadBalancerStatus_DeepCopy : option place → mem (option place) :=
  deep_copy v1beta1.AzureStackHCILoadBalancerStatus AzureStackHCILoadBalancerStatus_DeepCopyInto.
#[export] Instance AzureStackHCILoadBalancer_layout : Layout v1beta1.AzureStackHCILoadBalancer := {|
  tree_of x := TStruct [("TypeMeta", tree_of (v1beta1.lb_type x));
    ("ObjectMeta", tree_of (v1beta1.lb_meta x)); ("Spec", tree_of (v1beta1.lb_Spec x));
    ("Status", tree_of (v1beta1.lb_Status x))];
  zero := v1beta1.mkLoadBalancer (zero _) (zero _) (zero _) (zero _) |}.
Definition AzureStackHCILoadBalancer_DeepCopyInto (inp out : place) : mem unit :=
  copy_value inp out ;;
  copy_value (inp.>"TypeMeta") (out.>"TypeMeta") ;;
  ObjectMeta_DeepCopyInto (inp.>"ObjectMeta") (out.>"ObjectMeta") ;;
  AzureStackHCILoadBalancerSpec_DeepCopyInto (inp.>"Spec") (out.>"Spec") ;;
  AzureStackHCILoadBalancerStatus_DeepCopyInto (inp.>"Status") (out.>"Status").
Definition AzureStackHCILoadBalancer_DeepCopy : option place → mem (option place) :=
  deep_copy v1beta1.AzureStackHCILoadBalancer AzureStackHCILoadBalancer_DeepCopyInto.
Definition AzureStackHCILoadBalancer_DeepCopyObject : option place → mem (option iface) :=
  deep_copy_object "AzureStackHCILoadBalancer" AzureStackHCILoadBalancer_DeepCopy.
#[export] Instance AzureStackHCILoadBalancerList_layout : Layout v1beta1.AzureStackHCILoadBalancerList := {|
  tree_of x := TStruct [("TypeMeta", tree_of (v1beta1.lbl_type x));
    ("ListMeta", tree_of (v1beta1.lbl_meta x)); ("Items", tree_of (v1beta1.lbl_Items x))];
  zero := v1beta1.mkLoadBalancerList (zero _) (zero _) (zero _) |}.
Definition AzureStackHCILoadBalancerList_DeepCopyInto (inp out : place) : mem unit :=
  copy_value inp out ;;
  copy_value (inp.>"TypeMeta") (out.>"TypeMeta") ;;
  ListMeta_DeepCopyInto (inp.>"ListMeta") (out.>"ListMeta") ;;
  unless_nil (make_into v1beta1.AzureStackHCILoadBalancer AzureStackHCILoadBalancer_DeepCopyInto)
      (inp.>"Items") (out.>"Items").
Definition AzureStackHCILoadBalancerList_DeepCopy : option place → mem (option place) :=
  deep_copy v1beta1.AzureStackHCILoadBalancerList AzureStackHCILoadBalancerList_DeepCopyInto.
Definition AzureStackHCILoadBalancerList_DeepCopyObject : option place → mem (option iface) :=
  deep_copy_object "AzureStackHCILoadBalancerList" AzureStackHCILoadBalancerList_DeepCopy.
#[export] Instance IpConfigurationSpec_layout : Layout v1beta1.IpConfigurationSpec := {|
  tree_of x := TStruct [("Name", tree_of (v1beta1.ic_Name x));
    ("Primary", tree_of (v1beta1.ic_Primary x));
    ("Allocation", tree_of (v1beta1.ic_Allocation x));
    ("IpAddress", tree_of (v1beta1.ic_IpAddress x));
    ("PrefixLength", tree_of (v1beta1.ic_PrefixLength x));
    ("SubnetId", tree_of (v1beta1.ic_SubnetId x)); ("Gateway", tree_of (v1beta1.ic_Gateway x))];
  zero := v1beta1.mkIpConfigurationSpec (zero _) (zero _) (zero _) (zero _) (zero _) (zero _)
     (zero _) |}.
Definition IpConfigurationSpec_DeepCopyInto (inp out : place) : mem unit :=
  copy_value inp out.
Definition IpConfigurationSpec_DeepCopy : option place → mem (option place) :=
  deep_copy v1beta1.IpConfigurationSpec IpConfigurationSpec_DeepCopyInto.
Definition IpConfigurations_DeepCopyInto (inp : gval) (out : place) : mem unit :=
  inp <- alloc inp ;;
  make_each v1beta1.IpConfigurationSpec (new_copy v1beta1.IpConfigurationSpec) inp out.
Definition IpConfigurations_DeepCopy : gval → mem gval :=
  deep_copy_slice IpConfigurations_DeepCopyInto.
#[export] Instance NetworkInterfaceSpec_layout : Layout v1beta1.NetworkInterfaceSpec := {|
  tree_of x := TStruct [("Name", tree_of (v1beta1.nis_Name x));
    ("IPConfigurations", tree_of (v1beta1.nis_IPConfigurations x))];
  zero := v1beta1.mkNetworkInterfaceSpec (zero _) (zero _) |}.
Definition NetworkInterfaceSpec_DeepCopyInto (inp out : place) : mem unit :=
  copy_value inp out ;;
  unless_nil (make_each v1beta1.IpConfigurationSpec (new_copy v1beta1.IpConfigurationSpec))
      (inp.>"IPConfigurations") (out.>"IPConfigurations").
Definition NetworkInterfaceSpec_DeepCopy : option place → mem (option place) :=
  deep_copy v1beta1.NetworkInterfaceSpec NetworkInterfaceSpec_DeepCopyInto.
Definition NetworkInterfaces_DeepCopyInto (inp : gval) (out : place) : mem unit :=
  inp <- alloc inp ;;
  make_each v1beta1.NetworkInterfaceSpec
      (new_into v1beta1.NetworkInterfaceSpec NetworkInterfaceSpec_DeepCopyInto) inp out.
Definition NetworkInterfaces_DeepCopy : gval → mem gval :=
  deep_copy_slice NetworkInterfaces_DeepCopyInto.
#[export] Instance AzureStackHCIMachineSpec_layout : Layout v1beta1.AzureStackHCIMachineSpec := {|
  tree_of x := TStruct [("ProviderID", tree_of (v1beta1.ms_ProviderID x));
    ("VMSize", tree_of (v1beta1.ms_VMSize x));
    ("AvailabilityZone", tree_of (v1beta1.ms_AvailabilityZone x));
    ("Image", tree_of (v1beta1.ms_Image x)); ("OSDisk", tree_of (v1beta1.ms_OSDisk x));
    ("Location", tree_of (v1beta1.ms_Location x));
    ("SSHPublicKey", tree_of (v1beta1.ms_SSHPublicKey x));
    ("StorageContainer", tree_of (v1beta1.ms_StorageContainer x));
    ("GpuCount", tree_of (v1beta1.ms_GpuCount x));
    ("AllocatePublicIP", tree_of (v1beta1.ms_AllocatePublicIP x));
    ("AdditionalSSHKeys", tree_of (v1beta1.ms_AdditionalSSHKeys x));
    ("NetworkInterfaces", tree_of (v1beta1.ms_NetworkInterfaces x));
    ("AvailabilitySetName", tree_of (v1beta1.ms_AvailabilitySetName x));
    ("PlacementGroupName", tree_of (v1beta1.ms_PlacementGroupName x))];
  zero := v1beta1.mkMachineSpec (zero _) (zero _) (zero _) (zero _) (zero _) (zero _) (zero _)
     (zero _) (zero _) (zero _) (zero _) (zero _) (zero _) (zero _) |}.
Definition AzureStackHCIMachineSpec_DeepCopyInto (inp out : place) : mem unit :=
  copy_value inp out ;;
  unless_nil (new_copy string) (inp.>"ProviderID") (out.>"ProviderID") ;;
  AvailabilityZone_DeepCopyInto (inp.>"AvailabilityZone") (out.>"AvailabilityZone") ;;
  Image_DeepCopyInto (inp.>"Image") (out.>"Image") ;;
  copy_value (inp.>"OSDisk") (out.>"OSDisk") ;;
  unless_nil (make_copy string) (inp.>"AdditionalSSHKeys") (out.>"AdditionalSSHKeys") ;;
  unless_nil (make_each v1beta1.NetworkInterfaceSpec (new_into v1beta1.NetworkInterfaceSpec NetworkInterfaceSpec_DeepCopyInto))
      (inp.>"NetworkInterfaces") (out.>"NetworkInterfaces").
Definition AzureStackHCIMachineSpec_DeepCopy : option place → mem (option place) :=
  deep_copy v1beta1.AzureStackHCIMachineSpec AzureStackHCIMachineSpec_DeepCopyInto.
#[export] Instance AzureStackHCIMachineStatus_layout : Layout v1beta1.AzureStackHCIMachineStatus := {|
  tree_of x := TStruct [("Ready", tree_of (v1beta1.mst_Ready x));
    ("Addresses", tree_of (v1beta1.mst_Addresses x));
    ("VMState", tree_of (v1beta1.mst_VMState x));
    ("Conditions", tree_of (v1beta1.mst_Conditions x));
    ("FailureReason", tree_of (v1beta1.mst_FailureReason x));
    ("FailureMessage", tree_of (v1beta1.mst_FailureMessage x))];
  zero := v1beta1.mkMachineStatus (zero _) (zero _) (zero _) (zero _) (zero _) (zero _) |}.
Definition AzureStackHCIMachineStatus_DeepCopyInto (inp out : place) : mem unit :=
  copy_value inp out ;;
  unless_nil (make_copy NodeAddress) (inp.>"Addresses") (out.>"Addresses") ;;
  unless_nil (new_copy string) (inp.>"VMState") (out.>"VMState") ;;
  unless_nil (make_into corev1beta1.Condition Condition_v1beta1_DeepCopyInto)
      (inp.>"Conditions") (out.>"Conditions") ;;
  unless_nil (new_copy string) (inp.>"FailureReason") (out.>"FailureReason") ;;
  unless_nil (new_copy string) (inp.>"FailureMessage") (out.>"FailureMessage").
Definition AzureStackHCIMachineStatus_DeepCopy : option place → mem (option place) :=
  deep_copy v1beta1.AzureStackHCIMachineStatus AzureStackHCIMachineStatus_DeepCopyInto.
#[export] Instance AzureStackHCIMachine_layout : Layout v1beta1.AzureStackHCIMachine := {|
  tree_of x := TStruct [("TypeMeta", tree_of (v1beta1.hm_type x));
    ("ObjectMeta", tree_of (v1beta1.hm_meta x)); ("Spec", tree_of (v1beta1.hm_Spec x));
    ("Status", tree_of (v1beta1.hm_Status x))];
  zero := v1beta1.mkMachine (zero _) (zero _) (zero _) (zero _) |}.
Definition AzureStackHCIMachine_DeepCopyInto (inp out : place) : mem unit :=
  copy_value inp out ;;
  copy_value (inp.>"TypeMeta") (out.>"TypeMeta") ;;
  ObjectMeta_DeepCopyInto (inp.>"ObjectMeta") (out.>"ObjectMeta") ;;
  AzureStackHCIMachineSpec_DeepCopyInto (inp.>"Spec") (out.>"Spec") ;;
  AzureStackHCIMachineStatus_DeepCopyInto (inp.>"Status") (out.>"Status").
Definition AzureStackHCIMachine_DeepCopy : option place → mem (option place) :=
  deep_copy v1beta1.AzureStackHCIMachine AzureStackHCIMachine_DeepCopyInto.
Definition AzureStackHCIMachine_DeepCopyObject : option place → mem (option iface) :=
  deep_copy_object "AzureStackHCIMachine" AzureStackHCIMachine_DeepCopy.
#[export] Instance AzureStackHCIMachineList_layout : Layout v1beta1.AzureStackHCIMachineList := {|
  tree_of x := TStruct [("TypeMeta", tree_of (v1beta1.hml_type x));
    ("ListMeta", tree_of (v1beta1.hml_meta x)); ("Items", tree_of (v1beta1.hml_Items x))];
  zero := v1beta1.mkMachineList (zero _) (zero _) (zero _) |}.
Definition AzureStackHCIMachineList_DeepCopyInto (inp out : place) : mem unit :=
  copy_value inp out ;;
  copy_value (inp.>"TypeMeta") (out.>"TypeMeta") ;;
  ListMeta_DeepCopyInto (inp.>"ListMeta") (out.>"ListMeta") ;;
  unless_nil (make_into v1beta1.AzureStackHCIMachine AzureStackHCIMachine_DeepCopyInto)
      (inp.>"Items") (out.>"Items").
Definition AzureStackHCIMachineList_DeepCopy : option place → mem (option place) :=
  deep_copy v1beta1.AzureStackHCIMachineList AzureStackHCIMachineList_DeepCopyInto.
Definition AzureStackHCIMachineList_DeepCopyObject : option place → mem (option iface) :=
  deep_copy_object "AzureStackHCIMachineList" AzureStackHCIMachineList_DeepCopy.
#[export] Instance AzureStackHCIMachineProviderCondition_layout : Layout v1beta1.AzureStackHCIMachineProviderCondition := {|
  tree_of x := TStruct [("Type", tree_of (v1beta1.mpc_Type x));
    ("Status", tree_of (v1beta1.mpc_Status x));
    ("LastProbeTime", tree_of (v1beta1.mpc_LastProbeTime x));
    ("LastTransitionTime", tree_of (v1beta1.mpc_LastTransitionTime x));
    ("Reason", tree_of (v1beta1.mpc_Reason x)); ("Message", tree_of (v1beta1.mpc_Message x))];
  zero := v1beta1.mkProviderCondition (zero _) (zero _) (zero _) (zero _) (zero _) (zero _) |}.
Definition AzureStackHCIMachineProviderCondition_DeepCopyInto (inp out : place) : mem unit :=
  copy_value inp out ;;
  Time_DeepCopyInto (inp.>"LastProbeTime") (out.>"LastProbeTime") ;;
  Time_DeepCopyInto (inp.>"LastTransitionTime") (out.>"LastTransitionTime").
Definition AzureStackHCIMachineProviderCondition_DeepCopy : option place → mem (option place) :=
  deep_copy v1beta1.AzureStackHCIMachineProviderCondition AzureStackHCIMachineProviderCondition_DeepCopyInto.
#[export] Instance AzureStackHCIMachineTemplateResource_layout : Layout v1beta1.AzureStackHCIMachineTemplateResource := {|
  tree_of x := TStruct [("Spec", tree_of (v1beta1.mtr_Spec x))];
  zero := v1beta1.mkMachineTemplateResource (zero _) |}.
Definition AzureStackHCIMachineTemplateResource_DeepCopyInto (inp out : place) : mem unit :=
  copy_value inp out ;;
  AzureStackHCIMachineSpec_DeepCopyInto (inp.>"Spec") (out.>"Spec").
Definition AzureStackHCIMachineTemplateResource_DeepCopy : option place → mem (option place) :=
  deep_copy v1beta1.AzureStackHCIMachineTemplateResource AzureStackHCIMachineTemplateResource_DeepCopyInto.
#[export] Instance AzureStackHCIMachineTemplateSpec_layout : Layout v1beta1.AzureStackHCIMachineTemplateSpec := {|
  tree_of x := TStruct [("Template", tree_of (v1beta1.mts_Template x))];
  zero := v1beta1.mkMachineTemplateSpec (zero _) |}.
Definition AzureStackHCIMachineTemplateSpec_DeepCopyInto (inp out : place) : mem unit :=
  copy_value inp out ;;
  AzureStackHCIMachineTemplateResource_DeepCopyInto (inp.>"Template") (out.>"Template").
Definition AzureStackHCIMachineTemplateSpec_DeepCopy : option place → mem (option place) :=
  deep_copy v1beta1.AzureStackHCIMachineTemplateSpec AzureStackHCIMachineTemplateSpec_DeepCopyInto.
#[export] Instance AzureStackHCIMachineTemplate_layout : Layout v1beta1.AzureStackHCIMachineTemplate := {|
  tree_of x := TStruct [("TypeMeta", tree_of (v1beta1.mt_type x));
    ("ObjectMeta", tree_of (v1beta1.mt_meta x)); ("Spec", tree_of (v1beta1.mt_Spec x))];
  zero := v1beta1.mkMachineTemplate (zero _) (zero _) (zero _) |}.
Definition AzureStackHCIMachineTemplate_DeepCopyInto (inp out : place) : mem unit :=
  copy_value inp out ;;
  copy_value (inp.>"TypeMeta") (out.>"TypeMeta") ;;
  ObjectMeta_DeepCopyInto (inp.>"ObjectMeta") (out.>"ObjectMeta") ;;
  AzureStackHCIMachineTemplateSpec_DeepCopyInto (inp.>"Spec") (out.>"Spec").
Definition AzureStackHCIMachineTemplate_DeepCopy : option place → mem (option place) :=
  deep_copy v1beta1.AzureStackHCIMachineTemplate AzureStackHCIMachineTemplate_DeepCopyInto.
Definition AzureStackHCIMachineTemplate_DeepCopyObject : option place → mem (option iface) :=
  deep_copy_object "AzureStackHCIMachineTemplate" AzureStackHCIMachineTemplate_DeepCopy.
#[export] Instance AzureStackHCIMachineTemplateList_layout : Layout v1beta1.AzureStackHCIMachineTemplateList := {|
  tree_of x := TStruct [("TypeMeta", tree_of (v1beta1.mtl_type x));
    ("ListMeta", tree_of (v1beta1.mtl_meta x)); ("Items", tree_of (v1beta1.mtl_Items x))];
  zero := v1beta1.mkMachineTemplateList (zero _) (zero _) (zero _) |}.
Definition AzureStackHCIMachineTemplateList_DeepCopyInto (inp out : place) : mem unit :=
  copy_value inp out ;;
  copy_value (inp.>"TypeMeta") (out.>"TypeMeta") ;;
  ListMeta_DeepCopyInto (inp.>"ListMeta") (out.>"ListMeta") ;;
  unless_nil (make_into v1beta1.AzureStackHCIMachineTemplate AzureStackHCIMachineTemplate_DeepCopyInto)
      (inp.>"Items") (out.>"Items").
Definition AzureStackHCIMachineTemplateList_DeepCopy : option place → mem (option place) :=
  deep_copy v1beta1.AzureStackHCIMachineTemplateList AzureStackHCIMachineTemplateList_DeepCopyInto.
Definition AzureStackHCIMachineTemplateList_DeepCopyObject : option place → mem (option iface) :=
  deep_copy_object "AzureStackHCIMachineTemplateList" AzureStackHCIMachineTemplateList_DeepCopy.
#[export] Instance AzureStackHCIResourceReference_layout : Layout v1beta1.AzureStackHCIResourceReference := {|
  tree_of x := TStruct [("ID", tree_of (v1beta1.rr_ID x))];
  zero := v1beta1.mkResourceReference (zero _) |}.
Definition AzureStackHCIResourceReference_DeepCopyInto (inp out : place) : mem unit :=
  copy_value inp out ;;
  unless_nil (new_copy string) (inp.>"ID") (out.>"ID").
Definition AzureStackHCIResourceReference_DeepCopy : option place → mem (option place) :=
  deep_copy v1beta1.AzureStackHCIResourceReference AzureStackHCIResourceReference_DeepCopyInto.
#[export] Instance AzureStackHCIVirtualMachineSpec_layout : Layout v1beta1.AzureStackHCIVirtualMachineSpec := {|
  tree_of x := TStruct [("VMSize", tree_of (v1beta1.vs_VMSize x));
    ("AvailabilityZone", tree_of (v1beta1.vs_AvailabilityZone x));
    ("Image", tree_of (v1beta1.vs_Image x)); ("OSDisk", tree_of (v1beta1.vs_OSDisk x));
    ("BootstrapData", tree_of (v1beta1.vs_BootstrapData x));
    ("Identity", tree_of (v1beta1.vs_Identity x)); ("Location", tree_of (v1beta1.vs_Location x));
    ("SSHPublicKey", tree_of (v1beta1.vs_SSHPublicKey x));
    ("StorageContainer", tree_of (v1beta1.vs_StorageContainer x));
    ("GpuCount", tree_of (v1beta1.vs_GpuCount x));
    ("ResourceGroup", tree_of (v1beta1.vs_ResourceGroup x));
    ("VnetName", tree_of (v1beta1.vs_VnetName x));
    ("ClusterName", tree_of (v1beta1.vs_ClusterName x));
    ("SubnetName", tree_of (v1beta1.vs_SubnetName x));
    ("BackendPoolNames", tree_of (v1beta1.vs_BackendPoolNames x));
    ("AdditionalSSHKeys", tree_of (v1beta1.vs_AdditionalSSHKeys x));
    ("NetworkInterfaces", tree_of (v1beta1.vs_NetworkInterfaces x));
    ("AvailabilitySetName", tree_of (v1beta1.vs_AvailabilitySetName x));
    ("PlacementGroupName", tree_of (v1beta1.vs_PlacementGroupName x))];
  zero := v1beta1.mkVirtualMachineSpec (zero _) (zero _) (zero _) (zero _) (zero _) (zero _)
     (zero _) (zero _) (zero _) (zero _) (zero _) (zero _) (zero _) (zero _) (zero _) (zero _)
     (zero _) (zero _) (zero _) |}.
Definition AzureStackHCIVirtualMachineSpec_DeepCopyInto (inp out : place) : mem unit :=
  copy_value inp out ;;
  AvailabilityZone_DeepCopyInto (inp.>"AvailabilityZone") (out.>"AvailabilityZone") ;;
  Image_DeepCopyInto (inp.>"Image") (out.>"Image") ;;
  copy_value (inp.>"OSDisk") (out.>"OSDisk") ;;
  unless_nil (new_copy string) (inp.>"BootstrapData") (out.>"BootstrapData") ;;
  unless_nil (make_copy string) (inp.>"BackendPoolNames") (out.>"BackendPoolNames") ;;
  unless_nil (make_copy string) (inp.>"AdditionalSSHKeys") (out.>"AdditionalSSHKeys") ;;
  unless_nil (make_each v1beta1.NetworkInterfaceSpec (new_into v1beta1.NetworkInterfaceSpec NetworkInterfaceSpec_DeepCopyInto))
      (inp.>"NetworkInterfaces") (out.>"NetworkInterfaces").
Definition AzureStackHCIVirtualMachineSpec_DeepCopy : option place → mem (option place) :=
  deep_copy v1beta1.AzureStackHCIVirtualMachineSpec AzureStackHCIVirtualMachineSpec_DeepCopyInto.
#[export] Instance AzureStackHCIVirtualMachineStatus_layout : Layout v1beta1.AzureStackHCIVirtualMachineStatus := {|
  tree_of x := TStruct [("Ready", tree_of (v1beta1.vst_Ready x));
    ("Addresses", tree_of (v1beta1.vst_Addresses x));
    ("VMState", tree_of (v1beta1.vst_VMState x));
    ("FailureReason", tree_of (v1beta1.vst_FailureReason x));
    ("FailureMessage", tree_of (v1beta1.vst_FailureMessage x));
    ("Conditions", tree_of (v1beta1.vst_Conditions x))];
  zero := v1beta1.mkVirtualMachineStatus (zero _) (zero _) (zero _) (zero _) (zero _) (zero _) |}.
Definition AzureStackHCIVirtualMachineStatus_DeepCopyInto (inp out : place) : mem unit :=
  copy_value inp out ;;
  unless_nil (make_copy NodeAddress) (inp.>"Addresses") (out.>"Addresses") ;;
  unless_nil (new_copy string) (inp.>"VMState") (out.>"VMState") ;;
  unless_nil (new_copy string) (inp.>"FailureReason") (out.>"FailureReason") ;;
  unless_nil (new_copy string) (inp.>"FailureMessage") (out.>"FailureMessage") ;;
  unless_nil (make_into corev1beta1.Condition Condition_v1beta1_DeepCopyInto)
      (inp.>"Conditions") (out.>"Conditions").
Definition AzureStackHCIVirtualMachineStatus_DeepCopy : option place → mem (option place) :=
  deep_copy v1beta1.AzureStackHCIVirtualMachineStatus AzureStackHCIVirtualMachineStatus_DeepCopyInto.
#[export] Instance AzureStackHCIVirtualMachine_layout : Layout v1beta1.AzureStackHCIVirtualMachine := {|
  tree_of x := TStruct [("TypeMeta", tree_of (v1beta1.hv_type x));
    ("ObjectMeta", tree_of (v1beta1.hv_meta x)); ("Spec", tree_of (v1beta1.hv_Spec x));
    ("Status", tree_of (v1beta1.hv_Status x))];
  zero := v1beta1.mkVirtualMachine (zero _) (zero _) (zero _) (zero _) |}.
Definition AzureStackHCIVirtualMachine_DeepCopyInto (inp out : place) : mem unit :=
  copy_value inp out ;;
  copy_value (inp.>"TypeMeta") (out.>"TypeMeta") ;;
  ObjectMeta_DeepCopyInto (inp.>"ObjectMeta") (out.>"ObjectMeta") ;;
  AzureStackHCIVirtualMachineSpec_DeepCopyInto (inp.>"Spec") (out.>"Spec") ;;
  AzureStackHCIVirtualMachineStatus_DeepCopyInto (inp.>"Status") (out.>"Status").
Definition AzureStackHCIVirtualMachine_DeepCopy : option place → mem (option place) :=
  deep_copy v1beta1.AzureStackHCIVirtualMachine AzureStackHCIVirtualMachine_DeepCopyInto.
Definition AzureStackHCIVirtualMachine_DeepCopyObject : option place → mem (option iface) :=
  deep_copy_object "AzureStackHCIVirtualMachine" AzureStackHCIVirtualMachine_DeepCopy.
#[export] Instance AzureStackHCIVirtualMachineList_layout : Layout v1beta1.AzureStackHCIVirtualMachineList := {|
  tree_of x := TStruct [("TypeMeta", tree_of (v1beta1.hvl_type x));
    ("ListMeta", tree_of (v1beta1.hvl_meta x)); ("Items", tree_of (v1beta1.hvl_Items x))];
  zero := v1beta1.mkVirtualMachineList (zero _) (zero _) (zero _) |}.
Definition AzureStackHCIVirtualMachineList_DeepCopyInto (inp out : place) : mem unit :=
  copy_value inp out ;;
  copy_value (inp.>"TypeMeta") (out.>"TypeMeta") ;;
  ListMeta_DeepCopyInto (inp.>"ListMeta") (out.>"ListMeta") ;;
  unless_nil (make_into v1beta1.AzureStackHCIVirtualMachine AzureStackHCIVirtualMachine_DeepCopyInto)
      (inp.>"Items") (out.>"Items").
Definition AzureStackHCIVirtualMachineList_DeepCopy : option place → mem (option place) :=
  deep_copy v1beta1.AzureStackHCIVirtualMachineList AzureStackHCIVirtualMachineList_DeepCopyInto.
Definition AzureStackHCIVirtualMachineList_DeepCopyObject : option place → mem (option iface) :=
  deep_copy_object "AzureStackHCIVirtualMachineList" AzureStackHCIVirtualMachineList_DeepCopy.
Definition VirtualMachinesByCreationTimestamp_DeepCopyInto (inp : gval) (out : place)
    : mem unit :=
  inp <- alloc inp ;;
  make_each v1beta1.AzureStackHCIVirtualMachine
      (new_into v1beta1.AzureStackHCIVirtualMachine AzureStackHCIVirtualMachine_DeepCopyInto) inp out.
Definition VirtualMachinesByCreationTimestamp_DeepCopy : gval → mem gval :=
  deep_copy_slice VirtualMachinesByCreationTimestamp_DeepCopyInto.

(** ** All of them *)
(** The [DeepCopy] of each struct *)
Definition copiers : list copier := [
  mkCopier v1beta1.AvailabilityZone AvailabilityZone_DeepCopy;
  mkCopier v1beta1.VnetSpec VnetSpec_DeepCopy;
  mkCopier v1beta1.SubnetSpec SubnetSpec_DeepCopy;
  mkCopier v1beta1.NetworkSpec NetworkSpec_DeepCopy;
  mkCopier v1beta1.Image Image_DeepCopy;
  mkCopier v1beta1.AzureStackHCILoadBalancerSpec AzureStackHCILoadBalancerSpec_DeepCopy;
  mkCopier v1beta1.AzureStackHCIClusterSpec AzureStackHCIClusterSpec_DeepCopy;
  mkCopier v1beta1.ManagedDisk ManagedDisk_DeepCopy;
  mkCopier v1beta1.OSDisk OSDisk_DeepCopy;
  mkCopier v1beta1.VM VM_DeepCopy;
  mkCopier v1beta1.AzureStackHCIClusterStatus AzureStackHCIClusterStatus_DeepCopy;
  mkCopier v1beta1.AzureStackHCICluster AzureStackHCICluster_DeepCopy;
  mkCopier v1beta1.AzureStackHCIClusterList AzureStackHCIClusterList_DeepCopy;
  mkCopier v1beta1.AzureStackHCIClusterTemplateResource AzureStackHCIClusterTemplateResource_DeepCopy;
  mkCopier v1beta1.AzureStackHCIClusterTemplateSpec AzureStackHCIClusterTemplateSpec_DeepCopy;
  mkCopier v1beta1.AzureStackHCIClusterTemplate AzureStackHCIClusterTemplate_DeepCopy;
  mkCopier v1beta1.AzureStackHCIClusterTemplateList AzureStackHCIClusterTemplateList_DeepCopy;
  mkCopier v1beta1.AzureStackHCILoadBalancerStatus AzureStackHCILoadBalancerStatus_DeepCopy;
  mkCopier v1beta1.AzureStackHCILoadBalancer AzureStackHCILoadBalancer_DeepCopy;
  mkCopier v1beta1.AzureStackHCILoadBalancerList AzureStackHCILoadBalancerList_DeepCopy;
  mkCopier v1beta1.IpConfigurationSpec IpConfigurationSpec_DeepCopy;
  mkCopier v1beta1.NetworkInterfaceSpec NetworkInterfaceSpec_DeepCopy;
  mkCopier v1beta1.AzureStackHCIMachineSpec AzureStackHCIMachineSpec_DeepCopy;
  mkCopier v1beta1.AzureStackHCIMachineStatus AzureStackHCIMachineStatus_DeepCopy;
  mkCopier v1beta1.AzureStackHCIMachine AzureStackHCIMachine_DeepCopy;
  mkCopier v1beta1.AzureStackHCIMachineList AzureStackHCIMachineList_DeepCopy;
  mkCopier v1beta1.AzureStackHCIMachineProviderCondition AzureStackHCIMachineProviderCondition_DeepCopy;
  mkCopier v1beta1.AzureStackHCIMachineTemplateResource AzureStackHCIMachineTemplateResource_DeepCopy;
  mkCopier v1beta1.AzureStackHCIMachineTemplateSpec AzureStackHCIMachineTemplateSpec_DeepCopy;
  mkCopier v1beta1.AzureStackHCIMachineTemplate AzureStackHCIMachineTemplate_DeepCopy;
  mkCopier v1beta1.AzureStackHCIMachineTemplateList AzureStackHCIMachineTemplateList_DeepCopy;
  mkCopier v1beta1.AzureStackHCIResourceReference AzureStackHCIResourceReference_DeepCopy;
  mkCopier v1beta1.AzureStackHCIVirtualMachineSpec AzureStackHCIVirtualMachineSpec_DeepCopy;
  mkCopier v1beta1.AzureStackHCIVirtualMachineStatus AzureStackHCIVirtualMachineStatus_DeepCopy;
  mkCopier v1beta1.AzureStackHCIVirtualMachine AzureStackHCIVirtualMachine_DeepCopy;
  mkCopier v1beta1.AzureStackHCIVirtualMachineList AzureStackHCIVirtualMachineList_DeepCopy].
(** The [DeepCopyObject] of each resource and list, with the name of its type *)
Definition object_copiers : list object_copier := [
  mkObjectCopier "AzureStackHCICluster" v1beta1.AzureStackHCICluster AzureStackHCICluster_DeepCopyObject;
  mkObjectCopier "AzureStackHCIClusterList" v1beta1.AzureStackHCIClusterList AzureStackHCIClusterList_DeepCopyObject;
  mkObjectCopier "AzureStackHCIClusterTemplate" v1beta1.AzureStackHCIClusterTemplate AzureStackHCIClusterTemplate_DeepCopyObject;
  mkObjectCopier "AzureStackHCIClusterTemplateList" v1beta1.AzureStackHCIClusterTemplateList AzureStackHCIClusterTemplateList_DeepCopyObject;
  mkObjectCopier "AzureStackHCILoadBalancer" v1beta1.AzureStackHCILoadBalancer AzureStackHCILoadBalancer_DeepCopyObject;
  mkObjectCopier "AzureStackHCILoadBalancerList" v1beta1.AzureStackHCILoadBalancerList AzureStackHCILoadBalancerList_DeepCopyObject;
  mkObjectCopier "AzureStackHCIMachine" v1beta1.AzureStackHCIMachine AzureStackHCIMachine_DeepCopyObject;
  mkObjectCopier "AzureStackHCIMachineList" v1beta1.AzureStackHCIMachineList AzureStackHCIMachineList_DeepCopyObject;
  mkObjectCopier "AzureStackHCIMachineTemplate" v1beta1.AzureStackHCIMachineTemplate AzureStackHCIMachineTemplate_DeepCopyObject;
  mkObjectCopier "AzureStackHCIMachineTemplateList" v1beta1.AzureStackHCIMachineTemplateList AzureStackHCIMachineTemplateList_DeepCopyObject;
  mkObjectCopier "AzureStackHCIVirtualMachine" v1beta1.AzureStackHCIVirtualMachine AzureStackHCIVirtualMachine_DeepCopyObject;
  mkObjectCopier "AzureStackHCIVirtualMachineList" v1beta1.AzureStackHCIVirtualMachineList AzureStackHCIVirtualMachineList_DeepCopyObject].
(** The slice types, whose elements are pointers *)
Definition slice_copiers : list slice_copier := [
  mkSliceCopier v1beta1.SubnetSpec Subnets_DeepCopyInto Subnets_DeepCopy;
  mkSliceCopier v1beta1.IpConfigurationSpec IpConfigurations_DeepCopyInto IpConfigurations_DeepCopy;
  mkSliceCopier v1beta1.NetworkInterfaceSpec NetworkInterfaces_DeepCopyInto NetworkInterfaces_DeepCopy;
  mkSliceCopier v1beta1.AzureStackHCIVirtualMachine VirtualMachinesByCreationTimestamp_DeepCopyInto VirtualMachinesByCreationTimestamp_DeepCopy].

(** ** They copy *)
Context {AL : ApiMachineryLaws AM}.
#[export] Instance v1_AvailabilityZone_copies :
  DeepCopies v1beta1.AvailabilityZone AvailabilityZone_DeepCopyInto.
Proof. copy_struct. Qed.
#[export] Instance v1_VnetSpec_plain : Plain v1beta1.VnetSpec.
Proof. done. Qed.
#[export] Instance v1_VnetSpec_copies : DeepCopies v1beta1.VnetSpec VnetSpec_DeepCopyInto.
Proof. copy_struct. Qed.
#[export] Instance v1_SubnetSpec_plain : Plain v1beta1.SubnetSpec.
Proof. done. Qed.
#[export] Instance v1_SubnetSpec_copies : DeepCopies v1beta1.SubnetSpec SubnetSpec_DeepCopyInto.
Proof. copy_struct. Qed.
#[export] Instance v1_NetworkSpec_copies :
  DeepCopies v1beta1.NetworkSpec NetworkSpec_DeepCopyInto.
Proof. copy_struct. Qed.
#[export] Instance v1_Image_copies : DeepCopies v1beta1.Image Image_DeepCopyInto.
Proof. copy_struct. Qed.
#[export] Instance v1_AzureStackHCILoadBalancerSpec_copies :
  DeepCopies v1beta1.AzureStackHCILoadBalancerSpec AzureStackHCILoadBalancerSpec_DeepCopyInto.
Proof. copy_struct. Qed.
#[export] Instance v1_AzureStackHCIClusterSpec_copies :
  DeepCopies v1beta1.AzureStackHCIClusterSpec AzureStackHCIClusterSpec_DeepCopyInto.
Proof. copy_struct. Qed.
#[export] Instance v1_ManagedDisk_plain : Plain v1beta1.ManagedDisk.
Proof. done. Qed.
#[export] Instance v1_ManagedDisk_copies :
  DeepCopies v1beta1.ManagedDisk ManagedDisk_DeepCopyInto.
Proof. copy_struct. Qed.
#[export] Instance v1_OSDisk_plain : Plain v1beta1.OSDisk.
Proof. done. Qed.
#[export] Instance v1_OSDisk_copies : DeepCopies v1beta1.OSDisk OSDisk_DeepCopyInto.
Proof. copy_struct. Qed.
#[export] Instance v1_VM_copies : DeepCopies v1beta1.VM VM_DeepCopyInto.
Proof. copy_struct. Qed.
#[export] Instance v1_AzureStackHCIClusterStatus_copies :
  DeepCopies v1beta1.AzureStackHCIClusterStatus AzureStackHCIClusterStatus_DeepCopyInto.
Proof. copy_struct. Qed.
#[export] Instance v1_AzureStackHCICluster_copies :
  DeepCopies v1beta1.AzureStackHCICluster AzureStackHCICluster_DeepCopyInto.
Proof. copy_struct. Qed.
#[export] Instance v1_AzureStackHCIClusterList_copies :
  DeepCopies v1beta1.AzureStackHCIClusterList AzureStackHCIClusterList_DeepCopyInto.
Proof. copy_struct. Qed.
#[export] Instance v1_AzureStackHCIClusterTemplateResource_copies :
  DeepCopies v1beta1.AzureStackHCIClusterTemplateResource AzureStackHCIClusterTemplateResource_DeepCopyInto.
Proof. copy_struct. Qed.
#[export] Instance v1_AzureStackHCIClusterTemplateSpec_copies :
  DeepCopies v1beta1.AzureStackHCIClusterTemplateSpec AzureStackHCIClusterTemplateSpec_DeepCopyInto.
Proof. copy_struct. Qed.
#[export] Instance v1_AzureStackHCIClusterTemplate_copies :
  DeepCopies v1beta1.AzureStackHCIClusterTemplate AzureStackHCIClusterTemplate_DeepCopyInto.
Proof. copy_struct. Qed.
#[export] Instance v1_AzureStackHCIClusterTemplateList_copies :
  DeepCopies v1beta1.AzureStackHCIClusterTemplateList AzureStackHCIClusterTemplateList_DeepCopyInto.
Proof. copy_struct. Qed.
#[export] Instance v1_AzureStackHCILoadBalancerStatus_copies :
  DeepCopies v1beta1.AzureStackHCILoadBalancerStatus AzureStackHCILoadBalancerStatus_DeepCopyInto.
Proof. copy_struct. Qed.
#[export] Instance v1_AzureStackHCILoadBalancer_copies :
  DeepCopies v1beta1.AzureStackHCILoadBalancer AzureStackHCILoadBalancer_DeepCopyInto.
Proof. copy_struct. Qed.
#[export] Instance v1_AzureStackHCILoadBalancerList_copies :
  DeepCopies v1beta1.AzureStackHCILoadBalancerList AzureStackHCILoadBalancerList_DeepCopyInto.
Proof. copy_struct. Qed.
#[export] Instance v1_IpConfigurationSpec_plain : Plain v1beta1.IpConfigurationSpec.
Proof. done. Qed.
#[export] Instance v1_IpConfigurationSpec_copies :
  DeepCopies v1beta1.IpConfigurationSpec IpConfigurationSpec_DeepCopyInto.
Proof. copy_struct. Qed.
#[export] Instance v1_NetworkInterfaceSpec_copies :
  DeepCopies v1beta1.NetworkInterfaceSpec NetworkInterfaceSpec_DeepCopyInto.
Proof. copy_struct. Qed.
#[export] Instance v1_AzureStackHCIMachineSpec_copies :
  DeepCopies v1beta1.AzureStackHCIMachineSpec AzureStackHCIMachineSpec_DeepCopyInto.
Proof. copy_struct. Qed.
#[export] Instance v1_AzureStackHCIMachineStatus_copies :
  DeepCopies v1beta1.AzureStackHCIMachineStatus AzureStackHCIMachineStatus_DeepCopyInto.
Proof. copy_struct. Qed.
#[export] Instance v1_AzureStackHCIMachine_copies :
  DeepCopies v1beta1.AzureStackHCIMachine AzureStackHCIMachine_DeepCopyInto.
Proof. copy_struct. Qed.
#[export] Instance v1_AzureStackHCIMachineList_copies :
  DeepCopies v1beta1.AzureStackHCIMachineList AzureStackHCIMachineList_DeepCopyInto.
Proof. copy_struct. Qed.
#[export] Instance v1_AzureStackHCIMachineProviderCondition_copies :
  DeepCopies v1beta1.AzureStackHCIMachineProviderCondition AzureStackHCIMachineProviderCondition_DeepCopyInto.
Proof. copy_struct. Qed.
#[export] Instance v1_AzureStackHCIMachineTemplateResource_copies :
  DeepCopies v1beta1.AzureStackHCIMachineTemplateResource AzureStackHCIMachineTemplateResource_DeepCopyInto.
Proof. copy_struct. Qed.
#[export] Instance v1_AzureStackHCIMachineTemplateSpec_copies :
  DeepCopies v1beta1.AzureStackHCIMachineTemplateSpec AzureStackHCIMachineTemplateSpec_DeepCopyInto.
Proof. copy_struct. Qed.
#[export] Instance v1_AzureStackHCIMachineTemplate_copies :
  DeepCopies v1beta1.AzureStackHCIMachineTemplate AzureStackHCIMachineTemplate_DeepCopyInto.
Proof. copy_struct. Qed.
#[export] Instance v1_AzureStackHCIMachineTemplateList_copies :
  DeepCopies v1beta1.AzureStackHCIMachineTemplateList AzureStackHCIMachineTemplateList_DeepCopyInto.
Proof. copy_struct. Qed.
#[export] Instance v1_AzureStackHCIResourceReference_copies :
  DeepCopies v1beta1.AzureStackHCIResourceReference AzureStackHCIResourceReference_DeepCopyInto.
Proof. copy_struct. Qed.
#[export] Instance v1_AzureStackHCIVirtualMachineSpec_copies :
  DeepCopies v1beta1.AzureStackHCIVirtualMachineSpec AzureStackHCIVirtualMachineSpec_DeepCopyInto.
Proof. copy_struct. Qed.
#[export] Instance v1_AzureStackHCIVirtualMachineStatus_copies :
  DeepCopies v1beta1.AzureStackHCIVirtualMachineStatus AzureStackHCIVirtualMachineStatus_DeepCopyInto.
Proof. copy_struct. Qed.
#[export] Instance v1_AzureStackHCIVirtualMachine_copies :
  DeepCopies v1beta1.AzureStackHCIVirtualMachine AzureStackHCIVirtualMachine_DeepCopyInto.
Proof. copy_struct. Qed.
#[export] Instance v1_AzureStackHCIVirtualMachineList_copies :
  DeepCopies v1beta1.AzureStackHCIVirtualMachineList AzureStackHCIVirtualMachineList_DeepCopyInto.
Proof. copy_struct. Qed.
End Copies.
End V1beta1.
Export (hints) V1beta1.
