(* ===== verification/Sharing.v ===== *)
(** * What shares memory with what

    The functions of [DeepCopy] and [DeepCopyV1beta1] give values of their own: what is done to
    a copy does not reach anything else, and the other way round. The last part follows the
    machine controller as it fills in the specification of a virtual machine from that of the
    machine, and tells which part of it the two objects share from then on. *)
From stdpp Require Import prelude strings list gmap.
From S2P Require Import Prelude GoStd External Api ApiV1beta1 Memory CopyRules.
From S2P Require Import DeepCopy DeepCopyV1beta1 Machine.
Local Open Scope mem_scope.

(** ** Values of their own *)
(** The variable at [p] holds [t], all of it in the cells of [R]. *)
Definition holds (h : memory) (R : gset loc) (p : place) (t : tree) : Prop :=
  ∃ v, get h p = Some v ∧ denotes h R t v ∧ p.1 ∈ R ∧ R ⊆ dom h.
(** The copy [q] is [t] as long as nobody stores into the cells of [F]; storing into these
    changes none of the cells there were before. *)
Definition apart_from (h : memory) (q : place) (t : tree) (h' : memory) : Prop :=
  ∃ F, (∀ k, same_on F h' k → holds k F q t) ∧
       (∀ k, (∀ l, l ∉ F → k !! l = h' !! l) → same_on (dom h) h k).

Lemma holds_same_on h h' R p t : same_on R h h' → holds h R p t → holds h' R p t.
Proof.
  intros Hs (v&Hv&Hd&Hp&HR). exists v. split_and!; [|  |done|].
  - unfold get in *. by rewrite Hs.
  - eapply denotes_frame; [done..|]. auto.
  - intros l Hl. apply elem_of_dom. rewrite Hs by done. by apply elem_of_dom, HR.
Qed.
Lemma deep_copy_fresh `{DeepCopies A f} (x : A) h R p :
  holds h R p (tree_of x) →
  runs (deep_copy A f (Some p)) h (λ o h', ∃ q F,
    o = Some q ∧ holds h' F q (tree_of x) ∧ F ## dom h ∧ same_on (dom h) h h').
Proof.
  intros (v&Hv&Hd&Hp&HR). apply runs_bind, runs_alloc. intros l Hl. apply runs_bind.
  pose proof (same_on_insert h l (zero_val A) Hl) as Hext.
  eapply runs_weaken; [apply (deep_copies x _ p (l, []) R v (zero_val A)); [split|done]|].
  - unfold get in *. rewrite Hext; [done|by apply HR].
  - eapply denotes_frame; [done..|]. auto.
  - rewrite dom_insert_L. set_solver.
  - simpl. by intros ?%HR.
  - simpl. apply (apart (dom h)); [done|by apply HR].
  - unfold get. simpl. by rewrite lookup_insert_eq.
  - intros [] h' (y&F&Hm&Hy). apply runs_ret. exists (l, []), ({[l]} ∪ F).
    pose proof (mod_new _ _ _ _ _ Hm) as Hn. pose proof (mod_made _ _ _ _ _ Hm).
    pose proof (modifies_dom Hm) as Hd'. rewrite dom_insert_L in Hn, Hd'.
    split_and!; [done| |set_solver|].
    + exists y. split_and!; [apply (modifies_get Hm)| |set_solver|set_solver].
      eapply denotes_frame; [done|set_solver|done].
    + intros j Hj. rewrite (mod_others _ _ _ _ _ Hm); [by apply Hext| |].
      * rewrite dom_insert_L. set_solver.
      * simpl. apply not_eq_sym, (apart (dom h)); done.
Qed.
Lemma deep_copy_apart `{DeepCopies A f} (x : A) h R p :
  holds h R p (tree_of x) →
  ∃ q h', deep_copy A f (Some p) h = Some (Some q, h') ∧ apart_from h q (tree_of x) h'.
Proof.
  intros Hh%(deep_copy_fresh (f:=f)). unfold runs in Hh.
  destruct (deep_copy A f (Some p) h) as [[o h']|]; [|done].
  destruct Hh as (q&F&->&Hq&HF&Hs). exists q, h'. split; [done|]. exists F.
  split; intros k Hk; [by eapply holds_same_on|].
  intros l Hl. rewrite Hk by set_solver. by apply Hs.
Qed.

(** [DeepCopy]: nil for nil, otherwise a pointer to such a copy *)
Definition copier_ok (c : copier) : Prop :=
  (∀ h, cp_DeepCopy c None h = Some (None, h)) ∧
  ∀ (x : cp_type c) h R p, holds h R p (tree_of (Layout:=cp_layout c) x) →
    ∃ q h', cp_DeepCopy c (Some p) h = Some (Some q, h') ∧
            apart_from h q (tree_of (Layout:=cp_layout c) x) h'.
Definition object_copier_ok (c : object_copier) : Prop :=
  (∀ h, oc_DeepCopyObject c None h = Some (None, h)) ∧
  ∀ (x : oc_type c) h R p, holds h R p (tree_of (Layout:=oc_layout c) x) →
    ∃ q h', oc_DeepCopyObject c (Some p) h = Some (Some (mkIface (oc_name c) q), h') ∧
            apart_from h q (tree_of (Layout:=oc_layout c) x) h'.
Lemma deep_copy_ok `{DeepCopies A f} : copier_ok (mkCopier A (deep_copy A f)).
Proof. split; [done|]. intros x h R p. apply deep_copy_apart. Qed.
Lemma deep_copy_object_ok `{DeepCopies A f} n :
  object_copier_ok (mkObjectCopier n A (deep_copy_object n (deep_copy A f))).
Proof.
  split; [done|]. intros x h R p Hh. simpl in *. destruct (deep_copy_apart (A:=A) (f:=f) x h R p Hh) as (q&h'&Hq&Ha).
  exists q, h'. split; [|done]. unfold deep_copy_object, mbind, mem_bind. by rewrite Hq.
Qed.

(** The body of a slice type's [DeepCopyInto] *)
Lemma slice_copies_new (t : tree) (g : place → place → mem unit) h R v out w :
  copies t g → denotes h R t v → R ⊆ dom h → out.1 ∉ R → get h out = Some w →
  runs (inp <- alloc v ;; g inp out) h (λ _, made h out t).
Proof.
  intros Hg Hd HR Ho Hw. apply runs_bind, runs_alloc. intros l Hl.
  pose proof (same_on_insert h l v Hl) as Hext. apply get_dom in Hw as Hwd.
  eapply runs_weaken; [apply (Hg _ (l, []) out R v w); [split|done]|].
  - unfold get. simpl. by rewrite lookup_insert_eq.
  - eapply denotes_frame; [done..|]. auto.
  - rewrite dom_insert_L. set_solver.
  - done.
  - simpl. apply not_eq_sym. by apply (apart (dom h)).
  - unfold get in *. by rewrite Hext.
  - intros [] h' (y&G&Hm'&Hy). exists y, ({[l]} ∪ G). split; [by apply modifies_alloc in Hm'|].
    eapply denotes_frame; [done|set_solver|done].
Qed.

(** ** Filling in a struct that is there *)
Section Fill.
Context (h0 : memory) (out : place) (R : gset loc).
Context (HR : R ⊆ dom h0) (Hout : out.1 ∉ R).
(** The struct at [out] is [ts] now, in old cells of [R] and in new ones; the memory is as it
    was otherwise. *)
Definition filled (ts : list (string * tree)) (h : memory) : Prop :=
  ∃ F gs, modifies h0 out (GStruct gs) F h ∧ gs.*1 = ts.*1 ∧
    (∀ n t, assoc n ts = Some t → ∃ v, assoc n gs = Some v ∧ denotes h (R ∪ F) t v).
Definition sets (n : string) (t : tree) (m : mem unit) : Prop :=
  ∀ h F x, modifies h0 out x F h → is_Some (get h (out.>n)) →
  runs m h (λ _ h', ∃ y F', modifies h (out.>n) y F' h' ∧ denotes h' (R ∪ F') t y).

Lemma filled_sets n t m ts h :
  sets n t m → is_Some (assoc n ts) → filled ts h →
  runs m h (λ _, filled (assoc_set n t ts)).
Proof.
  intros Hm [u Hu] (F&gs&Hmod&Hgs&Hall). destruct (Hall n u Hu) as (v&Hv&_).
  eapply runs_weaken; [eapply Hm; [exact Hmod|]|].
  - exists v. pose proof (modifies_get Hmod) as Hg. unfold get, field in *. simpl.
    destruct (h !! out.1) as [c|]; [|done]. simpl in *. rewrite walk_app, Hg. simpl. by rewrite Hv.
  - intros [] h' (y&F'&Hm'&Hy). exists (F ∪ F'), (assoc_set n y gs). split_and!.
    + eapply modifies_part; [exact Hmod| |exact Hm']. simpl. by rewrite Hv.
    + by rewrite !assoc_set_names.
    + intros k w. destruct (decide (k = n)) as [->|Hne].
      * rewrite (assoc_set_same n t) by by eexists. intros [= <-].
        rewrite assoc_set_same by by eexists. exists y. split; [done|].
        eapply denotes_frame; [done|set_solver|done].
      * rewrite !assoc_set_other by done. intros Hw. destruct (Hall k w Hw) as (z&Hz&Hd).
        exists z. split; [done|]. apply (modifies_denotes Hm') in Hd.
        -- eapply denotes_frame; [done|set_solver|done].
        -- simpl. rewrite elem_of_union. intros [?|HF]; [done|].
           apply (mod_new _ _ _ _ _ Hmod out.1); [done|]. by apply (modifies_out_dom Hmod).
Qed.

(** The statements that set a field *)
Lemma sets_denoted n t p v (Hp : p.1 ≠ out.1) :
  get h0 p = Some v → denotes h0 R t v → sets n t (copy_value p (out.>n)).
Proof.
  intros Hv Hd h F x Hm [w Hw]. apply runs_bind.
  apply (runs_load _ _ _ v); [by apply (modifies_elsewhere Hm)|].
  eapply runs_store; [done|]. intros h' _ Hm'. exists v, ∅. split; [done|].
  rewrite (right_id_L ∅ (∪)). apply (modifies_denotes Hm'); [done|].
  by apply (modifies_denotes Hm).
Qed.
Lemma sets_plain `{Plain A} (a : A) n p S (HS : out.1 ∉ S) :
  holds h0 S p (tree_of a) → sets n (tree_of a) (copy_value p (out.>n)).
Proof.
  intros (v&Hv&Hd&Hp&_). eapply sets_denoted; [by apply not_eq_sym, (apart S)|done|].
  eapply flat_denotes; [apply plain|done].
Qed.
Lemma holds_later S p t h x F :
  out.1 ∉ S → holds h0 S p t → modifies h0 out x F h → holds h S p t.
Proof.
  intros Ho Hh Hm. eapply holds_same_on; [|done]. intros l Hl. destruct Hh as (_&_&_&_&HS).
  apply (mod_others _ _ _ _ _ Hm); [by apply HS|]. by intros ->.
Qed.
Lemma sets_pointer n t p S : S ⊆ R → holds h0 S p t →
  sets n (TRef t) (store (out.>n) (GPtr (Some p))).
Proof.
  intros HS Hh h F x Hm [w Hw]. eapply runs_store; [done|]. intros h' _ Hm'.
  exists (GPtr (Some p)), ∅. split; [done|]. rewrite (right_id_L ∅ (∪)).
  eapply holds_later in Hh; [|set_solver|done]. destruct Hh as (v&Hv&Hd&Hp&_).
  split; [by apply HS|].
  rewrite (modifies_elsewhere Hm' p v); [|by apply not_eq_sym, (apart R), HS|done].
  apply (modifies_denotes Hm'); [done|]. eapply denotes_frame; [done|set_solver|done].
Qed.
Lemma sets_deep_copy `{DeepCopies A f} (a : A) n p S (HS : out.1 ∉ S) :
  holds h0 S p (tree_of a) →
  sets n (TRef (tree_of a)) (c <- deep_copy A f (Some p) ;; store (out.>n) (GPtr c)).
Proof.
  intros Hh h F x Hm [w Hw]. apply runs_bind.
  eapply runs_weaken; [eapply deep_copy_fresh, holds_later; done|].
  intros o h1 (q&G&->&Hq&HG&Hs). apply get_dom in Hw as Hd. simpl in Hd.
  eapply (runs_store _ _ _ w); [unfold get in *; simpl in *; by rewrite Hs|]. intros h2 _ Hm2.
  pose proof Hq as (v&Hv&Hden&Hq1&HG1).
  exists (GPtr (Some q)), G. split.
  - rewrite <-(right_id_L ∅ (∪) G). by eapply modifies_after.
  - assert (Hne : q.1 ≠ out.1) by (apply (apart (dom h)); [set_solver|done]).
    split; [by apply elem_of_union_r|]. rewrite (modifies_elsewhere Hm2 q v) by done.
    apply (modifies_denotes Hm2); [simpl; set_solver|].
    eapply denotes_frame; [done|set_solver|done].
Qed.
(** The copy of a slice of pointers, whatever the slice that was there *)
Lemma sets_slice n t p S (f : gval → place → mem unit) (g : place → place → mem unit)
    (HS : out.1 ∉ S) :
  (∀ v q, f v q = (inp <- alloc v ;; g inp q)) → copies t g → holds h0 S p t →
  sets n t (v <- load p ;; f v (out.>n)).
Proof.
  intros Hfg Hg Hh h F x Hm [w Hw]. eapply holds_later in Hh; [|done..].
  destruct Hh as (v&Hv&Hd&Hp&HSd). apply runs_bind, (runs_load _ _ _ v); [done|].
  rewrite Hfg. eapply runs_weaken; [by eapply slice_copies_new|].
  intros [] h' (y&G&Hm'&Hy). exists y, G. split; [done|].
  eapply denotes_frame; [done|set_solver|done].
Qed.

(** One statement after the other *)
Lemma filled_then ts ts' ts'' (m k : mem unit) :
  (∀ h, filled ts h → runs m h (λ _, filled ts')) →
  (∀ h, filled ts' h → runs k h (λ _, filled ts'')) →
  ∀ h, filled ts h → runs (m ;; k) h (λ _, filled ts'').
Proof.
  intros Hm Hk h Hf. apply runs_bind. eapply runs_weaken; [by apply Hm|]. intros [] h'. apply Hk.
Qed.
Lemma filled_start ts v : get h0 out = Some v → denotes h0 R (TStruct ts) v → NoDup ts.*1 → filled ts h0.
Proof.
  intros Hv Hd Hnd. destruct v as [|fs| | |]; try done. apply denotes_struct in Hd as [Hn Hd].
  exists ∅, fs. split_and!; [|done|].
  - split; [|done|set_solver|set_solver]. unfold get in Hv.
    destruct (h0 !! out.1) as [c|]; [|done]. exists c, c. split_and!; [done| |done].
    by apply put_same.
  - intros n t Ht%assoc_elem. destruct (Hd n t Ht) as (w&?&?). exists w. split; [done|].
    by rewrite (right_id_L ∅ (∪)).
Qed.
Lemma filled_end ts h : filled ts h → NoDup ts.*1 →
  ∃ F x, modifies h0 out x F h ∧ denotes h (R ∪ F) (TStruct ts) x.
Proof.
  intros (F&gs&Hm&Hgs&Hall) Hnd. exists F, (GStruct gs). split; [done|].
  apply denotes_struct. split; [done|]. intros n t Hin. by apply Hall, elem_assoc.
Qed.
(** [if in.F != nil { out.F = in.F.DeepCopy() }] *)
Definition copy_if_set A `{Layout A} (f : place → place → mem unit) (p q : place) : mem unit :=
  b <- is_set p ;;
  if (b : bool) then r <- deref p ;; c <- deep_copy A f (Some r) ;; store q (GPtr c) else mret tt.
Lemma filled_if `{DeepCopies A f} (o : option A) n t p S (HS : out.1 ∉ S) ts h :
  holds h0 S p (tree_of o) → assoc n ts = Some t → filled ts h →
  runs (copy_if_set A f p (out.>n)) h
    (λ _, filled (assoc_set n (match o with Some a => TRef (tree_of a) | None => t end) ts)).
Proof.
  intros Hh Ht Hfill. pose proof Hfill as (F&gs&Hm&_). pose proof Hh as (v&Hv&Hd&Hp&HSd).
  assert (Hv' : get h p = Some v).
  { apply (modifies_elsewhere Hm); [by intros Heq; rewrite <-Heq in HS|done]. }
  apply runs_bind, runs_bind, (runs_load _ _ _ v); [done|].
  destruct v as [| | |[r|]|], o as [a|]; try done; apply runs_ret; simpl.
  - apply runs_bind, runs_bind, (runs_load _ _ _ (GPtr (Some r))); [done|]. apply runs_ret.
    destruct Hd as [Hr Hd]. destruct (get h0 r) as [u|] eqn:Hu; [|done].
    eapply filled_sets; [|by eexists|done]. apply (sets_deep_copy a n r S); [done|].
    exists u. by split_and!.
  - apply runs_ret. by rewrite assoc_set_id.
Qed.
End Fill.
Lemma holds_field h R p ts n t :
  holds h R p (TStruct ts) → assoc n ts = Some t → holds h R (p.>n) t.
Proof.
  intros (v&Hv&Hd&Hp&HR) Ht. destruct v as [|fs| | |]; try done.
  apply denotes_struct in Hd as [_ Hd]. destruct (Hd n t) as (w&Hw&Hdw); [by apply assoc_elem|].
  exists w. split_and!; [|done..]. unfold get, field in *. simpl.
  destruct (h !! p.1) as [c|]; [|done]. simpl in *. rewrite walk_app, Hv. simpl. by rewrite Hw.
Qed.

(** The next statement sets a field. *)
Ltac set_by lem :=
  let k := fresh in let Hk := fresh in
  eapply filled_then;
    [intros k Hk; eapply filled_sets; [eassumption|eassumption|lem| |exact Hk]; by eexists|].

(** ** The machine controller *)
(** [mutateFn], from the image on, on the objects [vm] and [machine] *)
Section MachineSpec.
Context {AM : ApiMachinery} {AL : ApiMachineryLaws AM}.
Definition fill_vm_spec_in_memory (image bootstrapData vm machine : place) : mem unit :=
  let to := vm.>"Spec" in let from := machine.>"Spec" in
  (c <- Image_DeepCopy (Some image) ;; store (to.>"Image") (GPtr c)) ;;
  copy_value (from.>"VMSize") (to.>"VMSize") ;;
  copy_value (from.>"GpuCount") (to.>"GpuCount") ;;
  copy_if_set AvailabilityZone AvailabilityZone_DeepCopyInto
    (from.>"AvailabilityZone") (to.>"AvailabilityZone") ;;
  copy_if_set OSDisk OSDisk_DeepCopyInto (from.>"OSDisk") (to.>"OSDisk") ;;
  copy_value (from.>"Location") (to.>"Location") ;;
  copy_value (from.>"SSHPublicKey") (to.>"SSHPublicKey") ;;
  store (to.>"BootstrapData") (GPtr (Some bootstrapData)) ;;
  copy_value (from.>"AdditionalSSHKeys") (to.>"AdditionalSSHKeys") ;;
  copy_value (from.>"StorageContainer") (to.>"StorageContainer") ;;
  copy_value (from.>"AvailabilitySetName") (to.>"AvailabilitySetName") ;;
  copy_value (from.>"PlacementGroupName") (to.>"PlacementGroupName") ;;
  (v <- load (from.>"NetworkInterfaces") ;;
   NetworkInterfaces_DeepCopyInto v (to.>"NetworkInterfaces")).

(** What is set from a field of the machine, which [Hfield] says is held in cells [Hvs] apart
    from the virtual machine *)
Local Ltac set_plain a :=
  match goal with
  | HvR : _ ∉ _, Hvs : _ ∉ ?R, Hfield : ∀ n t, _ = _ → holds _ ?R _ _ |- _ =>
      set_by ltac:(eapply (sets_plain _ _ _ HvR a _ _ _ Hvs), Hfield; reflexivity)
  end.
Local Ltac set_if a :=
  match goal with
  | HRd : _ ⊆ _, HvR : _ ∉ _, Hvs : _ ∉ ?R, Hfield : ∀ n t, _ = _ → holds _ ?R _ _ |- _ =>
      let k := fresh in let Hk := fresh in
      eapply filled_then;
      [intros k Hk; eapply (filled_if _ _ _ HRd HvR a _ _ _ _ Hvs);
       [by apply Hfield| |exact Hk]; reflexivity|]
  end.
(** The statements, one after the other, for a virtual machine that leads to [R] *)
Local Notation fields t := (match t with TStruct ts => ts | _ => [] end).
Lemma fill_vm_spec_runs (image bootstrapData vm machine : place) (h : memory)
    (img : Image) (data : string) (spec : AzureStackHCIMachineSpec)
    (old : AzureStackHCIVirtualMachineSpec) (R_image R_data R_machine R : gset loc) (keys : gval) :
  holds h R_image image (tree_of img) → vm.1 ∉ R_image →
  holds h R_data bootstrapData (tree_of data) → R_data ⊆ R →
  holds h R_machine (machine.>"Spec") (tree_of spec) → vm.1 ∉ R_machine →
  get h (machine.>"Spec".>"AdditionalSSHKeys") = Some keys →
  denotes h R (tree_of (ms_AdditionalSSHKeys spec)) keys →
  R ⊆ dom h → (vm.>"Spec").1 ∉ R →
  ∀ k, filled h (vm.>"Spec") R (fields (tree_of old)) k →
    runs (fill_vm_spec_in_memory image bootstrapData vm machine) k
      (λ _, filled h (vm.>"Spec") R (fields (tree_of (MachineController.fill_vm_spec img data spec old)))).
Proof.
  intros Himg Hvi Hdata HbR Hspec Hvs Hk Hkeys' HRd HvR.
  assert (Hne : machine.1 ≠ vm.1).
  { destruct Hspec as (?&_&_&Hm&_). simpl in Hm. by apply not_eq_sym, (apart R_machine). }
  assert (Hfield : ∀ n t, assoc n (fields (tree_of spec)) = Some t →
    holds h R_machine (machine.>"Spec".>n) t).
  { intros n t Hn. by eapply holds_field in Hspec. }
  unfold fill_vm_spec_in_memory.
  set_by ltac:(exact (sets_deep_copy _ _ _ HRd HvR img _ _ _ Hvi Himg)).
  set_plain (ms_VMSize spec).
  set_plain (ms_GpuCount spec).
  set_if (ms_AvailabilityZone spec).
  set_if (ms_OSDisk spec).
  set_plain (ms_Location spec).
  set_plain (ms_SSHPublicKey spec).
  set_by ltac:(exact (sets_pointer _ _ _ HRd HvR _ _ _ _ HbR Hdata)).
  set_by ltac:(exact (sets_denoted _ _ _ HvR _ _ (machine.>"Spec".>"AdditionalSSHKeys") _ Hne Hk Hkeys')).
  set_plain (ms_StorageContainer spec).
  set_plain (ms_AvailabilitySetName spec).
  set_plain (ms_PlacementGroupName spec).
  intros k Hfill. eapply runs_weaken.
  { eapply filled_sets; [exact HRd|exact HvR| | |exact Hfill].
    - eapply (sets_slice _ _ _ HRd HvR _ _ _ _ NetworkInterfaces_DeepCopyInto _ Hvs).
      + reflexivity.
      + apply (deep_copies (ms_NetworkInterfaces spec)).
      + by apply Hfield.
    - by eexists. }
  intros [] k'. clear.
  destruct spec as [? ? [] ? [] ? ? ? ? ? ? ? ? ?]; exact id.
Qed.

(** C11: filling in the specification of a virtual machine from that of its machine does not
    panic and gives the specification that the handler computes on values
    ([MachineController.fill_vm_spec]); nothing else in the memory changes, and of what the
    virtual machine leads to afterwards everything is new or was its own, except for the
    bootstrap data and the array of the additional SSH keys, which it shares with the
    machine. *)
Theorem machine_shares_keys_only (image bootstrapData vm machine : place) (h : memory)
    (img : Image) (data : string) (spec : AzureStackHCIMachineSpec)
    (old : AzureStackHCIVirtualMachineSpec) (R_image R_data R_machine R_keys R_vm : gset loc)
    (keys v : gval) :
  holds h R_image image (tree_of img) →
  holds h R_data bootstrapData (tree_of data) →
  holds h R_machine (machine.>"Spec") (tree_of spec) →
  get h (machine.>"Spec".>"AdditionalSSHKeys") = Some keys →
  denotes h R_keys (tree_of (ms_AdditionalSSHKeys spec)) keys → R_keys ⊆ dom h →
  get h (vm.>"Spec") = Some v → denotes h R_vm (tree_of old) v → R_vm ⊆ dom h →
  vm.1 ∉ R_image ∪ R_data ∪ R_machine ∪ R_keys ∪ R_vm →
  ∃ h' F x,
    fill_vm_spec_in_memory image bootstrapData vm machine h = Some (tt, h') ∧
    modifies h (vm.>"Spec") x F h' ∧
    denotes h' (R_vm ∪ R_data ∪ R_keys ∪ F) (tree_of (MachineController.fill_vm_spec img data spec old)) x.
Proof.
  intros Himg Hdata Hspec Hk Hkeys Hkd Hv Hold Hvd Hvm.
  rewrite !not_elem_of_union in Hvm. destruct Hvm as [[[[Hvi Hvb] Hvs] Hvk] Hvv].
  set (R := R_vm ∪ R_data ∪ R_keys).
  assert (HvR : (vm.>"Spec").1 ∉ R) by (unfold R; simpl; set_solver).
  assert (HRd : R ⊆ dom h).
  { destruct Hdata as (_&_&_&_&?). unfold R. set_solver. }
  assert (Hstart : filled h (vm.>"Spec") R (fields (tree_of old)) h).
  { eapply filled_start; [exact HRd|exact HvR|exact Hv| |by_computation].
    eapply denotes_frame; [exact Hold|unfold R; set_solver|done]. }
  eapply (fill_vm_spec_runs image bootstrapData vm machine) in Hstart;
    [|done|done|exact Hdata|unfold R; set_solver|done|done|exact Hk| |done|done];
    [|eapply denotes_frame; [exact Hkeys|unfold R; set_solver|done]].
  unfold runs in Hstart.
  destruct (fill_vm_spec_in_memory image bootstrapData vm machine h) as [[[] h']|]; [|done].
  apply filled_end in Hstart as (F&x&Hm&Hd); [|by_computation]. by exists h', F, x.
Qed.
End MachineSpec.

(** The same for a slice of pointers, which is copied by value *)
Definition slice_copier_ok (c : slice_copier) : Prop :=
  ∀ (l : list (option (sc_type c))) h R v,
    denotes h R (tree_of (Layout:=@list_layout _ (@option_layout _ (sc_layout c))) l) v →
    R ⊆ dom h →
    ∃ v' h' F, sc_DeepCopy c v h = Some (v', h') ∧ (is_nil v = true → v' = v ∧ h' = h) ∧
      (∀ k, same_on F h' k →
         denotes k F (tree_of (Layout:=@list_layout _ (@option_layout _ (sc_layout c))) l) v') ∧
      (∀ k, (∀ x, x ∉ F → k !! x = h' !! x) → same_on (dom h) h k).
Lemma deep_copy_slice_ok `{Layout A} (f : gval → place → mem unit) (g : place → place → mem unit) :
  DeepCopies (list (option A)) g → (∀ v q, f v q = (inp <- alloc v ;; g inp q)) →
  slice_copier_ok (mkSliceCopier A f (deep_copy_slice f)).
Proof.
  intros Hg Hf l h R v Hd HR. cbn [sc_DeepCopy sc_type sc_layout] in *.
  destruct (is_nil v) eqn:Hnil.
  { destruct v as [| | |[]|[[[]]|]]; try done. exists (GSlice None), h, ∅.
    split_and!; [done..| |]; intros k Hk; [exact Hd|].
    intros x _. by apply Hk. }
  assert (Hrun : runs (out <- alloc (GSlice None) ;; f v out ;; load out) h
    (λ v' h', ∃ F, denotes h' F (tree_of l) v' ∧ F ## dom h ∧ same_on (dom h) h h')).
  { apply runs_bind, runs_alloc. intros o Ho. pose proof (same_on_insert h o (GSlice None) Ho) as Hs.
    apply runs_bind. rewrite Hf. eapply runs_weaken.
    { apply (slice_copies_new (tree_of l) g (<[o:=GSlice None]> h) R v (o, []) (GSlice None));
        [apply deep_copies| | | |].
      - eapply denotes_frame; [exact Hd|done|]. auto.
      - rewrite dom_insert_L. set_solver.
      - simpl. by intros ?%HR.
      - unfold get. simpl. by rewrite lookup_insert_eq. }
    intros [] h' (x&F&Hm&Hx). eapply runs_load; [by apply (modifies_get Hm)|].
    pose proof (mod_new _ _ _ _ _ Hm) as Hn. rewrite dom_insert_L in Hn.
    exists F. split_and!; [done|set_solver|]. intros j Hj.
    rewrite (mod_others _ _ _ _ _ Hm); [by apply Hs|rewrite dom_insert_L; set_solver|].
    simpl. by apply not_eq_sym, (apart (dom h)). }
  assert (Heq : deep_copy_slice f v = (out <- alloc (GSlice None) ;; f v out ;; load out)).
  { by destruct v as [| | |[]|[[[]]|]]. }
  rewrite Heq. unfold runs in Hrun.
  destruct ((out <- alloc (GSlice None) ;; f v out ;; load out) h) as [[v' h']|]; [|done].
  destruct Hrun as (F&HF&Hn&Hs). exists v', h', F. split_and!; [done..| |]; intros k Hk.
  - eapply denotes_frame; [exact HF|done|]. auto.
  - intros x Hx. rewrite Hk by set_solver. by apply Hs.
Qed.

Section Theorems.
Context {AM : ApiMachinery} {AL : ApiMachineryLaws AM}.
(** C10: [DeepCopy] of every struct of both versions of the API gives nil for nil and otherwise,
    without a panic, a pointer to a value that is the one copied and lives in new memory: it
    stays what it is whatever is stored elsewhere, be it through the original, and nothing that
    was in the memory is changed by what is stored in the copy. The same holds for the slice
    types, nil and empty slices apart. *)
Theorem deep_copies_independent :
  Forall copier_ok (copiers ++ V1beta1.copiers) ∧
  Forall slice_copier_ok (slice_copiers ++ V1beta1.slice_copiers).
Proof.
  rewrite !Forall_app. split_and!; repeat (constructor; [apply deep_copy_ok|]);
    repeat (constructor; [eapply deep_copy_slice_ok; [|intros v q; reflexivity]; apply _|]);
    constructor.
Qed.
(** [DeepCopyObject] of the resources and their lists gives an interface that is nil for a
    nil pointer, and otherwise has the type of the resource and a pointer to such a copy. *)
Theorem deep_copies_of_objects :
  Forall object_copier_ok (object_copiers ++ V1beta1.object_copiers).
Proof. apply Forall_app. split; repeat (constructor; [apply deep_copy_object_ok|]); constructor. Qed.
End Theorems.

(** ** Witnesses *)
(** Metadata with a slice and a pointer, the times and the conditions without pointers; the
    memory of a machine with an image and a key, and of an empty virtual machine *)
Module SharingExample.
Definition meta_DeepCopyInto (inp out : place) : mem unit :=
  copy_value inp out ;;
  unless_nil (make_copy string) (inp.>"Finalizers") (out.>"Finalizers") ;;
  unless_nil (new_copy Z) (inp.>"DeletionTimestamp") (out.>"DeletionTimestamp").
Definition list_meta_DeepCopyInto (inp out : place) : mem unit :=
  copy_value inp out ;;
  unless_nil (new_copy Z) (inp.>"RemainingItemCount") (out.>"RemainingItemCount").
Definition example_machinery : ApiMachinery := {|
  ObjectMeta_layout := {|
    tree_of x := TStruct [("Name", tree_of (metav1.Name x));
      ("Namespace", tree_of (metav1.Namespace x)); ("UID", tree_of (metav1.UID x));
      ("Finalizers", tree_of (metav1.Finalizers x));
      ("DeletionTimestamp", tree_of (metav1.DeletionTimestamp x))];
    zero := metav1.zero_ObjectMeta |};
  ListMeta_layout := {|
    tree_of x := TStruct [("ResourceVersion", tree_of (metav1.ResourceVersion x));
      ("Continue", tree_of (metav1.Continue x));
      ("RemainingItemCount", tree_of (metav1.RemainingItemCount x))];
    zero := metav1.zero_ListMeta |};
  Condition_layout := {|
    tree_of x := TStruct [("Type", tree_of (metav1.c_Type x));
      ("Status", tree_of (metav1.c_Status x));
      ("LastTransitionTime", tree_of (metav1.c_LastTransitionTime x))];
    zero := metav1.zero_Condition |};
  Condition_v1beta1_layout := {|
    tree_of x := TStruct [("Type", tree_of (corev1beta1.c_Type x));
      ("Status", tree_of (corev1beta1.c_Status x));
      ("LastTransitionTime", tree_of (corev1beta1.c_LastTransitionTime x))];
    zero := corev1beta1.zero_Condition |};
  ObjectMeta_DeepCopyInto := meta_DeepCopyInto;
  ListMeta_DeepCopyInto := list_meta_DeepCopyInto;
  Condition_DeepCopyInto := copy_value;
  Condition_v1beta1_DeepCopyInto := copy_value;
  Time_DeepCopyInto := copy_value |}.
#[local] Existing Instance example_machinery.
#[export] Instance example_machinery_laws : ApiMachineryLaws example_machinery.
Proof.
  split.
  - change (DeepCopies metav1.ObjectMeta meta_DeepCopyInto). copy_struct.
  - change (DeepCopies metav1.ListMeta list_meta_DeepCopyInto). copy_struct.
  - intros x. by apply copies_value.
  - intros x. by apply copies_value.
  - apply _.
Qed.

Definition with_field (path : list step) (x v : gval) : gval := default v (put path x v).
Definition machine : place := (1%positive, []).
Definition vm : place := (2%positive, []).
Definition image : place := (3%positive, []).
Definition data : place := (5%positive, []).
Definition example_memory : memory := list_to_map [
  (1%positive, with_field [SField "Spec"; SField "Image"] (GPtr (Some image))
     (with_field [SField "Spec"; SField "AdditionalSSHKeys"]
        (GSlice (Some ((4%positive, []), 0, 1))) (zero_val AzureStackHCIMachine)));
  (2%positive, zero_val AzureStackHCIVirtualMachine);
  (3%positive, zero_val Image);
  (4%positive, GArray [GPrim (PString "key")]);
  (5%positive, GPrim (PString "data"))].
Definition example_spec : AzureStackHCIMachineSpec :=
  zero_MachineSpec <| ms_Image := Some zero_Image |> <| ms_AdditionalSSHKeys := ["key"] |>.
Definition example_machine : AzureStackHCIMachine :=
  zero_Machine <| hm_Spec := example_spec |>.

Lemma denoted (R : gset loc) (t : tree) (p : place) :
  match get example_memory p with
  | Some v => bool_decide (p.1 ∈ R ∧ R ⊆ dom example_memory) && denotesb example_memory R t v
  | None => false
  end = true → holds example_memory R p t.
Proof.
  destruct (get example_memory p) as [v|] eqn:Hv; [|done].
  intros [[Hp HR]%bool_decide_eq_true Hd%denotesb_denotes]%andb_true_iff. by exists v.
Qed.

Lemma deep_copies_independent_witness :
  holds example_memory {[1; 3; 4]}%positive machine (tree_of example_machine) ∧
  ∃ q h', AzureStackHCIMachine_DeepCopy (Some machine) example_memory = Some (Some q, h') ∧
          apart_from example_memory q (tree_of example_machine) h'.
Proof.
  assert (Hh : holds example_memory {[1; 3; 4]}%positive machine (tree_of example_machine)).
  { apply denoted. vm_compute. reflexivity. }
  split; [exact Hh|]. pose proof deep_copies_independent as [Hall _].
  apply (Forall_lookup_1 _ _ 26 (mkCopier AzureStackHCIMachine AzureStackHCIMachine_DeepCopy))
    in Hall as [_ Hc]; [exact (Hc example_machine _ _ _ Hh)|reflexivity].
Defined.
Lemma deep_copies_of_objects_witness :
  holds example_memory {[1; 3; 4]}%positive machine (tree_of example_machine) ∧
  ∃ q h', AzureStackHCIMachine_DeepCopyObject (Some machine) example_memory =
            Some (Some (mkIface "AzureStackHCIMachine" q), h') ∧
          apart_from example_memory q (tree_of example_machine) h'.
Proof.
  assert (Hh : holds example_memory {[1; 3; 4]}%positive machine (tree_of example_machine)).
  { apply denoted. vm_compute. reflexivity. }
  split; [exact Hh|]. pose proof deep_copies_of_objects as Hall.
  apply (Forall_lookup_1 _ _ 6 (mkObjectCopier "AzureStackHCIMachine" AzureStackHCIMachine
    AzureStackHCIMachine_DeepCopyObject)) in Hall as [_ Hc];
    [exact (Hc example_machine _ _ _ Hh)|reflexivity].
Defined.
(** The array of the keys is the cell 4; nothing else of the machine is left in the region. *)
Lemma machine_shares_keys_only_witness :
  ∃ h' F x,
    fill_vm_spec_in_memory image data vm machine example_memory = Some (tt, h') ∧
    modifies example_memory (vm.>"Spec") x F h' ∧
    denotes h' (∅ ∪ {[5%positive]} ∪ {[4%positive]} ∪ F)
      (tree_of (MachineController.fill_vm_spec zero_Image "data" example_spec
                  zero_VirtualMachineSpec)) x.
Proof.
  apply (machine_shares_keys_only image data vm machine example_memory zero_Image "data"
    example_spec zero_VirtualMachineSpec {[3%positive]} {[5%positive]} {[1; 3; 4]}%positive
    {[4%positive]} ∅ (GSlice (Some ((4%positive, []), 0, 1)))
    (zero_val AzureStackHCIVirtualMachineSpec)).
  - apply denoted. vm_compute. reflexivity.
  - apply denoted. vm_compute. reflexivity.
  - apply denoted. vm_compute. reflexivity.
  - vm_compute. reflexivity.
  - apply denotesb_denotes. vm_compute. reflexivity.
  - refine (bool_decide_unpack _ _). vm_compute. exact I.
  - vm_compute. reflexivity.
  - apply denotesb_denotes. vm_compute. reflexivity.
  - refine (bool_decide_unpack _ _). vm_compute. exact I.
  - refine (bool_decide_unpack _ _). vm_compute. exact I.
Defined.
End SharingExample.
